(* ===== verification/_CoqProject ===== *)
-Q . S2P
Prelude.v
Heap.v
DeepCopy.v
Api.v
GoStrings.v
ActionsGlob.v
GitHubClient.v
RunnerGroups.v
RunnerPod.v
GracefulStop.v
PodOwner.v
Hash.v
PodBuilder.v
RunnerPodController.v
RunnerController.v
Admission.v
Calendar.v
Schedule.v
Floats.v
Url.v
ClientConfig.v
Metrics.v
Flags.v
Startup.v
RunnerDeployment.v
Scheme.v
RunnerSetController.v
ReplicaSet.v
Autoscaler.v
Cluster.v
Watches.v
Webhook.v
EventScaling.v
Interleaving.v
JobSafety.v
Drain.v
Fleet.v
FakeServer.v
FakeRunners.v
Forwarder.v
Servers.v
ForwarderStart.v
Witnesses.v
SystemWitnesses.v
JobWitnesses.v
DrainWitnesses.v
FleetWitnesses.v
