(* ===== verification/Prelude.v ===== *)
(** * actions-runner-controller: a verification library

    The program is a set of Kubernetes controllers for self-hosted GitHub
    Actions runners.  A RunnerDeployment owns RunnerReplicaSets, one per
    template; a RunnerReplicaSet owns Runners, a RunnerSet owns StatefulSets,
    and each of these owns the pods in which a runner registers with GitHub.  A
    HorizontalRunnerAutoscaler (HRA) sets the replicas of a deployment or set
    from GitHub's queue, from how busy the runners are, from schedules, and from
    the capacity reservations that a webhook server records per delivered
    event.  Removing a runner is a protocol: a request is marked on the pod, the
    runner is unregistered from GitHub, and only then is the pod deleted.

    ** The model

    An operation that talks to its environment is a program of type [prog]
    (this file): a tree that asks one request at a time, the requests being the
    calls to the Kubernetes API server, to GitHub and to the clock listed in
    [Api.req], and that ends in a value, a panic, or out of fuel.  Nothing is
    assumed of an answer beyond its type.  [run] executes a program against a
    concrete server; [always p Q] says that [Q] holds of the result and the log
    of exchanges whatever the answers; [may p out l] says that [p] can end so.
    A theorem stated with [always] therefore covers every failure and every
    interleaving with other writers, since no answer needs to be consistent
    with an earlier one.  Go's iteration order over a map and its unstable sort
    ask the environment for a permutation ([Api.Order]).  A Go error is the
    record [err] of what the program can observe of it, (value, error) pairs are
    [result], nil pointers are [None], a nil dereference is a panic.  Times are
    nanoseconds since Go's zero time and Go's int, int64 and int32 wrap around where
    the code does arithmetic on them ([int64], [int32]).

    - [Prelude]: programs, errors, results, times, machine integers, loops with
      early exit ([rangeM]), stable sorting, the hint database [arc].
    - [Heap], [DeepCopy]: objects in a heap with pointers, slices and maps, and
      src/api/v1alpha1/zz_generated.deepcopy.go on them; the copies of the
      Kubernetes types are the class [KubeTypes].
    - [Api]: src/api/v1alpha1/*_types.go and what the controllers use of the
      Kubernetes objects, the requests and their answers, [onlyReads].
    - [GoStrings], [Calendar], [Floats]: the parts of Go's strings, strconv,
      time and float64 that the code calls, [Calendar] in UTC, [Floats] in
      binary64 with Rocq's specification of floating point.
    - [ActionsGlob]: src/pkg/actionsglob/actionsglob.go.
    - [GitHubClient]: src/github/github.go, with its token cache as a map.
    - [RunnerGroups]: src/simulator.
    - [RunnerPod]: src/controllers/constants.go, utils.go and the functions on
      pods of runner_controller.go and runner_graceful_stop.go.
    - [GracefulStop]: src/controllers/runner_graceful_stop.go.
    - [PodOwner]: src/controllers/runner_pod_owner.go.  The interface [owner] is
      the class [Owner] with its laws [OwnerLaws]; Runner and StatefulSet are
      its instances, and the synchronisation is proved against the laws.
    - [Hash]: src/hash and [ComputeHash]; printing (spew) is a parameter.
    - [PodBuilder]: [newRunnerPod] and [newPod] of
      src/controllers/runner_controller.go, the containers, mounts and volumes
      of a runner pod.
    - [RunnerPodController]: src/controllers/runner_pod_controller.go.
    - [RunnerController]: the reconciler of src/controllers/runner_controller.go
      and [IsRegisterable].
    - [RunnerSetController]: src/controllers/runnerset_controller.go.
    - [Admission]: the validation webhooks of src/api/v1alpha1 and
      src/controllers/pod_runner_token_injector.go; decoding and encoding the
      object under review is the class [PodCodec].
    - [Schedule]: src/controllers/schedule.go; the recurrence library is the
      class [RRule] with what its documentation promises as [RRuleLaws].
    - [RunnerDeployment]: src/controllers/runnerdeployment_controller.go.
    - [Scheme]: src/api/v1alpha1/groupversion_info.go, the init functions that
      register the resources, and the schemes of the programs; client-go's own
      kinds are the class [ClientGoScheme].
    - [ReplicaSet]: src/controllers/runnerreplicaset_controller.go.
    - [Autoscaler]: src/controllers/horizontalrunnerautoscaler_controller.go and
      autoscaling.go.
    - [Webhook]: src/controllers/horizontal_runner_autoscaler_webhook*.go;
      validating and parsing a payload is go-github's, the class [GitHubHooks].
    - [Forwarder]: src/pkg/hookdeliveryforwarder and
      src/pkg/githubwebhookdeliveryforwarder, with requests of their own; the
      checkpoints are instances of the class [Checkpointer], whose law is
      [CheckpointerLaws]; encoding a position is the class [DeliveryCodec].
    - [Url], [Flags]: the parts of Go's net/url and flag (with strconv and
      time.ParseDuration) that the programs call.
    - [ClientConfig]: [NewClient] and [getEnterpriseApiUrl] of
      src/github/github.go; go-github, oauth2 and ghinstallation are the class
      [ClientLibs] with what they document as [ClientLibsLaws].
    - [Metrics]: src/logging, src/github/metrics and src/controllers/metrics; the
      libraries' transports are the class [HTTPLibs].
    - [Startup]: src/main.go and [SetupWithManager] of every controller, as
      programs with requests of their own ([sreq]).
    - [Servers]: src/cmd/githubwebhookserver/main.go; its goroutines, HTTP server
      and signals, which the forwarders' programs share, are the transition
      system [step].
    - [ForwarderStart]: the programs of the two forwarders, the goroutines of a
      MultiForwarder as the transition system [mstep], the readiness handlers.
    - [FakeServer], [FakeRunners]: src/github/fake, with a slice as its backing
      array and length.
    - [Cluster], [Watches], [EventScaling]: no code of their own; theorems on
      several components together, [Cluster] against a server that does what it
      is asked.
    - [Fleet]: that server with an autoscaler and its deployment on top.
    - [Interleaving]: programs that run concurrently in a world they share and
      that others change too; an invariant that every program keeps, given what
      it has learned, holds in every interleaving ([pool_invariant]).
    - [JobSafety]: that world for the controllers, pods with all their versions
      and GitHub's runners; what is relied on is listed at its top.
    - [Drain]: an API server with finalizers, deletion timestamps and garbage
      collection, and a GitHub that removes a runner when asked.
    - [Witnesses], [SystemWitnesses], [JobWitnesses], [DrainWitnesses],
      [FleetWitnesses]: concrete objects, clusters and runs at which the theorems' hypotheses hold.

    ** What is proved

    - What protects a job: a pod that the graceful stop releases satisfied one
      of six conditions, most of which say that its runner is gone
      ([GracefulStop]: tick_deletionSafe lists them, with the refusals of GitHub
      after which it may not be), a runner that is waited for is spared
      (tick_spares_waiting_runner), and owners are created, asked to unregister
      and deleted only for a stated reason, counting the whole pool ([PodOwner]:
      sync_writes_justified).  Hence, with all controllers running concurrently
      and reading stale objects and listings, a pod whose runner GitHub still
      has keeps its finalizer and is not marked as unregistered, under the
      conditions that [JobSafety]: registered_runner_keeps_pod states: the pod
      is the only one of its name and was created unmarked, it was never
      stopped nor put under deletion before its runner's ID was recorded, and
      GitHub did not refuse a removal with 403.  cached_listing_releases_busy_runner
      shows that the recorded ID is needed.
    - No idle runner stays: scaled to zero, a replica set gets rid of its runner,
      the runner's registration and its pod, in any order of the controllers
      ([Drain]: idle_runner_retires).
    - The number of runners is right: scaling up creates exactly what is
      missing, scaling down keeps exactly what is desired, a pool at its size is
      left alone, every pod is counted once, and the "invalid state" panic is
      unreachable ([PodOwner]).
    - A deployment replaces its replica sets only when the new one is ready, and
      the replacement converges; its selector finds its own runners; the replica
      set controller writes only what the synchronisation justifies
      ([RunnerDeployment], [ReplicaSet]).
    - The runner, runner pod and runner set controllers write only for a stated
      reason, in particular a pod loses its finalizer only when the graceful
      stop released it and is created only for a registered runner; runner pods
      are well formed, and the scope written into a pod is the one read back;
      the selector of a stateful set matches its pods ([RunnerController],
      [RunnerPodController], [RunnerSetController], [PodBuilder]).
    - Validation accepts exactly the specifications with one owner, and the
      injector adds a token for the scope of the pod, unless it brings one, and
      nothing else ([Admission]).
    - The autoscaler stays within its bounds and its scale-down delay, computes
      the demand exactly, applies the first active override, and patches the
      target it read and its own status accordingly, and nothing else; the float arithmetic agrees with the rational one on the stated
      range ([Autoscaler], [Schedule]).
    - A delivery patches at most one HRA; until the first of them expires, the
      reservations follow the jobs that are queued and completed, in any order;
      the target found is the one that the labels or triggers select; runner
      groups are visited in precedence order and only when granted ([Webhook],
      [RunnerGroups], [ActionsGlob]).
    - The token cache holds only tokens issued for their key, and a token handed
      out outlives the startup timeout; listings are complete ([GitHubClient]).
    - An edit of one byte of a printed template changes its hash ([Hash]).
    - A poll of the hook forwarder forwards new deliveries only and in order, a
      round updates the checkpoint only after all of its payloads were posted,
      and a checkpoint is found again ([Forwarder]).
    - The controllers work together: a replica set in an empty cluster comes up
      with the runners and pods it asks for, in any order of reconciliations
      ([Cluster]); queued jobs, from their deliveries on, get a runner each, up
      to the maximum ([Fleet]: queued_jobs_get_runners); every controller watches the kinds it creates ([Watches]); an
      event that reserves replicas raises what the autoscaler computes
      ([EventScaling]).
    - The programs start only as configured: the manager runs after every
      controller and webhook is registered, the webhook server checks the secret
      it was given, a client is well formed and carries one kind of credentials
      past transports that change nothing but what [Metrics] states, and flags
      take effect in order ([Startup], [Servers], [ClientConfig], [Metrics],
      [Flags]); every kind a program asks the API server for is in its scheme,
      and the owner references it writes are the ones its index looks for
      ([Scheme]: schemes_complete, controllerReference_indexed).
    - After a signal, or when the worker or the HTTP server ends, the exit of the
      programs is inevitable, for the delivery forwarder by a panic; a
      MultiForwarder loses no error and leaves no goroutine behind ([Servers],
      [ForwarderStart]).
    - A deep copy is the same value and shares nothing with the original, which
      justifies that the other files treat objects as immutable values
      ([DeepCopy]: DeepCopy_independent, DeepCopyObject_interface).
    - The client passes its own tests against the fake server, and what the fake
      removes is gone ([FakeServer], [FakeRunners]).
    - Deviations of the code from what it means to do are theorems too:
      collect_missing_hash_panics, tick_nil_pod_panics,
      unregisterRunner_never_false_nil, Match_panics, Match_incomplete,
      FNVHashStringObjects_last, busy_metric_nil_replicas,
      busy_metric_rounds_down, traverse_error_swallowed,
      addVolumes_without_work, trailing_slash_is_organization,
      newest_first_forwards_one, failed_poll_panics, server_forwards_nothing,
      cached_response_sets_gauge, logged_body_loses_error,
      runnerset_gauge_unseen, exit_may_drop_requests, failed_server_exits_zero,
      delivery_forwarder_panics, shared_hook_config_race, readyz_ok,
      handleRemove_duplicate_panics, newPod_born_marked,
      late_completion_drops_other, cached_listing_releases_busy_runner.

    ** Bounds and fuel

    Only loops over GitHub's pages and the forwarders' endless loops are not
    structural: they take a [fuel] argument, the number of pages they may follow,
    or [rounds], and end [Exhausted] beyond it.  ListRunners_complete and
    demand_metric_exact show that fuel for the number of pages that the server
    has is enough for the full result, poll_forwards_new that the loop over
    deliveries ends with fuel for one page more than the listing has further
    ones; the safety theorems hold for every fuel, [Exhausted] included.

    ** Not modelled

    The end-to-end harness under src/testing and src/test, which runs docker,
    kind and kubectl; the text of log lines other
    than those of src/logging/transport.go, and the events sent to a recorder.
    The controllers are not modelled in the heap of [Heap]: that their writes go
    to copies is what [DeepCopy] makes safe, not something it checks.  Libraries
    are parameters: controller-runtime's manager, go-github's HTTP calls, oauth2,
    ghinstallation, httpcache, zap, the Prometheus registry and encoding/json. *)

From stdpp Require Import base list gmap strings sorting.
From Stdlib Require Import ZArith Lia.

Open Scope Z_scope.

(** ** Errors

    A Go [error] is represented by what the program can observe of it: its
    message, the answers of [kerrors.IsNotFound], [kerrors.IsAlreadyExists],
    [errors.Is(err, &gogithub.RateLimitError{})],
    [errors.Is(err, context.Canceled)] and, when [errors.As] finds a
    [*gogithub.ErrorResponse] in the chain, its HTTP status code. *)
Record err := mkErr {
  err_msg : string;
  err_notfound : bool;
  err_exists : bool;
  err_ratelimit : bool;
  err_canceled : bool;
  err_status : option Z
}.

(** [errors.New] and [fmt.Errorf] without [%w]: nothing but a message. *)
Definition newError (msg : string) : err :=
  {| err_msg := msg; err_notfound := false; err_exists := false;
     err_ratelimit := false; err_canceled := false; err_status := None |}.

(** [fmt.Errorf("...: %w", err)]: [errors.Is] and [errors.As] look through. *)
Definition wrapError (msg : string) (e : err) : err :=
  {| err_msg := msg +:+ err_msg e; err_notfound := err_notfound e;
     err_exists := err_exists e; err_ratelimit := err_ratelimit e;
     err_canceled := err_canceled e; err_status := err_status e |}.

(** The usual Go pair [(T, error)] whose value is not read on error. *)
Inductive result (A : Type) : Type :=
| Val (a : A)
| Err (e : err).
Arguments Val {A} a.
Arguments Err {A} e.

(** ** Time

    [time.Time] is the number of nanoseconds since Go's zero time, so that
    [IsZero] is a comparison with 0; [time.Duration] is nanoseconds. *)
Definition time := Z.
Definition duration := Z.
Definition Second : duration := 1000000000.
Definition Minute : duration := 60 * Second.

(** [(t *metav1.Time) IsZero()]: a nil pointer is zero. *)
Definition IsZero (t : option time) : bool :=
  match t with None => true | Some t => t =? 0 end.

(** [t.Before(u)] and [t.After(u)]. *)
Definition Before (t u : time) : bool := t <? u.
Definition After (t u : time) : bool := u <? t.

(** [time.RFC3339] formatting and parsing: what the rest of the development
    relies on, for the years RFC 3339 can express.  The instance is in
    [Calendar]. *)
Definition maxRFC3339 : time := 3652059 * 86400 * Second.

Class RFC3339 := {
  FormatRFC3339 : time -> string;
  ParseRFC3339 : string -> option time;
  FormatRFC3339_nonempty t : FormatRFC3339 t <> ""%string;
  ParseRFC3339_Format t :
    0 <= t < maxRFC3339 -> ParseRFC3339 (FormatRFC3339 t) = Some (t - t mod Second)
}.

(** ** Machine integers *)

(** Wrap-around of a signed integer of [w] bits. *)
Definition wrapS (w : Z) (z : Z) : Z :=
  (z + 2 ^ (w - 1)) mod 2 ^ w - 2 ^ (w - 1).

Definition int64 (z : Z) : Z := wrapS 64 z.
Definition int32 (z : Z) : Z := wrapS 32 z.

(** ** Effects

    A program asks its environment questions (API calls, the clock, the order
    of a map iteration) and continues with the answers.  [prog] is the tree of
    these exchanges; a Go panic ends it, and so does running out of the fuel
    that bounds an unbounded Go loop. *)
Inductive prog {E : Type} (ans : E -> Type) (A : Type) : Type :=
| Ret (a : A)
| Panic (msg : string)
| Stuck
| Ask (q : E) (k : ans q -> prog ans A).
Arguments Ret {E ans A} a.
Arguments Panic {E ans A} msg.
Arguments Stuck {E ans A}.
Arguments Ask {E ans A} q k.

(** How a run ends. [Exhausted] is the end of the fuel, never of the code. *)
Inductive outcome (A : Type) : Type :=
| Done (a : A)
| Panicked (msg : string)
| Exhausted.
Arguments Done {A} a.
Arguments Panicked {A} msg.
Arguments Exhausted {A}.

Section Prog.
Context {E : Type} {ans : E -> Type}.

Fixpoint bind {A B : Type} (p : prog ans A) (f : A -> prog ans B) : prog ans B :=
  match p with
  | Ret a => f a
  | Panic m => Panic m
  | Stuck => Stuck
  | Ask q k => Ask q (fun a => bind (k a) f)
  end.

Definition ask (q : E) : prog ans (ans q) := Ask q (fun a => Ret a).

(** One exchange with the environment. *)
Record event := Ev { ev_req : E; ev_ans : ans ev_req }.

(** Running against an environment that answers from a state [W]. *)
Fixpoint run {A W : Type} (h : forall q : E, W -> ans q * W) (p : prog ans A) (w : W)
  : outcome A * W * list event :=
  match p with
  | Ret a => (Done a, w, [])
  | Panic m => (Panicked m, w, [])
  | Stuck => (Exhausted, w, [])
  | Ask q k =>
      let (a, w1) := h q w in
      let '(o, w2, l) := run h (k a) w1 in
      (o, w2, Ev q a :: l)
  end.

(** [always p Q]: whatever the environment answers, [p] ends with an outcome
    and a log of exchanges that satisfy [Q]. *)
Fixpoint always {A : Type} (p : prog ans A) (Q : outcome A -> list event -> Prop) : Prop :=
  match p with
  | Ret a => Q (Done a) []
  | Panic m => Q (Panicked m) []
  | Stuck => Q Exhausted []
  | Ask q k => forall a : ans q, always (k a) (fun o l => Q o (Ev q a :: l))
  end.

(** [may p o l]: some environment makes [p] end with [o] after [l]. *)
Fixpoint may {A : Type} (p : prog ans A) (o : outcome A) (l : list event) : Prop :=
  match p with
  | Ret a => o = Done a /\ l = []
  | Panic m => o = Panicked m /\ l = []
  | Stuck => o = Exhausted /\ l = []
  | Ask q k => exists (a : ans q) l', l = Ev q a :: l' /\ may (k a) o l'
  end.

(** The body of a [for range] loop either goes on with a new value of the
    loop's variables, breaks, or returns from the enclosing function. *)
Inductive ctl (S R : Type) : Type :=
| Next (s : S)
| Break (s : S)
| Return (r : R).

End Prog.
Arguments Ev {E ans} ev_req ev_ans.
Arguments ev_req {E ans} e.
Arguments ev_ans {E ans} e.
Arguments event {E} ans.
Arguments Next {S R} s.
Arguments Break {S R} s.
Arguments Return {S R} r.

Declare Scope prog_scope.
Delimit Scope prog_scope with prog.
Notation "x <- m ;; k" := (bind m (fun x => k))
  (at level 100, m at next level, right associativity) : prog_scope.
Notation "'let*' p ':=' m 'in' k" := (bind m (fun x => match x with p => k end))
  (at level 100, p pattern, m at next level, right associativity) : prog_scope.
Notation "m ;;; k" := (bind m (fun _ => k))
  (at level 100, right associativity) : prog_scope.
(** [x, err := m; if err != nil { return err }] *)
Notation "'try' x <- m ;; k" :=
  (bind m (fun r => match r with Err e => Ret (Err e) | Val x => k end))
  (at level 100, x name, m at next level, right associativity) : prog_scope.
Open Scope prog_scope.

Section Loops.
Context {E : Type} {ans : E -> Type}.

(** [for _, x := range xs { body }] over the loop variables [s]. *)
Fixpoint rangeM {X S R : Type} (xs : list X) (s : S)
  (body : X -> S -> prog ans (ctl S R)) : prog ans (S + R) :=
  match xs with
  | [] => Ret (inl s)
  | x :: xs =>
      c <- body x s ;;
      match c with
      | Next s => rangeM xs s body
      | Break s => Ret (inl s)
      | Return r => Ret (inr r)
      end
  end.

End Loops.

(** ** Generic list operations of the Go standard library *)

Definition sumZ (l : list Z) : Z := foldr Z.add 0 l.

Section StableSort.
Context {A : Type} (lt : A -> A -> bool).

Fixpoint insert_stable (x : A) (l : list A) : list A :=
  match l with
  | [] => [x]
  | y :: l => if lt y x then y :: insert_stable x l else x :: y :: l
  end.

(** [sort.SliceStable(l, lt)]: elements that [lt] does not separate keep
    their order. *)
Fixpoint sort_stable (l : list A) : list A :=
  match l with
  | [] => []
  | x :: l => insert_stable x (sort_stable l)
  end.

End StableSort.

(** The order Go picks to iterate over a map, or to leave ties in by an
    unstable sort, is the environment's choice: a list of insertion positions
    turned into a permutation. *)
Fixpoint insert_at {A : Type} (n : nat) (x : A) (l : list A) : list A :=
  match n, l with
  | O, _ => x :: l
  | S n, [] => [x]
  | S n, y :: l => y :: insert_at n x l
  end.

Fixpoint shuffle {A : Type} (ns : list nat) (l : list A) : list A :=
  match l with
  | [] => []
  | x :: l => insert_at (default O (head ns)) x (shuffle (tail ns) l)
  end.

(** * Lemmas *)

Create HintDb arc discriminated.
Create Rewrite HintDb arc_simpl.

Section ProgFacts.
Context {E : Type} {ans : E -> Type}.

Lemma always_mono {A} (p : prog ans A) (Q Q' : outcome A -> list (event ans) -> Prop) :
  (forall o l, Q o l -> Q' o l) -> always p Q -> always p Q'.
Proof.
  revert Q Q'. induction p as [a|m| |q k IH]; simpl; intros Q Q' HQ; auto.
  intros H a. eapply IH; [|apply H]. auto.
Qed.

(** [always] speaks of exactly the runs against every environment. *)
Lemma always_run {A} (p : prog ans A) (Q : outcome A -> list (event ans) -> Prop)
  {W : Type} (h : forall q, W -> ans q * W) (w : W) :
  always p Q -> let '(o, _, l) := run h p w in Q o l.
Proof.
  revert Q w. induction p as [a|m| |q k IH]; simpl; intros Q w H; auto.
  destruct (h q w) as [a w1]. specialize (IH a _ w1 (H a)).
  destruct (run h (k a) w1) as [[o w2] l]. exact IH.
Qed.

Lemma always_may {A} (p : prog ans A) (Q : outcome A -> list (event ans) -> Prop) :
  always p Q <-> forall o l, may p o l -> Q o l.
Proof.
  revert Q. induction p as [a|m| |q k IH]; simpl; intros Q.
  1-3: split; [by intros ? ? ? [-> ->]|auto].
  setoid_rewrite IH. split.
  - intros H o l (a & l' & -> & Hm). eauto.
  - eauto.
Qed.

Lemma always_may_log {A} (p : prog ans A) : always p (fun o l => may p o l).
Proof. by apply always_may. Qed.

Lemma always_bind {A B} (p : prog ans A) (f : A -> prog ans B)
  (Q : outcome B -> list (event ans) -> Prop) :
  always p (fun o l =>
    match o with
    | Done a => always (f a) (fun o' l' => Q o' (l ++ l'))
    | Panicked m => Q (Panicked m) l
    | Exhausted => Q Exhausted l
    end) ->
  always (bind p f) Q.
Proof.
  revert Q. induction p as [a|m| |q k IH]; simpl; intros Q H; auto.
Qed.

Lemma may_bind {A B} (p : prog ans A) (f : A -> prog ans B) a l o l' :
  may p (Done a) l -> may (f a) o l' -> may (bind p f) o (l ++ l').
Proof.
  revert l. induction p as [x|m| |q k IH]; simpl; intros l H Hf; try by destruct H.
  - by destruct H as [[= ->] ->].
  - destruct H as (x & l1 & -> & H). exists x, (l1 ++ l'). eauto.
Qed.

Lemma always_and {A} (p : prog ans A) (Q Q' : outcome A -> list (event ans) -> Prop) :
  always p Q -> always p Q' -> always p (fun o l => Q o l /\ Q' o l).
Proof.
  revert Q Q'. induction p as [a|m| |q k IH]; simpl; intros Q Q' H H'; auto.
Qed.

Lemma always_imp {A} (P : Prop) (p : prog ans A) (Q : outcome A -> list (event ans) -> Prop) :
  (P -> always p Q) -> always p (fun o l => P -> Q o l).
Proof.
  revert Q. induction p as [a|m| |q k IH]; simpl; intros Q H; auto.
Qed.

Lemma always_true {A} (p : prog ans A) (Q : outcome A -> list (event ans) -> Prop) :
  (forall o l, Q o l) -> always p Q.
Proof.
  revert Q. induction p as [a|m| |q k IH]; simpl; intros Q H; auto.
Qed.

(** The loop rule: an invariant relating the log so far to the loop
    variables, kept by every iteration that goes on. *)
Lemma always_rangeM {X S R} (xs : list X) (s : S) (body : X -> S -> prog ans (ctl S R))
  (I : list X -> S -> list (event ans) -> Prop)
  (Q : outcome (S + R) -> list (event ans) -> Prop) l0 :
  I xs s l0 ->
  (forall x xs s l, I (x :: xs) s l ->
     always (body x s) (fun o l' =>
       match o with
       | Done (Next s') => I xs s' (l ++ l')
       | Done (Break s') => Q (Done (inl s')) (l ++ l')
       | Done (Return r) => Q (Done (inr r)) (l ++ l')
       | Panicked m => Q (Panicked m) (l ++ l')
       | Exhausted => Q Exhausted (l ++ l')
       end)) ->
  (forall s l, I [] s l -> Q (Done (inl s)) l) ->
  always (rangeM xs s body) (fun o l => Q o (l0 ++ l)).
Proof.
  intros HI Hbody Hend. revert s l0 HI. induction xs as [|x xs IH]; intros s l0 HI; simpl.
  - rewrite app_nil_r. auto.
  - apply always_bind. eapply always_mono; [|apply Hbody, HI].
    intros [[s'|s'|r]|m|] l; simpl; rewrite ?app_nil_r; auto.
    intros HI'. eapply always_mono; [|apply (IH _ _ HI')].
    intros o l'. by rewrite app_assoc.
Qed.

Lemma run_bind {W B C} (h : forall q, W -> ans q * W)
  (p : prog ans B) (f : B -> prog ans C) w b w' l :
  run h p w = (Done b, w', l) ->
  run h (bind p f) w = let '(o, w'', l') := run h (f b) w' in (o, w'', l ++ l').
Proof.
  revert w w' l. induction p as [x|m| |q k IH]; simpl; intros w w' l H.
  - injection H as -> -> <-. by destruct (run h (f b) w') as [[??]?].
  - done.
  - done.
  - destruct (h q w) as [a w1]. destruct (run h (k a) w1) as [[o w2] l1] eqn:Hr.
    injection H as -> -> <-. rewrite (IH _ _ _ _ Hr).
    by destruct (run h (f b) w') as [[??]?].
Qed.

End ProgFacts.

Lemma sumZ_app (l k : list Z) : sumZ (l ++ k) = sumZ l + sumZ k.
Proof. induction l; simpl in *; lia. Qed.

Lemma sumZ_nonneg (l : list Z) : Forall (fun z => 0 <= z) l -> 0 <= sumZ l.
Proof. induction 1; simpl in *; lia. Qed.

Global Instance sumZ_Permutation : Proper (Permutation ==> eq) sumZ.
Proof. intros l k H. induction H; simpl in *; lia. Qed.

Section StableSortFacts.
Context {A : Type} (lt : A -> A -> bool).

Lemma insert_stable_Permutation x l : insert_stable lt x l ≡ₚ x :: l.
Proof.
  induction l as [|y l IH]; simpl; [done|].
  destruct (lt y x); [|done]. rewrite IH. constructor.
Qed.

Lemma sort_stable_Permutation l : sort_stable lt l ≡ₚ l.
Proof.
  induction l as [|x l IH]; simpl; [done|].
  by rewrite insert_stable_Permutation, IH.
Qed.

Definition notAfter (x y : A) : Prop := lt y x = false.

Hypothesis lt_asym : forall x y, lt x y = true -> lt y x = false.
Hypothesis lt_cotrans : forall x y z, lt x y = false -> lt y z = false -> lt x z = false.

Lemma insert_stable_sorted x l :
  StronglySorted notAfter l -> StronglySorted notAfter (insert_stable lt x l).
Proof.
  unfold notAfter. induction 1 as [|y l Hs IH Hy]; simpl; [repeat constructor|].
  destruct (lt y x) eqn:Hyx.
  - constructor; [done|]. rewrite insert_stable_Permutation. constructor; auto.
  - constructor; [by constructor|]. constructor; [done|].
    eapply Forall_impl; [exact Hy|]. simpl. intros z Hz. eauto.
Qed.

Lemma sort_stable_sorted l : StronglySorted notAfter (sort_stable lt l).
Proof. induction l; simpl; [constructor|]. by apply insert_stable_sorted. Qed.

End StableSortFacts.

Lemma insert_at_Permutation {A} n (x : A) l : insert_at n x l ≡ₚ x :: l.
Proof.
  revert l. induction n as [|n IH]; intros [|y l]; simpl; try done.
  rewrite IH. constructor.
Qed.

Lemma shuffle_Permutation {A} ns (l : list A) : shuffle ns l ≡ₚ l.
Proof.
  revert ns. induction l as [|x l IH]; intros ns; simpl; [done|].
  by rewrite insert_at_Permutation, IH.
Qed.

(** An injective image of a list without duplicates. *)
Lemma NoDup_map_elem {A B} (f : A -> B) l x y :
  NoDup (map f l) -> x ∈ l -> y ∈ l -> f x = f y -> x = y.
Proof.
  induction l as [|z l IH]; simpl; [set_solver|]. intros [Hz Hnd]%NoDup_cons Hx Hy Hf.
  apply elem_of_cons in Hx as [->|Hx], Hy as [->|Hy]; auto; exfalso; apply Hz; apply list_elem_of_fmap; eauto.
Qed.

Lemma wrapS_range w z : 0 < w -> - 2 ^ (w - 1) <= wrapS w z < 2 ^ (w - 1).
Proof.
  intros Hw. unfold wrapS.
  assert (H2 : 2 ^ w = 2 * 2 ^ (w - 1)).
  { rewrite <- Z.pow_succ_r by lia. f_equal. lia. }
  pose proof (Z.mod_pos_bound (z + 2 ^ (w - 1)) (2 ^ w) ltac:(lia)). lia.
Qed.

Lemma wrapS_small w z : 0 < w -> - 2 ^ (w - 1) <= z < 2 ^ (w - 1) -> wrapS w z = z.
Proof.
  intros Hw Hz. unfold wrapS.
  assert (H2 : 2 ^ w = 2 * 2 ^ (w - 1)).
  { rewrite <- Z.pow_succ_r by lia. f_equal. lia. }
  rewrite Z.mod_small; lia.
Qed.

#[export] Hint Resolve always_true sumZ_nonneg : arc.
#[export] Hint Rewrite @app_nil_r sumZ_app @sort_stable_Permutation @shuffle_Permutation : arc_simpl.

(** ** Tactics *)

(** Case analysis on the first stuck [match] or [if] of the goal. *)
Ltac split_match :=
  match goal with
  | |- context [match ?x with _ => _ end] => destruct x eqn:?
  end.

(** Step through a program under [always]. *)
Ltac go_step :=
  first
    [ progress simpl
    | apply always_bind
    | intro
    | split_match ].
