(* ===== verification/Heap.v ===== *)
(** * Objects in memory

    The rest of the library treats the objects of the API as immutable values.
    Here they are what they are in Go: structs with pointers, slices and maps
    into a heap, of which two objects may share parts.  A memory value
    represents a [tree], the immutable value; [repr h n v t] says that it does
    so with locations from [n] on.  Copying functions are built from the
    statements that generated code uses, and [deep] is what they promise. *)

From stdpp Require Import base list gmap strings.
From Stdlib Require Import Lia.

Open Scope string_scope.

(** ** Values, heaps and trees *)

Inductive basic := BInt (z : Z) | BString (s : string) | BBool (b : bool).

(** A slice is a backing array, an offset and a length. *)
Inductive mval :=
| VBasic (b : basic)
| VPtr (p : option nat)
| VSlice (p : option (nat * nat * nat))
| VMap (p : option nat)
| VStruct (fields : list (string * mval)).

Inductive cell :=
| CVal (v : mval)
| CArray (vs : list mval)
| CMap (m : gmap string mval).

(** A location is a position in the heap; allocation appends. *)
Definition heap : Type := list cell.

Definition alloc (c : cell) (h : heap) : nat * heap := (length h, (h ++ [c])%list).

Inductive tree :=
| TBasic (b : basic)
| TPtr (o : option tree)
| TSlice (o : option (list tree))
| TMap (o : option (gmap string tree))
| TStruct (fields : list (string * tree)).

Definition elements (off len : nat) (vs : list mval) : list mval := take len (drop off vs).

Inductive repr (h : heap) (n : nat) : mval -> tree -> Prop :=
| r_basic b : repr h n (VBasic b) (TBasic b)
| r_nil : repr h n (VPtr None) (TPtr None)
| r_ptr l v t : n <= l -> h !! l = Some (CVal v) -> repr h n v t -> repr h n (VPtr (Some l)) (TPtr (Some t))
| r_nil_slice : repr h n (VSlice None) (TSlice None)
| r_slice l off len vs ts :
    n <= l -> h !! l = Some (CArray vs) -> length (elements off len vs) = len -> length ts = len ->
    (forall i v t, elements off len vs !! i = Some v -> ts !! i = Some t -> repr h n v t) ->
    repr h n (VSlice (Some (l, off, len))) (TSlice (Some ts))
| r_nil_map : repr h n (VMap None) (TMap None)
| r_map l m tm :
    n <= l -> h !! l = Some (CMap m) -> dom m = dom tm ->
    (forall k v t, m !! k = Some v -> tm !! k = Some t -> repr h n v t) ->
    repr h n (VMap (Some l)) (TMap (Some tm))
| r_struct fs ts :
    map fst fs = map fst ts -> NoDup (map fst ts) ->
    (forall f v t, (f, v) ∈ fs -> (f, t) ∈ ts -> repr h n v t) ->
    repr h n (VStruct fs) (TStruct ts).

Create HintDb heap.
#[export] Hint Constructors repr : heap.

Lemma repr_prefix h h' n v t : repr h n v t -> h `prefix_of` h' -> repr h' n v t.
Proof. intros H Hp. induction H; eauto using prefix_lookup_Some with heap. Qed.

Lemma repr_weaken h n m v t : m <= n -> repr h n v t -> repr h m v t.
Proof. intros Hm H. induction H; eauto with heap lia. Qed.

(** Writes below the locations of a value do not change what it represents. *)
Lemma repr_insert h n l c v t : repr h n v t -> l < n -> repr (<[l := c]> h) n v t.
Proof.
  intros H Hl. assert (forall l', n <= l' -> (<[l := c]> h) !! l' = h !! l') as Hn.
  { intros l' Hl'. apply list_lookup_insert_ne. lia. }
  induction H; eauto with heap; econstructor; eauto; by rewrite Hn.
Qed.

(** A value represents one tree. *)
Lemma repr_unique h n m v t t' : repr h n v t -> repr h m v t' -> t = t'.
Proof.
  intros H. revert t'. induction H as [b| |l v t _ Hl _ IH| |l off len vs ts _ Hl He Hts _ IH| |l q tm _ Hl Hd _ IH|fs ts Hn Hnd _ IH];
    intros t' H'; inversion H' as [| |? v' ? _ Hl'| |? ? ? vs' ts' _ Hl' _ Hts' Hv'| |? q' tm' _ Hl' Hd' Hv'|? ts' Hn' Hnd' Hv'];
    simplify_eq; try done.
  - do 2 f_equal. by apply IH.
  - do 2 f_equal. eapply list_eq_same_length; [reflexivity|by symmetry|]. intros i x y Hi Hx Hy.
    destruct (lookup_lt_is_Some_2 (elements off (length ts) vs) i) as [v Hv]; [lia|]. eauto.
  - do 2 f_equal. apply map_eq. intros k. destruct (q !! k) as [v|] eqn:Hk.
    + destruct (tm !! k) as [x|] eqn:Hx; [|by apply not_elem_of_dom in Hx; apply elem_of_dom_2 in Hk; set_solver].
      destruct (tm' !! k) as [y|] eqn:Hy; [|by apply not_elem_of_dom in Hy; apply elem_of_dom_2 in Hk; set_solver].
      f_equal. eauto.
    + apply not_elem_of_dom in Hk. rewrite !(proj1 (not_elem_of_dom _ _)) by set_solver. done.
  - f_equal. apply list_eq_same_length with (length fs).
    { by rewrite <- (length_map fst ts'), <- Hn', length_map. }
    { by rewrite <- (length_map fst ts), <- Hn, length_map. }
    intros i [f x] [g y] Hi Hx Hy. destruct (lookup_lt_is_Some_2 fs i Hi) as [[e v] Hv].
    assert (f = e /\ g = e) as [-> ->].
    { assert (forall us : list (string * tree), map fst fs = map fst us -> forall a b, us !! i = Some (a, b) -> a = e) as Hname.
      { intros us Hus a b Ha. assert (Some a = Some e) as [= ->]; [|done].
        change (Some a) with (fst <$> Some (a, b)). rewrite <- Ha, <- list_lookup_fmap.
        change (fst <$> us) with (map fst us). rewrite <- Hus. change (map fst fs) with (fst <$> fs).
        by rewrite list_lookup_fmap, Hv. }
      split; [by eapply (Hname ts)|by eapply (Hname ts')]. }
    f_equal. eapply IH; [by eapply list_elem_of_lookup_2..|]. eapply Hv'; by eapply list_elem_of_lookup_2.
Qed.

(** ** The statements of a copying function *)

(** What a copying function leaves in [out], from the value of [in]; [None] is
    a value of another type or a dangling location. *)
Definition copier : Type := mval -> heap -> option (mval * heap).

(** [*out = *in] *)
Definition assign : copier := fun v h => Some (v, h).

(** [*out = new(T)] and then the copy of what [in] points to, if it is not nil.
    The cell is made when its content is known; nothing reads it before. *)
Definition newPtr (c : copier) : copier := fun v h =>
  match v with
  | VPtr None => Some (VPtr None, h)
  | VPtr (Some l) =>
      match h !! l with
      | Some (CVal x) =>
          match c x h with
          | Some (x', h1) => let (l', h2) := alloc (CVal x') h1 in Some (VPtr (Some l'), h2)
          | None => None
          end
      | _ => None
      end
  | _ => None
  end.

(** [for i := range *in] *)
Fixpoint copyAll (c : copier) (vs : list mval) (h : heap) : option (list mval * heap) :=
  match vs with
  | [] => Some ([], h)
  | v :: vs =>
      match c v h with
      | Some (v', h1) =>
          match copyAll c vs h1 with
          | Some (vs', h2) => Some (v' :: vs', h2)
          | None => None
          end
      | None => None
      end
  end.

(** [*out = make([]T, len( *in))] and the copies of the elements. *)
Definition makeSlice (c : copier) : copier := fun v h =>
  match v with
  | VSlice None => Some (VSlice None, h)
  | VSlice (Some (l, off, len)) =>
      match h !! l with
      | Some (CArray vs) =>
          match copyAll c (elements off len vs) h with
          | Some (vs', h1) => let (l', h2) := alloc (CArray vs') h1 in Some (VSlice (Some (l', 0, length vs')), h2)
          | None => None
          end
      | _ => None
      end
  | _ => None
  end.

(** [*out = make(map[string]T)] and [( *out)[key] = val] for every key. *)
Definition makeMap : copier := fun v h =>
  match v with
  | VMap None => Some (VMap None, h)
  | VMap (Some l) =>
      match h !! l with
      | Some (CMap m) => let (l', h1) := alloc (CMap m) h in Some (VMap (Some l'), h1)
      | _ => None
      end
  | _ => None
  end.

Fixpoint field {A : Type} (f : string) (fs : list (string * A)) : option A :=
  match fs with
  | [] => None
  | (g, a) :: fs => if decide (f = g) then Some a else field f fs
  end.

Definition setField (f : string) (v : mval) (fs : list (string * mval)) : list (string * mval) :=
  map (fun p => if decide (f = p.1) then (f, v) else p) fs.

Fixpoint copyFields (cs : list (string * copier)) (ins outs : list (string * mval)) (h : heap)
  : option (list (string * mval) * heap) :=
  match cs with
  | [] => Some (outs, h)
  | (f, c) :: cs =>
      match field f ins with
      | Some v =>
          match c v h with
          | Some (v', h1) => copyFields cs ins (setField f v' outs) h1
          | None => None
          end
      | None => None
      end
  end.

(** [*out = *in], and then field by field. *)
Definition structCopy (cs : list (string * copier)) : copier := fun v h =>
  match v with
  | VStruct fs =>
      match copyFields cs fs fs h with
      | Some (fs', h') => Some (VStruct fs', h')
      | None => None
      end
  | _ => None
  end.

(** ** Types *)

(** A type is the trees that its values represent. *)
Definition typ : Type := tree -> Prop.

Definition tBasic : typ := fun t => match t with TBasic _ => True | _ => False end.
Definition tPtr (T : typ) : typ := fun t => match t with TPtr o => from_option T True o | _ => False end.
Definition tSlice (T : typ) : typ := fun t => match t with TSlice o => from_option (Forall T) True o | _ => False end.
Definition tMap (T : typ) : typ := fun t =>
  match t with TMap o => from_option (map_Forall (fun _ => T)) True o | _ => False end.
Definition tStruct (fs : list (string * typ)) : typ := fun t =>
  match t with TStruct ts => Forall2 (fun f p => f.1 = p.1 /\ f.2 p.2) fs ts | _ => False end.

(** Values of the type hold no reference. *)
Definition refFree (T : typ) : Prop := forall h n m v t, repr h n v t -> T t -> repr h m v t.

(** The copy represents the same tree, by locations that are all new, and
    nothing that was there is changed. *)
Definition deep (T : typ) (c : copier) : Prop := forall h v t,
  repr h 0 v t -> T t ->
  exists v' h', c v h = Some (v', h') /\ h `prefix_of` h' /\ repr h' (length h) v' t.

(** ** What the statements promise *)

Lemma refFree_basic : refFree tBasic.
Proof. intros h n m v t H Ht. destruct H; simpl in *; try done. constructor. Qed.

Lemma tStruct_field fs ts f t :
  Forall2 (fun (x : string * typ) (p : string * tree) => x.1 = p.1 /\ x.2 p.2) fs ts -> (f, t) ∈ ts ->
  exists T, (f, T) ∈ fs /\ T t.
Proof.
  intros H Hin. induction H as [|[g T] [g' t'] fs ts [Hg HT] _ IH]; [by apply elem_of_nil in Hin|]. simpl in *. subst g'.
  apply elem_of_cons in Hin as [[= -> ->]|Hin]; [exists T; split; [left|done]|].
  destruct (IH Hin) as (T' & HT' & Ht). exists T'. split; [by right|done].
Qed.

Lemma refFree_struct fs : Forall (fun f => refFree f.2) fs -> refFree (tStruct fs).
Proof.
  intros Hf h n m v t H Ht. destruct H as [| | | | | | |vs ts Hn Hd Hv]; simpl in Ht; try done.
  constructor; [done..|]. intros f v t Hin Hin'. destruct (tStruct_field fs ts f t Ht Hin') as (T & HT & HTt).
  rewrite Forall_forall in Hf. by apply (Hf _ HT h n m v t); [eapply Hv|].
Qed.

Lemma assign_deep T : refFree T -> deep T assign.
Proof. intros HT h v t H Ht. exists v, h. split_and!; [done..|]. by eapply HT. Qed.

Lemma alloc_prefix c h0 (h : heap) : h0 `prefix_of` h -> h0 `prefix_of` (h ++ [c])%list.
Proof. intros H. by apply prefix_app_r. Qed.

Lemma lookup_alloc c (h : heap) : (h ++ [c])%list !! length h = Some c.
Proof. rewrite lookup_app_r, Nat.sub_diag by lia. done. Qed.

#[local] Hint Resolve prefix_length alloc_prefix : heap.

Lemma newPtr_deep T c : deep T c -> deep (tPtr T) (newPtr c).
Proof.
  intros Hc h v t H Ht. destruct H as [|l|l v t _ Hl Hv| | | | |]; simpl in Ht; try done.
  - do 2 eexists. split_and!; [reflexivity|done|constructor].
  - destruct (Hc h v t Hv Ht) as (v' & h1 & Hrun & Hp & Hr). simpl. rewrite Hl, Hrun. do 2 eexists.
    split_and!; [reflexivity|by apply alloc_prefix|].
    apply r_ptr with v'; [by apply prefix_length|apply lookup_alloc|]. by eapply repr_prefix; [|apply prefix_app_r].
Qed.

Lemma copyAll_deep T c vs ts h0 h :
  deep T c -> length vs = length ts -> h0 `prefix_of` h ->
  (forall i v t, vs !! i = Some v -> ts !! i = Some t -> repr h0 0 v t) -> Forall T ts ->
  exists vs' h', copyAll c vs h = Some (vs', h') /\ h `prefix_of` h' /\ length vs' = length ts /\
    forall i v t, vs' !! i = Some v -> ts !! i = Some t -> repr h' (length h0) v t.
Proof.
  intros Hc. revert ts h. induction vs as [|v vs IH]; intros [|t ts] h Hlen Hp Hv Hts; try done.
  { exists [], h. by split_and!. }
  apply Forall_cons in Hts as [Ht Hts]. assert (repr h 0 v t) as Hvt by (eapply repr_prefix; [by apply (Hv 0)|done]).
  destruct (Hc h v t Hvt Ht) as (v' & h1 & Hrun & Hp1 & Hr).
  destruct (IH ts h1) as (vs' & h2 & Hrun2 & Hp2 & Hl2 & Hr2); [by injection Hlen|by etrans|intros i; apply (Hv (S i))|done|].
  exists (v' :: vs'), h2. simpl. rewrite Hrun, Hrun2. split_and!; [done|by etrans|simpl; congruence|].
  intros [|i] x y Hx Hy; simpl in *; simplify_eq; [|by eapply Hr2].
  eapply repr_prefix; [|done]. eapply repr_weaken; [|done]. by apply prefix_length.
Qed.

Lemma makeSlice_deep T c : deep T c -> deep (tSlice T) (makeSlice c).
Proof.
  intros Hc h v t H Ht. destruct H as [| | | |l off len vs ts _ Hl Hlen Hts Hv| | |]; simpl in Ht; try done.
  - do 2 eexists. split_and!; [reflexivity|done|constructor].
  - destruct (copyAll_deep T c (elements off len vs) ts h h) as (vs' & h1 & Hrun & Hp & Hl' & Hr); [done|congruence|done..|].
    simpl. rewrite Hl, Hrun. do 2 eexists. split_and!; [reflexivity|by apply alloc_prefix|].
    assert (elements 0 (length vs') vs' = vs') as He by (unfold elements; by rewrite drop_0, firstn_all).
    apply r_slice with vs'; [by apply prefix_length|apply lookup_alloc|by rewrite He|done|]. rewrite He.
    intros i v t Hi Hi'. eapply repr_prefix; [by eapply Hr|by apply prefix_app_r].
Qed.

Lemma makeMap_deep T : refFree T -> deep (tMap T) makeMap.
Proof.
  intros HT h v t H Ht. destruct H as [| | | | | |l m tm _ Hl Hd Hv|]; simpl in Ht; try done.
  - do 2 eexists. split_and!; [reflexivity|done|constructor].
  - simpl. rewrite Hl. do 2 eexists. split_and!; [reflexivity|by apply alloc_prefix|].
    apply r_map with m; [done|apply lookup_alloc|done|]. intros k v t Hk Hk'.
    eapply repr_prefix; [|by apply prefix_app_r]. eapply HT; [by eapply Hv|]. by eapply Ht.
Qed.

(** *** Structs *)

Lemma field_in {A} f (fs : list (string * A)) a : field f fs = Some a -> (f, a) ∈ fs.
Proof.
  induction fs as [|[g b] fs IH]; [done|]. simpl. case_decide as He; [intros [= ->]; subst; left|].
  intros H. right. by apply IH.
Qed.

Lemma field_is_Some {A} f (fs : list (string * A)) : f ∈ map fst fs -> is_Some (field f fs).
Proof.
  induction fs as [|[g b] fs IH]; simpl; [by intros H%elem_of_nil|]. case_decide as He; [by eexists|].
  intros [->|H]%elem_of_cons; [done|]. by apply IH.
Qed.

Lemma field_unique {A} f (fs : list (string * A)) a : NoDup (map fst fs) -> (f, a) ∈ fs -> field f fs = Some a.
Proof.
  induction fs as [|[g b] fs IH]; simpl; [by intros _ H%elem_of_nil|]. intros [Hg Hnd]%NoDup_cons [[= -> ->]|H]%elem_of_cons.
  - by rewrite decide_True.
  - rewrite decide_False; [by apply IH|]. intros ->. apply Hg. by apply (list_elem_of_fmap_2 fst _ (g, a)).
Qed.

Lemma setField_names f v fs : map fst (setField f v fs) = map fst fs.
Proof. unfold setField. rewrite map_map. apply map_ext. intros [g x]. simpl. by case_decide; subst. Qed.

Lemma setField_in f v fs g x : (g, x) ∈ setField f v fs -> (g = f /\ x = v) \/ (g <> f /\ (g, x) ∈ fs).
Proof.
  unfold setField. intros ([g' x'] & Heq & Hin)%list_elem_of_fmap. simpl in Heq. case_decide; simplify_eq; auto.
Qed.

(** The fields that are still to be copied are those of [cs]. *)
Lemma copyFields_deep cs ins ts h0 : forall outs h,
  h0 `prefix_of` h -> map fst ins = map fst ts -> map fst outs = map fst ts -> NoDup (map fst ts) ->
  (forall f v t, (f, v) ∈ ins -> (f, t) ∈ ts -> repr h0 0 v t) ->
  (forall f c, (f, c) ∈ cs -> exists T t, (f, t) ∈ ts /\ deep T c /\ T t) ->
  (forall f v t, (f, v) ∈ outs -> (f, t) ∈ ts -> f ∈ map fst cs \/ repr h (length h0) v t) ->
  exists outs' h', copyFields cs ins outs h = Some (outs', h') /\ h `prefix_of` h' /\ map fst outs' = map fst ts /\
    forall f v t, (f, v) ∈ outs' -> (f, t) ∈ ts -> repr h' (length h0) v t.
Proof.
  induction cs as [|[f c] cs IH]; intros outs h Hp Hins Houts Hnd Hin Hcs Hinv.
  { exists outs, h. split_and!; [done..|]. intros f v t Hv Ht. destruct (Hinv f v t Hv Ht) as [H|H]; [by apply elem_of_nil in H|done]. }
  destruct (Hcs f c) as (T & t & Ht & Hc & HTt); [left|]. simpl.
  destruct (field_is_Some f ins) as [v Hv].
  { rewrite Hins. by apply (list_elem_of_fmap_2 fst _ (f, t)). }
  rewrite Hv. destruct (Hc h v t) as (v' & h1 & Hrun & Hp1 & Hr); [|done|].
  { eapply repr_prefix; [|done]. eapply Hin; [by apply field_in|done]. }
  rewrite Hrun. destruct (IH (setField f v' outs) h1) as (outs' & h2 & Hrun2 & Hp2 & Hn2 & Hr2).
  - by etrans.
  - done.
  - by rewrite setField_names.
  - done.
  - done.
  - intros g d Hgd. apply Hcs. by right.
  - intros g x s [[-> ->]|[Hne Hx]]%setField_in Hs.
    + right. assert (s = t) as ->.
      { apply (field_unique _ _ _ Hnd) in Hs. apply (field_unique _ _ _ Hnd) in Ht. congruence. }
      eapply repr_weaken; [by apply prefix_length|done].
    + destruct (Hinv g x s Hx Hs) as [[->|Hg]%elem_of_cons|Hg]; [done|by left|]. right. by eapply repr_prefix.
  - exists outs', h2. split_and!; [done|by etrans|done..].
Qed.

(** A function for a struct type is deep when it copies the fields that may
    hold references, deeply, and it suffices to assign the others. *)
Lemma structCopy_deep fs cs :
  NoDup (map fst fs) ->
  Forall (fun f => f ∈ map fst fs) (map fst cs) ->
  Forall (fun x => match field x.1 cs with Some c => deep x.2 c | None => refFree x.2 end) fs ->
  NoDup (map fst cs) ->
  deep (tStruct fs) (structCopy cs).
Proof.
  intros Hnd Hsub Hall Hcs h v t H Ht. destruct H as [| | | | | | |vs ts Hn Hd Hv]; simpl in Ht; try done.
  rewrite Forall_forall in Hall. rewrite Forall_forall in Hsub.
  assert (map fst fs = map fst ts) as Hfs.
  { clear -Ht. induction Ht as [|[f T] [g t] fs ts [Hg _] _ IH]; [done|]. simpl in *. congruence. }
  destruct (copyFields_deep cs vs ts h vs h) as (outs & h' & Hrun & Hp & Hn' & Hr); [done..| | |].
  - intros f c Hc. destruct (field_is_Some f ts) as [t Hft].
    { rewrite <- Hfs. apply Hsub. by apply (list_elem_of_fmap_2 fst _ (f, c)). }
    apply field_in in Hft. destruct (tStruct_field fs ts f t Ht Hft) as (T & HT & HTt).
    exists T, t. split_and!; [done| |done]. specialize (Hall _ HT). simpl in Hall.
    by rewrite (field_unique _ _ _ Hcs Hc) in Hall.
  - intros f v t Hfv Hft. destruct (tStruct_field fs ts f t Ht Hft) as (T & HT & HTt).
    specialize (Hall _ HT). simpl in Hall. destruct (field f cs) as [c|] eqn:Hc.
    + left. apply field_in in Hc. by apply (list_elem_of_fmap_2 fst _ (f, c)).
    + right. by eapply Hall; [eapply Hv|].
  - simpl. rewrite Hrun. do 2 eexists. split_and!; [reflexivity|done|]. by constructor.
Qed.

(** ** Independence *)

(** After a deep copy neither of the two objects sees what is written through
    the other: the original lies below the old size of the heap, the copy
    above. *)
Lemma deep_independent T c h v t :
  deep T c -> repr h 0 v t -> T t ->
  exists v' h', c v h = Some (v', h') /\ repr h' 0 v t /\ repr h' (length h) v' t /\
    (forall l x, length h <= l -> repr (<[l := x]> h') 0 v t) /\
    (forall l x, l < length h -> repr (<[l := x]> h') (length h) v' t).
Proof.
  intros Hc Hv Ht. destruct (Hc h v t Hv Ht) as (v' & h' & Hrun & Hp & Hr).
  exists v', h'. split_and!; [done|by eapply repr_prefix|done| |by intros; apply repr_insert].
  intros l x Hl. eapply repr_prefix; [done|]. destruct Hp as [k ->].
  exists (<[l - length h := x]> k). by apply insert_app_r_alt.
Qed.
