(* ===== verification/DeepCopy.v ===== *)
(** * Deep copies (src/api/v1alpha1/zz_generated.deepcopy.go)

    The types of the API group as structs in memory and their generated
    [DeepCopyInto], statement by statement.  Every one of them is [deep]: the
    copy is the same value and shares nothing with the original, which is why
    the rest of the library may treat objects as immutable values. *)

From stdpp Require Import base list gmap strings.
From Stdlib Require Import Lia.
From S2P Require Import Heap.

Open Scope string_scope.

(** ** Types of Kubernetes *)

Inductive kubeType :=
| KTypeMeta | KObjectMeta | KListMeta | KTime | KDuration | KLabelSelector | KQuantity | KStatefulSetSpec
| KResourceRequirements | KVolumeMount | KVolume | KEnvVar | KEnvFromSource | KContainer | KEphemeralContainer
| KPodSecurityContext | KLocalObjectReference | KAffinity | KToleration | KHostAlias | KTopologySpreadConstraint
| KPodDNSConfig.

(** Their values and their own [DeepCopyInto]. *)
Class KubeTypes := {
  kubeValue : kubeType -> typ;
  kubeCopy : kubeType -> copier
}.

(** These copy the receiver; three types have no fields but strings and
    numbers. *)
Class KubeTypesLaws {K : KubeTypes} := {
  kube_deep k : deep (kubeValue k) (kubeCopy k);
  TypeMeta_refFree : refFree (kubeValue KTypeMeta);
  Duration_refFree : refFree (kubeValue KDuration);
  LocalObjectReference_refFree : refFree (kubeValue KLocalObjectReference)
}.

Create HintDb deep.

Section DeepCopy.
Context {K : KubeTypes}.

(** ** The structs *)

Definition CacheEntryT : typ := tStruct [
  ("Key", tBasic); ("Value", tBasic); ("ExpirationTime", kubeValue KTime)].

Definition CapacityReservationT : typ := tStruct [
  ("Name", tBasic); ("ExpirationTime", kubeValue KTime); ("Replicas", tBasic); ("EffectiveTime", kubeValue KTime)].

Definition CheckRunSpecT : typ := tStruct [
  ("Types", tSlice tBasic); ("Status", tBasic); ("Names", tSlice tBasic); ("Repositories", tSlice tBasic)].

Definition PullRequestSpecT : typ := tStruct [
  ("Types", tSlice tBasic); ("Branches", tSlice tBasic)].

Definition PushSpecT : typ := tStruct [].

Definition WorkflowJobSpecT : typ := tStruct [].

Definition GitHubEventScaleUpTriggerSpecT : typ := tStruct [
  ("CheckRun", tPtr CheckRunSpecT); ("PullRequest", tPtr PullRequestSpecT); ("Push", tPtr PushSpecT);
  ("WorkflowJob", tPtr WorkflowJobSpecT)].

Definition ScaleTargetRefT : typ := tStruct [
  ("Kind", tBasic); ("Name", tBasic)].

Definition MetricSpecT : typ := tStruct [
  ("Type", tBasic); ("RepositoryNames", tSlice tBasic); ("ScaleUpThreshold", tBasic); ("ScaleDownThreshold", tBasic);
  ("ScaleUpFactor", tBasic); ("ScaleDownFactor", tBasic); ("ScaleUpAdjustment", tBasic);
  ("ScaleDownAdjustment", tBasic)].

Definition ScaleUpTriggerT : typ := tStruct [
  ("GitHubEvent", tPtr GitHubEventScaleUpTriggerSpecT); ("Amount", tBasic); ("Duration", kubeValue KDuration)].

Definition RecurrenceRuleT : typ := tStruct [
  ("Frequency", tBasic); ("UntilTime", kubeValue KTime)].

Definition ScheduledOverrideT : typ := tStruct [
  ("StartTime", kubeValue KTime); ("EndTime", kubeValue KTime); ("MinReplicas", tPtr tBasic);
  ("RecurrenceRule", RecurrenceRuleT)].

Definition HorizontalRunnerAutoscalerSpecT : typ := tStruct [
  ("ScaleTargetRef", ScaleTargetRefT); ("MinReplicas", tPtr tBasic); ("MaxReplicas", tPtr tBasic);
  ("ScaleDownDelaySecondsAfterScaleUp", tPtr tBasic); ("Metrics", tSlice MetricSpecT);
  ("ScaleUpTriggers", tSlice ScaleUpTriggerT); ("CapacityReservations", tSlice CapacityReservationT);
  ("ScheduledOverrides", tSlice ScheduledOverrideT)].

Definition HorizontalRunnerAutoscalerStatusT : typ := tStruct [
  ("ObservedGeneration", tBasic); ("DesiredReplicas", tPtr tBasic);
  ("LastSuccessfulScaleOutTime", tPtr (kubeValue KTime)); ("CacheEntries", tSlice CacheEntryT);
  ("ScheduledOverridesSummary", tPtr tBasic)].

Definition HorizontalRunnerAutoscalerT : typ := tStruct [
  ("TypeMeta", kubeValue KTypeMeta); ("ObjectMeta", kubeValue KObjectMeta);
  ("Spec", HorizontalRunnerAutoscalerSpecT); ("Status", HorizontalRunnerAutoscalerStatusT)].

Definition HorizontalRunnerAutoscalerListT : typ := tStruct [
  ("TypeMeta", kubeValue KTypeMeta); ("ListMeta", kubeValue KListMeta); ("Items", tSlice HorizontalRunnerAutoscalerT)].

Definition RunnerConfigT : typ := tStruct [
  ("Enterprise", tBasic); ("Organization", tBasic); ("Repository", tBasic); ("Labels", tSlice tBasic);
  ("Group", tBasic); ("Ephemeral", tPtr tBasic); ("Image", tBasic); ("WorkDir", tBasic);
  ("DockerdWithinRunnerContainer", tPtr tBasic); ("DockerEnabled", tPtr tBasic); ("DockerMTU", tPtr tBasic);
  ("DockerRegistryMirror", tPtr tBasic); ("VolumeSizeLimit", tPtr (kubeValue KQuantity));
  ("VolumeStorageMedium", tPtr tBasic)].

Definition RunnerPodSpecT : typ := tStruct [
  ("DockerdContainerResources", kubeValue KResourceRequirements);
  ("DockerVolumeMounts", tSlice (kubeValue KVolumeMount)); ("DockerEnv", tSlice (kubeValue KEnvVar));
  ("Containers", tSlice (kubeValue KContainer)); ("ImagePullPolicy", tBasic); ("Env", tSlice (kubeValue KEnvVar));
  ("EnvFrom", tSlice (kubeValue KEnvFromSource)); ("Resources", kubeValue KResourceRequirements);
  ("VolumeMounts", tSlice (kubeValue KVolumeMount)); ("Volumes", tSlice (kubeValue KVolume));
  ("EnableServiceLinks", tPtr tBasic); ("InitContainers", tSlice (kubeValue KContainer));
  ("NodeSelector", tMap tBasic); ("ServiceAccountName", tBasic); ("AutomountServiceAccountToken", tPtr tBasic);
  ("SidecarContainers", tSlice (kubeValue KContainer)); ("SecurityContext", tPtr (kubeValue KPodSecurityContext));
  ("ImagePullSecrets", tSlice (kubeValue KLocalObjectReference)); ("Affinity", tPtr (kubeValue KAffinity));
  ("Tolerations", tSlice (kubeValue KToleration)); ("TerminationGracePeriodSeconds", tPtr tBasic);
  ("EphemeralContainers", tSlice (kubeValue KEphemeralContainer)); ("HostAliases", tSlice (kubeValue KHostAlias));
  ("TopologySpreadConstraints", tSlice (kubeValue KTopologySpreadConstraint)); ("RuntimeClassName", tPtr tBasic);
  ("DnsConfig", tPtr (kubeValue KPodDNSConfig))].

Definition RunnerSpecT : typ := tStruct [
  ("RunnerConfig", RunnerConfigT); ("RunnerPodSpec", RunnerPodSpecT)].

Definition RunnerStatusRegistrationT : typ := tStruct [
  ("Enterprise", tBasic); ("Organization", tBasic); ("Repository", tBasic); ("Labels", tSlice tBasic);
  ("Token", tBasic); ("ExpiresAt", kubeValue KTime)].

Definition RunnerStatusT : typ := tStruct [
  ("Ready", tBasic); ("Registration", RunnerStatusRegistrationT); ("Phase", tBasic); ("Reason", tBasic);
  ("Message", tBasic); ("LastRegistrationCheckTime", tPtr (kubeValue KTime))].

Definition RunnerT : typ := tStruct [
  ("TypeMeta", kubeValue KTypeMeta); ("ObjectMeta", kubeValue KObjectMeta); ("Spec", RunnerSpecT);
  ("Status", RunnerStatusT)].

Definition RunnerTemplateT : typ := tStruct [
  ("ObjectMeta", kubeValue KObjectMeta); ("Spec", RunnerSpecT)].

Definition RunnerDeploymentSpecT : typ := tStruct [
  ("Replicas", tPtr tBasic); ("EffectiveTime", tPtr (kubeValue KTime));
  ("Selector", tPtr (kubeValue KLabelSelector)); ("Template", RunnerTemplateT)].

Definition RunnerDeploymentStatusT : typ := tStruct [
  ("AvailableReplicas", tPtr tBasic); ("ReadyReplicas", tPtr tBasic); ("UpdatedReplicas", tPtr tBasic);
  ("DesiredReplicas", tPtr tBasic); ("Replicas", tPtr tBasic)].

Definition RunnerDeploymentT : typ := tStruct [
  ("TypeMeta", kubeValue KTypeMeta); ("ObjectMeta", kubeValue KObjectMeta); ("Spec", RunnerDeploymentSpecT);
  ("Status", RunnerDeploymentStatusT)].

Definition RunnerDeploymentListT : typ := tStruct [
  ("TypeMeta", kubeValue KTypeMeta); ("ListMeta", kubeValue KListMeta); ("Items", tSlice RunnerDeploymentT)].

Definition RunnerListT : typ := tStruct [
  ("TypeMeta", kubeValue KTypeMeta); ("ListMeta", kubeValue KListMeta); ("Items", tSlice RunnerT)].

Definition RunnerReplicaSetSpecT : typ := tStruct [
  ("Replicas", tPtr tBasic); ("EffectiveTime", tPtr (kubeValue KTime));
  ("Selector", tPtr (kubeValue KLabelSelector)); ("Template", RunnerTemplateT)].

Definition RunnerReplicaSetStatusT : typ := tStruct [
  ("Replicas", tPtr tBasic); ("ReadyReplicas", tPtr tBasic); ("AvailableReplicas", tPtr tBasic)].

Definition RunnerReplicaSetT : typ := tStruct [
  ("TypeMeta", kubeValue KTypeMeta); ("ObjectMeta", kubeValue KObjectMeta); ("Spec", RunnerReplicaSetSpecT);
  ("Status", RunnerReplicaSetStatusT)].

Definition RunnerReplicaSetListT : typ := tStruct [
  ("TypeMeta", kubeValue KTypeMeta); ("ListMeta", kubeValue KListMeta); ("Items", tSlice RunnerReplicaSetT)].

Definition RunnerSetSpecT : typ := tStruct [
  ("RunnerConfig", RunnerConfigT); ("EffectiveTime", tPtr (kubeValue KTime));
  ("StatefulSetSpec", kubeValue KStatefulSetSpec)].

Definition RunnerSetStatusT : typ := tStruct [
  ("CurrentReplicas", tPtr tBasic); ("ReadyReplicas", tPtr tBasic); ("UpdatedReplicas", tPtr tBasic);
  ("DesiredReplicas", tPtr tBasic); ("Replicas", tPtr tBasic)].

Definition RunnerSetT : typ := tStruct [
  ("TypeMeta", kubeValue KTypeMeta); ("ObjectMeta", kubeValue KObjectMeta); ("Spec", RunnerSetSpecT);
  ("Status", RunnerSetStatusT)].

Definition RunnerSetListT : typ := tStruct [
  ("TypeMeta", kubeValue KTypeMeta); ("ListMeta", kubeValue KListMeta); ("Items", tSlice RunnerSetT)].

(** ** Their copies *)

Definition CacheEntry_DeepCopyInto : copier := structCopy [
  ("ExpirationTime", kubeCopy KTime)].

Definition CapacityReservation_DeepCopyInto : copier := structCopy [
  ("ExpirationTime", kubeCopy KTime); ("EffectiveTime", kubeCopy KTime)].

Definition CheckRunSpec_DeepCopyInto : copier := structCopy [
  ("Types", makeSlice assign); ("Names", makeSlice assign); ("Repositories", makeSlice assign)].

Definition PullRequestSpec_DeepCopyInto : copier := structCopy [
  ("Types", makeSlice assign); ("Branches", makeSlice assign)].

Definition PushSpec_DeepCopyInto : copier := structCopy [].

Definition WorkflowJobSpec_DeepCopyInto : copier := structCopy [].

Definition GitHubEventScaleUpTriggerSpec_DeepCopyInto : copier := structCopy [
  ("CheckRun", newPtr CheckRunSpec_DeepCopyInto); ("PullRequest", newPtr PullRequestSpec_DeepCopyInto);
  ("Push", newPtr assign); ("WorkflowJob", newPtr assign)].

Definition ScaleTargetRef_DeepCopyInto : copier := structCopy [].

Definition MetricSpec_DeepCopyInto : copier := structCopy [
  ("RepositoryNames", makeSlice assign)].

Definition ScaleUpTrigger_DeepCopyInto : copier := structCopy [
  ("GitHubEvent", newPtr GitHubEventScaleUpTriggerSpec_DeepCopyInto); ("Duration", assign)].

Definition RecurrenceRule_DeepCopyInto : copier := structCopy [
  ("UntilTime", kubeCopy KTime)].

Definition ScheduledOverride_DeepCopyInto : copier := structCopy [
  ("StartTime", kubeCopy KTime); ("EndTime", kubeCopy KTime); ("MinReplicas", newPtr assign);
  ("RecurrenceRule", RecurrenceRule_DeepCopyInto)].

Definition HorizontalRunnerAutoscalerSpec_DeepCopyInto : copier := structCopy [
  ("ScaleTargetRef", assign); ("MinReplicas", newPtr assign); ("MaxReplicas", newPtr assign);
  ("ScaleDownDelaySecondsAfterScaleUp", newPtr assign); ("Metrics", makeSlice MetricSpec_DeepCopyInto);
  ("ScaleUpTriggers", makeSlice ScaleUpTrigger_DeepCopyInto);
  ("CapacityReservations", makeSlice CapacityReservation_DeepCopyInto);
  ("ScheduledOverrides", makeSlice ScheduledOverride_DeepCopyInto)].

Definition HorizontalRunnerAutoscalerStatus_DeepCopyInto : copier := structCopy [
  ("DesiredReplicas", newPtr assign); ("LastSuccessfulScaleOutTime", newPtr (kubeCopy KTime));
  ("CacheEntries", makeSlice CacheEntry_DeepCopyInto); ("ScheduledOverridesSummary", newPtr assign)].

Definition HorizontalRunnerAutoscaler_DeepCopyInto : copier := structCopy [
  ("TypeMeta", assign); ("ObjectMeta", kubeCopy KObjectMeta); ("Spec", HorizontalRunnerAutoscalerSpec_DeepCopyInto);
  ("Status", HorizontalRunnerAutoscalerStatus_DeepCopyInto)].

Definition HorizontalRunnerAutoscalerList_DeepCopyInto : copier := structCopy [
  ("TypeMeta", assign); ("ListMeta", kubeCopy KListMeta); ("Items", makeSlice HorizontalRunnerAutoscaler_DeepCopyInto)].

Definition RunnerConfig_DeepCopyInto : copier := structCopy [
  ("Labels", makeSlice assign); ("Ephemeral", newPtr assign); ("DockerdWithinRunnerContainer", newPtr assign);
  ("DockerEnabled", newPtr assign); ("DockerMTU", newPtr assign); ("DockerRegistryMirror", newPtr assign);
  ("VolumeSizeLimit", newPtr (kubeCopy KQuantity)); ("VolumeStorageMedium", newPtr assign)].

Definition RunnerPodSpec_DeepCopyInto : copier := structCopy [
  ("DockerdContainerResources", kubeCopy KResourceRequirements);
  ("DockerVolumeMounts", makeSlice (kubeCopy KVolumeMount)); ("DockerEnv", makeSlice (kubeCopy KEnvVar));
  ("Containers", makeSlice (kubeCopy KContainer)); ("Env", makeSlice (kubeCopy KEnvVar));
  ("EnvFrom", makeSlice (kubeCopy KEnvFromSource)); ("Resources", kubeCopy KResourceRequirements);
  ("VolumeMounts", makeSlice (kubeCopy KVolumeMount)); ("Volumes", makeSlice (kubeCopy KVolume));
  ("EnableServiceLinks", newPtr assign); ("InitContainers", makeSlice (kubeCopy KContainer));
  ("NodeSelector", makeMap); ("AutomountServiceAccountToken", newPtr assign);
  ("SidecarContainers", makeSlice (kubeCopy KContainer)); ("SecurityContext", newPtr (kubeCopy KPodSecurityContext));
  ("ImagePullSecrets", makeSlice assign); ("Affinity", newPtr (kubeCopy KAffinity));
  ("Tolerations", makeSlice (kubeCopy KToleration)); ("TerminationGracePeriodSeconds", newPtr assign);
  ("EphemeralContainers", makeSlice (kubeCopy KEphemeralContainer));
  ("HostAliases", makeSlice (kubeCopy KHostAlias));
  ("TopologySpreadConstraints", makeSlice (kubeCopy KTopologySpreadConstraint)); ("RuntimeClassName", newPtr assign);
  ("DnsConfig", newPtr (kubeCopy KPodDNSConfig))].

Definition RunnerSpec_DeepCopyInto : copier := structCopy [
  ("RunnerConfig", RunnerConfig_DeepCopyInto); ("RunnerPodSpec", RunnerPodSpec_DeepCopyInto)].

Definition RunnerStatusRegistration_DeepCopyInto : copier := structCopy [
  ("Labels", makeSlice assign); ("ExpiresAt", kubeCopy KTime)].

Definition RunnerStatus_DeepCopyInto : copier := structCopy [
  ("Registration", RunnerStatusRegistration_DeepCopyInto); ("LastRegistrationCheckTime", newPtr (kubeCopy KTime))].

Definition Runner_DeepCopyInto : copier := structCopy [
  ("TypeMeta", assign); ("ObjectMeta", kubeCopy KObjectMeta); ("Spec", RunnerSpec_DeepCopyInto);
  ("Status", RunnerStatus_DeepCopyInto)].

Definition RunnerTemplate_DeepCopyInto : copier := structCopy [
  ("ObjectMeta", kubeCopy KObjectMeta); ("Spec", RunnerSpec_DeepCopyInto)].

Definition RunnerDeploymentSpec_DeepCopyInto : copier := structCopy [
  ("Replicas", newPtr assign); ("EffectiveTime", newPtr (kubeCopy KTime));
  ("Selector", newPtr (kubeCopy KLabelSelector)); ("Template", RunnerTemplate_DeepCopyInto)].

Definition RunnerDeploymentStatus_DeepCopyInto : copier := structCopy [
  ("AvailableReplicas", newPtr assign); ("ReadyReplicas", newPtr assign); ("UpdatedReplicas", newPtr assign);
  ("DesiredReplicas", newPtr assign); ("Replicas", newPtr assign)].

Definition RunnerDeployment_DeepCopyInto : copier := structCopy [
  ("TypeMeta", assign); ("ObjectMeta", kubeCopy KObjectMeta); ("Spec", RunnerDeploymentSpec_DeepCopyInto);
  ("Status", RunnerDeploymentStatus_DeepCopyInto)].

Definition RunnerDeploymentList_DeepCopyInto : copier := structCopy [
  ("TypeMeta", assign); ("ListMeta", kubeCopy KListMeta); ("Items", makeSlice RunnerDeployment_DeepCopyInto)].

Definition RunnerList_DeepCopyInto : copier := structCopy [
  ("TypeMeta", assign); ("ListMeta", kubeCopy KListMeta); ("Items", makeSlice Runner_DeepCopyInto)].

Definition RunnerReplicaSetSpec_DeepCopyInto : copier := structCopy [
  ("Replicas", newPtr assign); ("EffectiveTime", newPtr (kubeCopy KTime));
  ("Selector", newPtr (kubeCopy KLabelSelector)); ("Template", RunnerTemplate_DeepCopyInto)].

Definition RunnerReplicaSetStatus_DeepCopyInto : copier := structCopy [
  ("Replicas", newPtr assign); ("ReadyReplicas", newPtr assign); ("AvailableReplicas", newPtr assign)].

Definition RunnerReplicaSet_DeepCopyInto : copier := structCopy [
  ("TypeMeta", assign); ("ObjectMeta", kubeCopy KObjectMeta); ("Spec", RunnerReplicaSetSpec_DeepCopyInto);
  ("Status", RunnerReplicaSetStatus_DeepCopyInto)].

Definition RunnerReplicaSetList_DeepCopyInto : copier := structCopy [
  ("TypeMeta", assign); ("ListMeta", kubeCopy KListMeta); ("Items", makeSlice RunnerReplicaSet_DeepCopyInto)].

Definition RunnerSetSpec_DeepCopyInto : copier := structCopy [
  ("RunnerConfig", RunnerConfig_DeepCopyInto); ("EffectiveTime", newPtr (kubeCopy KTime));
  ("StatefulSetSpec", kubeCopy KStatefulSetSpec)].

Definition RunnerSetStatus_DeepCopyInto : copier := structCopy [
  ("CurrentReplicas", newPtr assign); ("ReadyReplicas", newPtr assign); ("UpdatedReplicas", newPtr assign);
  ("DesiredReplicas", newPtr assign); ("Replicas", newPtr assign)].

Definition RunnerSet_DeepCopyInto : copier := structCopy [
  ("TypeMeta", assign); ("ObjectMeta", kubeCopy KObjectMeta); ("Spec", RunnerSetSpec_DeepCopyInto);
  ("Status", RunnerSetStatus_DeepCopyInto)].

Definition RunnerSetList_DeepCopyInto : copier := structCopy [
  ("TypeMeta", assign); ("ListMeta", kubeCopy KListMeta); ("Items", makeSlice RunnerSet_DeepCopyInto)].

(** [DeepCopy]: nil for nil, else a new object. *)
Definition DeepCopy (DeepCopyInto : copier) : copier := newPtr DeepCopyInto.

Definition CacheEntry_DeepCopy : copier := DeepCopy CacheEntry_DeepCopyInto.
Definition CapacityReservation_DeepCopy : copier := DeepCopy CapacityReservation_DeepCopyInto.
Definition CheckRunSpec_DeepCopy : copier := DeepCopy CheckRunSpec_DeepCopyInto.
Definition PullRequestSpec_DeepCopy : copier := DeepCopy PullRequestSpec_DeepCopyInto.
Definition PushSpec_DeepCopy : copier := DeepCopy PushSpec_DeepCopyInto.
Definition WorkflowJobSpec_DeepCopy : copier := DeepCopy WorkflowJobSpec_DeepCopyInto.
Definition GitHubEventScaleUpTriggerSpec_DeepCopy : copier := DeepCopy GitHubEventScaleUpTriggerSpec_DeepCopyInto.
Definition ScaleTargetRef_DeepCopy : copier := DeepCopy ScaleTargetRef_DeepCopyInto.
Definition MetricSpec_DeepCopy : copier := DeepCopy MetricSpec_DeepCopyInto.
Definition ScaleUpTrigger_DeepCopy : copier := DeepCopy ScaleUpTrigger_DeepCopyInto.
Definition RecurrenceRule_DeepCopy : copier := DeepCopy RecurrenceRule_DeepCopyInto.
Definition ScheduledOverride_DeepCopy : copier := DeepCopy ScheduledOverride_DeepCopyInto.
Definition HorizontalRunnerAutoscalerSpec_DeepCopy : copier := DeepCopy HorizontalRunnerAutoscalerSpec_DeepCopyInto.
Definition HorizontalRunnerAutoscalerStatus_DeepCopy : copier := DeepCopy HorizontalRunnerAutoscalerStatus_DeepCopyInto.
Definition HorizontalRunnerAutoscaler_DeepCopy : copier := DeepCopy HorizontalRunnerAutoscaler_DeepCopyInto.
Definition HorizontalRunnerAutoscalerList_DeepCopy : copier := DeepCopy HorizontalRunnerAutoscalerList_DeepCopyInto.
Definition RunnerConfig_DeepCopy : copier := DeepCopy RunnerConfig_DeepCopyInto.
Definition RunnerPodSpec_DeepCopy : copier := DeepCopy RunnerPodSpec_DeepCopyInto.
Definition RunnerSpec_DeepCopy : copier := DeepCopy RunnerSpec_DeepCopyInto.
Definition RunnerStatusRegistration_DeepCopy : copier := DeepCopy RunnerStatusRegistration_DeepCopyInto.
Definition RunnerStatus_DeepCopy : copier := DeepCopy RunnerStatus_DeepCopyInto.
Definition Runner_DeepCopy : copier := DeepCopy Runner_DeepCopyInto.
Definition RunnerTemplate_DeepCopy : copier := DeepCopy RunnerTemplate_DeepCopyInto.
Definition RunnerDeploymentSpec_DeepCopy : copier := DeepCopy RunnerDeploymentSpec_DeepCopyInto.
Definition RunnerDeploymentStatus_DeepCopy : copier := DeepCopy RunnerDeploymentStatus_DeepCopyInto.
Definition RunnerDeployment_DeepCopy : copier := DeepCopy RunnerDeployment_DeepCopyInto.
Definition RunnerDeploymentList_DeepCopy : copier := DeepCopy RunnerDeploymentList_DeepCopyInto.
Definition RunnerList_DeepCopy : copier := DeepCopy RunnerList_DeepCopyInto.
Definition RunnerReplicaSetSpec_DeepCopy : copier := DeepCopy RunnerReplicaSetSpec_DeepCopyInto.
Definition RunnerReplicaSetStatus_DeepCopy : copier := DeepCopy RunnerReplicaSetStatus_DeepCopyInto.
Definition RunnerReplicaSet_DeepCopy : copier := DeepCopy RunnerReplicaSet_DeepCopyInto.
Definition RunnerReplicaSetList_DeepCopy : copier := DeepCopy RunnerReplicaSetList_DeepCopyInto.
Definition RunnerSetSpec_DeepCopy : copier := DeepCopy RunnerSetSpec_DeepCopyInto.
Definition RunnerSetStatus_DeepCopy : copier := DeepCopy RunnerSetStatus_DeepCopyInto.
Definition RunnerSet_DeepCopy : copier := DeepCopy RunnerSet_DeepCopyInto.
Definition RunnerSetList_DeepCopy : copier := DeepCopy RunnerSetList_DeepCopyInto.

(** [DeepCopyObject]: the copy as a [runtime.Object].  A nil pointer in an
    interface is not the nil interface, hence the test in the code. *)
Definition objectCopier : Type := mval -> heap -> option (option mval * heap).

Definition DeepCopyObject (copy : copier) : objectCopier := fun v h =>
  match copy v h with
  | Some (VPtr None, h') => Some (None, h')
  | Some (c, h') => Some (Some c, h')
  | None => None
  end.

Definition HorizontalRunnerAutoscaler_DeepCopyObject : objectCopier := DeepCopyObject HorizontalRunnerAutoscaler_DeepCopy.
Definition HorizontalRunnerAutoscalerList_DeepCopyObject : objectCopier := DeepCopyObject HorizontalRunnerAutoscalerList_DeepCopy.
Definition Runner_DeepCopyObject : objectCopier := DeepCopyObject Runner_DeepCopy.
Definition RunnerDeployment_DeepCopyObject : objectCopier := DeepCopyObject RunnerDeployment_DeepCopy.
Definition RunnerDeploymentList_DeepCopyObject : objectCopier := DeepCopyObject RunnerDeploymentList_DeepCopy.
Definition RunnerList_DeepCopyObject : objectCopier := DeepCopyObject RunnerList_DeepCopy.
Definition RunnerReplicaSet_DeepCopyObject : objectCopier := DeepCopyObject RunnerReplicaSet_DeepCopy.
Definition RunnerReplicaSetList_DeepCopyObject : objectCopier := DeepCopyObject RunnerReplicaSetList_DeepCopy.
Definition RunnerSet_DeepCopyObject : objectCopier := DeepCopyObject RunnerSet_DeepCopy.
Definition RunnerSetList_DeepCopyObject : objectCopier := DeepCopyObject RunnerSetList_DeepCopy.

(** The types and their functions. *)
Definition apiTypes : list (typ * copier) := [
  (CacheEntryT, CacheEntry_DeepCopy);
  (CapacityReservationT, CapacityReservation_DeepCopy);
  (CheckRunSpecT, CheckRunSpec_DeepCopy);
  (PullRequestSpecT, PullRequestSpec_DeepCopy);
  (PushSpecT, PushSpec_DeepCopy);
  (WorkflowJobSpecT, WorkflowJobSpec_DeepCopy);
  (GitHubEventScaleUpTriggerSpecT, GitHubEventScaleUpTriggerSpec_DeepCopy);
  (ScaleTargetRefT, ScaleTargetRef_DeepCopy);
  (MetricSpecT, MetricSpec_DeepCopy);
  (ScaleUpTriggerT, ScaleUpTrigger_DeepCopy);
  (RecurrenceRuleT, RecurrenceRule_DeepCopy);
  (ScheduledOverrideT, ScheduledOverride_DeepCopy);
  (HorizontalRunnerAutoscalerSpecT, HorizontalRunnerAutoscalerSpec_DeepCopy);
  (HorizontalRunnerAutoscalerStatusT, HorizontalRunnerAutoscalerStatus_DeepCopy);
  (HorizontalRunnerAutoscalerT, HorizontalRunnerAutoscaler_DeepCopy);
  (HorizontalRunnerAutoscalerListT, HorizontalRunnerAutoscalerList_DeepCopy);
  (RunnerConfigT, RunnerConfig_DeepCopy);
  (RunnerPodSpecT, RunnerPodSpec_DeepCopy);
  (RunnerSpecT, RunnerSpec_DeepCopy);
  (RunnerStatusRegistrationT, RunnerStatusRegistration_DeepCopy);
  (RunnerStatusT, RunnerStatus_DeepCopy);
  (RunnerT, Runner_DeepCopy);
  (RunnerTemplateT, RunnerTemplate_DeepCopy);
  (RunnerDeploymentSpecT, RunnerDeploymentSpec_DeepCopy);
  (RunnerDeploymentStatusT, RunnerDeploymentStatus_DeepCopy);
  (RunnerDeploymentT, RunnerDeployment_DeepCopy);
  (RunnerDeploymentListT, RunnerDeploymentList_DeepCopy);
  (RunnerListT, RunnerList_DeepCopy);
  (RunnerReplicaSetSpecT, RunnerReplicaSetSpec_DeepCopy);
  (RunnerReplicaSetStatusT, RunnerReplicaSetStatus_DeepCopy);
  (RunnerReplicaSetT, RunnerReplicaSet_DeepCopy);
  (RunnerReplicaSetListT, RunnerReplicaSetList_DeepCopy);
  (RunnerSetSpecT, RunnerSetSpec_DeepCopy);
  (RunnerSetStatusT, RunnerSetStatus_DeepCopy);
  (RunnerSetT, RunnerSet_DeepCopy);
  (RunnerSetListT, RunnerSetList_DeepCopy)
].

(** The kinds and lists of the API group. *)
Definition apiObjects : list (typ * copier * objectCopier) := [
  (HorizontalRunnerAutoscalerT, HorizontalRunnerAutoscaler_DeepCopy, HorizontalRunnerAutoscaler_DeepCopyObject);
  (HorizontalRunnerAutoscalerListT, HorizontalRunnerAutoscalerList_DeepCopy, HorizontalRunnerAutoscalerList_DeepCopyObject);
  (RunnerT, Runner_DeepCopy, Runner_DeepCopyObject);
  (RunnerDeploymentT, RunnerDeployment_DeepCopy, RunnerDeployment_DeepCopyObject);
  (RunnerDeploymentListT, RunnerDeploymentList_DeepCopy, RunnerDeploymentList_DeepCopyObject);
  (RunnerListT, RunnerList_DeepCopy, RunnerList_DeepCopyObject);
  (RunnerReplicaSetT, RunnerReplicaSet_DeepCopy, RunnerReplicaSet_DeepCopyObject);
  (RunnerReplicaSetListT, RunnerReplicaSetList_DeepCopy, RunnerReplicaSetList_DeepCopyObject);
  (RunnerSetT, RunnerSet_DeepCopy, RunnerSet_DeepCopyObject);
  (RunnerSetListT, RunnerSetList_DeepCopy, RunnerSetList_DeepCopyObject)
].

(** * Properties *)

Context {KL : KubeTypesLaws}.

#[local] Hint Resolve refFree_basic refFree_struct assign_deep newPtr_deep makeSlice_deep makeMap_deep kube_deep
  TypeMeta_refFree Duration_refFree LocalObjectReference_refFree : deep.

(** A function for a struct, when the copies of the fields are known to be
    deep. *)
Ltac deep_struct :=
  apply structCopy_deep;
  [ apply (bool_decide_unpack _); vm_compute; exact I
  | apply (bool_decide_unpack _); vm_compute; exact I
  | repeat (apply Forall_cons; split); [.. | apply Forall_nil]; simpl; eauto with deep
  | apply (bool_decide_unpack _); vm_compute; exact I ].

Lemma CacheEntry_deep : deep CacheEntryT CacheEntry_DeepCopyInto.
Proof. deep_struct. Qed.
#[local] Hint Resolve CacheEntry_deep : deep.

Lemma CapacityReservation_deep : deep CapacityReservationT CapacityReservation_DeepCopyInto.
Proof. deep_struct. Qed.
#[local] Hint Resolve CapacityReservation_deep : deep.

Lemma CheckRunSpec_deep : deep CheckRunSpecT CheckRunSpec_DeepCopyInto.
Proof. deep_struct. Qed.
#[local] Hint Resolve CheckRunSpec_deep : deep.

Lemma PullRequestSpec_deep : deep PullRequestSpecT PullRequestSpec_DeepCopyInto.
Proof. deep_struct. Qed.
#[local] Hint Resolve PullRequestSpec_deep : deep.

Lemma PushSpec_deep : deep PushSpecT PushSpec_DeepCopyInto.
Proof. deep_struct. Qed.
#[local] Hint Resolve PushSpec_deep : deep.

Lemma WorkflowJobSpec_deep : deep WorkflowJobSpecT WorkflowJobSpec_DeepCopyInto.
Proof. deep_struct. Qed.
#[local] Hint Resolve WorkflowJobSpec_deep : deep.

Lemma GitHubEventScaleUpTriggerSpec_deep : deep GitHubEventScaleUpTriggerSpecT GitHubEventScaleUpTriggerSpec_DeepCopyInto.
Proof. deep_struct. Qed.
#[local] Hint Resolve GitHubEventScaleUpTriggerSpec_deep : deep.

Lemma ScaleTargetRef_deep : deep ScaleTargetRefT ScaleTargetRef_DeepCopyInto.
Proof. deep_struct. Qed.
#[local] Hint Resolve ScaleTargetRef_deep : deep.

Lemma MetricSpec_deep : deep MetricSpecT MetricSpec_DeepCopyInto.
Proof. deep_struct. Qed.
#[local] Hint Resolve MetricSpec_deep : deep.

Lemma ScaleUpTrigger_deep : deep ScaleUpTriggerT ScaleUpTrigger_DeepCopyInto.
Proof. deep_struct. Qed.
#[local] Hint Resolve ScaleUpTrigger_deep : deep.

Lemma RecurrenceRule_deep : deep RecurrenceRuleT RecurrenceRule_DeepCopyInto.
Proof. deep_struct. Qed.
#[local] Hint Resolve RecurrenceRule_deep : deep.

Lemma ScheduledOverride_deep : deep ScheduledOverrideT ScheduledOverride_DeepCopyInto.
Proof. deep_struct. Qed.
#[local] Hint Resolve ScheduledOverride_deep : deep.

Lemma HorizontalRunnerAutoscalerSpec_deep : deep HorizontalRunnerAutoscalerSpecT HorizontalRunnerAutoscalerSpec_DeepCopyInto.
Proof. deep_struct. Qed.
#[local] Hint Resolve HorizontalRunnerAutoscalerSpec_deep : deep.

Lemma HorizontalRunnerAutoscalerStatus_deep : deep HorizontalRunnerAutoscalerStatusT HorizontalRunnerAutoscalerStatus_DeepCopyInto.
Proof. deep_struct. Qed.
#[local] Hint Resolve HorizontalRunnerAutoscalerStatus_deep : deep.

Lemma HorizontalRunnerAutoscaler_deep : deep HorizontalRunnerAutoscalerT HorizontalRunnerAutoscaler_DeepCopyInto.
Proof. deep_struct. Qed.
#[local] Hint Resolve HorizontalRunnerAutoscaler_deep : deep.

Lemma HorizontalRunnerAutoscalerList_deep : deep HorizontalRunnerAutoscalerListT HorizontalRunnerAutoscalerList_DeepCopyInto.
Proof. deep_struct. Qed.
#[local] Hint Resolve HorizontalRunnerAutoscalerList_deep : deep.

Lemma RunnerConfig_deep : deep RunnerConfigT RunnerConfig_DeepCopyInto.
Proof. deep_struct. Qed.
#[local] Hint Resolve RunnerConfig_deep : deep.

Lemma RunnerPodSpec_deep : deep RunnerPodSpecT RunnerPodSpec_DeepCopyInto.
Proof. deep_struct. Qed.
#[local] Hint Resolve RunnerPodSpec_deep : deep.

Lemma RunnerSpec_deep : deep RunnerSpecT RunnerSpec_DeepCopyInto.
Proof. deep_struct. Qed.
#[local] Hint Resolve RunnerSpec_deep : deep.

Lemma RunnerStatusRegistration_deep : deep RunnerStatusRegistrationT RunnerStatusRegistration_DeepCopyInto.
Proof. deep_struct. Qed.
#[local] Hint Resolve RunnerStatusRegistration_deep : deep.

Lemma RunnerStatus_deep : deep RunnerStatusT RunnerStatus_DeepCopyInto.
Proof. deep_struct. Qed.
#[local] Hint Resolve RunnerStatus_deep : deep.

Lemma Runner_deep : deep RunnerT Runner_DeepCopyInto.
Proof. deep_struct. Qed.
#[local] Hint Resolve Runner_deep : deep.

Lemma RunnerTemplate_deep : deep RunnerTemplateT RunnerTemplate_DeepCopyInto.
Proof. deep_struct. Qed.
#[local] Hint Resolve RunnerTemplate_deep : deep.

Lemma RunnerDeploymentSpec_deep : deep RunnerDeploymentSpecT RunnerDeploymentSpec_DeepCopyInto.
Proof. deep_struct. Qed.
#[local] Hint Resolve RunnerDeploymentSpec_deep : deep.

Lemma RunnerDeploymentStatus_deep : deep RunnerDeploymentStatusT RunnerDeploymentStatus_DeepCopyInto.
Proof. deep_struct. Qed.
#[local] Hint Resolve RunnerDeploymentStatus_deep : deep.

Lemma RunnerDeployment_deep : deep RunnerDeploymentT RunnerDeployment_DeepCopyInto.
Proof. deep_struct. Qed.
#[local] Hint Resolve RunnerDeployment_deep : deep.

Lemma RunnerDeploymentList_deep : deep RunnerDeploymentListT RunnerDeploymentList_DeepCopyInto.
Proof. deep_struct. Qed.
#[local] Hint Resolve RunnerDeploymentList_deep : deep.

Lemma RunnerList_deep : deep RunnerListT RunnerList_DeepCopyInto.
Proof. deep_struct. Qed.
#[local] Hint Resolve RunnerList_deep : deep.

Lemma RunnerReplicaSetSpec_deep : deep RunnerReplicaSetSpecT RunnerReplicaSetSpec_DeepCopyInto.
Proof. deep_struct. Qed.
#[local] Hint Resolve RunnerReplicaSetSpec_deep : deep.

Lemma RunnerReplicaSetStatus_deep : deep RunnerReplicaSetStatusT RunnerReplicaSetStatus_DeepCopyInto.
Proof. deep_struct. Qed.
#[local] Hint Resolve RunnerReplicaSetStatus_deep : deep.

Lemma RunnerReplicaSet_deep : deep RunnerReplicaSetT RunnerReplicaSet_DeepCopyInto.
Proof. deep_struct. Qed.
#[local] Hint Resolve RunnerReplicaSet_deep : deep.

Lemma RunnerReplicaSetList_deep : deep RunnerReplicaSetListT RunnerReplicaSetList_DeepCopyInto.
Proof. deep_struct. Qed.
#[local] Hint Resolve RunnerReplicaSetList_deep : deep.

Lemma RunnerSetSpec_deep : deep RunnerSetSpecT RunnerSetSpec_DeepCopyInto.
Proof. deep_struct. Qed.
#[local] Hint Resolve RunnerSetSpec_deep : deep.

Lemma RunnerSetStatus_deep : deep RunnerSetStatusT RunnerSetStatus_DeepCopyInto.
Proof. deep_struct. Qed.
#[local] Hint Resolve RunnerSetStatus_deep : deep.

Lemma RunnerSet_deep : deep RunnerSetT RunnerSet_DeepCopyInto.
Proof. deep_struct. Qed.
#[local] Hint Resolve RunnerSet_deep : deep.

Lemma RunnerSetList_deep : deep RunnerSetListT RunnerSetList_DeepCopyInto.
Proof. deep_struct. Qed.
#[local] Hint Resolve RunnerSetList_deep : deep.

(** Every [DeepCopy] of the API group is deep. *)
Lemma apiTypes_deep : Forall (fun x => deep (tPtr x.1) x.2) apiTypes.
Proof.
  unfold apiTypes. repeat (apply Forall_cons; split); [.. | by apply Forall_nil]; cbn [fst snd]; apply newPtr_deep; eauto with deep.
Qed.

(** C21: An object of the API group and its [DeepCopy] are the same value and share
    nothing: the copy is made without changing the original, represents the
    same tree and no other, and whatever is written later to any location of
    the copy leaves the value of the original as it was, and the other way
    round.  A nil object is copied to nil. *)
Theorem DeepCopy_independent T c h v t :
  (T, c) ∈ apiTypes -> repr h 0 v t -> tPtr T t ->
  exists v' h', c v h = Some (v', h') /\
    repr h' 0 v t /\ repr h' (length h) v' t /\ (forall n t', repr h' n v' t' -> t' = t) /\
    (forall l x, length h <= l -> repr (<[l := x]> h') 0 v t) /\
    (forall l x, l < length h -> repr (<[l := x]> h') (length h) v' t) /\
    (v = VPtr None -> v' = VPtr None).
Proof.
  intros Hin Hv Ht. pose proof apiTypes_deep as Hd. rewrite Forall_forall in Hd. specialize (Hd _ Hin).
  destruct (deep_independent (tPtr T) c h v t Hd Hv Ht) as (v' & h' & Hrun & Ho & Hc & H1 & H2).
  exists v', h'. split_and!; [done..| |done|done|].
  - intros n t' Ht'. by eapply repr_unique.
  - intros ->. assert (exists c0, c = DeepCopy c0) as [c0 ->]; [|simpl in Hrun; congruence].
    unfold apiTypes in Hin. repeat (apply elem_of_cons in Hin as [[= -> ->]|Hin]; [by eexists|]). by apply elem_of_nil in Hin.
Qed.

(** The [DeepCopyObject] of a kind or list gives the copy that its [DeepCopy]
    makes, and the nil interface exactly for a nil receiver. *)
Theorem DeepCopyObject_interface T c o h v t :
  (T, c, o) ∈ apiObjects -> repr h 0 v t -> tPtr T t ->
  exists v' h', c v h = Some (v', h') /\
    o v h = Some (match v with VPtr None => None | _ => Some v' end, h').
Proof.
  intros Hin Hv Ht. assert ((T, c) ∈ apiTypes /\ exists c0, c = DeepCopy c0 /\ o = DeepCopyObject c) as (Hty & c0 & -> & ->).
  { unfold apiObjects in Hin. repeat (apply elem_of_cons in Hin as [[= -> -> ->]|Hin];
      [split; [unfold apiTypes; repeat first [apply list_elem_of_here | apply list_elem_of_further]|by eexists]|]).
    by apply elem_of_nil in Hin. }
  pose proof apiTypes_deep as Hd. rewrite Forall_forall in Hd. specialize (Hd _ Hty).
  destruct (deep_independent (tPtr T) (DeepCopy c0) h v t Hd Hv Ht) as (v' & h' & Hrun & _).
  exists v', h'. split; [done|]. unfold DeepCopyObject. rewrite Hrun. unfold DeepCopy, newPtr in Hrun.
  repeat (case_match; simplify_eq; try done).
Qed.

End DeepCopy.
