(* ===== verification/Api.v ===== *)
(** * The API objects and the program's environment

    The resources of api/v1alpha1 and the parts of the Kubernetes objects that
    the controllers read or write, followed by the questions the program asks
    its environment (Kubernetes API server, GitHub, clock) and their answers.
    A field whose Kubernetes type the program only copies is a [raw] value. *)

From stdpp Require Import base list gmap strings.
From Stdlib Require Import ZArith Lia.
From S2P Require Import Prelude.

Open Scope Z_scope.

(** A value that is copied around and never inspected. *)
Definition raw := string.

Abbreviation strmap := (gmap string string).

(** ** Kubernetes metadata *)

Record OwnerReference := mkOwnerRef {
  or_APIVersion : string;
  or_Kind : string;
  or_Name : string;
  or_Controller : bool
}.

Record ObjectMeta := mkMeta {
  om_Name : string;
  om_GenerateName : string;
  om_Namespace : string;
  om_Labels : strmap;
  om_Annotations : strmap;
  om_CreationTimestamp : time;
  om_DeletionTimestamp : option time;
  om_Finalizers : list string;
  om_OwnerReferences : list OwnerReference
}.

Record NamespacedName := mkNN { nn_Namespace : string; nn_Name : string }.

Record LabelSelectorRequirement := mkReq {
  lsr_Key : string;
  lsr_Operator : string;
  lsr_Values : option (list string)
}.

Record LabelSelector := mkSelector {
  ls_MatchLabels : strmap;
  ls_MatchExpressions : option (list LabelSelectorRequirement)
}.

(** ** Pods *)

Record EnvVar := mkEnv { ev_Name : string; ev_Value : string; ev_ValueFrom : option raw }.

Record VolumeMount := mkMount {
  vm_Name : string;
  vm_MountPath : string;
  vm_ReadOnly : bool;
  vm_rest : raw
}.

Record EmptyDirVolumeSource := mkEmptyDir {
  ed_Medium : string;
  ed_SizeLimit : option Z
}.

Inductive VolumeSource :=
| EmptyDir (e : EmptyDirVolumeSource)
| OtherVolume (r : raw).

Record Volume := mkVolume { v_Name : string; v_Source : VolumeSource }.

Record SecurityContext := mkSecurityContext {
  sc_Privileged : option bool;
  sc_SELinuxOptions : option raw;
  sc_rest : raw
}.

Record Container := mkContainer {
  c_Name : string;
  c_Image : string;
  c_ImagePullPolicy : string;
  c_Args : list string;
  c_Env : list EnvVar;
  c_EnvFrom : list raw;
  c_Resources : raw;
  c_VolumeMounts : list VolumeMount;
  c_SecurityContext : option SecurityContext;
  c_rest : raw
}.

Record PodSecurityContext := mkPodSecurityContext {
  psc_SELinuxOptions : option raw;
  psc_rest : raw
}.

Record PodSpec := mkPodSpec {
  ps_Containers : list Container;
  ps_InitContainers : list Container;
  ps_EphemeralContainers : list raw;
  ps_Volumes : list Volume;
  ps_RestartPolicy : string;
  ps_ImagePullSecrets : list string;
  ps_SecurityContext : option PodSecurityContext;
  ps_EnableServiceLinks : option bool;
  ps_NodeSelector : option strmap;
  ps_ServiceAccountName : string;
  ps_AutomountServiceAccountToken : option bool;
  ps_Affinity : option raw;
  ps_Tolerations : list raw;
  ps_TopologySpreadConstraints : list raw;
  ps_TerminationGracePeriodSeconds : option Z;
  ps_HostAliases : list raw;
  ps_DNSConfig : option raw;
  ps_RuntimeClassName : option string;
  ps_rest : raw
}.

Record PodCondition := mkPodCondition {
  pc_Type : string;
  pc_Status : string;
  pc_LastTransitionTime : time
}.

(** [cs_Terminated] is the exit code of [status.State.Terminated]. *)
Record ContainerStatus := mkContainerStatus {
  cs_Name : string;
  cs_Terminated : option Z
}.

Record PodStatus := mkPodStatus {
  pst_Phase : string;
  pst_Reason : string;
  pst_Message : string;
  pst_Conditions : list PodCondition;
  pst_ContainerStatuses : list ContainerStatus
}.

Record Pod := mkPod {
  pod_Meta : ObjectMeta;
  pod_Spec : PodSpec;
  pod_Status : PodStatus
}.

(** ** Stateful sets and config maps *)

Record StatefulSetSpec := mkStatefulSetSpec {
  ss_Replicas : option Z;
  ss_Selector : option LabelSelector;
  ss_TemplateMeta : ObjectMeta;
  ss_TemplateSpec : PodSpec;
  ss_rest : raw
}.

Record StatefulSetStatus := mkStatefulSetStatus {
  sst_Replicas : Z;
  sst_ReadyReplicas : Z;
  sst_CurrentReplicas : Z;
  sst_UpdatedReplicas : Z
}.

Record StatefulSet := mkStatefulSet {
  sts_Meta : ObjectMeta;
  sts_Spec : StatefulSetSpec;
  sts_Status : StatefulSetStatus
}.

(** ** Runners *)

(** [rc_VolumeSizeLimit] is the quantity in bytes; [Quantity.IsZero] is a
    comparison with 0. *)
Record RunnerConfig := mkRunnerConfig {
  rc_Enterprise : string;
  rc_Organization : string;
  rc_Repository : string;
  rc_Labels : list string;
  rc_Group : string;
  rc_Ephemeral : option bool;
  rc_Image : string;
  rc_WorkDir : string;
  rc_DockerdWithinRunnerContainer : option bool;
  rc_DockerEnabled : option bool;
  rc_DockerMTU : option Z;
  rc_DockerRegistryMirror : option string;
  rc_VolumeSizeLimit : option Z;
  rc_VolumeStorageMedium : option string
}.

Record RunnerPodSpec := mkRunnerPodSpec {
  rp_DockerdContainerResources : raw;
  rp_DockerVolumeMounts : list VolumeMount;
  rp_DockerEnv : list EnvVar;
  rp_Containers : list Container;
  rp_ImagePullPolicy : string;
  rp_Env : list EnvVar;
  rp_EnvFrom : list raw;
  rp_Resources : raw;
  rp_VolumeMounts : list VolumeMount;
  rp_Volumes : list Volume;
  rp_EnableServiceLinks : option bool;
  rp_InitContainers : list Container;
  rp_NodeSelector : option strmap;
  rp_ServiceAccountName : string;
  rp_AutomountServiceAccountToken : option bool;
  rp_SidecarContainers : list Container;
  rp_SecurityContext : option PodSecurityContext;
  rp_ImagePullSecrets : list string;
  rp_Affinity : option raw;
  rp_Tolerations : list raw;
  rp_TerminationGracePeriodSeconds : option Z;
  rp_EphemeralContainers : list raw;
  rp_HostAliases : list raw;
  rp_TopologySpreadConstraints : list raw;
  rp_RuntimeClassName : option string;
  rp_DnsConfig : option raw
}.

Record RunnerSpec := mkRunnerSpec {
  rsp_Config : RunnerConfig;
  rsp_Pod : RunnerPodSpec
}.

Record RunnerStatusRegistration := mkRegistration {
  rsr_Enterprise : string;
  rsr_Organization : string;
  rsr_Repository : string;
  rsr_Labels : list string;
  rsr_Token : string;
  rsr_ExpiresAt : time
}.

Record RunnerStatus := mkRunnerStatus {
  rst_Ready : bool;
  rst_Registration : RunnerStatusRegistration;
  rst_Phase : string;
  rst_Reason : string;
  rst_Message : string;
  rst_LastRegistrationCheckTime : option time
}.

Record Runner := mkRunner {
  r_Meta : ObjectMeta;
  r_Spec : RunnerSpec;
  r_Status : RunnerStatus
}.

Record RunnerTemplate := mkRunnerTemplate {
  rt_Meta : ObjectMeta;
  rt_Spec : RunnerSpec
}.

(** ** Runner replica sets, deployments and runner sets *)

Record RunnerReplicaSetSpec := mkRRSSpec {
  rrss_Replicas : option Z;
  rrss_EffectiveTime : option time;
  rrss_Selector : option LabelSelector;
  rrss_Template : RunnerTemplate
}.

Record RunnerReplicaSetStatus := mkRRSStatus {
  rrst_Replicas : option Z;
  rrst_ReadyReplicas : option Z;
  rrst_AvailableReplicas : option Z
}.

Record RunnerReplicaSet := mkRRS {
  rrs_Meta : ObjectMeta;
  rrs_Spec : RunnerReplicaSetSpec;
  rrs_Status : RunnerReplicaSetStatus
}.

Record RunnerDeploymentSpec := mkRDSpec {
  rds_Replicas : option Z;
  rds_EffectiveTime : option time;
  rds_Selector : option LabelSelector;
  rds_Template : RunnerTemplate
}.

Record RunnerDeploymentStatus := mkRDStatus {
  rdst_AvailableReplicas : option Z;
  rdst_ReadyReplicas : option Z;
  rdst_UpdatedReplicas : option Z;
  rdst_DesiredReplicas : option Z;
  rdst_Replicas : option Z
}.

Record RunnerDeployment := mkRD {
  rd_Meta : ObjectMeta;
  rd_Spec : RunnerDeploymentSpec;
  rd_Status : RunnerDeploymentStatus
}.

Record RunnerSetSpec := mkRunnerSetSpec {
  rss_Config : RunnerConfig;
  rss_EffectiveTime : option time;
  rss_StatefulSetSpec : StatefulSetSpec
}.

Record RunnerSetStatus := mkRunnerSetStatus {
  rsst_CurrentReplicas : option Z;
  rsst_ReadyReplicas : option Z;
  rsst_UpdatedReplicas : option Z;
  rsst_DesiredReplicas : option Z;
  rsst_Replicas : option Z
}.

Record RunnerSet := mkRunnerSet {
  rs_Meta : ObjectMeta;
  rs_Spec : RunnerSetSpec;
  rs_Status : RunnerSetStatus
}.

(** ** Horizontal runner autoscalers *)

Record CheckRunSpec := mkCheckRunSpec {
  crs_Types : list string;
  crs_Status : string;
  crs_Names : list string;
  crs_Repositories : list string
}.

Record PullRequestSpec := mkPullRequestSpec {
  prs_Types : list string;
  prs_Branches : list string
}.

Inductive WorkflowJobSpec := mkWorkflowJobSpec.
Inductive PushSpec := mkPushSpec.

Record GitHubEventScaleUpTriggerSpec := mkGitHubEventTrigger {
  ge_CheckRun : option CheckRunSpec;
  ge_PullRequest : option PullRequestSpec;
  ge_Push : option PushSpec;
  ge_WorkflowJob : option WorkflowJobSpec
}.

Record ScaleUpTrigger := mkScaleUpTrigger {
  sut_GitHubEvent : option GitHubEventScaleUpTriggerSpec;
  sut_Amount : Z;
  sut_Duration : duration
}.

Record CapacityReservation := mkReservation {
  cr_Name : string;
  cr_ExpirationTime : time;
  cr_Replicas : Z;
  cr_EffectiveTime : time
}.

Record ScaleTargetRef := mkScaleTargetRef { str_Kind : string; str_Name : string }.

Record MetricSpec := mkMetricSpec {
  ms_Type : string;
  ms_RepositoryNames : list string;
  ms_ScaleUpThreshold : string;
  ms_ScaleDownThreshold : string;
  ms_ScaleUpFactor : string;
  ms_ScaleDownFactor : string;
  ms_ScaleUpAdjustment : Z;
  ms_ScaleDownAdjustment : Z
}.

Record RecurrenceRule := mkRecurrenceRule {
  rr_Frequency : string;
  rr_UntilTime : time
}.

Record ScheduledOverride := mkScheduledOverride {
  so_StartTime : time;
  so_EndTime : time;
  so_MinReplicas : option Z;
  so_RecurrenceRule : RecurrenceRule
}.

Record HorizontalRunnerAutoscalerSpec := mkHRASpec {
  hras_ScaleTargetRef : ScaleTargetRef;
  hras_MinReplicas : option Z;
  hras_MaxReplicas : option Z;
  hras_ScaleDownDelaySecondsAfterScaleUp : option Z;
  hras_Metrics : list MetricSpec;
  hras_ScaleUpTriggers : list ScaleUpTrigger;
  hras_CapacityReservations : list CapacityReservation;
  hras_ScheduledOverrides : list ScheduledOverride
}.

Record CacheEntry := mkCacheEntry {
  ce_Key : string;
  ce_Value : Z;
  ce_ExpirationTime : time
}.

Record HorizontalRunnerAutoscalerStatus := mkHRAStatus {
  hrast_ObservedGeneration : Z;
  hrast_DesiredReplicas : option Z;
  hrast_LastSuccessfulScaleOutTime : option time;
  hrast_CacheEntries : list CacheEntry;
  hrast_ScheduledOverridesSummary : option string
}.

Record HorizontalRunnerAutoscaler := mkHRA {
  hra_Meta : ObjectMeta;
  hra_Spec : HorizontalRunnerAutoscalerSpec;
  hra_Status : HorizontalRunnerAutoscalerStatus
}.

(** ** GitHub *)

(** Where a runner API of GitHub is asked: a repository, an organization or
    an enterprise. *)
Inductive ghscope :=
| SRepo (owner repo : string)
| SOrg (org : string)
| SEnterprise (enterprise : string).

Record GHRunner := mkGHRunner {
  gr_ID : option Z;
  gr_Name : string;
  gr_Status : string;
  gr_Busy : bool
}.

Record RegistrationToken := mkToken { tok_Token : string; tok_ExpiresAt : time }.

Record GHRunnerGroup := mkGHRunnerGroup {
  gg_ID : Z;
  gg_Name : string;
  gg_Default : bool;
  gg_Inherited : bool;
  gg_Visibility : string
}.

Record WorkflowRun := mkWorkflowRun { wr_ID : Z; wr_Status : string }.
Record WorkflowJob := mkWorkflowJob { wj_Status : string; wj_Labels : list string }.

(** ** The environment *)

(** The kinds of objects the controllers handle through [client.Client]. *)
Inductive kind :=
| KPod | KRunner | KRRS | KRD | KRunnerSet | KStatefulSet | KHRA.

Definition kobj (k : kind) : Type :=
  match k with
  | KPod => Pod
  | KRunner => Runner
  | KRRS => RunnerReplicaSet
  | KRD => RunnerDeployment
  | KRunnerSet => RunnerSet
  | KStatefulSet => StatefulSet
  | KHRA => HorizontalRunnerAutoscaler
  end.

Inductive ListOption :=
| InNamespace (ns : string)
| MatchingLabels (m : strmap)
| MatchingLabelsSelector (s : option LabelSelector)
| MatchingFields (key value : string).

(** What is asked.  [Now] is [time.Now()]; [Order n] picks the order Go leaves
    open (map iteration, ties of an unstable sort) for [n] elements; the
    [Get] to [Delete] group is [client.Client]; [SelectorAsSelector] and
    [SetControllerReference] are the library functions of these names; the
    [GH] group is the go-github client, one page at a time. *)
Inductive req : Type :=
| Now
| Order (n : nat)
| Get (k : kind) (key : NamespacedName)
| List (k : kind) (opts : list ListOption)
| Create (k : kind) (o : kobj k)
| Update (k : kind) (o : kobj k)
| Patch (k : kind) (o base : kobj k)
| StatusPatch (k : kind) (o base : kobj k)
| Delete (k : kind) (o : kobj k) (gracePeriod : option Z)
| SelectorAsSelector (s : option LabelSelector)
| SetControllerReference (ownerKind : kind) (owner : ObjectMeta) (obj : ObjectMeta)
| GHListRunners (s : ghscope) (page : Z)
| GHRemoveRunner (s : ghscope) (id : Z)
| GHCreateRegistrationToken (s : ghscope)
| GHListOrganizationRunnerGroups (org : string) (page : Z)
| GHListRunnerGroupsVisibleToRepo (url : string)
| GHListRepositoryAccessRunnerGroup (org : string) (id : Z) (page : Z)
| GHListRepositoryWorkflowRuns (owner repo status : string) (page : Z)
| GHListWorkflowJobs (owner repo : string) (run : Z) (page : Z).

(** What is answered. A paginated call also answers the next page, 0 when
    there is none; a successful write answers the object as the server has
    stored it; [SetControllerReference] answers the owner references that it
    leaves on the object. *)
Definition ans (q : req) : Type :=
  match q with
  | Now => time
  | Order _ => list nat
  | Get k _ => result (kobj k)
  | List k _ => result (list (kobj k))
  | Create k _ | Update k _ | Patch k _ _ | StatusPatch k _ _ => result (kobj k)
  | Delete _ _ _ => option err
  | SelectorAsSelector _ => option err
  | SetControllerReference _ _ _ => result (list OwnerReference)
  | GHListRunners _ _ => result (list GHRunner * Z)
  | GHRemoveRunner _ _ => result Z
  | GHCreateRegistrationToken _ => result (RegistrationToken * Z)
  | GHListOrganizationRunnerGroups _ _ => result (list GHRunnerGroup * Z)
  | GHListRunnerGroupsVisibleToRepo _ => result (list GHRunnerGroup * Z)
  | GHListRepositoryAccessRunnerGroup _ _ _ => result (list string * Z)
  | GHListRepositoryWorkflowRuns _ _ _ _ => result (list WorkflowRun * Z)
  | GHListWorkflowJobs _ _ _ _ => result (list WorkflowJob * Z)
  end.

Abbreviation M := (prog ans).
Abbreviation log := (list (event ans)).
Abbreviation EvA := (@Ev req ans).

(** A question that changes nothing. *)
Definition isRead (q : req) : bool :=
  match q with
  | Now | Order _ | Get _ _ | List _ _
  | SelectorAsSelector _ | SetControllerReference _ _ _
  | GHListRunners _ _ | GHListOrganizationRunnerGroups _ _ | GHListRunnerGroupsVisibleToRepo _
  | GHListRepositoryAccessRunnerGroup _ _ _ | GHListRepositoryWorkflowRuns _ _ _ _
  | GHListWorkflowJobs _ _ _ _ => true
  | _ => false
  end.

(** Only reads. *)
Abbreviation reads l := (Forall (fun e : event ans => isRead (ev_req e) = true) l).

(** A program that only reads. *)
Definition onlyReads {A : Type} (p : M A) : Prop := always p (fun _ l => reads l).

Lemma onlyReads_ret {A : Type} (a : A) : onlyReads (Ret a).
Proof. constructor. Qed.
Lemma onlyReads_panic {A : Type} m : onlyReads (Panic m : M A).
Proof. constructor. Qed.
Lemma onlyReads_stuck {A : Type} : onlyReads (Stuck : M A).
Proof. constructor. Qed.
Lemma onlyReads_ask q : isRead q = true -> onlyReads (ask q).
Proof. intros H a. by repeat constructor. Qed.
Lemma onlyReads_bind {A B : Type} (p : M A) (f : A -> M B) :
  onlyReads p -> (forall a, onlyReads (f a)) -> onlyReads (bind p f).
Proof.
  intros Hp Hf. apply always_bind. eapply always_mono; [|exact Hp].
  intros [a|m|] l Hl; [|done..]. eapply always_mono; [|apply Hf]. intros o l' Hl'.
  by apply Forall_app_2.
Qed.
#[export] Hint Resolve onlyReads_ret onlyReads_panic onlyReads_stuck onlyReads_ask onlyReads_bind : arc.

(** Discharge [onlyReads] of a program built from reads. *)
Ltac only_reads :=
  repeat first
    [ progress intros
    | solve [auto with arc]
    | apply onlyReads_bind
    | split_match ].

(** A program all of whose exchanges satisfy [P]. *)
Definition only {A : Type} (P : event ans -> Prop) (p : M A) : Prop := always p (fun _ l => Forall P l).

Lemma only_ret {A : Type} P (a : A) : only P (Ret a).
Proof. constructor. Qed.
Lemma only_panic {A : Type} P m : only P (Panic m : M A).
Proof. constructor. Qed.
Lemma only_stuck {A : Type} P : only P (Stuck : M A).
Proof. constructor. Qed.
Lemma only_ask P q : (forall a, P (EvA q a)) -> only P (ask q).
Proof. intros H a. by repeat constructor. Qed.
Lemma only_bind {A B : Type} P (p : M A) (f : A -> M B) :
  only P p -> (forall a, only P (f a)) -> only P (bind p f).
Proof.
  intros Hp Hf. apply always_bind. eapply always_mono; [|exact Hp].
  intros [a|m|] l Hl; [|done..]. eapply always_mono; [|apply Hf]. intros o l' Hl'.
  by apply Forall_app_2.
Qed.
Lemma only_mono {A : Type} (P Q : event ans -> Prop) (p : M A) :
  (forall e, P e -> Q e) -> only P p -> only Q p.
Proof. intros H. apply always_mono. intros o l Hl. by eapply Forall_impl. Qed.
Lemma only_onlyReads {A : Type} (P : event ans -> Prop) (p : M A) :
  (forall e, isRead (ev_req e) = true -> P e) -> onlyReads p -> only P p.
Proof. apply only_mono. Qed.
#[export] Hint Resolve only_ret only_panic only_stuck : arc.

(** [ctrl.Result] *)
Record Result := mkResult { Requeue : bool; RequeueAfter : duration }.
Definition noResult : Result := {| Requeue := false; RequeueAfter := 0 |}.

(** [client.IgnoreNotFound(err)] *)
Definition IgnoreNotFound (e : err) : option err :=
  if err_notfound e then None else Some e.

(** ** Decidable equality *)

Global Instance OwnerReference_eq_dec : EqDecision OwnerReference.
Proof. solve_decision. Defined.
Global Instance LabelSelectorRequirement_eq_dec : EqDecision LabelSelectorRequirement.
Proof. solve_decision. Defined.
Global Instance LabelSelector_eq_dec : EqDecision LabelSelector.
Proof. solve_decision. Defined.
Global Instance kind_eq_dec : EqDecision kind.
Proof. solve_decision. Defined.
Global Instance RunnerReplicaSetStatus_eq_dec : EqDecision RunnerReplicaSetStatus.
Proof. solve_decision. Defined.
Global Instance RunnerDeploymentStatus_eq_dec : EqDecision RunnerDeploymentStatus.
Proof. solve_decision. Defined.
Global Instance CacheEntry_eq_dec : EqDecision CacheEntry.
Proof. solve_decision. Defined.
Global Instance HRAStatus_eq_dec : EqDecision HorizontalRunnerAutoscalerStatus.
Proof. solve_decision. Defined.
Global Instance ghscope_eq_dec : EqDecision ghscope.
Proof. solve_decision. Defined.

(** ** Updating metadata *)

Definition withLabels (m : ObjectMeta) (l : strmap) : ObjectMeta :=
  {| om_Name := om_Name m; om_GenerateName := om_GenerateName m;
     om_Namespace := om_Namespace m; om_Labels := l;
     om_Annotations := om_Annotations m;
     om_CreationTimestamp := om_CreationTimestamp m;
     om_DeletionTimestamp := om_DeletionTimestamp m;
     om_Finalizers := om_Finalizers m;
     om_OwnerReferences := om_OwnerReferences m |}.

Definition withAnnotations (m : ObjectMeta) (a : strmap) : ObjectMeta :=
  {| om_Name := om_Name m; om_GenerateName := om_GenerateName m;
     om_Namespace := om_Namespace m; om_Labels := om_Labels m;
     om_Annotations := a;
     om_CreationTimestamp := om_CreationTimestamp m;
     om_DeletionTimestamp := om_DeletionTimestamp m;
     om_Finalizers := om_Finalizers m;
     om_OwnerReferences := om_OwnerReferences m |}.

Definition withFinalizers (m : ObjectMeta) (f : list string) : ObjectMeta :=
  {| om_Name := om_Name m; om_GenerateName := om_GenerateName m;
     om_Namespace := om_Namespace m; om_Labels := om_Labels m;
     om_Annotations := om_Annotations m;
     om_CreationTimestamp := om_CreationTimestamp m;
     om_DeletionTimestamp := om_DeletionTimestamp m;
     om_Finalizers := f;
     om_OwnerReferences := om_OwnerReferences m |}.

Definition withOwnerReferences (m : ObjectMeta) (o : list OwnerReference) : ObjectMeta :=
  {| om_Name := om_Name m; om_GenerateName := om_GenerateName m;
     om_Namespace := om_Namespace m; om_Labels := om_Labels m;
     om_Annotations := om_Annotations m;
     om_CreationTimestamp := om_CreationTimestamp m;
     om_DeletionTimestamp := om_DeletionTimestamp m;
     om_Finalizers := om_Finalizers m;
     om_OwnerReferences := o |}.

(** The metadata of an object that is about to be created. *)
Definition emptyMeta : ObjectMeta :=
  {| om_Name := ""; om_GenerateName := ""; om_Namespace := ""; om_Labels := ∅;
     om_Annotations := ∅; om_CreationTimestamp := 0; om_DeletionTimestamp := None;
     om_Finalizers := []; om_OwnerReferences := [] |}.

Definition withPodMeta (p : Pod) (m : ObjectMeta) : Pod :=
  {| pod_Meta := m; pod_Spec := pod_Spec p; pod_Status := pod_Status p |}.

Definition withRunnerMeta (r : Runner) (m : ObjectMeta) : Runner :=
  {| r_Meta := m; r_Spec := r_Spec r; r_Status := r_Status r |}.

Definition withStatefulSetMeta (s : StatefulSet) (m : ObjectMeta) : StatefulSet :=
  {| sts_Meta := m; sts_Spec := sts_Spec s; sts_Status := sts_Status s |}.
