(* ===== verification/GoStrings.v ===== *)
(** * The parts of Go's [strings], [strconv] and [fmt] the program uses

    Go strings are byte sequences, as [string] is here. *)

From stdpp Require Import base list gmap strings pretty.
From Stdlib Require Import ZArith Lia Ascii String.
From S2P Require Import Prelude.

Open Scope string_scope.
Open Scope Z_scope.

(** [strings.Split(s, sep)] for a one-byte separator. *)
Fixpoint Split (sep : ascii) (s : string) : list string :=
  match s with
  | EmptyString => [""]
  | String c s' =>
      if decide (c = sep) then "" :: Split sep s'
      else match Split sep s' with
           | [] => [String c ""]
           | x :: xs => String c x :: xs
           end
  end.

(** [strings.SplitAfter(s, sep)] for a one-byte separator: every piece but the
    last ends with the separator. *)
Fixpoint SplitAfter (sep : ascii) (s : string) : list string :=
  match s with
  | EmptyString => [""]
  | String c s' =>
      if decide (c = sep) then String c "" :: SplitAfter sep s'
      else match SplitAfter sep s' with
           | [] => [String c ""]
           | x :: xs => String c x :: xs
           end
  end.

(** The text around the first occurrence of [p] in [s]. *)
Fixpoint cut (p s : string) : option (string * string) :=
  if String.prefix p s
  then Some ("", String.substring (String.length p) (String.length s - String.length p) s)
  else match s with
       | EmptyString => None
       | String c s' =>
           match cut p s' with
           | Some (a, b) => Some (String c a, b)
           | None => None
           end
       end.

(** [strings.SplitN(s, p, 2)] for a non-empty [p]. *)
Definition SplitN2 (s p : string) : list string :=
  match cut p s with
  | Some (a, b) => [a; b]
  | None => [s]
  end.

(** [strings.Join(l, sep)] *)
Fixpoint Join (l : list string) (sep : string) : string :=
  match l with
  | [] => ""
  | [x] => x
  | x :: l => x +:+ sep +:+ Join l sep
  end.

(** [strings.HasSuffix(s, "/")], as [NewClient] uses it. *)
Fixpoint HasSuffixChar (c : ascii) (s : string) : bool :=
  match s with
  | EmptyString => false
  | String d EmptyString => bool_decide (d = c)
  | String _ s' => HasSuffixChar c s'
  end.

Fixpoint contains_char (c : ascii) (s : string) : bool :=
  match s with
  | EmptyString => false
  | String d s' => bool_decide (d = c) || contains_char c s'
  end.

(** [fmt.Sprintf("%d", z)] *)
Definition FormatInt (z : Z) : string := pretty z.

(** [fmt.Sprintf("%v", b)] *)
Definition FormatBool (b : bool) : string := if b then "true" else "false".

Definition digit (c : ascii) : option Z :=
  let n := Z.of_nat (nat_of_ascii c) in
  if (48 <=? n) && (n <=? 57) then Some (n - 48) else None.

Fixpoint digits (acc : Z) (s : string) : option Z :=
  match s with
  | EmptyString => Some acc
  | String c s' =>
      match digit c with
      | Some d => digits (acc * 10 + d) s'
      | None => None
      end
  end.

Definition ParseUint (s : string) : option Z :=
  match s with EmptyString => None | _ => digits 0 s end.

(** [strconv.ParseInt(s, 10, 64)]: an optional sign, one or more decimal
    digits, and a range check. *)
Definition ParseInt (s : string) : option Z :=
  let signed :=
    match s with
    | String "+" s' => ParseUint s'
    | String "-" s' => option_map Z.opp (ParseUint s')
    | _ => ParseUint s
    end in
  match signed with
  | Some z => if (- 2 ^ 63 <=? z) && (z <? 2 ^ 63) then Some z else None
  | None => None
  end.

(** * Lemmas *)

#[local] Arguments String.append : simpl nomatch.

Lemma Split_nonnil sep s : Split sep s <> [].
Proof. destruct s; simpl; [done|]. repeat case_match; done. Qed.

(** Splitting loses nothing: joining the pieces gives the string back. *)
Lemma Join_Split sep s : Join (Split sep s) (String sep "") = s.
Proof.
  induction s as [|c s IH]; simpl; [done|].
  destruct (Split sep s) as [|x xs] eqn:Hs; [by apply Split_nonnil in Hs|].
  case_decide as Hc; simpl in *.
  - by rewrite IH, Hc.
  - rewrite <- IH. by destruct xs.
Qed.

Lemma Split_app sep (a b : string) :
  contains_char sep a = false ->
  Split sep (a +:+ String sep b) = a :: Split sep b.
Proof.
  induction a as [|c a IH]; simpl; intros H.
  - by rewrite decide_True.
  - apply orb_false_elim in H as [Hc Ha]. apply bool_decide_eq_false in Hc.
    rewrite decide_False by done. by rewrite IH.
Qed.

Lemma Split_nosep sep (a : string) : contains_char sep a = false -> Split sep a = [a].
Proof.
  induction a as [|c a IH]; simpl; intros H; [done|].
  apply orb_false_elim in H as [Hc Ha]. apply bool_decide_eq_false in Hc.
  rewrite decide_False by done. by rewrite IH.
Qed.

Lemma string_app_assoc (a b c : string) : (a +:+ b) +:+ c = a +:+ (b +:+ c).
Proof. induction a; simpl; congruence. Qed.

Lemma string_app_inj_l (a b c : string) : a +:+ b = a +:+ c -> b = c.
Proof. induction a; simpl; [done|]. intros [= ?]. auto. Qed.

(** Two strings that agree up to the first separator agree on both sides. *)
Lemma app_sep_inj sep (a a' b b' : string) :
  contains_char sep a = false -> contains_char sep a' = false ->
  a +:+ String sep b = a' +:+ String sep b' -> a = a' /\ b = b'.
Proof.
  intros Ha Ha' Heq.
  pose proof (Split_app sep a b Ha) as H1. pose proof (Split_app sep a' b' Ha') as H2.
  rewrite Heq, H2 in H1. injection H1 as -> _. split; [done|].
  apply string_app_inj_l in Heq. by injection Heq.
Qed.

(** ** Printing and parsing integers *)

Lemma digit_pretty (d : N) : (d < 10)%N -> digit (pretty_N_char d) = Some (Z.of_N d).
Proof.
  intros Hd. assert (d ∈ [0; 1; 2; 3; 4; 5; 6; 7; 8; 9]%N) as H.
  { assert (d = 0 \/ d = 1 \/ d = 2 \/ d = 3 \/ d = 4 \/ d = 5 \/ d = 6 \/ d = 7
      \/ d = 8 \/ d = 9)%N as H by lia.
    repeat destruct H as [->|H]; set_solver. }
  repeat (apply elem_of_cons in H as [->|H]; [reflexivity|]).
  by apply elem_of_nil in H.
Qed.

(** Reading back the digits that printing [x] puts in front of [s]. *)
Lemma digits_pretty_go (x : N) (s : string) (acc : Z) :
  exists k, 0 < k /\ digits acc (pretty_N_go x s) = digits (acc * k + Z.of_N x) s.
Proof.
  revert s acc. induction (N.lt_wf_0 x) as [x _ IH]; intros s acc.
  destruct (decide (x = 0)%N) as [->|Hx].
  - exists 1. rewrite pretty_N_go_0. split; [lia|]. f_equal. lia.
  - rewrite pretty_N_go_step by lia.
    destruct (IH (x `div` 10)%N ltac:(apply N.div_lt; lia)
      (String (pretty_N_char (x `mod` 10)) s) acc) as (k & Hk & ->).
    exists (k * 10). split; [lia|]. simpl.
    rewrite digit_pretty by (apply N.mod_lt; lia). f_equal.
    pose proof (N.div_mod x 10 ltac:(lia)). nia.
Qed.

Lemma pretty_N_go_nonempty (x : N) (s : string) : s <> "" -> pretty_N_go x s <> "".
Proof.
  revert s. induction (N.lt_wf_0 x) as [x _ IH]; intros s Hs.
  destruct (decide (x = 0)%N) as [->|Hx]; [by rewrite pretty_N_go_0|].
  rewrite pretty_N_go_step by lia. apply IH; [apply N.div_lt; lia|done].
Qed.

Lemma ParseUint_pretty (x : N) : ParseUint (pretty x) = Some (Z.of_N x).
Proof.
  unfold pretty, pretty_N. case_decide as Hx; [by subst|].
  destruct (digits_pretty_go x "" 0) as (k & _ & H).
  assert (pretty_N_go x "" <> "") as Hne.
  { rewrite pretty_N_go_step by lia. by apply pretty_N_go_nonempty. }
  unfold ParseUint. destruct (pretty_N_go x "") eqn:He; [done|]. rewrite H. done.
Qed.

Lemma pretty_N_head (x : N) : exists c s d,
  (pretty x : string) = String c s /\ digit c = Some d.
Proof.
  pose proof (ParseUint_pretty x) as H. unfold ParseUint in H.
  destruct (pretty x) as [|c s]; [done|]. simpl in H.
  destruct (digit c) as [d|] eqn:Hd; [|done]. by exists c, s, d.
Qed.

(** [ParseInt] reads back what [%d] printed, over the whole int64 range. *)
Lemma ParseInt_FormatInt (z : Z) : - 2 ^ 63 <= z < 2 ^ 63 -> ParseInt (FormatInt z) = Some z.
Proof.
  intros Hz. unfold FormatInt, ParseInt.
  assert (forall o, o = Some z ->
    match o with
    | Some z => if (- 2 ^ 63 <=? z) && (z <? 2 ^ 63) then Some z else None
    | None => None end = Some z) as Hrange.
  { intros ? ->. rewrite (proj2 (Z.leb_le _ _)), (proj2 (Z.ltb_lt _ _)) by lia. done. }
  apply Hrange. destruct z as [|p|p].
  - done.
  - change (pretty (Z.pos p)) with (pretty (Npos p)).
    transitivity (ParseUint (pretty (Npos p))); [|by rewrite ParseUint_pretty].
    destruct (pretty_N_head (Npos p)) as (c & s & d & -> & Hd).
    destruct c as [[] [] [] [] [] [] [] []]; done.
  - change (pretty (Z.neg p)) with ("-" +:+ pretty (Npos p)).
    simpl. by rewrite ParseUint_pretty.
Qed.
