(* ===== verification/ActionsGlob.v ===== *)
(** * Glob patterns of check-run names (src/pkg/actionsglob/actionsglob.go)

    [Match] as written, a declarative glob relation it is sound for, and the
    inputs on which it panics or misses a match. *)

From stdpp Require Import base list gmap strings.
From Stdlib Require Import ZArith Lia Ascii String.
From S2P Require Import Prelude GoStrings.

Open Scope string_scope.

(** [p[:len(p)-1]] *)
Fixpoint dropLastChar (s : string) : string :=
  match s with
  | EmptyString => ""
  | String _ EmptyString => ""
  | String c s => String c (dropLastChar s)
  end.

(** What an iteration of the loop does. *)
Inductive globStep :=
| GBreak (s : string)
| GNext (s : string) (wildcardInHead : bool)
| GPanic.

Definition matchToken (p : string) (isLast : bool) (s : string) (wildcardInHead : bool) : globStep :=
  if decide (p = "") then GBreak ""
  else if decide (p = "*") then
    if isLast then GBreak "" else GNext s true
  else
    let wildcardInTail := HasSuffixChar "*" p in
    let p := if wildcardInTail then dropLastChar p else p in
    match SplitN2 s p with
    | [] => GBreak s
    | sub0 :: subs =>
        if negb (bool_decide (sub0 = "")) && negb wildcardInHead then GBreak s
        else match subs with
             | [] => GPanic
             | sub1 :: _ =>
                 if negb (bool_decide (sub1 = "")) && negb wildcardInTail then GBreak s
                 else GNext sub1 wildcardInTail
             end
    end.

(** The loop over the tokens: what is left of [s] at the end. *)
Fixpoint matchTokens (tokens : list string) (s : string) (wildcardInHead : bool) : outcome string :=
  match tokens with
  | [] => Done s
  | p :: tokens =>
      match matchToken p (bool_decide (tokens = [])) s wildcardInHead with
      | GBreak s => Done s
      | GNext s w => matchTokens tokens s w
      | GPanic => Panicked "runtime error: index out of range [1] with length 1"
      end
  end.

Definition matchPositive (pat s : string) : outcome bool :=
  match matchTokens (SplitAfter "*" pat) s false with
  | Done s => Done (bool_decide (s = ""))
  | Panicked m => Panicked m
  | Exhausted => Exhausted
  end.

Definition Match (pat s : string) : outcome bool :=
  match pat with
  | EmptyString => Panicked "unexpected length of pattern: 0"
  | String "!" pat =>
      match matchPositive pat s with
      | Done r => Done (negb r)
      | Panicked m => Panicked m
      | Exhausted => Exhausted
      end
  | _ => matchPositive pat s
  end.

(** ** The intended relation *)

Inductive glob : string -> string -> Prop :=
| glob_nil : glob "" ""
| glob_char c p s : c <> "*"%char -> glob p s -> glob (String c p) (String c s)
| glob_star_skip p s : glob p s -> glob (String "*" p) s
| glob_star_eat p c s : glob (String "*" p) s -> glob (String "*" p) (String c s).

(** * Lemmas *)

Lemma substring_all s : String.substring 0 (String.length s) s = s.
Proof. induction s as [|c s IH]; simpl; [done|]. by rewrite IH. Qed.

Lemma prefix_app p s :
  String.prefix p s = true ->
  s = p +:+ String.substring (String.length p) (String.length s - String.length p) s.
Proof.
  revert s. induction p as [|c p IH]; intros s H; simpl.
  - rewrite Nat.sub_0_r. symmetry. apply substring_all.
  - destruct s as [|d s]; [done|]. simpl in *. destruct (ascii_dec c d) as [->|]; [|done].
    exact (f_equal (String d) (IH s H)).
Qed.

Lemma cut_app p s a b : cut p s = Some (a, b) -> s = a +:+ p +:+ b.
Proof.
  revert a. induction s as [|c s IH]; intros a H.
  - destruct p; [|done]. by injection H as <- <-.
  - cbn [cut] in H. destruct (String.prefix p (String c s)) eqn:Hp.
    + injection H as <- <-. apply (prefix_app p (String c s) Hp).
    + destruct (cut p s) as [[a' b']|]; [|done]. injection H as <- <-. exact (f_equal (String c) (IH a' eq_refl)).
Qed.

Lemma prefix_refl_app p b : String.prefix p (p +:+ b) = true.
Proof. induction p as [|c p IH]; simpl; [by destruct b|]. by destruct (ascii_dec c c). Qed.

Lemma string_app_nil_r s : s +:+ "" = s.
Proof. induction s as [|c s IH]; [done|]. exact (f_equal (String c) IH). Qed.

Lemma cut_prefix p b : cut p (p +:+ b) = Some ("", b).
Proof.
  assert (cut p (p +:+ b) = Some ("", String.substring (String.length p)
    (String.length (p +:+ b) - String.length p) (p +:+ b))) as ->.
  { pose proof (prefix_refl_app p b) as H. destruct (p +:+ b); simpl in *; by rewrite H. }
  do 2 f_equal. apply (string_app_inj_l p). symmetry. apply prefix_app, prefix_refl_app.
Qed.

Lemma cut_self p : cut p p = Some ("", "").
Proof. rewrite <- (cut_prefix p ""). by rewrite string_app_nil_r. Qed.

Lemma cut_not_prefix p s a b : cut p s = Some (a, b) -> String.prefix p s = false -> a <> "".
Proof.
  destruct s; simpl; intros H Hp; rewrite Hp in H; [done|].
  destruct (cut p s) as [[??]|]; [|done]. by injection H as <- <-.
Qed.

Lemma glob_star_any p a s : glob (String "*" p) s -> glob (String "*" p) (a +:+ s).
Proof. induction a; simpl; intros H; [done|]. by constructor; auto. Qed.

Lemma glob_literal l p s : contains_char "*" l = false -> glob p s -> glob (l +:+ p) (l +:+ s).
Proof.
  induction l as [|c l IH]; simpl; intros Hl H; [done|].
  apply orb_false_elim in Hl as [Hc Hl]. apply bool_decide_eq_false in Hc. constructor; auto.
Qed.

(** The tokens of a pattern: literals closed by a star, then a literal. *)
Inductive tokensOf : list string -> string -> Prop :=
| tok_last l : contains_char "*" l = false -> tokensOf [l] l
| tok_star l ts p : contains_char "*" l = false -> tokensOf ts p ->
    tokensOf ((l +:+ "*") :: ts) (l +:+ String "*" p).

Lemma SplitAfter_tokens p : tokensOf (SplitAfter "*" p) p.
Proof.
  induction p as [|c p IH]; simpl; [by apply tok_last|].
  case_decide as Hc.
  - subst. by apply (tok_star "").
  - inversion IH as [l Hl Heq|l ts q Hl Hts Heq]; subst.
    + apply tok_last. simpl. by rewrite bool_decide_false.
    + apply (tok_star (String c l)); [|done]. simpl. by rewrite bool_decide_false.
Qed.

Lemma HasSuffixChar_app l c : HasSuffixChar c (l +:+ String c "") = true.
Proof.
  induction l as [|d l IH]; simpl; [by rewrite bool_decide_true|].
  destruct l; simpl in *; [by rewrite bool_decide_true|done].
Qed.

Lemma HasSuffixChar_contains c s : contains_char c s = false -> HasSuffixChar c s = false.
Proof.
  induction s as [|d s IH]; simpl; intros H; [done|]. apply orb_false_elim in H as [Hd Hs].
  destruct s; [done|auto].
Qed.

Lemma dropLastChar_app l c : dropLastChar (l +:+ String c "") = l.
Proof. induction l as [|d l IH]; simpl; [done|]. destruct l; simpl in *; [done|congruence]. Qed.

(** A literal token: what the iteration returns. *)
Lemma matchToken_literal l s h last :
  l <> "" -> contains_char "*" l = false ->
  matchToken l last s h =
    match cut l s with
    | Some (a, b) =>
        if negb (bool_decide (a = "")) && negb h then GBreak s
        else if bool_decide (b = "") then GNext "" false else GBreak s
    | None => if negb (bool_decide (s = "")) && negb h then GBreak s else GPanic
    end.
Proof.
  intros Hne Hl. unfold matchToken. rewrite decide_False by done.
  rewrite decide_False by (by intros ->). rewrite HasSuffixChar_contains by done.
  unfold SplitN2. destruct (cut l s) as [[a b]|]; simpl; [|done].
  destruct (_ && _); [done|]. case_bool_decide as Hb; simpl; [by subst|done].
Qed.

(** A token closed by a star. *)
Lemma matchToken_star l s h last :
  l <> "" -> contains_char "*" l = false ->
  matchToken (l +:+ "*") last s h =
    match cut l s with
    | Some (a, b) => if negb (bool_decide (a = "")) && negb h then GBreak s else GNext b true
    | None => if negb (bool_decide (s = "")) && negb h then GBreak s else GPanic
    end.
Proof.
  intros Hne Hl. unfold matchToken.
  rewrite decide_False by (by destruct l). rewrite decide_False by (by destruct l as [|? []]).
  rewrite HasSuffixChar_app, dropLastChar_app.
  unfold SplitN2. destruct (cut l s) as [[a b]|]; simpl; [|done].
  destruct (_ && _); [done|]. by rewrite andb_false_r.
Qed.

(** A break that leaves nothing was no break in a literal. *)
Lemma cut_empty l a b : l <> "" -> cut l "" = Some (a, b) -> False.
Proof. by destruct l. Qed.

(** The loop is sound from any point: what it accepts, the rest of the pattern
    matches, with a star in front when the previous token ended with one. *)
Lemma matchTokens_sound ts p s h :
  tokensOf ts p -> (h = true \/ p <> "") -> matchTokens ts s h = Done "" ->
  glob (if h then String "*" p else p) s.
Proof.
  intros Hts. revert s h. induction Hts as [l Hl|l ts p Hl Hts IH]; intros s h Hh H; cbn [matchTokens] in H.
  - destruct (decide (l = "")) as [->|Hne].
    { destruct h; [|by destruct Hh]. rewrite <- (string_app_nil_r s).
      apply glob_star_any. repeat constructor. }
    rewrite matchToken_literal in H by done.
    destruct (cut l s) as [[a b]|] eqn:Hcut.
    2:{ case_bool_decide; [done|]. destruct h; [done|]. by injection H as ->. }
    destruct (negb (bool_decide (a = "")) && negb h) eqn:Ha.
    { injection H as ->. by apply cut_empty in Hcut. }
    case_bool_decide as Hb; [|by injection H as ->; apply cut_empty in Hcut]. subst b.
    apply cut_app in Hcut as ->. rewrite string_app_nil_r.
    assert (glob l l) as Hll.
    { rewrite <- (string_app_nil_r l). apply glob_literal; [done|constructor]. }
    destruct h; [apply glob_star_any; by constructor|].
    case_bool_decide as He; [by subst a|done].
  - destruct (decide (l = "")) as [->|Hne].
    { change ("" +:+ "*") with "*" in H. change ("" +:+ String "*" p) with (String "*" p) in *.
      unfold matchToken in H. rewrite decide_False, decide_True in H by done.
      destruct ts as [|t ts]; [inversion Hts|]. rewrite bool_decide_false in H by done.
      apply IH in H; [|by left]. destruct h; [by constructor|done]. }
    rewrite matchToken_star in H by done.
    destruct (cut l s) as [[a b]|] eqn:Hcut.
    2:{ case_bool_decide; [done|]. destruct h; [done|]. by injection H as ->. }
    destruct (negb (bool_decide (a = "")) && negb h) eqn:Ha.
    { injection H as ->. by apply cut_empty in Hcut. }
    apply cut_app in Hcut as ->. apply IH in H; [|by left].
    assert (glob (l +:+ String "*" p) (l +:+ b)) as Hlb by by apply glob_literal.
    destruct h; [apply glob_star_any; by constructor|].
    case_bool_decide as He; [by subst a|done].
Qed.

Lemma matchPositive_done pat s r : matchPositive pat s = Done r ->
  exists s', matchTokens (SplitAfter "*" pat) s false = Done s' /\ r = bool_decide (s' = "").
Proof. unfold matchPositive. destruct (matchTokens _ _ _); intros [= <-]; eauto. Qed.

Definition plain (pat : string) : Prop := pat <> "" /\ forall q, pat <> String "!" q.

Lemma Match_plain pat s : plain pat -> Match pat s = matchPositive pat s.
Proof.
  intros [Hne Hq]. destruct pat as [|c pat]; [done|].
  destruct c as [[] [] [] [] [] [] [] []]; try reflexivity. by destruct (Hq pat).
Qed.

(** [Match] accepts nothing that its pattern, read as a glob, does not
    match. *)
Theorem Match_sound pat s : plain pat -> Match pat s = Done true -> glob pat s.
Proof.
  intros Hp H. rewrite Match_plain in H by done.
  apply matchPositive_done in H as (s' & H & Hr). symmetry in Hr. apply bool_decide_eq_true in Hr as ->.
  apply (matchTokens_sound _ pat _ false) in H; [done|apply SplitAfter_tokens|right; apply Hp].
Qed.

Lemma SplitAfter_nosep p : contains_char "*" p = false -> SplitAfter "*" p = [p].
Proof.
  induction p as [|c p IH]; simpl; intros H; [done|]. apply orb_false_elim in H as [Hc Hp].
  apply bool_decide_eq_false in Hc. rewrite decide_False by done. by rewrite IH.
Qed.

Lemma SplitAfter_star l p : contains_char "*" l = false ->
  SplitAfter "*" (l +:+ String "*" p) = (l +:+ "*") :: SplitAfter "*" p.
Proof.
  induction l as [|c l IH]; simpl; intros H; [done|]. apply orb_false_elim in H as [Hc Hl].
  apply bool_decide_eq_false in Hc. rewrite decide_False by done. by rewrite IH.
Qed.

(** the exact behaviour of the patterns that the documentation suggests,
    on a non-empty name: a literal matches itself only, a literal followed by
    a star matches its extensions only, and a leading [!] negates. *)
Theorem Match_literal_prefix l s :
  plain l -> contains_char "*" l = false -> s <> "" ->
  Match l s = Done (bool_decide (s = l)) /\
  Match (l +:+ "*") s = Done (String.prefix l s) /\
  Match (String "!" l) s = Done (negb (bool_decide (s = l))) /\
  Match (String "!" (l +:+ "*")) s = Done (negb (String.prefix l s)).
Proof.
  intros Hp Hl Hs. assert (plain (l +:+ "*")) as Hp'.
  { destruct Hp as [Hne Hq]. destruct l as [|c l]; [done|]. split; [done|].
    intros q [= -> _]. by destruct (Hq l). }
  assert (matchPositive l s = Done (bool_decide (s = l))) as H1.
  { unfold matchPositive. rewrite SplitAfter_nosep by done. cbn [matchTokens].
    rewrite matchToken_literal by (done || apply Hp).
    destruct (cut l s) as [[a b]|] eqn:Hcut.
    - pose proof (cut_app _ _ _ _ Hcut) as ->. destruct (decide (a = "")) as [->|Ha].
      + rewrite (bool_decide_true ("" = "")) by done. simpl. case_bool_decide as Hb.
        * subst b. rewrite string_app_nil_r. by rewrite (bool_decide_true (l = l)).
        * rewrite !bool_decide_false; [done| |done].
          intros He. apply Hb. apply (string_app_inj_l l). by rewrite string_app_nil_r.
      + rewrite (bool_decide_false (a = "")) by done. simpl. rewrite !bool_decide_false; [done| |done].
        intros He. rewrite He, cut_self in Hcut. by injection Hcut as <- _.
    - rewrite (bool_decide_false (s = "")) by done. simpl. rewrite !bool_decide_false; [done| |done].
      intros ->. by rewrite cut_self in Hcut. }
  assert (matchPositive (l +:+ "*") s = Done (String.prefix l s)) as H2.
  { unfold matchPositive. change (l +:+ "*") with (l +:+ String "*" ""). rewrite SplitAfter_star by done.
    cbn [matchTokens SplitAfter]. rewrite matchToken_star by (done || apply Hp).
    destruct (cut l s) as [[a b]|] eqn:Hcut.
    - destruct (String.prefix l s) eqn:Hpre.
      + pose proof (prefix_app _ _ Hpre) as He. rewrite He, cut_prefix in Hcut. by injection Hcut as <- <-.
      + pose proof (cut_not_prefix _ _ _ _ Hcut Hpre) as Ha.
        rewrite (bool_decide_false (a = "")) by done. simpl. by rewrite bool_decide_false.
    - rewrite (bool_decide_false (s = "")) by done. simpl. rewrite bool_decide_false by done.
      destruct (String.prefix l s) eqn:Hpre; [|done].
      pose proof (prefix_app _ _ Hpre) as He. by rewrite He, cut_prefix in Hcut. }
  split_and!; [by rewrite Match_plain..| |]; simpl; by rewrite ?H1, ?H2.
Qed.

(** a pattern with a leading star panics on a name that does not contain
    its literal, and so does any literal pattern on the empty name. *)
Theorem Match_panics l s :
  l <> "" -> contains_char "*" l = false -> plain l ->
  (cut l s = None -> exists m, Match (String "*" l) s = Panicked m) /\
  (exists m, Match l "" = Panicked m).
Proof.
  intros Hne Hl Hp. split.
  - intros Hc. rewrite Match_plain by done. unfold matchPositive.
    change (String "*" l) with ("" +:+ String "*" l). rewrite SplitAfter_star by done.
    rewrite SplitAfter_nosep by done. cbn [matchTokens].
    change ("" +:+ "*") with "*". unfold matchToken at 1. rewrite decide_False, decide_True by done.
    rewrite bool_decide_false by done. rewrite matchToken_literal by done. rewrite Hc, andb_false_r. eauto.
  - rewrite Match_plain by done. unfold matchPositive. rewrite SplitAfter_nosep by done. cbn [matchTokens].
    rewrite matchToken_literal by done. destruct l; [done|]. simpl. eauto.
Qed.

(** [Match] commits to the first occurrence of a literal, so it misses
    matches of the glob: a name that ends with the literal and also contains
    it before is not matched by the literal with a leading star. *)
Theorem Match_incomplete : glob "*foo" "foofoo" /\ Match "*foo" "foofoo" = Done false.
Proof.
  split; [|reflexivity]. apply (glob_star_any "foo" "foo" "foo"). by repeat constructor.
Qed.

(** The cases of the repository's tests. *)
Example Match_tests :
  map (fun '(p, s) => Match p s)
    [("foo", "foo"); ("!foo", "foo"); ("foo", "foo1"); ("*foo", "foo"); ("*foo", "1foo"); ("*foo", "foo1");
     ("*foo*", "foo1"); ("foo*", "foo"); ("foo*", "foobar"); ("foo (*", "foo ( 1 / 2 )");
     ("actions-*-metrics", "actions-workflow-metrics"); ("!actions-*-metrics", "actions-workflow-metrics")]
  = map Done [true; false; false; true; true; false; true; true; true; true; true; false].
Proof. reflexivity. Qed.
