(* ===== verification/GitHubClient.v ===== *)
(** * The GitHub client (src/github/github.go)

    The wrapper around go-github: which API scope a call goes to, the
    pagination loops, and the cache of registration tokens.  go-github itself
    is the environment ([GH...] questions of [Api]). *)

From stdpp Require Import base list gmap strings.
From Stdlib Require Import ZArith Lia Ascii.
From S2P Require Import Prelude Api GoStrings.

Open Scope string_scope.
Open Scope Z_scope.

(** ** Scopes *)

Definition splitOwnerAndRepo (repo : string) : result (string * string) :=
  match Split "/" repo with
  | [owner; r] => Val (owner, r)
  | _ => Err (newError ("invalid repository name: '" +:+ repo +:+ "'"))
  end.

(** Returns (enterprise, owner, repository). *)
Definition getEnterpriseOrganizationAndRepo (enterprise org repo : string)
  : result (string * string * string) :=
  if decide (repo <> "") then
    match splitOwnerAndRepo repo with
    | Val (owner, repository) => Val ("", owner, repository)
    | Err e => Err e
    end
  else if decide (org <> "") then Val ("", org, "")
  else if decide (enterprise <> "") then Val (enterprise, "", "")
  else Err (newError "enterprise, organization and repository are all empty").

(** The switch shared by [createRegistrationToken], [removeRunner] and
    [listRunners]. *)
Definition scopeOf (enterprise org repo : string) : ghscope :=
  if decide (repo <> "") then SRepo org repo
  else if decide (org <> "") then SOrg org
  else SEnterprise enterprise.

Definition createRegistrationToken (enterprise org repo : string)
  : M (result (RegistrationToken * Z)) :=
  ask (GHCreateRegistrationToken (scopeOf enterprise org repo)).

Definition removeRunner (enterprise org repo : string) (runnerID : Z) : M (result Z) :=
  ask (GHRemoveRunner (scopeOf enterprise org repo) runnerID).

Definition listRunners (enterprise org repo : string) (page : Z)
  : M (result (list GHRunner * Z)) :=
  ask (GHListRunners (scopeOf enterprise org repo) page).

(** ** Pagination

    The loop all the listing functions share: append a page, stop when the
    response names no next page.  The Go loop is unbounded; [fuel] bounds the
    number of pages followed. *)
Fixpoint paginate {A : Type} (fuel : nat) (msg : string)
  (fetch : Z -> M (result (list A * Z))) (page : Z) (acc : list A) : M (result (list A)) :=
  match fuel with
  | O => Stuck
  | S fuel =>
      r <- fetch page ;;
      match r with
      | Err e => Ret (Err (wrapError msg e))
      | Val (l, next) =>
          if next =? 0 then Ret (Val (app acc l))
          else paginate fuel msg fetch next (app acc l)
      end
  end.

Definition ListRunners (fuel : nat) (enterprise org repo : string)
  : M (result (list GHRunner)) :=
  match getEnterpriseOrganizationAndRepo enterprise org repo with
  | Err e => Ret (Err e)
  | Val (enterprise, owner, repo) =>
      paginate fuel "failed to list runners: " (listRunners enterprise owner repo) 0 []
  end.

Definition ListOrganizationRunnerGroups (fuel : nat) (org : string)
  : M (result (list GHRunnerGroup)) :=
  paginate fuel "failed to list organization runner groups: "
    (fun page => ask (GHListOrganizationRunnerGroups org page)) 0 [].

(** The request URL of [listOrganizationRunnerGroupsVisibleToRepo]; the
    caller's [opts] are [PerPage = 100] and the current page. *)
Definition runnerGroupsVisibleToRepoURL (org repo : string) (page : Z) : string :=
  let repoName := match Split "/" repo with [_; name] => name | _ => repo end in
  let u := "orgs/" +:+ org +:+ "/actions/runner-groups?visible_to_repository=" +:+ repoName in
  let u := u +:+ "&per_page=" +:+ FormatInt 100 in
  if 0 <? page then u +:+ "&page=" +:+ FormatInt page else u.

Definition listOrganizationRunnerGroupsVisibleToRepo (org repo : string) (page : Z)
  : M (result (list GHRunnerGroup * Z)) :=
  ask (GHListRunnerGroupsVisibleToRepo (runnerGroupsVisibleToRepoURL org repo page)).

Definition ListOrganizationRunnerGroupsForRepository (fuel : nat) (org repo : string)
  : M (result (list GHRunnerGroup)) :=
  paginate fuel "failed to list organization runner groups: "
    (listOrganizationRunnerGroupsVisibleToRepo org repo) 0 [].

Definition ListRunnerGroupRepositoryAccesses (fuel : nat) (org : string) (runnerGroupId : Z)
  : M (result (list string)) :=
  paginate fuel "failed to list repository access for runner group: "
    (fun page => ask (GHListRepositoryAccessRunnerGroup org runnerGroupId page)) 0 [].

(** [listRepositoryWorkflowRuns] formats its error with [%v]. *)
Definition listRepositoryWorkflowRuns (fuel : nat) (user repoName status : string)
  : M (result (list WorkflowRun)) :=
  r <- paginate fuel "failed to list workflow runs: "
         (fun page => ask (GHListRepositoryWorkflowRuns user repoName status page)) 0 [] ;;
  Ret (match r with Val l => Val l | Err e => Err (newError (err_msg e)) end).

Definition ListRepositoryWorkflowRuns (fuel : nat) (user repoName : string)
  : M (result (list WorkflowRun)) :=
  q <- listRepositoryWorkflowRuns fuel user repoName "queued" ;;
  match q with
  | Err e => Ret (Err (wrapError "listing queued workflow runs: " e))
  | Val queued =>
      i <- listRepositoryWorkflowRuns fuel user repoName "in_progress" ;;
      match i with
      | Err e => Ret (Err (wrapError "listing in_progress workflow runs: " e))
      | Val inProgress => Ret (Val (app queued inProgress))
      end
  end.

(** ** Removing a runner *)

Definition RemoveRunner (enterprise org repo : string) (runnerID : Z) : M (option err) :=
  match getEnterpriseOrganizationAndRepo enterprise org repo with
  | Err e => Ret (Some e)
  | Val (enterprise, owner, repo) =>
      r <- removeRunner enterprise owner repo runnerID ;;
      Ret (match r with
           | Err e => Some (wrapError "failed to remove runner: " e)
           | Val status =>
               if status =? 204 then None
               else Some (newError ("unexpected status: " +:+ FormatInt status))
           end)
  end.

(** [%q] of a name that needs no escaping: printable ASCII without quotes and
    backslashes, as the names of Kubernetes objects are. *)
Definition quoted (name : string) : string :=
  let quote := String (Ascii.ascii_of_nat 34) EmptyString in quote +:+ name +:+ quote.

(** The errors [RunnerNotFound] and [RunnerOffline] with their messages. *)
Definition RunnerNotFound (runnerName : string) : err := newError ("runner " +:+ quoted runnerName +:+ " not found").
Definition RunnerOffline (runnerName : string) : err := newError ("runner " +:+ quoted runnerName +:+ " offline").

(** [IsRunnerBusy]: the busy flag, with an error when the runner is offline or
    not listed. *)
Definition IsRunnerBusy (fuel : nat) (enterprise org repo name : string)
  : M (bool * option err) :=
  r <- ListRunners fuel enterprise org repo ;;
  match r with
  | Err e => Ret (false, Some e)
  | Val runners =>
      Ret (match List.find (fun r => bool_decide (gr_Name r = name)) runners with
           | Some r =>
               if decide (gr_Status r = "offline")
               then (gr_Busy r, Some (RunnerOffline name))
               else (gr_Busy r, None)
           | None => (false, Some (RunnerNotFound name))
           end)
  end.

(** ** Registration tokens

    [tokens] is [Client.regTokens], guarded by [Client.mu]: each of the two
    operations below runs under the lock, so it is one atomic step. *)
Abbreviation tokens := (gmap string RegistrationToken).

Definition getRegistrationKey (org repo enterprise : string) : string :=
  "org=" +:+ org +:+ ",repo=" +:+ repo +:+ ",enterprise=" +:+ enterprise.

Definition runnerStartupTimeout : duration := 30 * Minute.

(** The cached token, when there is one that outlives the startup timeout. *)
Definition cachedToken (regTokens : tokens) (key : string) : M (option RegistrationToken) :=
  match regTokens !! key with
  | None => Ret None
  | Some rt =>
      now <- ask Now ;;
      Ret (if After (tok_ExpiresAt rt) (now + runnerStartupTimeout) then Some rt else None)
  end.

(** The token for the owner of a runner, from the cache or from GitHub.  With an
    error the Go function also returns whatever token GitHub's client gave it;
    the callers look at the error first and never use that value, so an error
    stands alone here. *)
Definition GetRegistrationToken (regTokens : tokens) (enterprise org repo name : string)
  : M (tokens * result RegistrationToken) :=
  let key := getRegistrationKey org repo enterprise in
  c <- cachedToken regTokens key ;;
  match c with
  | Some rt => Ret (regTokens, Val rt)
  | None =>
      match getEnterpriseOrganizationAndRepo enterprise org repo with
      | Err e => Ret (regTokens, Err e)
      | Val (enterprise, owner, repo) =>
          r <- createRegistrationToken enterprise owner repo ;;
          Ret (match r with
               | Err e => (regTokens, Err (newError ("failed to create registration token: " +:+ err_msg e)))
               | Val (rt, status) =>
                   if status =? 201 then (<[key := rt]> regTokens, Val rt)
                   else (regTokens, Err (newError ("unexpected status: " +:+ FormatInt status)))
               end)
      end
  end.

(** [cleanup]: the goroutine that follows each token creation. Go iterates
    over the map in an order of its own and reads the clock for each entry. *)
Definition cleanup (regTokens : tokens) : M tokens :=
  let entries := map_to_list regTokens in
  o <- ask (Order (length entries)) ;;
  r <- rangeM (R := Empty_set) (shuffle o entries) regTokens (fun '(key, rt) m =>
         now <- ask Now ;;
         Ret (Next (if Before (tok_ExpiresAt rt) now then delete key m else m))) ;;
  match r with
  | inl m => Ret m
  | inr r => match r with end
  end.

(** The life of the cache: calls and clean-ups interleave in any order; the
    second component is everything GitHub was asked so far. *)
Inductive cacheReachable : tokens -> log -> Prop :=
| cache_init : cacheReachable ∅ []
| cache_get m l enterprise org repo name m' r l' :
    cacheReachable m l ->
    may (GetRegistrationToken m enterprise org repo name) (Done (m', r)) l' ->
    cacheReachable m' (app l l')
| cache_cleanup m l m' l' :
    cacheReachable m l ->
    may (cleanup m) (Done m') l' ->
    cacheReachable m' (app l l').

(** GitHub issued [rt] for the owner that [key] stands for. *)
Definition issuedFor (l : log) (key : string) (rt : RegistrationToken) : Prop :=
  exists enterprise org repo e o r,
    key = getRegistrationKey org repo enterprise /\
    getEnterpriseOrganizationAndRepo enterprise org repo = Val (e, o, r) /\
    Ev (GHCreateRegistrationToken (scopeOf e o r)) (Val (rt, 201)) ∈ l.

(** The owner is malformed, or GitHub did not answer with a new token. *)
Definition tokenRefused (l : log) (enterprise org repo : string) : Prop :=
  match getEnterpriseOrganizationAndRepo enterprise org repo with
  | Err _ => True
  | Val (e, o, r) =>
      exists a, Ev (GHCreateRegistrationToken (scopeOf e o r)) a ∈ l /\ forall rt, a <> Val (rt, 201)
  end.

(** A server that splits a listing into [pages] and numbers them from 1, page
    0 meaning the first one. *)
Definition servePage {A : Type} (pages : list (list A)) (page : Z) : list A * Z :=
  let i := if page =? 0 then 1 else page in
  (default [] (pages !! Z.to_nat (i - 1)),
   if i <? Z.of_nat (length pages) then i + 1 else 0).

(** * Theorems *)

Section Pagination.
Context {A W : Type} (h : forall q : req, W -> ans q * W).
Context (msg : string) (fetch : Z -> M (result (list A * Z))).
Context (pages : list (list A)).

(** What the loop relies on: the fetch answers the pages in turn. *)
Hypothesis fetch_ok : forall page w, exists w' l,
  run h (fetch page) w = (Done (Val (servePage pages page)), w', l).

Lemma paginate_from fuel i acc w :
  (0 < i <= length pages)%nat -> (length pages - i < fuel)%nat ->
  exists w' l, run h (paginate fuel msg fetch (Z.of_nat i) acc) w
    = (Done (Val (app acc (concat (drop (i - 1) pages)))), w', l).
Proof.
  revert i acc w. induction fuel as [|fuel IH]; intros i acc w Hi Hf; [lia|]. simpl.
  destruct (fetch_ok (Z.of_nat i) w) as (w1 & l1 & H1).
  erewrite run_bind by exact H1. unfold servePage.
  rewrite (proj2 (Z.eqb_neq (Z.of_nat i) 0)) by lia.
  replace (Z.to_nat (Z.of_nat i - 1)) with (i - 1)%nat by lia.
  destruct (lookup_lt_is_Some_2 pages (i - 1)) as [p Hp]; [lia|].
  rewrite Hp. simpl default. rewrite (drop_S _ _ _ Hp). simpl concat. rewrite app_assoc.
  destruct (Z.ltb_spec (Z.of_nat i) (Z.of_nat (length pages))).
  - rewrite (proj2 (Z.eqb_neq _ _)) by lia.
    destruct (IH (S i) (app acc p) w1 ltac:(lia) ltac:(lia)) as (w2 & l2 & H2).
    replace (Z.of_nat i + 1) with (Z.of_nat (S i)) by lia. rewrite H2.
    replace (S i - 1)%nat with (S (i - 1))%nat by lia. by do 2 eexists.
  - simpl. rewrite (drop_ge _ (S (i - 1))) by lia. simpl. rewrite !app_nil_r. by do 2 eexists.
Qed.

(** Enough fuel for the pages there are: the loop ends with all of them. *)
Lemma paginate_complete fuel w :
  pages <> [] -> (length pages <= fuel)%nat ->
  exists w' l, run h (paginate fuel msg fetch 0 []) w
    = (Done (Val (concat pages)), w', l).
Proof.
  intros Hne Hf.
  assert (exists p, pages !! 0%nat = Some p) as [p Hp].
  { apply lookup_lt_is_Some_2. by destruct pages; simpl; [|lia]. }
  destruct fuel as [|fuel]; [by apply lookup_lt_Some in Hp; lia|]. simpl.
  destruct (fetch_ok 0 w) as (w1 & l1 & H1).
  erewrite run_bind by exact H1. unfold servePage.
  change (0 =? 0) with true. cbv iota. change (Z.to_nat (1 - 1)) with 0%nat.
  rewrite Hp. simpl default.
  replace (concat pages) with (concat (drop 0 pages)) by done. rewrite (drop_S _ _ _ Hp).
  simpl concat. apply lookup_lt_Some in Hp.
  destruct (Z.ltb_spec 1 (Z.of_nat (length pages))).
  - rewrite (proj2 (Z.eqb_neq (1 + 1) 0)) by lia. change (1 + 1) with (Z.of_nat 2).
    destruct (paginate_from fuel 2 p w1 ltac:(lia) ltac:(lia)) as (w2 & l2 & H2).
    rewrite H2. by do 2 eexists.
  - rewrite (drop_ge _ 1) by lia. simpl. rewrite !app_nil_r. by do 2 eexists.
Qed.

End Pagination.

(** ** The listings only read *)

Lemma onlyReads_paginate {A} fuel msg (fetch : Z -> M (result (list A * Z))) page acc :
  (forall page, onlyReads (fetch page)) -> onlyReads (paginate fuel msg fetch page acc).
Proof.
  intros Hf. revert page acc. induction fuel as [|fuel IH]; intros page acc; simpl; [constructor|].
  only_reads.
Qed.

#[export] Hint Extern 2 (onlyReads (paginate _ _ _ _ _)) =>
  (apply onlyReads_paginate; intros; apply onlyReads_ask; reflexivity) : arc.

Lemma onlyReads_ListRunners fuel e o r : onlyReads (ListRunners fuel e o r).
Proof. unfold ListRunners, listRunners. only_reads. Qed.

Lemma onlyReads_ListRepositoryWorkflowRuns fuel u r : onlyReads (ListRepositoryWorkflowRuns fuel u r).
Proof. unfold ListRepositoryWorkflowRuns, listRepositoryWorkflowRuns. only_reads. Qed.

Lemma onlyReads_ListOrganizationRunnerGroups fuel org : onlyReads (ListOrganizationRunnerGroups fuel org).
Proof. unfold ListOrganizationRunnerGroups. only_reads. Qed.

Lemma onlyReads_ListOrganizationRunnerGroupsForRepository fuel org repo :
  onlyReads (ListOrganizationRunnerGroupsForRepository fuel org repo).
Proof.
  unfold ListOrganizationRunnerGroupsForRepository, listOrganizationRunnerGroupsVisibleToRepo. only_reads.
Qed.

Lemma onlyReads_ListRunnerGroupRepositoryAccesses fuel org id :
  onlyReads (ListRunnerGroupRepositoryAccesses fuel org id).
Proof. unfold ListRunnerGroupRepositoryAccesses. only_reads. Qed.

#[export] Hint Resolve onlyReads_ListRunners onlyReads_ListRepositoryWorkflowRuns
  onlyReads_ListOrganizationRunnerGroups onlyReads_ListOrganizationRunnerGroupsForRepository
  onlyReads_ListRunnerGroupRepositoryAccesses : arc.

(** Runners of a scope, as a server that follows GitHub's pagination rules
    lists them. *)
Section ListRunnersComplete.
Context {W : Type} (h : forall q : req, W -> ans q * W).
Context (enterprise org repo e o r : string) (pages : list (list GHRunner)).
Hypothesis scope_ok : getEnterpriseOrganizationAndRepo enterprise org repo = Val (e, o, r).
Hypothesis server_ok : forall page w,
  h (GHListRunners (scopeOf e o r) page) w = (Val (servePage pages page), w).

(** [ListRunners] terminates and returns every runner of every page, in
    order, once its loop may follow as many pages as the server has. *)
Theorem ListRunners_complete (fuel : nat) (w : W) :
  pages <> [] -> (length pages <= fuel)%nat ->
  exists w' l, run h (ListRunners fuel enterprise org repo) w
    = (Done (Val (concat pages)), w', l).
Proof.
  intros Hne Hf. unfold ListRunners. rewrite scope_ok.
  apply paginate_complete; try done.
  intros page w'. unfold listRunners, ask. simpl. rewrite server_ok. by do 2 eexists.
Qed.

End ListRunnersComplete.

(** ** The token cache *)

Lemma cachedToken_spec regTokens key :
  always (cachedToken regTokens key) (fun o l =>
    (exists rt t, o = Done (Some rt) /\ l = [Ev Now t] /\ regTokens !! key = Some rt /\
       t + runnerStartupTimeout < tok_ExpiresAt rt) \/
    (o = Done None /\ Forall (fun e => ev_req e = Now) l)).
Proof.
  unfold cachedToken. destruct (regTokens !! key) as [rt|] eqn:Hk; simpl.
  - intros t. unfold After. destruct (Z.ltb_spec (t + runnerStartupTimeout) (tok_ExpiresAt rt)).
    + left. by exists rt, t.
    + right. by repeat constructor.
  - by right.
Qed.

Lemma GetRegistrationToken_spec regTokens enterprise org repo name :
  let key := getRegistrationKey org repo enterprise in
  always (GetRegistrationToken regTokens enterprise org repo name) (fun o l =>
    match o with
    | Done (regTokens', Val rt) =>
        (exists t, regTokens !! key = Some rt /\ regTokens' = regTokens /\ l = [Ev Now t] /\
           t + runnerStartupTimeout < tok_ExpiresAt rt) \/
        (regTokens' = <[key := rt]> regTokens /\ issuedFor l key rt)
    | Done (regTokens', Err _) => regTokens' = regTokens /\ tokenRefused l enterprise org repo
    | _ => False
    end).
Proof.
  intros key. unfold GetRegistrationToken, tokenRefused. apply always_bind.
  eapply always_mono; [|apply cachedToken_spec].
  intros _ l [(rt & t & -> & -> & Hk & Ht)|[-> Hl]].
  - simpl. left. by exists t.
  - destruct (getEnterpriseOrganizationAndRepo enterprise org repo) as [[[e o] r]|er] eqn:Hs;
      [|done].
    simpl. intros [[rt status]|er]; [|split; [done|eexists; split; [apply elem_of_app; right; apply list_elem_of_here|done]]].
    destruct (Z.eqb_spec status 201) as [->|]; [|split; [done|eexists; split; [apply elem_of_app; right; apply list_elem_of_here|congruence]]].
    right. split; [done|]. exists enterprise, org, repo, e, o, r. split_and!; [done..|].
    apply elem_of_app. right. by apply list_elem_of_singleton.
Qed.

(** whatever the environment, [GetRegistrationToken] does not panic, and
    a token it hands out is either the cached token of its key, valid for more
    than the runner startup timeout after the clock reading and obtained
    without an API call, or a token GitHub has just issued with status 201 for
    that owner, which is the cached one from then on; it fails only for a
    malformed owner or when GitHub did not issue a token, and then leaves the
    cache unchanged. *)
Theorem GetRegistrationToken_fresh {W : Type} (h : forall q : req, W -> ans q * W) (w : W)
  regTokens enterprise org repo name :
  let key := getRegistrationKey org repo enterprise in
  let '(o, _, l) := run h (GetRegistrationToken regTokens enterprise org repo name) w in
  exists regTokens' r, o = Done (regTokens', r) /\
  match r with
  | Val rt =>
      regTokens' !! key = Some rt /\
      ((exists t, regTokens' = regTokens /\ l = [Ev Now t] /\
          t + runnerStartupTimeout < tok_ExpiresAt rt) \/ issuedFor l key rt)
  | Err _ => regTokens' = regTokens /\ tokenRefused l enterprise org repo
  end.
Proof.
  intros key.
  pose proof (always_run _ _ h w (GetRegistrationToken_spec regTokens enterprise org repo name)) as H.
  destruct (run h _ w) as [[[[m r]|?|] ?] l]; [|done..].
  exists m, r. split; [done|]. fold key in H. destruct r; [|done].
  destruct H as [(t & ? & -> & ? & ?)|[-> ?]].
  - split; [done|]. left. by exists t.
  - split; [apply lookup_insert_eq|by right].
Qed.

Lemma cleanup_spec regTokens :
  always (cleanup regTokens) (fun o _ =>
    match o with Done m => m ⊆ regTokens | _ => False end).
Proof.
  unfold cleanup. simpl. intros order. apply always_bind.
  eapply always_mono; [|apply (always_rangeM _ _ _ (fun _ m _ => m ⊆ regTokens)
    (fun o _ => match o with Done (inl m) => m ⊆ regTokens | _ => False end) [])].
  - intros [[m|[]]|?|] l; done.
  - done.
  - intros [key rt] _ m _ Hm. simpl. intros now. destruct (Before _ _); [|done].
    etrans; [apply delete_subseteq|done].
  - done.
Qed.

Lemma issuedFor_mono l l' key rt : l ⊆ l' -> issuedFor l key rt -> issuedFor l' key rt.
Proof. intros Hl (en & og & rp & e & o & r & ? & ? & Hin). exists en, og, rp, e, o, r. auto. Qed.

Lemma tokenRefused_mono l l' enterprise org repo :
  l ⊆ l' -> tokenRefused l enterprise org repo -> tokenRefused l' enterprise org repo.
Proof.
  intros Hl. unfold tokenRefused. destruct (getEnterpriseOrganizationAndRepo _ _ _) as [[[e o] r]|]; [|done].
  intros (a & ? & ?). exists a. auto.
Qed.

(** C32: in every reachable state of the cache, whatever the interleaving of
    token requests and clean-ups and whatever GitHub answered, each cached
    token was issued by GitHub, with status 201, for the owner of its key. *)
Theorem cache_invariant regTokens l :
  cacheReachable regTokens l ->
  forall key rt, regTokens !! key = Some rt -> issuedFor l key rt.
Proof.
  induction 1 as [|m l en og rp nm m' r l' _ IH Hm|m l m' l' _ IH Hm]; intros key rt Hk.
  - done.
  - pose proof (GetRegistrationToken_spec m en og rp nm) as Hs.
    apply (proj1 (always_may _ _) Hs) in Hm. simpl in Hm.
    destruct r as [rt'|er].
    + destruct Hm as [(t & _ & -> & _)|[-> Hiss]].
      * eapply issuedFor_mono; [|by apply IH]. set_solver.
      * apply lookup_insert_Some in Hk as [[<- <-]|[_ Hk]];
          (eapply issuedFor_mono; [|eauto]); set_solver.
    + destruct Hm as [-> _]. eapply issuedFor_mono; [|by apply IH]. set_solver.
  - pose proof (cleanup_spec m) as Hs. apply (proj1 (always_may _ _) Hs) in Hm. simpl in Hm.
    eapply issuedFor_mono; [|apply IH; by eapply lookup_weaken]. set_solver.
Qed.

(** the cache key determines the owner: names without commas (GitHub
    allows none) never share a key. *)
Theorem getRegistrationKey_inj org repo enterprise org' repo' enterprise' :
  contains_char "," org = false -> contains_char "," org' = false ->
  contains_char "," repo = false -> contains_char "," repo' = false ->
  getRegistrationKey org repo enterprise = getRegistrationKey org' repo' enterprise' ->
  org = org' /\ repo = repo' /\ enterprise = enterprise'.
Proof.
  unfold getRegistrationKey. intros Ho Ho' Hr Hr' H.
  apply string_app_inj_l in H. apply app_sep_inj in H as [-> H]; [|done..].
  apply (string_app_inj_l "repo=") in H. apply app_sep_inj in H as [-> H]; [|done..].
  by apply (string_app_inj_l "enterprise=") in H.
Qed.

(** [RemoveRunner] reports success exactly when GitHub was asked once, in
    the scope the arguments select, and answered 204; otherwise it returns an
    error, and it never asks more than once. *)
Theorem RemoveRunner_spec enterprise org repo id :
  always (RemoveRunner enterprise org repo id) (fun o l =>
    match getEnterpriseOrganizationAndRepo enterprise org repo with
    | Err e => o = Done (Some e) /\ l = []
    | Val (e, ow, r) =>
        exists a : result Z, l = [Ev (GHRemoveRunner (scopeOf e ow r) id) a] /\
          (o = Done None <-> a = Val 204)
    end).
Proof.
  unfold RemoveRunner.
  destruct (getEnterpriseOrganizationAndRepo enterprise org repo) as [[[e ow] r]|er]; [|done].
  simpl. intros a. exists a. split; [done|].
  destruct a as [status|er]; [|done]. destruct (Z.eqb_spec status 204); naive_solver.
Qed.
