(* ===== verification/RunnerGroups.v ===== *)
(** * Runner groups and their visibility (src/simulator)

    The list of runner groups in order of precedence, kept sorted by a binary
    search, and which of them a repository can see. *)

From stdpp Require Import base list gmap strings sorting.
From Stdlib Require Import ZArith Lia.
From S2P Require Import Prelude Api GoStrings GitHubClient.

Open Scope string_scope.
Open Scope Z_scope.

Inductive RunnerGroupScope := Organization | Enterprise.
Inductive RunnerGroupKind := Default | Custom.

Record RunnerGroup := mkRunnerGroup {
  rg_Scope : RunnerGroupScope;
  rg_Kind : RunnerGroupKind;
  rg_Name : string
}.

#[global] Instance RunnerGroupScope_eq_dec : EqDecision RunnerGroupScope.
Proof. solve_decision. Defined.
#[global] Instance RunnerGroupKind_eq_dec : EqDecision RunnerGroupKind.
Proof. solve_decision. Defined.
#[global] Instance RunnerGroup_eq_dec : EqDecision RunnerGroup.
Proof. solve_decision. Defined.

(** The integers behind the Go constants. *)
Definition scopeInt (s : RunnerGroupScope) : Z := match s with Organization => 0 | Enterprise => 1 end.
Definition kindInt (k : RunnerGroupKind) : Z := match k with Default => 0 | Custom => 1 end.

Definition newRunnerGroup (scope : RunnerGroupScope) (name : string) : RunnerGroup :=
  if decide (name = "") then {| rg_Scope := scope; rg_Kind := Default; rg_Name := "" |}
  else {| rg_Scope := scope; rg_Kind := Custom; rg_Name := name |}.

Definition NewRunnerGroupFromGitHub (g : GHRunnerGroup) : RunnerGroup :=
  let name := if gg_Default g then "" else gg_Name g in
  let scope := if gg_Inherited g then Enterprise else Organization in
  newRunnerGroup scope name.

Definition NewRunnerGroupFromProperties (enterprise organization group : string) : RunnerGroup :=
  let scope := if decide (enterprise <> "") then Enterprise else Organization in
  newRunnerGroup scope group.

(** [VisibleRunnerGroups] is its [sortedGroups]. *)
Definition VisibleRunnerGroups : Type := list RunnerGroup.

(** The [String] methods; a scope or kind other than these panics. *)
Definition RunnerGroupScope_String (s : RunnerGroupScope) : string :=
  match s with Organization => "Organization" | Enterprise => "Enterprise" end.
Definition RunnerGroupKind_String (s : RunnerGroupKind) : string :=
  match s with Default => "Default" | Custom => "Custom" end.
Definition RunnerGroup_String (r : RunnerGroup) : string :=
  "RunnerGroup{Scope:" +:+ RunnerGroupScope_String (rg_Scope r) +:+ ", Kind:" +:+ RunnerGroupKind_String (rg_Kind r)
    +:+ ", Name:" +:+ rg_Name r +:+ "}".
Definition VisibleRunnerGroups_String (g : VisibleRunnerGroups) : string := Join (map RunnerGroup_String g) ", ".

Definition IsEmpty (g : VisibleRunnerGroups) : bool := Nat.eqb (length g) 0.

Definition Includes (g : VisibleRunnerGroups) (ref : RunnerGroup) : bool :=
  existsb (fun r => bool_decide (rg_Scope r = rg_Scope ref) && bool_decide (rg_Kind r = rg_Kind ref) &&
                    bool_decide (rg_Name r = rg_Name ref)) g.

(** The loop of [sort.Search]; [i <= j] halves its distance each time. *)
Fixpoint searchLoop (fuel : nat) (f : nat -> bool) (i j : nat) : nat :=
  match fuel with
  | O => i
  | S fuel =>
      if (i <? j)%nat then
        let h := ((i + j) / 2)%nat in
        if f h then searchLoop fuel f i h else searchLoop fuel f (S h) j
      else i
  end.

Definition Search (n : nat) (f : nat -> bool) : nat := searchLoop (S n) f 0 n.

(** Whether [rg] goes before [data]. *)
Definition goesBefore (rg data : RunnerGroup) : bool :=
  if kindInt (rg_Kind data) <? kindInt (rg_Kind rg) then false
  else if kindInt (rg_Kind rg) <? kindInt (rg_Kind data) then true
  else if scopeInt (rg_Scope data) <? scopeInt (rg_Scope rg) then false
  else if scopeInt (rg_Scope rg) <? scopeInt (rg_Scope data) then true
  else false.

Definition insertGroup (g : VisibleRunnerGroups) (rg : RunnerGroup) (i : nat) : VisibleRunnerGroups :=
  (take i g ++ [rg] ++ drop i g)%list.

Definition Add (g : VisibleRunnerGroups) (rg : RunnerGroup) : VisibleRunnerGroups :=
  let i := Search (length g) (fun i =>
    match g !! i with Some data => goesBefore rg data | None => false end) in
  insertGroup g rg i.

(** The callback either goes on ([None]) or stops with a value. *)
Fixpoint Traverse {T : Type} (g : VisibleRunnerGroups) (f : RunnerGroup -> M (result (option T)))
  : M (result (option T)) :=
  match g with
  | [] => Ret (Val None)
  | rg :: g =>
      try r <- f rg ;;
      match r with
      | Some t => Ret (Val (Some t))
      | None => Traverse g f
      end
  end.

(** ** Visibility *)

Definition hasRepoAccessToOrganizationRunnerGroup (fuel : nat) (org : string) (runnerGroupId : Z)
  (repo : string) : M (result bool) :=
  try repos <- ListRunnerGroupRepositoryAccesses fuel org runnerGroupId ;;
  Ret (Val (bool_decide (repo ∈ repos))).

Fixpoint collectVisible (fuel : nat) (org repo : string) (managed : VisibleRunnerGroups)
  (gs : list GHRunnerGroup) (visible : VisibleRunnerGroups) : M (result VisibleRunnerGroups) :=
  match gs with
  | [] => Ret (Val visible)
  | g :: gs =>
      let ref := NewRunnerGroupFromGitHub g in
      if negb (Includes managed ref) then collectVisible fuel org repo managed gs visible
      else if negb (bool_decide (gg_Visibility g = "all")) then
        try hasAccess <- hasRepoAccessToOrganizationRunnerGroup fuel org (gg_ID g) repo ;;
        if negb hasAccess then collectVisible fuel org repo managed gs visible
        else collectVisible fuel org repo managed gs (Add visible ref)
      else collectVisible fuel org repo managed gs (Add visible ref)
  end.

Definition GetRunnerGroupsVisibleToRepository (fuel : nat) (githubBaseURL org repo : string)
  (managed : VisibleRunnerGroups) : M (result VisibleRunnerGroups) :=
  if decide (org = "") then Panic "BUG: owner should not be empty in this context."
  else if decide (githubBaseURL = "https://github.com/") then
    try runnerGroups <- ListOrganizationRunnerGroupsForRepository fuel org repo ;;
    Ret (Val (fold_left (fun visible g =>
      let ref := NewRunnerGroupFromGitHub g in
      if negb (Includes managed ref) then visible else Add visible ref) runnerGroups []))
  else
    try runnerGroups <- ListOrganizationRunnerGroups fuel org ;;
    collectVisible fuel org repo managed runnerGroups [].

(** * Theorems *)

(** The precedence: default groups first, then organization before
    enterprise. *)
Definition rank (rg : RunnerGroup) : Z := 2 * kindInt (rg_Kind rg) + scopeInt (rg_Scope rg).

Definition sortedGroups (g : VisibleRunnerGroups) : Prop :=
  StronglySorted (fun a b => rank a <= rank b) g.

Lemma goesBefore_rank rg data : goesBefore rg data = (rank rg <? rank data).
Proof. by destruct rg as [[] [] ?], data as [[] [] ?]. Qed.

(** [sort.Search] finds the first index where a monotone predicate holds. *)
Lemma searchLoop_spec fuel f i j n :
  (i <= j <= n)%nat -> (j - i < fuel)%nat ->
  (forall a b, (a <= b < n)%nat -> f a = true -> f b = true) ->
  (forall a, (a < i)%nat -> f a = false) -> (forall a, (j <= a < n)%nat -> f a = true) ->
  let r := searchLoop fuel f i j in
  (r <= n)%nat /\ (forall a, (a < r)%nat -> f a = false) /\ (forall a, (r <= a < n)%nat -> f a = true).
Proof.
  intros Hij Hfuel Hmono. revert i j Hij Hfuel.
  induction fuel as [|fuel IH]; intros i j Hij Hfuel Hlo Hhi; [lia|].
  cbn [searchLoop]. destruct (Nat.ltb_spec i j).
  - assert (i <= (i + j) / 2 < j)%nat as Hh.
    { pose proof (Nat.div_mod_eq (i + j) 2). pose proof (Nat.mod_upper_bound (i + j) 2 ltac:(lia)). lia. }
    set (h := ((i + j) / 2)%nat) in *. clearbody h. destruct (f h) eqn:Hf.
    + apply IH; [lia|lia|done|]. intros a Ha. apply (Hmono h); [lia|done].
    + apply IH; [lia|lia| |done]. intros a Ha. destruct (f a) eqn:Hfa; [|done].
      rewrite (Hmono a h) in Hf; [done|lia|done].
  - assert (i = j) as -> by lia. simpl. split_and!; [lia|done|done].
Qed.

Lemma Add_split g rg :
  sortedGroups g ->
  exists g1 g2, g = (g1 ++ g2)%list /\ Add g rg = (g1 ++ rg :: g2)%list /\
    Forall (fun x => rank x <= rank rg) g1 /\ Forall (fun x => rank rg < rank x) g2.
Proof.
  intros Hs. unfold Add, insertGroup.
  set (f := fun i => match g !! i with Some data => goesBefore rg data | None => false end).
  assert (forall i x, g !! i = Some x -> f i = (rank rg <? rank x)) as Hf.
  { intros i x Hx. unfold f. by rewrite Hx, goesBefore_rank. }
  assert (forall a b x y, (a <= b)%nat -> g !! a = Some x -> g !! b = Some y -> rank x <= rank y) as Hle.
  { intros a b x y Hab Hx Hy. destruct (decide (a = b)) as [->|Hne]; [simplify_eq; lia|].
    rewrite <- (take_drop_middle g a x Hx) in Hs. apply StronglySorted_app_1_r in Hs.
    apply StronglySorted_inv in Hs as [_ Hs]. rewrite Forall_forall in Hs. apply Hs.
    apply list_elem_of_lookup. exists (b - S a)%nat. rewrite lookup_drop.
    by replace (S a + (b - S a))%nat with b by lia. }
  destruct (searchLoop_spec (S (length g)) f 0 (length g) (length g)) as (Hr & Hlo & Hhi);
    [lia|lia| |lia|lia|].
  { intros a b Hab Ha. destruct (lookup_lt_is_Some_2 g a) as [x Hx]; [lia|].
    destruct (lookup_lt_is_Some_2 g b) as [y Hy]; [lia|].
    rewrite (Hf _ _ Hx) in Ha. rewrite (Hf _ _ Hy). pose proof (Hle a b x y ltac:(lia) Hx Hy). lia. }
  fold (Search (length g) f) in *. set (r := Search (length g) f) in *.
  exists (take r g), (drop r g). split_and!; [by rewrite take_drop|done| |]; apply Forall_lookup.
  - intros i x Hx. apply lookup_take_Some in Hx as [Hx Hi]. specialize (Hlo i Hi).
    rewrite (Hf _ _ Hx) in Hlo. lia.
  - intros i x Hx. rewrite lookup_drop in Hx. specialize (Hhi (r + i)%nat).
    rewrite (Hf _ _ Hx) in Hhi. pose proof (lookup_lt_Some _ _ _ Hx). lia.
Qed.

(** adding a group by binary search keeps the precedence order and is the
    stable insertion: after every group of the same or higher precedence and
    before every group of lower precedence; nothing else changes. *)
Theorem Add_sorted g rg :
  sortedGroups g ->
  Add g rg = (List.filter (fun x => rank x <=? rank rg) g ++
              rg :: List.filter (fun x => negb (rank x <=? rank rg)) g)%list /\
  sortedGroups (Add g rg) /\ Add g rg ≡ₚ rg :: g.
Proof.
  intros Hs. destruct (Add_split g rg Hs) as (g1 & g2 & -> & -> & H1 & H2).
  assert (forall (f : RunnerGroup -> bool) l, Forall (fun x => f x = true) l -> List.filter f l = l) as Hall.
  { intros f l. induction 1 as [|x l Hx _ IH]; simpl; [done|]. by rewrite Hx, IH. }
  assert (forall (f : RunnerGroup -> bool) l, Forall (fun x => f x = false) l -> List.filter f l = []) as Hnone.
  { intros f l. induction 1 as [|x l Hx _ IH]; simpl; [done|]. by rewrite Hx. }
  rewrite !List.filter_app. split_and!.
  - rewrite (Hall _ g1), (Hnone _ g2), (Hnone _ g1), (Hall _ g2), app_nil_r; [done|..].
    + eapply Forall_impl; [exact H2|]. simpl. intros. lia.
    + eapply Forall_impl; [exact H1|]. simpl. intros. lia.
    + eapply Forall_impl; [exact H2|]. simpl. intros. lia.
    + eapply Forall_impl; [exact H1|]. simpl. intros. lia.
  - apply StronglySorted_app_2; [|by eapply StronglySorted_app_1_l|].
    + intros x y Hx Hy. rewrite Forall_forall in H1, H2. apply elem_of_cons in Hy as [->|Hy]; [by apply H1|].
      specialize (H1 x Hx). specialize (H2 y Hy). lia.
    + constructor; [by eapply StronglySorted_app_1_r|]. eapply Forall_impl; [exact H2|]. simpl. lia.
  - by rewrite <- Permutation_middle.
Qed.

Lemma Includes_elem g ref : Includes g ref = true <-> ref ∈ g.
Proof.
  unfold Includes. rewrite existsb_exists. split.
  - intros (x & Hx & H). apply andb_prop in H as [H H3]. apply andb_prop in H as [H1 H2].
    apply bool_decide_eq_true in H1, H2, H3. apply list_elem_of_In in Hx.
    assert (x = ref) as <- by (destruct x, ref; simpl in *; congruence). done.
  - intros H. exists ref. split; [by apply list_elem_of_In|]. by rewrite !bool_decide_true.
Qed.

(** GitHub lets the repository use the group [g]: it listed it as visible, or
    it listed it for the organization and the group is open to all
    repositories or to this one. *)
Inductive grantedBy (fuel : nat) (org repo : string) (l : log) (g : GHRunnerGroup) : Prop :=
| granted_listed gs l' :
    may (ListOrganizationRunnerGroupsForRepository fuel org repo) (Done (Val gs)) l' -> l' ⊆ l ->
    g ∈ gs -> grantedBy fuel org repo l g
| granted_all gs l' :
    may (ListOrganizationRunnerGroups fuel org) (Done (Val gs)) l' -> l' ⊆ l -> g ∈ gs ->
    gg_Visibility g = "all" -> grantedBy fuel org repo l g
| granted_access gs l' repos l'' :
    may (ListOrganizationRunnerGroups fuel org) (Done (Val gs)) l' -> l' ⊆ l -> g ∈ gs ->
    may (ListRunnerGroupRepositoryAccesses fuel org (gg_ID g)) (Done (Val repos)) l'' -> l'' ⊆ l ->
    repo ∈ repos -> grantedBy fuel org repo l g.

Lemma grantedBy_mono fuel org repo l l' g : l ⊆ l' -> grantedBy fuel org repo l g -> grantedBy fuel org repo l' g.
Proof.
  intros Hl []; [eapply granted_listed|eapply granted_all|eapply granted_access]; eauto; by etrans.
Qed.

(** A list of visible groups that is right. *)
Definition visibleOK (fuel : nat) (org repo : string) (managed : VisibleRunnerGroups) (l : log)
  (vis : VisibleRunnerGroups) : Prop :=
  sortedGroups vis /\
  Forall (fun rg => rg ∈ managed /\
    exists g, rg = NewRunnerGroupFromGitHub g /\ grantedBy fuel org repo l g) vis.

Lemma visibleOK_Add fuel org repo managed l vis g :
  visibleOK fuel org repo managed l vis -> Includes managed (NewRunnerGroupFromGitHub g) = true ->
  grantedBy fuel org repo l g -> visibleOK fuel org repo managed l (Add vis (NewRunnerGroupFromGitHub g)).
Proof.
  intros [Hs Hall] Hin Hg. destruct (Add_split vis (NewRunnerGroupFromGitHub g) Hs)
    as (g1 & g2 & -> & Hadd & H1 & H2). apply Forall_app in Hall as [Ha1 Ha2].
  split.
  - rewrite Hadd. apply StronglySorted_app_2; [|by eapply StronglySorted_app_1_l|].
    + intros x y Hx Hy. rewrite Forall_forall in H1, H2. apply elem_of_cons in Hy as [->|Hy]; [by apply H1|].
      specialize (H1 x Hx). specialize (H2 y Hy). lia.
    + constructor; [by eapply StronglySorted_app_1_r|]. eapply Forall_impl; [exact H2|]. simpl. lia.
  - rewrite Hadd. apply Forall_app_2; [done|]. constructor; [|done].
    split; [by apply Includes_elem|]. eauto.
Qed.

Lemma visibleOK_mono fuel org repo managed l l' vis :
  l ⊆ l' -> visibleOK fuel org repo managed l vis -> visibleOK fuel org repo managed l' vis.
Proof.
  intros Hl [Hs Hall]. split; [done|]. eapply Forall_impl; [exact Hall|].
  intros rg (? & g & ? & ?). eauto using grantedBy_mono.
Qed.

Lemma collectVisible_spec fuel org repo managed all l0 gs vis :
  may (ListOrganizationRunnerGroups fuel org) (Done (Val all)) l0 -> gs ⊆ all ->
  visibleOK fuel org repo managed l0 vis ->
  always (collectVisible fuel org repo managed gs vis) (fun out l => forall v, out = Done (Val v) ->
    visibleOK fuel org repo managed (l0 ++ l)%list v).
Proof.
  intros Hlist. assert (forall gs pre vis, gs ⊆ all ->
    visibleOK fuel org repo managed (l0 ++ pre)%list vis ->
    always (collectVisible fuel org repo managed gs vis) (fun out l => forall v, out = Done (Val v) ->
      visibleOK fuel org repo managed (l0 ++ pre ++ l)%list v)) as Hgen.
  { clear gs vis. induction gs as [|g gs IH]; intros pre vis Hsub Hok; simpl.
    { intros v [= <-]. by rewrite app_nil_r. }
    assert (g ∈ all) as Hg by set_solver. assert (gs ⊆ all) as Hsub' by set_solver.
    destruct (Includes managed (NewRunnerGroupFromGitHub g)) eqn:Hin; simpl; [|by apply IH].
    case_bool_decide as Hall; simpl.
    - apply IH; [done|]. apply visibleOK_Add; [done..|]. eapply granted_all; [done| |done|done]. set_solver.
    - unfold hasRepoAccessToOrganizationRunnerGroup. apply always_bind, always_bind.
      eapply always_mono; [|apply always_may_log]. intros [[repos|e]|m|] l Hm; simpl; try done.
      rewrite app_nil_r. case_bool_decide as Hr; simpl.
      + eapply always_mono; [|apply (IH (pre ++ l)%list); [done|]].
        * intros out l' H v Hv. specialize (H v Hv). by rewrite <- app_assoc in H.
        * apply visibleOK_Add; [|done|].
          -- eapply visibleOK_mono; [|done]. set_solver.
          -- eapply granted_access; [done| |done|done| |done]; set_solver.
      + eapply always_mono; [|apply (IH (pre ++ l)%list); [done|]].
        * intros out l' H v Hv. specialize (H v Hv). by rewrite <- app_assoc in H.
        * eapply visibleOK_mono; [|done]. set_solver. }
  intros Hsub Hok. apply (Hgen gs [] vis Hsub). by rewrite app_nil_r.
Qed.

(** C35: the visible groups are managed ones that GitHub grants the repository,
    in order of precedence. *)
Theorem visible_groups_granted fuel url org repo managed :
  always (GetRunnerGroupsVisibleToRepository fuel url org repo managed) (fun out l =>
    forall vis, out = Done (Val vis) -> visibleOK fuel org repo managed l vis).
Proof.
  unfold GetRunnerGroupsVisibleToRepository. case_decide; [done|].
  assert (forall l, visibleOK fuel org repo managed l []) as Hnil by (intros; split; constructor).
  case_decide.
  - apply always_bind. eapply always_mono; [|apply always_may_log].
    intros [[gs|e]|m|] l Hm; simpl; try done. intros vis [= <-]. rewrite app_nil_r.
    assert (forall gs', gs' ⊆ gs -> forall vis, visibleOK fuel org repo managed l vis ->
      visibleOK fuel org repo managed l (fold_left (fun visible g =>
        if negb (Includes managed (NewRunnerGroupFromGitHub g)) then visible
        else Add visible (NewRunnerGroupFromGitHub g)) gs' vis)) as Hfold.
    { induction gs' as [|g gs' IH]; intros Hsub vis Hok; simpl; [done|]. apply IH; [set_solver|].
      destruct (Includes managed _) eqn:Hin; simpl; [|done]. apply visibleOK_Add; [done..|].
      eapply granted_listed; [done|done|set_solver]. }
    by apply Hfold.
  - apply always_bind. eapply always_mono; [|apply always_may_log].
    intros [[gs|e]|m|] l Hm; simpl; try done. by eapply collectVisible_spec.
Qed.
