(* ===== verification/RunnerPod.v ===== *)
(** * Runner pods: what the controllers read off a pod, and their small edits

    The helpers of controllers/runner_graceful_stop.go and
    controllers/runner_controller.go that are shared by the reconcilers. *)

From stdpp Require Import base list gmap strings.
From Stdlib Require Import ZArith Lia.
From S2P Require Import Prelude Api GoStrings.

Open Scope string_scope.
Open Scope Z_scope.

(** ** Constants (controllers/constants.go, controllers/runner_controller.go) *)

Definition containerName := "runner".
Definition finalizerName := "runner.actions.summerwind.dev".
Definition runnerPodFinalizerName := "actions.summerwind.dev/runner-pod".
Definition annotationKeyPrefix := "actions-runner/".
Definition AnnotationKeyUnregistrationCompleteTimestamp :=
  annotationKeyPrefix +:+ "unregistration-complete-timestamp".
Definition AnnotationKeyRunnerCompletionWaitStartTimestamp :=
  annotationKeyPrefix +:+ "runner-completion-wait-start-timestamp".
Definition AnnotationKeyUnregistrationStartTimestamp :=
  annotationKeyPrefix +:+ "unregistration-start-timestamp".
Definition AnnotationKeyUnregistrationRequestTimestamp :=
  annotationKeyPrefix +:+ "unregistration-request-timestamp".
Definition AnnotationKeyRunnerID := annotationKeyPrefix +:+ "id".
Definition LabelKeyRunnerSetName := "runnerset-name".
Definition LabelKeyRunnerTemplateHash := "runner-template-hash".
Definition LabelKeyRunnerDeploymentName := "runner-deployment-name".
Definition SyncTimeAnnotationKey := "sync-time".
Definition EnvVarOrg := "RUNNER_ORG".
Definition EnvVarRepo := "RUNNER_REPO".
Definition EnvVarEnterprise := "RUNNER_ENTERPRISE".
Definition EnvVarEphemeral := "RUNNER_EPHEMERAL".
Definition EnvVarRunnerName := "RUNNER_NAME".
Definition EnvVarRunnerToken := "RUNNER_TOKEN".

Definition PodRunning := "Running".
Definition PodSucceeded := "Succeeded".
Definition PodFailed := "Failed".
Definition PodReady := "Ready".
Definition ConditionTrue := "True".

Definition DefaultUnregistrationRetryDelay : duration := Minute.
Definition RetryDelayOnCreateRegistrationError : duration := 3 * Minute.
Definition registrationTimeout : duration := 10 * Minute.
Definition DefaultRunnerPodRecreationDelayAfterWebhookScale : duration := 10 * Minute.
Definition retryDelayOnGitHubAPIRateLimitError : duration := 30 * Second.

(** ** Annotations *)

(** The Go pair (value, ok) is an option. *)
Definition getAnnotation (m : ObjectMeta) (key : string) : option string :=
  om_Annotations m !! key.

Definition setAnnotation (m : ObjectMeta) (key value : string) : ObjectMeta :=
  withAnnotations m (<[key := value]> (om_Annotations m)).

(** [meta.Annotations[key]]: the zero value when missing. *)
Definition annotationOrEmpty (m : ObjectMeta) (key : string) : string :=
  default "" (getAnnotation m key).

Definition annotatePod (p : Pod) (key value : string) : Pod :=
  withPodMeta p (setAnnotation (pod_Meta p) key value).

Definition podRunnerID (p : Pod) : string :=
  annotationOrEmpty (pod_Meta p) AnnotationKeyRunnerID.

(** ** Status *)

Definition podConditionTransitionTime (p : Pod) (tpe v : string) : option time :=
  option_map pc_LastTransitionTime
    (List.find (fun c => bool_decide (pc_Type c = tpe) && bool_decide (pc_Status c = v))
       (pst_Conditions (pod_Status p))).

(** Reads the clock only when the condition is present. *)
Definition podConditionTransitionTimeAfter (p : Pod) (tpe : string) (d : duration) : M bool :=
  match podConditionTransitionTime p tpe ConditionTrue with
  | None => Ret false
  | Some c => now <- ask Now ;; Ret (Before (c + d) now)
  end.

(** The first condition of type Ready decides. *)
Definition runnerPodReady (p : Pod) : bool :=
  match List.find (fun c => bool_decide (pc_Type c = PodReady)) (pst_Conditions (pod_Status p)) with
  | Some c => bool_decide (pc_Status c = ConditionTrue)
  | None => false
  end.

(** The exit code of the first terminated container named "runner". *)
Definition runnerContainerExitCode (p : Pod) : option Z :=
  match List.find (fun s => bool_decide (cs_Name s = containerName) &&
                            bool_decide (is_Some (cs_Terminated s)))
          (pst_ContainerStatuses (pod_Status p)) with
  | Some s => cs_Terminated s
  | None => None
  end.

Definition runnerPodOrContainerIsStopped (p : Pod) : bool :=
  let phase := pst_Phase (pod_Status p) in
  let stopped := bool_decide (phase = PodSucceeded) || bool_decide (phase = PodFailed) in
  stopped ||
  (bool_decide (phase = PodRunning) &&
   existsb (fun s => bool_decide (cs_Name s = containerName) &&
                     bool_decide (is_Some (cs_Terminated s)))
     (pst_ContainerStatuses (pod_Status p))).

(** ** Environment variables *)

Definition lookupEnv (env : list EnvVar) (key : string) : option string :=
  option_map ev_Value (List.find (fun e => bool_decide (ev_Name e = key)) env).

(** The first variable of that name in any container named "runner". *)
Fixpoint getRunnerEnvIn (cs : list Container) (key : string) : string :=
  match cs with
  | [] => ""
  | c :: cs =>
      if decide (c_Name c = containerName) then
        match lookupEnv (c_Env c) key with
        | Some v => v
        | None => getRunnerEnvIn cs key
        end
      else getRunnerEnvIn cs key
  end.

Definition getRunnerEnv (p : Pod) (key : string) : string :=
  getRunnerEnvIn (ps_Containers (pod_Spec p)) key.

Definition withEnv (c : Container) (env : list EnvVar) : Container :=
  {| c_Name := c_Name c; c_Image := c_Image c; c_ImagePullPolicy := c_ImagePullPolicy c;
     c_Args := c_Args c; c_Env := env; c_EnvFrom := c_EnvFrom c; c_Resources := c_Resources c;
     c_VolumeMounts := c_VolumeMounts c; c_SecurityContext := c_SecurityContext c;
     c_rest := c_rest c |}.

Fixpoint replaceEnv (env : list EnvVar) (key value : string) : list EnvVar :=
  match env with
  | [] => []
  | e :: env =>
      if decide (ev_Name e = key)
      then {| ev_Name := ev_Name e; ev_Value := value; ev_ValueFrom := ev_ValueFrom e |} :: env
      else e :: replaceEnv env key value
  end.

(** A container that has the variable gets it replaced and ends the walk; one
    that does not gets it appended and the walk goes on. *)
Fixpoint setRunnerEnvIn (cs : list Container) (key value : string) : list Container :=
  match cs with
  | [] => []
  | c :: cs =>
      if decide (c_Name c = containerName) then
        match lookupEnv (c_Env c) key with
        | Some _ => withEnv c (replaceEnv (c_Env c) key value) :: cs
        | None =>
            withEnv c (c_Env c ++ [{| ev_Name := key; ev_Value := value; ev_ValueFrom := None |}])%list
              :: setRunnerEnvIn cs key value
        end
      else c :: setRunnerEnvIn cs key value
  end.

Definition withContainers (s : PodSpec) (cs : list Container) : PodSpec :=
  {| ps_Containers := cs; ps_InitContainers := ps_InitContainers s;
     ps_EphemeralContainers := ps_EphemeralContainers s; ps_Volumes := ps_Volumes s;
     ps_RestartPolicy := ps_RestartPolicy s; ps_ImagePullSecrets := ps_ImagePullSecrets s;
     ps_SecurityContext := ps_SecurityContext s;
     ps_EnableServiceLinks := ps_EnableServiceLinks s; ps_NodeSelector := ps_NodeSelector s;
     ps_ServiceAccountName := ps_ServiceAccountName s;
     ps_AutomountServiceAccountToken := ps_AutomountServiceAccountToken s;
     ps_Affinity := ps_Affinity s; ps_Tolerations := ps_Tolerations s;
     ps_TopologySpreadConstraints := ps_TopologySpreadConstraints s;
     ps_TerminationGracePeriodSeconds := ps_TerminationGracePeriodSeconds s;
     ps_HostAliases := ps_HostAliases s; ps_DNSConfig := ps_DNSConfig s;
     ps_RuntimeClassName := ps_RuntimeClassName s; ps_rest := ps_rest s |}.

Definition setRunnerEnv (p : Pod) (key value : string) : Pod :=
  {| pod_Meta := pod_Meta p;
     pod_Spec := withContainers (pod_Spec p) (setRunnerEnvIn (ps_Containers (pod_Spec p)) key value);
     pod_Status := pod_Status p |}.

(** [mutatePod]: inject the runner name and the registration token, unless
    they are set to something already. *)
Definition mutatePod (p : Pod) (token : string) : Pod :=
  let updated := p in
  let updated :=
    if decide (getRunnerEnv p EnvVarRunnerName = "")
    then setRunnerEnv updated EnvVarRunnerName (om_Name (pod_Meta p)) else updated in
  if decide (getRunnerEnv p EnvVarRunnerToken = "")
  then setRunnerEnv updated EnvVarRunnerToken token else updated.

(** ** Finalizers and labels *)

Definition addFinalizer (finalizers : list string) (name : string) : list string * bool :=
  if bool_decide (name ∈ finalizers) then (finalizers, false) else ((finalizers ++ [name])%list, true).

Definition removeFinalizer (finalizers : list string) (name : string) : list string * bool :=
  (filter (fun n => n <> name) finalizers, bool_decide (name ∈ finalizers)).

Definition filterLabels (labels : strmap) (f : string) : strmap := delete f labels.

Definition CloneAndAddLabel (labels : strmap) (key value : string) : strmap :=
  if decide (key = "") then labels else <[key := value]> labels.

(** The clone of the match expressions is an equal value. *)
Definition CloneSelectorAndAddLabel (s : LabelSelector) (key value : string) : LabelSelector :=
  if decide (key = "") then s
  else {| ls_MatchLabels := <[key := value]> (ls_MatchLabels s);
          ls_MatchExpressions := ls_MatchExpressions s |}.

Definition getIntOrDefault (p : option Z) (d : Z) : Z := default d p.

(** [metav1.GetControllerOf] *)
Definition GetControllerOf (m : ObjectMeta) : option OwnerReference :=
  List.find or_Controller (om_OwnerReferences m).

(** * Theorems *)

Lemma getAnnotation_set m k v : getAnnotation (setAnnotation m k v) k = Some v.
Proof. apply lookup_insert_eq. Qed.

Lemma getAnnotation_set_ne m k k' v :
  k <> k' -> getAnnotation (setAnnotation m k v) k' = getAnnotation m k'.
Proof. apply lookup_insert_ne. Qed.

#[export] Hint Rewrite getAnnotation_set : arc_simpl.

Lemma lookupEnv_replace env key value v :
  lookupEnv env key = Some v -> lookupEnv (replaceEnv env key value) key = Some value.
Proof.
  unfold lookupEnv. induction env as [|e env IH]; simpl; [done|].
  case_decide as He; simpl.
  - by rewrite bool_decide_true.
  - rewrite bool_decide_false by done. auto.
Qed.

Lemma lookupEnv_append env key value :
  lookupEnv env key = None ->
  lookupEnv (env ++ [{| ev_Name := key; ev_Value := value; ev_ValueFrom := None |}])%list key
  = Some value.
Proof.
  unfold lookupEnv. induction env as [|e env IH]; simpl.
  - by rewrite bool_decide_true.
  - case_bool_decide; [done|]. auto.
Qed.

Lemma lookupEnv_replace_ne env key key' value :
  key <> key' -> lookupEnv (replaceEnv env key value) key' = lookupEnv env key'.
Proof.
  unfold lookupEnv. intros Hne. induction env as [|e env IH]; simpl; [done|].
  case_decide as He; simpl; repeat case_bool_decide; subst; done || auto.
Qed.

Lemma lookupEnv_append_ne env e key' :
  ev_Name e <> key' -> lookupEnv (env ++ [e])%list key' = lookupEnv env key'.
Proof.
  unfold lookupEnv. intros Hne. induction env as [|e' env IH]; simpl.
  - by rewrite bool_decide_false.
  - case_bool_decide; [done|]. auto.
Qed.

Definition hasRunnerContainer (p : Pod) : bool :=
  existsb (fun c => bool_decide (c_Name c = containerName)) (ps_Containers (pod_Spec p)).

(** Setting a variable of the runner container and reading it back. *)
Lemma getRunnerEnv_set p key value :
  hasRunnerContainer p = true -> getRunnerEnv (setRunnerEnv p key value) key = value.
Proof.
  unfold hasRunnerContainer, getRunnerEnv, setRunnerEnv. simpl.
  induction (ps_Containers (pod_Spec p)) as [|c cs IH]; simpl; [done|].
  case_bool_decide as Hc; simpl.
  - intros _. rewrite decide_True by done.
    destruct (lookupEnv (c_Env c) key) as [v|] eqn:Hl; simpl; rewrite decide_True by done.
    + by erewrite lookupEnv_replace.
    + by rewrite lookupEnv_append.
  - intros H. rewrite decide_False by done. simpl. rewrite decide_False by done. auto.
Qed.

(** Other variables are left alone. *)
Lemma getRunnerEnv_set_ne p key key' value :
  key <> key' -> getRunnerEnv (setRunnerEnv p key value) key' = getRunnerEnv p key'.
Proof.
  intros Hne. unfold getRunnerEnv, setRunnerEnv. simpl.
  induction (ps_Containers (pod_Spec p)) as [|c cs IH]; simpl; [done|].
  destruct (decide (c_Name c = containerName)) as [Hc|Hc]; simpl.
  - destruct (lookupEnv (c_Env c) key) eqn:Hl; simpl; rewrite decide_True by done.
    + by rewrite lookupEnv_replace_ne.
    + rewrite lookupEnv_append_ne by done. by rewrite IH.
  - by rewrite decide_False.
Qed.

Lemma setRunnerEnv_hasRunner p key value :
  hasRunnerContainer (setRunnerEnv p key value) = hasRunnerContainer p.
Proof.
  unfold hasRunnerContainer, setRunnerEnv. simpl.
  induction (ps_Containers (pod_Spec p)) as [|c cs IH]; simpl; [done|].
  destruct (decide (c_Name c = containerName)) as [Hc|Hc]; simpl.
  - destruct (lookupEnv (c_Env c) key); simpl; by rewrite bool_decide_true.
  - by rewrite IH.
Qed.

(** [mutatePod] gives a pod with a runner container a runner name and a
    token: each variable keeps the value the user set, and has the pod's name,
    respectively the registration token, when it was unset or empty; no other
    variable changes. *)
Theorem mutatePod_injects p token :
  hasRunnerContainer p = true ->
  getRunnerEnv (mutatePod p token) EnvVarRunnerName =
    (if decide (getRunnerEnv p EnvVarRunnerName = "") then om_Name (pod_Meta p)
     else getRunnerEnv p EnvVarRunnerName) /\
  getRunnerEnv (mutatePod p token) EnvVarRunnerToken =
    (if decide (getRunnerEnv p EnvVarRunnerToken = "") then token
     else getRunnerEnv p EnvVarRunnerToken) /\
  (forall key, key <> EnvVarRunnerName -> key <> EnvVarRunnerToken ->
     getRunnerEnv (mutatePod p token) key = getRunnerEnv p key).
Proof.
  intros Hr. assert (EnvVarRunnerToken <> EnvVarRunnerName) as Hne by done.
  unfold mutatePod. do 2 case_decide; split_and!; intros;
    rewrite ?getRunnerEnv_set_ne by done; rewrite ?getRunnerEnv_set;
    rewrite ?setRunnerEnv_hasRunner; done.
Qed.

(** Removing the finalizer that was just added gives the list back, and adding
    is refused exactly when it is there. *)
Lemma finalizer_roundtrip l name :
  name ∉ l -> removeFinalizer (addFinalizer l name).1 name = (l, true).
Proof.
  intros H. unfold addFinalizer, removeFinalizer. rewrite bool_decide_false by done. simpl.
  rewrite bool_decide_true by set_solver. f_equal.
  rewrite filter_app. rewrite filter_cons_False by auto. rewrite filter_nil, app_nil_r.
  induction l as [|x l IH]; [done|]. rewrite filter_cons_True by set_solver. f_equal. set_solver.
Qed.
