(* ===== verification/GracefulStop.v ===== *)
(** * Stopping a runner gracefully (src/controllers/runner_graceful_stop.go)

    [tickRunnerGracefulStop] is called again and again until it says that the
    runner pod may be deleted.  A Go pointer that may be nil is an option; a
    dereference of nil is a panic. *)

From stdpp Require Import base list gmap strings.
From Stdlib Require Import ZArith Lia.
From S2P Require Import Prelude Api GoStrings GitHubClient RunnerPod.

Open Scope string_scope.
Open Scope Z_scope.

Definition nilDeref {A : Type} : M A :=
  Panic "runtime error: invalid memory address or nil pointer dereference".

Section GracefulStop.
Context {rfc : RFC3339}.

(** Pages of runners followed by [ListRunners]. *)
Context (fuel : nat).

Definition annotatePodOnce (pod : option Pod) (k v : string) : M (result (option Pod)) :=
  match pod with
  | None => Ret (Val None)
  | Some p =>
      match getAnnotation (pod_Meta p) k with
      | Some _ => Ret (Val (Some p))
      | None =>
          try updated <- ask (Patch KPod (annotatePod p k v) p) ;;
          Ret (Val (Some updated))
      end
  end.

Definition getRunner (enterprise org repo name : string) : M (result (option GHRunner)) :=
  try runners <- ListRunners fuel enterprise org repo ;;
  Ret (Val (List.find (fun r => bool_decide (gr_Name r = name)) runners)).

Definition unregisterRunner (enterprise org repo name : string) (id : Z)
  : M (bool * option err) :=
  e <- RemoveRunner enterprise org repo id ;;
  Ret (match e with
       | Some e => (false, Some e)
       | None => (true, None)
       end).

(** The runner ID of the pod's annotation, or else the one GitHub lists under
    the runner's name; [inr] is an early return. *)
Definition findRunnerID (enterprise org repo runner : string) (p : Pod)
  : M (option Z + option Result * option err) :=
  match getAnnotation (pod_Meta p) AnnotationKeyRunnerID with
  | Some id =>
      match ParseInt id with
      | None => Ret (inr (Some noResult, Some (newError ("strconv.ParseInt: parsing " +:+ id))))
      | Some v => Ret (inl (Some v))
      end
  | None =>
      r <- getRunner enterprise org repo runner ;;
      match r with
      | Err e => Ret (inr (Some noResult, Some e))
      | Val None => Ret (inl None)
      | Val (Some r) => Ret (inl (gr_ID r))
      end
  end.

(** What follows a failed unregistration. *)
Definition onUnregistrationError (retryDelay : duration)
  (enterprise organization repository runner : string) (p : Pod) (code : option Z) (e : err)
  : M (option Result * option err) :=
  if err_ratelimit e then
    Ret (Some {| Requeue := false; RequeueAfter := retryDelayOnGitHubAPIRateLimitError |}, Some e)
  else
    match err_status e with
    | None => Ret (Some noResult, Some e)
    | Some status =>
        if status =? 403 then Ret (None, None)
        else
          _ <- getRunner enterprise organization repository runner ;;
          let runnerBusy := status =? 422 in
          if runnerBusy && bool_decide (is_Some code) then Ret (None, None)
          else if runnerBusy then
            if decide (getRunnerEnv p EnvVarEphemeral = "true") then
              now <- ask Now ;;
              r <- annotatePodOnce (Some p) AnnotationKeyRunnerCompletionWaitStartTimestamp
                     (FormatRFC3339 now) ;;
              match r with
              | Err e => Ret (Some noResult, Some e)
              | Val _ => Ret (Some noResult, None)
              end
            else Ret (Some {| Requeue := false; RequeueAfter := retryDelay |}, None)
          else Ret (Some noResult, Some e)
    end.

(** A nil first component means that the pod may be deleted. *)
Definition ensureRunnerUnregistration (retryDelay : duration)
  (enterprise organization repository runner : string) (pod : option Pod)
  : M (option Result * option err) :=
  match pod with
  | None => nilDeref
  | Some p =>
      id <- findRunnerID enterprise organization repository runner p ;;
      match id with
      | inr ret => Ret ret
      | inl runnerID =>
          let code := runnerContainerExitCode p in
          if decide (annotationOrEmpty (pod_Meta p) AnnotationKeyUnregistrationCompleteTimestamp <> "")
          then Ret (None, None)
          else
            match runnerID with
            | None => Ret (None, None)
            | Some id =>
                if runnerPodOrContainerIsStopped p then Ret (None, None)
                else if decide (annotationOrEmpty (pod_Meta p)
                                  AnnotationKeyRunnerCompletionWaitStartTimestamp <> "")
                then Ret (Some {| Requeue := false; RequeueAfter := retryDelay |}, None)
                else
                  let* (ok, e) := unregisterRunner enterprise organization repository runner id in
                  match e with
                  | Some e =>
                      onUnregistrationError retryDelay enterprise organization repository runner p code e
                  | None =>
                      if ok : bool then Ret (None, None)
                      else Ret (Some {| Requeue := false; RequeueAfter := retryDelay |}, None)
                  end
            end
      end
  end.

(** (pod, result, error): a pod and no result when the pod may be deleted. *)
Definition tickRunnerGracefulStop (retryDelay : duration)
  (enterprise organization repository runner : string) (pod : option Pod)
  : M (option Pod * option Result * option err) :=
  now <- ask Now ;;
  r <- annotatePodOnce pod AnnotationKeyUnregistrationStartTimestamp (FormatRFC3339 now) ;;
  match r with
  | Err e => Ret (None, Some noResult, Some e)
  | Val pod =>
      let* (res, e) := ensureRunnerUnregistration retryDelay enterprise organization repository runner pod in
      match res with
      | Some res => Ret (None, Some res, e)
      | None =>
          now <- ask Now ;;
          r <- annotatePodOnce pod AnnotationKeyUnregistrationCompleteTimestamp (FormatRFC3339 now) ;;
          match r with
          | Err e => Ret (None, Some noResult, Some e)
          | Val pod => Ret (pod, None, None)
          end
      end
  end.

Definition ensureRunnerPodRegistered (enterprise organization repository runner : string) (p : Pod)
  : M (option Pod * option Result * option err) :=
  let retry := Some {| Requeue := false; RequeueAfter := 10 * Second |} in
  let hasRunnerID := bool_decide (is_Some (getAnnotation (pod_Meta p) AnnotationKeyRunnerID)) in
  if runnerPodOrContainerIsStopped p || hasRunnerID then Ret (Some p, None, None)
  else
    r <- getRunner enterprise organization repository runner ;;
    match r with
    | Err e => Ret (None, retry, Some e)
    | Val None => Ret (None, retry, None)
    | Val (Some r) =>
        match gr_ID r with
        | None => Ret (None, retry, None)
        | Some id =>
            u <- annotatePodOnce (Some p) AnnotationKeyRunnerID (FormatInt id) ;;
            match u with
            | Err e => Ret (None, retry, Some e)
            | Val updated => Ret (updated, None, None)
            end
        end
    end.

End GracefulStop.

(** ** When a pod may be deleted

    Where GitHub is asked about the runner of a configuration. *)
Definition runnerScope (enterprise org repo : string) : option ghscope :=
  match getEnterpriseOrganizationAndRepo enterprise org repo with
  | Val (e, o, r) => Some (scopeOf e o r)
  | Err _ => None
  end.

(** The exchanges of a complete listing of the runners of a scope from a page
    on, and what was listed: each page names the next one, the last none. *)
Inductive listing (s : ghscope) : Z -> log -> list GHRunner -> Prop :=
| listing_last page rs :
    listing s page [EvA (GHListRunners s page) (Val (rs, 0))] rs
| listing_next page rs next l rs' :
    next <> 0 -> listing s next l rs' ->
    listing s page (EvA (GHListRunners s page) (Val (rs, next)) :: l) (rs ++ rs')%list.

Definition runnerNamed (name : string) (rs : list GHRunner) : option GHRunner :=
  List.find (fun r => bool_decide (gr_Name r = name)) rs.

(** The exchanges begin with a complete listing, and its first runner of this
    name has this ID. *)
Definition registeredAs (s : ghscope) (l : log) (runner : string) (id : Z) : Prop :=
  exists l0 l1 rs r, l = (l0 ++ l1)%list /\ listing s 0 l0 rs /\
    runnerNamed runner rs = Some r /\ gr_ID r = Some id.

(** The exchanges begin with a complete listing, whose first runner of this
    name, if there is one, has no ID. *)
Definition unregistered (s : ghscope) (l : log) (runner : string) : Prop :=
  exists l0 l1 rs, l = (l0 ++ l1)%list /\ listing s 0 l0 rs /\
    forall r id, runnerNamed runner rs = Some r -> gr_ID r <> Some id.

(** The ID by which GitHub is asked to remove the runner of a pod: the one
    the pod is annotated with, or else the one listed. *)
Definition removedAs (s : ghscope) (p : Pod) (l : log) (runner : string) (id : Z) : Prop :=
  match getAnnotation (pod_Meta p) AnnotationKeyRunnerID with
  | Some v => ParseInt v = Some id
  | None => registeredAs s l runner id
  end.

(** The observation of GitHub or of the pod that justifies deleting the pod of
    [runner], configured for the scope [sc], after the exchanges [l]. *)
Inductive deletionSafe (sc : option ghscope) (p : Pod) (runner : string) (l : log) : Prop :=
| safe_complete :
    annotationOrEmpty (pod_Meta p) AnnotationKeyUnregistrationCompleteTimestamp <> "" ->
    deletionSafe sc p runner l
| safe_unregistered s :
    sc = Some s ->
    getAnnotation (pod_Meta p) AnnotationKeyRunnerID = None -> unregistered s l runner ->
    deletionSafe sc p runner l
| safe_stopped :
    runnerPodOrContainerIsStopped p = true ->
    deletionSafe sc p runner l
| safe_removed s id :
    sc = Some s -> removedAs s p l runner id ->
    EvA (GHRemoveRunner s id) (Val 204) ∈ l ->
    deletionSafe sc p runner l
| safe_forbidden s id e :
    sc = Some s -> removedAs s p l runner id ->
    EvA (GHRemoveRunner s id) (Err e) ∈ l -> err_status e = Some 403 ->
    deletionSafe sc p runner l
| safe_crashed s id e :
    sc = Some s -> removedAs s p l runner id ->
    EvA (GHRemoveRunner s id) (Err e) ∈ l -> err_status e = Some 422 ->
    is_Some (runnerContainerExitCode p) ->
    deletionSafe sc p runner l.

(** A pod whose runner is left alone: it has stopped, is marked as
    unregistered, or is waited for. *)
Definition spared (p : Pod) : Prop :=
  runnerPodOrContainerIsStopped p = true \/
  annotationOrEmpty (pod_Meta p) AnnotationKeyUnregistrationCompleteTimestamp <> "" \/
  annotationOrEmpty (pod_Meta p) AnnotationKeyRunnerCompletionWaitStartTimestamp <> "".

(** A pod whose registered runner is waited for: it runs, has its runner ID
    recorded and is marked as waiting, and not yet as unregistered. *)
Definition waiting (p : Pod) : Prop :=
  runnerPodOrContainerIsStopped p = false /\
  is_Some (getAnnotation (pod_Meta p) AnnotationKeyRunnerID) /\
  annotationOrEmpty (pod_Meta p) AnnotationKeyUnregistrationCompleteTimestamp = "" /\
  annotationOrEmpty (pod_Meta p) AnnotationKeyRunnerCompletionWaitStartTimestamp <> "".

(** The server stores the annotations it is sent, and a metadata patch does
    not change a status. *)
Definition storesPods (l : log) : Prop :=
  forall o base q, EvA (Patch KPod o base) (Val q) ∈ l ->
    pod_Status q = pod_Status o /\ om_Annotations (pod_Meta q) = om_Annotations (pod_Meta o).

(** Whether an exchange asks GitHub to remove a runner. *)
Definition isRemoval (e : event ans) : bool :=
  match ev_req e with GHRemoveRunner _ _ => true | _ => false end.

(** What a tick may do besides reading: annotate a pod with the marks of the
    protocol and ask GitHub to remove a runner. *)
Inductive tickWrite : event ans -> Prop :=
| tw_read e : isRead (ev_req e) = true -> tickWrite e
| tw_annotate q k v r :
    k ∈ [AnnotationKeyUnregistrationStartTimestamp; AnnotationKeyUnregistrationCompleteTimestamp;
         AnnotationKeyRunnerCompletionWaitStartTimestamp] ->
    tickWrite (EvA (Patch KPod (annotatePod q k v) q) r)
| tw_remove s id r : tickWrite (EvA (GHRemoveRunner s id) r).

(** * Theorems *)

Section Facts.
Context {rfc : RFC3339} (fuel : nat).

Lemma paginate_listed fl msg enterprise org repo page acc :
  always (paginate fl msg (listRunners enterprise org repo) page acc) (fun o l =>
    Forall (fun e => isRemoval e = false) l /\
    match o with
    | Done (Val rs) => exists rs', rs = (acc ++ rs')%list /\ listing (scopeOf enterprise org repo) page l rs'
    | Done (Err _) | Exhausted => True
    | Panicked _ => False
    end).
Proof.
  revert page acc. induction fl as [|fl IH]; intros page acc; simpl; [done|].
  intros [[rs next]|e]; simpl; [|by repeat constructor].
  destruct (Z.eqb_spec next 0) as [->|Hn]; simpl.
  - split; [by repeat constructor|]. exists rs. split; [done|constructor].
  - eapply always_mono; [|apply IH]. intros o l [Hl Ho]. split; [by constructor|].
    destruct o as [[x|?]|?|]; [|done..]. destruct Ho as (rs' & -> & Hrs').
    exists (rs ++ rs')%list. split; [by rewrite app_assoc|]. by constructor.
Qed.

Lemma getRunner_spec enterprise org repo name :
  always (getRunner fuel enterprise org repo name) (fun o l =>
    Forall (fun e => isRemoval e = false) l /\
    match o with
    | Done (Val r) => exists s rs, runnerScope enterprise org repo = Some s /\
        listing s 0 l rs /\ runnerNamed name rs = r
    | Done (Err _) | Exhausted => True
    | Panicked _ => False
    end).
Proof.
  unfold getRunner, ListRunners, runnerScope. apply always_bind.
  destruct (getEnterpriseOrganizationAndRepo enterprise org repo) as [[[e ow] rp]|er];
    [|by simpl].
  eapply always_mono; [|apply paginate_listed].
  intros [[rs|e']|m|] l [Hl Ho]; simpl; rewrite ?app_nil_r; [|done..].
  destruct Ho as (rs' & -> & Ho). eauto 10.
Qed.

Lemma getEnterprise_err_status enterprise org repo e :
  getEnterpriseOrganizationAndRepo enterprise org repo = Err e -> err_status e = None.
Proof.
  unfold getEnterpriseOrganizationAndRepo, splitOwnerAndRepo.
  intros H. repeat case_match; simplify_eq; done.
Qed.

(** [unregisterRunner] has two outcomes only: it never returns (false, nil). *)
Lemma unregisterRunner_spec enterprise org repo name id :
  always (unregisterRunner enterprise org repo name id) (fun o l =>
    match o with
    | Done (true, None) => exists s, runnerScope enterprise org repo = Some s /\
        EvA (GHRemoveRunner s id) (Val 204) ∈ l
    | Done (false, Some e) =>
        err_status e = None \/
        exists s e0, runnerScope enterprise org repo = Some s /\
          EvA (GHRemoveRunner s id) (Err e0) ∈ l /\ err_status e0 = err_status e
    | _ => False
    end).
Proof.
  unfold unregisterRunner, RemoveRunner, runnerScope.
  destruct (getEnterpriseOrganizationAndRepo enterprise org repo) as [[[e ow] rp]|er] eqn:He.
  - simpl. intros [status|er]; simpl.
    + destruct (Z.eqb_spec status 204) as [->|]; simpl; [|by left].
      eexists. split; [done|]. by apply list_elem_of_singleton.
    + right. do 2 eexists. split_and!; [done|by apply list_elem_of_singleton|done].
  - simpl. left. by eapply getEnterprise_err_status.
Qed.

Lemma onUnregistrationError_spec retryDelay enterprise org repo runner p e :
  always (onUnregistrationError fuel retryDelay enterprise org repo runner p (runnerContainerExitCode p) e)
    (fun o _ =>
      match o with
      | Done (None, e') =>
          e' = None /\
          (err_status e = Some 403 \/
           err_status e = Some 422 /\ is_Some (runnerContainerExitCode p))
      | Panicked _ => False
      | _ => True
      end).
Proof.
  unfold onUnregistrationError. destruct (err_ratelimit e); [done|].
  destruct (err_status e) as [status|]; [|done].
  destruct (Z.eqb_spec status 403) as [->|]; [by simpl; auto|].
  apply always_bind. eapply always_mono; [|apply getRunner_spec].
  intros [r|m|] l [_ Ho]; [|done..]. clear Ho.
  destruct (Z.eqb_spec status 422) as [->|]; simpl; [|done].
  case_bool_decide; simpl; [by auto|].
  case_decide; [|done]. simpl. intros now. unfold annotatePodOnce.
  case_match; simpl; [done|]. by intros [a|a].
Qed.

Lemma registeredAs_app s l l' runner id :
  registeredAs s l runner id -> registeredAs s (l ++ l')%list runner id.
Proof. intros (l0 & l1 & rs & r & -> & ?). exists l0, (l1 ++ l')%list, rs, r. by rewrite app_assoc. Qed.

Lemma removedAs_app s p l l' runner id :
  removedAs s p l runner id -> removedAs s p (l ++ l')%list runner id.
Proof. unfold removedAs. destruct (getAnnotation _ _); [done|apply registeredAs_app]. Qed.

Lemma findRunnerID_spec enterprise org repo runner p :
  always (findRunnerID fuel enterprise org repo runner p) (fun o l =>
    match o with
    | Done (inl None) => exists s, runnerScope enterprise org repo = Some s /\
        getAnnotation (pod_Meta p) AnnotationKeyRunnerID = None /\ unregistered s l runner
    | Done (inl (Some id)) => forall s, runnerScope enterprise org repo = Some s -> removedAs s p l runner id
    | Done (inr (r, _)) => is_Some r
    | Panicked _ => False
    | Exhausted => True
    end).
Proof.
  unfold findRunnerID, removedAs. destruct (getAnnotation _ _) as [v|]; [case_match; simpl; eauto|].
  apply always_bind. eapply always_mono; [|apply getRunner_spec].
  intros [[r|e]|m|] l [_ Ho]; simpl; rewrite ?app_nil_r; try done; eauto.
  destruct Ho as (s & rs & Hs & Hl & Hf).
  assert (l = l ++ [])%list as Hnil by by rewrite app_nil_r.
  destruct r as [r|]; simpl; rewrite ?app_nil_r; [destruct (gr_ID r) as [id|] eqn:Hid|].
  - intros s' [= <-]%(eq_trans (eq_sym Hs)). exists l, [], rs, r. eauto.
  - exists s. split_and!; [done..|]. exists l, [], rs. split_and!; [done..|]. congruence.
  - exists s. split_and!; [done..|]. exists l, [], rs. split_and!; [done..|]. congruence.
Qed.

Lemma ensureRunnerUnregistration_spec retryDelay enterprise org repo runner p :
  always (ensureRunnerUnregistration fuel retryDelay enterprise org repo runner (Some p))
    (fun o l =>
      match o with
      | Done (None, e) => e = None /\ deletionSafe (runnerScope enterprise org repo) p runner l
      | Panicked _ => False
      | _ => True
      end).
Proof.
  unfold ensureRunnerUnregistration. apply always_bind.
  eapply always_mono; [|apply findRunnerID_spec].
  intros [[[id|]|[[res|] er]]|m|] l Ho; simpl in *; try done.
  - case_decide as Hc; simpl; [split; [done|by apply safe_complete]|].
    destruct (runnerPodOrContainerIsStopped p) eqn:Hst; simpl;
      [split; [done|by apply safe_stopped]|].
    case_decide; [done|]. apply always_bind.
    eapply always_mono; [|apply unregisterRunner_spec].
    intros [[[] [e|]]|m|] l1 Hu; simpl in *; try done.
    + destruct Hu as (s & Hsc & Hs). split; [done|].
      apply (safe_removed _ _ _ _ s id); [done|by apply removedAs_app, Ho|set_solver].
    + eapply always_mono; [|apply onUnregistrationError_spec].
      intros [[[res|] er]|m|] l2; try done. intros [-> Hs]. split; [done|].
      destruct Hu as [Hn|(s & e0 & Hsc & Hin & Hst0)]; [destruct Hs as [?|[? _]]; congruence|].
      destruct Hs as [Hs|[Hs Hcode]].
      * eapply (safe_forbidden _ _ _ _ s id e0); [done|by apply removedAs_app, Ho|set_solver|congruence].
      * eapply (safe_crashed _ _ _ _ s id e0); [done|by apply removedAs_app, Ho|set_solver|congruence|done].
  - case_decide as Hc; simpl; split; try done; [by apply safe_complete|].
    rewrite app_nil_r. destruct Ho as (s & ? & ? & ?). by apply (safe_unregistered _ _ _ _ s).
Qed.

(** Annotating, when it succeeds, gives the pod itself or what the server
    stored for the annotated pod. *)
Lemma annotatePodOnce_spec p k v :
  always (annotatePodOnce (Some p) k v) (fun o l =>
    Forall (fun e => isRemoval e = false) l /\
    match o with
    | Done (Val q) =>
        exists q', q = Some q' /\
          ((q' = p /\ l = [] /\ is_Some (getAnnotation (pod_Meta p) k)) \/
           (getAnnotation (pod_Meta p) k = None /\
            l = [EvA (Patch KPod (annotatePod p k v) p) (Val q')]))
    | Done (Err e) =>
        getAnnotation (pod_Meta p) k = None /\
        l = [EvA (Patch KPod (annotatePod p k v) p) (Err e)]
    | _ => False
    end).
Proof.
  unfold annotatePodOnce. destruct (getAnnotation (pod_Meta p) k) eqn:Hk; simpl.
  - split; [constructor|]. exists p. eauto.
  - intros [q|e]; (split; [by repeat constructor|]); [|done]. exists q. eauto.
Qed.

Lemma annotatePodOnce_only P pod k v :
  (forall q r, P (EvA (Patch KPod (annotatePod q k v) q) r)) -> only P (annotatePodOnce pod k v).
Proof.
  intros H. unfold annotatePodOnce. destruct pod as [p|]; [|apply only_ret].
  destruct (getAnnotation _ _); [apply only_ret|].
  apply only_bind; [apply only_ask, H|]. intros [?|?]; apply only_ret.
Qed.

Lemma onlyReads_getRunner enterprise org repo name : onlyReads (getRunner fuel enterprise org repo name).
Proof. unfold getRunner. only_reads. Qed.

Section Only.
Context (P : event ans -> Prop) (HPread : forall e, isRead (ev_req e) = true -> P e)
  (HPremove : forall s id r, P (EvA (GHRemoveRunner s id) r))
  (HPwait : forall q v r, P (EvA (Patch KPod (annotatePod q AnnotationKeyRunnerCompletionWaitStartTimestamp v) q) r)).

Lemma RemoveRunner_only enterprise org repo id : only P (RemoveRunner enterprise org repo id).
Proof.
  unfold RemoveRunner, removeRunner. destruct (getEnterpriseOrganizationAndRepo _ _ _) as [[[e o] r]|?];
    [|apply only_ret].
  apply only_bind; [apply only_ask, HPremove|]. intros a. apply only_ret.
Qed.

Lemma findRunnerID_only enterprise org repo runner p : only P (findRunnerID fuel enterprise org repo runner p).
Proof.
  apply only_onlyReads; [done|]. unfold findRunnerID.
  pose proof (onlyReads_getRunner enterprise org repo runner). only_reads.
Qed.

Lemma onUnregistrationError_only retryDelay enterprise org repo runner p code e :
  only P (onUnregistrationError fuel retryDelay enterprise org repo runner p code e).
Proof.
  unfold onUnregistrationError.
  destruct (err_ratelimit e); [apply only_ret|]. destruct (err_status e) as [status|]; [|apply only_ret].
  destruct (_ =? _); [apply only_ret|].
  apply only_bind; [apply only_onlyReads; [done|apply onlyReads_getRunner]|]. intros _.
  destruct (_ && _); [apply only_ret|]. destruct (_ =? _); [|apply only_ret].
  case_decide; [|apply only_ret]. apply only_bind; [apply only_ask; by intros; apply HPread|]. intros t.
  apply only_bind; [by apply annotatePodOnce_only|]. intros [?|?]; apply only_ret.
Qed.

Lemma ensureRunnerUnregistration_only retryDelay enterprise org repo runner pod :
  only P (ensureRunnerUnregistration fuel retryDelay enterprise org repo runner pod).
Proof.
  unfold ensureRunnerUnregistration. destruct pod as [p|]; [|apply only_panic].
  apply only_bind; [apply findRunnerID_only|].
  intros [id|ret]; [|apply only_ret]. cbv zeta. case_decide; [apply only_ret|].
  destruct id as [id|]; [|apply only_ret]. destruct (runnerPodOrContainerIsStopped p); [apply only_ret|].
  case_decide; [apply only_ret|]. apply only_bind.
  { unfold unregisterRunner. apply only_bind; [apply RemoveRunner_only|]. intros [?|]; apply only_ret. }
  intros [ok [e|]]; [apply onUnregistrationError_only|destruct ok; apply only_ret].
Qed.

End Only.

Lemma tick_only retryDelay enterprise org repo runner pod :
  only tickWrite (tickRunnerGracefulStop fuel retryDelay enterprise org repo runner pod).
Proof.
  unfold tickRunnerGracefulStop. apply only_bind; [apply only_ask; by constructor|]. intros t.
  apply only_bind; [apply annotatePodOnce_only; intros; apply tw_annotate; set_solver|]. intros [q|e]; [|apply only_ret].
  apply only_bind.
  { apply ensureRunnerUnregistration_only; [apply tw_read|apply tw_remove|intros; apply tw_annotate; set_solver]. }
  intros [[res|] e]; [apply only_ret|].
  apply only_bind; [apply only_ask; by constructor|]. intros t'.
  apply only_bind; [apply annotatePodOnce_only; intros; apply tw_annotate; set_solver|]. intros [?|?]; apply only_ret.
Qed.

(** The start of a tick, and what its end adds to the log. *)
Lemma tick_spec retryDelay enterprise org repo runner p :
  always (tickRunnerGracefulStop fuel retryDelay enterprise org repo runner (Some p)) (fun o l =>
    match o with
    | Done (q, None, e) =>
        e = None /\ exists q' p1 l1 l2 l3,
          q = Some q' /\ l = (l1 ++ l2 ++ l3)%list /\
          (p1 = p \/ exists t, EvA (Patch KPod (annotatePod p
              AnnotationKeyUnregistrationStartTimestamp (FormatRFC3339 t)) p) (Val p1) ∈ l1) /\
          deletionSafe (runnerScope enterprise org repo) p1 runner l2 /\
          (q' = p1 \/ exists t, EvA (Patch KPod (annotatePod p1
              AnnotationKeyUnregistrationCompleteTimestamp (FormatRFC3339 t)) p1) (Val q') ∈ l3)
    | Done (q, Some _, _) => q = None
    | Panicked _ => False
    | Exhausted => True
    end).
Proof.
  unfold tickRunnerGracefulStop. simpl. intros t1. apply always_bind.
  eapply always_mono; [|apply annotatePodOnce_spec].
  intros [[q|e]|m|] l1 [_ H1]; simpl; try done.
  destruct H1 as (p1 & -> & Hp1). apply always_bind.
  eapply always_mono; [|apply ensureRunnerUnregistration_spec].
  intros [[[res|] e]|m|] l2 H2; simpl; try done.
  destruct H2 as [-> Hsafe]. intros t2. apply always_bind.
  eapply always_mono; [|apply annotatePodOnce_spec].
  intros [[q|e]|m|] l3 [_ H3]; simpl; rewrite ?app_nil_r; try done.
  destruct H3 as (q' & -> & Hq'). split; [done|].
  exists q', p1, (EvA Now t1 :: l1), l2, (EvA Now t2 :: l3). split_and!; [done..| |done|].
  - destruct Hp1 as [(-> & _)|[_ ->]]; [by left|]. right. exists t1. set_solver.
  - destruct Hq' as [(-> & _)|[_ ->]]; [by left|]. right. exists t2. set_solver.
Qed.

(** The registration check reads, or writes the ID of the runner registered
    under the pod's name on a pod that has none. *)
Lemma ensureRunnerPodRegistered_writes enterprise org repo runner p :
  always (ensureRunnerPodRegistered fuel enterprise org repo runner p) (fun o l =>
    Forall (fun e => isRead (ev_req e) = true \/
      (getAnnotation (pod_Meta p) AnnotationKeyRunnerID = None /\
       exists s id r, runnerScope enterprise org repo = Some s /\ registeredAs s l runner id /\
         e = EvA (Patch KPod (annotatePod p AnnotationKeyRunnerID (FormatInt id)) p) r)) l /\
    match o with
    | Done (po, None, _) => exists q, po = Some q /\ (q = p \/ exists o, EvA (Patch KPod o p) (Val q) ∈ l)
    | Done (_, Some _, _) | Exhausted => True
    | Panicked _ => False
    end).
Proof.
  unfold ensureRunnerPodRegistered. cbv zeta. destruct (_ || _) eqn:Hb.
  { simpl. split; [constructor|]. exists p. by split; [|left]. }
  apply orb_false_iff in Hb as [_ Hn]. apply bool_decide_eq_false in Hn.
  apply always_bind. eapply always_mono; [|apply (always_and _ _ _ (getRunner_spec enterprise org repo runner)
    (onlyReads_getRunner enterprise org repo runner))].
  intros out l [[_ Hs] Hr].
  assert (getAnnotation (pod_Meta p) AnnotationKeyRunnerID = None) as Hnone.
  { destruct (getAnnotation _ _); [|done]. exfalso. apply Hn. by eexists. }
  assert (forall Q, Forall (fun e : event ans => isRead (ev_req e) = true \/ Q e) l) as Hl.
  { intros Q. eapply Forall_impl; [exact Hr|]. intros ev Hev. by left. }
  destruct out as [[[r|]|e]|m|]; [|by simpl; rewrite ?app_nil_r; auto..].
  cbv beta iota. destruct (gr_ID r) as [id|] eqn:Hid; [|by simpl; rewrite app_nil_r; auto].
  destruct Hs as (s & rs & Hsc & Hlist & Hf).
  assert (forall l', registeredAs s (l ++ l')%list runner id) as Has by (intros l'; exists l, l', rs, r; done).
  assert (annotatePodOnce (Some p) AnnotationKeyRunnerID (FormatInt id) =
    (try updated <- ask (Patch KPod (annotatePod p AnnotationKeyRunnerID (FormatInt id)) p) ;;
     Ret (Val (Some updated)))) as -> by (unfold annotatePodOnce; by rewrite Hnone).
  simpl. intros a. set (ev := EvA (Patch KPod _ p) a). specialize (Has [ev]).
  destruct a as [q|e]; simpl.
  - split; [apply Forall_app_2; [by auto|]; apply Forall_singleton; right; eauto 10|].
    exists q. split; [done|]. right. eexists. apply elem_of_app. right. apply list_elem_of_here.
  - split; [|done]. apply Forall_app_2; [by auto|]. apply Forall_singleton. right. eauto 10.
Qed.

(** C5: whatever GitHub and Kubernetes answered, a pod that
    [tickRunnerGracefulStop] hands back for deletion, as it was given or as the
    server stored it with the start mark, satisfied one of six conditions.  It
    was already marked as unregistered; or it has stopped; or it has no runner
    ID recorded and its name is not in a complete listing of the runners of its
    scope (however long it has been up); or GitHub was asked in its scope to
    remove the very runner ID the pod is annotated with or listed under and
    confirmed with 204; or refused with 403, in which case the runner may still
    be registered and busy; or refused with 422 while the runner container has
    exited.  The tick never panics. *)
Theorem tick_deletionSafe retryDelay enterprise org repo runner p :
  always (tickRunnerGracefulStop fuel retryDelay enterprise org repo runner (Some p)) (fun o l =>
    (forall m, o <> Panicked m) /\
    (forall q e, o = Done (q, None, e) ->
       exists p1 l0, l0 ⊆ l /\ deletionSafe (runnerScope enterprise org repo) p1 runner l0 /\
         (p1 = p \/ exists t, EvA (Patch KPod (annotatePod p
            AnnotationKeyUnregistrationStartTimestamp (FormatRFC3339 t)) p) (Val p1) ∈ l))).
Proof.
  eapply always_mono; [|apply tick_spec].
  intros [[[q [res|]] e]|m|] l H; split; try done.
  intros q0 e0 [= -> ->]. destruct H as (_ & q' & p1 & l1 & l2 & l3 & _ & -> & Hp1 & Hs & _).
  exists p1, l2. split_and!; [set_solver|done|].
  destruct Hp1 as [->|[t Ht]]; [by left|]. right. exists t. set_solver.
Qed.

(** The runner whose pod has stopped, or is marked as unregistered, is not
    removed again. *)
Lemma ensure_no_removal retryDelay enterprise org repo runner p :
  spared p ->
  always (ensureRunnerUnregistration fuel retryDelay enterprise org repo runner (Some p))
    (fun _ l => Forall (fun e => isRemoval e = false) l).
Proof.
  unfold spared. intros Hp. unfold ensureRunnerUnregistration. apply always_bind.
  assert (always (findRunnerID fuel enterprise org repo runner p)
    (fun _ l => Forall (fun e => isRemoval e = false) l)) as Hid.
  { unfold findRunnerID. destruct (getAnnotation _ _); [by case_match; constructor|].
    apply always_bind. eapply always_mono; [|apply getRunner_spec].
    intros [[[r|]|e]|m|] l [Hl _]; simpl; rewrite ?app_nil_r; done. }
  eapply always_mono; [|exact Hid]. intros [[[id|]|ret]|m|] l Hl; simpl; try done.
  - case_decide; simpl; [by rewrite app_nil_r|].
    destruct (runnerPodOrContainerIsStopped p); simpl; [by rewrite app_nil_r|].
    rewrite decide_True by naive_solver. simpl. by rewrite app_nil_r.
  - case_decide; simpl; by rewrite app_nil_r.
  - by rewrite app_nil_r.
Qed.

Lemma spared_annotated p k v q :
  k <> AnnotationKeyUnregistrationCompleteTimestamp ->
  k <> AnnotationKeyRunnerCompletionWaitStartTimestamp ->
  pod_Status q = pod_Status p ->
  om_Annotations (pod_Meta q) = om_Annotations (pod_Meta (annotatePod p k v)) ->
  spared p -> spared q.
Proof.
  unfold spared, runnerPodOrContainerIsStopped, annotationOrEmpty, getAnnotation.
  intros ?? -> ->. simpl. by rewrite !lookup_insert_ne.
Qed.

Lemma waiting_annotated p v q :
  pod_Status q = pod_Status p ->
  om_Annotations (pod_Meta q) = om_Annotations (pod_Meta (annotatePod p AnnotationKeyUnregistrationStartTimestamp v)) ->
  waiting p -> waiting q.
Proof.
  unfold waiting, runnerPodOrContainerIsStopped, annotationOrEmpty, getAnnotation.
  intros -> ->. simpl. by rewrite !lookup_insert_ne.
Qed.

Lemma ensure_waits retryDelay enterprise org repo runner p :
  waiting p ->
  always (ensureRunnerUnregistration fuel retryDelay enterprise org repo runner (Some p))
    (fun o l => l = [] /\ exists res e, o = Done (Some res, e)).
Proof.
  intros (Hst & [v Hv] & Hc & Hw). unfold ensureRunnerUnregistration, findRunnerID. rewrite Hv.
  destruct (ParseInt v); simpl; [|by eauto]. rewrite decide_False by (by intros ?).
  rewrite Hst, decide_True by done. simpl. eauto.
Qed.

(** What the start of a tick leaves to be handled. *)
Lemma start_stored p t1 l1 l p1 (P : Pod -> Prop) :
  (p1 = p /\ l1 = [] /\ is_Some (getAnnotation (pod_Meta p) AnnotationKeyUnregistrationStartTimestamp) \/
   getAnnotation (pod_Meta p) AnnotationKeyUnregistrationStartTimestamp = None /\
   l1 = [EvA (Patch KPod (annotatePod p AnnotationKeyUnregistrationStartTimestamp (FormatRFC3339 t1)) p) (Val p1)]) ->
  (forall q, pod_Status q = pod_Status p ->
     om_Annotations (pod_Meta q)
       = om_Annotations (pod_Meta (annotatePod p AnnotationKeyUnregistrationStartTimestamp (FormatRFC3339 t1))) ->
     P p -> P q) ->
  l1 ⊆ l -> storesPods l -> P p -> P p1.
Proof.
  intros [(-> & _)|[_ ->]] HP Hsub Hst Hp; [done|].
  edestruct Hst as [? ?]; [apply Hsub, list_elem_of_singleton; done|]. by apply HP.
Qed.

(** C24: a runner that is waited for is left to finish its job, for any server
    that stores the pods it is sent.  Once the pod carries the completion-wait
    mark (or has stopped, or is marked as unregistered) no tick asks GitHub to
    remove its runner; and while such a pod runs, with its runner ID recorded
    and not marked as unregistered, every tick comes to a result that keeps
    the pod, and writes nothing but the mark that unregistration has started. *)
Theorem tick_spares_waiting_runner retryDelay enterprise org repo runner p :
  always (tickRunnerGracefulStop fuel retryDelay enterprise org repo runner (Some p)) (fun out l =>
    storesPods l ->
    (spared p -> Forall (fun e => isRemoval e = false) l) /\
    (waiting p ->
       (exists res e, out = Done (None, Some res, e)) /\
       Forall (fun e => isRead (ev_req e) = true \/ exists t r, e = EvA (Patch KPod
         (annotatePod p AnnotationKeyUnregistrationStartTimestamp (FormatRFC3339 t)) p) r) l)).
Proof.
  unfold tickRunnerGracefulStop. simpl. intros t1. apply always_bind.
  eapply always_mono; [|apply annotatePodOnce_spec].
  intros [[q|e]|m|] l1 [Hl1 H1]; simpl; [| |done..].
  2:{ rewrite app_nil_r. intros _. split; [by constructor|]. intros _. split; [by eauto|].
      destruct H1 as [_ ->]. constructor; [by left|]. constructor; [|done]. by eauto. }
  destruct H1 as (p1 & -> & Hp1).
  assert (Forall (fun e => isRead (ev_req e) = true \/ exists t r, e = EvA (Patch KPod
    (annotatePod p AnnotationKeyUnregistrationStartTimestamp (FormatRFC3339 t)) p) r) l1) as Hw1.
  { destruct Hp1 as [(_ & -> & _)|[_ ->]]; [constructor|]. constructor; [|done]. by eauto. }
  assert (forall l, storesPods (EvA Now t1 :: l1 ++ l)%list -> spared p -> spared p1) as Hsp.
  { intros l Hst. apply (start_stored p t1 l1 (EvA Now t1 :: l1 ++ l)%list p1 spared Hp1); [|set_solver|done].
    intros q' Hs Ha. by eapply spared_annotated; [| |exact Hs|exact Ha]. }
  assert (forall l, storesPods (EvA Now t1 :: l1 ++ l)%list -> waiting p -> waiting p1) as Hwp.
  { intros l Hst. apply (start_stored p t1 l1 (EvA Now t1 :: l1 ++ l)%list p1 waiting Hp1); [|set_solver|done].
    intros q' Hs Ha. by eapply waiting_annotated. }
  apply always_bind. eapply always_mono; [|apply always_and;
    [apply (always_imp _ _ _ (ensure_no_removal retryDelay enterprise org repo runner p1))
    |apply (always_imp _ _ _ (ensure_waits retryDelay enterprise org repo runner p1))]].
  intros out l2 [H2 H3].
  assert (forall l3, Forall (fun e => isRemoval e = false) l3 -> storesPods (EvA Now t1 :: l1 ++ l2 ++ l3)%list ->
    spared p -> Forall (fun e => isRemoval e = false) (EvA Now t1 :: l1 ++ l2 ++ l3)%list) as Hspare.
  { intros l3 Hl3 Hst Hp. constructor; [done|]. repeat apply Forall_app_2; eauto. }
  assert (forall l3, storesPods (EvA Now t1 :: l1 ++ l2 ++ l3)%list -> waiting p ->
    l2 = [] /\ exists res e, out = Done (Some res, e)) as Hwait by eauto.
  destruct out as [[[res|] e]|m|]; simpl; rewrite ?app_nil_r.
  - specialize (Hspare []). specialize (Hwait []). rewrite app_nil_r in Hspare, Hwait.
    intros Hst. split; [by apply Hspare|]. intros Hp. split; [by eauto|].
    destruct (Hwait Hst Hp) as [-> _]. rewrite app_nil_r. constructor; [by left|done].
  - intros t2. apply always_bind. eapply always_mono; [|apply annotatePodOnce_spec].
    intros [[q|e']|m|] l3 [Hl3 _]; simpl; rewrite ?app_nil_r; intros Hst;
      (split; [by apply (Hspare (EvA Now t2 :: l3)); [constructor|]|]);
      intros Hp; destruct (Hwait _ Hst Hp) as (_ & ? & ? & ?); done.
  - specialize (Hspare []). specialize (Hwait []). rewrite app_nil_r in Hspare, Hwait.
    intros Hst. split; [by apply Hspare|]. intros Hp. by destruct (Hwait Hst Hp) as (_ & ? & ? & ?).
  - specialize (Hspare []). specialize (Hwait []). rewrite app_nil_r in Hspare, Hwait.
    intros Hst. split; [by apply Hspare|]. intros Hp. by destruct (Hwait Hst Hp) as (_ & ? & ? & ?).
Qed.

(** [unregisterRunner]'s documented third result does not exist: it never
    returns (false, nil), so the branches that wait for a runner GitHub does
    not know are never taken. *)
Theorem unregisterRunner_never_false_nil enterprise org repo name id :
  always (unregisterRunner enterprise org repo name id) (fun o _ => o <> Done (false, None)).
Proof. eapply always_mono; [|apply unregisterRunner_spec]. by intros [[[] []]|?|] l H. Qed.

(** [tickRunnerGracefulStop] without a pod panics, although
    [ensureRunnerUnregistration] has a branch for that case. *)
Theorem tick_nil_pod_panics retryDelay enterprise org repo runner :
  always (tickRunnerGracefulStop fuel retryDelay enterprise org repo runner None)
    (fun o _ => exists m, o = Panicked m).
Proof. simpl. eauto. Qed.

(** ** Registration *)

(** [ensureRunnerPodRegistered] lets a pod pass without touching it when
    it has stopped or carries a runner ID; otherwise it passes only with the
    pod the server stored for the ID that a complete listing of GitHub has
    first under the runner's name, and the annotation written reads back as that ID. *)
Theorem ensureRunnerPodRegistered_spec enterprise org repo runner p :
  always (ensureRunnerPodRegistered fuel enterprise org repo runner p) (fun o l =>
    match o with
    | Done (Some q, res, e) =>
        res = None /\ e = None /\
        ((runnerPodOrContainerIsStopped p = true \/
          is_Some (getAnnotation (pod_Meta p) AnnotationKeyRunnerID)) /\ q = p /\ l = [] \/
         getAnnotation (pod_Meta p) AnnotationKeyRunnerID = None /\
         exists s id, runnerScope enterprise org repo = Some s /\ registeredAs s l runner id /\
           EvA (Patch KPod (annotatePod p AnnotationKeyRunnerID (FormatInt id)) p) (Val q) ∈ l /\
           (- 2 ^ 63 <= id < 2 ^ 63 ->
            ParseInt (podRunnerID (annotatePod p AnnotationKeyRunnerID (FormatInt id))) = Some id))
    | Done (None, res, _) => is_Some res
    | Panicked _ => False
    | Exhausted => True
    end).
Proof.
  unfold ensureRunnerPodRegistered. case_bool_decide as Hid.
  { rewrite orb_true_r. simpl. eauto 10. }
  rewrite orb_false_r. destruct (runnerPodOrContainerIsStopped p) eqn:Hst; [simpl; eauto 10|].
  apply always_bind. eapply always_mono; [|apply getRunner_spec].
  intros [[[r|]|e]|m|] l [_ Hf]; simpl; eauto.
  destruct (gr_ID r) as [id|] eqn:Hr; simpl; eauto. apply always_bind.
  eapply always_mono; [|apply annotatePodOnce_spec].
  intros [[q|e]|m|] l1 [_ H1]; simpl; rewrite ?app_nil_r; eauto.
  destruct H1 as (q' & -> & [(_ & _ & [? ?])|[Hnone ->]]); [destruct Hid; eauto|].
  split_and!; [done..|]. right. split; [done|]. destruct Hf as (s & rs & Hs & Hl & Hf). exists s, id.
  split_and!; [done | by eexists l, _, rs, r | set_solver |].
  - intros Hrange. unfold podRunnerID, annotationOrEmpty. simpl.
    rewrite getAnnotation_set. by apply ParseInt_FormatInt.
Qed.

End Facts.
