(* ===== verification/PodOwner.v ===== *)
(** * Synchronising the owners of runner pods (src/controllers/runner_pod_owner.go)

    The engine shared by the RunnerReplicaSet controller, whose owners are
    Runners, and the RunnerSet controller, whose owners are StatefulSets.  The
    Go interface [owner] is the class [Owner]; the theorems are proved against
    it and its two instances, and their laws, are at the end of the file. *)

From stdpp Require Import base list gmap strings sorting.
From Stdlib Require Import ZArith Lia.
From S2P Require Import Prelude Api GoStrings GitHubClient RunnerPod GracefulStop.

Open Scope string_scope.
Open Scope Z_scope.

(** ** The interface *)

Class Owner (k : kind) := {
  owner_meta : kobj k -> ObjectMeta;
  owner_pods : kobj k -> M (result (list Pod));
  owner_synced : kobj k -> bool;
  owner_withAnnotation : kobj k -> string -> string -> kobj k
}.

(** What the synchronisation relies on: listing the pods only reads, and
    always comes to a result; annotating changes the annotations only. *)
Class OwnerLaws (k : kind) {OW : Owner k} := {
  owner_pods_reads o : always (owner_pods o) (fun out l =>
    (exists r, out = Done r) /\ Forall (fun e => isRead (ev_req e) = true) l);
  owner_meta_withAnnotation o key v :
    owner_meta (owner_withAnnotation o key v) = setAnnotation (owner_meta o) key v
}.

Section Sync.
Context {k : kind} {OW : Owner k} {rfc : RFC3339}.

Definition getRunnerTemplateHash (m : ObjectMeta) : option string :=
  om_Labels m !! LabelKeyRunnerTemplateHash.

(** ** Counting pods *)

Inductive podClass := Completed | Running | RegTimeout | Terminating | Pending.

Definition classifyPod (p : Pod) : M podClass :=
  if runnerPodOrContainerIsStopped p then Ret Completed
  else if decide (pst_Phase (pod_Status p) = PodRunning) then
    timedOut <- (if decide (podRunnerID p = "")
                 then podConditionTransitionTimeAfter p PodReady registrationTimeout
                 else Ret false) ;;
    Ret (if timedOut : bool then RegTimeout else Running)
  else if negb (IsZero (om_DeletionTimestamp (pod_Meta p))) then Ret Terminating
  else Ret Pending.

Record podsForOwner := mkPodsForOwner {
  total : Z;
  completed : Z;
  running : Z;
  terminating : Z;
  regTimeout : Z;
  pending : Z;
  templateHash : string;
  owner : kobj k;
  synced : bool;
  pods : list Pod
}.

Record counts := mkCounts {
  n_total : Z;
  n_completed : Z;
  n_running : Z;
  n_terminating : Z;
  n_regTimeout : Z;
  n_pending : Z
}.

Definition count (c : counts) (cl : podClass) : counts :=
  {| n_total := n_total c + 1;
     n_completed := n_completed c + (if cl is Completed then 1 else 0);
     n_running := n_running c + (if cl is Running then 1 else 0);
     n_terminating := n_terminating c + (if cl is Terminating then 1 else 0);
     n_regTimeout := n_regTimeout c + (if cl is RegTimeout then 1 else 0);
     n_pending := n_pending c + (if cl is Pending then 1 else 0) |}.

Fixpoint countPods (ps : list Pod) (c : counts) : M counts :=
  match ps with
  | [] => Ret c
  | p :: ps => cl <- classifyPod p ;; countPods ps (count c cl)
  end.

(** [Val None] is Go's (nil, nil). *)
Definition getPodsForOwner (o : kobj k) : M (result (option podsForOwner)) :=
  try ps <- owner_pods o ;;
  c <- countPods ps (mkCounts 0 0 0 0 0 0) ;;
  match getRunnerTemplateHash (owner_meta o) with
  | None => Ret (Val None)
  | Some hash =>
      Ret (Val (Some
        {| total := n_total c; completed := n_completed c; running := n_running c;
           terminating := n_terminating c; regTimeout := n_regTimeout c; pending := n_pending c;
           templateHash := hash; owner := o; synced := owner_synced o; pods := ps |}))
  end.

(** ** Collecting the state *)

Record state := mkState {
  podsForOwners : gmap string (list podsForOwner);
  lastSyncTime : option time
}.

(** The pods that no longer run a registered runner. *)
Definition deletionSafePods (ps : list Pod) : Z :=
  Z.of_nat (length (List.filter (fun po =>
    match getAnnotation (pod_Meta po) AnnotationKeyUnregistrationCompleteTimestamp with
    | Some _ => true
    | None => negb (IsZero (om_DeletionTimestamp (pod_Meta po)))
    end) ps)).

(** The later of the last sync time so far and the owner's. *)
Definition updateLastSyncTime (last : option time) (m : ObjectMeta) : option time :=
  match getAnnotation m SyncTimeAnnotationKey with
  | None => last
  | Some a =>
      match ParseRFC3339 a with
      | None => last
      | Some t =>
          match last with
          | None => Some t
          | Some u => if Before u t then Some t else last
          end
      end
  end.

Definition addOwner (m : gmap string (list podsForOwner)) (res : podsForOwner)
  : gmap string (list podsForOwner) :=
  <[templateHash res := (default [] (m !! templateHash res) ++ [res])%list]> m.

(** One owner of [collectPodsForOwners].  [Return (Val None)] is Go's
    (nil, nil): postpone the reconcilation. *)
Definition collectOne (ss : kobj k) (st : state) : M (ctl state (result (option state))) :=
  r <- getPodsForOwner ss ;;
  match r with
  | Err e => Ret (Return (Err e))
  | Val None => nilDeref
  | Val (Some res) =>
      let meta := owner_meta (owner res) in
      if decide (templateHash res = "") then Ret (Return (Val None))
      else if negb (IsZero (om_DeletionTimestamp meta)) then Ret (Next st)
      else if decide (is_Some (getAnnotation meta AnnotationKeyUnregistrationCompleteTimestamp)) then
        e <- ask (Delete k (owner res) None) ;;
        match e with
        | Some e => Ret (Return (Err e))
        | None => Ret (Next st)
        end
      else if bool_decide (is_Some (getAnnotation meta AnnotationKeyUnregistrationRequestTimestamp)) &&
              (deletionSafePods (pods res) =? total res) then
        now <- ask Now ;;
        r <- ask (Patch k (owner_withAnnotation (owner res)
                    AnnotationKeyUnregistrationCompleteTimestamp (FormatRFC3339 now)) (owner res)) ;;
        match r with
        | Err e => Ret (Return (Err e))
        | Val _ => Ret (Next st)
        end
      else
        let last := updateLastSyncTime (lastSyncTime st) meta in
        if (0 <? total res) && (total res =? completed res) then
          e <- ask (Delete k ss None) ;;
          match e with
          | Some e => Ret (Return (Err e))
          | None => Ret (Return (Val None))
          end
        else if negb (synced res) then Ret (Return (Val None))
        else Ret (Next {| podsForOwners := addOwner (podsForOwners st) res; lastSyncTime := last |})
  end.

Definition collectPodsForOwners (owners : list (kobj k)) : M (result (option state)) :=
  r <- rangeM owners {| podsForOwners := ∅; lastSyncTime := None |} collectOne ;;
  Ret (match r with
       | inl st => Val (Some st)
       | inr r => r
       end).

(** ** Scaling *)

Definition createdBefore (a b : podsForOwner) : bool :=
  Before (om_CreationTimestamp (owner_meta (owner a))) (om_CreationTimestamp (owner_meta (owner b))).

Definition sumOf (f : podsForOwner -> Z) (l : list podsForOwner) : Z := sumZ (map f l).

(** The scale-down loop, from the newest owner to the oldest: (owners to
    delete, in the order visited; running pods retained). *)
Fixpoint selectForDeletion (desired : Z) (newestFirst : list podsForOwner)
  (delete : list podsForOwner) (retained : Z) : list podsForOwner * Z :=
  match newestFirst with
  | [] => (delete, retained)
  | ss :: l =>
      if (running ss =? 0) || (desired <=? retained)
      then selectForDeletion desired l (delete ++ [ss])%list retained
      else selectForDeletion desired l delete (retained + running ss)
  end.

(** Create [n] owners. *)
Fixpoint createReplicas (n : nat) (desired : kobj k) : M (option err) :=
  match n with
  | O => Ret None
  | S n =>
      r <- ask (Create k desired) ;;
      match r with
      | Err e => Ret (Some e)
      | Val _ => createReplicas n desired
      end
  end.

(** Request the unregistration of every pod of an owner, then of the owner. *)
Fixpoint annotatePods (ps : list Pod) : M (option err) :=
  match ps with
  | [] => Ret None
  | po :: ps =>
      now <- ask Now ;;
      r <- annotatePodOnce (Some po) AnnotationKeyUnregistrationRequestTimestamp (FormatRFC3339 now) ;;
      match r with
      | Err e => Ret (Some e)
      | Val _ => annotatePods ps
      end
  end.

Fixpoint requestUnregistration (l : list podsForOwner) : M (option err) :=
  match l with
  | [] => Ret None
  | ss :: l =>
      match getAnnotation (owner_meta (owner ss)) AnnotationKeyUnregistrationRequestTimestamp with
      | Some _ => requestUnregistration l
      | None =>
          e <- annotatePods (pods ss) ;;
          match e with
          | Some e => Ret (Some e)
          | None =>
              now <- ask Now ;;
              r <- ask (Patch k (owner_withAnnotation (owner ss)
                          AnnotationKeyUnregistrationRequestTimestamp (FormatRFC3339 now)) (owner ss)) ;;
              match r with
              | Err e => Ret (Some e)
              | Val _ => requestUnregistration l
              end
          end
      end
  end.

(** The last loop: delete the first outdated owner found, in the iteration
    order of the map, and return; [None] when all are up to date. *)
Fixpoint deleteOutdated (desiredHash : string) (l : list podsForOwner) : M (option (option err)) :=
  match l with
  | [] => Ret None
  | ss :: l =>
      if decide (templateHash ss <> desiredHash) then
        if IsZero (om_DeletionTimestamp (owner_meta (owner ss))) then
          e <- ask (Delete k (owner ss) None) ;;
          Ret (Some e)
        else Ret (Some None)
      else deleteOutdated desiredHash l
  end.

(** [runnerPodRecreationDelayAfterWebhookScale] *)
Definition recreationDelay (lastSyncTime : option time) : M bool :=
  match lastSyncTime with
  | None => Ret false
  | Some last =>
      now <- ask Now ;;
      Ret (Before now (last + DefaultRunnerPodRecreationDelayAfterWebhookScale))
  end.

(** What happens after the current owners are known: how it ends. *)
Inductive scaling :=
| ScaleError (e : err)
| ScalePostponed
| ScaleDone.

Definition scale (desired : kobj k) (newDesiredReplicas : Z) (ephemeral : bool)
  (effectiveTime : option time) (lastSyncTime : option time) (currentObjects : list podsForOwner)
  : M scaling :=
  let maybeRunning := sumOf pending currentObjects + sumOf running currentObjects in
  let wantMoreRunners := maybeRunning <? newDesiredReplicas in
  let alreadySyncedAfterEffectiveTime :=
    match lastSyncTime, effectiveTime with
    | Some last, Some eff => ephemeral && After last eff
    | _, _ => false
    end in
  delayed <- recreationDelay lastSyncTime ;;
  if wantMoreRunners && alreadySyncedAfterEffectiveTime && delayed then Ret ScaleDone
  else if wantMoreRunners then
    e <- createReplicas (Z.to_nat (newDesiredReplicas - maybeRunning)) desired ;;
    Ret (match e with Some e => ScaleError e | None => ScalePostponed end)
  else if newDesiredReplicas <=? sumOf running currentObjects then
    let (delete, retained) := selectForDeletion newDesiredReplicas (rev currentObjects) [] 0 in
    if retained =? newDesiredReplicas then
      e <- requestUnregistration delete ;;
      Ret (match e with Some e => ScaleError e | None => ScaleDone end)
    else if newDesiredReplicas <? retained then Ret ScalePostponed
    else Panic "crashed due to invalid state"
  else Ret ScaleDone.

(** [Val None] is (nil, nil); [Val (Some l)] the current objects. *)
Definition syncRunnerPodsOwners (effectiveTime : option time) (newDesiredReplicas : Z)
  (create : kobj k) (ephemeral : bool) (owners : list (kobj k))
  : M (result (option (list podsForOwner))) :=
  try st <- collectPodsForOwners owners ;;
  match st with
  | None => Ret (Val None)
  | Some st =>
      match getRunnerTemplateHash (owner_meta create) with
      | None => Ret (Val None)
      | Some desiredTemplateHash =>
          let currentObjects :=
            sort_stable createdBefore (default [] (podsForOwners st !! desiredTemplateHash)) in
          s <- scale create newDesiredReplicas ephemeral effectiveTime (lastSyncTime st) currentObjects ;;
          match s with
          | ScaleError e => Ret (Err e)
          | ScalePostponed => Ret (Val None)
          | ScaleDone =>
              let groups := map_to_list (podsForOwners st) in
              ord <- ask (Order (length groups)) ;;
              d <- deleteOutdated desiredTemplateHash (concat (map snd (shuffle ord groups))) ;;
              match d with
              | Some (Some e) => Ret (Err e)
              | Some None => Ret (Val None)
              | None => Ret (Val (Some currentObjects))
              end
          end
      end
  end.

End Sync.
Arguments podsForOwner k : clear implicits.

(** ** What a synchronisation may write *)

Section Justified.
Context {k : kind} {OW : Owner k} {rfc : RFC3339}.

(** [ps] is what was read of the pods of [o] within the exchanges [l]. *)
Definition observed (l : log) (o : kobj k) (ps : list Pod) : Prop :=
  exists l', may (owner_pods o) (Done (Val ps)) l' /\ l' ⊆ l.

(** The runner of the pod is unregistered, or the pod is on its way out. *)
Definition released (po : Pod) : Prop :=
  is_Some (getAnnotation (pod_Meta po) AnnotationKeyUnregistrationCompleteTimestamp) \/
  IsZero (om_DeletionTimestamp (pod_Meta po)) = false.

(** The number of pods that satisfy [f]. *)
Definition countOf (f : Pod -> bool) (ps : list Pod) : Z := Z.of_nat (length (List.filter f ps)).

(** A pod whose runner has not stopped and that runs. *)
Definition livePod (p : Pod) : bool :=
  negb (runnerPodOrContainerIsStopped p) && bool_decide (pst_Phase (pod_Status p) = PodRunning).

(** A pod that does not run yet. *)
Definition pendingPod (p : Pod) : bool :=
  negb (runnerPodOrContainerIsStopped p) && negb (bool_decide (pst_Phase (pod_Status p) = PodRunning)) &&
  IsZero (om_DeletionTimestamp (pod_Meta p)).

(** A live pod whose runner has not registered. *)
Definition unregisteredPod (p : Pod) : bool := livePod p && bool_decide (podRunnerID p = "").

(** What [getPodsForOwner] establishes of its result. *)
Record podsOK (l : log) (res : podsForOwner k) : Prop := mkPodsOK {
  ok_observed : observed l (owner res) (pods res);
  ok_total : total res = Z.of_nat (length (pods res));
  ok_completed : completed res = countOf runnerPodOrContainerIsStopped (pods res);
  ok_live : running res + regTimeout res = countOf livePod (pods res);
  ok_unregistered : regTimeout res <= countOf unregisteredPod (pods res);
  ok_pending : pending res = countOf pendingPod (pods res);
  ok_partition : total res = completed res + running res + terminating res + regTimeout res + pending res;
  ok_nonneg : 0 <= completed res /\ 0 <= running res /\ 0 <= terminating res /\
              0 <= regTimeout res /\ 0 <= pending res;
  ok_hash : getRunnerTemplateHash (owner_meta (owner res)) = Some (templateHash res)
}.

(** What [collectPodsForOwners] keeps of the owners it goes on with. *)
Record collected (owners : list (kobj k)) (l : log) (hash : string) (res : podsForOwner k) : Prop :=
  mkCollected {
    col_ok : podsOK l res;
    col_hash : templateHash res = hash;
    col_nonempty : hash <> "";
    col_in : owner res ∈ owners;
    col_alive : IsZero (om_DeletionTimestamp (owner_meta (owner res))) = true;
    col_registered :
      getAnnotation (owner_meta (owner res)) AnnotationKeyUnregistrationCompleteTimestamp = None;
    col_staying :
      getAnnotation (owner_meta (owner res)) AnnotationKeyUnregistrationRequestTimestamp = None \/
      ~ Forall released (pods res);
    col_synced : synced res = true
  }.

(** An owner that is no longer counted: it is being deleted, it is marked as
    unregistered, or it was requested to unregister and every one of the pods
    read is released. *)
Definition outgoing (l : log) (o : kobj k) : Prop :=
  IsZero (om_DeletionTimestamp (owner_meta o)) = false \/
  is_Some (getAnnotation (owner_meta o) AnnotationKeyUnregistrationCompleteTimestamp) \/
  (is_Some (getAnnotation (owner_meta o) AnnotationKeyUnregistrationRequestTimestamp) /\
   exists ps, observed l o ps /\ Forall released ps).

(** [cur] are all of the owners of the template [hash] but the outgoing ones. *)
Definition complete (owners : list (kobj k)) (l : log) (hash : string)
  (cur : list (podsForOwner k)) : Prop :=
  exists gone, (map owner cur ++ gone)%list ≡ₚ
      filter (fun o => getRunnerTemplateHash (owner_meta o) = Some hash) owners /\
    Forall (outgoing l) gone.

(** The pool that is scaled: all of the owners of the template of [desired]
    but the outgoing ones, with what was read of their pods, in the order of
    their creation. *)
Record pool (owners : list (kobj k)) (desired : kobj k) (l : log)
  (cur : list (podsForOwner k)) : Prop := mkPool {
  pool_hash : is_Some (getRunnerTemplateHash (owner_meta desired));
  pool_collected : forall ss hash, getRunnerTemplateHash (owner_meta desired) = Some hash ->
    ss ∈ cur -> collected owners l hash ss;
  pool_complete : forall hash, getRunnerTemplateHash (owner_meta desired) = Some hash ->
    complete owners l hash cur;
  pool_sorted : StronglySorted (notAfter createdBefore) cur
}.

(** An owner of a pool that runs at least [n] pods is redundant when it runs
    none of them, or when the owners created after it already run [n]. *)
Definition redundant (n : Z) (cur : list (podsForOwner k)) (ss : podsForOwner k) : Prop :=
  n <= sumOf running cur /\
  exists old new, cur = (old ++ ss :: new)%list /\ (running ss = 0 \/ n <= sumOf running new).

(** The writes of one synchronisation of [owners] towards [n] replicas of
    [desired], with their reasons. *)
Inductive justified (owners : list (kobj k)) (desired : kobj k) (n : Z) (l : log)
  : event ans -> Prop :=
| j_read e :
    isRead (ev_req e) = true -> justified owners desired n l e
| j_create cur r :
    pool owners desired l cur -> sumOf pending cur + sumOf running cur < n ->
    justified owners desired n l (EvA (Create k desired) r)
| j_delete_unregistered o r :
    o ∈ owners -> IsZero (om_DeletionTimestamp (owner_meta o)) = true ->
    is_Some (getAnnotation (owner_meta o) AnnotationKeyUnregistrationCompleteTimestamp) ->
    justified owners desired n l (EvA (Delete k o None) r)
| j_delete_completed o ps r :
    o ∈ owners -> IsZero (om_DeletionTimestamp (owner_meta o)) = true ->
    observed l o ps -> ps <> [] -> Forall (fun po => runnerPodOrContainerIsStopped po = true) ps ->
    justified owners desired n l (EvA (Delete k o None) r)
| j_delete_outdated o r :
    o ∈ owners -> IsZero (om_DeletionTimestamp (owner_meta o)) = true ->
    getRunnerTemplateHash (owner_meta o) <> getRunnerTemplateHash (owner_meta desired) ->
    justified owners desired n l (EvA (Delete k o None) r)
| j_complete o ps t r :
    o ∈ owners -> IsZero (om_DeletionTimestamp (owner_meta o)) = true ->
    is_Some (getAnnotation (owner_meta o) AnnotationKeyUnregistrationRequestTimestamp) ->
    getAnnotation (owner_meta o) AnnotationKeyUnregistrationCompleteTimestamp = None ->
    observed l o ps -> Forall released ps ->
    justified owners desired n l
      (EvA (Patch k (owner_withAnnotation o AnnotationKeyUnregistrationCompleteTimestamp
              (FormatRFC3339 t)) o) r)
| j_request_pod cur ss po t r :
    pool owners desired l cur -> redundant n cur ss -> po ∈ pods ss ->
    getAnnotation (owner_meta (owner ss)) AnnotationKeyUnregistrationRequestTimestamp = None ->
    getAnnotation (pod_Meta po) AnnotationKeyUnregistrationRequestTimestamp = None ->
    justified owners desired n l
      (EvA (Patch KPod (annotatePod po AnnotationKeyUnregistrationRequestTimestamp
              (FormatRFC3339 t)) po) r)
| j_request cur ss t r :
    pool owners desired l cur -> redundant n cur ss ->
    getAnnotation (owner_meta (owner ss)) AnnotationKeyUnregistrationRequestTimestamp = None ->
    justified owners desired n l
      (EvA (Patch k (owner_withAnnotation (owner ss) AnnotationKeyUnregistrationRequestTimestamp
              (FormatRFC3339 t)) (owner ss)) r).

(** What the collection keeps true of the owners [seen] so far. *)
Record stateOK (owners seen : list (kobj k)) (l : log) (st : state) : Prop := mkStateOK {
  st_collected : forall hash group res, podsForOwners st !! hash = Some group -> res ∈ group ->
    collected owners l hash res;
  st_complete : forall hash, complete seen l hash (default [] (podsForOwners st !! hash))
}.

(** The exchanges of a scale-down of [xs]: reading, and requesting the
    unregistration of their pods and of themselves. *)
Inductive requestEvent (xs : list (podsForOwner k)) : event ans -> Prop :=
| re_read e : isRead (ev_req e) = true -> requestEvent xs e
| re_pod ss po t r :
    ss ∈ xs -> po ∈ pods ss ->
    getAnnotation (owner_meta (owner ss)) AnnotationKeyUnregistrationRequestTimestamp = None ->
    getAnnotation (pod_Meta po) AnnotationKeyUnregistrationRequestTimestamp = None ->
    requestEvent xs (EvA (Patch KPod (annotatePod po AnnotationKeyUnregistrationRequestTimestamp
                                        (FormatRFC3339 t)) po) r)
| re_owner ss t r :
    ss ∈ xs ->
    getAnnotation (owner_meta (owner ss)) AnnotationKeyUnregistrationRequestTimestamp = None ->
    requestEvent xs (EvA (Patch k (owner_withAnnotation (owner ss)
                                     AnnotationKeyUnregistrationRequestTimestamp
                                     (FormatRFC3339 t)) (owner ss)) r).

(** The unregistration of an owner has been requested, before or now. *)
Definition requested (l : log) (ss : podsForOwner k) : Prop :=
  is_Some (getAnnotation (owner_meta (owner ss)) AnnotationKeyUnregistrationRequestTimestamp) \/
  exists t r, EvA (Patch k (owner_withAnnotation (owner ss) AnnotationKeyUnregistrationRequestTimestamp
                              (FormatRFC3339 t)) (owner ss)) (Val r) ∈ l.

(** Whether an exchange creates an owner. *)
Definition isCreate (e : event ans) : bool :=
  match ev_req e with Create _ _ => true | _ => false end.

Definition isWrite (e : event ans) : bool := negb (isRead (ev_req e)).

(** The number of successful creations. *)
Definition creations (l : log) : Z :=
  Z.of_nat (length (List.filter (fun e =>
    match ev_req e as q return ans q -> bool with
    | Create _ _ => fun a => match a with Val _ => true | Err _ => false end
    | _ => fun _ => false
    end (ev_ans e)) l)).

End Justified.

(** * Theorems *)

Section Facts.
Context {k : kind} {OW : Owner k} {LW : OwnerLaws k} {rfc : RFC3339}.
Implicit Types (o : kobj k) (l : log) (res : podsForOwner k).


Lemma observed_mono l l' o ps : l ⊆ l' -> observed l o ps -> observed l' o ps.
Proof. intros Hl (l0 & Hm & Hs). exists l0. split; [done|]. by etrans. Qed.

Lemma podsOK_mono l l' res : l ⊆ l' -> podsOK l res -> podsOK l' res.
Proof. intros Hl []. constructor; try done. by eapply observed_mono. Qed.

Lemma collected_mono owners l l' hash res :
  l ⊆ l' -> collected owners l hash res -> collected owners l' hash res.
Proof. intros Hl []. constructor; try done. by eapply podsOK_mono. Qed.

Lemma outgoing_mono l l' o : l ⊆ l' -> outgoing l o -> outgoing l' o.
Proof.
  intros Hl [?|[?|[? (ps & ? & ?)]]]; [by left|by right; left|]. right; right. split; [done|].
  exists ps. eauto using observed_mono.
Qed.

Lemma complete_mono owners l l' hash cur :
  l ⊆ l' -> complete owners l hash cur -> complete owners l' hash cur.
Proof.
  intros Hl (gone & Hp & Hg). exists gone. split; [done|].
  eapply Forall_impl; [exact Hg|]. eauto using outgoing_mono.
Qed.

Lemma pool_mono owners desired l l' cur :
  l ⊆ l' -> pool owners desired l cur -> pool owners desired l' cur.
Proof. intros Hl []. constructor; eauto using collected_mono, complete_mono. Qed.

Lemma justified_mono owners desired n l l' e :
  l ⊆ l' -> justified owners desired n l e -> justified owners desired n l' e.
Proof.
  intros Hl []; [apply j_read|eapply j_create|apply j_delete_unregistered|eapply j_delete_completed
    |apply j_delete_outdated|eapply j_complete|eapply j_request_pod|eapply j_request];
    eauto using observed_mono, pool_mono.
Qed.

Lemma justified_all_mono owners desired n l l' l0 :
  l ⊆ l' -> Forall (justified owners desired n l) l0 -> Forall (justified owners desired n l') l0.
Proof. intros Hl H. eapply Forall_impl; [exact H|]. eauto using justified_mono. Qed.

Lemma stateOK_mono owners seen l l' st :
  l ⊆ l' -> stateOK owners seen l st -> stateOK owners seen l' st.
Proof. intros Hl []. constructor; eauto using collected_mono, complete_mono. Qed.

#[local] Hint Resolve observed_mono podsOK_mono collected_mono justified_mono justified_all_mono
  stateOK_mono j_read : arc.

Lemma reads_justified owners desired n l l0 :
  reads l0 -> Forall (justified owners desired n l) l0.
Proof. intros H. eapply Forall_impl; [exact H|]. intros. by apply j_read. Qed.

(** ** Counting *)

(** The class of a pod, in terms of what was read of it. *)
Definition classOf (p : Pod) (cl : podClass) : Prop :=
  runnerPodOrContainerIsStopped p = (if cl is Completed then true else false) /\
  livePod p = match cl with Running | RegTimeout => true | _ => false end /\
  pendingPod p = (if cl is Pending then true else false) /\
  (cl = RegTimeout -> unregisteredPod p = true).

Lemma classifyPod_spec p :
  always (classifyPod p) (fun out l => exists cl, out = Done cl /\ reads l /\ classOf p cl).
Proof.
  unfold classifyPod, classOf, unregisteredPod, livePod, pendingPod.
  destruct (runnerPodOrContainerIsStopped p) eqn:Hs; simpl.
  { exists Completed. by split_and!. }
  destruct (decide (pst_Phase (pod_Status p) = PodRunning)) as [Hp|Hp]; simpl.
  - rewrite (bool_decide_eq_true_2 _ Hp). unfold podConditionTransitionTimeAfter.
    destruct (decide (podRunnerID p = "")) as [Hid|]; simpl; [|by exists Running].
    rewrite (bool_decide_eq_true_2 _ Hid).
    destruct (podConditionTransitionTime _ _ _); simpl; [intros now|by exists Running].
    match goal with |- context [if ?c then _ else _] => destruct c end;
      eexists; (split_and!; [done|by repeat constructor|done..]).
  - rewrite (bool_decide_eq_false_2 _ Hp).
    destruct (IsZero _) eqn:Hd; simpl; eexists; by split_and!.
Qed.

(** Counters [c] after the pods [ps]. *)
Record countsOK (ps : list Pod) (c : counts) : Prop := mkCountsOK {
  cnt_total : n_total c = Z.of_nat (length ps);
  cnt_completed : n_completed c = countOf runnerPodOrContainerIsStopped ps;
  cnt_live : n_running c + n_regTimeout c = countOf livePod ps;
  cnt_unregistered : n_regTimeout c <= countOf unregisteredPod ps;
  cnt_pending : n_pending c = countOf pendingPod ps;
  cnt_partition :
    n_total c = n_completed c + n_running c + n_terminating c + n_regTimeout c + n_pending c;
  cnt_nonneg : 0 <= n_completed c /\ 0 <= n_running c /\ 0 <= n_terminating c /\
               0 <= n_regTimeout c /\ 0 <= n_pending c
}.

Lemma countOf_app f ps qs : countOf f (ps ++ qs)%list = countOf f ps + countOf f qs.
Proof. unfold countOf. by rewrite List.filter_app, length_app, Nat2Z.inj_add. Qed.

Lemma countOf_one f p : countOf f [p] = if f p then 1 else 0.
Proof. unfold countOf. simpl. by destruct (f p). Qed.

Lemma countsOK_step ps c p cl :
  countsOK ps c -> classOf p cl -> countsOK (ps ++ [p])%list (count c cl).
Proof.
  intros [] (Hs & Hl & Hp & Hu).
  assert (0 <= countOf unregisteredPod [p]) as Hpos by (unfold countOf; lia).
  assert (cl = RegTimeout -> countOf unregisteredPod [p] = 1) as Hone.
  { intros Hcl. rewrite countOf_one. by rewrite (Hu Hcl). }
  destruct cl; simpl in *; constructor; simpl;
    rewrite ?length_app, ?countOf_app, ?(countOf_one livePod), ?(countOf_one pendingPod),
      ?(countOf_one runnerPodOrContainerIsStopped), ?Hs, ?Hl, ?Hp, ?(Hone eq_refl); simpl; lia.
Qed.

Lemma countPods_spec ps seen c :
  countsOK seen c ->
  always (countPods ps c) (fun out l => exists c', out = Done c' /\ reads l /\
    countsOK (seen ++ ps)%list c').
Proof.
  revert seen c. induction ps as [|p ps IH]; intros seen c Hc; simpl.
  - exists c. rewrite app_nil_r. by split_and!.
  - apply always_bind. eapply always_mono; [|apply classifyPod_spec].
    intros _ l (cl & -> & Hl & Hcl).
    eapply always_mono; [|apply (IH (seen ++ [p])%list (count c cl)); by apply countsOK_step].
    intros _ l' (c' & -> & Hl' & Hc'). exists c'.
    rewrite <- app_assoc in Hc'. split_and!; [done|by apply Forall_app_2|done].
Qed.

Lemma getPodsForOwner_spec o :
  always (getPodsForOwner o) (fun out l => reads l /\
    match out with
    | Done (Val (Some res)) => owner res = o /\ synced res = owner_synced o /\ podsOK l res
    | Done (Val None) => getRunnerTemplateHash (owner_meta o) = None
    | Done (Err _) => True
    | _ => False
    end).
Proof.
  unfold getPodsForOwner. apply always_bind.
  eapply always_mono; [|apply (always_and _ _ _ (owner_pods_reads o)
    (proj2 (always_may (owner_pods o) (may (owner_pods o))) (fun _ _ H => H)))].
  intros out l [[[r ->] Hl] Hm]. destruct r as [ps|e]; simpl; [|by rewrite app_nil_r].
  apply always_bind. eapply always_mono; [|apply (countPods_spec ps [] (mkCounts 0 0 0 0 0 0))].
  - intros _ l' (c' & -> & Hl' & []).
    destruct (getRunnerTemplateHash (owner_meta o)) eqn:Hh; simpl; rewrite app_nil_r;
      (split; [by apply Forall_app_2|]); [|done].
    split_and!; [done..|]. constructor; simpl; try done. exists l. split; [done|]. set_solver.
  - constructor; unfold countOf; simpl; lia.
Qed.

(** ** Collecting *)

Lemma filter_length_all {A} (f : A -> bool) (xs : list A) :
  length (List.filter f xs) = length xs -> Forall (fun x => f x = true) xs.
Proof.
  induction xs as [|x xs IH]; simpl; [done|]. destruct (f x) eqn:Hf; simpl.
  - intros [= H]. constructor; auto.
  - intros H. pose proof (filter_length_le f xs). lia.
Qed.

Lemma deletionSafePods_all ps :
  deletionSafePods ps = Z.of_nat (length ps) <-> Forall released ps.
Proof.
  unfold deletionSafePods. rewrite Nat2Z.inj_iff. split; intros H.
  - apply filter_length_all in H. eapply Forall_impl; [exact H|]. intros po. unfold released. simpl.
    destruct (getAnnotation _ _); [eauto|]. intros Hn. right. by apply negb_true_iff.
  - induction H as [|po ps Hpo _ IH]; simpl; [done|]. unfold released in Hpo.
    destruct (getAnnotation _ _); simpl; [by f_equal|].
    destruct Hpo as [[? ?]|Hz]; [done|]. rewrite Hz. simpl. by f_equal.
Qed.

Lemma complete_gone seen l hash cur o :
  outgoing l o -> complete seen l hash cur -> complete (seen ++ [o])%list l hash cur.
Proof.
  intros Ho (gone & Hp & Hg). unfold complete. rewrite filter_app, filter_cons, filter_nil.
  case_decide; [|rewrite app_nil_r; by exists gone].
  exists (gone ++ [o])%list. rewrite app_assoc, Hp. split; [done|]. by apply Forall_app_2; [|constructor].
Qed.

Lemma complete_kept seen l hash cur res :
  getRunnerTemplateHash (owner_meta (owner res)) = Some hash ->
  complete seen l hash cur -> complete (seen ++ [owner res])%list l hash (cur ++ [res])%list.
Proof.
  intros Hh (gone & Hp & Hg). exists gone. split; [|done].
  rewrite filter_app, filter_cons, filter_nil, decide_True by done.
  rewrite map_app, <- Hp. simpl. rewrite <- !app_assoc. apply Permutation_app_head.
  simpl. by rewrite Permutation_cons_append.
Qed.

Lemma complete_other seen l hash cur o :
  getRunnerTemplateHash (owner_meta o) <> Some hash ->
  complete seen l hash cur -> complete (seen ++ [o])%list l hash cur.
Proof.
  intros Hh. unfold complete. rewrite filter_app, filter_cons, filter_nil, decide_False by done.
  by rewrite app_nil_r.
Qed.

Lemma stateOK_skip owners seen l st o :
  outgoing l o -> stateOK owners seen l st -> stateOK owners (seen ++ [o])%list l st.
Proof. intros Ho []. constructor; [done|]. intros hash. by apply complete_gone. Qed.

Lemma stateOK_add owners seen l st res last :
  stateOK owners seen l st -> collected owners l (templateHash res) res ->
  stateOK owners (seen ++ [owner res])%list l
    {| podsForOwners := addOwner (podsForOwners st) res; lastSyncTime := last |}.
Proof.
  intros [Hst Hcomp] Hres. pose proof (ok_hash _ _ (col_ok _ _ _ _ Hres)) as Hh.
  constructor; simpl; unfold addOwner.
  - intros hash group r. destruct (decide (hash = templateHash res)) as [->|Hne].
    + rewrite lookup_insert_eq. intros [= <-]. rewrite elem_of_app, list_elem_of_singleton.
      intros [Hr| ->]; [|done].
      destruct (podsForOwners st !! templateHash res) as [g|] eqn:Hg; simpl in Hr; [|set_solver].
      by eapply Hst.
    + rewrite lookup_insert_ne by done. by apply Hst.
  - intros hash. destruct (decide (hash = templateHash res)) as [->|Hne].
    + rewrite lookup_insert_eq. simpl. by apply complete_kept.
    + rewrite lookup_insert_ne by done. apply complete_other; [congruence|done].
Qed.

Lemma collectOne_spec owners desired n seen l0 o st :
  o ∈ owners -> stateOK owners seen l0 st ->
  always (collectOne o st) (fun out l =>
    Forall (justified owners desired n (l0 ++ l)%list) l /\
    match out with
    | Done (Next st') => stateOK owners (seen ++ [o])%list (l0 ++ l)%list st'
    | Done (Break _) | Done (Return (Val (Some _))) | Exhausted => False
    | Done (Return _) => True
    | Panicked _ => getRunnerTemplateHash (owner_meta o) = None
    end).
Proof.
  intros Ho Hst. unfold collectOne. apply always_bind.
  eapply always_mono; [|apply getPodsForOwner_spec].
  intros [[[res|]|e]|m|] l [Hl Hres]; simpl; rewrite ?app_nil_r;
    try (split; [by apply reads_justified|done]); [|done..].
  destruct Hres as (Howner & Hsync & Hok). rewrite Howner.
  assert (forall l1, stateOK owners seen (l0 ++ l ++ l1)%list st) as Hst'.
  { intros l1. eapply stateOK_mono; [|exact Hst]. set_solver. }
  assert (forall l1, observed (l0 ++ l ++ l1)%list o (pods res)) as Hobs.
  { intros l1. rewrite <- Howner. eapply observed_mono; [|apply (ok_observed _ _ Hok)]. set_solver. }
  assert (forall e, justified owners desired n (l0 ++ l ++ [e])%list e ->
    Forall (justified owners desired n (l0 ++ l ++ [e])%list) (l ++ [e])%list) as Hadd.
  { intros e He. apply Forall_app_2; [by apply reads_justified|by constructor]. }
  case_decide as Hempty; [simpl; rewrite ?app_nil_r; by split; [apply reads_justified|]|].
  destruct (IsZero (om_DeletionTimestamp (owner_meta o))) eqn:Hdel; simpl.
  2:{ rewrite app_nil_r. split; [by apply reads_justified|].
      apply stateOK_skip; [by left|]. by rewrite <- (app_nil_r l). }
  case_decide as Hcomplete.
  { simpl. intros [e|]; (split; [apply Hadd, j_delete_unregistered; auto|]); [done|].
    apply stateOK_skip; [by right; left|done]. }
  destruct (bool_decide (is_Some (getAnnotation (owner_meta o) _)) && _) eqn:Hreq.
  { apply andb_true_iff in Hreq as [Hreq Hsafe]. apply bool_decide_eq_true in Hreq.
    apply Z.eqb_eq in Hsafe. rewrite (ok_total _ _ Hok) in Hsafe. apply deletionSafePods_all in Hsafe.
    simpl. intros now [x|e]; (split; [|done || (apply stateOK_skip; [right; right; eauto|done])]).
    all: apply Forall_app_2; [by apply reads_justified|].
    all: constructor; [by apply j_read|constructor; [|constructor]].
    all: by eapply (j_complete _ _ _ _ o (pods res)); try done; apply eq_None_not_Some. }
  destruct ((0 <? total res) && (total res =? completed res)) eqn:Hcomp.
  { apply andb_true_iff in Hcomp as [Hpos Hall]. apply Z.ltb_lt in Hpos. apply Z.eqb_eq in Hall.
    rewrite (ok_total _ _ Hok) in Hpos, Hall. rewrite (ok_completed _ _ Hok) in Hall.
    apply Nat2Z.inj, eq_sym, filter_length_all in Hall.
    simpl. intros [e|]; (split; [apply Hadd, (j_delete_completed _ _ _ _ o (pods res))|done]);
      try done; by intros Hnil; rewrite Hnil in Hpos. }
  destruct (synced res) eqn:Hsy; simpl; rewrite app_nil_r; (split; [by apply reads_justified|]);
    [|done].
  rewrite <- Howner. apply stateOK_add; [by rewrite <- (app_nil_r l)|].
  constructor; rewrite ?Howner; try done.
  - eapply podsOK_mono; [|exact Hok]. set_solver.
  - by apply eq_None_not_Some.
  - apply andb_false_iff in Hreq as [Hreq|Hreq].
    + left. apply bool_decide_eq_false in Hreq. by apply eq_None_not_Some.
    + right. rewrite <- deletionSafePods_all. apply Z.eqb_neq in Hreq. by rewrite <- (ok_total _ _ Hok).
Qed.

Lemma collectPodsForOwners_spec owners desired n :
  always (collectPodsForOwners owners) (fun out l =>
    Forall (justified owners desired n l) l /\
    match out with
    | Done (Val (Some st)) => stateOK owners owners l st
    | Done _ => True
    | Panicked _ => exists o, o ∈ owners /\ getRunnerTemplateHash (owner_meta o) = None
    | Exhausted => False
    end).
Proof.
  unfold collectPodsForOwners. apply always_bind.
  eapply always_mono; [|apply (always_rangeM _ _ _
    (fun xs st l => exists seen, owners = (seen ++ xs)%list /\
       Forall (justified owners desired n l) l /\ stateOK owners seen l st)
    (fun out l => Forall (justified owners desired n l) l /\
      match out with
      | Done (inl st) => stateOK owners owners l st
      | Done (inr (Val (Some _))) | Exhausted => False
      | Done (inr _) => True
      | Panicked _ => exists o, o ∈ owners /\ getRunnerTemplateHash (owner_meta o) = None
      end) [])].
  - intros [[st|[[]|e]]|m|] l [Hl Hout]; simpl; rewrite ?app_nil_r; done.
  - exists []. split_and!; [done|constructor|]. constructor; simpl.
    + intros hash group res. by rewrite lookup_empty.
    + intros hash. rewrite lookup_empty. by exists [].
  - intros x xs st l (seen & Hxs & Hl & Hst). assert (x ∈ owners) as Hx by (rewrite Hxs; set_solver).
    eapply always_mono; [|apply (collectOne_spec owners desired n seen l x st); done].
    intros out l1 [Hl1 Hout].
    assert (Forall (justified owners desired n (l ++ l1)%list) (l ++ l1)%list) as Hall.
    { apply Forall_app_2; [|done]. eapply justified_all_mono; [|done]. set_solver. }
    destruct out as [[st'|st'|[[]|e]]|m|]; simpl in Hout; try done; [|by eauto].
    exists (seen ++ [x])%list. split_and!; [by rewrite <- app_assoc|done..].
  - intros st l (seen & Hxs & Hl & Hst). rewrite app_nil_r in Hxs. by subst seen.
Qed.

(** ** Choosing what to scale down *)

Lemma selectForDeletion_acc desired (newestFirst del : list (podsForOwner k)) ret :
  selectForDeletion desired newestFirst del ret =
  let (d, r) := selectForDeletion desired newestFirst [] ret in ((del ++ d)%list, r).
Proof.
  revert del ret. induction newestFirst as [|ss xs IH]; intros del ret; simpl.
  - by rewrite app_nil_r.
  - case_match.
    + rewrite (IH (del ++ [ss])%list), (IH [ss]).
      destruct (selectForDeletion desired xs [] ret). simpl. by rewrite <- app_assoc.
    + by rewrite IH.
Qed.

(** Once enough is retained, everything older goes. *)
Lemma selectForDeletion_enough desired (newestFirst : list (podsForOwner k)) ret :
  desired <= ret -> selectForDeletion desired newestFirst [] ret = (newestFirst, ret).
Proof.
  intros Hr. induction newestFirst as [|ss xs IH]; simpl; [done|].
  rewrite (proj2 (Z.leb_le _ _) Hr), orb_true_r.
  by rewrite selectForDeletion_acc, IH.
Qed.

(** The shape of the choice, newest owners first: of the newest owners [new],
    those without a running pod go; of the older ones, all; and there are
    older ones only when the newest retain enough. *)
Lemma selectForDeletion_shape desired (newestFirst : list (podsForOwner k)) ret :
  exists new old, newestFirst = (new ++ old)%list /\
    selectForDeletion desired newestFirst [] ret =
      ((List.filter (fun ss => running ss =? 0) new ++ old)%list, ret + sumOf running new) /\
    (old <> [] -> desired <= ret + sumOf running new).
Proof.
  revert ret. induction newestFirst as [|ss xs IH]; intros ret.
  - exists [], []. unfold sumOf. simpl. rewrite Z.add_0_r. done.
  - destruct (Z.leb_spec desired ret) as [Hle|Hgt].
    + exists [], (ss :: xs). rewrite selectForDeletion_enough by done.
      unfold sumOf. simpl. rewrite Z.add_0_r. done.
    + simpl. rewrite (proj2 (Z.leb_gt _ _) Hgt), orb_false_r.
      destruct (running ss =? 0) eqn:Hz.
      * destruct (IH ret) as (new & old & -> & Hsel & Hold). exists (ss :: new), old.
        rewrite selectForDeletion_acc, Hsel. unfold sumOf in *. simpl. rewrite Hz.
        apply Z.eqb_eq in Hz. rewrite Hz. simpl. done.
      * destruct (IH (ret + running ss)) as (new & old & -> & Hsel & Hold).
        exists (ss :: new), old. unfold sumOf in *. simpl. rewrite Hz, Z.add_assoc. done.
Qed.

Lemma sumOf_perm (f : podsForOwner k -> Z) xs ys : xs ≡ₚ ys -> sumOf f xs = sumOf f ys.
Proof. unfold sumOf. by intros ->. Qed.

Lemma sumOf_app (f : podsForOwner k -> Z) xs ys : sumOf f (xs ++ ys)%list = sumOf f xs + sumOf f ys.
Proof. unfold sumOf. by rewrite map_app, sumZ_app. Qed.

(** The invalid state the code panics on does not exist. *)
Lemma selectForDeletion_retains desired (xs : list (podsForOwner k)) :
  desired <= sumOf running xs -> desired <= (selectForDeletion desired (rev xs) [] 0).2.
Proof.
  intros Hd. destruct (selectForDeletion_shape desired (rev xs) 0) as (new & old & Hxs & -> & Hold).
  simpl. destruct old as [|ss old]; [|by apply Hold].
  rewrite app_nil_r in Hxs. rewrite <- Hxs.
  rewrite (sumOf_perm running (rev xs) xs); [lia|]. symmetry. apply Permutation_rev.
Qed.

(** When the newest owners can retain exactly the desired number, they do. *)
Lemma selectForDeletion_exact desired (new old : list (podsForOwner k)) ret :
  Forall (fun ss => 0 <= running ss) (new ++ old)%list -> ret + sumOf running new = desired ->
  (selectForDeletion desired (new ++ old)%list [] ret).2 = desired.
Proof.
  unfold sumOf. revert ret. induction new as [|ss new IH]; intros ret Hpos Heq; simpl in *.
  - rewrite selectForDeletion_enough by lia. simpl. lia.
  - apply Forall_cons in Hpos as [Hss Hpos].
    assert (0 <= sumZ (map running new)).
    { apply sumZ_nonneg, Forall_map. by apply Forall_app in Hpos as [? _]. }
    destruct (Z.leb_spec desired ret) as [Hle|Hgt].
    + assert (desired = ret) as -> by lia. rewrite orb_true_r, selectForDeletion_acc.
      by rewrite selectForDeletion_enough by lia.
    + rewrite orb_false_r. destruct (Z.eqb_spec (running ss) 0) as [Hz|].
      * rewrite selectForDeletion_acc.
        pose proof (IH ret Hpos ltac:(lia)) as IH'. by destruct (selectForDeletion _ _ [] ret).
      * apply IH; [done|lia].
Qed.

Lemma sumOf_nonneg (f : podsForOwner k -> Z) xs : Forall (fun ss => 0 <= f ss) xs -> 0 <= sumOf f xs.
Proof. intros H. by apply sumZ_nonneg, Forall_map. Qed.

(** What is chosen is redundant. *)
Lemma selectForDeletion_redundant n (cur : list (podsForOwner k)) ss :
  n <= sumOf running cur -> Forall (fun ss => 0 <= running ss) cur ->
  ss ∈ (selectForDeletion n (rev cur) [] 0).1 -> redundant n cur ss.
Proof.
  intros Hn Hpos. split; [done|].
  destruct (selectForDeletion_shape n (rev cur) 0) as (new & old & Hrev & Hsel & Hold).
  rewrite Hsel in H. simpl in H. clear Hsel.
  assert (cur = (rev old ++ rev new)%list) as -> by by rewrite <- rev_app_distr, <- Hrev, rev_involutive.
  apply elem_of_app in H as [Hss|Hss].
  - apply list_elem_of_In, filter_In in Hss as [Hss Hz]. apply Z.eqb_eq in Hz.
    apply in_rev, list_elem_of_In, list_elem_of_split in Hss as (a & b & ->).
    exists (rev old ++ a)%list, b. split; [by rewrite <- app_assoc|by left].
  - assert (old <> []) as Hne by (by intros ->; apply not_elem_of_nil in Hss).
    apply list_elem_of_split in Hss as (a & b & ->).
    rewrite rev_app_distr in *. simpl in *. rewrite <- !app_assoc in *. simpl in *.
    exists (rev b), (rev a ++ rev new)%list. split; [done|]. right.
    apply Forall_app in Hpos as [_ Hpos]. apply Forall_cons in Hpos as [_ Hpos].
    apply Forall_app in Hpos as [Ha _]. apply sumOf_nonneg in Ha.
    rewrite sumOf_app, (sumOf_perm running (rev new) new) by (symmetry; apply Permutation_rev).
    specialize (Hold Hne). lia.
Qed.

(** ** Scaling *)

Lemma createReplicas_spec n desired :
  always (createReplicas n desired) (fun out l =>
    Forall (fun e => exists r, e = EvA (Create k desired) r) l /\
    creations l <= Z.of_nat n /\
    match out with
    | Done None => creations l = Z.of_nat n
    | Done (Some _) => True
    | _ => False
    end).
Proof.
  induction n as [|n IH]; simpl; [by split_and!|].
  intros [x|e]; simpl.
  - eapply always_mono; [|exact IH]. intros out l (Hl & Hle & Hout).
    assert (creations (EvA (Create k desired) (Val x) :: l) = 1 + creations l) as Hc.
    { unfold creations. simpl. lia. }
    rewrite Hc. split_and!; [constructor; eauto|lia|].
    destruct out as [[e|]|m|]; simpl in *; lia || done.
  - split_and!; [constructor; eauto|unfold creations; simpl; lia|done].
Qed.

Lemma annotatePods_spec xs ss qs :
  ss ∈ xs -> qs ⊆ pods ss ->
  getAnnotation (owner_meta (owner ss)) AnnotationKeyUnregistrationRequestTimestamp = None ->
  always (annotatePods qs) (fun out l => Forall (requestEvent xs) l /\ exists e, out = Done e).
Proof.
  intros Hss Hqs Hnone. induction qs as [|po qs IH]; simpl; [by eauto|].
  assert (po ∈ pods ss) as Hpo by set_solver.
  intros t. apply always_bind. eapply always_mono; [|apply annotatePodOnce_spec].
  intros [[q|e]|m|] l [_ H1]; simpl; [| |done..].
  - destruct H1 as (q' & -> & Hq').
    eapply always_mono; [|apply IH; set_solver]. intros out l' [Hl' Hout]. split; [|done].
    constructor; [by apply re_read|]. apply Forall_app_2; [|done].
    destruct Hq' as [(_ & -> & _)|[Hn ->]]; [constructor|]. constructor; [|constructor].
    by apply (re_pod _ ss).
  - destruct H1 as [Hn ->]. split; [|by eexists].
    constructor; [by apply re_read|]. constructor; [|constructor]. by apply (re_pod _ ss).
Qed.

Lemma requested_mono l l' ss : l ⊆ l' -> requested l ss -> requested l' ss.
Proof. intros Hl [H|(t & r & H)]; [by left|]. right. exists t, r. set_solver. Qed.

Lemma requestUnregistration_spec xs ys :
  ys ⊆ xs ->
  always (requestUnregistration ys) (fun out l => Forall (requestEvent xs) l /\
    exists e, out = Done e /\ (e = None -> Forall (requested l) ys)).
Proof.
  induction ys as [|ss ys IH]; intros Hys; simpl; [by eauto|].
  assert (ss ∈ xs) as Hss by set_solver.
  destruct (getAnnotation _ _) eqn:Hreq.
  { eapply always_mono; [|apply IH; set_solver]. intros out l (Hl & e & -> & He). split; [done|].
    exists e. split; [done|]. intros ->. constructor; [left; by eexists|by apply He]. }
  apply always_bind. eapply always_mono; [|apply (annotatePods_spec xs ss (pods ss)); done].
  intros _ l [Hl [e ->]]. destruct e as [e|]; simpl;
    [rewrite app_nil_r; split; [done|by exists (Some e)]|].
  intros t r. assert (requestEvent xs (EvA (Patch k (owner_withAnnotation (owner ss)
    AnnotationKeyUnregistrationRequestTimestamp (FormatRFC3339 t)) (owner ss)) r)) as Hr
    by by apply re_owner.
  assert (requestEvent xs (EvA Now t)) as Ht by by apply re_read.
  destruct r as [x|e].
  - eapply always_mono; [|apply IH; set_solver]. intros out l' (Hl' & e & -> & He). split.
    + apply Forall_app_2; [done|]. by repeat constructor.
    + exists e. split; [done|]. intros Hn. constructor; [right; exists t, x; set_solver|].
      eapply Forall_impl; [by apply He|]. intros ss'. apply requested_mono. set_solver.
  - split; [|by exists (Some e)]. apply Forall_app_2; [done|]. by repeat constructor.
Qed.

Lemma requestEvent_justified owners desired n l cur xs e :
  pool owners desired l cur -> (forall ss, ss ∈ xs -> redundant n cur ss) ->
  requestEvent xs e -> justified owners desired n l e.
Proof.
  intros Hp Hxs [e' He|ss po t r Hss Hpo Hn|ss t r Hss Hn].
  - by apply j_read.
  - by apply (j_request_pod _ _ _ _ cur ss); auto.
  - by apply (j_request _ _ _ _ cur ss); auto.
Qed.

Lemma recreationDelay_spec last :
  always (recreationDelay last) (fun out l => reads l /\
    match last with
    | None => out = Done false /\ l = []
    | Some t => exists now, l = [EvA Now now] /\
        out = Done (Before now (t + DefaultRunnerPodRecreationDelayAfterWebhookScale))
    end).
Proof. destruct last; simpl; [intros now|]; (split; [by repeat constructor|eauto]). Qed.

Lemma creations_reads l l' : reads l -> creations (l ++ l')%list = creations l'.
Proof.
  intros Hl. unfold creations. induction Hl as [|[[] ?] l0 He _ IHl]; done || exact IHl.
Qed.

(** Scaling up. *)
Lemma scale_up_spec desired n ephemeral eff last cur :
  let missing := n - (sumOf pending cur + sumOf running cur) in
  0 < missing ->
  always (scale desired n ephemeral eff last cur) (fun out l =>
    Forall (fun e => isRead (ev_req e) = true \/ exists r, e = EvA (Create k desired) r) l /\
    creations l <= missing /\
    ((out = Done ScalePostponed /\ creations l = missing) \/
     (exists e, out = Done (ScaleError e)) \/
     (out = Done ScaleDone /\ reads l /\ ephemeral = true /\ exists t e now,
        last = Some t /\ eff = Some e /\ e < t /\ l = [EvA Now now] /\
        now < t + DefaultRunnerPodRecreationDelayAfterWebhookScale))).
Proof.
  intros missing Hm. unfold scale. apply always_bind.
  rewrite (proj2 (Z.ltb_lt _ _)) by lia.
  eapply always_mono; [|apply recreationDelay_spec]. intros out l [Hl Hd].
  assert (exists b, out = Done b) as [b ->] by (destruct last; naive_solver).
  assert (forall l', Forall (fun e => isRead (ev_req e) = true \/
    exists r, e = EvA (Create k desired) r) l' ->
    Forall (fun e => isRead (ev_req e) = true \/ exists r, e = EvA (Create k desired) r) (l ++ l')%list)
    as Happ.
  { intros l' Hl'. apply Forall_app_2; [|done]. eapply Forall_impl; [exact Hl|]. naive_solver. }
  match goal with |- always (if ?c then _ else _) _ => destruct c eqn:Hhold end.
  - simpl. rewrite creations_reads by done. rewrite app_nil_r.
    split_and!; [rewrite <- (app_nil_r l); by apply Happ|unfold creations; simpl; lia|].
    right; right. destruct last as [t|]; [|done]. destruct eff as [e|]; [|done].
    destruct Hd as (now & -> & [= ->]). destruct ephemeral; [|done]. simpl in Hhold.
    apply andb_true_iff in Hhold as [H1 H2]. apply Z.ltb_lt in H1. apply Z.ltb_lt in H2.
    split_and!; [done..|]. by exists t, e, now.
  - apply always_bind. eapply always_mono; [|apply createReplicas_spec].
    intros out l' (Hl' & Hle & Hout).
    assert (Forall (fun e => isRead (ev_req e) = true \/
      exists r, e = EvA (Create k desired) r) l') as Hl''
      by (eapply Forall_impl; [exact Hl'|]; naive_solver).
    destruct out as [[e|]|m|]; [| |done..]; simpl; rewrite app_nil_r, creations_reads by done;
      (split_and!; [by apply Happ|lia|]); [by right; left; eexists|left; split; [done|lia]].
Qed.

(** Scaling down, or leaving things as they are. *)
Lemma scale_down_spec desired n ephemeral eff last cur :
  n <= sumOf pending cur + sumOf running cur ->
  always (scale desired n ephemeral eff last cur) (fun out l =>
    let (del, ret) := selectForDeletion n (rev cur) [] 0 in
    (reads l /\ sumOf running cur < n /\ out = Done ScaleDone) \/
    (reads l /\ n < ret /\ n <= sumOf running cur /\ out = Done ScalePostponed) \/
    (ret = n /\ n <= sumOf running cur /\ Forall (requestEvent del) l /\
     (out = Done ScaleDone /\ Forall (requested l) del \/ exists e, out = Done (ScaleError e)))).
Proof.
  intros Hn. unfold scale. apply always_bind. rewrite (proj2 (Z.ltb_ge _ _)) by lia.
  eapply always_mono; [|apply recreationDelay_spec]. intros out l [Hl Hd].
  assert (exists b, out = Done b) as [b ->] by (destruct last; naive_solver). clear Hd. simpl.
  pose proof (selectForDeletion_retains n cur) as Hret.
  destruct (selectForDeletion n (rev cur) [] 0) as [del ret]. simpl in Hret.
  destruct (Z.leb_spec n (sumOf running cur)) as [Hrun|]; [|by simpl; rewrite app_nil_r; eauto].
  specialize (Hret Hrun). destruct (Z.eqb_spec ret n) as [->|].
  - apply always_bind. eapply always_mono; [|apply (requestUnregistration_spec del del); done].
    intros _ l' (Hl' & e & -> & He).
    assert (Forall (requestEvent del) (l ++ l')%list) as Hall.
    { apply Forall_app_2; [|done]. eapply Forall_impl; [exact Hl|]. intros. by apply re_read. }
    right; right. destruct e; simpl; rewrite app_nil_r; split_and!; eauto.
    left. split; [done|]. eapply Forall_impl; [by apply He|]. intros ss. apply requested_mono. set_solver.
  - destruct (Z.ltb_spec n ret); [|lia]. simpl. rewrite app_nil_r. eauto 6.
Qed.

(** Both together, for the composition. *)
Lemma scale_spec desired n ephemeral eff last cur :
  always (scale desired n ephemeral eff last cur) (fun out l =>
    (exists s, out = Done s) /\
    (reads l \/
     sumOf pending cur + sumOf running cur < n /\
       Forall (fun e => isRead (ev_req e) = true \/ exists r, e = EvA (Create k desired) r) l \/
     exists del, selectForDeletion n (rev cur) [] 0 = (del, n) /\ n <= sumOf running cur /\
       Forall (requestEvent del) l)).
Proof.
  destruct (Z.lt_ge_cases 0 (n - (sumOf pending cur + sumOf running cur))) as [H|H].
  - eapply always_mono; [|by apply scale_up_spec]. intros out l (Hl & _ & Hout).
    split; [naive_solver|]. right; left. split; [lia|done].
  - eapply always_mono; [|apply scale_down_spec; lia]. intros out l Hd.
    destruct (selectForDeletion n (rev cur) [] 0) as [del ret].
    destruct Hd as [(Hl & _ & ->)|[(Hl & _ & _ & ->)|(-> & Hn & Hl & Hout)]]; (split; [naive_solver|]);
      [by left..|]. right; right. by exists del.
Qed.

(** ** The whole synchronisation *)

Lemma scale_justified owners create n ephemeral eff last cur l :
  pool owners create l cur ->
  always (scale create n ephemeral eff last cur) (fun out l1 =>
    (exists s, out = Done s) /\ Forall (justified owners create n (l ++ l1)%list) l1).
Proof.
  intros Hpool. eapply always_mono; [|apply scale_spec]. intros out l1 [Hout Hw]. split; [done|].
  assert (pool owners create (l ++ l1)%list cur) as Hpool' by (eapply pool_mono; [|done]; set_solver).
  destruct Hw as [Hr|[[Hlt Hc]|(del & Hdel & Hn & Hr)]].
  - by apply reads_justified.
  - eapply Forall_impl; [exact Hc|]. intros e [He|[r ->]]; [by apply j_read|by apply (j_create _ _ _ _ cur)].
  - eapply Forall_impl; [exact Hr|]. intros e. apply (requestEvent_justified _ _ _ _ cur); [done|].
    intros ss Hss. apply selectForDeletion_redundant; [done| |by rewrite Hdel].
    destruct (pool_hash _ _ _ _ Hpool) as [hash Hh]. apply Forall_forall. intros x Hx.
    apply (ok_nonneg _ _ (col_ok _ _ _ _ (pool_collected _ _ _ _ Hpool x hash Hh Hx))).
Qed.

Lemma deleteOutdated_spec owners desired n l0 hash xs :
  getRunnerTemplateHash (owner_meta desired) = Some hash ->
  (forall ss, ss ∈ xs -> exists h, collected owners l0 h ss) ->
  always (deleteOutdated hash xs) (fun out l =>
    Forall (justified owners desired n l0) l /\ exists r, out = Done r).
Proof.
  intros Hh. induction xs as [|ss xs IH]; intros Hxs; simpl; [by eauto|].
  case_decide as Hne; [|apply IH; set_solver].
  destruct (Hxs ss ltac:(set_solver)) as [h [[] Heq ? Hin Hal ? ? ?]]. rewrite Hal. simpl.
  intros e. split; [|by eexists]. constructor; [|constructor].
  apply j_delete_outdated; congruence.
Qed.

(** The group of the desired template, sorted, is the pool. *)
Lemma stateOK_pool owners desired l st hash :
  stateOK owners owners l st -> getRunnerTemplateHash (owner_meta desired) = Some hash ->
  pool owners desired l (sort_stable createdBefore (default [] (podsForOwners st !! hash))).
Proof.
  intros [Hst Hcomp] Hh. constructor; [by eauto|intros ss h Hh'|intros h Hh'|].
  - rewrite sort_stable_Permutation. rewrite Hh in Hh'. simplify_eq.
    destruct (podsForOwners st !! h) as [g|] eqn:Hg; simpl; [|set_solver]. by apply (Hst h g).
  - rewrite Hh in Hh'. simplify_eq. destruct (Hcomp h) as (gone & Hp & Hg). exists gone.
    split; [|done]. rewrite <- Hp. apply Permutation_app_tail, Permutation_map, sort_stable_Permutation.
  - apply sort_stable_sorted; unfold createdBefore, Before; intros *;
      rewrite ?Z.ltb_lt, ?Z.ltb_ge; lia.
Qed.

Lemma stateOK_shuffled owners seen l st ord ss :
  stateOK owners seen l st -> ss ∈ concat (map snd (shuffle ord (map_to_list (podsForOwners st)))) ->
  exists h, collected owners l h ss.
Proof.
  intros Hst Hin. apply list_elem_of_In, in_concat in Hin as (g & Hg & Hss).
  apply in_map_iff in Hg as ([h g'] & <- & Hg). exists h. eapply (st_collected _ _ _ _ Hst).
  - apply elem_of_map_to_list. rewrite <- (shuffle_Permutation ord). by apply list_elem_of_In.
  - by apply list_elem_of_In.
Qed.

Lemma sync_spec eff n create ephemeral owners :
  always (syncRunnerPodsOwners eff n create ephemeral owners) (fun out l =>
    Forall (justified owners create n l) l /\
    match out with
    | Done (Val (Some cur)) => pool owners create l cur
    | Done _ => True
    | Panicked _ => exists o, o ∈ owners /\ getRunnerTemplateHash (owner_meta o) = None
    | Exhausted => False
    end).
Proof.
  unfold syncRunnerPodsOwners. apply always_bind.
  eapply always_mono; [|apply (collectPodsForOwners_spec owners create n)].
  intros [[[st|]|e]|m|] l [Hl Hst]; simpl; rewrite ?app_nil_r; try done.
  destruct (getRunnerTemplateHash (owner_meta create)) as [hash|] eqn:Hh;
    [|by simpl; rewrite app_nil_r].
  pose proof (stateOK_pool _ _ _ _ _ Hst Hh) as Hcur. set (cur := sort_stable createdBefore _) in *.
  apply always_bind. eapply always_mono; [|apply (scale_justified owners create n _ _ _ cur l Hcur)].
  intros out l1 [[s ->] Hw].
  assert (Forall (justified owners create n (l ++ l1)%list) (l ++ l1)%list) as Hl1.
  { apply Forall_app_2; [eapply justified_all_mono; [|done]; set_solver|done]. }
  destruct s as [e| |]; simpl; rewrite ?app_nil_r; [done..|].
  intros ord. apply always_bind.
  eapply always_mono; [|apply (deleteOutdated_spec owners create n (l ++ l1)%list hash); [done|]].
  - intros _ l2 [Hl2 [r ->]].
    assert (Forall (justified owners create n (l ++ l1 ++ EvA (Order (length (map_to_list
      (podsForOwners st)))) ord :: l2)%list) (l ++ l1 ++ EvA (Order (length (map_to_list
      (podsForOwners st)))) ord :: l2)%list) as Hall.
    { rewrite app_assoc. apply Forall_app_2; [eapply justified_all_mono; [|done]; set_solver|].
      constructor; [by apply j_read|]. eapply justified_all_mono; [|done]. set_solver. }
    destruct r as [[e|]|]; simpl; rewrite ?app_nil_r; [done..|]. split; [done|].
    eapply pool_mono; [|done]. set_solver.
  - intros ss Hss. destruct (stateOK_shuffled _ _ _ _ _ _ Hst Hss) as [h Hc]. exists h.
    eapply collected_mono; [|done]. set_solver.
Qed.

(** C4: every write of a synchronisation has its reason, for every answer of
    the API server.  The desired object, and nothing else, is created, and only
    when the pending and running pods of the pool (all of the owners of its
    template, less those on their way out) are fewer than the desired replicas.
    Unregistration is requested only of an owner of the pool that is redundant,
    that is, one that runs no pod or is older than owners that run the desired
    number already, while the pool runs that number; and of its pods; each
    once.  An owner is marked complete only when it was requested to unregister
    and every pod observed is unregistered or being deleted.  An owner is
    deleted only when it is marked complete, or all of its pods (and it has
    some) are observed to have stopped, or its template is outdated. *)
Theorem sync_writes_justified eff n create ephemeral owners :
  always (syncRunnerPodsOwners eff n create ephemeral owners)
    (fun _ l => Forall (justified owners create n l) l).
Proof. eapply always_mono; [|apply sync_spec]. by intros out l [H _]. Qed.

(** C9: when every owner carries a template hash a synchronisation always
    returns: neither the "invalid state" panic nor any other is reachable. *)
Theorem sync_returns eff n create ephemeral owners :
  (forall o, o ∈ owners -> is_Some (getRunnerTemplateHash (owner_meta o))) ->
  always (syncRunnerPodsOwners eff n create ephemeral owners) (fun out _ => exists r, out = Done r).
Proof.
  intros Hall. eapply always_mono; [|apply sync_spec]. intros [r|m|] l [_ H]; [by eexists| |done].
  destruct H as (o & Ho & Hn). destruct (Hall o Ho) as [? Hs]. congruence.
Qed.

(** an owner without a template hash label crashes the reconcilation
    instead of being skipped with the logged advice: when it comes first, the
    only results are an error reading its pods and a nil dereference. *)
Theorem collect_missing_hash_panics o owners :
  getRunnerTemplateHash (owner_meta o) = None ->
  always (collectPodsForOwners (o :: owners)) (fun out _ =>
    (exists e, out = Done (Err e)) \/ exists m, out = Panicked m).
Proof.
  intros Hn. unfold collectPodsForOwners, rangeM. fold (@rangeM req ans).
  apply always_bind, always_bind. unfold collectOne. apply always_bind.
  eapply always_mono; [|apply getPodsForOwner_spec].
  intros [[[res|]|e]|m|] l [_ Hres]; simpl; eauto; try done.
  destruct Hres as (<- & _ & Hok). rewrite (ok_hash _ _ Hok) in Hn. done.
Qed.

(** C7: scaling up creates exactly what is missing: nothing but the desired
    object, never more than the desired replicas lack of pending and running
    pods, and exactly as many when no creation fails; the one exception is an
    ephemeral runner pool that was synced after the effective time less than
    the recreation delay ago, which writes nothing. *)
Theorem scale_up_exact desired n ephemeral eff last cur :
  let missing := n - (sumOf pending cur + sumOf running cur) in
  0 < missing ->
  always (scale desired n ephemeral eff last cur) (fun out l =>
    Forall (fun e => isRead (ev_req e) = true \/ exists r, e = EvA (Create k desired) r) l /\
    creations l <= missing /\
    (creations l = missing \/ (exists e, out = Done (ScaleError e)) \/
     (out = Done ScaleDone /\ creations l = 0 /\ ephemeral = true /\ exists t e now,
        last = Some t /\ eff = Some e /\ e < t /\ EvA Now now ∈ l /\
        now < t + DefaultRunnerPodRecreationDelayAfterWebhookScale))).
Proof.
  intros missing Hm. eapply always_mono; [|by apply scale_up_spec].
  intros out l (Hl & Hle & Hout). split_and!; [done..|].
  destruct Hout as [[_ ?]|[?|(? & Hr & ? & t & e & now & ? & ? & ? & -> & ?)]]; [by auto..|].
  right; right. split_and!; [done|done|done|]. exists t, e, now. set_solver.
Qed.

(** C8: scaling down keeps exactly the desired number of running pods, those
    of the newest owners.  While only pending pods make up the number, nothing
    is written.  Otherwise the current objects, oldest first, split into [old]
    and [new] with the running pods of [new] being the desired replicas:
    unregistration is requested of nothing but [old] and the owners of [new]
    that run no pod, and of all of them unless a request fails; and if there is
    no such split, because an owner runs several pods, nothing is written. *)
Theorem scale_down_exact desired n ephemeral eff last cur :
  n <= sumOf pending cur + sumOf running cur -> Forall (fun ss => 0 <= running ss) cur ->
  always (scale desired n ephemeral eff last cur) (fun out l =>
    (reads l /\ sumOf running cur < n /\ out = Done ScaleDone) \/
    (reads l /\ out = Done ScalePostponed /\
     forall old new, cur = (old ++ new)%list -> sumOf running new <> n) \/
    exists old new, cur = (old ++ new)%list /\ sumOf running new = n /\
      let redundant := (List.filter (fun ss => running ss =? 0) (rev new) ++ rev old)%list in
      Forall (requestEvent redundant) l /\
      (out = Done ScaleDone /\ Forall (requested l) redundant \/ exists e, out = Done (ScaleError e))).
Proof.
  intros Hn Hpos. eapply always_mono; [|by apply scale_down_spec]. intros out l Hd.
  destruct (selectForDeletion_shape n (rev cur) 0) as (new & old & Hrev & Hsel & Hmin).
  rewrite Hsel in Hd. destruct Hd as [Hd|[(Hl & Hret & Hrun & ->)|(Hret & Hrun & Hl & Hout)]]; [by left| |].
  - right; left. split_and!; [done..|]. intros old' new' -> Hsum.
    pose proof (selectForDeletion_exact n (rev new') (rev old') 0) as He.
    rewrite <- rev_app_distr, Hsel in He. simpl in He.
    rewrite (sumOf_perm _ (rev new') new') in He by (symmetry; apply Permutation_rev).
    rewrite He in Hret; [lia|by apply Forall_rev|lia].
  - right; right. exists (rev old), (rev new). rewrite !rev_involutive. split_and!; [| |done].
    + rewrite <- rev_app_distr, <- Hrev. by rewrite rev_involutive.
    + rewrite (sumOf_perm _ (rev new) new); [lia|]. symmetry. apply Permutation_rev.
Qed.

(** a pool at its desired size is left alone: when the running pods are
    exactly the desired replicas and every owner runs some, the scaling phase
    writes nothing and goes on. *)
Theorem scale_stable desired ephemeral eff last cur :
  Forall (fun ss => 0 < running ss /\ 0 <= pending ss) cur ->
  always (scale desired (sumOf running cur) ephemeral eff last cur)
    (fun out l => out = Done ScaleDone /\ reads l).
Proof.
  intros Hpos. unfold scale. apply always_bind.
  assert (0 <= sumOf pending cur) as Hpend.
  { unfold sumOf. apply sumZ_nonneg, Forall_map. eapply Forall_impl; [exact Hpos|]. naive_solver. }
  rewrite (proj2 (Z.ltb_ge _ _)) by lia. rewrite (proj2 (Z.leb_le _ _)) by lia.
  eapply always_mono; [|apply recreationDelay_spec]. intros out l [Hl Hd].
  assert (exists b, out = Done b) as [b ->] by (destruct last; naive_solver). clear Hd. simpl.
  assert (forall (xs : list (podsForOwner k)) ret,
    Forall (fun ss => 0 < running ss /\ 0 <= pending ss) xs ->
    selectForDeletion (ret + sumOf running xs) xs [] ret = ([], ret + sumOf running xs)) as Hsel.
  { induction xs as [|ss xs IH]; intros ret Hxs; unfold sumOf in *; simpl; [by rewrite Z.add_0_r|].
    apply Forall_cons in Hxs as [[Hr _] Hxs].
    assert (0 <= sumZ (map running xs)).
    { apply sumZ_nonneg, Forall_map. eapply Forall_impl; [exact Hxs|]. naive_solver lia. }
    rewrite (proj2 (Z.eqb_neq _ _)), (proj2 (Z.leb_gt _ _)) by lia. simpl.
    rewrite Z.add_assoc. by apply IH. }
  specialize (Hsel (rev cur) 0).
  rewrite (sumOf_perm _ (rev cur) cur) in Hsel by (symmetry; apply Permutation_rev).
  rewrite Z.add_0_l in Hsel. rewrite Hsel by by apply Forall_rev.
  rewrite Z.eqb_refl. simpl. by rewrite app_nil_r.
Qed.

(** the counters of an owner partition its pods: each pod is counted once,
    as completed, running, timed out in registering, terminating or pending,
    and the completed ones are the stopped ones. *)
Theorem getPodsForOwner_partition o :
  always (getPodsForOwner o) (fun out _ => forall res, out = Done (Val (Some res)) ->
    Z.of_nat (length (pods res))
      = completed res + running res + terminating res + regTimeout res + pending res /\
    completed res = Z.of_nat (length (List.filter runnerPodOrContainerIsStopped (pods res))) /\
    0 <= completed res /\ 0 <= running res /\ 0 <= terminating res /\
    0 <= regTimeout res /\ 0 <= pending res).
Proof.
  eapply always_mono; [|apply getPodsForOwner_spec]. intros out l [_ H] res ->.
  destruct H as (_ & _ & []). split; [congruence|done].
Qed.

End Facts.

(** ** The two implementations of the interface *)

(** [ownerRunner] *)
Definition ownerRunner_pods (r : Runner) : M (result (list Pod)) :=
  p <- ask (Get KPod {| nn_Namespace := om_Namespace (r_Meta r); nn_Name := om_Name (r_Meta r) |}) ;;
  Ret (match p with
       | Val pod => Val [pod]
       | Err e => if err_notfound e then Val [] else Err e
       end).

#[global] Instance ownerRunner : Owner KRunner := {|
  owner_meta := r_Meta : kobj KRunner -> ObjectMeta;
  owner_pods := ownerRunner_pods;
  owner_synced := fun r => bool_decide (rst_Phase (r_Status r) <> "");
  owner_withAnnotation := fun r key v => withRunnerMeta r (setAnnotation (r_Meta r) key v)
|}.

(** [ownerStatefulSet]: note that the pods of every namespace are listed. *)
Definition ownerStatefulSet_pods (s : StatefulSet) : M (result (list Pod)) :=
  l <- ask (List KPod [MatchingLabels (om_Labels (ss_TemplateMeta (sts_Spec s)))]) ;;
  Ret (match l with
       | Err e => Err e
       | Val ps =>
           Val (List.filter (fun pod =>
             match GetControllerOf (pod_Meta pod) with
             | None => false
             | Some owner => bool_decide (or_Kind owner = "StatefulSet") &&
                             bool_decide (or_Name owner = om_Name (sts_Meta s))
             end) ps)
       end).

Definition ownerStatefulSet_synced (s : StatefulSet) : bool :=
  let replicas := getIntOrDefault (ss_Replicas (sts_Spec s)) 1 in
  sst_Replicas (sts_Status s) =? replicas.

#[global] Instance ownerStatefulSet : Owner KStatefulSet := {|
  owner_meta := sts_Meta : kobj KStatefulSet -> ObjectMeta;
  owner_pods := ownerStatefulSet_pods;
  owner_synced := ownerStatefulSet_synced;
  owner_withAnnotation := fun s key v => withStatefulSetMeta s (setAnnotation (sts_Meta s) key v)
|}.

#[global] Instance ownerRunner_laws : OwnerLaws KRunner.
Proof.
  constructor; [|done]. intros r. simpl. intros a. split; [by eexists|by repeat constructor].
Qed.

#[global] Instance ownerStatefulSet_laws : OwnerLaws KStatefulSet.
Proof.
  constructor; [|done]. intros r. simpl. intros a. split; [by eexists|by repeat constructor].
Qed.
