(* ===== verification/Hash.v ===== *)
(** * Template hashes (src/hash, and ComputeHash of the RunnerDeployment controller)

    FNV-1a is the 32-bit hash of Go's [hash/fnv].  The spew printer and
    [rand.SafeEncodeString] are third-party code: the class [Printing]. *)

From stdpp Require Import base list gmap strings.
From Stdlib Require Import ZArith Lia Ascii.
From S2P Require Import Prelude Api GoStrings.

Open Scope string_scope.
Open Scope Z_scope.

(** ** FNV-1a *)

Definition offset32 : Z := 2166136261.
Definition prime32 : Z := 16777619.

Definition byteZ (c : ascii) : Z := Z.of_N (N_of_ascii c).

Definition fnvStep (h : Z) (c : ascii) : Z := (Z.lxor h (byteZ c) * prime32) mod 2 ^ 32.

(** [sum32a.Write]: the state after the bytes of [s]. *)
Fixpoint fnvWrite (h : Z) (s : string) : Z :=
  match s with
  | EmptyString => h
  | String c s => fnvWrite (fnvStep h c) s
  end.

(** [hasher.Reset()] *)
Definition fnvReset : Z := offset32.

(** ** The hashed values *)

Inductive hashable :=
| HTemplate (t : RunnerTemplate)
| HRRSSpec (s : RunnerReplicaSetSpec)
| HPodSpec (s : PodSpec)
| HStrings (m : strmap)
| HRunnerSpec (s : RunnerSpec)
| HString (s : string).

(** [printer.Fprintf(hasher, "%#v", obj)] writes [spew obj] to the hasher. *)
Class Printing := {
  spew : hashable -> string;
  SafeEncodeString : string -> string
}.

Section Hashes.
Context {P : Printing}.

Definition ComputeHash (template : hashable) : string :=
  let hasher := fnvReset in
  SafeEncodeString (FormatInt (fnvWrite hasher (spew template))).

(** The hasher is reset before the object is written. *)
Definition DeepHashObject (hasher : Z) (obj : hashable) : Z :=
  let hasher := fnvReset in
  fnvWrite hasher (spew obj).

Definition FNVHashStringObjects (objs : list hashable) : string :=
  let hash := fold_left DeepHashObject objs offset32 in
  SafeEncodeString (FormatInt hash).

End Hashes.

(** * Lemmas *)

Lemma byteZ_range c : 0 <= byteZ c < 2 ^ 8.
Proof. unfold byteZ. pose proof (N_ascii_bounded c). lia. Qed.

Lemma byteZ_inj c d : byteZ c = byteZ d -> c = d.
Proof.
  unfold byteZ. intros H. rewrite <- (ascii_N_embedding c), <- (ascii_N_embedding d). f_equal. lia.
Qed.

Lemma fnvStep_range h c : 0 <= fnvStep h c < 2 ^ 32.
Proof. apply Z.mod_pos_bound. lia. Qed.

Lemma lxor_range a b n : 0 <= n -> 0 <= a < 2 ^ n -> 0 <= b < 2 ^ n -> 0 <= Z.lxor a b < 2 ^ n.
Proof.
  intros Hn Ha Hb.
  assert (Z.lxor a b = Z.lxor a b mod 2 ^ n) as ->; [|apply Z.mod_pos_bound; lia].
  apply Z.bits_inj'. intros i Hi. rewrite Z.lxor_spec.
  destruct (Z.lt_ge_cases i n).
  - by rewrite Z.mod_pow2_bits_low, Z.lxor_spec by lia.
  - rewrite Z.mod_pow2_bits_high by lia.
    rewrite <- (Z.mod_small a (2 ^ n)), <- (Z.mod_small b (2 ^ n)) by lia.
    by rewrite !Z.mod_pow2_bits_high by lia.
Qed.

(** The prime is odd, so multiplying by it modulo [2^32] can be undone. *)
Lemma prime32_cancel a b :
  0 <= a < 2 ^ 32 -> 0 <= b < 2 ^ 32 ->
  (a * prime32) mod 2 ^ 32 = (b * prime32) mod 2 ^ 32 -> a = b.
Proof.
  intros Ha Hb H.
  assert (forall x, 0 <= x < 2 ^ 32 -> ((x * prime32) mod 2 ^ 32 * 899433627) mod 2 ^ 32 = x) as Hinv.
  { intros x Hx. rewrite Z.mul_mod_idemp_l by lia.
    rewrite <- Z.mul_assoc. rewrite <- Z.mul_mod_idemp_r by lia.
    change ((prime32 * 899433627) mod 2 ^ 32) with 1. rewrite Z.mul_1_r. by apply Z.mod_small. }
  rewrite <- (Hinv a), <- (Hinv b) by done. by rewrite H.
Qed.

Lemma fnvStep_inj h1 h2 c1 c2 :
  0 <= h1 < 2 ^ 32 -> 0 <= h2 < 2 ^ 32 -> fnvStep h1 c1 = fnvStep h2 c2 ->
  Z.lxor h1 (byteZ c1) = Z.lxor h2 (byteZ c2).
Proof.
  intros H1 H2 H. pose proof (byteZ_range c1). pose proof (byteZ_range c2).
  assert (2 ^ 8 <= 2 ^ 32) by lia.
  apply prime32_cancel; [apply lxor_range; lia..|done].
Qed.

Lemma lxor_cancel_l a b c : Z.lxor a b = Z.lxor a c -> b = c.
Proof.
  intros H. assert (Z.lxor a (Z.lxor a b) = Z.lxor a (Z.lxor a c)) as H' by (by rewrite H).
  by rewrite <- !Z.lxor_assoc, Z.lxor_nilpotent, !Z.lxor_0_l in H'.
Qed.

Lemma fnvWrite_inj h1 h2 s :
  0 <= h1 < 2 ^ 32 -> 0 <= h2 < 2 ^ 32 -> fnvWrite h1 s = fnvWrite h2 s -> h1 = h2.
Proof.
  revert h1 h2. induction s as [|c s IH]; simpl; intros h1 h2 H1 H2 H; [done|].
  apply IH in H; [|apply fnvStep_range..]. apply fnvStep_inj in H; [|done..].
  rewrite !(Z.lxor_comm _ (byteZ c)) in H. by apply lxor_cancel_l in H.
Qed.

Lemma fnvWrite_range h s : 0 <= h < 2 ^ 32 -> 0 <= fnvWrite h s < 2 ^ 32.
Proof. revert h. induction s; simpl; intros h H; [done|]. apply IHs, fnvStep_range. Qed.

Lemma fnvWrite_app h s t : fnvWrite h (s +:+ t) = fnvWrite (fnvWrite h s) t.
Proof. revert h. induction s; simpl; intros h; [done|]. apply IHs. Qed.

(** two printed templates that differ in exactly one byte never have the
    same FNV-1a hash, so such an edit of a runner template is always noticed
    (up to the safe encoding); and the hash is a 32-bit number. *)
Theorem fnv_one_byte_collision_free s c d t :
  c <> d ->
  fnvWrite offset32 (s +:+ String c t) <> fnvWrite offset32 (s +:+ String d t) /\
  0 <= fnvWrite offset32 (s +:+ String c t) < 2 ^ 32.
Proof.
  intros Hne. assert (0 <= offset32 < 2 ^ 32) as Ho by (unfold offset32; lia).
  split; [|by apply fnvWrite_range]. rewrite !fnvWrite_app. simpl. intros H.
  apply fnvWrite_inj in H; [|apply fnvStep_range..].
  apply fnvStep_inj in H; [|by apply fnvWrite_range..].
  apply lxor_cancel_l, byteZ_inj in H. done.
Qed.

Lemma fnv_one_byte_collision_free_witness :
  fnvWrite offset32 ("image: " +:+ String "a"%char "") <> fnvWrite offset32 ("image: " +:+ String "b"%char "").
Proof. apply (fnv_one_byte_collision_free "image: " "a"%char "b"%char ""). discriminate. Defined.

(** the pod template hash depends on its last argument only: hashing an
    object resets the hasher, so what was hashed before is forgotten. *)
Theorem FNVHashStringObjects_last {P : Printing} (objs : list hashable) (last : hashable) :
  FNVHashStringObjects (objs ++ [last])%list = ComputeHash last.
Proof.
  unfold FNVHashStringObjects, ComputeHash. by rewrite fold_left_app.
Qed.

(** The reference values of FNV-1a. *)
Example fnv_empty : fnvWrite offset32 "" = 2166136261. Proof. reflexivity. Qed.
Example fnv_a : fnvWrite offset32 "a" = 0xe40c292c. Proof. reflexivity. Qed.
Example fnv_foobar : fnvWrite offset32 "foobar" = 0xbf9cf968. Proof. reflexivity. Qed.
