(* ===== verification/PodBuilder.v ===== *)
(** * Building runner pods (src/controllers/runner_controller.go, [newRunnerPod], [newPod])

    A runner pod is built from a template: the container named "runner" gets
    the image, the environment and the mounts of the runner, and a container
    named "docker" is added or completed when a Docker daemon is wanted next to
    it.  [newPod] builds the template of a Runner and adds what its
    specification asks for. *)

From stdpp Require Import base list gmap strings.
From Stdlib Require Import ZArith Lia.
From S2P Require Import Prelude Api GoStrings GitHubClient Hash RunnerPod.

Open Scope string_scope.
Open Scope Z_scope.

Definition LabelKeyPodTemplateHash := "pod-template-hash".
Definition annotationKeyRegistrationOnly := "actions-runner-controller/registration-only".
Definition EnvVarRunnerFeatureFlagEphemeral := "RUNNER_FEATURE_FLAG_EPHEMERAL".
Definition EnvVarTrue := "true".
Definition LabelKeyPodMutation := "actions-runner-controller/inject-registration-token".
Definition LabelValuePodMutation := "true".

(** What the reconcilers are configured with. *)
Record podDefaults := mkPodDefaults {
  pd_RunnerImage : string;
  pd_RunnerImagePullSecrets : list string;
  pd_DockerImage : string;
  pd_DockerRegistryMirror : string;
  pd_GithubBaseURL : string
}.

(** ** Containers *)

Definition env (name value : string) : EnvVar :=
  {| ev_Name := name; ev_Value := value; ev_ValueFrom := None |}.

Definition mount (name path : string) (readOnly : bool) : VolumeMount :=
  {| vm_Name := name; vm_MountPath := path; vm_ReadOnly := readOnly; vm_rest := "" |}.

Definition emptyContainer (name : string) : Container :=
  {| c_Name := name; c_Image := ""; c_ImagePullPolicy := ""; c_Args := []; c_Env := [];
     c_EnvFrom := []; c_Resources := ""; c_VolumeMounts := []; c_SecurityContext := None;
     c_rest := "" |}.

Definition withMounts (c : Container) (ms : list VolumeMount) : Container :=
  {| c_Name := c_Name c; c_Image := c_Image c; c_ImagePullPolicy := c_ImagePullPolicy c;
     c_Args := c_Args c; c_Env := c_Env c; c_EnvFrom := c_EnvFrom c; c_Resources := c_Resources c;
     c_VolumeMounts := ms; c_SecurityContext := c_SecurityContext c; c_rest := c_rest c |}.

(** The loop over the containers: the last one of each name, with its index. *)
Fixpoint lastContainer (i : nat) (name : string) (cs : list Container)
  (found : option (nat * Container)) : option (nat * Container) :=
  match cs with
  | [] => found
  | c :: cs => lastContainer (S i) name cs (if decide (c_Name c = name) then Some (i, c) else found)
  end.

(** ** The decisions of [newRunnerPod] *)

Definition dockerdInRunner (c : RunnerConfig) : bool := default false (rc_DockerdWithinRunnerContainer c).
Definition dockerEnabled (c : RunnerConfig) : bool := default true (rc_DockerEnabled c).

(** Whether a Docker daemon runs in a container of its own. *)
Definition dockerSidecar (c : RunnerConfig) : bool := negb (dockerdInRunner c) && dockerEnabled c.

Definition workDirOf (c : RunnerConfig) : string :=
  if decide (rc_WorkDir c = "") then "/runner/_work" else rc_WorkDir c.

Definition registryMirror (c : RunnerConfig) (d : podDefaults) : string :=
  default (pd_DockerRegistryMirror d) (rc_DockerRegistryMirror c).

Definition seLinuxOptionsOf (p : Pod) : option raw :=
  s ← ps_SecurityContext (pod_Spec p); psc_SELinuxOptions s.

(** The volume /runner is disabled by a size limit of zero. *)
Definition runnerVolumeEnabled (c : RunnerConfig) : bool :=
  match rc_VolumeSizeLimit c with None => true | Some q => negb (q =? 0) end.

Definition runnerEnv (c : RunnerConfig) (d : podDefaults) (registrationOnly : bool) : list EnvVar :=
  let ephemeral := default true (rc_Ephemeral c) in
  ([env EnvVarOrg (rc_Organization c);
    env EnvVarRepo (rc_Repository c);
    env EnvVarEnterprise (rc_Enterprise c);
    env "RUNNER_LABELS" (Join (rc_Labels c) ",");
    env "RUNNER_GROUP" (rc_Group c);
    env "DOCKER_ENABLED" (FormatBool (dockerEnabled c || dockerdInRunner c));
    env "DOCKERD_IN_RUNNER" (FormatBool (dockerdInRunner c));
    env "GITHUB_URL" (pd_GithubBaseURL d);
    env "RUNNER_WORKDIR" (workDirOf c);
    env EnvVarEphemeral (FormatBool ephemeral)] ++
   (if registrationOnly then [env "RUNNER_REGISTRATION_ONLY" "true"] else []))%list.

(** ** The runner container *)

(** The environment added, in the order of the appends. *)
Definition addedRunnerEnv (c : RunnerConfig) (d : podDefaults) (registrationOnly : bool) : list EnvVar :=
  (runnerEnv c d registrationOnly ++
   (match rc_DockerMTU c with
    | Some mtu => if dockerdInRunner c then [env "MTU" (FormatInt mtu)] else []
    | None => []
    end) ++
   (if negb (bool_decide (registryMirror c d = "")) && dockerdInRunner c
    then [env "DOCKER_REGISTRY_MIRROR" (registryMirror c d)] else []) ++
   (if dockerSidecar c
    then [env "DOCKER_HOST" "tcp://localhost:2376"; env "DOCKER_TLS_VERIFY" "1";
          env "DOCKER_CERT_PATH" "/certs/client"]
    else []))%list.

Definition addedRunnerMounts (c : RunnerConfig) : list VolumeMount :=
  ((if runnerVolumeEnabled c then [mount "runner" "/runner" false] else []) ++
   (if dockerSidecar c
    then [mount "work" (workDirOf c) false; mount "certs-client" "/certs/client" true] else []))%list.

Definition runnerContainerOf (c : RunnerConfig) (d : podDefaults) (registrationOnly : bool)
  (seLinuxOptions : option raw) (found : option Container) : Container :=
  let dockerdInRunnerPrivileged := dockerdInRunner c && bool_decide (seLinuxOptions = None) in
  let r := default (emptyContainer containerName) found in
  let sc := default (mkSecurityContext None None "") (c_SecurityContext r) in
  {| c_Name := c_Name r;
     c_Image := (if negb (bool_decide (rc_Image c = "")) then rc_Image c
                 else if decide (c_Image r = "") then pd_RunnerImage d else c_Image r);
     c_ImagePullPolicy := (if decide (c_ImagePullPolicy r = "") then "Always" else c_ImagePullPolicy r);
     c_Args := c_Args r;
     c_Env := (c_Env r ++ addedRunnerEnv c d registrationOnly)%list;
     c_EnvFrom := c_EnvFrom r; c_Resources := c_Resources r;
     c_VolumeMounts := (c_VolumeMounts r ++ addedRunnerMounts c)%list;
     c_SecurityContext := Some {| sc_Privileged := Some dockerdInRunnerPrivileged;
                                  sc_SELinuxOptions := sc_SELinuxOptions sc; sc_rest := sc_rest sc |};
     c_rest := c_rest r |}.

(** ** The Docker container *)

Definition workVolumeMountPresent (items : list VolumeMount) : bool * nat :=
  match list_find (fun m => vm_Name m = "work") items with
  | Some (i, _) => (true, i)
  | None => (false, 0%nat)
  end.

Definition workVolumePresent (items : list Volume) : bool * nat :=
  match list_find (fun v => v_Name v = "work") items with
  | Some (i, _) => (true, i)
  | None => (false, 0%nat)
  end.

Definition dockerdContainerOf (c : RunnerConfig) (d : podDefaults) (seLinuxOptions : option raw)
  (found : option Container) : Container :=
  let privileged := bool_decide (seLinuxOptions = None) in
  let k := default (emptyContainer "docker") found in
  let dockerVolumeMounts :=
    ([mount "runner" "/runner" false; mount "certs-client" "/certs/client" false] ++
     (if (workVolumeMountPresent (c_VolumeMounts k)).1 then [] else [mount "work" (workDirOf c) false]))%list in
  {| c_Name := c_Name k;
     c_Image := (if decide (c_Image k = "") then pd_DockerImage d else c_Image k);
     c_ImagePullPolicy := c_ImagePullPolicy k;
     c_Args := (c_Args k ++
       (match rc_DockerMTU c with Some mtu => ["--mtu"; FormatInt mtu] | None => [] end) ++
       (if decide (registryMirror c d = "") then []
        else ["--registry-mirror=" +:+ registryMirror c d]))%list;
     c_Env := (c_Env k ++ [env "DOCKER_TLS_CERTDIR" "/certs"] ++
       (match rc_DockerMTU c with
        | Some mtu => [env "DOCKERD_ROOTLESS_ROOTLESSKIT_MTU" (FormatInt mtu)]
        | None => []
        end))%list;
     c_EnvFrom := c_EnvFrom k; c_Resources := c_Resources k;
     c_VolumeMounts := (c_VolumeMounts k ++ dockerVolumeMounts)%list;
     c_SecurityContext := Some (default {| sc_Privileged := Some privileged;
                                           sc_SELinuxOptions := seLinuxOptions; sc_rest := "" |}
                                  (c_SecurityContext k));
     c_rest := c_rest k |}.

(** ** The pod *)

Definition withVolumes (s : PodSpec) (vs : list Volume) : PodSpec :=
  {| ps_Containers := ps_Containers s; ps_InitContainers := ps_InitContainers s;
     ps_EphemeralContainers := ps_EphemeralContainers s; ps_Volumes := vs;
     ps_RestartPolicy := ps_RestartPolicy s; ps_ImagePullSecrets := ps_ImagePullSecrets s;
     ps_SecurityContext := ps_SecurityContext s;
     ps_EnableServiceLinks := ps_EnableServiceLinks s; ps_NodeSelector := ps_NodeSelector s;
     ps_ServiceAccountName := ps_ServiceAccountName s;
     ps_AutomountServiceAccountToken := ps_AutomountServiceAccountToken s;
     ps_Affinity := ps_Affinity s; ps_Tolerations := ps_Tolerations s;
     ps_TopologySpreadConstraints := ps_TopologySpreadConstraints s;
     ps_TerminationGracePeriodSeconds := ps_TerminationGracePeriodSeconds s;
     ps_HostAliases := ps_HostAliases s; ps_DNSConfig := ps_DNSConfig s;
     ps_RuntimeClassName := ps_RuntimeClassName s; ps_rest := ps_rest s |}.

Definition withRestart (s : PodSpec) (restartPolicy : string) (secrets : list string) : PodSpec :=
  {| ps_Containers := ps_Containers s; ps_InitContainers := ps_InitContainers s;
     ps_EphemeralContainers := ps_EphemeralContainers s; ps_Volumes := ps_Volumes s;
     ps_RestartPolicy := restartPolicy; ps_ImagePullSecrets := secrets;
     ps_SecurityContext := ps_SecurityContext s;
     ps_EnableServiceLinks := ps_EnableServiceLinks s; ps_NodeSelector := ps_NodeSelector s;
     ps_ServiceAccountName := ps_ServiceAccountName s;
     ps_AutomountServiceAccountToken := ps_AutomountServiceAccountToken s;
     ps_Affinity := ps_Affinity s; ps_Tolerations := ps_Tolerations s;
     ps_TopologySpreadConstraints := ps_TopologySpreadConstraints s;
     ps_TerminationGracePeriodSeconds := ps_TerminationGracePeriodSeconds s;
     ps_HostAliases := ps_HostAliases s; ps_DNSConfig := ps_DNSConfig s;
     ps_RuntimeClassName := ps_RuntimeClassName s; ps_rest := ps_rest s |}.

Definition withPodSpec (p : Pod) (s : PodSpec) : Pod :=
  {| pod_Meta := pod_Meta p; pod_Spec := s; pod_Status := pod_Status p |}.

Definition addedVolumes (c : RunnerConfig) : list Volume :=
  ((if runnerVolumeEnabled c
    then [mkVolume "runner" (EmptyDir (mkEmptyDir (default "" (rc_VolumeStorageMedium c)) (rc_VolumeSizeLimit c)))]
    else []) ++
   (if dockerSidecar c
    then [mkVolume "work" (EmptyDir (mkEmptyDir "" None)); mkVolume "certs-client" (EmptyDir (mkEmptyDir "" None))]
    else []))%list.

(** Put the runner container in its place or first, the Docker container in
    its place or last; the index of the latter moves with an insertion. *)
Definition placeContainers (sidecar : bool) (runnerAt dockerdAt : option nat)
  (runner dockerd : Container) (cs : list Container) : list Container :=
  let '(cs, dockerdAt) :=
    match runnerAt with
    | None => (runner :: cs, option_map S dockerdAt)
    | Some i => (<[i := runner]> cs, dockerdAt)
    end in
  if sidecar then
    match dockerdAt with
    | None => (cs ++ [dockerd])%list
    | Some j => <[j := dockerd]> cs
    end
  else cs.

Definition newRunnerPod (runnerName : string) (template : Pod) (c : RunnerConfig) (d : podDefaults)
  (registrationOnly : bool) : result Pod :=
  let meta := pod_Meta template in
  let labels := CloneAndAddLabel (om_Labels meta) LabelKeyRunnerSetName runnerName in
  let labels := CloneAndAddLabel labels LabelKeyPodMutation LabelValuePodMutation in
  let spec := pod_Spec template in
  let seLinuxOptions := seLinuxOptionsOf template in
  let foundRunner := lastContainer 0 containerName (ps_Containers spec) None in
  let foundDockerd := lastContainer 0 "docker" (ps_Containers spec) None in
  let runner := runnerContainerOf c d registrationOnly seLinuxOptions (option_map snd foundRunner) in
  let dockerd := dockerdContainerOf c d seLinuxOptions (option_map snd foundDockerd) in
  if dockerSidecar c && negb (runnerVolumeEnabled c) then
    Err (newError "runner volume can't be disabled because it is required to share the working directory between the runner and the dockerd containers")
  else
    let spec := withRestart spec
      (if decide (ps_RestartPolicy spec = "") then "OnFailure" else ps_RestartPolicy spec)
      (match ps_ImagePullSecrets spec with [] => pd_RunnerImagePullSecrets d | l => l end) in
    let spec := withVolumes spec (ps_Volumes spec ++ addedVolumes c)%list in
    let spec := withContainers spec
      (placeContainers (dockerSidecar c) (option_map fst foundRunner) (option_map fst foundDockerd)
         runner dockerd (ps_Containers spec)) in
    let pod := withPodSpec (withPodMeta template (withLabels meta labels)) spec in
    Val (if decide (getRunnerEnv pod EnvVarRunnerFeatureFlagEphemeral = "")
         then setRunnerEnv pod EnvVarRunnerFeatureFlagEphemeral EnvVarTrue else pod).

(** ** The pod of a Runner *)

(** [append(l[:i], l[i+1:]...)]: panics when [i] is not an index of [l]. *)
Definition removeAt {A : Type} (i : nat) (l : list A) : option (list A) :=
  if decide (S i <= length l)%nat then Some (take i l ++ drop (S i) l)%list else None.

Definition sliceBounds {A : Type} : M A := Panic "runtime error: slice bounds out of range".

(** The containers of the template of a Runner. *)
Definition templateContainers (s : RunnerSpec) : list Container :=
  let p := rsp_Pod s in
  match rp_Containers p with
  | [] =>
      ({| c_Name := "runner"; c_Image := ""; c_ImagePullPolicy := rp_ImagePullPolicy p; c_Args := [];
          c_Env := rp_Env p; c_EnvFrom := rp_EnvFrom p; c_Resources := rp_Resources p;
          c_VolumeMounts := []; c_SecurityContext := None; c_rest := "" |} ::
       (if dockerEnabled (rsp_Config s) && negb (dockerdInRunner (rsp_Config s))
        then [{| c_Name := "docker"; c_Image := ""; c_ImagePullPolicy := ""; c_Args := [];
                 c_Env := rp_DockerEnv p; c_EnvFrom := [];
                 c_Resources := rp_DockerdContainerResources p;
                 c_VolumeMounts := rp_DockerVolumeMounts p; c_SecurityContext := None; c_rest := "" |}]
        else []))
  | cs => cs
  end.

Definition emptyPodStatus : PodStatus :=
  {| pst_Phase := ""; pst_Reason := ""; pst_Message := ""; pst_Conditions := [];
     pst_ContainerStatuses := [] |}.

Definition templateSpec (s : RunnerSpec) : PodSpec :=
  {| ps_Containers := templateContainers s; ps_InitContainers := []; ps_EphemeralContainers := [];
     ps_Volumes := []; ps_RestartPolicy := ""; ps_ImagePullSecrets := [];
     ps_SecurityContext := rp_SecurityContext (rsp_Pod s);
     ps_EnableServiceLinks := rp_EnableServiceLinks (rsp_Pod s); ps_NodeSelector := None;
     ps_ServiceAccountName := ""; ps_AutomountServiceAccountToken := None; ps_Affinity := None;
     ps_Tolerations := []; ps_TopologySpreadConstraints := []; ps_TerminationGracePeriodSeconds := None;
     ps_HostAliases := []; ps_DNSConfig := None; ps_RuntimeClassName := None; ps_rest := "" |}.

(** The mounts of the first container: a work mount given by the operator
    replaces the one found, or the first one when there is none. *)
Definition mountVolumes (cs : list Container) (mounts : list VolumeMount) : M (list Container) :=
  match mounts, cs with
  | [], _ => Ret cs
  | _, [] => Panic "runtime error: index out of range"
  | _, c0 :: rest =>
      let kept :=
        if (workVolumeMountPresent mounts).1
        then removeAt (workVolumeMountPresent (c_VolumeMounts c0)).2 (c_VolumeMounts c0)
        else Some (c_VolumeMounts c0) in
      match kept with
      | None => sliceBounds
      | Some kept => Ret (withMounts c0 (kept ++ mounts)%list :: rest)
      end
  end.

Definition addVolumes (vs extra : list Volume) : M (list Volume) :=
  match extra with
  | [] => Ret vs
  | _ =>
      let kept :=
        if (workVolumePresent extra).1 then removeAt (workVolumePresent vs).2 vs else Some vs in
      match kept with
      | None => sliceBounds
      | Some kept => Ret (kept ++ extra)%list
      end
  end.

(** A list of the specification replaces the pod's unless it is empty. *)
Definition orElse {A : Type} (l l' : list A) : list A := match l with [] => l' | _ => l end.

Definition some {A : Type} (o o' : option A) : option A := match o with Some _ => o | None => o' end.

(** The remaining fields that the specification sets. *)
Definition customizeSpec (s : PodSpec) (p : RunnerPodSpec) (cs : list Container) (vs : list Volume) : PodSpec :=
  {| ps_Containers := (cs ++ rp_SidecarContainers p)%list;
     ps_InitContainers := (ps_InitContainers s ++ rp_InitContainers p)%list;
     ps_EphemeralContainers := orElse (rp_EphemeralContainers p) (ps_EphemeralContainers s);
     ps_Volumes := vs;
     ps_RestartPolicy := ps_RestartPolicy s;
     ps_ImagePullSecrets := orElse (rp_ImagePullSecrets p) (ps_ImagePullSecrets s);
     ps_SecurityContext := ps_SecurityContext s;
     ps_EnableServiceLinks := ps_EnableServiceLinks s;
     ps_NodeSelector := some (rp_NodeSelector p) (ps_NodeSelector s);
     ps_ServiceAccountName := (if decide (rp_ServiceAccountName p = "") then ps_ServiceAccountName s
                               else rp_ServiceAccountName p);
     ps_AutomountServiceAccountToken :=
       some (rp_AutomountServiceAccountToken p) (ps_AutomountServiceAccountToken s);
     ps_Affinity := some (rp_Affinity p) (ps_Affinity s);
     ps_Tolerations := orElse (rp_Tolerations p) (ps_Tolerations s);
     ps_TopologySpreadConstraints :=
       orElse (rp_TopologySpreadConstraints p) (ps_TopologySpreadConstraints s);
     ps_TerminationGracePeriodSeconds :=
       some (rp_TerminationGracePeriodSeconds p) (ps_TerminationGracePeriodSeconds s);
     ps_HostAliases := orElse (rp_HostAliases p) (ps_HostAliases s);
     ps_DNSConfig := some (rp_DnsConfig p) (ps_DNSConfig s);
     ps_RuntimeClassName := some (rp_RuntimeClassName p) (ps_RuntimeClassName s);
     ps_rest := ps_rest s |}.

Section NewPod.
Context {P : Printing}.

Definition podTemplateHash (d : podDefaults) (runner : Runner) : string :=
  FNVHashStringObjects
    [HStrings (filterLabels (om_Labels (r_Meta runner)) LabelKeyRunnerTemplateHash);
     HStrings (om_Annotations (r_Meta runner));
     HRunnerSpec (r_Spec runner);
     HString (pd_GithubBaseURL d);
     HString (rsr_Token (rst_Registration (r_Status runner)))].

Definition podTemplate (d : podDefaults) (runner : Runner) : Pod :=
  {| pod_Meta :=
       {| om_Name := om_Name (r_Meta runner); om_GenerateName := "";
          om_Namespace := om_Namespace (r_Meta runner);
          om_Labels := <[LabelKeyPodTemplateHash := podTemplateHash d runner]> (om_Labels (r_Meta runner));
          om_Annotations := om_Annotations (r_Meta runner);
          om_CreationTimestamp := 0; om_DeletionTimestamp := None; om_Finalizers := [];
          om_OwnerReferences := [] |};
     pod_Spec := templateSpec (r_Spec runner);
     pod_Status := emptyPodStatus |}.

Definition newPod (d : podDefaults) (runner : Runner) : M (result Pod) :=
  let registrationOnly :=
    bool_decide (is_Some (om_Annotations (r_Meta runner) !! annotationKeyRegistrationOnly)) in
  let spec := rsp_Pod (r_Spec runner) in
  match newRunnerPod (om_Name (r_Meta runner)) (podTemplate d runner) (rsp_Config (r_Spec runner)) d
          registrationOnly with
  | Err e => Ret (Err e)
  | Val pod =>
      cs <- mountVolumes (ps_Containers (pod_Spec pod)) (rp_VolumeMounts spec) ;;
      vs <- addVolumes (ps_Volumes (pod_Spec pod)) (rp_Volumes spec) ;;
      let pod := withPodSpec pod (customizeSpec (pod_Spec pod) spec cs vs) in
      let updated := mutatePod pod (rsr_Token (rst_Registration (r_Status runner))) in
      try own <- ask (SetControllerReference KRunner (r_Meta runner) (pod_Meta updated)) ;;
      Ret (Val (withPodMeta updated (withOwnerReferences (pod_Meta updated) own)))
  end.

End NewPod.

(** * Well-formed pods *)

(** Every mount of a container names a volume of the pod, which Kubernetes
    requires of the pods it accepts. *)
Definition mountsIn (vs : list Volume) (c : Container) : Prop :=
  Forall (fun m => vm_Name m ∈ map v_Name vs) (c_VolumeMounts c).

Definition mountsClosed (p : Pod) : Prop :=
  Forall (mountsIn (ps_Volumes (pod_Spec p))) (ps_Containers (pod_Spec p)).

Lemma elem_of_insert {A} (x y : A) (i : nat) (l : list A) : x ∈ <[i := y]> l -> x = y \/ x ∈ l.
Proof.
  intros H. apply list_elem_of_lookup in H as [j H].
  apply list_lookup_insert_Some in H as [(-> & -> & _)|[_ H]]; [by left|].
  right. by eapply list_elem_of_lookup_2.
Qed.

Lemma placeContainers_elem sidecar ra da runner dockerd cs x :
  x ∈ placeContainers sidecar ra da runner dockerd cs ->
  x = runner \/ (sidecar = true /\ x = dockerd) \/ x ∈ cs.
Proof.
  unfold placeContainers. destruct ra as [i|], sidecar, da as [j|]; simpl; intros H;
    repeat (apply elem_of_insert in H as [->|H] || apply elem_of_app in H as [H|H] ||
            apply elem_of_cons in H as [->|H]); set_solver.
Qed.

Lemma lastContainer_spec i name cs found j c :
  lastContainer i name cs found = Some (j, c) ->
  (found = Some (j, c) /\ Forall (fun c => c_Name c <> name) cs) \/
  exists pre post, cs = (pre ++ c :: post)%list /\ j = (i + length pre)%nat /\ c_Name c = name /\
    Forall (fun c => c_Name c <> name) post.
Proof.
  revert i found. induction cs as [|c0 cs IH]; intros i found H; simpl in H; [left; by split|].
  apply IH in H as [[Hf Hcs]|(pre & post & -> & -> & Hn & Hp)].
  - case_decide as Hn; [|left; by split; [|constructor]]. simplify_eq.
    right. exists [], cs. split_and!; [done|simpl; lia|done|done].
  - right. exists (c0 :: pre), post. split_and!; [done|simpl; lia|done|done].
Qed.

Lemma lastContainer_none i name cs :
  lastContainer i name cs None = None -> Forall (fun c => c_Name c <> name) cs.
Proof.
  assert (forall cs i jc, lastContainer i name cs (Some jc) <> None) as Hs.
  { induction cs0 as [|c cs0 IH]; intros j jc; simpl; [done|]. by case_decide; apply IH. }
  revert i. induction cs as [|c cs IH]; intros i H; simpl in H; [constructor|].
  case_decide as Hn; [by apply Hs in H|]. constructor; [done|by eapply IH].
Qed.

Lemma lastContainer_elem name cs jc : lastContainer 0 name cs None = Some jc -> jc.2 ∈ cs.
Proof.
  destruct jc as [j c]. intros H. apply lastContainer_spec in H as [[? _]|(pre & post & -> & _)]; [done|set_solver].
Qed.

Lemma mountsIn_mono vs vs' c : mountsIn vs c -> mountsIn (vs ++ vs')%list c.
Proof. unfold mountsIn. intros H. eapply Forall_impl; [exact H|]. intros m. rewrite map_app. set_solver. Qed.

(** A container found in the template, or a fresh one, has its mounts there. *)
Lemma mountsIn_found vs cs name fresh :
  Forall (mountsIn vs) cs -> c_VolumeMounts fresh = [] ->
  mountsIn vs (default fresh (option_map snd (lastContainer 0 name cs None))).
Proof.
  intros Hcs Hf. destruct (lastContainer 0 name cs None) as [jc|] eqn:Hl; simpl.
  - rewrite Forall_forall in Hcs. apply Hcs. by eapply lastContainer_elem.
  - unfold mountsIn. by rewrite Hf.
Qed.

Lemma setRunnerEnvIn_mounts vs cs key value :
  Forall (mountsIn vs) cs -> Forall (mountsIn vs) (setRunnerEnvIn cs key value).
Proof.
  induction 1 as [|c cs Hc Hcs IH]; simpl; [constructor|].
  case_decide; [|by constructor]. destruct (lookupEnv _ _); by constructor.
Qed.

Lemma runner_mounts vs c d ro se found :
  mountsIn vs (default (emptyContainer containerName) found) ->
  mountsIn (vs ++ addedVolumes c)%list (runnerContainerOf c d ro se found).
Proof.
  intros H. unfold mountsIn, runnerContainerOf. cbn [c_VolumeMounts]. apply Forall_app_2.
  - by apply mountsIn_mono.
  - unfold addedRunnerMounts, addedVolumes. rewrite !map_app.
    destruct (runnerVolumeEnabled c), (dockerSidecar c); simpl; repeat constructor; set_solver.
Qed.

Lemma dockerd_mounts vs c d se found :
  dockerSidecar c = true -> runnerVolumeEnabled c = true ->
  mountsIn vs (default (emptyContainer "docker") found) ->
  mountsIn (vs ++ addedVolumes c)%list (dockerdContainerOf c d se found).
Proof.
  intros Hs Hr H. unfold mountsIn, dockerdContainerOf. cbn [c_VolumeMounts]. apply Forall_app_2.
  - by apply mountsIn_mono.
  - unfold addedVolumes. rewrite Hs, Hr, map_app. simpl.
    destruct (workVolumeMountPresent _).1; simpl; repeat constructor; set_solver.
Qed.

(** What [newRunnerPod] answers, before the feature flag is set. *)
Lemma newRunnerPod_inv runnerName template c d ro pod :
  newRunnerPod runnerName template c d ro = Val pod ->
  let se := seLinuxOptionsOf template in
  let cs := ps_Containers (pod_Spec template) in
  let fr := lastContainer 0 containerName cs None in
  let fd := lastContainer 0 "docker" cs None in
  let placed := placeContainers (dockerSidecar c) (option_map fst fr) (option_map fst fd)
    (runnerContainerOf c d ro se (option_map snd fr)) (dockerdContainerOf c d se (option_map snd fd)) cs in
  (dockerSidecar c = true -> runnerVolumeEnabled c = true) /\
  ps_Volumes (pod_Spec pod) = (ps_Volumes (pod_Spec template) ++ addedVolumes c)%list /\
  (ps_Containers (pod_Spec pod) = placed \/
   ps_Containers (pod_Spec pod) = setRunnerEnvIn placed EnvVarRunnerFeatureFlagEphemeral EnvVarTrue) /\
  om_Labels (pod_Meta pod) = <[LabelKeyPodMutation := LabelValuePodMutation]>
    (<[LabelKeyRunnerSetName := runnerName]> (om_Labels (pod_Meta template))).
Proof.
  unfold newRunnerPod. cbv zeta. destruct (dockerSidecar c && negb (runnerVolumeEnabled c)) eqn:Hv; [done|].
  intros [= <-]. split_and!.
  - intros Hs. rewrite Hs in Hv. by apply negb_false_iff in Hv.
  - by case_decide.
  - case_decide; [by right|by left].
  - by case_decide.
Qed.

(** C30: a runner pod is well formed whenever its template is: every mount of
    every container, those of the runner and of the Docker daemon included,
    names a volume of the pod; the only refusal is a Docker daemon in its own
    container without the shared volume it needs. *)
Theorem newRunnerPod_mounts_closed runnerName template c d ro :
  mountsClosed template ->
  match newRunnerPod runnerName template c d ro with
  | Val pod => mountsClosed pod
  | Err _ => dockerSidecar c = true /\ rc_VolumeSizeLimit c = Some 0
  end.
Proof.
  intros Ht. destruct (newRunnerPod runnerName template c d ro) as [pod|e] eqn:Hpod.
  - apply newRunnerPod_inv in Hpod as (Hrv & Hvs & Hcs & _). unfold mountsClosed. rewrite Hvs.
    assert (Forall (mountsIn (ps_Volumes (pod_Spec template) ++ addedVolumes c)%list)
      (placeContainers (dockerSidecar c)
         (option_map fst (lastContainer 0 containerName (ps_Containers (pod_Spec template)) None))
         (option_map fst (lastContainer 0 "docker" (ps_Containers (pod_Spec template)) None))
         (runnerContainerOf c d ro (seLinuxOptionsOf template)
            (option_map snd (lastContainer 0 containerName (ps_Containers (pod_Spec template)) None)))
         (dockerdContainerOf c d (seLinuxOptionsOf template)
            (option_map snd (lastContainer 0 "docker" (ps_Containers (pod_Spec template)) None)))
         (ps_Containers (pod_Spec template)))) as Hplaced.
    { apply Forall_forall. intros x Hx. apply placeContainers_elem in Hx as [->|[[Hs ->]|Hx]].
      - by apply runner_mounts, mountsIn_found.
      - apply dockerd_mounts; [done|by apply Hrv|by apply mountsIn_found].
      - apply mountsIn_mono. unfold mountsClosed in Ht. rewrite Forall_forall in Ht. by apply Ht. }
    destruct Hcs as [->| ->]; [done|by apply setRunnerEnvIn_mounts].
  - unfold newRunnerPod in Hpod. cbv zeta in Hpod.
    destruct (dockerSidecar c); [|done]. split; [done|]. unfold runnerVolumeEnabled in Hpod.
    destruct (rc_VolumeSizeLimit c) as [q|]; [|done]. simpl in Hpod.
    destruct (Z.eqb_spec q 0) as [Hq|Hq]; [by rewrite Hq|done].
Qed.

(** A work volume of the operator replaces the pod's work volume.  When the pod
    has none, which is so without a Docker container, another volume is lost
    instead: the first one, or the reconciler panics when there is none. *)
Theorem addVolumes_without_work c vs extra :
  dockerSidecar c = false -> vs = addedVolumes c -> (workVolumePresent extra).1 = true ->
  addVolumes vs extra = if runnerVolumeEnabled c then Ret extra else sliceBounds.
Proof.
  intros Hs -> Hw. unfold addedVolumes. rewrite Hs, app_nil_r. unfold addVolumes. rewrite Hw.
  destruct extra; [discriminate|]. by destruct (runnerVolumeEnabled c).
Qed.
