(* ===== verification/RunnerPodController.v ===== *)
(** * The runner pod controller (src/controllers/runner_pod_controller.go)

    Guards every runner pod with a finalizer, lets it register, and drives its
    graceful stop once its unregistration is requested or it is deleted. *)

From stdpp Require Import base list gmap strings.
From Stdlib Require Import ZArith Lia.
From S2P Require Import Prelude Api GoStrings GitHubClient RunnerPod GracefulStop Hash PodBuilder.

Open Scope string_scope.
Open Scope Z_scope.

(** The environment of the last container named "runner". *)
Definition runnerEnvVars (p : Pod) : list EnvVar :=
  fold_left (fun envvars c => if decide (c_Name c = "runner") then c_Env c else envvars)
    (ps_Containers (pod_Spec p)) [].

(** (enterprise, org, repo): the last value of each variable. *)
Definition scopeStep (s : string * string * string) (e : EnvVar) : string * string * string :=
  let '(enterprise, org, repo) := s in
  if decide (ev_Name e = EnvVarEnterprise) then (ev_Value e, org, repo)
  else if decide (ev_Name e = EnvVarOrg) then (enterprise, ev_Value e, repo)
  else if decide (ev_Name e = EnvVarRepo) then (enterprise, org, ev_Value e)
  else s.

Definition scopeOfEnv (envvars : list EnvVar) : string * string * string :=
  fold_left scopeStep envvars ("", "", "").

Definition unregistrationRetryDelay (configured : duration) : duration :=
  if 0 <? configured then configured else DefaultUnregistrationRetryDelay.

Definition withPodFinalizers (p : Pod) (f : list string) : Pod :=
  withPodMeta p (withFinalizers (pod_Meta p) f).

Definition deletionTimeout : duration := 1 * Minute.

Section RunnerPodController.
Context {rfc : RFC3339} (fuel : nat) (UnregistrationRetryDelay : duration).

(** A pod that is being deleted without our finalizer: force it after a
    timeout. *)
Definition forceDeletion (p : Pod) (deletionTimestamp : time) : M (Result * option err) :=
  currentTime <- ask Now ;;
  if After currentTime (deletionTimestamp + deletionTimeout) then
    e <- ask (Delete KPod p (Some 0)) ;;
    Ret (match e with
         | Some e => if err_notfound e then ({| Requeue := true; RequeueAfter := 0 |}, None)
                     else (noResult, Some e)
         | None => ({| Requeue := false; RequeueAfter := 3 * Second |}, None)
         end)
  else Ret (noResult, None).

Definition reconcileDeletedPod (p : Pod) (enterprise org repo : string) (deletionTimestamp : time)
  : M (Result * option err) :=
  let (finalizers, removed) := removeFinalizer (om_Finalizers (pod_Meta p)) runnerPodFinalizerName in
  if removed : bool then
    t <- tickRunnerGracefulStop fuel (unregistrationRetryDelay UnregistrationRetryDelay)
        enterprise org repo (om_Name (pod_Meta p)) (Some p) ;;
    let '(updatedPod, res, e) := t in
    match res with
    | Some res => Ret (res, e)
    | None =>
        match updatedPod with
        | None => nilDeref
        | Some updatedPod =>
            r <- ask (Patch KPod (withPodFinalizers updatedPod finalizers) p) ;;
            Ret (noResult, match r with Err e => Some e | Val _ => None end)
        end
    end
  else forceDeletion p deletionTimestamp.

Definition reconcileLivePod (p : Pod) (enterprise org repo : string) : M (Result * option err) :=
  let (finalizers, added) := addFinalizer (om_Finalizers (pod_Meta p)) runnerPodFinalizerName in
  if added : bool then
    r <- ask (Patch KPod (withPodFinalizers p finalizers) p) ;;
    Ret (noResult, match r with Err e => Some e | Val _ => None end)
  else
    t <- ensureRunnerPodRegistered fuel enterprise org repo (om_Name (pod_Meta p)) p ;;
    let '(po, res, e) := t in
    match res with
    | Some res => Ret (res, e)
    | None =>
        match po with
        | None => nilDeref
        | Some p =>
            match getAnnotation (pod_Meta p) AnnotationKeyUnregistrationRequestTimestamp with
            | None => Ret (noResult, None)
            | Some _ =>
                t <- tickRunnerGracefulStop fuel (unregistrationRetryDelay UnregistrationRetryDelay)
        enterprise org repo (om_Name (pod_Meta p)) (Some p) ;;
                let '(_, res, e) := t in
                match res with
                | Some res => Ret (res, e)
                | None => Ret (noResult, None)
                end
            end
        end
    end.

Definition ReconcilePod (req : NamespacedName) : M (Result * option err) :=
  g <- ask (Get KPod req) ;;
  match g with
  | Err e => Ret (noResult, IgnoreNotFound e)
  | Val p =>
      match om_Labels (pod_Meta p) !! LabelKeyRunnerSetName with
      | None => Ret (noResult, None)
      | Some _ =>
          match runnerEnvVars p with
          | [] => Ret (noResult, Some (newError "Could not determine env vars for runner Pod"))
          | envvars =>
              let '(enterprise, org, repo) := scopeOfEnv envvars in
              if IsZero (om_DeletionTimestamp (pod_Meta p)) then reconcileLivePod p enterprise org repo
              else reconcileDeletedPod p enterprise org repo (default 0 (om_DeletionTimestamp (pod_Meta p)))
          end
      end
  end.

(** ** What it may write *)

(** The scope that a pod's environment configures its runner for. *)
Definition podScope (p : Pod) : option ghscope :=
  let '(enterprise, org, repo) := scopeOfEnv (runnerEnvVars p) in runnerScope enterprise org repo.

(** The reasons for a write, given the pod read. *)
Inductive podWrite (p : Pod) (l : log) : event ans -> Prop :=
| pw_read e : isRead (ev_req e) = true -> podWrite p l e
| pw_guard r :
    IsZero (om_DeletionTimestamp (pod_Meta p)) = true ->
    runnerPodFinalizerName ∉ om_Finalizers (pod_Meta p) ->
    podWrite p l (EvA (Patch KPod (withPodFinalizers p
      (om_Finalizers (pod_Meta p) ++ [runnerPodFinalizerName])%list) p) r)
| pw_registered s l0 id r :
    getAnnotation (pod_Meta p) AnnotationKeyRunnerID = None ->
    podScope p = Some s -> l0 ⊆ l -> registeredAs s l0 (om_Name (pod_Meta p)) id ->
    podWrite p l (EvA (Patch KPod (annotatePod p AnnotationKeyRunnerID (FormatInt id)) p) r)
| pw_stop e :
    (IsZero (om_DeletionTimestamp (pod_Meta p)) = false \/
     exists q, (q = p \/ exists o, EvA (Patch KPod o p) (Val q) ∈ l) /\
       is_Some (getAnnotation (pod_Meta q) AnnotationKeyUnregistrationRequestTimestamp)) ->
    tickWrite e -> podWrite p l e
| pw_release q r p1 l0 :
    IsZero (om_DeletionTimestamp (pod_Meta p)) = false ->
    l0 ⊆ l -> deletionSafe (podScope p) p1 (om_Name (pod_Meta p)) l0 ->
    (p1 = p \/ exists t, EvA (Patch KPod (annotatePod p
       AnnotationKeyUnregistrationStartTimestamp (FormatRFC3339 t)) p) (Val p1) ∈ l) ->
    (q = p1 \/ exists t, EvA (Patch KPod (annotatePod p1
       AnnotationKeyUnregistrationCompleteTimestamp (FormatRFC3339 t)) p1) (Val q) ∈ l) ->
    podWrite p l (EvA (Patch KPod (withPodFinalizers q
      (filter (fun n => n <> runnerPodFinalizerName) (om_Finalizers (pod_Meta p)))) p) r)
| pw_force t r d :
    om_DeletionTimestamp (pod_Meta p) = Some d -> EvA Now t ∈ l -> d + deletionTimeout < t ->
    runnerPodFinalizerName ∉ om_Finalizers (pod_Meta p) ->
    podWrite p l (EvA (Delete KPod p (Some 0)) r).

(** * Theorems *)

Lemma podWrite_mono p l l' e : l ⊆ l' -> podWrite p l e -> podWrite p l' e.
Proof.
  intros Hl [].
  - by apply pw_read.
  - by apply pw_guard.
  - eapply pw_registered; [done|done| |done]. set_solver.
  - apply pw_stop; [|done]. destruct H as [?|(q & Hq & ?)]; [by left|]. right. exists q. split; [|done].
    destruct Hq as [?|[o ?]]; [by left|]. right. exists o. set_solver.
  - eapply pw_release; [done| |done| |]; [set_solver|..].
    + destruct H2 as [?|[t ?]]; [by left|right]. exists t. set_solver.
    + destruct H3 as [?|[t ?]]; [by left|right]. exists t. set_solver.
  - eapply pw_force; [done| |done|done]. set_solver.
Qed.

Lemma podWrite_all_mono p l l' k : l ⊆ l' -> Forall (podWrite p l) k -> Forall (podWrite p l') k.
Proof. intros Hl H. eapply Forall_impl; [exact H|]. intros e. by apply podWrite_mono. Qed.

Lemma podWrite_reads p l k : reads k -> Forall (podWrite p l) k.
Proof. intros H. eapply Forall_impl; [exact H|]. intros e He. by apply pw_read. Qed.

Lemma forceDeletion_spec p d :
  om_DeletionTimestamp (pod_Meta p) = Some d -> runnerPodFinalizerName ∉ om_Finalizers (pod_Meta p) ->
  always (forceDeletion p d) (fun out l => Forall (podWrite p l) l /\ exists r, out = Done r).
Proof.
  intros Hd Hf. unfold forceDeletion. intros t. simpl. unfold After.
  destruct (Z.ltb_spec (d + deletionTimeout) t) as [Hlt|]; simpl.
  - intros e. split; [|by eexists]. constructor; [by apply pw_read|]. apply Forall_singleton.
    eapply pw_force; [done| |done|done]. set_solver.
  - split; [|by eexists]. apply Forall_singleton. by apply pw_read.
Qed.

Lemma reconcileDeletedPod_spec p enterprise org repo d :
  scopeOfEnv (runnerEnvVars p) = (enterprise, org, repo) ->
  om_DeletionTimestamp (pod_Meta p) = Some d -> IsZero (Some d) = false ->
  always (reconcileDeletedPod p enterprise org repo d) (fun out l =>
    Forall (podWrite p l) l /\ forall m, out <> Panicked m).
Proof.
  intros Hsc Hd Hz. unfold reconcileDeletedPod, removeFinalizer. cbv beta iota.
  case_bool_decide as Hf.
  2:{ eapply always_mono; [|by apply forceDeletion_spec]. intros out l [Hl [r ->]]. done. }
  apply always_bind.
  eapply always_mono; [|apply (always_and _ _ _ (tick_spec fuel _ enterprise org repo (om_Name (pod_Meta p)) p)
    (tick_only fuel _ enterprise org repo (om_Name (pod_Meta p)) (Some p)))].
  intros out l [Ht Hw].
  assert (forall l', Forall (podWrite p l') l) as Hl.
  { intros l'. eapply Forall_impl; [exact Hw|]. intros e. apply pw_stop. left. by rewrite Hd. }
  destruct out as [[[q [res|]] e]|m|]; simpl; [by rewrite app_nil_r| |done|done].
  destruct Ht as (-> & q' & p1 & l1 & l2 & l3 & -> & -> & Hp1 & Hs & Hq'). simpl. intros r. split; [|done].
  apply Forall_app_2; [apply Hl|]. apply Forall_singleton.
  apply (pw_release _ _ _ _ p1 l2); [by rewrite Hd|set_solver|by unfold podScope; rewrite Hsc| |].
  - destruct Hp1 as [->|[t Ht]]; [by left|]. right. exists t. set_solver.
  - destruct Hq' as [->|[t Ht]]; [by left|]. right. exists t. set_solver.
Qed.

Lemma reconcileLivePod_spec p enterprise org repo :
  scopeOfEnv (runnerEnvVars p) = (enterprise, org, repo) ->
  IsZero (om_DeletionTimestamp (pod_Meta p)) = true ->
  always (reconcileLivePod p enterprise org repo) (fun out l =>
    Forall (podWrite p l) l /\ forall m, out <> Panicked m).
Proof.
  intros Hsc Hz. unfold reconcileLivePod, addFinalizer. case_bool_decide as Hf; cbv beta iota.
  2:{ simpl. intros r. split; [|done]. apply Forall_singleton. by apply pw_guard. }
  apply always_bind.
  eapply always_mono; [|apply (ensureRunnerPodRegistered_writes fuel enterprise org repo (om_Name (pod_Meta p)) p)].
  intros out l [Hw Ho].
  assert (forall l', l ⊆ l' -> Forall (podWrite p l') l) as Hl.
  { intros l' Hl'. eapply Forall_impl; [exact Hw|]. intros e [He|(Hn & s & id & r & Hs & Has & ->)]; [by apply pw_read|].
    apply (pw_registered _ _ s l); [done| |done|done]. unfold podScope. by rewrite Hsc. }
  assert (Forall (podWrite p l) l) as Hll by by apply Hl.
  destruct out as [[[po [res|]] e]|m|]; [by simpl; rewrite app_nil_r| |done|by split].
  destruct Ho as (q & -> & Hq). cbv beta iota.
  destruct (getAnnotation (pod_Meta q) _) as [v|] eqn:Hv; [|by simpl; rewrite app_nil_r].
  apply always_bind.
  eapply always_mono; [|apply (always_and _ _ _ (tick_spec fuel _ enterprise org repo (om_Name (pod_Meta q)) q)
    (tick_only fuel _ enterprise org repo (om_Name (pod_Meta q)) (Some q)))].
  intros out l' [Ht Hw'].
  assert (Forall (podWrite p (l ++ l')%list) (l ++ l')%list) as Hall.
  { apply Forall_app_2; [apply Hl; set_solver|]. eapply Forall_impl; [exact Hw'|]. intros ev. apply pw_stop. right.
    exists q. split; [|by rewrite Hv]. destruct Hq as [?|[o ?]]; [by left|right]. exists o. set_solver. }
  destruct out as [[[? [res|]] ?]|m|]; simpl; rewrite ?app_nil_r; done.
Qed.

(** C27: the runner pod controller never panics, and every write it makes has
    its reason, for every answer of GitHub and the API server.  It adds its
    finalizer to live pods only; it annotates a pod with the ID that a complete
    listing of GitHub in the pod's scope has under its name; it works on the graceful stop only of pods being deleted or whose
    unregistration was requested; it removes its finalizer, which lets a pod
    disappear, only when the graceful stop says so for the pod's own runner and scope; and
    it forces a deletion only a minute after the pod's deletion, and only
    without the finalizer. *)
Theorem runnerpod_writes_justified req :
  always (ReconcilePod req) (fun out l =>
    (forall m, out <> Panicked m) /\
    (reads l \/ exists p, EvA (Get KPod req) (Val p) ∈ l /\
       is_Some (om_Labels (pod_Meta p) !! LabelKeyRunnerSetName) /\ Forall (podWrite p l) l)).
Proof.
  unfold ReconcilePod. intros [p|e]; [|split; [done|left; by repeat constructor]].
  assert (reads [EvA (Get KPod req) (Val p)]) as Hget by by repeat constructor.
  simpl. destruct (om_Labels (pod_Meta p) !! LabelKeyRunnerSetName) as [v|] eqn:Hlabel; [|by split; [|left]].
  destruct (runnerEnvVars p) as [|e0 es] eqn:Henv; [by split; [|left]|]. rewrite <- Henv.
  destruct (scopeOfEnv _) as [[enterprise org] repo] eqn:Hsc.
  assert (forall prog : M (Result * option err), always prog (fun out l => Forall (podWrite p l) l /\ forall m, out <> Panicked m) ->
    always prog (fun out l => (forall m, out <> Panicked m) /\
      (reads (EvA (Get KPod req) (Val p) :: l) \/ exists q, EvA (Get KPod req) (Val q) ∈ EvA (Get KPod req) (Val p) :: l /\
        is_Some (om_Labels (pod_Meta q) !! LabelKeyRunnerSetName) /\
        Forall (podWrite q (EvA (Get KPod req) (Val p) :: l)) (EvA (Get KPod req) (Val p) :: l)))) as Hwrap.
  { intros prog Hp. eapply always_mono; [|exact Hp]. intros out l [Hl Ho]. split; [done|]. right. exists p.
    split_and!; [set_solver|by rewrite Hlabel|]. constructor; [by apply pw_read|].
    eapply podWrite_all_mono; [|exact Hl]. set_solver. }
  destruct (IsZero _) eqn:Hz; apply Hwrap; [by apply reconcileLivePod_spec|].
  destruct (om_DeletionTimestamp (pod_Meta p)) as [d|] eqn:Hd; [|done]. by apply reconcileDeletedPod_spec.
Qed.

End RunnerPodController.

(** * The scope of a runner pod is read back *)

(** Two environments from which the same scope is read. *)
Definition sameScope (e e' : list EnvVar) : Prop :=
  forall s, fold_left scopeStep e s = fold_left scopeStep e' s.

Definition isScopeKey (key : string) : bool :=
  bool_decide (key = EnvVarEnterprise) || bool_decide (key = EnvVarOrg) || bool_decide (key = EnvVarRepo).

Lemma scopeStep_other s e : isScopeKey (ev_Name e) = false -> scopeStep s e = s.
Proof.
  unfold isScopeKey, scopeStep. destruct s as [[a b] c]. intros H.
  apply orb_false_iff in H as [H H3]. apply orb_false_iff in H as [H1 H2].
  apply bool_decide_eq_false in H1, H2, H3. by rewrite !decide_False.
Qed.

Lemma scope_others s es : Forall (fun e => isScopeKey (ev_Name e) = false) es -> fold_left scopeStep es s = s.
Proof. intros H. revert s. induction H as [|e es He _ IH]; intros s; simpl; [done|]. by rewrite scopeStep_other. Qed.

Lemma sameScope_append e key value :
  isScopeKey key = false ->
  sameScope e (e ++ [{| ev_Name := key; ev_Value := value; ev_ValueFrom := None |}])%list.
Proof. intros Hk s. rewrite fold_left_app. simpl. by rewrite scopeStep_other. Qed.

Lemma sameScope_replace e key value :
  isScopeKey key = false -> sameScope e (replaceEnv e key value).
Proof.
  intros Hk. induction e as [|x e IH]; intros s; simpl; [done|].
  case_decide as Hx; simpl; [|apply IH]. rewrite !scopeStep_other; simpl; [done|by rewrite Hx..].
Qed.

Abbreviation lastEnv := (fold_left (fun envvars c => if decide (c_Name c = "runner") then c_Env c else envvars)).

Lemma sameScope_setRunnerEnvIn cs key value acc :
  isScopeKey key = false -> sameScope (lastEnv cs acc) (lastEnv (setRunnerEnvIn cs key value) acc).
Proof.
  intros Hk.
  assert (forall cs acc acc', sameScope acc acc' ->
    sameScope (lastEnv cs acc) (lastEnv cs acc')) as Hsame.
  { induction cs0 as [|c cs0 IH]; intros a a' Ha; simpl; [done|]. by case_decide; [|apply IH]. }
  enough (forall acc acc', sameScope acc acc' ->
    sameScope (lastEnv cs acc) (lastEnv (setRunnerEnvIn cs key value) acc')) as H by by apply H.
  clear acc. induction cs as [|c cs IH]; intros acc acc' Ha; simpl; [done|].
  change containerName with "runner". destruct (decide (c_Name c = "runner")) as [Hc|Hc].
  - destruct (lookupEnv (c_Env c) key); simpl; rewrite decide_True by done.
    + by apply Hsame, sameScope_replace.
    + by apply IH, sameScope_append.
  - simpl. rewrite decide_False by done. by apply IH.
Qed.

Lemma lastEnv_others cs acc : Forall (fun c => c_Name c <> "runner") cs -> lastEnv cs acc = acc.
Proof. intros H. revert acc. induction H as [|c cs Hc _ IH]; intros acc; simpl; [done|]. by rewrite decide_False. Qed.

Lemma lastEnv_middle pre r post acc :
  c_Name r = "runner" -> Forall (fun c => c_Name c <> "runner") post ->
  lastEnv (pre ++ r :: post)%list acc = c_Env r.
Proof. intros Hr Hp. rewrite fold_left_app. simpl. rewrite decide_True by done. by apply lastEnv_others. Qed.

(** Changing a container that is not a runner. *)
Lemma lastEnv_insert cs i c d acc :
  cs !! i = Some c -> c_Name c <> "runner" -> c_Name d <> "runner" -> lastEnv (<[i := d]> cs) acc = lastEnv cs acc.
Proof.
  intros Hi Hc Hd. rewrite <- (take_drop_middle cs i c Hi) at 2.
  rewrite insert_take_drop by (by eapply lookup_lt_Some). rewrite !fold_left_app. simpl.
  by rewrite !decide_False.
Qed.

(** The runner container is the last of its name in the pod built. *)
Lemma placeContainers_lastEnv sidecar runner dockerd cs :
  let fr := lastContainer 0 containerName cs None in
  let fd := lastContainer 0 "docker" cs None in
  c_Name runner = "runner" -> c_Name dockerd = "docker" ->
  lastEnv (placeContainers sidecar (option_map fst fr) (option_map fst fd) runner dockerd cs) [] = c_Env runner.
Proof.
  intros fr fd Hr Hd.
  assert (c_Name dockerd <> "runner") as Hd' by by rewrite Hd.
  set (cs' := match option_map fst fr with None => runner :: cs | Some i => <[i := runner]> cs end).
  assert (lastEnv cs' [] = c_Env runner) as Hcs'.
  { unfold cs', fr. destruct (lastContainer 0 containerName cs None) as [[i c]|] eqn:Hf; simpl.
    - apply lastContainer_spec in Hf as [[? _]|(pre & post & -> & -> & _ & Hp)]; [done|].
      simpl. rewrite insert_app_r_alt by lia. rewrite Nat.sub_diag. by apply lastEnv_middle.
    - rewrite decide_True by done. apply lastEnv_others. by apply lastContainer_none in Hf. }
  assert (forall j c, fd = Some (j, c) -> exists c', cs' !! (match option_map fst fr with None => S j | Some _ => j end) = Some c' /\
    c_Name c' <> "runner") as Hj.
  { intros j c Hf. unfold fd in Hf. apply lastContainer_spec in Hf as [[? _]|(pre & post & Hcs & -> & Hn & _)]; [done|].
    exists c. split; [|by rewrite Hn]. unfold cs'. simpl.
    assert (cs !! length pre = Some c) as Hl by (rewrite Hcs; apply list_lookup_middle; lia).
    destruct fr as [[i c']|] eqn:Hf; simpl; [|done].
    rewrite list_lookup_insert_ne; [done|]. intros ->.
    unfold fr in Hf. apply lastContainer_spec in Hf as [[? _]|(pre' & post' & Hcs2 & Hlen & Hn' & _)]; [done|].
    simpl in Hlen. assert (cs !! length pre' = Some c') as Hl' by (rewrite Hcs2; apply list_lookup_middle; lia).
    rewrite Hlen, Hl' in Hl. simplify_eq. by rewrite Hn' in Hn. }
  unfold placeContainers.
  assert (lastEnv (if sidecar then match (match option_map fst fr with None => option_map S (option_map fst fd)
      | Some _ => option_map fst fd end) with None => (cs' ++ [dockerd])%list | Some j => <[j := dockerd]> cs' end
    else cs') [] = c_Env runner) as Hfinal.
  { destruct sidecar; [|done]. destruct fd as [[j c]|] eqn:Hfd.
    - destruct (Hj j c eq_refl) as (c' & Hl & Hn).
      destruct (option_map fst fr); simpl; by rewrite (lastEnv_insert _ _ c').
    - destruct (option_map fst fr); simpl; rewrite fold_left_app; simpl; by rewrite decide_False. }
  unfold cs' in Hfinal. by destruct (option_map fst fr).
Qed.

Lemma runnerContainerOf_scope c d ro se found :
  scopeOfEnv (c_Env (runnerContainerOf c d ro se found)) = (rc_Enterprise c, rc_Organization c, rc_Repository c).
Proof.
  unfold scopeOfEnv, runnerContainerOf. cbn [c_Env]. rewrite fold_left_app.
  destruct (fold_left scopeStep (c_Env _) _) as [[a b] e].
  unfold addedRunnerEnv, runnerEnv. rewrite <- app_assoc. simpl. apply scope_others.
  repeat constructor. repeat apply Forall_app_2; repeat case_match; repeat constructor.
Qed.

Lemma found_name name fresh cs :
  c_Name fresh = name -> c_Name (default fresh (option_map snd (lastContainer 0 name cs None))) = name.
Proof.
  intros Hf. destruct (lastContainer 0 name cs None) as [[j c]|] eqn:Hl; simpl; [|done].
  by apply lastContainer_spec in Hl as [[? _]|(? & ? & _ & _ & ? & _)].
Qed.

Lemma newRunnerPod_env runnerName template c d ro pod :
  newRunnerPod runnerName template c d ro = Val pod ->
  exists env, sameScope env (runnerEnvVars pod) /\
    scopeOfEnv env = (rc_Enterprise c, rc_Organization c, rc_Repository c).
Proof.
  intros H. apply newRunnerPod_inv in H as (_ & _ & Hcs & _).
  eexists. split; [|apply (runnerContainerOf_scope c d ro (seLinuxOptionsOf template))].
  unfold runnerEnvVars. destruct Hcs as [->| ->].
  - rewrite placeContainers_lastEnv; [done|by apply found_name..].
  - intros s. rewrite <- sameScope_setRunnerEnvIn by done. rewrite placeContainers_lastEnv; [done|by apply found_name..].
Qed.

Lemma mutatePod_sameScope pod token : sameScope (runnerEnvVars pod) (runnerEnvVars (mutatePod pod token)).
Proof.
  unfold mutatePod, runnerEnvVars. intros s. repeat case_decide; cbn [setRunnerEnv pod_Spec withContainers ps_Containers];
    by rewrite <- ?sameScope_setRunnerEnvIn.
Qed.

Lemma mutatePod_meta pod token : pod_Meta (mutatePod pod token) = pod_Meta pod.
Proof. unfold mutatePod. by repeat case_decide. Qed.

(** C29: what the runner and runner set controllers write into a runner pod is
    what the pod controller reads back.  A pod built by [newRunnerPod] and
    given its name and token is recognised as a runner pod, and the scope
    (enterprise, organization, repository) found in it is the one configured,
    whatever the template already had in its environment. *)
Theorem pod_scope_roundtrip runnerName template c d ro pod token :
  newRunnerPod runnerName template c d ro = Val pod ->
  om_Labels (pod_Meta (mutatePod pod token)) !! LabelKeyRunnerSetName = Some runnerName /\
  scopeOfEnv (runnerEnvVars (mutatePod pod token)) = (rc_Enterprise c, rc_Organization c, rc_Repository c) /\
  (rc_Enterprise c <> "" \/ rc_Organization c <> "" \/ rc_Repository c <> "" ->
   runnerEnvVars (mutatePod pod token) <> []).
Proof.
  intros H. destruct (newRunnerPod_env _ _ _ _ _ _ H) as (env & Hsame & Hscope).
  assert (scopeOfEnv (runnerEnvVars (mutatePod pod token)) = (rc_Enterprise c, rc_Organization c, rc_Repository c))
    as Hs by (unfold scopeOfEnv; rewrite <- mutatePod_sameScope, <- Hsame; exact Hscope).
  split_and!; [|done|].
  - rewrite mutatePod_meta. apply newRunnerPod_inv in H as (_ & _ & _ & ->).
    rewrite lookup_insert_ne by done. apply lookup_insert_eq.
  - intros Hne Hnil. rewrite Hnil in Hs. unfold scopeOfEnv in Hs. simpl in Hs. naive_solver congruence.
Qed.
