(* ===== verification/RunnerController.v ===== *)
(** * The Runner controller (src/controllers/runner_controller.go, [Reconcile])

    A Runner gets a finalizer, a registration token in its status, a pod, and
    the phase of that pod.  [IsRegisterable] is in
    src/api/v1alpha1/runner_types.go. *)

From stdpp Require Import base list gmap strings.
From Stdlib Require Import ZArith Lia.
From S2P Require Import Prelude Api GoStrings GitHubClient RunnerPod GracefulStop Hash PodBuilder.

Open Scope string_scope.
Open Scope Z_scope.

Definition withRunnerStatus (r : Runner) (s : RunnerStatus) : Runner :=
  {| r_Meta := r_Meta r; r_Spec := r_Spec r; r_Status := s |}.

(** Reads the clock only when the rest is in order. *)
Definition IsRegisterable (r : Runner) : M bool :=
  let reg := rst_Registration (r_Status r) in
  if negb (bool_decide (rsr_Repository reg = rc_Repository (rsp_Config (r_Spec r)))) then Ret false
  else if decide (rsr_Token reg = "") then Ret false
  else
    now <- ask Now ;;
    Ret (negb (Before (rsr_ExpiresAt reg) now)).

Definition processRunnerDeletion (runner : Runner) : M (result Result) :=
  let (finalizers, removed) := removeFinalizer (om_Finalizers (r_Meta runner)) finalizerName in
  if removed : bool then
    try _r <- ask (Patch KRunner (withRunnerMeta runner (withFinalizers (r_Meta runner) finalizers)) runner) ;;
    Ret (Val noResult)
  else Ret (Val noResult).

(** The registration that a token gives a runner. *)
Definition registrationOf (runner : Runner) (rt : RegistrationToken) : RunnerStatusRegistration :=
  let c := rsp_Config (r_Spec runner) in
  {| rsr_Enterprise := ""; rsr_Organization := rc_Organization c; rsr_Repository := rc_Repository c;
     rsr_Labels := rc_Labels c; rsr_Token := tok_Token rt; rsr_ExpiresAt := tok_ExpiresAt rt |}.

Definition withRegistration (runner : Runner) (rt : RegistrationToken) : Runner :=
  let s := r_Status runner in
  withRunnerStatus runner
    {| rst_Ready := rst_Ready s; rst_Registration := registrationOf runner rt; rst_Phase := rst_Phase s;
       rst_Reason := rst_Reason s; rst_Message := rst_Message s;
       rst_LastRegistrationCheckTime := rst_LastRegistrationCheckTime s |}.

(** Threads the token cache of the GitHub client. *)
Definition updateRegistrationToken (regTokens : tokens) (runner : Runner) : M (tokens * result bool) :=
  let c := rsp_Config (r_Spec runner) in
  registerable <- IsRegisterable runner ;;
  if registerable : bool then Ret (regTokens, Val false)
  else
    let* (regTokens, rt) := GetRegistrationToken regTokens (rc_Enterprise c) (rc_Organization c)
                              (rc_Repository c) (om_Name (r_Meta runner)) in
    match rt with
    | Err e => Ret (regTokens, Err e)
    | Val rt =>
        r <- ask (StatusPatch KRunner (withRegistration runner rt) runner) ;;
        Ret (regTokens, match r with Err e => Err e | Val _ => Val true end)
    end.

(** The status that reports a pod. *)
Definition phaseOf (p : Pod) : string :=
  if decide (pst_Phase (pod_Status p) = "") then "Created" else pst_Phase (pod_Status p).

Definition reportedStatus (runner : Runner) (p : Pod) : RunnerStatus :=
  {| rst_Ready := runnerPodReady p; rst_Registration := rst_Registration (r_Status runner);
     rst_Phase := phaseOf p; rst_Reason := pst_Reason (pod_Status p);
     rst_Message := pst_Message (pod_Status p);
     rst_LastRegistrationCheckTime := rst_LastRegistrationCheckTime (r_Status runner) |}.

Definition reportPod (runner : Runner) (p : Pod) : M (result Result) :=
  let s := r_Status runner in
  if negb (bool_decide (rst_Phase s = phaseOf p)) || negb (eqb (rst_Ready s) (runnerPodReady p)) then
    try _r <- ask (StatusPatch KRunner (withRunnerStatus runner (reportedStatus runner p)) runner) ;;
    Ret (Val noResult)
  else Ret (Val noResult).

Section RunnerController.
Context {P : Printing} (d : podDefaults).

Definition processRunnerCreation (regTokens : tokens) (runner : Runner) : M (tokens * result Result) :=
  let* (regTokens, updated) := updateRegistrationToken regTokens runner in
  match updated with
  | Err _ => Ret (regTokens, Val {| Requeue := false; RequeueAfter := RetryDelayOnCreateRegistrationError |})
  | Val true => Ret (regTokens, Val {| Requeue := true; RequeueAfter := 0 |})
  | Val false =>
      pod <- newPod d runner ;;
      match pod with
      | Err e => Ret (regTokens, Err e)
      | Val pod =>
          r <- ask (Create KPod pod) ;;
          Ret (regTokens, match r with
                          | Err e => if err_exists e then Val noResult else Err e
                          | Val _ => Val noResult
                          end)
      end
  end.

Definition ReconcileRunner (regTokens : tokens) (req : NamespacedName) : M (tokens * result Result) :=
  g <- ask (Get KRunner req) ;;
  match g with
  | Err e => Ret (regTokens, match IgnoreNotFound e with Some e => Err e | None => Val noResult end)
  | Val runner =>
      if IsZero (om_DeletionTimestamp (r_Meta runner)) then
        let (finalizers, added) := addFinalizer (om_Finalizers (r_Meta runner)) finalizerName in
        if added : bool then
          r <- ask (Update KRunner (withRunnerMeta runner (withFinalizers (r_Meta runner) finalizers))) ;;
          Ret (regTokens, match r with Err e => Err e | Val _ => Val noResult end)
        else
          g <- ask (Get KPod req) ;;
          match g with
          | Err e => if err_notfound e then processRunnerCreation regTokens runner else Ret (regTokens, Err e)
          | Val pod => r <- reportPod runner pod ;; Ret (regTokens, r)
          end
      else
        g <- ask (Get KPod req) ;;
        match g with
        | Err e =>
            if err_notfound e then r <- processRunnerDeletion runner ;; Ret (regTokens, r)
            else Ret (regTokens, Val {| Requeue := true; RequeueAfter := 0 |})
        | Val _ => r <- processRunnerDeletion runner ;; Ret (regTokens, r)
        end
  end.

(** ** What it may write *)

(** The pod was looked up and is missing. *)
Definition podMissing (req : NamespacedName) (l : log) : Prop :=
  exists e, EvA (Get KPod req) (Err e) ∈ l /\ err_notfound e = true.

(** A token for the runner's owner: cached and valid for the startup timeout,
    or just issued. *)
Definition tokenFor (regTokens : tokens) (runner : Runner) (l : log) (rt : RegistrationToken) : Prop :=
  let c := rsp_Config (r_Spec runner) in
  let key := getRegistrationKey (rc_Organization c) (rc_Repository c) (rc_Enterprise c) in
  (regTokens !! key = Some rt /\ exists t, EvA Now t ∈ l /\ t + runnerStartupTimeout < tok_ExpiresAt rt) \/
  issuedFor l key rt.

(** The runner's own token was valid when the clock was read. *)
Definition registered (runner : Runner) (l : log) : Prop :=
  let reg := rst_Registration (r_Status runner) in
  rsr_Repository reg = rc_Repository (rsp_Config (r_Spec runner)) /\ rsr_Token reg <> "" /\
  exists t, EvA Now t ∈ l /\ t <= rsr_ExpiresAt reg.

Inductive runnerWrite (regTokens : tokens) (req : NamespacedName) (runner : Runner) (l : log)
  : event ans -> Prop :=
| rw_read e : isRead (ev_req e) = true -> runnerWrite regTokens req runner l e
| rw_guard r :
    IsZero (om_DeletionTimestamp (r_Meta runner)) = true -> finalizerName ∉ om_Finalizers (r_Meta runner) ->
    runnerWrite regTokens req runner l (EvA (Update KRunner (withRunnerMeta runner
      (withFinalizers (r_Meta runner) (om_Finalizers (r_Meta runner) ++ [finalizerName])%list))) r)
| rw_issue e o rp a :
    IsZero (om_DeletionTimestamp (r_Meta runner)) = true -> podMissing req l ->
    getEnterpriseOrganizationAndRepo (rc_Enterprise (rsp_Config (r_Spec runner)))
      (rc_Organization (rsp_Config (r_Spec runner))) (rc_Repository (rsp_Config (r_Spec runner))) = Val (e, o, rp) ->
    runnerWrite regTokens req runner l (EvA (GHCreateRegistrationToken (scopeOf e o rp)) a)
| rw_register rt r :
    IsZero (om_DeletionTimestamp (r_Meta runner)) = true -> podMissing req l ->
    tokenFor regTokens runner l rt ->
    runnerWrite regTokens req runner l (EvA (StatusPatch KRunner (withRegistration runner rt) runner) r)
| rw_create pod l0 r :
    IsZero (om_DeletionTimestamp (r_Meta runner)) = true -> podMissing req l ->
    registered runner l -> may (newPod d runner) (Done (Val pod)) l0 -> l0 ⊆ l ->
    runnerWrite regTokens req runner l (EvA (Create KPod pod) r)
| rw_report p r :
    IsZero (om_DeletionTimestamp (r_Meta runner)) = true -> EvA (Get KPod req) (Val p) ∈ l ->
    runnerWrite regTokens req runner l
      (EvA (StatusPatch KRunner (withRunnerStatus runner (reportedStatus runner p)) runner) r)
| rw_release r :
    IsZero (om_DeletionTimestamp (r_Meta runner)) = false ->
    runnerWrite regTokens req runner l (EvA (Patch KRunner (withRunnerMeta runner
      (withFinalizers (r_Meta runner) (filter (fun n => n <> finalizerName) (om_Finalizers (r_Meta runner)))))
      runner) r).

(** ** How it ends *)

(** The result of a handler that ends with a write. *)
Definition ended {A : Type} (a : result A) : result Result :=
  match a with Val _ => Val noResult | Err e => Err e end.

(** A live runner that carries the finalizer was read. *)
Definition guarded (req : NamespacedName) (l : log) (runner : Runner) : Prop :=
  EvA (Get KRunner req) (Val runner) ∈ l /\ IsZero (om_DeletionTimestamp (r_Meta runner)) = true /\
  finalizerName ∈ om_Finalizers (r_Meta runner).

(** The work done by a run that returns the given result. *)
Inductive runnerEnd (req : NamespacedName) (l : log) : result Result -> Prop :=
| re_unread e :
    EvA (Get KRunner req) (Err e) ∈ l ->
    runnerEnd req l (match IgnoreNotFound e with Some e => Err e | None => Val noResult end)
| re_guarded runner a :
    EvA (Get KRunner req) (Val runner) ∈ l -> IsZero (om_DeletionTimestamp (r_Meta runner)) = true ->
    EvA (Update KRunner (withRunnerMeta runner (withFinalizers (r_Meta runner)
      (om_Finalizers (r_Meta runner) ++ [finalizerName])%list))) a ∈ l ->
    runnerEnd req l (ended a)
| re_podUnread runner e :
    guarded req l runner -> EvA (Get KPod req) (Err e) ∈ l -> err_notfound e = false -> runnerEnd req l (Err e)
| re_unchanged runner p :
    guarded req l runner -> EvA (Get KPod req) (Val p) ∈ l ->
    rst_Phase (r_Status runner) = phaseOf p -> rst_Ready (r_Status runner) = runnerPodReady p ->
    runnerEnd req l (Val noResult)
| re_reported runner p a :
    guarded req l runner -> EvA (Get KPod req) (Val p) ∈ l ->
    EvA (StatusPatch KRunner (withRunnerStatus runner (reportedStatus runner p)) runner) a ∈ l ->
    runnerEnd req l (ended a)
| re_unregistered runner :
    guarded req l runner -> podMissing req l ->
    (tokenRefused l (rc_Enterprise (rsp_Config (r_Spec runner))) (rc_Organization (rsp_Config (r_Spec runner)))
       (rc_Repository (rsp_Config (r_Spec runner))) \/
     exists rt e, EvA (StatusPatch KRunner (withRegistration runner rt) runner) (Err e) ∈ l) ->
    runnerEnd req l (Val {| Requeue := false; RequeueAfter := RetryDelayOnCreateRegistrationError |})
| re_registered runner rt q :
    guarded req l runner -> podMissing req l ->
    EvA (StatusPatch KRunner (withRegistration runner rt) runner) (Val q) ∈ l ->
    runnerEnd req l (Val {| Requeue := true; RequeueAfter := 0 |})
| re_unbuilt runner e l0 :
    guarded req l runner -> podMissing req l -> may (newPod d runner) (Done (Err e)) l0 -> runnerEnd req l (Err e)
| re_created runner pod l0 a :
    guarded req l runner -> podMissing req l -> may (newPod d runner) (Done (Val pod)) l0 ->
    EvA (Create KPod pod) a ∈ l ->
    runnerEnd req l (match a with Err e => if err_exists e then Val noResult else Err e | Val _ => Val noResult end)
| re_deletionRetried runner e :
    EvA (Get KRunner req) (Val runner) ∈ l -> IsZero (om_DeletionTimestamp (r_Meta runner)) = false ->
    EvA (Get KPod req) (Err e) ∈ l -> err_notfound e = false ->
    runnerEnd req l (Val {| Requeue := true; RequeueAfter := 0 |})
| re_unguarded runner :
    EvA (Get KRunner req) (Val runner) ∈ l -> IsZero (om_DeletionTimestamp (r_Meta runner)) = false ->
    finalizerName ∉ om_Finalizers (r_Meta runner) -> runnerEnd req l (Val noResult)
| re_released runner a :
    EvA (Get KRunner req) (Val runner) ∈ l -> IsZero (om_DeletionTimestamp (r_Meta runner)) = false ->
    EvA (Patch KRunner (withRunnerMeta runner (withFinalizers (r_Meta runner)
      (filter (fun n => n <> finalizerName) (om_Finalizers (r_Meta runner))))) runner) a ∈ l ->
    runnerEnd req l (ended a).

(** A run ends in one of these ways, or in a panic of [newPod]. *)
Definition runnerEnds (req : NamespacedName) (l : log) (out : outcome (tokens * result Result)) : Prop :=
  match out with
  | Done (_, r) => runnerEnd req l r
  | Panicked m => exists runner l0, guarded req l runner /\ may (newPod d runner) (Panicked m) l0
  | Exhausted => False
  end.

(** * Theorems *)

Lemma GetRegistrationToken_only (regTokens : tokens) enterprise org repo name :
  only (fun ev => isRead (ev_req ev) = true \/ exists e o rp a,
    getEnterpriseOrganizationAndRepo enterprise org repo = Val (e, o, rp) /\
    ev = EvA (GHCreateRegistrationToken (scopeOf e o rp)) a)
    (GetRegistrationToken regTokens enterprise org repo name).
Proof.
  unfold GetRegistrationToken. apply only_bind.
  { apply only_onlyReads; [by left|]. unfold cachedToken. only_reads. }
  intros [rt|]; [apply only_ret|].
  destruct (getEnterpriseOrganizationAndRepo enterprise org repo) as [[[e o] rp]|er] eqn:Hs; [|apply only_ret].
  apply only_bind; [|intros a; apply only_ret]. apply only_ask. intros a. right. by exists e, o, rp, a.
Qed.

Lemma IsRegisterable_spec runner :
  always (IsRegisterable runner) (fun out l => reads l /\ exists b, out = Done b /\ (b = true -> registered runner l)).
Proof.
  unfold IsRegisterable, registered. cbv zeta. case_bool_decide as Hr; simpl; [|by split; [|exists false]].
  case_decide as Ht; simpl; [by split; [|exists false]|]. intros now. split; [by repeat constructor|].
  unfold Before. destruct (Z.ltb_spec (rsr_ExpiresAt (rst_Registration (r_Status runner))) now) as [|Hle]; simpl;
    [by exists false|].
  exists true. split; [done|]. intros _. split_and!; [done|done|]. exists now. split; [set_solver|done].
Qed.

Lemma onlyReads_newPod runner : onlyReads (newPod d runner).
Proof. unfold newPod, mountVolumes, addVolumes, sliceBounds. only_reads. Qed.

(** The part that follows a missing pod, after the exchanges [pre]. *)
Lemma processRunnerCreation_spec regTokens req runner pre :
  IsZero (om_DeletionTimestamp (r_Meta runner)) = true -> podMissing req pre ->
  always (processRunnerCreation regTokens runner) (fun out l =>
    Forall (runnerWrite regTokens req runner (pre ++ l)%list) l /\
    forall m, out = Panicked m -> exists l0, may (newPod d runner) (Panicked m) l0).
Proof.
  intros Hz [e0 [He0 Hnf]].
  assert (forall l, podMissing req (pre ++ l)%list) as Hmiss by (intros l; exists e0; set_solver).
  assert (forall l k, reads l -> Forall (runnerWrite regTokens req runner k) l) as Hreads.
  { intros l k H. eapply Forall_impl; [exact H|]. intros ev. apply rw_read. }
  unfold processRunnerCreation, updateRegistrationToken. cbv zeta. do 2 apply always_bind.
  eapply always_mono; [|apply IsRegisterable_spec]. intros _ l1 (Hl1 & b & -> & Hb). destruct b.
  - specialize (Hb eq_refl). cbv beta iota. simpl always at 1. rewrite app_nil_r. apply always_bind.
    eapply always_mono; [|apply (always_and _ _ _ (always_may_log (newPod d runner)) (onlyReads_newPod runner))].
    intros [[pod|e]|m|] l2 [Hm Hl2]; simpl.
    + intros r. split; [|done]. apply Forall_app_2; [by apply Hreads|].
      apply Forall_app_2; [by apply Hreads|]. apply Forall_singleton. apply (rw_create _ _ _ _ _ l2); [done|apply Hmiss| |done|set_solver].
      destruct Hb as (? & ? & t & ? & ?). split_and!; [done|done|]. exists t. set_solver.
    + rewrite app_nil_r. split; [|done]. by apply Hreads, Forall_app_2.
    + split; [by apply Hreads, Forall_app_2|]. intros m' [= ->]. eauto.
    + split; [by apply Hreads, Forall_app_2|done].
  - cbv beta iota. apply always_bind.
    eapply always_mono; [|apply (always_and _ _ _ (GetRegistrationToken_spec regTokens _ _ _ _)
      (GetRegistrationToken_only regTokens _ _ _ _))].
    intros out l2 [Hs Ho].
    assert (forall k, Forall (runnerWrite regTokens req runner (pre ++ k)%list) (l1 ++ l2)%list) as Hl2.
    { intros k. apply Forall_app_2; [by apply Hreads|]. eapply Forall_impl; [exact Ho|].
      intros ev [?|(e & o & rp & a & ? & ->)]; [by apply rw_read|by apply rw_issue]. }
    destruct out as [[rts [rt|e]]|m|]; [| |done|done]; cbv beta iota; simpl.
    + intros r. assert (Forall (runnerWrite regTokens req runner
        (pre ++ l1 ++ l2 ++ [EvA (StatusPatch KRunner (withRegistration runner rt) runner) r])%list)
        (l1 ++ l2 ++ [EvA (StatusPatch KRunner (withRegistration runner rt) runner) r])%list) as Hall.
      { rewrite (app_assoc l1). apply Forall_app_2; [apply Hl2|]. apply Forall_singleton. apply rw_register; [done|apply Hmiss|].
        destruct Hs as [(t & Hk & _ & -> & Ht)|[_ Hi]]; [left|right].
        - split; [done|]. exists t. set_solver.
        - eapply issuedFor_mono; [|exact Hi]. set_solver. }
      destruct r; simpl; rewrite ?app_nil_r, <- ?app_assoc; done.
    + rewrite ?app_nil_r. split; [apply Hl2|done].
Qed.

Lemma processRunnerDeletion_spec regTokens req runner k :
  IsZero (om_DeletionTimestamp (r_Meta runner)) = false ->
  always (processRunnerDeletion runner) (fun out l =>
    Forall (runnerWrite regTokens req runner k) l /\ exists r, out = Done r).
Proof.
  intros Hz. unfold processRunnerDeletion, removeFinalizer. cbv beta iota. case_bool_decide; simpl; [|by eauto].
  intros [?|?]; simpl; (split; [apply Forall_singleton; by apply rw_release|by eexists]).
Qed.

Lemma reportPod_spec regTokens req runner p k :
  IsZero (om_DeletionTimestamp (r_Meta runner)) = true -> EvA (Get KPod req) (Val p) ∈ k ->
  always (reportPod runner p) (fun out l =>
    Forall (runnerWrite regTokens req runner k) l /\ exists r, out = Done r).
Proof.
  intros Hz Hp. unfold reportPod. cbv zeta. destruct (_ || _); simpl; [|by eauto].
  intros [?|?]; simpl; (split; [apply Forall_singleton; by apply rw_report|by eexists]).
Qed.

Lemma runnerWrite_mono regTokens req runner l l' e :
  l ⊆ l' -> runnerWrite regTokens req runner l e -> runnerWrite regTokens req runner l' e.
Proof.
  intros Hl. assert (podMissing req l -> podMissing req l') as Hm by (intros (e0 & ? & ?); exists e0; set_solver).
  intros [].
  - by apply rw_read.
  - by apply rw_guard.
  - apply rw_issue; auto.
  - apply rw_register; auto. destruct H1 as [(? & t & ? & ?)|Hi]; [left|right; by eapply issuedFor_mono].
    split; [done|]. exists t. set_solver.
  - apply (rw_create _ _ _ _ _ l0); auto; [|set_solver]. destruct H1 as (? & ? & t & ? & ?).
    split_and!; [done|done|]. exists t. set_solver.
  - apply rw_report; auto.
  - by apply rw_release.
Qed.

(** C25: every write of the Runner controller has its reason, for every answer
    of the API server and GitHub.  A token is requested, for the runner's own
    owner, only for a live runner without a pod; the token recorded was cached
    and outlives the startup timeout or was just issued for that owner; a pod
    is created only for a live runner without one whose recorded token has not
    expired, and it is the pod [newPod] builds; the status reports the pod
    read; the finalizer is removed only from a runner being deleted.  The only
    panic is one of [newPod]. *)
Theorem runner_writes_justified regTokens req :
  always (ReconcileRunner regTokens req) (fun out l =>
    (forall m, out = Panicked m -> exists runner l0, may (newPod d runner) (Panicked m) l0) /\
    (reads l \/ exists runner, EvA (Get KRunner req) (Val runner) ∈ l /\
       Forall (runnerWrite regTokens req runner l) l)).
Proof.
  unfold ReconcileRunner. simpl. intros [runner|e]; [|split; [done|left; by repeat constructor]].
  set (g := EvA (Get KRunner req) (Val runner)).
  assert (forall k, runnerWrite regTokens req runner k g) as Hg by (intros k; by apply rw_read).
  destruct (IsZero _) eqn:Hz.
  - unfold addFinalizer. case_bool_decide as Hf; cbv beta iota; simpl.
    2:{ intros r. split; [by destruct r|]. right. exists runner. split; [set_solver|].
        constructor; [apply Hg|]. apply Forall_singleton. by apply rw_guard. }
    intros [p|e]; simpl.
    + apply always_bind.
      eapply always_mono; [|apply (reportPod_spec regTokens req runner p [g; EvA (Get KPod req) (Val p)]); [done|set_solver]].
      intros out l [Hl [r ->]]. simpl. rewrite app_nil_r. split; [done|]. right. exists runner. split; [set_solver|].
      constructor; [apply Hg|]. constructor; [by apply rw_read|].
      eapply Forall_impl; [exact Hl|]. intros ev. apply runnerWrite_mono. set_solver.
    + destruct (err_notfound e) eqn:Hn; [|simpl; split; [done|left; by repeat constructor]].
      eapply always_mono; [|apply (processRunnerCreation_spec regTokens req runner [g; EvA (Get KPod req) (Err e)] Hz)].
      * intros out l [Hl Hp]. split; [intros m Hm; exists runner; by apply Hp|]. right. exists runner.
        split; [set_solver|]. constructor; [apply Hg|]. constructor; [by apply rw_read|]. exact Hl.
      * exists e. split; [set_solver|done].
  - simpl. intros gp. assert (forall a : ans (Get KPod req), isRead (ev_req (EvA (Get KPod req) a)) = true) as Hgp by done.
    assert (always (r <- processRunnerDeletion runner ;; Ret (regTokens, r)) (fun out l =>
      (forall m, out = Panicked m -> exists runner l0, may (newPod d runner) (Panicked m) l0) /\
      (reads (g :: EvA (Get KPod req) gp :: l) \/ exists runner, EvA (Get KRunner req) (Val runner) ∈ g :: EvA (Get KPod req) gp :: l /\
        Forall (runnerWrite regTokens req runner (g :: EvA (Get KPod req) gp :: l)) (g :: EvA (Get KPod req) gp :: l)))) as Hdel.
    { apply always_bind. eapply always_mono; [|apply (processRunnerDeletion_spec regTokens req runner [] Hz)].
      intros out l [Hl [r ->]]. simpl. rewrite app_nil_r. split; [done|]. right. exists runner. split; [set_solver|].
      constructor; [apply Hg|]. constructor; [by apply rw_read|].
      eapply Forall_impl; [exact Hl|]. intros ev. apply runnerWrite_mono. set_solver. }
    destruct gp as [p|e]; [exact Hdel|]. simpl. destruct (err_notfound e); [exact Hdel|].
    simpl. split; [done|left; by repeat constructor].
Qed.

Lemma newPod_ends runner : always (newPod d runner) (fun out _ => out <> Exhausted).
Proof.
  unfold newPod. cbv zeta. destruct (newRunnerPod _ _ _ _ _) as [pod|e]; [|done].
  unfold mountVolumes, addVolumes, sliceBounds. repeat case_match; simpl; try done; intros [?|?]; done.
Qed.

(** The pod of a runner is born with all the annotations of the runner, also
    with the mark of a completed unregistration: a pod that is created again
    while its runner waits for deletion counts as unregistered from the start. *)
Theorem newPod_born_marked runner p l :
  may (newPod d runner) (Done (Val p)) l ->
  om_Annotations (pod_Meta p) = om_Annotations (r_Meta runner) /\
  getAnnotation (pod_Meta p) AnnotationKeyUnregistrationCompleteTimestamp =
    getAnnotation (r_Meta runner) AnnotationKeyUnregistrationCompleteTimestamp.
Proof.
  intros Hm. assert (om_Annotations (pod_Meta p) = om_Annotations (r_Meta runner)) as Ha.
  { revert p l Hm. cut (always (newPod d runner) (fun out _ =>
      forall p, out = Done (Val p) -> om_Annotations (pod_Meta p) = om_Annotations (r_Meta runner))).
    { intros Ha p l Hm. exact (proj1 (always_may _ _) Ha _ _ Hm p eq_refl). }
    unfold newPod. cbv zeta. destruct (newRunnerPod _ _ _ _ _) as [pod|e] eqn:Hp; [|done].
    assert (om_Annotations (pod_Meta pod) = om_Annotations (r_Meta runner)) as Hpod.
    { revert Hp. unfold newRunnerPod. cbv zeta. destruct (dockerSidecar _ && _); [done|].
      intros [= <-]. by case_decide. }
    clear Hp. apply always_bind, always_true. intros [cs|m|] l; simpl; [|done..].
    apply always_bind, always_true. intros [vs|m|] l'; simpl; [|done..].
    intros [own|e]; simpl; intros q [=]; subst. unfold mutatePod. by repeat case_decide. }
  split; [done|]. unfold getAnnotation. by rewrite Ha.
Qed.

Lemma processRunnerCreation_ends regTokens req runner e pre :
  guarded req pre runner -> EvA (Get KPod req) (Err e) ∈ pre -> err_notfound e = true ->
  always (processRunnerCreation regTokens runner) (fun out l => runnerEnds req (pre ++ l)%list out).
Proof.
  intros (Hg & Hz & Hf) He Hn.
  assert (forall l, guarded req (pre ++ l)%list runner) as Hgd by (intros l; split_and!; [set_solver|done..]).
  assert (forall l, podMissing req (pre ++ l)%list) as Hmiss by (intros l; exists e; set_solver).
  unfold processRunnerCreation, updateRegistrationToken. cbv zeta. do 2 apply always_bind.
  eapply always_mono; [|apply IsRegisterable_spec]. intros _ l1 (_ & b & -> & _). destruct b; cbv beta iota.
  - simpl always at 1. apply always_bind.
    eapply always_mono; [|apply (always_and _ _ _ (always_may_log (newPod d runner)) (newPod_ends runner))].
    intros [[pod|e']|m|] l2 [Hm He']; simpl; [intros a|..|done].
    + eapply (re_created req _ runner pod l2 a); [apply Hgd|apply Hmiss|done|set_solver].
    + eapply re_unbuilt; [apply Hgd|apply Hmiss|done].
    + exists runner, l2. by split.
  - apply always_bind. eapply always_mono; [|apply GetRegistrationToken_spec].
    intros [[rts [rt|e']]|m|] l2 Hs; [| |done|done]; cbv beta iota; simpl.
    + intros [q|e']; simpl.
      * eapply (re_registered req _ runner rt q); [apply Hgd|apply Hmiss|set_solver].
      * eapply (re_unregistered req _ runner); [apply Hgd|apply Hmiss|right]. exists rt, e'. set_solver.
    + eapply (re_unregistered req _ runner); [apply Hgd|apply Hmiss|left].
      destruct Hs as [_ Hs]. eapply tokenRefused_mono; [|exact Hs]. set_solver.
Qed.

(** C26: how a run of the Runner controller ends, whatever the answers: in one
    of the ways listed, each with what was read and done.  Success is reported
    when the runner is gone, when its pod's phase is already recorded, when a
    deleted runner has no finalizer left, and when the call that adds or
    removes the finalizer, records the phase or creates the pod succeeded (or
    the pod already exists).  A retry is asked for when the token was recorded,
    when it could not be obtained or recorded, and when the pod of a deleted
    runner cannot be read.  An error is that of a failed call, or of [newPod]
    for a specification from which it cannot build a pod.  The only panic is
    one of [newPod]. *)
Theorem runner_ends regTokens req :
  always (ReconcileRunner regTokens req) (fun out l => runnerEnds req l out).
Proof.
  unfold ReconcileRunner. simpl. intros [runner|e]; [|simpl; apply re_unread; set_solver].
  set (g := EvA (Get KRunner req) (Val runner)).
  destruct (IsZero _) eqn:Hz.
  - unfold addFinalizer. case_bool_decide as Hf; cbv beta iota; simpl.
    2:{ intros a. apply (re_guarded req _ runner a); [set_solver|done|set_solver]. }
    intros [p|e]; simpl.
    + assert (forall l, guarded req (g :: l) runner) as Hgd by (intros l; split_and!; [set_solver|done..]).
      unfold reportPod. cbv zeta. destruct (negb _ || negb _) eqn:Hb; simpl.
      * intros a. destruct a as [q|e]; simpl.
        -- apply (re_reported req _ runner p (Val q)); [apply Hgd|set_solver..].
        -- apply (re_reported req _ runner p (Err e)); [apply Hgd|set_solver..].
      * apply orb_false_iff in Hb as [Hp Hr]. apply negb_false_iff in Hp, Hr.
        apply (re_unchanged req _ runner p); [apply Hgd|set_solver|by apply bool_decide_eq_true in Hp|by apply eqb_prop].
    + assert (guarded req [g; EvA (Get KPod req) (Err e)] runner) as Hgd by (split_and!; [set_solver|done..]).
      destruct (err_notfound e) eqn:Hn; [|simpl; apply (re_podUnread req _ runner e); [done|set_solver|done]].
      eapply always_mono; [|apply (processRunnerCreation_ends regTokens req runner e _ Hgd); [set_solver|done]]. done.
  - simpl. intros gp.
    assert (always (r <- processRunnerDeletion runner ;; Ret (regTokens, r)) (fun out l =>
      runnerEnds req (g :: EvA (Get KPod req) gp :: l) out)) as Hdel.
    { unfold processRunnerDeletion, removeFinalizer. cbv beta iota. case_bool_decide as Hf; simpl.
      - intros a. destruct a as [q|e]; simpl.
        + apply (re_released req _ runner (Val q)); [set_solver|done|set_solver].
        + apply (re_released req _ runner (Err e)); [set_solver|done|set_solver].
      - apply (re_unguarded req _ runner); [set_solver|done|done]. }
    destruct gp as [p|e]; [exact Hdel|]. simpl. destruct (err_notfound e) eqn:Hn; [exact Hdel|].
    simpl. apply (re_deletionRetried req _ runner e); [set_solver|done|set_solver|done].
Qed.

End RunnerController.
