(* ===== verification/Admission.v ===== *)
(** * Admission: validation webhooks and the token injector

    src/api/v1alpha1/*_webhook.go, [ValidateRepository] of runner_types.go and
    src/controllers/pod_runner_token_injector.go. *)

From stdpp Require Import base list gmap strings.
From Stdlib Require Import ZArith Lia Ascii.
From S2P Require Import Prelude Api GoStrings GitHubClient RunnerPod GracefulStop Hash PodBuilder RunnerPodController RunnerController.

Open Scope string_scope.
Open Scope Z_scope.

(** ** Validation *)

Definition ValidateRepository (c : RunnerConfig) : option err :=
  let found s := if 0 <? Z.of_nat (String.length s) then 1 else 0 in
  let foundCount := found (rc_Organization c) + found (rc_Repository c) + found (rc_Enterprise c) in
  if foundCount =? 0 then Some (newError "Spec needs enterprise, organization or repository")
  else if 1 <? foundCount
  then Some (newError "Spec cannot have many fields defined enterprise, organization and repository")
  else None.

(** [field.Invalid(path, value, detail)] *)
Record fieldError := mkFieldError { fe_Path : list string; fe_Value : string; fe_Detail : string }.

(** [apierrors.NewInvalid(kind, name, errList)], without the kind, which is
    the object's own. *)
Record invalid := mkInvalid { inv_Name : string; inv_Errors : list fieldError }.

(** The three [Validate] methods differ in where the specification is. *)
Definition validateAt (name : string) (path : list string) (c : RunnerConfig) : option invalid :=
  let errList := match ValidateRepository c with
                 | Some e => [mkFieldError path (rc_Repository c) (err_msg e)]
                 | None => []
                 end in
  match errList with
  | [] => None
  | _ => Some (mkInvalid name errList)
  end.

Definition ValidateRunner (r : Runner) : option invalid :=
  validateAt (om_Name (r_Meta r)) ["spec"; "repository"] (rsp_Config (r_Spec r)).

Definition ValidateRunnerReplicaSet (r : RunnerReplicaSet) : option invalid :=
  validateAt (om_Name (rrs_Meta r)) ["spec"; "template"; "spec"; "repository"]
    (rsp_Config (rt_Spec (rrss_Template (rrs_Spec r)))).

Definition ValidateRunnerDeployment (r : RunnerDeployment) : option invalid :=
  validateAt (om_Name (rd_Meta r)) ["spec"; "template"; "spec"; "repository"]
    (rsp_Config (rt_Spec (rds_Template (rd_Spec r)))).

(** The methods of [webhook.Validator]: which validation an operation on the
    resource asks for. *)
Inductive operation := CreateOp | UpdateOp | DeleteOp.

Definition admitRunner (op : operation) (r : Runner) : option invalid :=
  match op with CreateOp | UpdateOp => ValidateRunner r | DeleteOp => None end.

Definition admitRunnerReplicaSet (op : operation) (r : RunnerReplicaSet) : option invalid :=
  match op with CreateOp | UpdateOp => ValidateRunnerReplicaSet r | DeleteOp => None end.

Definition admitRunnerDeployment (op : operation) (r : RunnerDeployment) : option invalid :=
  match op with CreateOp | UpdateOp => ValidateRunnerDeployment r | DeleteOp => None end.

(** ** The token injector *)

Definition AnnotationKeyTokenExpirationDate := "actions-runner-controller/token-expires-at".

(** Decoding and encoding of the object under review. *)
Class PodCodec := {
  decodePod : string -> result Pod;
  marshalPod : Pod -> result string
}.

(** [admission.Errored], the empty response, and
    [admission.PatchResponseFromRaw(original, current)]. *)
Inductive admissionResponse :=
| Errored (code : Z) (e : err)
| EmptyResponse
| PatchResponse (original current : string).

Section TokenInjector.
Context {codec : PodCodec} {rfc : RFC3339}.

Definition getEnv (c : Container) (key : string) : option string := lookupEnv (c_Env c) key.

Definition lastRunner (p : Pod) : option Container :=
  option_map snd (lastContainer 0 "runner" (ps_Containers (pod_Spec p)) None).

(** (enterprise, org, repo) of a pod that has all three variables. *)
Definition injectorScope (p : Pod) : option (string * string * string) :=
  c ← lastRunner p;
  enterprise ← getEnv c EnvVarEnterprise;
  repo ← getEnv c EnvVarRepo;
  org ← getEnv c EnvVarOrg;
  Some (enterprise, org, repo).

Definition injectToken (p : Pod) (rt : RegistrationToken) : Pod :=
  let updated := mutatePod p (tok_Token rt) in
  let updated := annotatePod updated AnnotationKeyTokenExpirationDate (FormatRFC3339 (tok_ExpiresAt rt)) in
  if decide (ps_RestartPolicy (pod_Spec p) = "OnFailure") then updated
  else withPodSpec updated (withRestart (pod_Spec updated) "OnFailure" (ps_ImagePullSecrets (pod_Spec updated))).

Definition HandleInjection (regTokens : tokens) (rawObject : string) : M (tokens * admissionResponse) :=
  match decodePod rawObject with
  | Err e => Ret (regTokens, Errored 400 e)
  | Val pod =>
      match injectorScope pod with
      | None => Ret (regTokens, EmptyResponse)
      | Some (enterprise, org, repo) =>
          let* (regTokens, rt) := GetRegistrationToken regTokens enterprise org repo (om_Name (pod_Meta pod)) in
          Ret (regTokens,
               match rt with
               | Err e => Errored 500 e
               | Val rt =>
                   match marshalPod (injectToken pod rt) with
                   | Err e => Errored 500 e
                   | Val buf => PatchResponse rawObject buf
                   end
               end)
      end
  end.

End TokenInjector.

(** * Theorems *)

(** Exactly one of the three owners is named. *)
Inductive oneOwner : RunnerConfig -> Prop :=
| one_enterprise c : rc_Enterprise c <> "" -> rc_Organization c = "" -> rc_Repository c = "" -> oneOwner c
| one_organization c : rc_Enterprise c = "" -> rc_Organization c <> "" -> rc_Repository c = "" -> oneOwner c
| one_repository c : rc_Enterprise c = "" -> rc_Organization c = "" -> rc_Repository c <> "" -> oneOwner c.

Lemma found_spec s : (if 0 <? Z.of_nat (String.length s) then 1 else 0) = if decide (s = "") then 0 else 1.
Proof. by destruct s. Qed.

Lemma ValidateRepository_spec c : ValidateRepository c = None <-> oneOwner c.
Proof.
  unfold ValidateRepository. cbv zeta. rewrite !found_spec. split.
  - intros H. repeat case_decide; simpl in H; try done;
      first [by apply one_enterprise|by apply one_organization|by apply one_repository].
  - intros []; repeat case_decide; done.
Qed.

Lemma validateAt_spec name path c :
  validateAt name path c = None <-> oneOwner c.
Proof.
  rewrite <- ValidateRepository_spec. unfold validateAt. by destruct (ValidateRepository c).
Qed.

(** C40: the validation webhooks accept the creation or update of a runner, a
    replica set or a deployment exactly when its specification names exactly
    one of enterprise, organization and repository, and accept every deletion.
    What an accepted specification resolves to: an enterprise or organization
    to its scope; a repository only when it has exactly one slash, and then
    owner/name to the repository's scope, but owner/ to the organization's. *)
Theorem validate_exact c :
  (forall op r, rsp_Config (r_Spec r) = c -> admitRunner op r = None <-> op = DeleteOp \/ oneOwner c) /\
  (forall op r, rsp_Config (rt_Spec (rrss_Template (rrs_Spec r))) = c ->
     admitRunnerReplicaSet op r = None <-> op = DeleteOp \/ oneOwner c) /\
  (forall op r, rsp_Config (rt_Spec (rds_Template (rd_Spec r))) = c ->
     admitRunnerDeployment op r = None <-> op = DeleteOp \/ oneOwner c) /\
  (oneOwner c ->
   match getEnterpriseOrganizationAndRepo (rc_Enterprise c) (rc_Organization c) (rc_Repository c) with
   | Val (e, o, r) =>
       if decide (rc_Repository c = "") then
         scopeOf e o r = if decide (rc_Organization c = "") then SEnterprise (rc_Enterprise c)
                         else SOrg (rc_Organization c)
       else Split "/"%char (rc_Repository c) = [o; r] /\ (r <> "" -> scopeOf e o r = SRepo o r) /\
            (r = "" -> o <> "" -> scopeOf e o r = SOrg o)
   | Err _ => forall o r, Split "/"%char (rc_Repository c) <> [o; r]
   end).
Proof.
  assert (forall op name path x, match op with CreateOp | UpdateOp => validateAt name path x | DeleteOp => None end = None <->
    op = DeleteOp \/ oneOwner x) as Hop by (intros [] name path x; rewrite ?validateAt_spec; naive_solver).
  split_and!; [intros op r <-; apply Hop..|]. clear Hop.
  unfold getEnterpriseOrganizationAndRepo, splitOwnerAndRepo, scopeOf.
  intros [c' He Ho Hr|c' He Ho Hr|c' He Ho Hr].
  - rewrite Ho, Hr. repeat case_decide; naive_solver.
  - rewrite He, Hr. repeat case_decide; naive_solver.
  - rewrite He, Ho. rewrite decide_True by done.
    destruct (Split _ (rc_Repository c')) as [|o [|r [|]]] eqn:Hs; try (intros; congruence).
    rewrite decide_False by done. split_and!; [done|intros Hne; by rewrite decide_True|].
    intros -> Hne. by rewrite decide_False, decide_True by (done || by intros []).
Qed.

(** A repository that ends in a slash is accepted and resolves to the
    organization. *)
Theorem trailing_slash_is_organization c org :
  rc_Enterprise c = "" -> rc_Organization c = "" -> rc_Repository c = org +:+ "/" ->
  org <> "" -> contains_char "/" org = false ->
  ValidateRepository c = None /\
  exists e o r, getEnterpriseOrganizationAndRepo "" "" (rc_Repository c) = Val (e, o, r) /\ scopeOf e o r = SOrg org.
Proof.
  intros He Ho Hr Hne Hslash.
  assert (Split "/"%char (rc_Repository c) = [org; ""]) as Hs.
  { rewrite Hr. change "/" with (String "/"%char ""). rewrite Split_app, Split_nosep by done. done. }
  assert (rc_Repository c <> "") as Hrep by (intros H; rewrite H in Hs; discriminate).
  split; [apply ValidateRepository_spec; by apply one_repository|].
  exists "", org, "". unfold getEnterpriseOrganizationAndRepo, splitOwnerAndRepo, scopeOf.
  rewrite decide_True by done. rewrite Hs. split; [done|]. rewrite decide_False by naive_solver.
  by rewrite decide_True.
Qed.

(** ** The injector *)

Section InjectorFacts.
Context {codec : PodCodec} {rfc : RFC3339}.

Lemma lastRunner_has p c : lastRunner p = Some c -> hasRunnerContainer p = true.
Proof.
  unfold lastRunner, hasRunnerContainer. destruct (lastContainer _ _ _ _) as [[j c']|] eqn:Hl; [|done].
  intros _. apply lastContainer_spec in Hl as [[? _]|(pre & post & -> & _ & Hn & _)]; [done|].
  rewrite existsb_app. simpl. rewrite bool_decide_true by done. by rewrite orb_true_r.
Qed.

Lemma injectToken_env p rt key :
  getRunnerEnv (injectToken p rt) key = getRunnerEnv (mutatePod p (tok_Token rt)) key.
Proof. unfold injectToken. by case_decide. Qed.

Lemma mutatePod_token p token :
  hasRunnerContainer p = true -> getRunnerEnv p EnvVarRunnerToken = "" ->
  getRunnerEnv (mutatePod p token) EnvVarRunnerToken = token.
Proof.
  intros Hr Ht. unfold mutatePod. rewrite (decide_True _ _ Ht). apply getRunnerEnv_set.
  case_decide; [by rewrite setRunnerEnv_hasRunner|done].
Qed.

Lemma mutatePod_name p token :
  hasRunnerContainer p = true ->
  getRunnerEnv (mutatePod p token) EnvVarRunnerName
    = if decide (getRunnerEnv p EnvVarRunnerName = "") then om_Name (pod_Meta p) else getRunnerEnv p EnvVarRunnerName.
Proof.
  intros Hr. unfold mutatePod. destruct (decide (getRunnerEnv p EnvVarRunnerToken = ""));
    rewrite ?getRunnerEnv_set_ne by done; case_decide; by rewrite ?getRunnerEnv_set.
Qed.

(** What an injected pod looks like. *)
Definition injectedPod (p updated : Pod) (rt : RegistrationToken) : Prop :=
  (getRunnerEnv p EnvVarRunnerToken = "" -> getRunnerEnv updated EnvVarRunnerToken = tok_Token rt) /\
  (getRunnerEnv p EnvVarRunnerToken <> "" ->
   getRunnerEnv updated EnvVarRunnerToken = getRunnerEnv p EnvVarRunnerToken) /\
  getRunnerEnv updated EnvVarRunnerName
    = (if decide (getRunnerEnv p EnvVarRunnerName = "") then om_Name (pod_Meta p)
       else getRunnerEnv p EnvVarRunnerName) /\
  sameScope (runnerEnvVars p) (runnerEnvVars updated) /\
  getAnnotation (pod_Meta updated) AnnotationKeyTokenExpirationDate = Some (FormatRFC3339 (tok_ExpiresAt rt)) /\
  ps_RestartPolicy (pod_Spec updated) = "OnFailure".

Lemma injectToken_spec p c rt : lastRunner p = Some c -> injectedPod p (injectToken p rt) rt.
Proof.
  intros Hc. pose proof (lastRunner_has p c Hc) as Hr. unfold injectedPod. rewrite !injectToken_env. split_and!.
  - intros Ht. by apply mutatePod_token.
  - intros Ht. unfold mutatePod. rewrite (decide_False _ _ Ht).
    case_decide; [by rewrite getRunnerEnv_set_ne|done].
  - by apply mutatePod_name.
  - intros s. rewrite (mutatePod_sameScope p (tok_Token rt)). unfold injectToken. by case_decide.
  - unfold injectToken. case_decide; apply lookup_insert_eq.
  - unfold injectToken. case_decide as Hp; [|done]. unfold mutatePod. by repeat case_decide.
Qed.

(** C31: the injector never panics.  It refuses what it cannot decode with 400,
    and answers a pod that is not a runner's without a change, both without
    asking GitHub.  For a runner pod it takes a token that is cached for the
    pod's own owner and outlives the startup timeout, or was just issued for
    it: the pod sent back carries that token unless it brought its own, which
    it keeps, likewise the pod's name, the token's expiry, the same owner, and
    the restart policy that lets a finished runner stop.  It answers a runner
    pod with an error only when GitHub issues no token or the pod cannot be
    encoded. *)
Theorem injector_injects regTokens rawObject :
  always (HandleInjection regTokens rawObject) (fun out l =>
    exists regTokens' resp, out = Done (regTokens', resp) /\
    match decodePod rawObject with
    | Err e => resp = Errored 400 e /\ l = []
    | Val pod =>
        match injectorScope pod with
        | None => resp = EmptyResponse /\ l = []
        | Some (enterprise, org, repo) =>
            (exists e, resp = Errored 500 e /\
               (tokenRefused l enterprise org repo \/ exists rt, marshalPod (injectToken pod rt) = Err e)) \/
            exists rt updated buf, resp = PatchResponse rawObject buf /\ marshalPod updated = Val buf /\
              injectedPod pod updated rt /\
              let key := getRegistrationKey org repo enterprise in
              regTokens' !! key = Some rt /\
              ((exists t, regTokens !! key = Some rt /\ EvA Now t ∈ l /\ t + runnerStartupTimeout < tok_ExpiresAt rt) \/
               issuedFor l key rt)
        end
    end).
Proof.
  unfold HandleInjection. destruct (decodePod rawObject) as [pod|e]; [|simpl; eauto].
  destruct (injectorScope pod) as [[[enterprise org] repo]|] eqn:Hs; [|simpl; eauto].
  assert (exists c, lastRunner pod = Some c) as [c Hc].
  { unfold injectorScope in Hs. destruct (lastRunner pod) as [c|]; [by exists c|done]. }
  apply always_bind. eapply always_mono; [|apply GetRegistrationToken_spec].
  intros [[rts [rt|e]]|m|] l Ho; simpl; try done; rewrite app_nil_r; [|destruct Ho; by eauto 10].
  do 2 eexists. split; [done|]. destruct (marshalPod (injectToken pod rt)) as [buf|e] eqn:Hm; [|by eauto 10].
  right. exists rt, (injectToken pod rt), buf.
  split; [done|]. split; [done|]. split; [by eapply injectToken_spec|]. cbv zeta.
  destruct Ho as [(t & Hk & -> & -> & Ht)|[-> Hi]].
  - split; [done|]. left. exists t. split_and!; [done|set_solver|done].
  - split; [apply lookup_insert_eq|by right].
Qed.

End InjectorFacts.
