(* ===== verification/Calendar.v ===== *)
(** * Civil dates and RFC 3339 (Go's [time] package, in UTC)

    What the controllers use of [time]: the civil date of an instant,
    [time.Date] with its normalisation, and [Format]/[Parse] with the layout
    [time.RFC3339].  The location of the process is UTC. *)

From stdpp Require Import base list gmap strings.
From Stdlib Require Import ZArith Lia Ascii.
From S2P Require Import Prelude Api GoStrings.

Open Scope string_scope.
Open Scope Z_scope.

(** ** Days and civil dates, day 0 being 0001-01-01 *)

(** The day of the 400-year era that starts on 0000-03-01. *)
Definition dayOfEra (yoe mp d : Z) : Z :=
  yoe * 365 + yoe / 4 - yoe / 100 + (153 * mp + 2) / 5 + d - 1.

(** Years that start in March, months counted from it. *)
Definition daysFromMarch (y mp d : Z) : Z :=
  y / 400 * 146097 + dayOfEra (y mod 400) mp d - 306.

Definition daysFromCivil (y m d : Z) : Z :=
  daysFromMarch (if m <=? 2 then y - 1 else y) (if m <=? 2 then m + 9 else m - 3) d.

(** (year of era, month counted from March, day of month) *)
Definition eraDate (doe : Z) : Z * Z * Z :=
  let yoe := (doe - doe / 1460 + doe / 36524 - doe / 146096) / 365 in
  let doy := doe - (365 * yoe + yoe / 4 - yoe / 100) in
  let mp := (5 * doy + 2) / 153 in
  (yoe, mp, doy - (153 * mp + 2) / 5 + 1).

Definition civilFromDays (days : Z) : Z * Z * Z :=
  let z := days + 306 in
  let era := z / 146097 in
  let '(yoe, mp, d) := eraDate (z mod 146097) in
  let m := if mp <? 10 then mp + 3 else mp - 9 in
  let y := yoe + era * 400 in
  (if m <=? 2 then y + 1 else y, m, d).

(** ** Instants *)

Definition secondsPerDay : Z := 86400.
Definition DateOf (t : time) : Z * Z * Z := civilFromDays (t / Second / secondsPerDay).
Definition Year (t : time) : Z := (DateOf t).1.1.
Definition Month (t : time) : Z := (DateOf t).1.2.
Definition Day (t : time) : Z := (DateOf t).2.
Definition Hour (t : time) : Z := t / Second mod secondsPerDay / 3600.
Definition MinuteOf (t : time) : Z := t / Second mod 3600 / 60.
Definition SecondOf (t : time) : Z := t / Second mod 60.
Definition Nanosecond (t : time) : Z := t mod Second.

(** [time.Date]: every field may be out of its range. *)
Definition Date (year month day hour min sec nsec : Z) : time :=
  let y := year + (month - 1) / 12 in
  let m := (month - 1) mod 12 + 1 in
  let days := daysFromCivil y m 1 + (day - 1) in
  (days * secondsPerDay + hour * 3600 + min * 60 + sec) * Second + nsec.

(** The days of a month. *)
Definition daysIn (m y : Z) : Z := daysFromCivil (y + m / 12) (m mod 12 + 1) 1 - daysFromCivil y m 1.

(** ** Formatting *)

Definition digitChar (n : Z) : ascii := ascii_of_N (Z.to_N (48 + n mod 10)).
Definition pad2 (n : Z) (s : string) : string := String (digitChar (n / 10)) (String (digitChar n) s).
Definition pad4 (n : Z) (s : string) : string := pad2 (n / 100) (pad2 n s).

Definition formatRFC3339 (t : time) : string :=
  let y := Year t in
  (if y <? 10000 then pad4 y "" else FormatInt y) +:+
  String "-" (pad2 (Month t) (String "-" (pad2 (Day t) (String "T"
    (pad2 (Hour t) (String ":" (pad2 (MinuteOf t) (String ":" (pad2 (SecondOf t) "Z"))))))))).

(** Up to nine digits of a fraction of a second, trailing zeros dropped. *)
Fixpoint fractionDigits (k : nat) (n weight : Z) : string :=
  match k with
  | O => ""
  | S k => if n =? 0 then "" else String (digitChar (n / weight)) (fractionDigits k (n mod weight) (weight / 10))
  end.

(** [t.String()], in UTC. *)
Definition TimeString (t : time) : string :=
  let y := Year t in
  let ns := Nanosecond t in
  (if y <? 10000 then pad4 y "" else FormatInt y) +:+
  String "-" (pad2 (Month t) (String "-" (pad2 (Day t) (String " "
    (pad2 (Hour t) (String ":" (pad2 (MinuteOf t) (String ":" (pad2 (SecondOf t)
      ((if ns =? 0 then "" else String "." (fractionDigits 9 ns 100000000))
        +:+ " +0000 UTC")))))))))).

(** ** Parsing *)

Definition digitOf (c : ascii) : option Z :=
  let n := Z.of_N (N_of_ascii c) in
  if (48 <=? n) && (n <=? 57) then Some (n - 48) else None.

(** Exactly [k] digits. *)
Fixpoint getDigits (k : nat) (acc : Z) (s : string) : option (Z * string) :=
  match k with
  | O => Some (acc, s)
  | S k =>
      match s with
      | EmptyString => None
      | String c s => match digitOf c with
                      | Some d => getDigits k (acc * 10 + d) s
                      | None => None
                      end
      end
  end.

(** [getnum(s, false)]: two digits, or one. *)
Definition getNum (s : string) : option (Z * string) :=
  match getDigits 2 0 s with Some r => Some r | None => getDigits 1 0 s end.

Definition skipChar (c : ascii) (s : string) : option string :=
  match s with
  | String c' s => if decide (c' = c) then Some s else None
  | EmptyString => None
  end.

(** The digits at the head of [s]: nanoseconds so far, weight of the next. *)
Fixpoint getFraction (s : string) (acc weight : Z) : Z * string :=
  match s with
  | String c s' =>
      match digitOf c with
      | Some d => getFraction s' (acc + d * weight) (weight / 10)
      | None => (acc, s)
      end
  | EmptyString => (acc, s)
  end.

(** A fraction is accepted though the layout has none. *)
Definition optFraction (s : string) : Z * string :=
  match s with
  | String c (String d s') =>
      if bool_decide (c = ".") || bool_decide (c = ",") then
        match digitOf d with
        | Some _ => getFraction (String d s') 0 100000000
        | None => (0, s)
        end
      else (0, s)
  | _ => (0, s)
  end%char.

(** [Z], or the offset in seconds. *)
Definition getZone (s : string) : option Z :=
  match s with
  | "Z" => Some 0
  | String c s =>
      if bool_decide (c = "+"%char) || bool_decide (c = "-"%char) then
        '(h, s) ← getDigits 2 0 s;
        s ← skipChar ":" s;
        '(m, s) ← getDigits 2 0 s;
        if decide (s = "") then Some ((if decide (c = "-"%char) then -1 else 1) * (h * 3600 + m * 60))
        else None
      else None
  | _ => None
  end.

Definition parseRFC3339 (s : string) : option time :=
  '(y, s) ← getDigits 4 0 s;
  s ← skipChar "-" s;
  '(m, s) ← getDigits 2 0 s;
  s ← skipChar "-" s;
  '(d, s) ← getDigits 2 0 s;
  s ← skipChar "T" s;
  '(hh, s) ← getNum s;
  s ← skipChar ":" s;
  '(mm, s) ← getDigits 2 0 s;
  s ← skipChar ":" s;
  '(ss, s) ← getDigits 2 0 s;
  let (ns, s) := optFraction s in
  zone ← getZone s;
  if (1 <=? m) && (m <=? 12) && (hh <? 24) && (mm <? 60) && (ss <? 60) &&
     (1 <=? d) && (d <=? daysIn m y)
  then Some (Date y m d hh mm ss ns - zone * Second) else None.

(** * Lemmas *)

(** Linear arithmetic with divisions by constants. *)
Ltac zdiv := Z.to_euclidean_division_equations; lia.

(** A day of the era lies in its year ... *)
Lemma yoe_spec doe : 0 <= doe < 146097 ->
  let yoe := (doe - doe / 1460 + doe / 36524 - doe / 146096) / 365 in
  0 <= yoe < 400 /\
  365 * yoe + yoe / 4 - yoe / 100 <= doe /\
  doe < (if yoe =? 399 then 146097 else 365 * (yoe + 1) + (yoe + 1) / 4 - (yoe + 1) / 100).
Proof.
  intros H yoe. unfold yoe. split; [zdiv|split; [zdiv|]].
  destruct (Z.eqb_spec ((doe - doe / 1460 + doe / 36524 - doe / 146096) / 365) 399); zdiv.
Qed.

(** ... and a day of the year, counted from March, in its month. *)
Lemma month_spec doy : 0 <= doy <= 365 ->
  let mp := (5 * doy + 2) / 153 in
  0 <= mp < 12 /\ (153 * mp + 2) / 5 <= doy < (153 * (mp + 1) + 2) / 5.
Proof. intros H mp. unfold mp. split_and!; zdiv. Qed.

(** The date of a day of the era, and where the next month starts. *)
Lemma eraDate_spec doe yoe mp d :
  0 <= doe < 146097 -> eraDate doe = (yoe, mp, d) ->
  dayOfEra yoe mp d = doe /\ 0 <= yoe < 400 /\ 0 <= mp < 12 /\ 1 <= d <= 31 /\
  doe < (if mp <? 11 then dayOfEra yoe (mp + 1) 1
         else if yoe =? 399 then 146097 else dayOfEra (yoe + 1) 0 1).
Proof.
  intros H. unfold eraDate, dayOfEra. pose proof (yoe_spec doe H) as Hy. simpl in Hy.
  set (y := (doe - doe / 1460 + doe / 36524 - doe / 146096) / 365) in *.
  destruct Hy as (Hy & Hlo & Hhi).
  assert (0 <= doe - (365 * y + y / 4 - y / 100) <= 365) as Hdoy.
  { split; [lia|]. destruct (Z.eqb_spec y 399) as [->|]; zdiv. }
  pose proof (month_spec _ Hdoy) as Hm. simpl in Hm.
  set (doy := doe - (365 * y + y / 4 - y / 100)) in *. set (m := (5 * doy + 2) / 153) in *.
  intros [= <- <- <-]. destruct Hm as [Hm Hd]. split_and!; try lia; [zdiv|].
  destruct (Z.ltb_spec m 11); [lia|]. destruct (Z.eqb_spec y 399); zdiv.
Qed.

Lemma civilFromDays_spec days y m d :
  civilFromDays days = (y, m, d) ->
  daysFromCivil y m d = days /\ 1 <= m <= 12 /\ 1 <= d <= daysIn m y /\ d <= 31.
Proof.
  unfold civilFromDays.
  set (era := (days + 306) / 146097). set (doe := (days + 306) mod 146097).
  assert (days + 306 = era * 146097 + doe) as Hz by (unfold era, doe; zdiv).
  assert (0 <= doe < 146097) as Hdoe by (unfold doe; zdiv).
  destruct (eraDate doe) as [[yoe mp] d'] eqn:He.
  destruct (eraDate_spec _ _ _ _ Hdoe He) as (Hinv & Hyoe & Hmp & Hd & Hnext).
  set (y' := yoe + era * 400).
  assert (daysFromMarch y' mp d' = days) as Hdays.
  { unfold daysFromMarch. replace (y' / 400) with era by zdiv. replace (y' mod 400) with yoe by zdiv. lia. }
  assert (days < if mp <? 11 then daysFromMarch y' (mp + 1) 1 else daysFromMarch (y' + 1) 0 1) as Hend.
  { unfold daysFromMarch. destruct (mp <? 11).
    - replace (y' / 400) with era by zdiv. replace (y' mod 400) with yoe by zdiv. lia.
    - destruct (Z.eqb_spec yoe 399).
      + replace ((y' + 1) / 400) with (era + 1) by zdiv.
        replace ((y' + 1) mod 400) with 0 by zdiv. change (dayOfEra 0 0 1) with 0. lia.
      + replace ((y' + 1) / 400) with era by zdiv.
        replace ((y' + 1) mod 400) with (yoe + 1) by zdiv. lia. }
  assert (daysFromMarch y' mp 1 = days - d' + 1) as Hfirst
    by (unfold daysFromMarch, dayOfEra in *; lia).
  assert (forall y m d, daysFromCivil y m d
    = daysFromMarch (if m <=? 2 then y - 1 else y) (if m <=? 2 then m + 9 else m - 3) d) as Hciv by done.
  clearbody y'. clear era doe Hz Hdoe He Hinv Hyoe Hnext. destruct (Z.ltb_spec mp 10).
  - destruct (Z.leb_spec (mp + 3) 2); [lia|]. intros [= <- <- <-].
    rewrite (proj2 (Z.ltb_lt mp 11)) in Hend by lia.
    unfold daysIn. rewrite !Hciv. destruct (Z.leb_spec (mp + 3) 2); [lia|].
    replace (mp + 3 - 3) with mp by lia.
    destruct (Z.eqb_spec mp 9) as [->|]; [change ((9 + 3) mod 12 + 1) with 1; change ((9 + 3) / 12) with 1|].
    + cbn [Z.leb Z.compare Pos.compare Pos.compare_cont]. replace (y' + 1 - 1) with y' by lia.
      change (9 + 1) with (1 + 9) in Hend. lia.
    + replace ((mp + 3) mod 12 + 1) with (mp + 4) by zdiv. replace ((mp + 3) / 12) with 0 by zdiv.
      destruct (Z.leb_spec (mp + 4) 2); [lia|]. replace (mp + 4 - 3) with (mp + 1) by lia.
      rewrite Z.add_0_r. lia.
  - destruct (Z.leb_spec (mp - 9) 2); [|lia]. intros [= <- <- <-].
    unfold daysIn. rewrite !Hciv. destruct (Z.leb_spec (mp - 9) 2); [|lia].
    replace (mp - 9 + 9) with mp by lia. replace (y' + 1 - 1) with y' by lia.
    replace ((mp - 9) / 12) with 0 by zdiv. replace ((mp - 9) mod 12) with (mp - 9) by zdiv.
    rewrite Z.add_0_r. destruct (Z.ltb_spec mp 11).
    + assert (mp = 10) as -> by lia. change (10 - 9 + 1 <=? 2) with true. cbv iota.
      replace (y' + 1 - 1) with y' by lia. change (10 - 9 + 1 + 9) with (10 + 1). lia.
    + assert (mp = 11) as -> by lia. change (11 - 9 + 1 <=? 2) with false. cbv iota.
      change (11 - 9 + 1 - 3) with 0. lia.
Qed.

Lemma daysFromCivil_day y m d : daysFromCivil y m 1 + (d - 1) = daysFromCivil y m d.
Proof. unfold daysFromCivil, daysFromMarch, dayOfEra. lia. Qed.

Lemma civil_year_range days y m d :
  civilFromDays days = (y, m, d) -> 0 <= days < 3652059 -> 1 <= y <= 9999.
Proof.
  unfold civilFromDays. intros H Hdays.
  assert (0 <= (days + 306) mod 146097 < 146097) as Hdoe by zdiv.
  destruct (eraDate ((days + 306) mod 146097)) as [[yoe mp] d'] eqn:He.
  destruct (eraDate_spec _ _ _ _ Hdoe He) as (Hinv & Hyoe & Hmp & Hd & _). unfold dayOfEra in Hinv.
  assert (0 <= (days + 306) / 146097 <= 24) as Hera by zdiv.
  destruct (Z.ltb_spec mp 10).
  - destruct (Z.leb_spec (mp + 3) 2); [lia|]. simplify_eq. split; [|lia].
    destruct (decide (1 <= yoe + (days + 306) / 146097 * 400)); [done|].
    assert (yoe = 0) by lia. assert ((days + 306) / 146097 = 0) by lia. subst yoe. zdiv.
  - destruct (Z.leb_spec (mp - 9) 2); [|lia]. simplify_eq. split; [lia|].
    destruct (decide (yoe + (days + 306) / 146097 * 400 + 1 <= 9999)); [done|].
    assert (yoe = 399) by lia. assert ((days + 306) / 146097 = 24) by lia. subst yoe. zdiv.
Qed.

Lemma digitOf_digitChar n : digitOf (digitChar n) = Some (n mod 10).
Proof.
  unfold digitOf, digitChar. rewrite N_ascii_embedding by zdiv.
  rewrite Z2N.id by zdiv.
  destruct (Z.leb_spec 48 (48 + n mod 10)); [|zdiv].
  destruct (Z.leb_spec (48 + n mod 10) 57); [|zdiv]. simpl. f_equal. lia.
Qed.

Lemma getDigits_pad2 n acc s : getDigits 2 acc (pad2 n s) = Some (acc * 100 + n mod 100, s).
Proof. simpl. rewrite !digitOf_digitChar. do 2 f_equal. zdiv. Qed.

Lemma getDigits_pad4 n s : getDigits 4 0 (pad4 n s) = Some (n mod 10000, s).
Proof. unfold pad4. simpl. rewrite !digitOf_digitChar. do 2 f_equal. zdiv. Qed.

Lemma getNum_pad2 n s : getNum (pad2 n s) = Some (n mod 100, s).
Proof. unfold getNum. by rewrite getDigits_pad2. Qed.

Lemma skipChar_eq c s : skipChar c (String c s) = Some s.
Proof. simpl. by rewrite decide_True. Qed.

(** The fields of an instant put together again. *)
Lemma Date_fields t :
  Date (Year t) (Month t) (Day t) (Hour t) (MinuteOf t) (SecondOf t) 0 = t - Nanosecond t.
Proof.
  unfold Date, Year, Month, Day, DateOf. destruct (civilFromDays _) as [[y m] d] eqn:Hc. simpl.
  destruct (civilFromDays_spec _ _ _ _ Hc) as (Hinv & Hm & _).
  replace ((m - 1) / 12) with 0 by zdiv. replace ((m - 1) mod 12 + 1) with m by zdiv.
  rewrite !Z.add_0_r, daysFromCivil_day, Hinv. unfold Hour, MinuteOf, SecondOf, Nanosecond, secondsPerDay.
  assert (t = t / Second * Second + t mod Second) as Ht by (unfold Second; zdiv).
  assert (t / Second / 86400 * 86400 + t / Second mod 86400 / 3600 * 3600
    + t / Second mod 3600 / 60 * 60 + t / Second mod 60 = t / Second) as Hs by zdiv.
  lia.
Qed.

Lemma Date_nsec y m d h mi s n : Date y m d h mi s n = Date y m d h mi s 0 + n.
Proof. unfold Date. lia. Qed.

Lemma parse_format t :
  0 <= t < maxRFC3339 -> parseRFC3339 (formatRFC3339 t) = Some (t - t mod Second).
Proof.
  intros Ht. assert (0 <= t / Second / secondsPerDay < 3652059) as Hdays
    by (unfold maxRFC3339, secondsPerDay, Second in *; zdiv).
  pose proof (Date_fields t) as Hdate. unfold Nanosecond in Hdate. rewrite <- Hdate. clear Hdate.
  assert (0 <= Hour t < 24 /\ 0 <= MinuteOf t < 60 /\ 0 <= SecondOf t < 60) as (Hh & Hmi & Hs)
    by (unfold Hour, MinuteOf, SecondOf, secondsPerDay; zdiv).
  assert (1 <= Year t <= 9999 /\ 1 <= Month t <= 12 /\ 1 <= Day t <= 31 /\
    Day t <= daysIn (Month t) (Year t)) as (Hy & Hm & Hd & Hin).
  { unfold Year, Month, Day, DateOf. destruct (civilFromDays _) as [[y m] d] eqn:Hc. simpl.
    pose proof (civil_year_range _ _ _ _ Hc Hdays).
    destruct (civilFromDays_spec _ _ _ _ Hc) as (_ & ? & ? & ?). lia. }
  unfold formatRFC3339. rewrite (proj2 (Z.ltb_lt (Year t) 10000)) by lia.
  change (pad4 (Year t) "" +:+ ?r) with (pad4 (Year t) r). unfold parseRFC3339.
  rewrite getDigits_pad4. cbn [mbind option_bind].
  repeat (first [rewrite skipChar_eq | rewrite getDigits_pad2 | rewrite getNum_pad2];
          cbn [mbind option_bind]).
  change (optFraction "Z") with (0, "Z"). cbn [getZone mbind option_bind].
  rewrite !(Z.mod_small _ 100), (Z.mod_small _ 10000) by lia. rewrite !Z.mul_0_l, !Z.add_0_l.
  rewrite (proj2 (Z.leb_le _ (daysIn _ _))) by done.
  rewrite !(proj2 (Z.ltb_lt _ _)), !(proj2 (Z.leb_le _ _)) by lia. simpl andb. cbv iota.
  by rewrite Z.sub_0_r.
Qed.

Lemma formatRFC3339_nonempty t : formatRFC3339 t <> "".
Proof.
  unfold formatRFC3339. intros H. destruct (Year t <? 10000); [done|].
  by destruct (FormatInt (Year t)).
Qed.

(** The instance that the rest of the development assumes. *)
#[export] Instance RFC3339_UTC : RFC3339 := {|
  FormatRFC3339 := formatRFC3339;
  ParseRFC3339 := parseRFC3339;
  FormatRFC3339_nonempty := formatRFC3339_nonempty;
  ParseRFC3339_Format := parse_format
|}.

(** civil dates round-trip: [time.Date] of the fields of an instant is the
    instant, its date is a day of the calendar, and the instant's RFC 3339 text
    parses back to it, up to the fraction of a second that the text drops. *)
Theorem calendar_roundtrip t :
  Date (Year t) (Month t) (Day t) (Hour t) (MinuteOf t) (SecondOf t) (Nanosecond t) = t /\
  1 <= Month t <= 12 /\ 1 <= Day t <= daysIn (Month t) (Year t) /\
  (0 <= t < maxRFC3339 -> parseRFC3339 (formatRFC3339 t) = Some (t - Nanosecond t)).
Proof.
  split; [rewrite Date_nsec, Date_fields; lia|].
  assert (1 <= Month t <= 12 /\ 1 <= Day t <= daysIn (Month t) (Year t)) as [Hm Hd].
  { unfold Day, Month, Year, DateOf. destruct (civilFromDays _) as [[y m] d] eqn:Hc. simpl.
    apply civilFromDays_spec in Hc. lia. }
  split; [done|]. split; [done|]. unfold Nanosecond. exact (parse_format t).
Qed.

Example format_ex : formatRFC3339 (Date 2022 3 31 23 59 59 123) = "2022-03-31T23:59:59Z".
Proof. reflexivity. Qed.
Example string_ex : TimeString (Date 2022 3 31 23 59 59 120000000) = "2022-03-31 23:59:59.12 +0000 UTC".
Proof. reflexivity. Qed.
Example parse_offset_ex : parseRFC3339 "2021-05-01T00:00:00+09:00" = Some (Date 2021 4 30 15 0 0 0).
Proof. reflexivity. Qed.
Example parse_bad_day_ex : parseRFC3339 "2021-02-29T00:00:00Z" = None.
Proof. reflexivity. Qed.
Example date_normalises_ex : Date 2021 13 32 0 0 0 0 = Date 2022 2 1 0 0 0 0.
Proof. reflexivity. Qed.

#[global] Arguments Date : simpl never.
#[global] Arguments civilFromDays : simpl never.
#[global] Arguments daysFromCivil : simpl never.
