(* ===== verification/Schedule.v ===== *)
(** * Scheduled overrides (src/controllers/schedule.go)

    Which occurrence of a schedule is active and which comes next.  The
    recurrence rules of rrule-go are the class [RRule]; what the code relies
    on is [RRuleLaws]. *)

From stdpp Require Import base list gmap strings sorting.
From Stdlib Require Import ZArith Lia.
From S2P Require Import Prelude Api GoStrings Calendar.

Open Scope string_scope.
Open Scope Z_scope.

Record Period := mkPeriod { p_StartTime : time; p_EndTime : time }.

Definition Period_String {rfc : RFC3339} (r : option Period) : string :=
  match r with
  | None => ""
  | Some r => (FormatRFC3339 (p_StartTime r) +:+ "-" +:+ FormatRFC3339 (p_EndTime r))%string
  end.

(** [t.Sub(u)] saturates at the bounds of [time.Duration]. *)
Definition Sub (t u : time) : duration := Z.max (- 2 ^ 63) (Z.min (2 ^ 63 - 1) (t - u)).

Inductive Frequency := DAILY | WEEKLY | MONTHLY | YEARLY.

(** rrule-go: [NewRRule] with the options Freq, Dtstart and Until, and
    [Between(after, before, inc)]. *)
Class RRule := {
  rule : Type;
  NewRRule : Frequency -> time -> time -> result rule;
  RuleBetween : rule -> time -> time -> bool -> list time
}.

(** [Between] with [inc] set lists the occurrences from [after] to [before],
    both included, in order. *)
Class RRuleLaws (R : RRule) := {
  occurs : rule -> time -> Prop;
  Between_spec r a b t : t ∈ RuleBetween r a b true <-> occurs r t /\ a <= t <= b;
  Between_sorted r a b : StronglySorted Z.lt (RuleBetween r a b true)
}.

Section Schedule.
Context {R : RRule}.

(** The frequency and the days, months and years it adds. *)
Definition frequencyOf (frequency : string) : option (Frequency * Z * Z * Z) :=
  if decide (frequency = "Daily") then Some (DAILY, 1, 0, 0)
  else if decide (frequency = "Weekly") then Some (WEEKLY, 7, 0, 0)
  else if decide (frequency = "Monthly") then Some (MONTHLY, 0, 1, 0)
  else if decide (frequency = "Yearly") then Some (YEARLY, 0, 0, 1)
  else None.

Definition durationLater (now : time) (days months years : Z) : time :=
  Date (Year now + years) (Month now + months) (Day now + days)
    (Hour now) (MinuteOf now) (SecondOf now) (Nanosecond now).

(** Returns (active, upcoming). *)
Definition calculateActiveAndUpcomingRecurringPeriods (now startTime endTime : time)
  (frequency : string) (untilTime : time) : result (option Period * option Period) :=
  if decide (frequency = "") then
    if Before now startTime then Val (None, Some (mkPeriod startTime endTime))
    else if Before now endTime then Val (Some (mkPeriod startTime endTime), None)
    else Val (None, None)
  else
    match frequencyOf frequency with
    | None => Err (newError ("invalid freq " +:+ frequency))
    | Some (freqValue, freqDurationDay, freqDurationMonth, freqDurationYear) =>
        let freqDurationLater := durationLater now freqDurationDay freqDurationMonth freqDurationYear in
        let freqDuration := Sub freqDurationLater now in
        let overrideDuration := Sub endTime startTime in
        if freqDuration <? overrideDuration then
          Err (newError "override's duration must be equal to sor shorter than the duration implied by freq")
        else
          match NewRRule freqValue startTime untilTime with
          | Err e => Err e
          | Val rrule =>
              let overrideDurationBefore := now + (- overrideDuration + 1) in
              let activeOverrideStarts := RuleBetween rrule overrideDurationBefore now true in
              match activeOverrideStarts with
              | _ :: _ :: _ => Err (newError "[bug] unexpted number of active overrides found")
              | _ =>
                  let active := option_map (fun s => mkPeriod s (s + overrideDuration))
                                  (head activeOverrideStarts) in
                  let oneSecondLater := now + 1 in
                  let upcomingOverrideStarts := RuleBetween rrule oneSecondLater freqDurationLater true in
                  let next := option_map (fun s => mkPeriod s (s + overrideDuration))
                                (head upcomingOverrideStarts) in
                  Val (active, next)
              end
          end
    end.

Definition MatchSchedule (now startTime endTime : time) (r : RecurrenceRule)
  : result (option Period * option Period) :=
  calculateActiveAndUpcomingRecurringPeriods now startTime endTime (rr_Frequency r) (rr_UntilTime r).

(** * Theorems *)

(** a schedule without recurrence is active exactly from its start
    (included) to its end (excluded), and upcoming exactly before its start. *)
Theorem MatchSchedule_once now startTime endTime until :
  exists active upcoming,
    MatchSchedule now startTime endTime {| rr_Frequency := ""; rr_UntilTime := until |}
      = Val (active, upcoming) /\
    (active = Some (mkPeriod startTime endTime) <-> startTime <= now < endTime) /\
    (active = None <-> ~ startTime <= now < endTime) /\
    (upcoming = Some (mkPeriod startTime endTime) <-> now < startTime) /\
    (upcoming = None <-> startTime <= now).
Proof.
  unfold MatchSchedule, calculateActiveAndUpcomingRecurringPeriods, Before. cbn [rr_Frequency rr_UntilTime]. rewrite decide_True by done.
  destruct (Z.ltb_spec now startTime); [|destruct (Z.ltb_spec now endTime)];
    do 2 eexists; (split; [done|]); split_and!; (split; intros; first [done | lia | congruence]).
Qed.

Context {RL : RRuleLaws R}.

Lemma head_between_None r a b :
  head (RuleBetween r a b true) = None -> forall t, occurs r t -> ~ a <= t <= b.
Proof.
  intros H t Ht Hr. assert (t ∈ RuleBetween r a b true) as Hin by by apply Between_spec.
  destruct (RuleBetween r a b true); [by apply not_elem_of_nil in Hin|done].
Qed.

(** The first listed occurrence is the earliest one of the interval. *)
Lemma head_between_Some r a b s :
  head (RuleBetween r a b true) = Some s ->
  occurs r s /\ a <= s <= b /\ forall t, occurs r t -> a <= t -> s <= t.
Proof.
  intros H. pose proof (Between_sorted r a b) as Hs. pose proof (Between_spec r a b) as Hspec.
  destruct (RuleBetween r a b true) as [|s' l]; simplify_eq/=.
  assert (occurs r s /\ a <= s <= b) as [Hocc Hr] by (apply Hspec; set_solver).
  split_and!; [done|lia..|]. intros t Ht Hat. destruct (decide (t <= b)) as [Hb|]; [|lia].
  assert (t ∈ s :: l) as Hin by by apply Hspec.
  apply elem_of_cons in Hin as [->|Hin]; [lia|].
  apply StronglySorted_inv in Hs as [_ Hs]. rewrite Forall_forall in Hs. specialize (Hs _ Hin). lia.
Qed.

(** for a recurring schedule, the active period is an occurrence that
    contains the present and no occurrence does when there is none; the
    upcoming one is the earliest occurrence after the present within one
    period of the recurrence; both last as long as the first override. *)
Theorem MatchSchedule_recurring now startTime endTime freq until active upcoming f days months years :
  frequencyOf freq = Some (f, days, months, years) ->
  MatchSchedule now startTime endTime {| rr_Frequency := freq; rr_UntilTime := until |}
    = Val (active, upcoming) ->
  exists r, NewRRule f startTime until = Val r /\
    let len := Sub endTime startTime in
    let later := durationLater now days months years in
    match active with
    | Some p => occurs r (p_StartTime p) /\ p_EndTime p = p_StartTime p + len /\
                p_StartTime p <= now < p_EndTime p
    | None => forall t, occurs r t -> ~ t <= now < t + len
    end /\
    match upcoming with
    | Some p => occurs r (p_StartTime p) /\ p_EndTime p = p_StartTime p + len /\
                now < p_StartTime p <= later /\ (forall t, occurs r t -> now < t -> p_StartTime p <= t)
    | None => forall t, occurs r t -> ~ now < t <= later
    end.
Proof.
  intros Hf. unfold MatchSchedule, calculateActiveAndUpcomingRecurringPeriods. cbn [rr_Frequency rr_UntilTime].
  destruct (decide (freq = "")) as [->|_]; [done|]. rewrite Hf.
  destruct (_ <? _); [done|]. destruct (NewRRule f startTime until) as [r|e] eqn:Hr; [|done].
  set (len := Sub endTime startTime). set (later := durationLater now days months years).
  clearbody len later.
  destruct (RuleBetween r (now + (- len + 1)) now true) as [|s l] eqn:Ha; [|destruct l; [|done]];
    intros [= <- <-]; exists r; (split; [done|]).
  - split.
    + intros t Ht. assert (head (RuleBetween r (now + (- len + 1)) now true) = None) as Hn by by rewrite Ha.
      pose proof (head_between_None _ _ _ Hn t Ht). lia.
    + destruct (head (RuleBetween r (now + 1) later true)) as [s|] eqn:Hu; simpl.
      * destruct (head_between_Some _ _ _ _ Hu) as (? & ? & Hmin). split_and!; [done|done|lia..|].
        intros t Ht Hlt. apply Hmin; [done|lia].
      * intros t Ht. pose proof (head_between_None _ _ _ Hu t Ht). lia.
  - assert (head (RuleBetween r (now + (- len + 1)) now true) = Some s) as Hs by by rewrite Ha.
    destruct (head_between_Some _ _ _ _ Hs) as (? & ? & _). split; [simpl; split_and!; [done|done|lia..]|].
    destruct (head (RuleBetween r (now + 1) later true)) as [s'|] eqn:Hu; simpl.
    + destruct (head_between_Some _ _ _ _ Hu) as (? & ? & Hmin). split_and!; [done|done|lia..|].
      intros t Ht Hlt. apply Hmin; [done|lia].
    + intros t Ht. pose proof (head_between_None _ _ _ Hu t Ht). lia.
Qed.

(** the "[bug]" error of two simultaneously active occurrences cannot
    happen when occurrences are at least the override's length apart; the only
    other errors are an unknown frequency, an override longer than the
    recurrence, and a rule the library refuses. *)
Theorem MatchSchedule_no_bug now startTime endTime freq until f days months years r :
  frequencyOf freq = Some (f, days, months, years) ->
  NewRRule f startTime until = Val r ->
  Sub endTime startTime <= Sub (durationLater now days months years) now ->
  (forall t u, occurs r t -> occurs r u -> t < u -> t + Sub endTime startTime <= u) ->
  exists p, MatchSchedule now startTime endTime {| rr_Frequency := freq; rr_UntilTime := until |} = Val p.
Proof.
  intros Hf Hr Hlen Hapart. unfold MatchSchedule, calculateActiveAndUpcomingRecurringPeriods. cbn [rr_Frequency rr_UntilTime].
  destruct (decide (freq = "")) as [->|_]; [done|]. rewrite Hf.
  rewrite (proj2 (Z.ltb_ge _ _) Hlen), Hr. clear Hlen.
  set (len := Sub endTime startTime) in *. clearbody len. set (a := now + (- len + 1)).
  pose proof (Between_sorted r a now) as Hs. pose proof (Between_spec r a now) as Hspec.
  destruct (RuleBetween r a now true) as [|s [|u l]]; [by eexists..|]. exfalso.
  assert (occurs r s /\ a <= s <= now) as [Hos Hrs] by (apply Hspec; set_solver).
  assert (occurs r u /\ a <= u <= now) as [Hou Hru] by (apply Hspec; set_solver).
  apply StronglySorted_inv in Hs as [_ Hsu]. apply Forall_cons in Hsu as [Hsu _].
  specialize (Hapart s u Hos Hou Hsu). unfold a in *. lia.
Qed.

End Schedule.
