(* ===== verification/Floats.v ===== *)
(** * Go's [float64], as far as the autoscaler uses it

    IEEE 754 binary64 arithmetic through the executable [spec_float] of the
    Standard Library, the conversions from and to [int], [math.Ceil] and
    [strconv.ParseFloat]. *)

From stdpp Require Import base list gmap strings.
From Stdlib Require Import ZArith Lia Ascii SpecFloat.
From S2P Require Import Prelude Api GoStrings Calendar.

Open Scope string_scope.
Open Scope Z_scope.

Definition float64 := spec_float.

Definition ofInt (z : Z) : float64 := binary_normalize 53 1024 z 0 false.
Definition fmul (x y : float64) : float64 := SFmul 53 1024 x y.
Definition fdiv (x y : float64) : float64 := SFdiv 53 1024 x y.
(** Comparisons with a NaN are false. *)
Definition flt (x y : float64) : bool := SFltb x y.
Definition fge (x y : float64) : bool := SFleb y x.

(** [math.Ceil] *)
Definition Ceil (x : float64) : float64 :=
  match x with
  | S754_finite s m e =>
      let v := if s then Z.neg m else Z.pos m in
      binary_normalize 53 1024 (if 0 <=? e then v * 2 ^ e else - ((- v) / 2 ^ (- e))) 0 s
  | _ => x
  end.

(** [int(x)] truncates; what it does out of range is the machine's: on amd64
    the least integer. *)
Definition toInt (x : float64) : Z :=
  match x with
  | S754_zero _ => 0
  | S754_finite s m e =>
      let a := if 0 <=? e then Z.pos m * 2 ^ e else Z.pos m / 2 ^ (- e) in
      let v := if s then - a else a in
      if (- 2 ^ 63 <=? v) && (v <? 2 ^ 63) then v else - 2 ^ 63
  | _ => - 2 ^ 63
  end.

(** ** [strconv.ParseFloat(s, 64)] *)

Definition lower (c : ascii) : ascii :=
  let n := N_of_ascii c in
  if (65 <=? n)%N && (n <=? 90)%N then ascii_of_N (n + 32) else c.

Fixpoint lowerString (s : string) : string :=
  match s with EmptyString => "" | String c s => String (lower c) (lowerString s) end.

Definition hexDigitOf (c : ascii) : option Z :=
  match digitOf c with
  | Some d => Some d
  | None =>
      let n := Z.of_N (N_of_ascii (lower c)) in
      if (97 <=? n) && (n <=? 102) then Some (n - 87) else None
  end.

(** Mantissa: (value, digits after the point, digits seen, rest). *)
Fixpoint getMantissa (base : Z) (digit : ascii -> option Z) (s : string)
  (m frac : Z) (dot seen : bool) : Z * Z * bool * string :=
  match s with
  | EmptyString => (m, frac, seen, s)
  | String c s' =>
      if decide (c = "."%char) then
        if dot then (m, frac, seen, s) else getMantissa base digit s' m frac true seen
      else match digit c with
           | Some d => getMantissa base digit s' (m * base + d) (if dot then frac + 1 else frac) dot true
           | None => (m, frac, seen, s)
           end
  end.

(** The digits of an exponent; it stops growing at 10000. *)
Fixpoint getExponent (s : string) (e : Z) : option Z :=
  match s with
  | EmptyString => Some e
  | String c s' =>
      match digitOf c with
      | Some d => getExponent s' (if e <? 10000 then e * 10 + d else e)
      | None => None
      end
  end.

Definition signedExponent (s : string) : option Z :=
  match s with
  | String "+" (String c s) => getExponent (String c s) 0
  | String "-" (String c s) => option_map Z.opp (getExponent (String c s) 0)
  | String c s => getExponent (String c s) 0
  | EmptyString => None
  end.

(** [m * 10^e], rounded once. *)
Definition decimal (neg : bool) (m e : Z) : float64 :=
  match m with
  | Z.pos p =>
      if 0 <=? e then SFmul 53 1024 (binary_normalize 53 1024 (m * 10 ^ e) 0 false)
                        (S754_finite neg 1 0)
      else match 10 ^ (- e) with
           | Z.pos q => SFdiv 53 1024 (S754_finite neg p 0) (S754_finite false q 0)
           | _ => S754_nan
           end
  | _ => S754_zero neg
  end.

Definition hexadecimal (neg : bool) (m e : Z) : float64 :=
  match m with
  | Z.pos p => binary_normalize 53 1024 (if neg then Z.neg p else m) e neg
  | _ => S754_zero neg
  end.

(** An overflow is an error. *)
Definition finiteOnly (x : float64) : option float64 :=
  match x with S754_infinity _ => None | _ => Some x end.

(** A number without its sign. *)
Definition parseNumber (neg : bool) (s : string) : option float64 :=
  match lowerString s with
  | String "0" (String "x" s) =>
      match getMantissa 16 hexDigitOf s 0 0 false false with
      | (m, frac, true, String "p" e) =>
          match signedExponent e with
          | Some e => finiteOnly (hexadecimal neg m (e - 4 * frac))
          | None => None
          end
      | _ => None
      end
  | s =>
      match getMantissa 10 digitOf s 0 0 false false with
      | (m, frac, true, "") => finiteOnly (decimal neg m (- frac))
      | (m, frac, true, String "e" e) =>
          match signedExponent e with
          | Some e => finiteOnly (decimal neg m (e - frac))
          | None => None
          end
      | _ => None
      end
  end.

(** [underscoreOK]: underscores only between digits, a base prefix counting as
    one; [saw] is whether the previous character was a digit, an underscore or
    something else. *)
Inductive saw := SawDigit | SawUnderscore | SawOther.

Fixpoint underscoresBetween (digit : ascii -> option Z) (s : string) (p : saw) : bool :=
  match s with
  | EmptyString => match p with SawUnderscore => false | _ => true end
  | String c s =>
      if decide (c = "_"%char) then
        match p with SawDigit => underscoresBetween digit s SawUnderscore | _ => false end
      else match digit c, p with
           | Some _, _ => underscoresBetween digit s SawDigit
           | None, SawUnderscore => false
           | None, _ => underscoresBetween digit s SawOther
           end
  end.

Definition underscoreOK (s : string) : bool :=
  match lowerString s with
  | String "0" (String "x" s) => underscoresBetween hexDigitOf s SawDigit
  | s => underscoresBetween digitOf s SawOther
  end.

Fixpoint dropUnderscores (s : string) : string :=
  match s with
  | EmptyString => ""
  | String c s => if decide (c = "_"%char) then dropUnderscores s else String c (dropUnderscores s)
  end.

Definition parseUnsigned (neg : bool) (s : string) : option float64 :=
  if bool_decide (lowerString s = "inf") || bool_decide (lowerString s = "infinity")
  then Some (S754_infinity neg)
  else if contains_char "_" s
       then if underscoreOK s then parseNumber neg (dropUnderscores s) else None
       else parseNumber neg s.

Definition ParseFloat (s : string) : option float64 :=
  if decide (lowerString s = "nan") then Some S754_nan
  else match s with
       | String "+" s => parseUnsigned false s
       | String "-" s => parseUnsigned true s
       | s => parseUnsigned false s
       end.

Example ParseFloat_decimal : ParseFloat "0.75" = Some (fdiv (ofInt 3) (ofInt 4)).
Proof. vm_compute. reflexivity. Qed.
Example ParseFloat_exp : ParseFloat "-1.25E1" = Some (fdiv (ofInt (-25)) (ofInt 2)).
Proof. vm_compute. reflexivity. Qed.
Example ParseFloat_bad : map ParseFloat ["0.8x"; ""; "."; "1e"; "--1"; "1e400"] = [None; None; None; None; None; None].
Proof. vm_compute. reflexivity. Qed.
Example ParseFloat_hex : ParseFloat "0x1.8p1" = Some (ofInt 3).
Proof. vm_compute. reflexivity. Qed.
Example ceil_ex : toInt (Ceil (fmul (ofInt 7) (decimal false 13 (-1)))) = 10.
Proof. vm_compute. reflexivity. Qed.
