(* ===== verification/Url.v ===== *)
(** * Go's [net/url], as the client configuration uses it

    [url.Parse] up to the escaped forms it also remembers ([RawPath],
    [RawFragment]); the user information is kept as written. *)

From stdpp Require Import base list strings.
From Stdlib Require Import ZArith Lia Ascii String.
From S2P Require Import Prelude GoStrings Calendar Floats.

Open Scope string_scope.
Open Scope Z_scope.

(** ** [strings] *)

(** [strings.HasSuffix(s, p)] *)
Fixpoint HasSuffix (s p : string) : bool :=
  bool_decide (s = p) || match s with EmptyString => false | String _ s' => HasSuffix s' p end.

(** [strings.TrimSuffix(s, p)] *)
Fixpoint TrimSuffix (s p : string) : string :=
  if decide (s = p) then ""
  else match s with EmptyString => "" | String c s' => String c (TrimSuffix s' p) end.

(** [strings.Contains(s, p)] *)
Definition Contains (s p : string) : bool := match cut p s with Some _ => true | None => false end.

(** The text before and after the first, and the last, occurrence of a byte. *)
Fixpoint CutByte (c : ascii) (s : string) : option (string * string) :=
  match s with
  | EmptyString => None
  | String d s' =>
      if decide (d = c) then Some ("", s')
      else match CutByte c s' with Some (a, b) => Some (String d a, b) | None => None end
  end.

Fixpoint LastCutByte (c : ascii) (s : string) : option (string * string) :=
  match s with
  | EmptyString => None
  | String d s' =>
      match LastCutByte c s' with
      | Some (a, b) => Some (String d a, b)
      | None => if decide (d = c) then Some ("", s') else None
      end
  end.

Fixpoint allChars (f : ascii -> bool) (s : string) : bool :=
  match s with EmptyString => true | String c s' => f c && allChars f s' end.

(** ** Escapes *)

Definition code (c : ascii) : Z := Z.of_N (N_of_ascii c).

Definition isLower (c : ascii) : bool := (97 <=? code c) && (code c <=? 122).
Definition isUpper (c : ascii) : bool := (65 <=? code c) && (code c <=? 90).
Definition isDigit (c : ascii) : bool := (48 <=? code c) && (code c <=? 57).
Definition isAlnum (c : ascii) : bool := isLower c || isUpper c || isDigit c.

Inductive encoding := encodePath | encodeHost | encodeZone | encodeUserPassword | encodeFragment.

(** [shouldEscape(c, encodeHost)] and [shouldEscape(c, encodeZone)] *)
Definition shouldEscapeHost (c : ascii) : bool :=
  negb (isAlnum c || contains_char c "!$&'()*+,;=:[]<>-_.~" || bool_decide (c = ascii_of_nat 34)).

(** What [unescape] refuses: of the escape of a byte, given its first digit and
    the byte, and of a byte that stands for itself. *)
Definition refusedEscape (mode : encoding) (hi : Z) (v : ascii) : bool :=
  match mode with
  | encodeHost => (hi <? 8) && negb (bool_decide (v = "%"%char))
  | encodeZone => negb (bool_decide (v = "%"%char)) && negb (bool_decide (v = " "%char)) && shouldEscapeHost v
  | _ => false
  end.
Definition refusedByte (mode : encoding) (c : ascii) : bool :=
  match mode with
  | encodeHost | encodeZone => (code c <? 128) && shouldEscapeHost c
  | _ => false
  end.

Fixpoint unescape (mode : encoding) (s : string) : option string :=
  match s with
  | EmptyString => Some ""
  | String c s' =>
      if decide (c = "%"%char) then
        match s' with
        | String a (String b s'') =>
            match hexDigitOf a, hexDigitOf b with
            | Some x, Some y =>
                let v := ascii_of_N (Z.to_N (x * 16 + y)) in
                if refusedEscape mode x v then None
                else option_map (String v) (unescape mode s'')
            | _, _ => None
            end
        | _ => None
        end
      else if refusedByte mode c then None
      else option_map (String c) (unescape mode s')
  end.

(** ** [url.Parse] *)

Record URL := mkURL {
  u_Scheme : string;
  u_Opaque : string;
  u_User : option string;
  u_Host : string;
  u_Path : string;
  u_RawQuery : string;
  u_Fragment : string
}.

(** [getScheme]: [None] is the error of a missing scheme, [""] no scheme. *)
Fixpoint getSchemeFrom (first : bool) (s : string) : option (option (string * string)) :=
  match s with
  | EmptyString => Some None
  | String c s' =>
      if isLower c || isUpper c then
        match getSchemeFrom false s' with
        | Some (Some (a, b)) => Some (Some (String c a, b))
        | r => r
        end
      else if isDigit c || contains_char c "+-." then
        if first then Some None
        else match getSchemeFrom false s' with
             | Some (Some (a, b)) => Some (Some (String c a, b))
             | r => r
             end
      else if decide (c = ":"%char) then if first then None else Some (Some ("", s'))
      else Some None
  end.

Definition getScheme (s : string) : option (string * string) :=
  match getSchemeFrom true s with
  | None => None
  | Some None => Some ("", s)
  | Some (Some (a, b)) => Some (lowerString a, b)
  end.

Definition validOptionalPort (port : string) : bool :=
  match port with
  | EmptyString => true
  | String c s => bool_decide (c = ":"%char) && allChars isDigit s
  end.

Definition validUserinfo (s : string) : bool :=
  allChars (fun c => isAlnum c || contains_char c "-._:~!$&'()*+,;=%@") s.

Definition parseHost (host : string) : option string :=
  if String.prefix "[" host then
    match LastCutByte "]" host with
    | None => None
    | Some (inner, colonPort) =>
        if negb (validOptionalPort colonPort) then None
        else match cut "%25" inner with
             | Some (address, zone) =>
                 match unescape encodeHost address, unescape encodeZone ("%25" +:+ zone),
                       unescape encodeHost ("]" +:+ colonPort) with
                 | Some a, Some b, Some c => Some (a +:+ b +:+ c)
                 | _, _, _ => None
                 end
             | None => unescape encodeHost host
             end
    end
  else
    match LastCutByte ":" host with
    | Some (_, port) => if validOptionalPort (":" +:+ port) then unescape encodeHost host else None
    | None => unescape encodeHost host
    end.

Definition parseAuthority (authority : string) : option (option string * string) :=
  match LastCutByte "@" authority with
  | None => option_map (fun h => (None, h)) (parseHost authority)
  | Some (userinfo, host) =>
      match parseHost host with
      | None => None
      | Some h =>
          if negb (validUserinfo userinfo) then None
          else match unescape encodeUserPassword userinfo with
               | None => None
               | Some _ => Some (Some userinfo, h)
               end
      end
  end.

(** [strings.Cut(s, "?")]; a lone trailing "?" is dropped the same way. *)
Definition cutQuery (s : string) : string * string :=
  match CutByte "?" s with Some p => p | None => (s, "") end.

(** The part after the scheme and before the query. *)
Definition parseHierarchy (scheme query rest : string) : option URL :=
  let opaque := negb (String.prefix "/" rest) && bool_decide (scheme <> "") in
  let colonFirst := negb (String.prefix "/" rest) &&
    contains_char ":" (match CutByte "/" rest with Some (segment, _) => segment | None => rest end) in
  if opaque then Some (mkURL scheme rest None "" "" query "")
  else if colonFirst then None
  else
    let withPath user host path :=
      option_map (fun p => mkURL scheme "" user host p query "") (unescape encodePath path) in
    if (bool_decide (scheme <> "") || negb (String.prefix "///" rest)) && String.prefix "//" rest then
      let authority := String.substring 2 (String.length rest - 2) rest in
      let '(authority, path) :=
        match CutByte "/" authority with Some (a, b) => (a, String "/" b) | None => (authority, "") end in
      match parseAuthority authority with
      | Some (user, host) => withPath user host path
      | None => None
      end
    else withPath None "" rest.

Definition isCTL (c : ascii) : bool := (code c <? 32) || (code c =? 127).

Definition parseNoFragment (s : string) : option URL :=
  if negb (allChars (fun c => negb (isCTL c)) s) then None
  else if decide (s = "*") then Some (mkURL "" "" None "" "*" "" "")
  else match getScheme s with
       | None => None
       | Some (scheme, rest) => let (rest, query) := cutQuery rest in parseHierarchy scheme query rest
       end.

Definition Parse (rawURL : string) : result URL :=
  let '(u, frag) := match CutByte "#" rawURL with Some p => p | None => (rawURL, "") end in
  match parseNoFragment u, unescape encodeFragment frag with
  | Some url, Some f =>
      Val (mkURL (u_Scheme url) (u_Opaque url) (u_User url) (u_Host url) (u_Path url) (u_RawQuery url) f)
  | _, _ => Err (newError ("parse " +:+ rawURL))
  end.

Example parse_https : Parse "https://ghe.example.com:8443/a%20b?x=1#y"
  = Val (mkURL "https" "" None "ghe.example.com:8443" "/a b" "x=1" "y").
Proof. reflexivity. Qed.
Example parse_user : Parse "HTTP://u:p@[::1]:80" = Val (mkURL "http" "" (Some "u:p") "[::1]:80" "" "" "").
Proof. reflexivity. Qed.
Example parse_schemeless : Parse "ghe.example.com/x" = Val (mkURL "" "" None "" "ghe.example.com/x" "" "").
Proof. reflexivity. Qed.
Example parse_port_only : Parse "ghe.example.com:80" = Val (mkURL "ghe.example.com" "80" None "" "" "" "").
Proof. reflexivity. Qed.
Example parse_bad_port : Parse "http://h:x/" = Err (newError "parse http://h:x/").
Proof. reflexivity. Qed.

(** * Plain URLs

    A scheme in lower case, a host name with or without a port, and a path with
    nothing to unescape: what a configuration usually holds. *)

Definition schemeChar (c : ascii) : bool := isLower c || isDigit c || contains_char c "+-.".
Definition plainScheme (s : string) : bool :=
  match s with EmptyString => false | String c s' => isLower c && allChars schemeChar s' end.

Definition hostChar (c : ascii) : bool := isAlnum c || contains_char c "-._~:".
Definition plainHost (h : string) : bool :=
  allChars hostChar h && match LastCutByte ":" h with Some (_, port) => allChars isDigit port | None => true end.

Definition pathChar (c : ascii) : bool := negb (isCTL c) && negb (contains_char c "%?#").
Definition plainPath (p : string) : bool :=
  allChars pathChar p && match p with EmptyString => true | String c _ => bool_decide (c = "/"%char) end.

(** ** Lemmas on bytes *)

Ltac all_ascii := let c := fresh in intros c; destruct c as [[] [] [] [] [] [] [] []]; vm_compute; first [done | by intros].

Lemma allChars_app f (a b : string) : allChars f (a +:+ b) = allChars f a && allChars f b.
Proof. induction a as [|c a IH]; [done|]. cbn -[String.append]. change (String c a +:+ b) with (String c (a +:+ b)). simpl. rewrite IH. apply andb_assoc. Qed.

Lemma allChars_impl (f g : ascii -> bool) s :
  (forall c, f c = true -> g c = true) -> allChars f s = true -> allChars g s = true.
Proof. intros H. induction s as [|c s IH]; simpl; [done|]. intros [Hc Hs]%andb_prop. by rewrite H, IH. Qed.

Lemma allChars_contains f c s : f c = false -> allChars f s = true -> contains_char c s = false.
Proof.
  intros Hc. induction s as [|d s IH]; simpl; [done|]. intros [Hd Hs]%andb_prop. rewrite (IH Hs).
  case_bool_decide; [congruence|done].
Qed.

Lemma CutByte_none c s : contains_char c s = false -> CutByte c s = None.
Proof.
  induction s as [|d s IH]; simpl; [done|]. intros [Hd Hs]%orb_false_elim.
  apply bool_decide_eq_false in Hd. by rewrite decide_False, IH.
Qed.

Lemma CutByte_app c (a b : string) : contains_char c a = false -> CutByte c (a +:+ String c b) = Some (a, b).
Proof.
  induction a as [|d a IH]; simpl; [by rewrite decide_True|]. intros [Hd Hs]%orb_false_elim.
  apply bool_decide_eq_false in Hd. by rewrite decide_False, IH.
Qed.

Lemma LastCutByte_none c s : contains_char c s = false -> LastCutByte c s = None.
Proof.
  induction s as [|d s IH]; simpl; [done|]. intros [Hd Hs]%orb_false_elim.
  apply bool_decide_eq_false in Hd. by rewrite IH, decide_False.
Qed.

Lemma unescape_plain mode s :
  allChars (fun c => negb (bool_decide (c = "%"%char)) && negb (refusedByte mode c)) s = true ->
  unescape mode s = Some s.
Proof.
  induction s as [|c s IH]; simpl; [done|]. intros [[Hc Hr]%andb_prop Hs]%andb_prop.
  apply negb_true_iff in Hc, Hr. apply bool_decide_eq_false in Hc. rewrite decide_False, Hr by done. by rewrite IH.
Qed.

Lemma getScheme_plain s rest : plainScheme s = true -> getScheme (s +:+ String ":" rest) = Some (s, rest).
Proof.
  assert (forall s, allChars schemeChar s = true -> getSchemeFrom false (s +:+ String ":" rest) = Some (Some (s, rest)) /\
    lowerString s = s) as Hgo.
  { clear s. induction s as [|c s IH]; simpl; [done|]. intros [Hc Hs]%andb_prop. destruct (IH Hs) as [-> ->].
    split.
    - unfold schemeChar in Hc. destruct (isLower c), (isUpper c); simpl; try done. simpl in Hc. by rewrite Hc.
    - f_equal. revert c Hc. all_ascii. }
  destruct s as [|c s]; simpl; [done|]. intros [Hc Hs]%andb_prop. destruct (Hgo s Hs) as [H1 H2].
  unfold getScheme. simpl. rewrite Hc, H1. simpl. rewrite H2. do 3 f_equal. revert c Hc. all_ascii.
Qed.

Lemma parseAuthority_plain h : plainHost h = true -> parseAuthority h = Some (None, h).
Proof.
  intros [Hh Hp]%andb_prop. unfold parseAuthority.
  rewrite LastCutByte_none by (by apply (allChars_contains hostChar)). unfold parseHost.
  assert (String.prefix "[" h = false) as ->.
  { destruct h as [|c h]; [done|]. simpl in Hh. apply andb_prop in Hh as [Hc _].
    clear Hp. revert c Hc. all_ascii. }
  assert (unescape encodeHost h = Some h) as Hu.
  { apply unescape_plain. eapply allChars_impl; [|exact Hh]. all_ascii. }
  destruct (LastCutByte ":" h) as [[a b]|]; [|by rewrite Hu].
  change (validOptionalPort (":" +:+ b)) with (bool_decide (":"%char = ":"%char) && allChars isDigit b).
  by rewrite bool_decide_true, Hp, Hu by done.
Qed.

Lemma string_app_empty_r (s : string) : s +:+ "" = s.
Proof. induction s as [|c s IH]; [done|]. change (String c (s +:+ "") = String c s). by rewrite IH. Qed.

Lemma HasSuffix_app (a p : string) : HasSuffix (a +:+ p) p = true.
Proof.
  induction a as [|c a IH]; [destruct p; simpl; [done|by rewrite bool_decide_true]|].
  change (String c a +:+ p) with (String c (a +:+ p)). simpl. by rewrite IH, orb_true_r.
Qed.

Lemma HasSuffix_inv (s p : string) : HasSuffix s p = true -> exists a, s = a +:+ p.
Proof.
  induction s as [|c s IH]; simpl; intros [H|H]%orb_prop; try done; try (apply bool_decide_eq_true in H; subst; by exists "").
  destruct (IH H) as [a ->]. by exists (String c a).
Qed.

Lemma string_length_app (a b : string) : String.length (a +:+ b) = (String.length a + String.length b)%nat.
Proof. induction a as [|c a IH]; [done|]. change (String c a +:+ b) with (String c (a +:+ b)). simpl. by rewrite IH. Qed.

Lemma TrimSuffix_app (a p : string) : TrimSuffix (a +:+ p) p = a.
Proof.
  induction a as [|c a IH]; [destruct p; simpl; [done|by rewrite decide_True]|].
  change (String c a +:+ p) with (String c (a +:+ p)). simpl. rewrite decide_False; [by rewrite IH|].
  intros H%(f_equal String.length). simpl in H. rewrite string_length_app in H. lia.
Qed.

Lemma TrimSuffix_no (s p : string) : HasSuffix s p = false -> TrimSuffix s p = s.
Proof.
  induction s as [|c s IH]; simpl; intros [Hb Hs]%orb_false_elim; apply bool_decide_eq_false in Hb; rewrite decide_False by done;
    [done|by rewrite IH].
Qed.

Lemma HasSuffix_last (a : string) c d : c <> d -> HasSuffix (a +:+ String c "") (String d "") = false.
Proof.
  intros Hcd. induction a as [|x a IH]; simpl.
  - rewrite bool_decide_false by congruence. done.
  - rewrite IH, orb_false_r. apply bool_decide_eq_false. intros H%(f_equal String.length). simpl in H.
    rewrite string_length_app in H. simpl in H. lia.
Qed.

Lemma substring_full s : String.substring 0 (String.length s) s = s.
Proof. induction s as [|c s IH]; simpl; [done|]. by rewrite IH. Qed.

(** A plain URL is read as it is written. *)
Lemma Parse_plain s h p :
  plainScheme s = true -> plainHost h = true -> plainPath p = true ->
  Parse (s +:+ "://" +:+ h +:+ p) = Val (mkURL s "" None h p "" "").
Proof.
  intros Hs Hh [Hp Hslash]%andb_prop. pose proof Hh as [Hhc _]%andb_prop.
  assert (allChars pathChar (s +:+ "://" +:+ h +:+ p) = true) as Hall.
  { rewrite !allChars_app. rewrite Hp, !andb_true_r. apply andb_true_intro. split; [|apply andb_true_intro; split; [done|]].
    - destruct s as [|c s]; [done|]. simpl in Hs. apply andb_prop in Hs as [Hc Hs]. simpl. apply andb_true_intro. split.
      + revert c Hc. all_ascii.
      + eapply allChars_impl; [|exact Hs]. all_ascii.
    - eapply allChars_impl; [|exact Hhc]. all_ascii. }
  unfold Parse. rewrite CutByte_none by (by apply (allChars_contains pathChar)).
  assert (parseNoFragment (s +:+ "://" +:+ h +:+ p) = Some (mkURL s "" None h p "" "")) as ->; [|done].
  unfold parseNoFragment. rewrite (allChars_impl pathChar); [|all_ascii|done]. cbn [negb].
  rewrite decide_False; [|destruct s as [|? [|]]; [done|done|done]].
  change ("://" +:+ h +:+ p) with (String ":" ("//" +:+ h +:+ p)). rewrite getScheme_plain by done.
  assert (allChars pathChar ("//" +:+ h +:+ p) = true) as Hrest.
  { rewrite !allChars_app, Hp, andb_true_r. apply andb_true_intro. split; [done|]. eapply allChars_impl; [|exact Hhc]. all_ascii. }
  unfold cutQuery. rewrite CutByte_none by (by apply (allChars_contains pathChar)).
  unfold parseHierarchy. set (rest := h +:+ p). change ("//" +:+ rest) with (String "/" (String "/" rest)).
  assert (s <> "") as Hne by (by destruct s). cbn -[bool_decide parseAuthority]. rewrite bool_decide_true by done.
  cbn -[parseAuthority]. rewrite Nat.sub_0_r, substring_full.
  assert (match CutByte "/" rest with Some (a, b) => (a, String "/" b) | None => (rest, "") end = (h, p)) as ->.
  { assert (contains_char "/" h = false) as Hnh by (by apply (allChars_contains hostChar)).
    unfold rest. destruct p as [|c p].
    - rewrite CutByte_none; [|by rewrite string_app_empty_r]. by rewrite string_app_empty_r.
    - apply bool_decide_eq_true in Hslash as ->. by rewrite CutByte_app. }
  rewrite parseAuthority_plain by done. assert (String.prefix "" rest = true) as -> by (by destruct rest).
  rewrite unescape_plain; [done|]. eapply allChars_impl; [|exact Hp]. all_ascii.
Qed.
