(* ===== verification/ClientConfig.v ===== *)
(** * Configuring the GitHub client (src/github/github.go, [Config] and [NewClient])

    How the credentials choose a transport, and which URLs the client talks to.
    go-github and ghinstallation are the class [ClientLibs]; what the client
    relies on of them is [ClientLibsLaws]. *)

From stdpp Require Import base list gmap strings.
From Stdlib Require Import ZArith Lia Ascii String.
From S2P Require Import Prelude GoStrings Api GitHubClient Url.

Open Scope string_scope.
Open Scope Z_scope.

(** [Log] is carried by the transport; see [Metrics]. *)
Record Config := mkConfig {
  EnterpriseURL : string;
  AppID : Z;
  AppInstallationID : Z;
  AppPrivateKey : string;
  Token : string;
  cURL : string;
  UploadURL : string;
  BasicauthUsername : string;
  BasicauthPassword : string;
  RunnerGitHubURL : string
}.

(** Where the key of a GitHub App is read from. *)
Inductive privateKey := KeyFile (path : string) | KeyBytes (key : string).

Inductive credentials :=
| BasicAuthTransport (Username Password : string)
| TokenTransport (AccessToken : string)
| AppTransport (appID installationID : Z) (key : privateKey) (BaseURL : string).

(** The transport of a client, from the outside in. *)
Inductive roundTripper :=
| Authenticated (c : credentials)
| Cached (t : roundTripper)
| Logged (t : roundTripper)
| Measured (t : roundTripper).

Record Client := mkClient {
  BaseURL : URL;
  UploadBaseURL : URL;
  UserAgent : string;
  Transport : roundTripper;
  regTokens : tokens;
  GithubBaseURL : string
}.

(** What is called of the file system and of the libraries: [os.Stat] without
    an error, the checks of [ghinstallation.New] and [NewKeyFromFile] and the
    URL their transports start with, and the URLs of the clients that
    [github.NewClient] and [github.NewEnterpriseClient] make. *)
Class ClientLibs := {
  statOK : string -> bool;
  loadKey : Z -> Z -> privateKey -> option err;
  installationURL : string;
  defaultBaseURL : URL;
  defaultUploadURL : URL;
  NewEnterpriseClient : string -> string -> result (URL * URL)
}.

(** The URLs of a client, of an Enterprise client too, are documented to end in
    a slash. *)
Class ClientLibsLaws {L : ClientLibs} := {
  default_slash : HasSuffix (u_Path defaultBaseURL) "/" = true;
  default_upload_slash : HasSuffix (u_Path defaultUploadURL) "/" = true;
  enterprise_slash base upload b u :
    NewEnterpriseClient base upload = Val (b, u) ->
    HasSuffix (u_Path b) "/" = true /\ HasSuffix (u_Path u) "/" = true
}.

Definition withTrailingSlash (s : string) : string :=
  if HasSuffix s "/" then s else s +:+ "/".

Definition withPathSlash (u : URL) : URL :=
  mkURL (u_Scheme u) (u_Opaque u) (u_User u) (u_Host u) (withTrailingSlash (u_Path u)) (u_RawQuery u) (u_Fragment u).

Definition apiHost (host : string) : bool := String.prefix "api." host || Contains host ".api.".

Definition enterprisePath (host path : string) : string :=
  let path := withTrailingSlash path in
  if negb (HasSuffix path "/api/v3/") && negb (apiHost host) then path +:+ "api/v3/" else path.

Definition getEnterpriseApiUrl (baseURL : string) : result string :=
  match Parse baseURL with
  | Err e => Err e
  | Val baseEndpoint =>
      let path := enterprisePath (u_Host baseEndpoint) (u_Path baseEndpoint) in
      Val (u_Scheme baseEndpoint +:+ "://" +:+ u_Host baseEndpoint +:+ TrimSuffix path "/")
  end.

Section NewClient.
Context {L : ClientLibs}.

Definition appTransport (c : Config) : result credentials :=
  let key := if statOK (AppPrivateKey c) then KeyFile (AppPrivateKey c) else KeyBytes (AppPrivateKey c) in
  match loadKey (AppID c) (AppInstallationID c) key with
  | Some e =>
      Err (newError (match key with
                     | KeyFile path => "authentication failed: using private key at " +:+ path +:+ ": " +:+ err_msg e
                     | KeyBytes key =>
                         "authentication failed: using private key of size " +:+ FormatInt (Z.of_nat (String.length key))
                           +:+ " (" +:+ default "" (head (Split (ascii_of_nat 10) key)) +:+ "...): " +:+ err_msg e
                     end))
  | None =>
      if decide (EnterpriseURL c <> "") then
        match getEnterpriseApiUrl (EnterpriseURL c) with
        | Err e => Err (newError ("enterprise url incorrect: " +:+ err_msg e))
        | Val githubAPIURL => Val (AppTransport (AppID c) (AppInstallationID c) key githubAPIURL)
        end
      else Val (AppTransport (AppID c) (AppInstallationID c) key installationURL)
  end.

Definition transportOf (c : Config) : result credentials :=
  if decide (BasicauthUsername c <> "" /\ BasicauthPassword c <> "")
  then Val (BasicAuthTransport (BasicauthUsername c) (BasicauthPassword c))
  else if decide (Token c <> "") then Val (TokenTransport (Token c))
  else appTransport c.

(** A URL of the configuration, or the default of the library when empty. *)
Definition configuredURL (s : string) (dflt : URL) : result URL :=
  if decide (s <> "") then
    match Parse s with
    | Err e => Err (newError ("github client creation failed: " +:+ err_msg e))
    | Val u => Val (withPathSlash u)
    end
  else Val dflt.

(** (base URL, upload URL, the URL for runners) *)
Definition clientURLs (c : Config) : result (URL * URL * string) :=
  if decide (EnterpriseURL c <> "") then
    match NewEnterpriseClient (EnterpriseURL c) (EnterpriseURL c) with
    | Err e => Err (newError ("enterprise client creation failed: " +:+ err_msg e))
    | Val (b, u) => Val (b, u, u_Scheme b +:+ "://" +:+ u_Host b +:+ TrimSuffix (u_Path b) "api/v3/")
    end
  else
    match configuredURL (cURL c) defaultBaseURL with
    | Err e => Err e
    | Val b =>
        match configuredURL (UploadURL c) defaultUploadURL with
        | Err e => Err e
        | Val u =>
            Val (b, u, if decide (RunnerGitHubURL c <> "") then withTrailingSlash (RunnerGitHubURL c)
                       else "https://github.com/")
        end
    end.

Definition NewClient (c : Config) : result Client :=
  match transportOf c with
  | Err e => Err e
  | Val credentials =>
      let httpClient := Measured (Logged (Cached (Authenticated credentials))) in
      match clientURLs c with
      | Err e => Err e
      | Val (b, u, githubBaseURL) =>
          Val {| BaseURL := b; UploadBaseURL := u; UserAgent := "actions-runner-controller";
                 Transport := httpClient; regTokens := ∅; GithubBaseURL := githubBaseURL |}
      end
  end.

End NewClient.

(** * Properties *)

Lemma withTrailingSlash_suffix s : HasSuffix (withTrailingSlash s) "/" = true.
Proof. unfold withTrailingSlash. destruct (HasSuffix s "/") eqn:H; [done|]. apply HasSuffix_app. Qed.

Lemma suffix_slash (s p : string) : HasSuffix s (p +:+ "/") = true -> HasSuffix s "/" = true.
Proof. intros [a ->]%HasSuffix_inv. rewrite <- string_app_assoc. apply HasSuffix_app. Qed.

(** The path that requests go under, without its trailing slash. *)
Definition apiPath (host path : string) : string := TrimSuffix (enterprisePath host path) "/".

(** The path ends in a slash before that is trimmed. *)
Lemma enterprisePath_slash host path : enterprisePath host path = apiPath host path +:+ "/".
Proof.
  assert (HasSuffix (enterprisePath host path) "/" = true) as [a Ha]%HasSuffix_inv.
  { unfold enterprisePath. destruct (_ && _); [|apply withTrailingSlash_suffix].
    apply (suffix_slash _ "api/v3"), HasSuffix_app. }
  unfold apiPath. by rewrite Ha, TrimSuffix_app.
Qed.

Lemma v3_slash (r : string) : r +:+ "/api/v3/" = (r +:+ "/api/v3") +:+ "/".
Proof. by rewrite string_app_assoc. Qed.

Lemma slash_inj (a b : string) : a +:+ "/" = b +:+ "/" -> a = b.
Proof. intros H%(f_equal (fun x => TrimSuffix x "/")). by rewrite !TrimSuffix_app in H. Qed.

Lemma apiPath_cases host path :
  (exists r, apiPath host path = r +:+ "/api/v3") \/
  apiHost host = true /\ apiPath host path +:+ "/" = withTrailingSlash path.
Proof.
  pose proof (enterprisePath_slash host path) as He. unfold enterprisePath in He.
  destruct (HasSuffix (withTrailingSlash path) "/api/v3/") eqn:Hs; simpl in He.
  { apply HasSuffix_inv in Hs as [r Hr]. rewrite Hr, v3_slash in He. left. exists r. symmetry. by apply slash_inj. }
  destruct (apiHost host); simpl in He; [by right|].
  pose proof (withTrailingSlash_suffix path) as [r Hr]%HasSuffix_inv. rewrite Hr, string_app_assoc in He.
  change ("/" +:+ "api/v3/") with "/api/v3/" in He. rewrite v3_slash in He. left. exists r. symmetry. by apply slash_inj.
Qed.

Lemma apiPath_v3 host (r : string) : apiPath host (r +:+ "/api/v3") = r +:+ "/api/v3".
Proof.
  unfold apiPath, enterprisePath, withTrailingSlash.
  replace (HasSuffix (r +:+ "/api/v3") "/") with false
    by (symmetry; change "/api/v3" with ("/api/v" +:+ "3"); rewrite <- string_app_assoc; by apply HasSuffix_last).
  rewrite <- v3_slash, HasSuffix_app. simpl. by rewrite v3_slash, TrimSuffix_app.
Qed.

Lemma apiPath_idem host path :
  (apiHost host = true -> HasSuffix path "//" = false) ->
  apiPath host (apiPath host path) = apiPath host path.
Proof.
  intros Hd. destruct (apiPath_cases host path) as [[r ->]|[Ha He]]; [apply apiPath_v3|].
  set (q := apiPath host path) in *. unfold apiPath, enterprisePath. rewrite Ha, andb_false_r.
  assert (withTrailingSlash q = q +:+ "/") as ->; [|apply TrimSuffix_app]. unfold withTrailingSlash at 1.
  destruct (HasSuffix q "/") eqn:Hq; [|done]. exfalso. apply HasSuffix_inv in Hq as [r Hr]. rewrite Hr in He.
  unfold withTrailingSlash in He. destruct (HasSuffix path "/") eqn:Hp.
  - rewrite <- He, string_app_assoc in Hd. change ("/" +:+ "/") with "//" in Hd. rewrite HasSuffix_app in Hd. by specialize (Hd Ha).
  - apply slash_inj in He. subst path. by rewrite HasSuffix_app in Hp.
Qed.

Lemma apiPath_plain host path : plainPath path = true -> plainPath (apiPath host path) = true.
Proof.
  intros [Hc Hs]%andb_prop.
  assert (allChars pathChar (enterprisePath host path) = true /\
    match enterprisePath host path with EmptyString => False | String c _ => c = "/"%char end) as [H1 H2].
  { unfold enterprisePath, withTrailingSlash.
    assert (allChars pathChar (if HasSuffix path "/" then path else path +:+ "/") = true) as Hw.
    { destruct (HasSuffix path "/"); [done|]. rewrite allChars_app. by rewrite Hc. }
    split.
    - destruct (_ && _); [|done]. rewrite allChars_app. by rewrite Hw.
    - destruct path as [|c path]; [by cbn; destruct (apiHost host)|]. apply bool_decide_eq_true in Hs as ->.
      destruct (HasSuffix (String "/" path) "/"); destruct (_ && _); done. }
  rewrite enterprisePath_slash, allChars_app in H1. apply andb_prop in H1 as [H1 _]. rewrite enterprisePath_slash in H2.
  unfold plainPath. rewrite H1. destruct (apiPath host path) as [|c q]; [done|]. simpl in *. by rewrite H2.
Qed.

(** The API URL of a GitHub Enterprise server given by a plain URL: the scheme
    and the host are kept; the path ends in [/api/v3], with no trailing slash,
    unless the host is an API host; and configuring the result again gives the
    same URL, unless the path of an API host ends in two slashes. *)
Theorem getEnterpriseApiUrl_stable s h p :
  plainScheme s = true -> plainHost h = true -> plainPath p = true ->
  (apiHost h = true -> HasSuffix p "//" = false) ->
  let url := s +:+ "://" +:+ h +:+ apiPath h p in
  getEnterpriseApiUrl (s +:+ "://" +:+ h +:+ p) = Val url /\
  getEnterpriseApiUrl url = Val url /\
  (apiHost h = false -> HasSuffix url "/api/v3" = true) /\
  (apiHost h = true -> apiPath h p +:+ "/" = withTrailingSlash p).
Proof.
  intros Hs Hh Hp Hd url. unfold getEnterpriseApiUrl, url.
  rewrite (Parse_plain s h p), (Parse_plain s h (apiPath h p)) by eauto using apiPath_plain. cbn [u_Scheme u_Host u_Path].
  fold (apiPath h (apiPath h p)) (apiPath h p). rewrite apiPath_idem by done. split_and!; [done|done| |].
  - intros Ha. destruct (apiPath_cases h p) as [[r ->]|[Ha' _]]; [|congruence].
    rewrite <- !string_app_assoc. apply HasSuffix_app.
  - intros Ha. rewrite <- enterprisePath_slash. unfold enterprisePath. by rewrite Ha, andb_false_r.
Qed.

Section NewClientFacts.
Context {L : ClientLibs}.

Lemma configuredURL_slash s dflt u :
  HasSuffix (u_Path dflt) "/" = true -> configuredURL s dflt = Val u -> HasSuffix (u_Path u) "/" = true.
Proof.
  intros Hd. unfold configuredURL. case_decide; [|by intros [= <-]]. destruct (Parse s); intros [= <-].
  apply withTrailingSlash_suffix.
Qed.

(** The credentials of a configuration: basic authentication if both its parts
    are given, else a token if there is one, else those of the GitHub App, with
    tokens from the configured server. *)
Definition credentialsOf (c : Config) (cr : credentials) : Prop :=
  match cr with
  | BasicAuthTransport u p => u = BasicauthUsername c /\ p = BasicauthPassword c /\ u <> "" /\ p <> ""
  | TokenTransport t =>
      t = Token c /\ t <> "" /\ (BasicauthUsername c = "" \/ BasicauthPassword c = "")
  | AppTransport app installation key url =>
      Token c = "" /\ (BasicauthUsername c = "" \/ BasicauthPassword c = "") /\
      app = AppID c /\ installation = AppInstallationID c /\ loadKey app installation key = None /\
      key = (if statOK (AppPrivateKey c) then KeyFile (AppPrivateKey c) else KeyBytes (AppPrivateKey c)) /\
      (if decide (EnterpriseURL c = "") then url = installationURL
       else getEnterpriseApiUrl (EnterpriseURL c) = Val url)
  end.

(** Requests carry the credentials of the configuration and of one kind only,
    and they pass the metrics, the log and the cache, in this order. *)
Lemma NewClient_credentials c cl :
  NewClient c = Val cl ->
  exists cr, Transport cl = Measured (Logged (Cached (Authenticated cr))) /\ credentialsOf c cr.
Proof.
  unfold NewClient. destruct (transportOf c) as [cr|] eqn:Ht; [|done]. destruct (clientURLs c) as [[[b u] g]|]; intros [= <-].
  exists cr. split; [done|]. revert Ht. unfold transportOf, credentialsOf. case_decide as Hb; [intros [= <-]; naive_solver|].
  assert (BasicauthUsername c = "" \/ BasicauthPassword c = "") as Hb'.
  { destruct (decide (BasicauthUsername c = "")), (decide (BasicauthPassword c = "")); auto. exfalso. by apply Hb. }
  case_decide as Htok; [by intros [= <-]|]. unfold appTransport.
  set (key := if statOK _ then _ else _). destruct (loadKey _ _ key) eqn:Hk; [done|].
  destruct (decide (EnterpriseURL c = "")) as [He|He].
  - rewrite decide_False by naive_solver. intros [= <-]. by split_and!.
  - rewrite decide_True by done. destruct (getEnterpriseApiUrl _) eqn:Hg; intros [= <-].
    by split_and!.
Qed.

(** C18: Every client is well formed: the URLs that requests are made relative to
    end in a slash, without which go-github refuses to make a request, and so
    does the URL handed to runners unless an API host's path says otherwise;
    the user agent is set and no token is cached yet; and requests carry the
    credentials of the configuration, of one kind only, past the metrics, the
    log and the cache. *)
Theorem NewClient_wellformed {LL : ClientLibsLaws} c cl :
  NewClient c = Val cl ->
  HasSuffix (u_Path (BaseURL cl)) "/" = true /\ HasSuffix (u_Path (UploadBaseURL cl)) "/" = true /\
  (EnterpriseURL c = "" \/ HasSuffix (u_Path (BaseURL cl)) "/api/v3/" = true \/
     HasSuffix (u_Path (BaseURL cl)) "api/v3/" = false -> HasSuffix (GithubBaseURL cl) "/" = true) /\
  UserAgent cl <> "" /\ regTokens cl = ∅ /\
  exists cr, Transport cl = Measured (Logged (Cached (Authenticated cr))) /\ credentialsOf c cr.
Proof.
  intros Hcl. pose proof (NewClient_credentials c cl Hcl) as Hcr. revert Hcl Hcr.
  unfold NewClient. destruct (transportOf c); [|done]. unfold clientURLs. case_decide as He.
  - destruct (NewEnterpriseClient _ _) as [[b u]|] eqn:HE; intros [= <-] Hcr. simpl.
    apply enterprise_slash in HE as [Hb Hu]. split_and!; [done|done| |done|done|done].
    intros [?|Hor]; [done|].
    assert (HasSuffix (TrimSuffix (u_Path b) "api/v3/") "/" = true) as [r ->]%HasSuffix_inv.
    { destruct Hor as [Hv|Hv].
      - apply HasSuffix_inv in Hv as [r ->]. change "/api/v3/" with ("/" +:+ "api/v3/").
        rewrite <- string_app_assoc, TrimSuffix_app. apply HasSuffix_app.
      - by rewrite TrimSuffix_no. }
    rewrite <- !string_app_assoc. apply HasSuffix_app.
  - destruct (configuredURL (cURL c) _) as [b|] eqn:Hb; [|done].
    destruct (configuredURL (UploadURL c) _) as [u|] eqn:Hu; intros [= <-] Hcr. simpl.
    apply configuredURL_slash in Hb; [|apply default_slash]. apply configuredURL_slash in Hu; [|apply default_upload_slash].
    split_and!; [done|done| |done|done|done]. intros _. case_decide; [apply withTrailingSlash_suffix|done].
Qed.

End NewClientFacts.
