(* ===== verification/Metrics.v ===== *)
(** * Metrics and logging (src/github/metrics, src/controllers/metrics, src/logging)

    The transports that [NewClient] stacks, as functions on requests, and the
    gauges that they and the controllers set.  net/http's own transport, the
    cache, and the transports of oauth2 and ghinstallation are the class
    [HTTPLibs]. *)

From stdpp Require Import base list gmap strings.
From Stdlib Require Import ZArith Lia Ascii String.
From S2P Require Import Prelude GoStrings Api Calendar Floats Url ClientConfig.

Open Scope string_scope.
Open Scope Z_scope.

(** ** [net/http] *)

(** [textproto.CanonicalMIMEHeaderKey], for keys made of letters, digits and
    hyphens: upper case at the start and after a hyphen, lower case elsewhere. *)
Definition upper (c : ascii) : ascii := if isLower c then ascii_of_N (N_of_ascii c - 32) else c.

Fixpoint canonicalFrom (up : bool) (s : string) : string :=
  match s with
  | EmptyString => ""
  | String c s => String (if up then upper c else lower c) (canonicalFrom (bool_decide (c = "-"%char)) s)
  end.
Definition CanonicalHeaderKey : string -> string := canonicalFrom true.

(** [http.Header]; [Get] is the first value, "" if there is none. *)
Definition Header : Type := gmap string (list string).
Definition headerGet (h : Header) (key : string) : string :=
  default "" (head (default [] (h !! CanonicalHeaderKey key))).
Definition headerSet (h : Header) (key v : string) : Header := <[CanonicalHeaderKey key := [v]]> h.

Record Request := mkRequest { rq_Method : string; rq_URL : string; rq_Header : Header; rq_Body : string }.

(** What can be read of a body, and how reading it ends. *)
Record Body := mkBody { bd_Content : string; bd_Err : option err }.
Record Response := mkResponse { rp_StatusCode : Z; rp_Header : Header; rp_Body : Body }.

(** ** [encoding/base64] *)

Definition base64Alphabet : string := "ABCDEFGHIJKLMNOPQRSTUVWXYZabcdefghijklmnopqrstuvwxyz0123456789+/".
Definition base64Digit (n : Z) : ascii := default "="%char (String.get (Z.to_nat n) base64Alphabet).
Definition sextet (n shift : Z) : ascii := base64Digit (Z.land (Z.shiftr n shift) 63).

Fixpoint base64Encode (s : string) : string :=
  match s with
  | EmptyString => ""
  | String a EmptyString =>
      let n := Z.shiftl (code a) 16 in
      String (sextet n 18) (String (sextet n 12) "==")
  | String a (String b EmptyString) =>
      let n := Z.lor (Z.shiftl (code a) 16) (Z.shiftl (code b) 8) in
      String (sextet n 18) (String (sextet n 12) (String (sextet n 6) "="))
  | String a (String b (String c s)) =>
      let n := Z.lor (Z.lor (Z.shiftl (code a) 16) (Z.shiftl (code b) 8)) (code c) in
      String (sextet n 18) (String (sextet n 12) (String (sextet n 6) (String (sextet n 0) (base64Encode s))))
  end.

Example base64_user : base64Encode "Aladdin:open sesame" = "QWxhZGRpbjpvcGVuIHNlc2FtZQ==".
Proof. reflexivity. Qed.

(** ** Gauges *)

Record gauges := mkGauges { metricRateLimit : float64; metricRateLimitRemaining : float64 }.

Definition headerRateLimit : string := "X-RateLimit-Limit".
Definition headerRateLimitRemaining : string := "X-RateLimit-Remaining".

Definition parseResponse (resp : Response) (g : gauges) : gauges :=
  let g := match ParseInt (headerGet (rp_Header resp) headerRateLimit) with
           | Some rateLimit => mkGauges (ofInt rateLimit) (metricRateLimitRemaining g)
           | None => g
           end in
  match ParseInt (headerGet (rp_Header resp) headerRateLimitRemaining) with
  | Some remaining => mkGauges (metricRateLimit g) (ofInt remaining)
  | None => g
  end.

(** ** The log of requests *)

Inductive logLine :=
| CopyFailed (e : err)
| RoundTripLine (method : string) (requestHeader : Header) (statusCode : Z) (responseHeader : Header) (responseBody : string)
| SeenLine (from_cache : bool) (method url : string) (ratelimit_remaining : option string).

(** Which verbosities a logger has enabled. *)
Definition Logger : Type := Z -> bool.

Definition XFromCache : string := "X-From-Cache".

Definition logAt (log : Logger) (v : Z) (line : logLine) : list logLine := if log v then [line] else [].

(** [Transport.log]: the response may get another body. *)
Definition logResponse (log : option Logger) (req : Request) (resp : Response) : Response * list logLine :=
  match log with
  | None => (resp, [])
  | Some log =>
      let marked := bool_decide (headerGet (rp_Header resp) XFromCache = "1") in
      let remaining := if marked then None else Some (headerGet (rp_Header resp) headerRateLimitRemaining) in
      let seen := logAt log 3 (SeenLine marked (rq_Method req) (rq_URL req) remaining) in
      if log 4 then
        let buf := bd_Content (rp_Body resp) in
        let failed := match bd_Err (rp_Body resp) with Some e => logAt log 3 (CopyFailed e) | None => [] end in
        (mkResponse (rp_StatusCode resp) (rp_Header resp) (mkBody buf None),
         (failed ++ [RoundTripLine (rq_Method req) (rq_Header req) (rp_StatusCode resp) (rp_Header resp) buf] ++ seen)%list)
      else (resp, seen)
  end.

(** ** The transports *)

Record observations := mkObs { ob_gauges : gauges; ob_lines : list logLine }.

Section RoundTrip.
Context {W : Type}.

Definition world : Type := W * observations.

(** The response and the error of a round trip; either may be missing. *)
Definition exchange : Type := option Response * option err.
Definition transport : Type := Request -> world -> exchange * world.

Class HTTPLibs := {
  DefaultTransport : transport;
  oauth2Transport : string -> transport;
  installationTransport : Z -> Z -> privateKey -> string -> transport;
  httpcacheTransport : transport -> transport
}.
Context {H : HTTPLibs} (log : option Logger).

Definition basicAuthRoundTrip (username password : string) : transport := fun req w =>
  let header := headerSet (rq_Header req) "Authorization" ("Basic " +:+ base64Encode (username +:+ ":" +:+ password)) in
  DefaultTransport (mkRequest (rq_Method req) (rq_URL req) header (rq_Body req)) w.

Definition loggingRoundTrip (t : transport) : transport := fun req w =>
  let '((resp, e), (w, o)) := t req w in
  match resp with
  | None => ((None, e), (w, o))
  | Some resp =>
      let (resp, lines) := logResponse log req resp in
      ((Some resp, e), (w, mkObs (ob_gauges o) (ob_lines o ++ lines)%list))
  end.

Definition metricsRoundTrip (t : transport) : transport := fun req w =>
  let '((resp, e), (w, o)) := t req w in
  match resp with
  | None => ((None, e), (w, o))
  | Some resp => ((Some resp, e), (w, mkObs (parseResponse resp (ob_gauges o)) (ob_lines o)))
  end.

Definition authenticatedRoundTrip (c : credentials) : transport :=
  match c with
  | BasicAuthTransport username password => basicAuthRoundTrip username password
  | TokenTransport token => oauth2Transport token
  | AppTransport app installation key url => installationTransport app installation key url
  end.

Fixpoint RoundTrip (t : roundTripper) : transport :=
  match t with
  | Authenticated c => authenticatedRoundTrip c
  | Cached t => httpcacheTransport (RoundTrip t)
  | Logged t => loggingRoundTrip (RoundTrip t)
  | Measured t => metricsRoundTrip (RoundTrip t)
  end.

End RoundTrip.

(** ** Gauges of the custom resources *)

(** A gauge per name and namespace. *)
Definition GaugeVec : Type := gmap (string * string) float64.

Inductive collector :=
| runnerDeploymentReplicas
| runnerSetReplicas
| horizontalRunnerAutoscalerMinReplicas
| horizontalRunnerAutoscalerMaxReplicas
| horizontalRunnerAutoscalerDesiredReplicas.
#[global] Instance collector_eq_dec : EqDecision collector.
Proof. solve_decision. Defined.

Definition metricName (c : collector) : string :=
  match c with
  | runnerDeploymentReplicas => "runnerdeployment_spec_replicas"
  | runnerSetReplicas => "runnerset_spec_replicas"
  | horizontalRunnerAutoscalerMinReplicas => "horizontalrunnerautoscaler_spec_min_replicas"
  | horizontalRunnerAutoscalerMaxReplicas => "horizontalrunnerautoscaler_spec_max_replicas"
  | horizontalRunnerAutoscalerDesiredReplicas => "horizontalrunnerautoscaler_status_desired_replicas"
  end.

Definition runnerDeploymentMetrics : list collector := [runnerDeploymentReplicas].
Definition runnerSetMetrics : list collector := [runnerSetReplicas].
Definition horizontalRunnerAutoscalerMetrics : list collector :=
  [horizontalRunnerAutoscalerMinReplicas; horizontalRunnerAutoscalerMaxReplicas; horizontalRunnerAutoscalerDesiredReplicas].

(** The collectors that [init] registers. *)
Definition registeredCollectors : list collector := (runnerDeploymentMetrics ++ horizontalRunnerAutoscalerMetrics)%list.

Definition metrics : Type := collector -> GaugeVec.

Definition setGauge (m : metrics) (c : collector) (o : ObjectMeta) (v : option Z) : metrics :=
  match v with
  | Some v => fun c' => if decide (c' = c) then <[(om_Name o, om_Namespace o) := ofInt v]> (m c') else m c'
  | None => m
  end.

Definition SetHorizontalRunnerAutoscalerSpec (o : ObjectMeta) (spec : HorizontalRunnerAutoscalerSpec) (m : metrics) : metrics :=
  let m := setGauge m horizontalRunnerAutoscalerMaxReplicas o (hras_MaxReplicas spec) in
  setGauge m horizontalRunnerAutoscalerMinReplicas o (hras_MinReplicas spec).
Definition SetHorizontalRunnerAutoscalerStatus (o : ObjectMeta) (status : HorizontalRunnerAutoscalerStatus) (m : metrics) : metrics :=
  setGauge m horizontalRunnerAutoscalerDesiredReplicas o (hrast_DesiredReplicas status).
Definition SetRunnerDeployment (rd : RunnerDeployment) (m : metrics) : metrics :=
  setGauge m runnerDeploymentReplicas (rd_Meta rd) (rds_Replicas (rd_Spec rd)).
Definition SetRunnerSet (rs : RunnerSet) (m : metrics) : metrics :=
  setGauge m runnerSetReplicas (rs_Meta rs) (ss_Replicas (rss_StatefulSetSpec (rs_Spec rs))).

(** What a scrape of the registry sees. *)
Definition scrape (m : metrics) : list (string * GaugeVec) := map (fun c => (metricName c, m c)) registeredCollectors.

(** ** Loggers *)

(** The options of a zap logger that are set: [None] leaves the default level. *)
Record zapOptions := mkZapOptions { zo_Development : bool; zo_Level : option Z }.

Definition DebugLevel : Z := -1.
Definition InfoLevel : Z := 0.
Definition WarnLevel : Z := 1.
Definition ErrorLevel : Z := 2.

(** [strconv.ParseInt(s, 10, 8)] *)
Definition ParseInt8 (s : string) : option Z :=
  match ParseInt s with
  | Some z => if (-128 <=? z) && (z <=? 127) then Some z else None
  | None => None
  end.

(** [logging.NewLogger]; [None] exits the process. *)
Definition NewLogger (logLevel : string) : option zapOptions :=
  if decide (logLevel = "debug") then Some (mkZapOptions true (Some DebugLevel))
  else if decide (logLevel = "info") then Some (mkZapOptions false (Some InfoLevel))
  else if decide (logLevel = "warn") then Some (mkZapOptions false (Some WarnLevel))
  else if decide (logLevel = "error") then Some (mkZapOptions false (Some ErrorLevel))
  else option_map (fun l => mkZapOptions false (Some l)) (ParseInt8 logLevel).

(** [newZapLogger] of the hook delivery forwarder, which takes any text. *)
Definition newZapLogger (logLevel : string) : zapOptions :=
  if decide (logLevel = "debug") then mkZapOptions true None
  else if decide (logLevel = "info") then mkZapOptions false (Some InfoLevel)
  else if decide (logLevel = "warn") then mkZapOptions false (Some WarnLevel)
  else if decide (logLevel = "error") then mkZapOptions false (Some ErrorLevel)
  else mkZapOptions false None.

(** * Properties *)

Section RoundTripFacts.
Context {W : Type} {H : HTTPLibs (W := W)} (log : option Logger).

(** What the caller may see of a response that passed the log and the metrics. *)
Definition sameResponse (r r' : Response) : Prop :=
  rp_StatusCode r' = rp_StatusCode r /\ rp_Header r' = rp_Header r /\
  bd_Content (rp_Body r') = bd_Content (rp_Body r) /\
  (bd_Err (rp_Body r') = bd_Err (rp_Body r) \/
   bd_Err (rp_Body r') = None /\ exists l, log = Some l /\ l 4 = true).

Lemma logResponse_same req r : sameResponse r (fst (logResponse log req r)).
Proof.
  unfold logResponse, sameResponse. destruct log as [l|]; [|by split_and!; auto].
  destruct (l 4) eqn:H4; simpl; split_and!; auto. right. eauto.
Qed.

(** A request through the transport of a client is one request to the cache,
    and the transport is transparent: the status, the headers, the content and
    the error come back as they are, but a body that is logged loses the error
    its reading ended with.  The rate limit gauges follow the response. *)
Theorem client_transport_transparent {L : ClientLibs} c cl req (w : W) o :
  NewClient c = Val cl ->
  exists cr, transportOf c = Val cr /\
    let '((resp, e), (w1, o1)) := httpcacheTransport (authenticatedRoundTrip cr) req (w, o) in
    exists resp' o', RoundTrip log (Transport cl) req (w, o) = ((resp', e), (w1, o')) /\
      match resp, resp' with
      | None, None => o' = o1
      | Some r, Some r' =>
          sameResponse r r' /\ ob_gauges o' = parseResponse r (ob_gauges o1) /\
          exists lines, ob_lines o' = (ob_lines o1 ++ lines)%list
      | _, _ => False
      end.
Proof.
  unfold NewClient. destruct (transportOf c) as [cr|]; [|done]. destruct (clientURLs c) as [[[b u] g]|]; intros [= <-].
  exists cr. split; [done|]. cbn [Transport RoundTrip]. unfold metricsRoundTrip, loggingRoundTrip.
  destruct (httpcacheTransport _ _ _) as [[[r|] e] [w1 o1]]; [|by do 2 eexists].
  pose proof (logResponse_same req r) as Hs. destruct (logResponse log req r) as [r' lines]. simpl in Hs.
  do 2 eexists. split; [reflexivity|]. simpl. split_and!; [done| |by eexists].
  destruct Hs as (_ & Hh & _). unfold parseResponse. by rewrite Hh.
Qed.

End RoundTripFacts.

(** A response out of the cache sets the gauge to the limit that remained when
    the response was stored: the log leaves that value out as outdated, the
    metrics take it. *)
Theorem cached_response_sets_gauge (l : Logger) req r g n :
  headerGet (rp_Header r) XFromCache = "1" ->
  ParseInt (headerGet (rp_Header r) headerRateLimitRemaining) = Some n ->
  (forall c m u rem, SeenLine c m u rem ∈ snd (logResponse (Some l) req r) -> rem = None) /\
  metricRateLimitRemaining (parseResponse (fst (logResponse (Some l) req r)) g) = ofInt n.
Proof.
  intros Hc Hn. unfold logResponse. rewrite Hc, bool_decide_true by done. split.
  - intros c m u rem. unfold logAt. destruct (l 3), (l 4); simpl; try destruct (bd_Err _); simpl; intros Hin;
      repeat (apply elem_of_cons in Hin as [Hin|Hin]; [by simplify_eq|]); by apply not_elem_of_nil in Hin.
  - destruct (l 4); unfold parseResponse; simpl; by rewrite Hn.
Qed.

(** With the log at its fourth level, a response cut short reads as a complete
    one. *)
Theorem logged_body_loses_error (l : Logger) req r :
  l 4 = true -> rp_Body (fst (logResponse (Some l) req r)) = mkBody (bd_Content (rp_Body r)) None.
Proof. intros H4. unfold logResponse. by rewrite H4. Qed.

(** The replicas of a RunnerSet are recorded, but no scrape shows them. *)
Theorem runnerset_gauge_unseen rs m :
  scrape (SetRunnerSet rs m) = scrape m.
Proof. unfold scrape, SetRunnerSet, setGauge. by destruct (ss_Replicas _). Qed.

(** A level is one of the four names or a decimal number that fits in eight
    bits, which is taken as it is; the process exits on anything else. *)
Theorem NewLogger_levels z :
  - 2 ^ 63 <= z < 2 ^ 63 ->
  NewLogger (FormatInt z) = (if (-128 <=? z) && (z <=? 127) then Some (mkZapOptions false (Some z)) else None) /\
  (forall s o, NewLogger s = Some o -> exists l, zo_Level o = Some l /\ -128 <= l <= 127).
Proof.
  intros Hz. split.
  - unfold NewLogger, ParseInt8.
    assert (forall s, ParseInt s = None -> FormatInt z <> s) as Hne.
    { intros s Hs <-. rewrite ParseInt_FormatInt in Hs by done. done. }
    rewrite !decide_False by (by apply Hne). rewrite ParseInt_FormatInt by done. by destruct (_ && _).
  - intros s o. unfold NewLogger, ParseInt8. repeat case_decide; [intros [= <-]; eexists; split; [reflexivity|]; simpl; unfold DebugLevel, InfoLevel, WarnLevel, ErrorLevel; lia..|].
    destruct (ParseInt s) as [l|]; [|done]. destruct (_ && _) eqn:Hr; intros [= <-].
    exists l. split; [done|]. apply andb_prop in Hr as [Hr1 Hr2]. lia.
Qed.
