(* ===== verification/Flags.v ===== *)
(** * Go's [flag] package, as the programs use it

    A flag is a name and what setting it does to the program's options; the
    parsers are those of [strconv] and [time] that the flag types call. *)

From stdpp Require Import base list gmap strings pretty.
From Stdlib Require Import ZArith Lia Ascii String.
From S2P Require Import Prelude GoStrings Calendar Floats Url.

Open Scope string_scope.
Open Scope Z_scope.

(** ** Values *)

(** [strconv.ParseBool] *)
Definition ParseBool (s : string) : option bool :=
  if bool_decide (s ∈ ["1"; "t"; "T"; "TRUE"; "true"; "True"]) then Some true
  else if bool_decide (s ∈ ["0"; "f"; "F"; "FALSE"; "false"; "False"]) then Some false
  else None.

(** [strconv.ParseInt(s, 0, 64)]: the base is read off the prefix, and
    underscores are allowed between digits. *)
Fixpoint digitsIn (base : Z) (acc : Z) (s : string) : option Z :=
  match s with
  | EmptyString => Some acc
  | String c s =>
      match hexDigitOf c with
      | Some d => if d <? base then digitsIn base (acc * base + d) s else None
      | None => None
      end
  end.

Definition nonEmptyDigits (base : Z) (s : string) : option Z :=
  match dropUnderscores s with EmptyString => None | s => digitsIn base 0 s end.

(** [underscoreOK] for integers: a prefix of two characters counts as a digit. *)
Definition intUnderscoreOK (s : string) : bool :=
  match lowerString s with
  | String "0" (String "x" s) => underscoresBetween hexDigitOf s SawDigit
  | String "0" (String "b" s) | String "0" (String "o" s) => underscoresBetween digitOf s SawDigit
  | s => underscoresBetween digitOf s SawOther
  end.

Definition unsignedBase0 (s : string) : option Z :=
  if negb (intUnderscoreOK s) then None
  else match lowerString s with
       | EmptyString => None
       | String "0" (String "x" s) => nonEmptyDigits 16 s
       | String "0" (String "b" s) => nonEmptyDigits 2 s
       | String "0" (String "o" s) => nonEmptyDigits 8 s
       | String "0" EmptyString => Some 0
       | String "0" s => nonEmptyDigits 8 s
       | s => nonEmptyDigits 10 s
       end.

Definition ParseInt64 (s : string) : option Z :=
  let signed :=
    match s with
    | String "+" s => unsignedBase0 s
    | String "-" s => option_map Z.opp (unsignedBase0 s)
    | s => unsignedBase0 s
    end in
  match signed with
  | Some z => if (- 2 ^ 63 <=? z) && (z <? 2 ^ 63) then Some z else None
  | None => None
  end.

Example ParseInt64_bases : map ParseInt64 ["10"; "-0x1F"; "0b101"; "017"; "1_000"; "1__0"; "0x"; ""; "9223372036854775808"]
  = [Some 10; Some (-31); Some 5; Some 15; Some 1000; None; None; None; None].
Proof. reflexivity. Qed.

(** ** [time.ParseDuration] *)

Definition maxInt64 : Z := 2 ^ 63 - 1.

(** [leadingInt]: the value and the rest; [None] on overflow. *)
Fixpoint leadingInt (x : Z) (s : string) : option (Z * string) :=
  match s with
  | EmptyString => Some (x, "")
  | String c s' =>
      match digit c with
      | Some d => if (maxInt64 / 10 <? x) || (maxInt64 <? x * 10 + d) then None else leadingInt (x * 10 + d) s'
      | None => Some (x, s)
      end
  end.

(** [leadingFraction]: the digits that fit, the scale and the rest. *)
Fixpoint leadingFraction (x scale : Z) (overflow : bool) (s : string) : Z * Z * string :=
  match s with
  | EmptyString => (x, scale, "")
  | String c s' =>
      match digit c with
      | Some d =>
          if overflow || (maxInt64 / 10 <? x) || (maxInt64 <? x * 10 + d) then leadingFraction x scale true s'
          else leadingFraction (x * 10 + d) (scale * 10) false s'
      | None => (x, scale, s)
      end
  end.

(** The unit: up to the next digit or point. *)
Fixpoint unitName (s : string) : string * string :=
  match s with
  | EmptyString => ("", "")
  | String c s' =>
      if bool_decide (c = "."%char) || bool_decide (is_Some (digit c)) then ("", s)
      else let (u, r) := unitName s' in (String c u, r)
  end.

Definition micro : string := String (ascii_of_nat 194) (String (ascii_of_nat 181) "s").
Definition greekMicro : string := String (ascii_of_nat 206) (String (ascii_of_nat 188) "s").

Definition unitOf (u : string) : option Z :=
  if decide (u = "ns") then Some 1
  else if bool_decide (u = "us") || bool_decide (u = micro) || bool_decide (u = greekMicro) then Some 1000
  else if decide (u = "ms") then Some (1000 * 1000)
  else if decide (u = "s") then Some Second
  else if decide (u = "m") then Some Minute
  else if decide (u = "h") then Some (60 * Minute)
  else None.

(** [int64(float64(f) * (float64(unit) / scale))]; the scale is a power of ten
    that is multiplied up as a float. *)
Definition fractionOf (f scale unit : Z) : Z := toInt (fmul (ofInt f) (fdiv (ofInt unit) (ofInt scale))).

(** One number with its unit: its value and the rest. *)
Definition durationPart (s : string) : option (Z * string) :=
  match s with
  | EmptyString => None
  | String c _ =>
      if negb (bool_decide (c = "."%char) || bool_decide (is_Some (digit c))) then None
      else match leadingInt 0 s with
           | None => None
           | Some (v, s1) =>
               let pre := negb (String.length s1 =? String.length s)%nat in
               let '(f, scale, s2, post) :=
                 match s1 with
                 | String "." s1' =>
                     let '(f, scale, s2) := leadingFraction 0 1 false s1' in
                     (f, scale, s2, negb (String.length s2 =? String.length s1')%nat)
                 | _ => (0, 1, s1, false)
                 end in
               if negb (pre || post) then None
               else let (u, s3) := unitName s2 in
                    match unitOf u with
                    | None => None
                    | Some unit =>
                        if maxInt64 / unit <? v then None
                        else let v := if 0 <? f then v * unit + fractionOf f scale unit else v * unit in
                             if maxInt64 <? v then None else Some (v, s3)
                    end
           end
  end.

Fixpoint durationParts (fuel : nat) (d : Z) (s : string) : option Z :=
  match fuel, s with
  | _, EmptyString => Some d
  | O, _ => None
  | S fuel, _ =>
      match durationPart s with
      | None => None
      | Some (v, s') => if maxInt64 <? d + v then None else durationParts fuel (d + v) s'
      end
  end.

Definition unsignedDuration (s : string) : option Z :=
  if decide (s = "0") then Some 0
  else if decide (s = "") then None
  else durationParts (String.length s) 0 s.

Definition ParseDuration (s : string) : option Z :=
  match s with
  | String "-" s => option_map Z.opp (unsignedDuration s)
  | String "+" s => unsignedDuration s
  | s => unsignedDuration s
  end.

Example ParseDuration_ex : map ParseDuration ["1m"; "1h30m"; "-1.5h"; "300ms"; ".5s"; "10"; "0"; ""; "1d"; "10000000h"]
  = [Some Minute; Some (90 * Minute); Some (-90 * Minute); Some (300 * 1000000); Some 500000000; None; Some 0; None; None; None].
Proof. vm_compute. reflexivity. Qed.

(** ** Flag sets *)

Section FlagSet.
Context {O : Type}.

Record flagDef := mkFlag { fl_Name : string; fl_IsBool : bool; fl_Set : string -> O -> option O }.

(** How parsing ends: with the options, after printing the usage, or with an
    error; the last two exit the process, with code 0 and 2. *)
Inductive parsed := Parsed (o : O) | UsageAsked | BadFlag (msg : string).

Inductive argument :=
| NotAFlag
| Terminator
| BadSyntax
| FlagArg (name : string) (value : option string).

Definition nameAndValue (s : string) : argument :=
  match s with
  | EmptyString => BadSyntax
  | String c rest =>
      if bool_decide (c = "-"%char) || bool_decide (c = "="%char) then BadSyntax
      else match CutByte "=" rest with
           | Some (name, value) => FlagArg (String c name) (Some value)
           | None => FlagArg s None
           end
  end.

Definition classifyArg (s : string) : argument :=
  match s with
  | String "-" (String "-" EmptyString) => Terminator
  | String "-" (String "-" name) => nameAndValue name
  | String "-" (String c name) => nameAndValue (String c name)
  | _ => NotAFlag
  end.

Definition findFlag (defs : list flagDef) (name : string) : option flagDef :=
  List.find (fun f => bool_decide (fl_Name f = name)) defs.

Definition invalid (name value : string) : parsed :=
  BadFlag ("invalid value " +:+ value +:+ " for flag -" +:+ name).

(** [FlagSet.Parse]: one [parseOne] after the other. *)
Fixpoint parseFlags (defs : list flagDef) (args : list string) (o : O) : parsed :=
  match args with
  | [] => Parsed o
  | s :: args =>
      match classifyArg s with
      | NotAFlag | Terminator => Parsed o
      | BadSyntax => BadFlag ("bad flag syntax: " +:+ s)
      | FlagArg name value =>
          match findFlag defs name with
          | None =>
              if bool_decide (name = "help") || bool_decide (name = "h") then UsageAsked
              else BadFlag ("flag provided but not defined: -" +:+ name)
          | Some f =>
              let set v args :=
                match fl_Set f v o with
                | None => invalid name v
                | Some o => parseFlags defs args o
                end in
              match value with
              | Some v => set v args
              | None =>
                  if fl_IsBool f then set "true" args
                  else match args with
                       | [] => BadFlag ("flag needs an argument: -" +:+ name)
                       | v :: args =>
                           match fl_Set f v o with
                           | None => invalid name v
                           | Some o => parseFlags defs args o
                           end
                       end
              end
          end
      end
  end.

(** ** Specification *)

(** A setting as an argument, with one dash or two. *)
Definition render (dashes : bool) (f : flagDef) (v : string) : string :=
  (if dashes then "--" else "-") +:+ fl_Name f +:+ "=" +:+ v.

(** The settings one after the other. *)
Fixpoint setAll (settings : list (bool * flagDef * string)) (o : O) : parsed :=
  match settings with
  | [] => Parsed o
  | (_, f, v) :: settings =>
      match fl_Set f v o with
      | None => invalid (fl_Name f) v
      | Some o => setAll settings o
      end
  end.

(** A name that can be written on a command line. *)
Definition plainName (name : string) : bool :=
  match name with
  | EmptyString => false
  | String c rest => negb (bool_decide (c = "-"%char)) && negb (bool_decide (c = "="%char)) && negb (contains_char "=" rest)
  end.

Definition wellDefined (defs : list flagDef) : Prop :=
  Forall (fun f => plainName (fl_Name f) = true) defs /\ NoDup (map fl_Name defs).

Lemma findFlag_in defs f : wellDefined defs -> f ∈ defs -> findFlag defs (fl_Name f) = Some f.
Proof.
  intros [_ Hnd] Hf. unfold findFlag. induction defs as [|g defs IH]; [set_solver|]. simpl in *.
  apply NoDup_cons in Hnd as [Hg Hnd]. case_bool_decide as He.
  - apply elem_of_cons in Hf as [->|Hf]; [done|]. exfalso. apply Hg. rewrite He. apply list_elem_of_fmap. eauto.
  - apply elem_of_cons in Hf as [->|Hf]; [done|]. by apply IH.
Qed.

Lemma classifyArg_render dashes f v :
  plainName (fl_Name f) = true -> classifyArg (render dashes f v) = FlagArg (fl_Name f) (Some v).
Proof.
  unfold render. destruct (fl_Name f) as [|c rest]; [done|]. simpl. intros [[Hd He]%andb_prop Hr]%andb_prop.
  apply negb_true_iff in Hd, He, Hr.
  assert (nameAndValue (String c (rest +:+ "=" +:+ v)) = FlagArg (String c rest) (Some v)) as Hn.
  { simpl. rewrite Hd, He. simpl. change ("=" +:+ v) with (String "=" v). by rewrite CutByte_app. }
  destruct dashes; simpl; [exact Hn|].
  apply bool_decide_eq_false in Hd. change (rest +:+ "=" +:+ v) with (rest +:+ String "=" v) in *.
  destruct c as [[] [] [] [] [] [] [] []]; try exact Hn. done.
Qed.

(** Parsing the settings of defined flags sets them in order: a later setting
    of a flag acts on the earlier ones, and the first value that a flag refuses
    ends the parse with that flag's name. *)
Theorem parseFlags_sets defs settings o :
  wellDefined defs -> Forall (fun s => s.1.2 ∈ defs) settings ->
  parseFlags defs (map (fun s => render s.1.1 s.1.2 s.2) settings) o = setAll settings o.
Proof.
  intros Hw Hall. revert o. induction Hall as [|[[dashes f] v] settings Hf _ IH]; intros o; [done|]. simpl in *.
  rewrite classifyArg_render by (destruct Hw as [Hp _]; rewrite Forall_forall in Hp; by apply Hp).
  rewrite findFlag_in by done. by destruct (fl_Set f v o).
Qed.

End FlagSet.
Arguments flagDef O : clear implicits.
Arguments parsed O : clear implicits.
