(* ===== verification/Startup.v ===== *)
(** * Starting the controller manager (src/main.go and the [SetupWithManager] of each controller)

    The flags, and [main] as a program that asks the environment for what it
    reads and for what it registers with the manager.  envconfig and
    controller-runtime are the environment. *)

From coqutil Require Import Datatypes.RecordSetters.
Import TriangleBracketNotations.
From stdpp Require Import base list gmap strings.
From Stdlib Require Import ZArith Lia Ascii String.
From S2P Require Import Prelude GoStrings Api Calendar Floats Url ClientConfig Metrics Flags PodBuilder.

Open Scope string_scope.
Open Scope Z_scope.

(** ** Kinds of flags *)

Section Kinds.
Context {O : Type}.

Definition StringVar (name : string) (set : string -> O -> O) : flagDef O :=
  mkFlag name false (fun v o => Some (set v o)).
Definition BoolVar (name : string) (set : bool -> O -> O) : flagDef O :=
  mkFlag name true (fun v o => option_map (fun b => set b o) (ParseBool v)).
Definition Int64Var (name : string) (set : Z -> O -> O) : flagDef O :=
  mkFlag name false (fun v o => option_map (fun z => set z o) (ParseInt64 v)).
Definition DurationVar (name : string) (set : duration -> O -> O) : flagDef O :=
  mkFlag name false (fun v o => option_map (fun z => set z o) (ParseDuration v)).

End Kinds.

(** [stringSlice.Set] *)
Definition stringSlice_Set (i : list string) (value : string) : list string := (i ++ [value])%list.

(** [commaSeparatedStringSlice.Set] *)
Definition commaSeparatedStringSlice_Set (s : list string) (value : string) : list string :=
  (s ++ List.filter (fun v => negb (bool_decide (v = ""))) (Split "," value))%list.

(** ** The options of main *)

Record options := mkOptions {
  metricsAddr : string;
  enableLeaderElection : bool;
  leaderElectionId : string;
  syncPeriod : duration;
  gitHubAPICacheDuration : duration;
  defaultScaleDownDelay : duration;
  runnerImage : string;
  runnerImagePullSecrets : list string;
  dockerImage : string;
  dockerRegistryMirror : string;
  namespace : string;
  logLevel : string;
  commonRunnerLabels : list string;
  config : Config
}.

Definition defaultRunnerImage : string := "summerwind/actions-runner:latest".
Definition defaultDockerImage : string := "docker:dind".
Definition DefaultScaleDownDelay : duration := 10 * Minute.

(** The values before the command line is read. *)
Definition defaultOptions (c : Config) : options := {|
  metricsAddr := ":8080"; enableLeaderElection := false; leaderElectionId := "actions-runner-controller";
  syncPeriod := 1 * Minute; gitHubAPICacheDuration := 0; defaultScaleDownDelay := DefaultScaleDownDelay;
  runnerImage := defaultRunnerImage; runnerImagePullSecrets := []; dockerImage := defaultDockerImage;
  dockerRegistryMirror := ""; namespace := ""; logLevel := "debug"; commonRunnerLabels := []; config := c |}.

Definition mainFlags : list (flagDef options) := [
  StringVar "metrics-addr" (fun v o => o <| metricsAddr := v |>);
  BoolVar "enable-leader-election" (fun v o => o <| enableLeaderElection := v |>);
  StringVar "leader-election-id" (fun v o => o <| leaderElectionId := v |>);
  StringVar "runner-image" (fun v o => o <| runnerImage := v |>);
  StringVar "docker-image" (fun v o => o <| dockerImage := v |>);
  StringVar "runner-image-pull-secret" (fun v o => o <| runnerImagePullSecrets ::= fun i => stringSlice_Set i v |>);
  StringVar "docker-registry-mirror" (fun v o => o <| dockerRegistryMirror := v |>);
  StringVar "github-token" (fun v o => o <| config -> Token := v |>);
  Int64Var "github-app-id" (fun v o => o <| config -> AppID := v |>);
  Int64Var "github-app-installation-id" (fun v o => o <| config -> AppInstallationID := v |>);
  StringVar "github-app-private-key" (fun v o => o <| config -> AppPrivateKey := v |>);
  StringVar "github-url" (fun v o => o <| config -> cURL := v |>);
  StringVar "github-upload-url" (fun v o => o <| config -> UploadURL := v |>);
  StringVar "github-basicauth-username" (fun v o => o <| config -> BasicauthUsername := v |>);
  StringVar "github-basicauth-password" (fun v o => o <| config -> BasicauthPassword := v |>);
  StringVar "runner-github-url" (fun v o => o <| config -> RunnerGitHubURL := v |>);
  DurationVar "github-api-cache-duration" (fun v o => o <| gitHubAPICacheDuration := v |>);
  DurationVar "default-scale-down-delay" (fun v o => o <| defaultScaleDownDelay := v |>);
  DurationVar "sync-period" (fun v o => o <| syncPeriod := v |>);
  StringVar "common-runner-labels" (fun v o => o <| commonRunnerLabels ::= fun s => commaSeparatedStringSlice_Set s v |>);
  StringVar "watch-namespace" (fun v o => o <| namespace := v |>);
  StringVar "log-level" (fun v o => o <| logLevel := v |>)
].

Example flags_ex :
  match parseFlags mainFlags ["-runner-image"; "i"; "--sync-period=90s"; "-enable-leader-election";
      "-common-runner-labels=a,,b"; "--common-runner-labels"; "c"; "rest"; "-x"] (defaultOptions (mkConfig "" 0 0 "" "" "" "" "" "" "")) with
  | Parsed o => runnerImage o = "i" /\ syncPeriod o = 90 * Second /\ enableLeaderElection o = true /\
                commonRunnerLabels o = ["a"; "b"; "c"]
  | _ => False
  end.
Proof. vm_compute. done. Qed.

(** ** Registering with the manager *)

(** A controller: the kind it reconciles and the kinds it owns, whose changes
    reconcile their owner. *)
Record controllerSpec := mkController {
  ctl_Name : string;
  ctl_For : kind;
  ctl_Owns : list kind
}.

Record managerOptions := mkManagerOptions {
  mo_MetricsBindAddress : string;
  mo_LeaderElection : bool;
  mo_LeaderElectionID : string;
  mo_Port : Z;
  mo_SyncPeriod : duration;
  mo_Namespace : string
}.

(** The reconcilers as [main] fills them in. *)
Inductive reconciler :=
| RunnerReconciler (d : podDefaults) (GitHubClient : Client)
| RunnerReplicaSetReconciler (GitHubClient : Client)
| RunnerDeploymentReconciler (CommonRunnerLabels : list string)
| RunnerSetReconciler (d : podDefaults) (CommonRunnerLabels : list string)
| RunnerPodReconciler (GitHubClient : Client)
| HorizontalRunnerAutoscalerReconciler (GitHubClient : Client) (CacheDuration DefaultScaleDownDelay : duration)
| HorizontalRunnerAutoscalerGitHubWebhook (SecretKeyBytes Namespace : string) (GitHubClient : option Client)
| PodRunnerTokenInjector (GitHubClient : Client).

Inductive sreq :=
| EnvConfig                                        (* envconfig.Process("github", &c) *)
| Getenv (name : string)
| Args
| GetConfigOrDie
| NewManager (o : managerOptions)
| IndexField (k : kind) (key : string)
| CompleteController (c : controllerSpec) (r : reconciler)
| CompleteWebhook (k : kind)
| RegisterHandler (path : string) (r : reconciler)
| StartManager.

Definition sans (q : sreq) : Type :=
  match q with
  | EnvConfig => result Config
  | Getenv _ => string
  | Args => list string
  | RegisterHandler _ _ => unit
  | _ => option err
  end.

Definition SM : Type -> Type := prog sans.

Definition runnerSetOwnerKey : string := ".metadata.controller".

Definition runnerCtl : controllerSpec := mkController "runner-controller" KRunner [KPod].
Definition replicaSetCtl : controllerSpec := mkController "runnerreplicaset-controller" KRRS [KRunner].
Definition deploymentCtl : controllerSpec := mkController "runnerdeployment-controller" KRD [KRRS].
Definition runnerSetCtl : controllerSpec := mkController "runnerset-controller" KRunnerSet [KStatefulSet].
Definition podCtl : controllerSpec := mkController "runnerpod-controller" KPod [].
Definition hraCtl : controllerSpec := mkController "horizontalrunnerautoscaler-controller" KHRA [].

Definition webhookCtl : controllerSpec := mkController "webhookbasedautoscaler" KHRA [].

(** [SetupWithManager] of each; the reconcilers are not given names here. *)
Definition indexAndComplete (k : kind) (key : string) (c : controllerSpec) (r : reconciler) : SM (option err) :=
  e <- ask (IndexField k key : sreq) ;;
  match e : option err with
  | Some e => Ret (Some e)
  | None => ask (CompleteController c r : sreq)
  end.

Definition SetupWithManager (r : reconciler) : SM (option err) :=
  match r with
  | RunnerReconciler _ _ => ask (CompleteController runnerCtl r : sreq)
  | RunnerReplicaSetReconciler _ => ask (CompleteController replicaSetCtl r : sreq)
  | RunnerDeploymentReconciler _ => indexAndComplete KRRS runnerSetOwnerKey deploymentCtl r
  | RunnerSetReconciler _ _ => indexAndComplete KStatefulSet runnerSetOwnerKey runnerSetCtl r
  | RunnerPodReconciler _ => ask (CompleteController podCtl r : sreq)
  | HorizontalRunnerAutoscalerReconciler _ _ _ => ask (CompleteController hraCtl r : sreq)
  | HorizontalRunnerAutoscalerGitHubWebhook _ _ _ =>
      indexAndComplete KHRA "scaleTarget" webhookCtl r
  | PodRunnerTokenInjector _ => _u <- ask (RegisterHandler "/mutate-runner-set-pod" r : sreq) ;; Ret None
  end.

(** [SetupWebhookWithManager] of the resources with webhooks. *)
Definition Runner_SetupWebhookWithManager : SM (option err) := ask (CompleteWebhook KRunner : sreq).
Definition RunnerDeployment_SetupWebhookWithManager : SM (option err) := ask (CompleteWebhook KRD : sreq).
Definition RunnerReplicaSet_SetupWebhookWithManager : SM (option err) := ask (CompleteWebhook KRRS : sreq).

(** How a program ends: it returns from [main] or exits with a code, after the
    message it logs. *)
Inductive ending := Returned | Exited (code : Z) (msg : string).

(** [if err = ...; err != nil { log.Error(err, msg); os.Exit(1) }] *)
Definition orExit (m : SM (option err)) (msg : string) (k : SM ending) : SM ending :=
  e <- m ;;
  match e with
  | Some _ => Ret (Exited 1 msg)
  | None => k
  end.

Section Main.
Context {L : ClientLibs}.

(** The period of the cache, when the flag leaves it to the sync period. *)
Definition cacheDuration (o : options) : duration :=
  let d := if decide (gitHubAPICacheDuration o = 0) then wrapS 64 (syncPeriod o - 10 * Second)
           else gitHubAPICacheDuration o in
  if d <? 0 then 0 else d.

Definition podDefaultsOf (o : options) (ghClient : Client) : podDefaults := {|
  pd_RunnerImage := runnerImage o; pd_RunnerImagePullSecrets := runnerImagePullSecrets o;
  pd_DockerImage := dockerImage o; pd_DockerRegistryMirror := dockerRegistryMirror o;
  pd_GithubBaseURL := GithubBaseURL ghClient |}.

Definition managerOptionsOf (o : options) : managerOptions := {|
  mo_MetricsBindAddress := metricsAddr o; mo_LeaderElection := enableLeaderElection o;
  mo_LeaderElectionID := leaderElectionId o; mo_Port := 9443; mo_SyncPeriod := syncPeriod o;
  mo_Namespace := namespace o |}.

(** From the manager on. *)
Definition runManager (o : options) (ghClient : Client) : SM ending :=
  orExit (ask (GetConfigOrDie : sreq)) "unable to get kubeconfig" (
  orExit (ask (NewManager (managerOptionsOf o) : sreq)) "unable to start manager" (
  orExit (SetupWithManager (RunnerReconciler (podDefaultsOf o ghClient) ghClient)) "unable to create controller Runner" (
  orExit (SetupWithManager (RunnerReplicaSetReconciler ghClient)) "unable to create controller RunnerReplicaSet" (
  orExit (SetupWithManager (RunnerDeploymentReconciler (commonRunnerLabels o))) "unable to create controller RunnerDeployment" (
  orExit (SetupWithManager (RunnerSetReconciler (podDefaultsOf o ghClient) (commonRunnerLabels o)))
    "unable to create controller RunnerSet" (
  orExit (SetupWithManager (RunnerPodReconciler ghClient)) "unable to create controller RunnerPod" (
  orExit (SetupWithManager (HorizontalRunnerAutoscalerReconciler ghClient (cacheDuration o) (defaultScaleDownDelay o)))
    "unable to create controller HorizontalRunnerAutoscaler" (
  orExit Runner_SetupWebhookWithManager "unable to create webhook Runner" (
  orExit RunnerDeployment_SetupWebhookWithManager "unable to create webhook RunnerDeployment" (
  orExit RunnerReplicaSet_SetupWebhookWithManager "unable to create webhook RunnerReplicaSet" (
  orExit (SetupWithManager (PodRunnerTokenInjector ghClient)) "unable to create webhook server PodRunnerTokenInjector" (
  orExit (ask (StartManager : sreq)) "problem running manager" (Ret Returned))))))))))))).

Definition main : SM ending :=
  c <- ask (EnvConfig : sreq) ;;
  match c : result Config with
  | Err _ => Ret (Exited 1 "Error: processing environment variables")
  | Val c =>
      args <- ask (Args : sreq) ;;
      match parseFlags mainFlags args (defaultOptions c) with
      | UsageAsked => Ret (Exited 0 "")
      | BadFlag msg => Ret (Exited 2 msg)
      | Parsed o =>
          match NewLogger (logLevel o) with
          | None => Ret (Exited 1 "Failed to parse --log-level")
          | Some _ =>
              match NewClient (config o) with
              | Err _ => Ret (Exited 1 "Error: Client creation failed.")
              | Val ghClient => runManager o ghClient
              end
          end
      end
  end.

End Main.

(** * Properties *)

Section MainFacts.
Context {L : ClientLibs}.

(** What is asked for, in order, on the way to a running manager. *)
Definition startSequence (o : options) (ghClient : Client) : list sreq := [
  EnvConfig; Args; GetConfigOrDie; NewManager (managerOptionsOf o);
  CompleteController runnerCtl (RunnerReconciler (podDefaultsOf o ghClient) ghClient);
  CompleteController replicaSetCtl (RunnerReplicaSetReconciler ghClient);
  IndexField KRRS runnerSetOwnerKey;
  CompleteController deploymentCtl (RunnerDeploymentReconciler (commonRunnerLabels o));
  IndexField KStatefulSet runnerSetOwnerKey;
  CompleteController runnerSetCtl (RunnerSetReconciler (podDefaultsOf o ghClient) (commonRunnerLabels o));
  CompleteController podCtl (RunnerPodReconciler ghClient);
  CompleteController hraCtl (HorizontalRunnerAutoscalerReconciler ghClient (cacheDuration o) (defaultScaleDownDelay o));
  CompleteWebhook KRunner; CompleteWebhook KRD; CompleteWebhook KRRS;
  RegisterHandler "/mutate-runner-set-pod" (PodRunnerTokenInjector ghClient);
  StartManager].

Definition succeeded (e : event sans) : Prop :=
  match e with
  | Ev q a =>
      match q return sans q -> Prop with
      | EnvConfig => fun a => exists c, a = Val c
      | Getenv _ | Args | RegisterHandler _ _ => fun _ => True
      | GetConfigOrDie | NewManager _ | IndexField _ _ | CompleteController _ _ | CompleteWebhook _ | StartManager =>
          fun a => a = None
      end a
  end.

(** The options and the client that a run settled on. *)
Definition configured (l : list (event sans)) (o : options) (ghClient : Client) : Prop :=
  exists c args, Ev EnvConfig (Val c) ∈ l /\ Ev Args args ∈ l /\
    parseFlags mainFlags args (defaultOptions c) = Parsed o /\ is_Some (NewLogger (logLevel o)) /\
    NewClient (config o) = Val ghClient.

(** What ends [main] before there is a manager: the code of the exit, for the
    environment, the command line, the log level or the client. *)
Definition rejected (l : list (event sans)) (code : Z) : Prop :=
  (exists e, l = [Ev EnvConfig (Err e)] /\ code = 1) \/
  exists c args, l = [Ev EnvConfig (Val c); Ev Args args] /\
    match parseFlags mainFlags args (defaultOptions c) with
    | UsageAsked => code = 0
    | BadFlag _ => code = 2
    | Parsed o => code = 1 /\ (NewLogger (logLevel o) = None \/ exists e, NewClient (config o) = Err e)
    end.

(** How a start ends: the manager ran, under what the flags and the
    environment say, after every step succeeded; or the configuration was
    refused; or a step of the sequence failed, and it was the last. *)
Definition startEnds (out : outcome ending) (l : list (event sans)) : Prop :=
  (exists o ghClient, configured l o ghClient /\ out = Done Returned /\
     map ev_req l = startSequence o ghClient /\ Forall succeeded l) \/
  (exists code msg, out = Done (Exited code msg) /\ rejected l code) \/
  (exists o ghClient pre last msg, configured l o ghClient /\ out = Done (Exited 1 msg) /\
     map ev_req l `prefix_of` startSequence o ghClient /\
     l = (pre ++ [last])%list /\ Forall succeeded pre /\ ~ succeeded last).

(** The last event of a concrete log, and those before it. *)
Lemma startEnds_failed l o ghClient msg e0 :
  configured l o ghClient -> map ev_req l `prefix_of` startSequence o ghClient ->
  Forall succeeded (removelast l) -> l <> [] -> ~ succeeded (List.last l e0) ->
  startEnds (Done (Exited 1 msg)) l.
Proof.
  intros Hc Hp Hs Hne Hl. right. right. exists o, ghClient, (removelast l), (List.last l e0), msg.
  split_and!; [done..| |done|done]. by apply app_removelast_last.
Qed.

Lemma runManager_ends c args o ghClient :
  parseFlags mainFlags args (defaultOptions c) = Parsed o -> is_Some (NewLogger (logLevel o)) ->
  NewClient (config o) = Val ghClient ->
  always (runManager o ghClient) (fun out l => startEnds out (Ev EnvConfig (Val c) :: Ev Args args :: l)).
Proof.
  intros Hp Hlog Hc. unfold runManager, orExit. cbn -[startEnds podDefaultsOf managerOptionsOf cacheDuration].
  assert (forall l, configured (Ev EnvConfig (Val c) :: Ev Args args :: l) o ghClient) as Hconf.
  { intros l. exists c, args. split_and!; [set_solver|set_solver|done..]. }
  repeat (let a := fresh "a" in intros a; cbn -[startEnds podDefaultsOf managerOptionsOf cacheDuration];
    match type of a with
    | option err =>
        destruct a as [?|]; cbn -[startEnds podDefaultsOf managerOptionsOf cacheDuration];
        [apply (startEnds_failed _ o ghClient _ (Ev Args args)); [apply Hconf|by eexists|repeat constructor; by exists c|done|done] | ]
    | unit => destruct a
    end).
  left. exists o, ghClient. split_and!; [apply Hconf|done|done|]. repeat constructor. by exists c.
Qed.

(** C17: The manager is started last and only once everything is registered with
    it: [main] reads the environment and the flags, makes the client, and
    registers the six controllers, the three validating webhooks and the token
    injector, each configured from the same options, so that the pods of
    runners and of runner sets get the same images, mirror and GitHub URL.  The
    process exits with code 1 or 2 only for a refused configuration or after a
    step that failed, and takes no later step. *)
Theorem main_starts_configured : always main startEnds.
Proof.
  assert (forall l code msg, rejected l code -> startEnds (Done (Exited code msg)) l) as Hexit
    by (intros; right; left; eauto 10).
  unfold main. cbn -[startEnds runManager]. intros [c|e]; cbn -[startEnds runManager]; [|apply Hexit; left; by eexists].
  intros args. destruct (parseFlags mainFlags args (defaultOptions c)) as [o| |msg] eqn:Hp; cbn -[startEnds runManager].
  2-3: apply Hexit; right; exists c, args; by rewrite Hp.
  destruct (NewLogger (logLevel o)) eqn:Hlog; cbn -[startEnds runManager].
  2: apply Hexit; right; exists c, args; rewrite Hp; by auto.
  destruct (NewClient (config o)) as [gh|] eqn:Hc; cbn -[startEnds runManager].
  2: apply Hexit; right; exists c, args; rewrite Hp; by eauto.
  by apply runManager_ends.
Qed.

End MainFacts.

(** ** The flags of main *)

Lemma mainFlags_wellDefined : wellDefined mainFlags.
Proof. split; [repeat constructor|]. apply (bool_decide_eq_true_1 (NoDup (map fl_Name mainFlags))). vm_compute. reflexivity. Qed.

Definition nonEmptyPieces (v : string) : list string :=
  List.filter (fun x => negb (bool_decide (x = ""))) (Split "," v).

(** The labels that the settings add. *)
Definition labelsOf (settings : list (bool * flagDef options * string)) : list string :=
  List.concat (map (fun s => if decide (fl_Name s.1.2 = "common-runner-labels") then nonEmptyPieces s.2 else []) settings).

Lemma mainFlags_labels f v o o' :
  f ∈ mainFlags -> fl_Set f v o = Some o' ->
  commonRunnerLabels o' = (commonRunnerLabels o ++
    if decide (fl_Name f = "common-runner-labels") then nonEmptyPieces v else [])%list.
Proof.
  intros Hf. unfold mainFlags in Hf.
  repeat (apply elem_of_cons in Hf as [->|Hf];
    [cbn [fl_Set fl_Name StringVar BoolVar Int64Var DurationVar];
     try match goal with |- context [option_map _ ?x] => destruct x; cbn [option_map]; [|done] end;
     intros [= <-];
     first [rewrite decide_True by done; reflexivity | rewrite decide_False by done; by rewrite app_nil_r]|]).
  by apply not_elem_of_nil in Hf.
Qed.

(** Settings of the manager's flags, with one dash or two, take effect in
    order, up to the first value that its flag refuses, which ends the process;
    and the labels for all runners are the non-empty pieces between the commas
    of every [-common-runner-labels], in the order given. *)
Theorem main_flags_apply settings o :
  Forall (fun s => s.1.2 ∈ mainFlags) settings ->
  parseFlags mainFlags (map (fun s => render s.1.1 s.1.2 s.2) settings) o = setAll settings o /\
  forall o', setAll settings o = Parsed o' ->
    commonRunnerLabels o' = (commonRunnerLabels o ++ labelsOf settings)%list /\ "" ∉ labelsOf settings.
Proof.
  intros Hall. split; [apply parseFlags_sets; [apply mainFlags_wellDefined|done]|].
  revert o. induction Hall as [|[[dashes f] v] settings Hf _ IH]; intros o o'; simpl in *.
  { intros [= <-]. unfold labelsOf. simpl. rewrite app_nil_r. split; [done|set_solver]. }
  destruct (fl_Set f v o) as [o1|] eqn:Hset; [|done]. intros H. destruct (IH o1 o' H) as [-> Hne].
  rewrite (mainFlags_labels f v o o1 Hf Hset). unfold labelsOf in *. simpl. rewrite <- app_assoc. split; [done|].
  rewrite elem_of_app. intros [Hin|Hin]; [|done]. case_decide; [|by apply not_elem_of_nil in Hin].
  apply list_elem_of_In, filter_In in Hin as [_ Hin]. by rewrite bool_decide_true in Hin.
Qed.
