(* ===== verification/RunnerDeployment.v ===== *)
(** * The RunnerDeployment controller (src/controllers/runnerdeployment_controller.go)

    Replaces the RunnerReplicaSet of a deployment when its template changes,
    scales it in place otherwise, and drains and deletes the old ones. *)

From stdpp Require Import base list gmap strings sorting.
From Stdlib Require Import ZArith Lia.
From S2P Require Import Prelude Api GoStrings Hash RunnerPod.

Open Scope string_scope.
Open Scope Z_scope.

(** ** Small operations *)

Definition getTemplateHash (rs : RunnerReplicaSet) : option string :=
  om_Labels (rrs_Meta rs) !! LabelKeyRunnerTemplateHash.

Definition getSelector (rd : RunnerDeployment) : LabelSelector :=
  match rds_Selector (rd_Spec rd) with
  | Some s => s
  | None => {| ls_MatchLabels := {[LabelKeyRunnerDeploymentName := om_Name (rd_Meta rd)]};
               ls_MatchExpressions := None |}
  end.

Definition withRRSSpec (rs : RunnerReplicaSet) (spec : RunnerReplicaSetSpec) : RunnerReplicaSet :=
  {| rrs_Meta := rrs_Meta rs; rrs_Spec := spec; rrs_Status := rrs_Status rs |}.

Definition withRRSReplicas (spec : RunnerReplicaSetSpec) (n : option Z) (eff : option time)
  : RunnerReplicaSetSpec :=
  {| rrss_Replicas := n; rrss_EffectiveTime := eff;
     rrss_Selector := rrss_Selector spec; rrss_Template := rrss_Template spec |}.

Definition withRunnerLabels (c : RunnerConfig) (labels : list string) : RunnerConfig :=
  {| rc_Enterprise := rc_Enterprise c; rc_Organization := rc_Organization c;
     rc_Repository := rc_Repository c; rc_Labels := labels; rc_Group := rc_Group c;
     rc_Ephemeral := rc_Ephemeral c; rc_Image := rc_Image c; rc_WorkDir := rc_WorkDir c;
     rc_DockerdWithinRunnerContainer := rc_DockerdWithinRunnerContainer c;
     rc_DockerEnabled := rc_DockerEnabled c; rc_DockerMTU := rc_DockerMTU c;
     rc_DockerRegistryMirror := rc_DockerRegistryMirror c;
     rc_VolumeSizeLimit := rc_VolumeSizeLimit c;
     rc_VolumeStorageMedium := rc_VolumeStorageMedium c |}.

Definition withCommonLabels (t : RunnerTemplate) (common : list string) : RunnerTemplate :=
  {| rt_Meta := rt_Meta t;
     rt_Spec := {| rsp_Config := withRunnerLabels (rsp_Config (rt_Spec t))
                                   (rc_Labels (rsp_Config (rt_Spec t)) ++ common)%list;
                   rsp_Pod := rsp_Pod (rt_Spec t) |} |}.

Definition withTemplateLabels (t : RunnerTemplate) (labels : strmap) : RunnerTemplate :=
  {| rt_Meta := withLabels (rt_Meta t) labels; rt_Spec := rt_Spec t |}.

(** The index function of [SetupWithManager]: the deployment that controls a
    replica set. *)
Definition GroupVersion := "actions.summerwind.dev/v1alpha1".

Definition runnerReplicaSetOwnerIndex (m : ObjectMeta) : list string :=
  match GetControllerOf m with
  | None => []
  | Some owner =>
      if negb (bool_decide (or_APIVersion owner = GroupVersion)) ||
         negb (bool_decide (or_Kind owner = "RunnerDeployment"))
      then [] else [or_Name owner]
  end.

Section RunnerDeployment.
Context {P : Printing}.

(** The hash of the template that the deployment asks for. *)
Definition desiredHashOf (commonRunnerLabels : list string) (rd : RunnerDeployment) : string :=
  ComputeHash (HTemplate (withCommonLabels (rds_Template (rd_Spec rd)) commonRunnerLabels)).

(** The replica set built by [newRunnerReplicaSet], before it gets its owner
    reference. *)
Definition desiredReplicaSet (rd : RunnerDeployment) (commonRunnerLabels : list string)
  : RunnerReplicaSet :=
  let newRSTemplate := withCommonLabels (rds_Template (rd_Spec rd)) commonRunnerLabels in
  let templateHash := ComputeHash (HTemplate newRSTemplate) in
  let labels := CloneAndAddLabel (om_Labels (rt_Meta newRSTemplate))
                  LabelKeyRunnerTemplateHash templateHash in
  let labels := CloneAndAddLabel labels LabelKeyRunnerDeploymentName (om_Name (rd_Meta rd)) in
  let newRSTemplate := withTemplateLabels newRSTemplate labels in
  let selector := getSelector rd in
  let newRSSelector := CloneSelectorAndAddLabel selector LabelKeyRunnerTemplateHash templateHash in
  {| rrs_Meta := {| om_Name := ""; om_GenerateName := om_Name (rd_Meta rd) +:+ "-";
                    om_Namespace := om_Namespace (rd_Meta rd); om_Labels := labels;
                    om_Annotations := ∅; om_CreationTimestamp := 0; om_DeletionTimestamp := None;
                    om_Finalizers := []; om_OwnerReferences := [] |};
     rrs_Spec := {| rrss_Replicas := rds_Replicas (rd_Spec rd);
                    rrss_EffectiveTime := rds_EffectiveTime (rd_Spec rd);
                    rrss_Selector := Some newRSSelector;
                    rrss_Template := newRSTemplate |};
     rrs_Status := {| rrst_Replicas := None; rrst_ReadyReplicas := None;
                      rrst_AvailableReplicas := None |} |}.

Definition withRRSMeta (rs : RunnerReplicaSet) (m : ObjectMeta) : RunnerReplicaSet :=
  {| rrs_Meta := m; rrs_Spec := rrs_Spec rs; rrs_Status := rrs_Status rs |}.

Definition newRunnerReplicaSet (rd : RunnerDeployment) (commonRunnerLabels : list string)
  : M (result RunnerReplicaSet) :=
  let rs := desiredReplicaSet rd commonRunnerLabels in
  try own <- ask (SetControllerReference KRD (rd_Meta rd) (rrs_Meta rs)) ;;
  Ret (Val (withRRSMeta rs (withOwnerReferences (rrs_Meta rs) own))).

(** ** The reconciler *)

(** The order of the sort: newest first. *)
Definition createdAfter (a b : RunnerReplicaSet) : bool :=
  After (om_CreationTimestamp (rrs_Meta a)) (om_CreationTimestamp (rrs_Meta b)).

(** The loop over the old replica sets. *)
Definition drainOldSet (rs : RunnerReplicaSet) (_ : unit) : M (ctl unit err) :=
  if match rrst_Replicas (rrs_Status rs) with Some n => 0 <? n | None => false end then
    if match rrss_Replicas (rrs_Spec rs) with Some n => n =? 0 | None => false end
    then Ret (Next tt)
    else
      let updated := withRRSSpec rs (withRRSReplicas (rrs_Spec rs) (Some 0)
                                       (rrss_EffectiveTime (rrs_Spec rs))) in
      r <- ask (Update KRRS updated) ;;
      Ret (match r with Err e => Return e | Val _ => Next tt end)
  else
    e <- ask (Delete KRRS rs None) ;;
    Ret (match e with Some e => Return e | None => Next tt end).

(** [total += x] over the sets, in machine integers. *)
Definition totalOf (f : RunnerReplicaSetStatus -> option Z) (sets : list RunnerReplicaSet) : Z :=
  fold_left (fun acc rs => int64 (acc + default 0 (f (rrs_Status rs)))) sets 0.

Definition deploymentStatus (newestSet : RunnerReplicaSet) (oldSets : list RunnerReplicaSet)
  (newDesiredReplicas : Z) : RunnerDeploymentStatus :=
  let replicaSets := newestSet :: oldSets in
  let totalCurrentReplicas := totalOf rrst_Replicas replicaSets in
  let totalStatusAvailableReplicas := totalOf rrst_AvailableReplicas replicaSets in
  let updatedReplicas := default 0 (rrst_Replicas (rrs_Status newestSet)) in
  {| rdst_AvailableReplicas := Some totalStatusAvailableReplicas;
     rdst_ReadyReplicas := Some totalStatusAvailableReplicas;
     rdst_UpdatedReplicas := Some updatedReplicas;
     rdst_DesiredReplicas := Some newDesiredReplicas;
     rdst_Replicas := Some totalCurrentReplicas |}.

Definition patchStatus (rd : RunnerDeployment) (status : RunnerDeploymentStatus)
  : M (result Result) :=
  if bool_decide (rd_Status rd = status) then Ret (Val noResult)
  else
    let updated := {| rd_Meta := rd_Meta rd; rd_Spec := rd_Spec rd; rd_Status := status |} in
    r <- ask (StatusPatch KRD updated rd) ;;
    Ret (Val (match r with
              | Err _ => {| Requeue := true; RequeueAfter := 0 |}
              | Val _ => noResult
              end)).

Definition defaultReplicas : Z := 1.

(** From the point where both the newest set and the desired one are known. *)
Definition reconcileSets (rd : RunnerDeployment) (desiredRS newestSet : RunnerReplicaSet)
  (oldSets : list RunnerReplicaSet) : M (result Result) :=
  match getTemplateHash newestSet, getTemplateHash desiredRS with
  | None, _ => Ret (Val noResult)
  | _, None => Ret (Val noResult)
  | Some newestTemplateHash, Some desiredTemplateHash =>
      if negb (bool_decide (newestTemplateHash = desiredTemplateHash)) then
        try _r <- ask (Create KRRS desiredRS) ;;
        Ret (Val {| Requeue := false; RequeueAfter := 5 * Second |})
      else if negb (bool_decide (rrss_Selector (rrs_Spec newestSet) = rrss_Selector (rrs_Spec desiredRS))) then
        try _r <- ask (Update KRRS (withRRSSpec newestSet (rrs_Spec desiredRS))) ;;
        Ret (Val {| Requeue := false; RequeueAfter := 5 * Second |})
      else
        let currentDesiredReplicas := getIntOrDefault (rrss_Replicas (rrs_Spec newestSet)) defaultReplicas in
        let newDesiredReplicas := getIntOrDefault (rrss_Replicas (rrs_Spec desiredRS)) defaultReplicas in
        if negb (currentDesiredReplicas =? newDesiredReplicas) then
          try _r <- ask (Update KRRS (withRRSSpec newestSet
                    (withRRSReplicas (rrs_Spec newestSet) (Some newDesiredReplicas)
                       (rds_EffectiveTime (rd_Spec rd))))) ;;
          Ret (Val noResult)
        else
          let readyReplicas := default 0 (rrst_ReadyReplicas (rrs_Status newestSet)) in
          if (0 <? Z.of_nat (length oldSets)) && (readyReplicas <? currentDesiredReplicas)
          then Ret (Val noResult)
          else
            r <- rangeM oldSets tt drainOldSet ;;
            match r with
            | inr e => Ret (Err e)
            | inl _ => patchStatus rd (deploymentStatus newestSet oldSets newDesiredReplicas)
            end
  end.

Definition Reconcile (commonRunnerLabels : list string) (req : NamespacedName) : M (result Result) :=
  g <- ask (Get KRD req) ;;
  match g with
  | Err e => Ret (match IgnoreNotFound e with Some e => Err e | None => Val noResult end)
  | Val rd =>
      if negb (IsZero (om_DeletionTimestamp (rd_Meta rd))) then Ret (Val noResult)
      else
        try items <- ask (List KRRS [InNamespace (nn_Namespace req);
                                     MatchingFields ".metadata.controller" (nn_Name req)]) ;;
        ord <- ask (Order (length items)) ;;
        let myRunnerReplicaSets := sort_stable createdAfter (shuffle ord items) in
        try desiredRS <- newRunnerReplicaSet rd commonRunnerLabels ;;
        match myRunnerReplicaSets with
        | [] =>
            try _r <- ask (Create KRRS desiredRS) ;;
            Ret (Val noResult)
        | newestSet :: oldSets => reconcileSets rd desiredRS newestSet oldSets
        end
  end.

End RunnerDeployment.

(** * Specification *)

(** [ns] is a newest element of [sets] and [old] are the others. *)
Definition newestOf (sets : list RunnerReplicaSet) (ns : RunnerReplicaSet)
  (old : list RunnerReplicaSet) : Prop :=
  sets ≡ₚ ns :: old /\
  Forall (fun rs => om_CreationTimestamp (rrs_Meta rs) <= om_CreationTimestamp (rrs_Meta ns)) old.

(** The newest set is the desired one in everything but its status, and all
    of its replicas are ready. *)
Definition rolledOut (rd : RunnerDeployment) (desired ns : RunnerReplicaSet) : Prop :=
  getTemplateHash ns = getTemplateHash desired /\
  rrss_Selector (rrs_Spec ns) = rrss_Selector (rrs_Spec desired) /\
  default 1 (rrss_Replicas (rrs_Spec ns)) = default 1 (rds_Replicas (rd_Spec rd)) /\
  default 1 (rds_Replicas (rd_Spec rd)) <= default 0 (rrst_ReadyReplicas (rrs_Status ns)).

(** The reasons for a write, given the deployment, the replica set it asks
    for and the sets that it has. *)
Inductive rdJustified (rd : RunnerDeployment) (desired : RunnerReplicaSet)
  (sets : list RunnerReplicaSet) : event ans -> Prop :=
| rj_read e : isRead (ev_req e) = true -> rdJustified rd desired sets e
| rj_first r : sets = [] -> rdJustified rd desired sets (EvA (Create KRRS desired) r)
| rj_replace ns old h h' r :
    newestOf sets ns old -> getTemplateHash ns = Some h -> getTemplateHash desired = Some h' ->
    h <> h' -> rdJustified rd desired sets (EvA (Create KRRS desired) r)
| rj_selector ns old r :
    newestOf sets ns old -> getTemplateHash ns = getTemplateHash desired ->
    rrss_Selector (rrs_Spec ns) <> rrss_Selector (rrs_Spec desired) ->
    rdJustified rd desired sets (EvA (Update KRRS (withRRSSpec ns (rrs_Spec desired))) r)
| rj_scale ns old n r :
    newestOf sets ns old -> getTemplateHash ns = getTemplateHash desired ->
    rrss_Selector (rrs_Spec ns) = rrss_Selector (rrs_Spec desired) ->
    n = default 1 (rds_Replicas (rd_Spec rd)) -> default 1 (rrss_Replicas (rrs_Spec ns)) <> n ->
    rdJustified rd desired sets
      (EvA (Update KRRS (withRRSSpec ns (withRRSReplicas (rrs_Spec ns) (Some n)
                                           (rds_EffectiveTime (rd_Spec rd))))) r)
| rj_drain ns old rs n r :
    newestOf sets ns old -> rolledOut rd desired ns -> rs ∈ old ->
    rrst_Replicas (rrs_Status rs) = Some n -> 0 < n -> rrss_Replicas (rrs_Spec rs) <> Some 0 ->
    rdJustified rd desired sets
      (EvA (Update KRRS (withRRSSpec rs (withRRSReplicas (rrs_Spec rs) (Some 0)
                                           (rrss_EffectiveTime (rrs_Spec rs))))) r)
| rj_delete ns old rs r :
    newestOf sets ns old -> rolledOut rd desired ns -> rs ∈ old ->
    default 0 (rrst_Replicas (rrs_Status rs)) <= 0 ->
    rdJustified rd desired sets (EvA (Delete KRRS rs None) r)
| rj_status ns old st r :
    newestOf sets ns old -> rolledOut rd desired ns \/ (old = [] /\ getTemplateHash ns = getTemplateHash desired) ->
    st = deploymentStatus ns old (default 1 (rds_Replicas (rd_Spec rd))) -> rd_Status rd <> st ->
    rdJustified rd desired sets
      (EvA (StatusPatch KRD {| rd_Meta := rd_Meta rd; rd_Spec := rd_Spec rd; rd_Status := st |} rd) r).
#[export] Hint Constructors rdJustified : arc.

Section Facts.
Context {P : Printing}.

Lemma getTemplateHash_desired rd common own :
  getTemplateHash (withRRSMeta (desiredReplicaSet rd common)
    (withOwnerReferences (rrs_Meta (desiredReplicaSet rd common)) own))
  = Some (desiredHashOf common rd).
Proof.
  unfold getTemplateHash. simpl. unfold CloneAndAddLabel. simpl.
  by rewrite lookup_insert_ne, lookup_insert_eq.
Qed.

Lemma newest_first sets ord ns old :
  sort_stable createdAfter (shuffle ord sets) = ns :: old -> newestOf sets ns old.
Proof.
  intros Hs. split.
  - by rewrite <- Hs, sort_stable_Permutation, shuffle_Permutation.
  - assert (StronglySorted (notAfter createdAfter) (ns :: old)) as Hsorted.
    { rewrite <- Hs. apply sort_stable_sorted; unfold createdAfter, After; intros; lia. }
    apply StronglySorted_inv in Hsorted as [_ H]. eapply Forall_impl; [exact H|].
    intros rs. unfold notAfter, createdAfter, After. lia.
Qed.

Lemma drainOldSet_spec rd desired sets ns old rs :
  newestOf sets ns old -> rolledOut rd desired ns -> rs ∈ old ->
  always (drainOldSet rs tt) (fun out lg =>
    (out = Done (Next tt) \/ exists e, out = Done (Return e)) /\
    Forall (rdJustified rd desired sets) lg).
Proof.
  intros Hnew Hready Hrs. unfold drainOldSet.
  destruct (rrst_Replicas (rrs_Status rs)) as [n|] eqn:Hst; [destruct (Z.ltb_spec 0 n)|].
  - destruct (decide (rrss_Replicas (rrs_Spec rs) = Some 0)) as [->|Hm]; [simpl; auto|].
    replace (match rrss_Replicas (rrs_Spec rs) with Some n => n =? 0 | None => false end) with false
      by (destruct (rrss_Replicas (rrs_Spec rs)); [symmetry; apply Z.eqb_neq; congruence|done]).
    simpl. intros r. split; [destruct r; eauto|]. apply Forall_singleton. by eapply rj_drain.
  - simpl. intros r. split; [destruct r; eauto|]. apply Forall_singleton.
    eapply rj_delete; eauto. rewrite Hst. simpl. lia.
  - simpl. intros r. split; [destruct r; eauto|]. apply Forall_singleton.
    eapply rj_delete; eauto. by rewrite Hst.
Qed.

Lemma drainOldSets_spec rd desired sets ns old l :
  newestOf sets ns old -> rolledOut rd desired ns -> l ⊆ old ->
  always (rangeM l tt drainOldSet) (fun out lg =>
    (exists r, out = Done r) /\ Forall (rdJustified rd desired sets) lg).
Proof.
  intros Hnew Hready Hl. induction l as [|rs l IH]; simpl; [eauto|].
  apply always_bind. eapply always_mono; [|eapply drainOldSet_spec; eauto; set_solver].
  intros out lg [[->|[e ->]] Hlg]; simpl; [|rewrite app_nil_r; eauto].
  eapply always_mono; [|apply IH; set_solver]. intros out lg' [Hr Hlg'].
  split; [done|]. by apply Forall_app_2.
Qed.

Lemma patchStatus_spec rd st :
  always (patchStatus rd st) (fun out l => (exists r, out = Done (Val r)) /\
    (l = [] \/ rd_Status rd <> st /\ exists r, l = [EvA (StatusPatch KRD
       {| rd_Meta := rd_Meta rd; rd_Spec := rd_Spec rd; rd_Status := st |} rd) r])).
Proof.
  unfold patchStatus. case_bool_decide; simpl; [eauto|]. intros r. split; [by eexists|]. eauto.
Qed.

Lemma reconcileSets_spec rd common own sets ns old :
  let desired := withRRSMeta (desiredReplicaSet rd common)
    (withOwnerReferences (rrs_Meta (desiredReplicaSet rd common)) own) in
  newestOf sets ns old ->
  always (reconcileSets rd desired ns old) (fun out l =>
    (exists r, out = Done r) /\ Forall (rdJustified rd desired sets) l).
Proof.
  intros desired Hnew. unfold reconcileSets.
  assert (getTemplateHash desired = Some (desiredHashOf common rd)) as Hd
    by apply getTemplateHash_desired.
  assert (rrss_Replicas (rrs_Spec desired) = rds_Replicas (rd_Spec rd)) as Hrep by done.
  clearbody desired. rewrite Hd. destruct (getTemplateHash ns) as [h|] eqn:Hh; [|simpl; eauto].
  case_bool_decide as Heq; simpl.
  2:{ intros r. destruct r; simpl; (split; [eauto|]); apply Forall_singleton; by eapply rj_replace. }
  case_bool_decide as Hsel; simpl.
  2:{ intros r. destruct r; simpl; (split; [eauto|]); apply Forall_singleton;
        eapply rj_selector; eauto; congruence. }
  rewrite Hrep. unfold getIntOrDefault, defaultReplicas.
  destruct (Z.eqb_spec (default 1 (rrss_Replicas (rrs_Spec ns))) (default 1 (rds_Replicas (rd_Spec rd))))
    as [Hn|Hn]; simpl.
  2:{ intros r. destruct r; simpl; (split; [eauto|]); apply Forall_singleton;
        eapply rj_scale; eauto; congruence. }
  destruct ((0 <? Z.of_nat (length old)) &&
    (default 0 (rrst_ReadyReplicas (rrs_Status ns)) <? default 1 (rrss_Replicas (rrs_Spec ns))))
    eqn:Hwait; [simpl; eauto|].
  assert (old = [] \/ rolledOut rd desired ns) as Hready.
  { destruct old as [|x old]; [by left|]. right. unfold rolledOut. simpl in Hwait.
    split_and!; [congruence|done|done|]. lia. }
  apply always_bind. eapply (always_mono _ (fun out lg => (exists r, out = Done r) /\
    Forall (rdJustified rd desired sets) lg)).
  - intros out lg [[[[]|e] ->] Hlg]; simpl; [|rewrite app_nil_r; eauto].
    eapply always_mono; [|apply patchStatus_spec]. intros out lg' [[r ->] Hlg'].
    split; [eauto|]. apply Forall_app_2; [done|].
    destruct Hlg' as [->|(Hne & r' & ->)]; [done|]. apply Forall_singleton.
    eapply rj_status; eauto. destruct Hready as [->|?]; [right|by left]. split; [done|congruence].
  - destruct Hready as [->|?]; [simpl; eauto|]. by eapply drainOldSets_spec.
Qed.

(** C6: every write of the deployment controller has its reason, for every
    answer of the API server.  A replica set is created only when there is
    none or the newest one has another template hash; the newest one is
    updated in place only when its selector or its number of replicas differs;
    an old one is scaled to zero, or deleted, only when the newest one is up
    to date and all of its desired replicas are ready, and it is deleted only
    when it reports no replica; and the controller always returns. *)
Theorem rd_writes_justified common req :
  always (Reconcile common req) (fun out l =>
    (exists r, out = Done r) /\
    (reads l \/ exists rd sets own,
      EvA (Get KRD req) (Val rd) ∈ l /\
      EvA (List KRRS [InNamespace (nn_Namespace req);
                      MatchingFields ".metadata.controller" (nn_Name req)]) (Val sets) ∈ l /\
      IsZero (om_DeletionTimestamp (rd_Meta rd)) = true /\
      let desired := withRRSMeta (desiredReplicaSet rd common)
        (withOwnerReferences (rrs_Meta (desiredReplicaSet rd common)) own) in
      Forall (rdJustified rd desired sets) l)).
Proof.
  unfold Reconcile. simpl. intros [rd|e]; simpl.
  2:{ unfold IgnoreNotFound. destruct (err_notfound e); (split; [eauto|]); left; by repeat constructor. }
  destruct (IsZero _) eqn:Hdel; simpl; [|split; [eauto|]; left; by repeat constructor].
  intros [sets|e]; simpl; [|split; [eauto|]; left; by repeat constructor].
  intros ord. simpl. intros [own|e]; simpl; [|split; [eauto|]; left; by repeat constructor].
  destruct (sort_stable createdAfter (shuffle ord sets)) as [|ns old] eqn:Hs.
  - simpl. intros r.
    assert (sets = []) as -> by (apply Permutation_nil; etrans; [|apply (shuffle_Permutation ord)];
      by rewrite <- Hs, sort_stable_Permutation).
    destruct r; simpl; (split; [eauto|]); right; exists rd, [], own; (split_and!; [set_solver..|]);
      repeat (constructor; [by apply rj_read|]); apply Forall_singleton; by apply rj_first.
  - apply newest_first in Hs. eapply always_mono; [|by apply (reconcileSets_spec rd common own sets)].
    intros out l [[r ->] Hl]. split; [eauto|]. right. exists rd, sets, own.
    split_and!; [set_solver..|]. repeat (constructor; [by apply rj_read|]). done.
Qed.

(** what the controller creates is found again: without a selector of its
    own, the selector of the new replica set matches the labels of the runners
    made from its template and of the set itself, and those labels carry the
    template hash and the deployment's name. *)
Theorem rd_selector_selects rd common :
  rds_Selector (rd_Spec rd) = None ->
  let rs := desiredReplicaSet rd common in
  exists sel, rrss_Selector (rrs_Spec rs) = Some sel /\
    ls_MatchLabels sel ⊆ om_Labels (rt_Meta (rrss_Template (rrs_Spec rs))) /\
    ls_MatchLabels sel ⊆ om_Labels (rrs_Meta rs) /\
    ls_MatchLabels sel = {[LabelKeyRunnerTemplateHash := desiredHashOf common rd;
                           LabelKeyRunnerDeploymentName := om_Name (rd_Meta rd)]} /\
    ls_MatchExpressions sel = None.
Proof.
  intros Hs rs. eexists. split; [done|]. unfold getSelector. rewrite Hs. simpl.
  assert (forall m : strmap, {[LabelKeyRunnerTemplateHash := desiredHashOf common rd;
      LabelKeyRunnerDeploymentName := om_Name (rd_Meta rd)]} ⊆
    CloneAndAddLabel (CloneAndAddLabel m LabelKeyRunnerTemplateHash (desiredHashOf common rd))
      LabelKeyRunnerDeploymentName (om_Name (rd_Meta rd))) as Hsub.
  { intros m. unfold CloneAndAddLabel. simpl. apply map_subseteq_spec. intros i x.
    destruct (decide (i = LabelKeyRunnerTemplateHash)) as [->|Hi];
      [|destruct (decide (i = LabelKeyRunnerDeploymentName)) as [->|Hj]].
    - by rewrite lookup_insert_eq, lookup_insert_ne, lookup_insert_eq by done.
    - by rewrite lookup_insert_ne, lookup_singleton_eq, lookup_insert_eq by done.
    - by rewrite lookup_insert_ne, lookup_singleton_ne by done. }
  split_and!; try apply Hsub; done.
Qed.

End Facts.

(** ** A rollout against an API server that does what it is asked *)

(** A deployment and its replica sets by name. *)
Record world := mkWorld { w_rd : RunnerDeployment; w_sets : gmap string RunnerReplicaSet }.

Definition withSets (w : world) (m : gmap string RunnerReplicaSet) : world :=
  {| w_rd := w_rd w; w_sets := m |}.

(** Every call succeeds and takes effect; [own] is the owner reference given. *)
Definition serveRRS (own : OwnerReference) (q : req) (w : world) : ans q * world :=
  match q return ans q * world with
  | Get k _ => match k return result (kobj k) * world with
               | KRD => (Val (w_rd w), w)
               | _ => (Err (newError "unexpected"), w)
               end
  | List k _ => match k return result (list (kobj k)) * world with
                | KRRS => (Val (map snd (map_to_list (w_sets w))), w)
                | _ => (Val [], w)
                end
  | Create k o => match k return kobj k -> result (kobj k) * world with
                  | KRRS => fun o => (Val o, withSets w (<[om_Name (rrs_Meta o) := o]> (w_sets w)))
                  | _ => fun o => (Val o, w)
                  end o
  | Update k o => match k return kobj k -> result (kobj k) * world with
                  | KRRS => fun o => (Val o, withSets w (<[om_Name (rrs_Meta o) := o]> (w_sets w)))
                  | _ => fun o => (Val o, w)
                  end o
  | StatusPatch k o _ => match k return kobj k -> result (kobj k) * world with
                         | KRD => fun o => (Val o, {| w_rd := o; w_sets := w_sets w |})
                         | _ => fun o => (Val o, w)
                         end o
  | Delete k o _ => match k return kobj k -> option err * world with
                    | KRRS => fun o => (None, withSets w (delete (om_Name (rrs_Meta o)) (w_sets w)))
                    | _ => fun _ => (None, w)
                    end o
  | Patch k o _ => (Val o, w)
  | SetControllerReference _ _ _ => (Val [own], w)
  | Now => (0, w)
  | Order _ => ([], w)
  | SelectorAsSelector _ => (None, w)
  | GHListRunners _ _ => (Err (newError "unexpected"), w)
  | GHRemoveRunner _ _ => (Err (newError "unexpected"), w)
  | GHCreateRegistrationToken _ => (Err (newError "unexpected"), w)
  | GHListOrganizationRunnerGroups _ _ => (Err (newError "unexpected"), w)
  | GHListRunnerGroupsVisibleToRepo _ => (Err (newError "unexpected"), w)
  | GHListRepositoryAccessRunnerGroup _ _ _ => (Err (newError "unexpected"), w)
  | GHListRepositoryWorkflowRuns _ _ _ _ => (Err (newError "unexpected"), w)
  | GHListWorkflowJobs _ _ _ _ => (Err (newError "unexpected"), w)
  end.

(** What a rollout step makes of an old set: gone once it has no replicas,
    scaled to zero before. *)
Definition drained (rs : RunnerReplicaSet) : option RunnerReplicaSet :=
  if 0 <? default 0 (rrst_Replicas (rrs_Status rs)) then
    Some (if decide (rrss_Replicas (rrs_Spec rs) = Some 0) then rs
          else withRRSSpec rs (withRRSReplicas (rrs_Spec rs) (Some 0) (rrss_EffectiveTime (rrs_Spec rs))))
  else None.

(** What the replica set controller makes of a set that is asked to have no
    replicas, once its runners are gone. *)
Definition settled (rs : RunnerReplicaSet) : RunnerReplicaSet :=
  if decide (rrss_Replicas (rrs_Spec rs) = Some 0)
  then {| rrs_Meta := rrs_Meta rs; rrs_Spec := rrs_Spec rs;
          rrs_Status := mkRRSStatus (Some 0) (Some 0) (Some 0) |}
  else rs.

Definition settle (w : world) : world := withSets w (settled <$> w_sets w).

Section Rollout.
Context {P : Printing} (own : OwnerReference).

(** The deployment is live and its newest set, [ns], is up to date and ready. *)
Record rollingOut (common : list string) (w : world) (ns : RunnerReplicaSet) : Prop := {
  ro_live : IsZero (om_DeletionTimestamp (rd_Meta (w_rd w))) = true;
  ro_names : forall name rs, w_sets w !! name = Some rs -> om_Name (rrs_Meta rs) = name;
  ro_newest_there : w_sets w !! om_Name (rrs_Meta ns) = Some ns;
  ro_newest : forall name rs, w_sets w !! name = Some rs -> rs <> ns ->
    om_CreationTimestamp (rrs_Meta rs) < om_CreationTimestamp (rrs_Meta ns);
  ro_ready : rolledOut (w_rd w) (withRRSMeta (desiredReplicaSet (w_rd w) common)
    (withOwnerReferences (rrs_Meta (desiredReplicaSet (w_rd w) common)) [own])) ns
}.

(** One step of the loop: the set's entry becomes what [drained] says. *)
Lemma run_drainOldSet rs w :
  w_sets w !! om_Name (rrs_Meta rs) = Some rs ->
  exists l, run (serveRRS own) (drainOldSet rs tt) w =
    (Done (Next tt), withSets w (partial_alter (fun _ => drained rs) (om_Name (rrs_Meta rs)) (w_sets w)), l).
Proof.
  intros Hw. unfold drainOldSet, drained.
  assert (forall rs', om_Name (rrs_Meta rs') = om_Name (rrs_Meta rs) ->
    partial_alter (fun _ => Some rs') (om_Name (rrs_Meta rs)) (w_sets w)
    = <[om_Name (rrs_Meta rs') := rs']> (w_sets w)) as Hins by (by intros rs' ->).
  destruct (rrst_Replicas (rrs_Status rs)) as [n|]; simpl; [destruct (Z.ltb_spec 0 n)|].
  - destruct (decide (rrss_Replicas (rrs_Spec rs) = Some 0)) as [->|Hm]; simpl.
    + rewrite Hins by done. rewrite insert_id by done. destruct w. by eexists.
    + replace (match rrss_Replicas (rrs_Spec rs) with Some n => n =? 0 | None => false end) with false
        by (destruct (rrss_Replicas (rrs_Spec rs)); [symmetry; apply Z.eqb_neq; congruence|done]).
      simpl. rewrite Hins by done. by eexists.
  - by eexists.
  - by eexists.
Qed.

Lemma run_drainOldSets l w :
  NoDup (map (fun rs => om_Name (rrs_Meta rs)) l) ->
  (forall rs, rs ∈ l -> w_sets w !! om_Name (rrs_Meta rs) = Some rs) ->
  exists m lg, run (serveRRS own) (rangeM l tt drainOldSet) w = (Done (inl tt), withSets w m, lg) /\
    (forall rs, rs ∈ l -> m !! om_Name (rrs_Meta rs) = drained rs) /\
    (forall name, name ∉ map (fun rs => om_Name (rrs_Meta rs)) l -> m !! name = w_sets w !! name).
Proof.
  revert w. induction l as [|rs l IH]; simpl; intros w Hnd Hw.
  - exists (w_sets w), []. destruct w. split_and!; [done|set_solver|done].
  - apply NoDup_cons in Hnd as [Hrs Hnd].
    destruct (run_drainOldSet rs w) as [lg Hrun]; [apply Hw; set_solver|].
    set (w1 := withSets w _) in Hrun.
    destruct (IH w1) as (m & lg' & Hrun' & Hin & Hout); [done| |].
    { intros rs' Hrs'. unfold w1. simpl. rewrite lookup_partial_alter_ne; [apply Hw; set_solver|].
      intros Heq. apply Hrs. rewrite Heq. apply list_elem_of_fmap. eauto. }
    exists m, (lg ++ lg')%list. rewrite (run_bind _ _ _ _ _ _ _ Hrun), Hrun'. split_and!; [done| |].
    + intros rs' [->|Hrs']%elem_of_cons; [|by apply Hin].
      rewrite Hout by done. unfold w1. simpl. by rewrite lookup_partial_alter_eq.
    + intros name Hname. rewrite Hout by set_solver. unfold w1. simpl.
      rewrite lookup_partial_alter_ne by set_solver. done.
Qed.
(** The sorted list of the sets, when one of them is newer than all others. *)
Lemma sorted_sets (m : gmap string RunnerReplicaSet) ns :
  (forall name rs, m !! name = Some rs -> om_Name (rrs_Meta rs) = name) ->
  m !! om_Name (rrs_Meta ns) = Some ns ->
  (forall name rs, m !! name = Some rs -> rs <> ns ->
     om_CreationTimestamp (rrs_Meta rs) < om_CreationTimestamp (rrs_Meta ns)) ->
  forall ord, exists old,
    sort_stable createdAfter (shuffle ord (map snd (map_to_list m))) = ns :: old /\
    NoDup (map (fun rs => om_Name (rrs_Meta rs)) (ns :: old)) /\
    (forall rs, rs ∈ ns :: old <-> m !! om_Name (rrs_Meta rs) = Some rs).
Proof.
  intros Hname Hns Hnewest ord.
  set (l := sort_stable createdAfter (shuffle ord (map snd (map_to_list m)))).
  assert (l ≡ₚ map snd (map_to_list m)) as Hperm
    by (unfold l; by rewrite sort_stable_Permutation, shuffle_Permutation).
  assert (forall rs, rs ∈ l <-> m !! om_Name (rrs_Meta rs) = Some rs) as Hin.
  { intros rs. rewrite Hperm, list_elem_of_fmap. split.
    - intros ([name rs'] & -> & H%elem_of_map_to_list). simpl. by rewrite (Hname _ _ H).
    - intros H. exists (om_Name (rrs_Meta rs), rs). by rewrite elem_of_map_to_list. }
  assert (map (fun rs => om_Name (rrs_Meta rs)) l ≡ₚ map fst (map_to_list m)) as Hnames.
  { rewrite Hperm, map_map. apply reflexive_eq, map_ext_in. intros [name rs] H. simpl.
    apply Hname, elem_of_map_to_list. by apply list_elem_of_In. }
  destruct l as [|ns' old] eqn:Hl.
  { exfalso. apply (not_elem_of_nil ns). by apply Hin. }
  destruct (newest_first _ _ _ _ Hl) as [_ Hmax].
  assert (ns' = ns) as ->.
  { assert (ns ∈ ns' :: old) as Hel by by apply Hin.
    apply elem_of_cons in Hel as [Hel|Hel]; [done|]. rewrite Forall_forall in Hmax. specialize (Hmax _ Hel).
    destruct (decide (om_Name (rrs_Meta ns') = om_Name (rrs_Meta ns))) as [He|He].
    - assert (m !! om_Name (rrs_Meta ns') = Some ns') as H' by (apply Hin; set_solver). congruence.
    - assert (om_CreationTimestamp (rrs_Meta ns') < om_CreationTimestamp (rrs_Meta ns)); [|lia].
      eapply Hnewest; [apply Hin; set_solver|]. congruence. }
  exists old. split_and!; [done| |done]. rewrite Hnames. apply NoDup_fst_map_to_list.
Qed.

(** One reconciliation keeps the newest set, deletes the old sets without
    replicas and scales the others to zero. *)
Lemma rollout_step common req w ns :
  rollingOut common w ns ->
  exists w' l, run (serveRRS own) (Reconcile common req) w = (Done (Val noResult), w', l) /\
    w_sets w' = <[om_Name (rrs_Meta ns) := ns]> (omap drained (w_sets w)) /\
    rd_Meta (w_rd w') = rd_Meta (w_rd w) /\ rd_Spec (w_rd w') = rd_Spec (w_rd w) /\
    rdst_DesiredReplicas (rd_Status (w_rd w')) = Some (default 1 (rds_Replicas (rd_Spec (w_rd w)))) /\
    rdst_UpdatedReplicas (rd_Status (w_rd w')) = Some (default 0 (rrst_Replicas (rrs_Status ns))).
Proof.
  intros [Hdel Hname Hns Hnewest Hready].
  set (desired := withRRSMeta _ _) in Hready. destruct Hready as (Hhash & Hsel & Hrep & Hready).
  destruct (sorted_sets _ _ Hname Hns Hnewest []) as (old & Hsort & Hnd & Hin).
  simpl in Hnd. apply NoDup_cons in Hnd as [Hnsold Hnd].
  destruct (run_drainOldSets old w) as (m & lg & Hrun & Hm & Hm'); [done| |].
  { intros rs Hrs. apply Hin. set_solver. }
  assert (m = <[om_Name (rrs_Meta ns) := ns]> (omap drained (w_sets w))) as Hmap.
  { apply map_eq. intros name. destruct (decide (name = om_Name (rrs_Meta ns))) as [->|Hne].
    { rewrite lookup_insert_eq, Hm' by done. done. }
    rewrite lookup_insert_ne by done. rewrite lookup_omap.
    destruct (w_sets w !! name) as [rs|] eqn:Hrs; simpl.
    - pose proof (Hname _ _ Hrs) as <-. apply Hm. apply Hin in Hrs. set_solver.
    - rewrite Hm'; [done|]. intros Hc. apply list_elem_of_fmap in Hc as (rs & -> & Hc).
      assert (w_sets w !! om_Name (rrs_Meta rs) = Some rs) by (apply Hin; set_solver). congruence. }
  assert (rrss_Replicas (rrs_Spec desired) = rds_Replicas (rd_Spec (w_rd w))) as Hdrep by done.
  assert (getTemplateHash desired = Some (desiredHashOf common (w_rd w))) as Hd
    by apply getTemplateHash_desired.
  unfold Reconcile. cbn -[newRunnerReplicaSet reconcileSets sort_stable shuffle desiredReplicaSet].
  rewrite Hdel. cbn -[reconcileSets sort_stable shuffle desiredReplicaSet withRRSMeta]. rewrite Hsort. fold desired.
  clearbody desired. unfold reconcileSets. rewrite Hhash, Hd. cbv beta iota.
  rewrite (bool_decide_true (_ = desiredHashOf _ _)) by done. cbv beta iota delta [negb].
  rewrite (bool_decide_true (rrss_Selector _ = _)) by done. cbv beta iota delta [negb]. simpl. unfold getIntOrDefault, defaultReplicas.
  rewrite Hdrep, Hrep, Z.eqb_refl. simpl.
  rewrite (proj2 (Z.ltb_ge (default 0 _) _)) by lia. rewrite andb_false_r.
  rewrite (run_bind _ _ _ _ _ _ _ Hrun). unfold patchStatus. case_bool_decide as Hst; simpl.
  - do 2 eexists. split_and!; [reflexivity|done|done|done|simpl; by rewrite Hst..].
  - do 2 eexists. split_and!; [reflexivity|done..].
Qed.

Lemma desiredReplicaSet_ext rd rd' common :
  rd_Meta rd' = rd_Meta rd -> rd_Spec rd' = rd_Spec rd ->
  desiredReplicaSet rd' common = desiredReplicaSet rd common.
Proof. intros Hm Hs. unfold desiredReplicaSet, getSelector. by rewrite Hm, Hs. Qed.

Lemma settled_meta rs : rrs_Meta (settled rs) = rrs_Meta rs.
Proof. unfold settled. by case_decide. Qed.

Lemma settled_spec rs : rrs_Spec (settled rs) = rrs_Spec rs.
Proof. unfold settled. by case_decide. Qed.

Lemma drained_meta rs rs' : drained rs = Some rs' -> rrs_Meta rs' = rrs_Meta rs.
Proof. unfold drained. repeat case_match; intros [= <-]; done. Qed.

(** A drained set that has settled is deleted by the next step. *)
Lemma drained_settled rs rs' : drained rs = Some rs' -> drained (settled rs') = None.
Proof.
  intros H. assert (rrss_Replicas (rrs_Spec rs') = Some 0) as Hz.
  { unfold drained in H. repeat case_match; simplify_eq; done. }
  unfold settled. by rewrite decide_True by done.
Qed.

(** The old sets after a step, by name. *)
Lemma settled_lookup common w w' ns name rs :
  rollingOut common w ns -> w_sets w' = <[om_Name (rrs_Meta ns) := ns]> (omap drained (w_sets w)) ->
  w_sets (settle w') !! name = Some rs ->
  (name = om_Name (rrs_Meta ns) /\ rs = settled ns) \/
  exists rs0 rs1, name <> om_Name (rrs_Meta ns) /\ w_sets w !! name = Some rs0 /\
    drained rs0 = Some rs1 /\ rs = settled rs1.
Proof.
  intros Hro Hw H. unfold settle in H. simpl in H. rewrite Hw, lookup_fmap in H.
  destruct (decide (name = om_Name (rrs_Meta ns))) as [->|Hne].
  - rewrite lookup_insert_eq in H. simpl in H. left. by simplify_eq.
  - rewrite lookup_insert_ne, lookup_omap in H by done.
    destruct (w_sets w !! name) as [rs0|]; simpl in H; [|done].
    destruct (drained rs0) as [rs1|] eqn:Hd; simpl in H; simplify_eq. right. by exists rs0, rs1.
Qed.

Lemma rollingOut_settled common w w' ns :
  rollingOut common w ns -> w_sets w' = <[om_Name (rrs_Meta ns) := ns]> (omap drained (w_sets w)) ->
  rd_Meta (w_rd w') = rd_Meta (w_rd w) -> rd_Spec (w_rd w') = rd_Spec (w_rd w) ->
  rollingOut common (settle w') (settled ns).
Proof.
  intros Hro Hw Hm Hs. pose proof Hro as [Hdel Hname Hns Hnewest (Hhash & Hsel & Hrep & Hready)].
  constructor; unfold settle; cbn [w_rd withSets].
  - by rewrite Hm.
  - intros name rs H. apply (settled_lookup common w w' ns) in H as [[-> ->]|(r0 & r1 & _ & H & Hd & ->)];
      [| |done..].
    + by rewrite settled_meta.
    + rewrite settled_meta, (drained_meta _ _ Hd). by apply Hname.
  - cbn [w_sets withSets]. rewrite Hw, lookup_fmap, settled_meta, lookup_insert_eq. done.
  - intros name rs H Hne. apply (settled_lookup common w w' ns) in H as [[-> ->]|(r0 & r1 & Hn & H & Hd & ->)];
      [done| |done..].
    rewrite !settled_meta, (drained_meta _ _ Hd). apply (Hnewest name); [done|]. intros ->.
    apply Hn. symmetry. by apply Hname.
  - rewrite (desiredReplicaSet_ext (w_rd w)) by done. unfold rolledOut, getTemplateHash in *.
    rewrite Hs, settled_meta, settled_spec. split_and!; [done..|].
    unfold settled. case_decide as Hz; [|done]. rewrite Hz in Hrep. simpl in *. lia.
Qed.

(** C12: a rollout converges.  Against an API server that does what it is
    asked, once the newest replica set is up to date and ready, a
    reconciliation keeps it, deletes every old set without replicas and scales
    the others to zero; when these report that their runners are gone, the next
    reconciliation leaves the newest set alone, unchanged in its metadata and
    specification, and the deployment's status names its replicas. *)
Theorem rd_rollout_converges common req w ns :
  rollingOut common w ns ->
  exists w1 l1 w2 l2,
    run (serveRRS own) (Reconcile common req) w = (Done (Val noResult), w1, l1) /\
    w_sets w1 = <[om_Name (rrs_Meta ns) := ns]> (omap drained (w_sets w)) /\
    run (serveRRS own) (Reconcile common req) (settle w1) = (Done (Val noResult), w2, l2) /\
    w_sets w2 = {[om_Name (rrs_Meta ns) := settled ns]} /\
    rdst_DesiredReplicas (rd_Status (w_rd w2)) = Some (default 1 (rds_Replicas (rd_Spec (w_rd w)))) /\
    rdst_UpdatedReplicas (rd_Status (w_rd w2)) = Some (default 0 (rrst_Replicas (rrs_Status (settled ns)))).
Proof.
  intros Hro. destruct (rollout_step common req w ns Hro) as (w1 & l1 & Hrun1 & Hw1 & Hm1 & Hs1 & _).
  pose proof (rollingOut_settled common w w1 ns Hro Hw1 Hm1 Hs1) as Hro1.
  destruct (rollout_step common req (settle w1) (settled ns) Hro1)
    as (w2 & l2 & Hrun2 & Hw2 & _ & _ & Hd2 & Hu2).
  exists w1, l1, w2, l2. split_and!; [done..| |by rewrite Hd2; cbn [settle w_rd withSets]; rewrite Hs1|done].
  rewrite Hw2, settled_meta. apply map_eq. intros name.
  destruct (decide (name = om_Name (rrs_Meta ns))) as [->|Hne]; [by rewrite lookup_insert_eq, lookup_singleton_eq|].
  rewrite lookup_insert_ne, lookup_singleton_ne by done. rewrite lookup_omap.
  destruct (w_sets (settle w1) !! name) as [rs|] eqn:Hrs; [|done].
  apply (settled_lookup common w w1 ns) in Hrs as [[-> _]|(r0 & r1 & _ & _ & Hd & ->)]; [done| |done..].
  by apply (drained_settled r0).
Qed.

End Rollout.
