(* ===== verification/Scheme.v ===== *)
(** * The schemes of the programs (src/api/v1alpha1/groupversion_info.go and the [init] functions)

    A scheme names the kinds that a client may read and write, and gives the
    API version and kind that [SetControllerReference] writes into an owner
    reference.  Go runs the [init] functions of a package in the order of its
    file names, after its variables are initialised; [AddToScheme] is bound to
    the pointer [SchemeBuilder], so it adds what they registered. *)

From stdpp Require Import base list gmap strings.
From S2P Require Import Prelude Api RunnerPod RunnerDeployment.

Open Scope string_scope.

Definition GroupVersionKind : Type := string * string * string.

(** [scheme.Builder] *)
Record Builder := mkBuilder { bd_Group : string; bd_Version : string; bd_Objects : list string }.

Definition Register (b : Builder) (objects : list string) : Builder :=
  {| bd_Group := bd_Group b; bd_Version := bd_Version b; bd_Objects := (bd_Objects b ++ objects)%list |}.

Definition newSchemeBuilder : Builder := mkBuilder "actions.summerwind.dev" "v1alpha1" [].

(** The five [init] functions. *)
Definition init_HorizontalRunnerAutoscaler (b : Builder) : Builder :=
  Register b ["HorizontalRunnerAutoscaler"; "HorizontalRunnerAutoscalerList"].
Definition init_Runner (b : Builder) : Builder := Register b ["Runner"; "RunnerList"].
Definition init_RunnerDeployment (b : Builder) : Builder := Register b ["RunnerDeployment"; "RunnerDeploymentList"].
Definition init_RunnerReplicaSet (b : Builder) : Builder := Register b ["RunnerReplicaSet"; "RunnerReplicaSetList"].
Definition init_RunnerSet (b : Builder) : Builder := Register b ["RunnerSet"; "RunnerSetList"].

Definition SchemeBuilder : Builder :=
  init_RunnerSet (init_RunnerReplicaSet (init_RunnerDeployment (init_Runner
    (init_HorizontalRunnerAutoscaler newSchemeBuilder)))).

Definition AddToScheme (b : Builder) (scheme : gset GroupVersionKind) : gset GroupVersionKind :=
  scheme ∪ list_to_set (map (fun kind => (bd_Group b, bd_Version b, kind)) (bd_Objects b)).

(** The kinds that client-go's scheme adds. *)
Class ClientGoScheme := { clientGoKinds : gset GroupVersionKind }.

(** It has the kinds of the core and apps groups. *)
Class ClientGoSchemeLaws {C : ClientGoScheme} : Prop := {
  clientGo_core kind : kind ∈ ["Pod"; "PodList"; "ConfigMap"] -> ("", "v1", kind) ∈ clientGoKinds;
  clientGo_apps kind : kind ∈ ["StatefulSet"; "StatefulSetList"] -> ("apps", "v1", kind) ∈ clientGoKinds
}.

Section Schemes.
Context {C : ClientGoScheme}.

(** [init] of src/main.go, of the webhook server and of the forwarder. *)
Definition managerScheme : gset GroupVersionKind := AddToScheme SchemeBuilder (∅ ∪ clientGoKinds).
Definition webhookServerScheme : gset GroupVersionKind := AddToScheme SchemeBuilder (∅ ∪ clientGoKinds).
Definition forwarderScheme : gset GroupVersionKind := ∅ ∪ clientGoKinds.

(** The kind of an object, by name. *)
Definition kindName (k : kind) : string :=
  match k with
  | KPod => "Pod" | KRunner => "Runner" | KRRS => "RunnerReplicaSet" | KRD => "RunnerDeployment"
  | KRunnerSet => "RunnerSet" | KStatefulSet => "StatefulSet" | KHRA => "HorizontalRunnerAutoscaler"
  end.

Definition groupVersionOf (k : kind) : string * string :=
  match k with
  | KPod => ("", "v1")
  | KStatefulSet => ("apps", "v1")
  | _ => (bd_Group SchemeBuilder, bd_Version SchemeBuilder)
  end.

Definition gvk (k : kind) (suffix : string) : GroupVersionKind :=
  (groupVersionOf k, kindName k +:+ suffix).

(** The reference that [SetControllerReference] gives to what [owner] owns. *)
Definition controllerReference (k : kind) (owner : ObjectMeta) : OwnerReference :=
  let (group, version) := groupVersionOf k in
  {| or_APIVersion := if decide (group = "") then version else group +:+ "/" +:+ version;
     or_Kind := kindName k; or_Name := om_Name owner; or_Controller := true |}.

Context {CL : ClientGoSchemeLaws}.

(** Every kind that the controllers read, list or write, and its list, is in
    the scheme of the manager and of the webhook server, which the managers'
    clients and [SetControllerReference] go by; and the config maps of the
    checkpoints are in the forwarder's. *)
Theorem schemes_complete k suffix :
  suffix ∈ [""; "List"] ->
  gvk k suffix ∈ managerScheme /\ gvk k suffix ∈ webhookServerScheme /\
  (("", "v1", "ConfigMap") : GroupVersionKind) ∈ forwarderScheme.
Proof.
  intros Hs. assert (forall s, gvk k suffix ∈ AddToScheme SchemeBuilder (s ∪ clientGoKinds)) as Hk.
  { intros s. unfold AddToScheme. repeat (apply elem_of_cons in Hs as [->|Hs]); [..|by apply not_elem_of_nil in Hs].
    all: rewrite elem_of_union, elem_of_union, elem_of_list_to_set; destruct k; cbn;
      first [left; right; (apply clientGo_core || apply clientGo_apps); set_solver
            | right; repeat first [apply list_elem_of_here | apply list_elem_of_further]]. }
  split_and!; [apply Hk..|]. unfold forwarderScheme. apply elem_of_union. right. apply clientGo_core. set_solver.
Qed.

(** A replica set that was given its controller reference from this scheme is
    found again through the index of its deployment, by which the deployment
    controller lists its sets, and through no other. *)
Theorem controllerReference_indexed k owner m :
  om_OwnerReferences m = [controllerReference k owner] ->
  runnerReplicaSetOwnerIndex m = if decide (k = KRD) then [om_Name owner] else [].
Proof.
  intros Hm. unfold runnerReplicaSetOwnerIndex, GetControllerOf. rewrite Hm. by destruct k; vm_compute.
Qed.

End Schemes.
