(* ===== verification/RunnerSetController.v ===== *)
(** * The RunnerSet controller (src/controllers/runnerset_controller.go)

    Turns a RunnerSet into StatefulSets of one replica each, which
    [syncRunnerPodsOwners] creates and retires, and reports their counts. *)

From stdpp Require Import base list gmap strings.
From Stdlib Require Import ZArith Lia.
From S2P Require Import Prelude Api GoStrings GitHubClient RunnerPod GracefulStop PodOwner Hash PodBuilder RunnerDeployment.

Open Scope string_scope.
Open Scope Z_scope.

Definition getRunnerSetSelector (rs : RunnerSet) : LabelSelector :=
  match ss_Selector (rss_StatefulSetSpec (rs_Spec rs)) with
  | Some s => s
  | None => {| ls_MatchLabels := {[LabelKeyRunnerSetName := om_Name (rs_Meta rs)]};
               ls_MatchExpressions := None |}
  end.

Definition withSSReplicas (s : StatefulSet) (n : option Z) : StatefulSet :=
  let sp := sts_Spec s in
  {| sts_Meta := sts_Meta s;
     sts_Spec := {| ss_Replicas := n; ss_Selector := ss_Selector sp; ss_TemplateMeta := ss_TemplateMeta sp;
                    ss_TemplateSpec := ss_TemplateSpec sp; ss_rest := ss_rest sp |};
     sts_Status := sts_Status s |}.

Definition statefulSetOwnerIndex (m : ObjectMeta) : list string :=
  match GetControllerOf m with
  | None => []
  | Some owner =>
      if negb (bool_decide (or_APIVersion owner = GroupVersion)) ||
         negb (bool_decide (or_Kind owner = "RunnerSet"))
      then [] else [or_Name owner]
  end.

Section RunnerSetController.
Context {P : Printing} {rfc : RFC3339} (d : podDefaults).

(** The stateful set, before it gets its owner reference, for the pod that
    [newRunnerPod] builds from the template.  The labels that the reconciler
    adds to a copy of the configuration do not reach the pod. *)
Definition statefulSetOf (rs : RunnerSet) (pod : Pod) (now : time) : StatefulSet :=
  let ss := rss_StatefulSetSpec (rs_Spec rs) in
  let templateHash := ComputeHash (HPodSpec (pod_Spec pod)) in
  let selector := getRunnerSetSelector rs in
  let selector := CloneSelectorAndAddLabel selector LabelKeyRunnerTemplateHash templateHash in
  let selector := CloneSelectorAndAddLabel selector LabelKeyRunnerSetName (om_Name (rs_Meta rs)) in
  let selector := CloneSelectorAndAddLabel selector LabelKeyPodMutation LabelValuePodMutation in
  {| sts_Meta :=
       {| om_Name := ""; om_GenerateName := om_Name (rs_Meta rs) +:+ "-";
          om_Namespace := om_Namespace (rs_Meta rs);
          om_Labels := CloneAndAddLabel (om_Labels (rs_Meta rs)) LabelKeyRunnerTemplateHash templateHash;
          om_Annotations := {[SyncTimeAnnotationKey := FormatRFC3339 now]};
          om_CreationTimestamp := 0; om_DeletionTimestamp := None; om_Finalizers := [];
          om_OwnerReferences := [] |};
     sts_Spec :=
       {| ss_Replicas := ss_Replicas ss; ss_Selector := Some selector;
          ss_TemplateMeta := withLabels (pod_Meta pod)
            (CloneAndAddLabel (om_Labels (pod_Meta pod)) LabelKeyRunnerTemplateHash templateHash);
          ss_TemplateSpec := withRestart (pod_Spec pod) "Always" (ps_ImagePullSecrets (pod_Spec pod));
          ss_rest := ss_rest ss |};
     sts_Status := mkStatefulSetStatus 0 0 0 0 |}.

Definition templatePod (rs : RunnerSet) : Pod :=
  let ss := rss_StatefulSetSpec (rs_Spec rs) in
  {| pod_Meta := ss_TemplateMeta ss; pod_Spec := ss_TemplateSpec ss; pod_Status := emptyPodStatus |}.

Definition newStatefulSet (rs : RunnerSet) : M (result StatefulSet) :=
  match newRunnerPod (om_Name (rs_Meta rs)) (templatePod rs) (rss_Config (rs_Spec rs)) d false with
  | Err e => Ret (Err e)
  | Val pod =>
      now <- ask Now ;;
      let s := statefulSetOf rs pod now in
      try own <- ask (SetControllerReference KRunnerSet (rs_Meta rs) (sts_Meta s)) ;;
      Ret (Val (withStatefulSetMeta s (withOwnerReferences (sts_Meta s) own)))
  end.

Definition runnerSetStatus (newDesiredReplicas : Z) (currentObjects : list (podsForOwner KStatefulSet))
  : RunnerSetStatus :=
  let sum f := sumOf (fun ss : podsForOwner KStatefulSet => f (sts_Status (owner ss : StatefulSet))) currentObjects in
  {| rsst_CurrentReplicas := Some (sum sst_CurrentReplicas); rsst_ReadyReplicas := Some (sum sst_ReadyReplicas);
     rsst_UpdatedReplicas := Some (sum sst_UpdatedReplicas); rsst_DesiredReplicas := Some newDesiredReplicas;
     rsst_Replicas := Some (sum sst_Replicas) |}.

(** [reflect.DeepEqual] compares the status with a pointer to the new one, so
    they always differ and the status is always patched. *)
Definition patchRunnerSetStatus (rs : RunnerSet) (status : RunnerSetStatus) : M (result Result) :=
  let updated := {| rs_Meta := rs_Meta rs; rs_Spec := rs_Spec rs; rs_Status := status |} in
  r <- ask (StatusPatch KRunnerSet updated rs) ;;
  Ret (Val (match r with
            | Err _ => {| Requeue := true; RequeueAfter := 0 |}
            | Val _ => noResult
            end)).

Definition syncRunnerSet (rs : RunnerSet) (statefulsets : list StatefulSet) : M (result Result) :=
  if 1000 <? Z.of_nat (length statefulsets) then Ret (Val noResult)
  else
    try desiredStatefulSet <- newStatefulSet rs ;;
    let create := withSSReplicas desiredStatefulSet (Some 1) in
    let newDesiredReplicas := getIntOrDefault (ss_Replicas (sts_Spec desiredStatefulSet)) defaultReplicas in
    let effectiveTime := rss_EffectiveTime (rs_Spec rs) in
    let ephemeral := default true (rc_Ephemeral (rss_Config (rs_Spec rs))) in
    try res <- syncRunnerPodsOwners (k := KStatefulSet) effectiveTime newDesiredReplicas create ephemeral statefulsets ;;
    match res with
    | None => Ret (Val noResult)
    | Some currentObjects => patchRunnerSetStatus rs (runnerSetStatus newDesiredReplicas currentObjects)
    end.

Definition ReconcileRunnerSet (req : NamespacedName) : M (result Result) :=
  g <- ask (Get KRunnerSet req) ;;
  match g with
  | Err e => Ret (match IgnoreNotFound e with Some e => Err e | None => Val noResult end)
  | Val rs =>
      if negb (IsZero (om_DeletionTimestamp (rs_Meta rs))) then Ret (Val noResult)
      else
        try statefulsets <- ask (List KStatefulSet [InNamespace (nn_Namespace req);
                                   MatchingFields ".metadata.controller" (nn_Name req)]) ;;
        syncRunnerSet rs statefulsets
  end.

(** ** Specification *)

(** The replicas a runner set asks for. *)
Definition wantedSets (rs : RunnerSet) : Z := default 1 (ss_Replicas (rss_StatefulSetSpec (rs_Spec rs))).

(** The sum of a counter over the statuses of the stateful sets of a pool. *)
Definition sumStatus (f : StatefulSetStatus -> Z) (cur : list (podsForOwner KStatefulSet)) : Z :=
  sumZ (map (fun ss : podsForOwner KStatefulSet => f (sts_Status (owner ss : StatefulSet))) cur).

(** The reasons for a write: those of the synchronisation of the listed
    stateful sets towards the wanted number of them, and the status that sums
    up the whole pool. *)
Inductive rsJustified (rs : RunnerSet) (sets : list StatefulSet) (create : StatefulSet) (l : log)
  : event ans -> Prop :=
| rsj_sync e :
    justified (k := KStatefulSet) sets create (wantedSets rs) l e -> rsJustified rs sets create l e
| rsj_status cur st r :
    pool (k := KStatefulSet) sets create l cur ->
    rsst_DesiredReplicas st = Some (wantedSets rs) ->
    rsst_Replicas st = Some (sumStatus sst_Replicas cur) ->
    rsst_CurrentReplicas st = Some (sumStatus sst_CurrentReplicas cur) ->
    rsst_ReadyReplicas st = Some (sumStatus sst_ReadyReplicas cur) ->
    rsst_UpdatedReplicas st = Some (sumStatus sst_UpdatedReplicas cur) ->
    rsJustified rs sets create l
      (EvA (StatusPatch KRunnerSet {| rs_Meta := rs_Meta rs; rs_Spec := rs_Spec rs; rs_Status := st |} rs) r).

(** The stateful set to create: of one replica, from the runner set's pod. *)
Definition statefulSetFor (rs : RunnerSet) (create : StatefulSet) : Prop :=
  exists pod now own,
    newRunnerPod (om_Name (rs_Meta rs)) (templatePod rs) (rss_Config (rs_Spec rs)) d false = Val pod /\
    create = withSSReplicas (withStatefulSetMeta (statefulSetOf rs pod now)
      (withOwnerReferences (sts_Meta (statefulSetOf rs pod now)) own)) (Some 1).

Lemma rsJustified_mono rs sets create l l' e :
  l ⊆ l' -> rsJustified rs sets create l e -> rsJustified rs sets create l' e.
Proof.
  intros Hl [e' He|cur st r Hcur ? ? ? ? ?].
  - apply rsj_sync. by eapply justified_mono.
  - eapply rsj_status; eauto using pool_mono.
Qed.

Lemma rsJustified_reads rs sets create l l0 : reads l0 -> Forall (rsJustified rs sets create l) l0.
Proof. intros H. eapply Forall_impl; [exact H|]. intros e He. by apply rsj_sync, j_read. Qed.

Lemma newStatefulSet_spec rs :
  always (newStatefulSet rs) (fun out l => reads l /\
    match out with
    | Done (Val s) => statefulSetFor rs (withSSReplicas s (Some 1)) /\
        ss_Replicas (sts_Spec s) = ss_Replicas (rss_StatefulSetSpec (rs_Spec rs))
    | Done (Err _) => True
    | _ => False
    end).
Proof.
  unfold newStatefulSet, statefulSetFor. destruct (newRunnerPod _ _ _ _ _) as [pod|e] eqn:Hp; [|by split].
  simpl. intros now. intros [own|e]; simpl; (split; [by repeat constructor|]); [|done].
  split; [|done]. by exists pod, now, own.
Qed.

(** How a run ends: with a result, or, if a stateful set lacks its hash, a
    panic. *)
Definition rsEndsWell (sets : list StatefulSet) (out : outcome (result Result)) : Prop :=
  (exists r, out = Done r) \/
  exists m s, out = Panicked m /\ s ∈ sets /\ getRunnerTemplateHash (sts_Meta s) = None.

Lemma syncRunnerSet_spec rs sets :
  always (syncRunnerSet rs sets) (fun out l =>
    (reads l /\ exists r, out = Done r) \/
    exists create, statefulSetFor rs create /\ Forall (rsJustified rs sets create l) l /\ rsEndsWell sets out).
Proof.
  unfold syncRunnerSet. destruct (_ <? _); [left; simpl; eauto|].
  apply always_bind. eapply always_mono; [|apply newStatefulSet_spec].
  intros [[s|e]|m|] l [Hl Hd]; simpl; try done; [|rewrite app_nil_r; eauto].
  destruct Hd as [Hd Hrep]. set (create := withSSReplicas s (Some 1)) in *.
  apply always_bind. eapply always_mono; [|apply (sync_spec (k := KStatefulSet))].
  intros out l' [Hl' Hout].
  assert (forall k : log, (l ++ l')%list ⊆ k -> Forall (rsJustified rs sets create k) (l ++ l')%list) as Hall.
  { intros k Hk. apply Forall_app_2; [by apply rsJustified_reads|].
    assert (wantedSets rs = getIntOrDefault (ss_Replicas (sts_Spec s)) defaultReplicas) as Hn by by rewrite Hrep.
    rewrite <- Hn in Hl'. eapply Forall_impl; [exact Hl'|]. intros e He. apply rsj_sync. eapply justified_mono; [|exact He]. set_solver. }
  destruct out as [[[cur|]|e]|m|]; simpl; rewrite ?app_nil_r; try done.
  - intros r. right. exists create. split_and!; [done| |left; eauto].
    rewrite app_assoc. apply Forall_app_2; [apply Hall; set_solver|]. apply Forall_singleton.
    eapply (rsj_status _ _ _ _ cur); [|by rewrite Hrep|done..].
    eapply pool_mono; [|exact Hout]. set_solver.
  - right. exists create. split_and!; [done|by apply Hall|left; eauto].
  - right. exists create. split_and!; [done|by apply Hall|left; eauto].
  - right. exists create. split_and!; [done|by apply Hall|right]. destruct Hout as (r & ? & ?). eauto.
Qed.

(** C28: the RunnerSet controller writes only what the synchronisation of its
    own stateful sets justifies, towards as many stateful sets of one replica
    made from its template as it asks for, and its status, which reports that
    number and sums up the statuses of the whole pool, that is, of all of its
    stateful sets of its template but those on their way out.  It panics only
    if one of its stateful sets has no template hash. *)
Theorem runnerset_writes_justified req :
  always (ReconcileRunnerSet req) (fun out l =>
    (reads l /\ (exists r, out = Done r)) \/
    exists rs sets create,
      EvA (Get KRunnerSet req) (Val rs) ∈ l /\
      IsZero (om_DeletionTimestamp (rs_Meta rs)) = true /\
      EvA (List KStatefulSet [InNamespace (nn_Namespace req);
             MatchingFields ".metadata.controller" (nn_Name req)]) (Val sets) ∈ l /\
      statefulSetFor rs create /\
      Forall (rsJustified rs sets create l) l /\
      rsEndsWell sets out).
Proof.
  unfold ReconcileRunnerSet. simpl. intros [rs|e]; [|left; split; [by repeat constructor|eauto]].
  destruct (IsZero _) eqn:Hdel; simpl; [|left; split; [by repeat constructor|eauto]].
  intros [sets|e]; [|left; split; [by repeat constructor|eauto]].
  set (pre := [EvA (Get KRunnerSet req) (Val rs); EvA (List KStatefulSet [InNamespace (nn_Namespace req);
    MatchingFields ".metadata.controller" (nn_Name req)]) (Val sets)]).
  assert (reads pre) as Hpre by by repeat constructor.
  eapply always_mono; [|apply syncRunnerSet_spec]. intros out l [[Hl Hout]|(c & Hc & Hl & Hout)].
  { left. split; [|done]. by apply (Forall_app_2 _ pre). }
  right. exists rs, sets, c. change (_ :: _ :: l) with (pre ++ l)%list.
  split_and!; [set_solver|done|set_solver|done| |done].
  apply Forall_app_2; [by apply rsJustified_reads|].
  eapply Forall_impl; [exact Hl|]. intros e. apply rsJustified_mono. set_solver.
Qed.

(** Kubernetes accepts and the controller finds again what it creates: the
    selector of the stateful set matches the labels of its pods' template,
    whenever the selector the user gave, if any, matches the labels given
    there; and the template hash in the stateful set's own labels is that of
    its pods. *)
Theorem statefulset_selector_selects rs pod now :
  newRunnerPod (om_Name (rs_Meta rs)) (templatePod rs) (rss_Config (rs_Spec rs)) d false = Val pod ->
  (forall s, ss_Selector (rss_StatefulSetSpec (rs_Spec rs)) = Some s ->
     ls_MatchLabels s ⊆ om_Labels (ss_TemplateMeta (rss_StatefulSetSpec (rs_Spec rs)))) ->
  let s := statefulSetOf rs pod now in
  exists sel, ss_Selector (sts_Spec s) = Some sel /\
    ls_MatchLabels sel ⊆ om_Labels (ss_TemplateMeta (sts_Spec s)) /\
    om_Labels (ss_TemplateMeta (sts_Spec s)) !! LabelKeyRunnerTemplateHash
      = om_Labels (sts_Meta s) !! LabelKeyRunnerTemplateHash.
Proof.
  intros Hp Hsel s. apply newRunnerPod_inv in Hp as (_ & _ & _ & Hlabels). eexists. split; [done|].
  unfold s, statefulSetOf, getRunnerSetSelector, CloneSelectorAndAddLabel, CloneAndAddLabel.
  repeat (rewrite decide_False by done). cbn. rewrite Hlabels. cbn. split.
  - apply map_subseteq_spec. intros k v H.
    apply lookup_insert_Some in H as [[<- <-]|[Hk1 H]].
    { rewrite lookup_insert_ne by done. by rewrite lookup_insert_eq. }
    apply lookup_insert_Some in H as [[<- <-]|[Hk2 H]].
    { do 2 rewrite lookup_insert_ne by done. by rewrite lookup_insert_eq. }
    apply lookup_insert_Some in H as [[<- <-]|[Hk3 H]]; [by rewrite lookup_insert_eq|].
    rewrite !lookup_insert_ne by done. destruct (ss_Selector _) as [u|] eqn:Hu.
    + by eapply lookup_weaken; [|apply Hsel].
    + simpl in H. by apply lookup_singleton_Some in H as [? _].
  - by rewrite !lookup_insert_eq.
Qed.

End RunnerSetController.
