(* ===== verification/ReplicaSet.v ===== *)
(** * The RunnerReplicaSet controller (src/controllers/runnerreplicaset_controller.go)

    Lists the runners that the selector matches and hands them to
    [syncRunnerPodsOwners], then reports the counts in its status. *)

From stdpp Require Import base list gmap strings.
From Stdlib Require Import ZArith Lia.
From S2P Require Import Prelude Api GoStrings GitHubClient Hash RunnerPod GracefulStop PodOwner RunnerDeployment.

Open Scope string_scope.
Open Scope Z_scope.

Section ReplicaSet.
Context {P : Printing} {rfc : RFC3339}.

(** Add the template hash that a set written by hand lacks, in memory only. *)
Definition ensureTemplateHash (rs : RunnerReplicaSet) : RunnerReplicaSet :=
  if decide (default "" (om_Labels (rrs_Meta rs) !! LabelKeyRunnerTemplateHash) = "") then
    let templateHash := ComputeHash (HRRSSpec (withRRSReplicas (rrs_Spec rs) None None)) in
    let template := rrss_Template (rrs_Spec rs) in
    {| rrs_Meta := withLabels (rrs_Meta rs)
         (CloneAndAddLabel (om_Labels (rrs_Meta rs)) LabelKeyRunnerTemplateHash templateHash);
       rrs_Spec := {| rrss_Replicas := rrss_Replicas (rrs_Spec rs);
                      rrss_EffectiveTime := rrss_EffectiveTime (rrs_Spec rs);
                      rrss_Selector := rrss_Selector (rrs_Spec rs);
                      rrss_Template := withTemplateLabels template
                        (CloneAndAddLabel (om_Labels (rt_Meta template))
                           LabelKeyRunnerTemplateHash templateHash) |};
       rrs_Status := rrs_Status rs |}
  else rs.

(** The metadata of a new runner, before it gets its owner reference. *)
Definition newRunnerMeta (rs : RunnerReplicaSet) (now : time) : ObjectMeta :=
  let m := rt_Meta (rrss_Template (rrs_Spec rs)) in
  setAnnotation
    {| om_Name := om_Name m; om_GenerateName := om_Name (rrs_Meta rs) +:+ "-";
       om_Namespace := om_Namespace (rrs_Meta rs); om_Labels := om_Labels m;
       om_Annotations := om_Annotations m; om_CreationTimestamp := om_CreationTimestamp m;
       om_DeletionTimestamp := om_DeletionTimestamp m; om_Finalizers := om_Finalizers m;
       om_OwnerReferences := om_OwnerReferences m |}
    SyncTimeAnnotationKey (FormatRFC3339 now).

Definition emptyRunnerStatus : RunnerStatus :=
  {| rst_Ready := false;
     rst_Registration := {| rsr_Enterprise := ""; rsr_Organization := ""; rsr_Repository := "";
                            rsr_Labels := []; rsr_Token := ""; rsr_ExpiresAt := 0 |};
     rst_Phase := ""; rst_Reason := ""; rst_Message := "";
     rst_LastRegistrationCheckTime := None |}.

Definition newRunner (rs : RunnerReplicaSet) : M (result Runner) :=
  now <- ask Now ;;
  let objectMeta := newRunnerMeta rs now in
  try own <- ask (SetControllerReference KRRS (rrs_Meta rs) objectMeta) ;;
  Ret (Val {| r_Meta := withOwnerReferences objectMeta own;
              r_Spec := rt_Spec (rrss_Template (rrs_Spec rs));
              r_Status := emptyRunnerStatus |}).

Definition replicaSetStatus (currentObjects : list (podsForOwner KRunner)) : RunnerReplicaSetStatus :=
  let current := sumOf total currentObjects in
  let available := sumOf running currentObjects in
  let ready := sumOf running currentObjects in
  {| rrst_Replicas := Some current; rrst_ReadyReplicas := Some ready;
     rrst_AvailableReplicas := Some available |}.

Definition patchReplicaSetStatus (rs : RunnerReplicaSet) (status : RunnerReplicaSetStatus)
  : M (result Result) :=
  if bool_decide (rrs_Status rs = status) then Ret (Val noResult)
  else
    let updated := {| rrs_Meta := rrs_Meta rs; rrs_Spec := rrs_Spec rs; rrs_Status := status |} in
    r <- ask (StatusPatch KRRS updated rs) ;;
    Ret (Val (match r with
              | Err _ => {| Requeue := true; RequeueAfter := 0 |}
              | Val _ => noResult
              end)).

(** Whether runners are ephemeral: they are unless told otherwise. *)
Definition ephemeralRunners (c : RunnerConfig) : bool := default true (rc_Ephemeral c).

(** From the point where the runners are listed. *)
Definition syncReplicaSet (rs : RunnerReplicaSet) (runners : list Runner) : M (result Result) :=
  let replicas := default 1 (rrss_Replicas (rrs_Spec rs)) in
  let effectiveTime := rrss_EffectiveTime (rrs_Spec rs) in
  let ephemeral := ephemeralRunners (rsp_Config (rt_Spec (rrss_Template (rrs_Spec rs)))) in
  try desired <- newRunner rs ;;
  try res <- syncRunnerPodsOwners (k := KRunner) effectiveTime replicas desired ephemeral runners ;;
  match res with
  | None => Ret (Val noResult)
  | Some currentObjects => patchReplicaSetStatus rs (replicaSetStatus currentObjects)
  end.

Definition ReconcileReplicaSet (req : NamespacedName) : M (result Result) :=
  g <- ask (Get KRRS req) ;;
  match g with
  | Err e => Ret (match IgnoreNotFound e with Some e => Err e | None => Val noResult end)
  | Val rs =>
      if negb (IsZero (om_DeletionTimestamp (rrs_Meta rs))) then Ret (Val noResult)
      else
        let rs := ensureTemplateHash rs in
        e <- ask (SelectorAsSelector (rrss_Selector (rrs_Spec rs))) ;;
        match e with
        | Some e => Ret (Err e)
        | None =>
            r <- ask (List KRunner [InNamespace (nn_Namespace req);
                                    MatchingLabelsSelector (rrss_Selector (rrs_Spec rs))]) ;;
            match match r with
                  | Val l => Val l
                  | Err e => if err_notfound e then Val [] else Err e
                  end with
            | Err e => Ret (Err e)
            | Val runners => syncReplicaSet rs runners
            end
        end
  end.

(** * Specification *)

(** The replicas a set asks for. *)
Definition wantedReplicas (rs : RunnerReplicaSet) : Z := default 1 (rrss_Replicas (rrs_Spec rs)).

(** The reasons for a write: those of the synchronisation of the listed
    runners towards the wanted number of runners made from the template, and
    the status that sums the whole pool up: its pods, and those of them that
    run. *)
Inductive rrsJustified (rs : RunnerReplicaSet) (runners : list Runner) (desired : Runner) (l : log)
  : event ans -> Prop :=
| rrj_sync e :
    justified (k := KRunner) runners desired (wantedReplicas rs) l e -> rrsJustified rs runners desired l e
| rrj_status cur st r :
    pool (k := KRunner) runners desired l cur ->
    rrst_Replicas st = Some (sumZ (map (fun ss => Z.of_nat (length (pods ss))) cur)) ->
    rrst_AvailableReplicas st = Some (sumOf running cur) ->
    rrst_ReadyReplicas st = Some (sumOf running cur) ->
    rrs_Status rs <> st ->
    rrsJustified rs runners desired l
      (EvA (StatusPatch KRRS {| rrs_Meta := rrs_Meta rs; rrs_Spec := rrs_Spec rs; rrs_Status := st |} rs) r).

(** What the listed runners and the runner to create have to do with the set:
    the new runner is the template's, under the set's name. *)
Definition runnerOf (rs : RunnerReplicaSet) (desired : Runner) : Prop :=
  r_Spec desired = rt_Spec (rrss_Template (rrs_Spec rs)) /\
  om_Labels (r_Meta desired) = om_Labels (rt_Meta (rrss_Template (rrs_Spec rs))) /\
  om_Namespace (r_Meta desired) = om_Namespace (rrs_Meta rs) /\
  om_GenerateName (r_Meta desired) = om_Name (rrs_Meta rs) +:+ "-" /\
  is_Some (getAnnotation (r_Meta desired) SyncTimeAnnotationKey).

Lemma ensureTemplateHash_hash rs :
  exists h, om_Labels (rrs_Meta (ensureTemplateHash rs)) !! LabelKeyRunnerTemplateHash = Some h /\
    (default "" (om_Labels (rrs_Meta rs) !! LabelKeyRunnerTemplateHash) = "" ->
     om_Labels (rt_Meta (rrss_Template (rrs_Spec (ensureTemplateHash rs)))) !! LabelKeyRunnerTemplateHash
     = Some h).
Proof.
  unfold ensureTemplateHash. case_decide as Hd; simpl.
  - unfold CloneAndAddLabel. simpl. eexists. by rewrite !lookup_insert_eq.
  - destruct (om_Labels (rrs_Meta rs) !! _) as [h|]; [|done]. exists h. split; [done|]. done.
Qed.

Lemma newRunner_spec rs :
  always (newRunner rs) (fun out l => reads l /\
    match out with
    | Done (Val d) => runnerOf rs d
    | Done (Err _) => True
    | _ => False
    end).
Proof.
  unfold newRunner. simpl. intros now. intros [own|e]; simpl.
  - split; [by repeat constructor|]. unfold runnerOf. simpl. split_and!; try done.
    eexists. apply lookup_insert_eq.
  - split; [by repeat constructor|done].
Qed.

Lemma sumOf_total l (runners : list Runner) desired (cur : list (podsForOwner KRunner)) :
  pool (k := KRunner) runners desired l cur ->
  sumOf total cur = sumZ (map (fun ss => Z.of_nat (length (pods ss))) cur).
Proof.
  intros [[hash Hh] Hcur _ _]. unfold sumOf. f_equal. apply map_ext_in. intros ss Hss.
  apply list_elem_of_In in Hss. apply (ok_total _ _ (col_ok _ _ _ _ (Hcur _ _ Hh Hss))).
Qed.

Lemma rrsJustified_mono rs runners desired l l' e :
  l ⊆ l' -> rrsJustified rs runners desired l e -> rrsJustified rs runners desired l' e.
Proof.
  intros Hl [e' He|cur st r Hcur ? ? ? ?].
  - apply rrj_sync. by eapply justified_mono.
  - eapply rrj_status; eauto using pool_mono.
Qed.

Lemma rrsJustified_reads rs runners desired l l0 :
  reads l0 -> Forall (rrsJustified rs runners desired l) l0.
Proof. intros H. eapply Forall_impl; [exact H|]. intros e He. by apply rrj_sync, j_read. Qed.

(** How a run ends: with a result, or, if a runner lacks its hash, a panic. *)
Definition endsWell (runners : list Runner) (out : outcome (result Result)) : Prop :=
  (exists r, out = Done r) \/
  exists m r, out = Panicked m /\ r ∈ runners /\ getRunnerTemplateHash (r_Meta r) = None.

Lemma patchReplicaSetStatus_spec rs st :
  always (patchReplicaSetStatus rs st) (fun out l => (exists r, out = Done (Val r)) /\
    (l = [] \/ rrs_Status rs <> st /\ exists r, l = [EvA (StatusPatch KRRS
       {| rrs_Meta := rrs_Meta rs; rrs_Spec := rrs_Spec rs; rrs_Status := st |} rs) r])).
Proof.
  unfold patchReplicaSetStatus. case_bool_decide; simpl; [eauto|]. intros r. split; [by eexists|]. eauto.
Qed.

Lemma syncReplicaSet_spec rs runners :
  always (syncReplicaSet rs runners) (fun out l =>
    (reads l /\ exists r, out = Done r) \/
    exists desired, runnerOf rs desired /\ Forall (rrsJustified rs runners desired l) l /\
      endsWell runners out).
Proof.
  unfold syncReplicaSet. apply always_bind. eapply always_mono; [|apply newRunner_spec].
  intros [[d|e]|m|] l [Hl Hd]; simpl; try done; [|rewrite app_nil_r; eauto].
  apply always_bind. eapply always_mono; [|apply (sync_spec (k := KRunner))].
  intros out l' [Hl' Hout].
  assert (Forall (rrsJustified rs runners d (l ++ l')%list) (l ++ l')%list) as Hall.
  { apply Forall_app_2; [by apply rrsJustified_reads|].
    eapply Forall_impl; [exact Hl'|]. intros e He. apply rrj_sync.
    eapply justified_mono; [|exact He]. set_solver. }
  destruct out as [[[cur|]|e]|m|]; simpl; rewrite ?app_nil_r; try done.
  - eapply always_mono; [|apply patchReplicaSetStatus_spec]. intros out l2 [[r ->] Hl2].
    right. exists d. split_and!; [done| |left; eauto]. rewrite app_assoc.
    apply Forall_app_2.
    { eapply Forall_impl; [exact Hall|]. intros e. apply rrsJustified_mono. set_solver. }
    destruct Hl2 as [->|(Hne & r' & ->)]; [done|]. apply Forall_singleton.
    eapply (rrj_status _ _ _ _ cur); [|simpl|done..|exact Hne].
    + eapply pool_mono; [|exact Hout]. set_solver.
    + f_equal. by apply (sumOf_total l' runners d).
  - right. exists d. split_and!; [done..|left; eauto].
  - right. exists d. split_and!; [done..|left; eauto].
  - right. exists d. split_and!; [done..|right]. destruct Hout as (r & ? & ?). eauto.
Qed.

(** C13: the replica set controller writes only what the synchronisation of the
    runners its selector matches, towards the replicas it asks for (one, if it
    does not say), justifies, and its status, which reports the number of pods
    of the whole pool, that is, of all the runners of its template but those on
    their way out, and how many of them run.  Only a list that is not found
    counts as no runners.  It panics only if one of the matched runners has no
    template hash. *)
Theorem rrs_writes_justified req :
  always (ReconcileReplicaSet req) (fun out l =>
    (reads l /\ (exists r, out = Done r)) \/
    exists rs runners desired,
      EvA (Get KRRS req) (Val rs) ∈ l /\
      IsZero (om_DeletionTimestamp (rrs_Meta rs)) = true /\
      let rs' := ensureTemplateHash rs in
      (exists r, EvA (List KRunner [InNamespace (nn_Namespace req);
          MatchingLabelsSelector (rrss_Selector (rrs_Spec rs'))]) r ∈ l /\
        (r = Val runners \/ runners = [] /\ exists e, r = Err e /\ err_notfound e = true)) /\
      runnerOf rs' desired /\
      Forall (rrsJustified rs' runners desired l) l /\
      endsWell runners out).
Proof.
  unfold ReconcileReplicaSet. simpl. intros [rs|e]; simpl.
  2:{ left. unfold IgnoreNotFound. destruct (err_notfound e); eauto using Forall_nil. }
  destruct (IsZero _) eqn:Hdel; simpl; [|left; split; [by repeat constructor|eauto]].
  intros [e|]; simpl; [left; split; [by repeat constructor|eauto]|].
  set (rs' := ensureTemplateHash rs). intros r.
  set (pre := [EvA (Get KRRS req) (Val rs); EvA (SelectorAsSelector (rrss_Selector (rrs_Spec rs'))) None;
    EvA (List KRunner [InNamespace (nn_Namespace req);
      MatchingLabelsSelector (rrss_Selector (rrs_Spec rs'))]) r]).
  assert (reads pre) as Hpre by (by repeat constructor).
  destruct (match r with Val l => Val l | Err e => if err_notfound e then Val [] else Err e end)
    as [runners|e] eqn:Hr; [|left; split; [done|eauto]].
  eapply always_mono; [|apply syncReplicaSet_spec]. intros out l [[Hl Hout]|(d & Hd & Hl & Hout)].
  { left. split; [|done]. by apply (Forall_app_2 _ pre). }
  right. exists rs, runners, d. change (_ :: _ :: _ :: l) with (pre ++ l)%list.
  split_and!; [set_solver|done| |done| |done].
  - exists r. split; [set_solver|]. destruct r as [runners'|e]; [simplify_eq; by left|].
    destruct (err_notfound e) eqn:He; simplify_eq. right. eauto.
  - apply Forall_app_2; [by apply rrsJustified_reads|].
    eapply Forall_impl; [exact Hl|]. intros e. apply rrsJustified_mono. set_solver.
Qed.
End ReplicaSet.
