(* ===== verification/Autoscaler.v ===== *)
(** * The HorizontalRunnerAutoscaler controller
    (src/controllers/horizontalrunnerautoscaler_controller.go, autoscaling.go)

    Computes how many replicas a scale target should have, from the metrics,
    the capacity reserved by webhook events and the scheduled overrides, and
    patches the target. *)

From stdpp Require Import base list gmap strings.
From Stdlib Require Import ZArith Lia Ascii.
From S2P Require Import Prelude Api GoStrings GitHubClient Calendar Schedule Floats RunnerPod GracefulStop RunnerDeployment.

Open Scope string_scope.
Open Scope Z_scope.

Record scaleTarget := mkScaleTarget {
  st_st : string;
  st_kind : string;
  st_enterprise : string;
  st_repo : string;
  st_org : string;
  st_replicas : option Z;
  st_labels : list string;
  st_getRunnerMap : M (result (gset string))
}.

Definition defaultScaleUpThreshold : float64 := Eval vm_compute in decimal false 8 (-1).
Definition defaultScaleDownThreshold : float64 := Eval vm_compute in decimal false 3 (-1).
Definition defaultScaleUpFactor : float64 := Eval vm_compute in decimal false 13 (-1).
Definition defaultScaleDownFactor : float64 := Eval vm_compute in decimal false 7 (-1).

Definition MetricQueued := "TotalNumberOfQueuedAndInProgressWorkflowRuns".
Definition MetricPercentageRunnersBusy := "PercentageRunnersBusy".

(** ** The number of queued and running jobs *)

Record jobCounts := mkJobCounts {
  jc_total : Z;
  jc_inProgress : Z;
  jc_queued : Z;
  jc_completed : Z;
  jc_unknown : Z
}.

Definition addTotal c := mkJobCounts (jc_total c + 1) (jc_inProgress c) (jc_queued c) (jc_completed c) (jc_unknown c).
Definition addInProgress c := mkJobCounts (jc_total c) (jc_inProgress c + 1) (jc_queued c) (jc_completed c) (jc_unknown c).
Definition addQueued c := mkJobCounts (jc_total c) (jc_inProgress c) (jc_queued c + 1) (jc_completed c) (jc_unknown c).
Definition addCompleted c := mkJobCounts (jc_total c) (jc_inProgress c) (jc_queued c) (jc_completed c + 1) (jc_unknown c).
Definition addUnknown c := mkJobCounts (jc_total c) (jc_inProgress c) (jc_queued c) (jc_completed c) (jc_unknown c + 1).

(** Whether a runner of the target can take the job. *)
Definition jobMatches (labels : list string) (job : WorkflowJob) : bool :=
  bool_decide ("self-hosted" ∈ wj_Labels job) &&
  forallb (fun l => bool_decide (l ∈ wj_Labels job)) labels.

Definition countJob (labels : list string) (c : jobCounts) (job : WorkflowJob) : jobCounts :=
  if jobMatches labels job then
    if decide (wj_Status job = "completed") then c
    else if decide (wj_Status job = "in_progress") then addInProgress c
    else if decide (wj_Status job = "queued") then addQueued c
    else addUnknown c
  else c.

(** The closure of the same name; an error is logged and forgotten. *)
Definition listWorkflowJobs (fuel : nat) (labels : list string) (user repoName : string) (runID : Z)
  (fallback_cb : jobCounts -> jobCounts) (c : jobCounts) : M jobCounts :=
  if runID =? 0 then Ret (fallback_cb c)
  else
    r <- paginate fuel "" (fun page => ask (GHListWorkflowJobs user repoName runID page)) 0 [] ;;
    Ret (match r with
         | Err _ => c
         | Val [] => fallback_cb c
         | Val allJobs => fold_left (countJob labels) allJobs c
         end).

Fixpoint countRuns (fuel : nat) (labels : list string) (user repoName : string)
  (runs : list WorkflowRun) (c : jobCounts) : M jobCounts :=
  match runs with
  | [] => Ret c
  | run :: runs =>
      let c := addTotal c in
      c <- (if decide (wr_Status run = "completed") then Ret (addCompleted c)
            else if decide (wr_Status run = "in_progress")
                 then listWorkflowJobs fuel labels user repoName (wr_ID run) addInProgress c
            else if decide (wr_Status run = "queued")
                 then listWorkflowJobs fuel labels user repoName (wr_ID run) addQueued c
            else Ret (addUnknown c)) ;;
      countRuns fuel labels user repoName runs c
  end.

(** [repo[0], repo[1]] *)
Fixpoint countRepos (fuel : nat) (labels : list string) (repos : list (list string)) (c : jobCounts)
  : M (result jobCounts) :=
  match repos with
  | [] => Ret (Val c)
  | repo :: repos =>
      match repo with
      | user :: repoName :: _ =>
          try workflowRuns <- ListRepositoryWorkflowRuns fuel user repoName ;;
          c <- countRuns fuel labels user repoName workflowRuns c ;;
          countRepos fuel labels repos c
      | _ => Panic "runtime error: index out of range"
      end
  end.

Definition suggestReplicasByQueuedAndInProgressWorkflowRuns (fuel : nat) (st : scaleTarget)
  (metrics : option MetricSpec) : M (result (option Z)) :=
  let count repos :=
    try c <- countRepos fuel (st_labels st) repos (mkJobCounts 0 0 0 0 0) ;;
    let necessaryReplicas := jc_queued c + jc_inProgress c in
    Ret (Val (Some necessaryReplicas)) in
  if decide (st_repo st = "") then
    if decide (st_org st = "") then
      Ret (Err (newError "asserting runner deployment spec to detect bug: spec.template.organization should not be empty on this code path"))
    else
      match metrics with
      | None => Ret (Val None)
      | Some m =>
          match ms_RepositoryNames m with
          | [] => Ret (Err (newError "validating autoscaling metrics: spec.autoscaling.metrics[].repositoryNames is required and must have one more more entries for organizational runner deployment"))
          | names => count (map (fun repoName => [st_org st; repoName]) names)
          end
      end
  else count [Split "/"%char (st_repo st)].

(** ** The share of busy runners *)

(** An optional float of the metric: the default when it is empty. *)
Definition floatOr (s : string) (d : float64) : option float64 :=
  if decide (s = "") then Some d else ParseFloat s.

(** The factor, unless the adjustment is used; refuses a negative adjustment
    and both together. *)
Definition factorOr (adjustment : Z) (factor : string) (d : float64) (negative both parse : string)
  : result float64 :=
  if adjustment =? 0 then
    match floatOr factor d with Some f => Val f | None => Err (newError parse) end
  else if adjustment <? 0 then Err (newError negative)
  else if decide (factor <> "") then Err (newError both)
  else Val d.

Record busyParams := mkBusyParams {
  bp_upThreshold : float64;
  bp_downThreshold : float64;
  bp_upFactor : float64;
  bp_downFactor : float64
}.

Definition parseBusyMetric (m : MetricSpec) : result busyParams :=
  let v := "validating autoscaling metrics: spec.autoscaling.metrics[]" in
  match floatOr (ms_ScaleUpThreshold m) defaultScaleUpThreshold with
  | None => Err (newError (v +:+ ".scaleUpThreshold cannot be parsed into a float64"))
  | Some up =>
      match floatOr (ms_ScaleDownThreshold m) defaultScaleDownThreshold with
      | None => Err (newError (v +:+ ".scaleDownThreshold cannot be parsed into a float64"))
      | Some down =>
          match factorOr (ms_ScaleUpAdjustment m) (ms_ScaleUpFactor m) defaultScaleUpFactor
                  (v +:+ ".scaleUpAdjustment cannot be lower than 0")
                  (v +:+ ": scaleUpAdjustment and scaleUpFactor cannot be specified together")
                  (v +:+ ".scaleUpFactor cannot be parsed into a float64") with
          | Err e => Err e
          | Val upf =>
              match factorOr (ms_ScaleDownAdjustment m) (ms_ScaleDownFactor m) defaultScaleDownFactor
                      (v +:+ ".scaleDownAdjustment cannot be lower than 0")
                      (v +:+ ": scaleDownAdjustment and scaleDownFactor cannot be specified together")
                      (v +:+ ".scaleDownFactor cannot be parsed into a float64") with
              | Err e => Err e
              | Val downf => Val (mkBusyParams up down upf downf)
              end
          end
      end
  end.

Definition busyRunners (runnerMap : gset string) (runners : list GHRunner) : Z :=
  Z.of_nat (length (List.filter (fun r => bool_decide (gr_Name r ∈ runnerMap) && gr_Busy r) runners)).

(** The decision; [None] dereferences the nil [st.replicas]. *)
Definition desiredByBusy (m : MetricSpec) (p : busyParams) (replicas : option Z) (numRunnersBusy : Z)
  : option Z :=
  let desiredReplicasBefore := default 1 replicas in
  let fractionBusy := fdiv (ofInt numRunnersBusy) (ofInt desiredReplicasBefore) in
  if fge fractionBusy (bp_upThreshold p) then
    if 0 <? ms_ScaleUpAdjustment m then Some (int64 (desiredReplicasBefore + ms_ScaleUpAdjustment m))
    else Some (toInt (Ceil (fmul (ofInt desiredReplicasBefore) (bp_upFactor p))))
  else if flt fractionBusy (bp_downThreshold p) then
    if 0 <? ms_ScaleDownAdjustment m then Some (int64 (desiredReplicasBefore - ms_ScaleDownAdjustment m))
    else Some (toInt (fmul (ofInt desiredReplicasBefore) (bp_downFactor p)))
  else replicas.

Definition suggestReplicasByPercentageRunnersBusy (fuel : nat) (st : scaleTarget) (m : MetricSpec)
  : M (result (option Z)) :=
  match parseBusyMetric m with
  | Err e => Ret (Err e)
  | Val p =>
      try runnerMap <- st_getRunnerMap st ;;
      try runners <- ListRunners fuel (st_enterprise st) (st_org st) (st_repo st) ;;
      match desiredByBusy m p (st_replicas st) (busyRunners runnerMap runners) with
      | Some n => Ret (Val (Some n))
      | None => nilDeref
      end
  end.

(** ** The suggestion *)

(** What follows a primary metric that suggests nothing. *)
Definition suggestFallback (fuel : nat) (st : scaleTarget) (primaryMetricType : string)
  (rest : list MetricSpec) : M (result (option Z)) :=
  match rest with
  | [] => Ret (Val None)
  | fallbackMetric :: _ =>
      if negb (bool_decide (primaryMetricType = MetricPercentageRunnersBusy)) ||
         negb (bool_decide (ms_Type fallbackMetric = MetricQueued))
      then Ret (Err (newError "invalid HRA Spec: The only allowed combination is 0=PercentageRunnersBusy and 1=TotalNumberOfQueuedAndInProgressWorkflowRuns"))
      else suggestReplicasByQueuedAndInProgressWorkflowRuns fuel st (Some fallbackMetric)
  end.

Definition suggestDesiredReplicas (fuel : nat) (st : scaleTarget) (hra : HorizontalRunnerAutoscaler)
  : M (result (option Z)) :=
  let spec := hra_Spec hra in
  let name := om_Namespace (hra_Meta hra) +:+ "/" +:+ om_Name (hra_Meta hra) in
  match hras_MinReplicas spec, hras_MaxReplicas spec with
  | None, _ => Ret (Err (newError ("horizontalrunnerautoscaler " +:+ name +:+ " is missing minReplicas")))
  | _, None => Ret (Err (newError ("horizontalrunnerautoscaler " +:+ name +:+ " is missing maxReplicas")))
  | Some _, Some _ =>
      match hras_Metrics spec with
      | [] => Ret (Val None)
      | _ :: _ :: _ :: _ => Ret (Err (newError "too many autoscaling metrics configured: It must be 0 to 2"))
      | primaryMetric :: rest =>
          let primaryMetricType := ms_Type primaryMetric in
          try suggested <-
            (if decide (primaryMetricType = MetricQueued)
             then suggestReplicasByQueuedAndInProgressWorkflowRuns fuel st (Some primaryMetric)
             else if decide (primaryMetricType = MetricPercentageRunnersBusy)
             then suggestReplicasByPercentageRunnersBusy fuel st primaryMetric
             else Ret (Err (newError "validating autoscaling metrics: unsupported metric type"))) ;;
          match suggested with
          | Some n =>
              if 0 <? n then Ret (Val (Some n)) else suggestFallback fuel st primaryMetricType rest
          | None => suggestFallback fuel st primaryMetricType rest
          end
      end
  end.

Section Autoscaler.
Context {R : RRule}.

(** ** Scheduled overrides *)

Record Override := mkOverride { ov_ScheduledOverride : ScheduledOverride; ov_Period : Period }.

(** (minReplicas, active, upcoming) *)
Definition overrides : Type := option Z * option Override * option Override.

Definition matchOverride (now : time) (o : ScheduledOverride) (s : overrides) : result overrides :=
  let '(minReplicas, active, upcoming) := s in
  match MatchSchedule now (so_StartTime o) (so_EndTime o) (so_RecurrenceRule o) with
  | Err e => Err e
  | Val (a, u) =>
      let '(minReplicas, active) :=
        match a, active with
        | Some a, None =>
            (match so_MinReplicas o with Some m => Some m | None => minReplicas end,
             Some {| ov_ScheduledOverride := o; ov_Period := a |})
        | _, _ => (minReplicas, active)
        end in
      let upcoming :=
        match u with
        | None => upcoming
        | Some u =>
            if match upcoming with
               | None => true
               | Some p => Before (p_StartTime u) (p_StartTime (ov_Period p))
               end
            then Some {| ov_ScheduledOverride := o; ov_Period := u |}
            else upcoming
        end in
      Val (minReplicas, active, upcoming)
  end.

Fixpoint matchOverrides (now : time) (l : list ScheduledOverride) (s : overrides) : result overrides :=
  match l with
  | [] => Val s
  | o :: l =>
      match matchOverride now o s with
      | Err e => Err e
      | Val s => matchOverrides now l s
      end
  end.

Definition matchScheduledOverrides (now : time) (hra : HorizontalRunnerAutoscaler) : result overrides :=
  matchOverrides now (hras_ScheduledOverrides (hra_Spec hra)) (None, None, None).

(** The minimum of the spec, without overrides. *)
Definition specMinReplicas (hra : HorizontalRunnerAutoscaler) : Z :=
  match hras_MinReplicas (hra_Spec hra) with
  | Some m => if 0 <=? m then m else defaultReplicas
  | None => defaultReplicas
  end.

Definition getMinReplicas (now : time) (hra : HorizontalRunnerAutoscaler)
  : result (Z * option Override * option Override) :=
  match matchScheduledOverrides now hra with
  | Err e => Err e
  | Val (m, active, upcoming) => Val (default (specMinReplicas hra) m, active, upcoming)
  end.

(** ** The computation *)

(** Reservations that have not expired, in machine integers. *)
Definition reservedReplicas (now : time) (l : list CapacityReservation) : Z :=
  fold_left (fun reserved r =>
    if After (cr_ExpirationTime r) now then int64 (reserved + cr_Replicas r) else reserved) l 0.

(** At least the minimum, else at most the maximum. *)
Definition clampReplicas (minReplicas : Z) (maxReplicas : option Z) (n : Z) : Z :=
  if n <? minReplicas then minReplicas
  else match maxReplicas with
       | Some m => if m <? n then m else n
       | None => n
       end.

Definition scaleDownDelay (defaultDelay : duration) (hra : HorizontalRunnerAutoscaler) : duration :=
  match hras_ScaleDownDelaySecondsAfterScaleUp (hra_Spec hra) with
  | Some s => int64 (s * Second)
  | None => defaultDelay
  end.

(** Keep the previous number while the delay after the last scale-out runs. *)
Definition delayScaleDown (now : time) (delay : duration) (hra : HorizontalRunnerAutoscaler) (n : Z) : Z :=
  match hrast_DesiredReplicas (hra_Status hra), hrast_LastSuccessfulScaleOutTime (hra_Status hra) with
  | Some d, Some last =>
      if d <? n then n
      else if After (last + delay) now then d else n
  | _, _ => n
  end.

Definition computeReplicasWithCache (fuel : nat) (defaultDelay : duration) (now : time)
  (st : scaleTarget) (hra : HorizontalRunnerAutoscaler) (minReplicas : Z) : M (result Z) :=
  try v <- suggestDesiredReplicas fuel st hra ;;
  let suggestedReplicas := default minReplicas v in
  let reserved := reservedReplicas now (hras_CapacityReservations (hra_Spec hra)) in
  let newDesiredReplicas := int64 (suggestedReplicas + reserved) in
  let newDesiredReplicas := clampReplicas minReplicas (hras_MaxReplicas (hra_Spec hra)) newDesiredReplicas in
  Ret (Val (delayScaleDown now (scaleDownDelay defaultDelay hra) hra newDesiredReplicas)).

(** ** Reconciling *)

Definition withHRAStatus (h : HorizontalRunnerAutoscaler) (s : HorizontalRunnerAutoscalerStatus)
  : HorizontalRunnerAutoscaler :=
  {| hra_Meta := hra_Meta h; hra_Spec := hra_Spec h; hra_Status := s |}.

(** Whether the new number is a scale-out with respect to the status. *)
Definition isScaleOut (hra : HorizontalRunnerAutoscaler) (n : Z) : bool :=
  match hrast_DesiredReplicas (hra_Status hra) with
  | None => 1 <? n
  | Some d => d <? n
  end.

Definition overridesSummary (hra : HorizontalRunnerAutoscaler) (active upcoming : option Override) : string :=
  let summary min t := "min=" +:+ FormatInt min +:+ " time=" +:+ TimeString t in
  let activeEnds a := summary (specMinReplicas hra) (p_EndTime (ov_Period a)) in
  let upcomingStarts u prev :=
    match so_MinReplicas (ov_ScheduledOverride u) with
    | Some m => summary m (p_StartTime (ov_Period u))
    | None => prev
    end in
  match active, upcoming with
  | Some a, None => activeEnds a
  | None, Some u => upcomingStarts u ""
  | Some a, Some u =>
      let s := if Before (p_EndTime (ov_Period a)) (p_StartTime (ov_Period u)) then activeEnds a else "" in
      if After (p_EndTime (ov_Period a)) (p_StartTime (ov_Period u)) then upcomingStarts u s else s
  | None, None => ""
  end.

(** The status after [n] replicas were asked of the target. *)
Definition newStatus (hra : HorizontalRunnerAutoscaler) (n : Z) (lastScaleOut : option time)
  (summary : string) : HorizontalRunnerAutoscalerStatus :=
  {| hrast_ObservedGeneration := hrast_ObservedGeneration (hra_Status hra);
     hrast_DesiredReplicas := Some n;
     hrast_LastSuccessfulScaleOutTime := lastScaleOut;
     hrast_CacheEntries := hrast_CacheEntries (hra_Status hra);
     hrast_ScheduledOverridesSummary := if decide (summary = "") then None else Some summary |}.

Definition patchHRAStatus (hra : HorizontalRunnerAutoscaler) (status : HorizontalRunnerAutoscalerStatus)
  : M (result Result) :=
  if bool_decide (hra_Status hra = status) then Ret (Val noResult)
  else
    r <- ask (StatusPatch KHRA (withHRAStatus hra status) hra) ;;
    Ret (match r with
         | Err e => Err (wrapError "patching horizontalrunnerautoscaler status: " e)
         | Val _ => Val noResult
         end).

Definition reconcile (fuel : nat) (defaultDelay : duration) (hra : HorizontalRunnerAutoscaler)
  (st : scaleTarget) (updatedDesiredReplicas : Z -> M (option err)) : M (result Result) :=
  now <- ask Now ;;
  match getMinReplicas now hra with
  | Err e => Ret (Err e)
  | Val (minReplicas, active, upcoming) =>
      try newDesiredReplicas <- computeReplicasWithCache fuel defaultDelay now st hra minReplicas ;;
      e <- updatedDesiredReplicas newDesiredReplicas ;;
      match e with
      | Some e => Ret (Err e)
      | None =>
          lastScaleOut <-
            (if isScaleOut hra newDesiredReplicas then t <- ask Now ;; Ret (Some t)
             else Ret (hrast_LastSuccessfulScaleOutTime (hra_Status hra))) ;;
          patchHRAStatus hra (newStatus hra newDesiredReplicas lastScaleOut
                                (overridesSummary hra active upcoming))
      end
  end.

(** The latest effective time of the capacity reservations. *)
Definition latestEffectiveTime (l : list CapacityReservation) : option time :=
  fold_left (fun eff r =>
    match eff with
    | None => Some (cr_EffectiveTime r)
    | Some t => if Before t (cr_EffectiveTime r) then Some (cr_EffectiveTime r) else eff
    end) l None.

(** The names of the listed objects; a "not found" lists none. *)
Definition listNames {A : Type} (name : A -> string) (r : result (list A)) : result (gset string) :=
  match r with
  | Val l => Val (list_to_set (map name l))
  | Err e => if err_notfound e then Val ∅ else Err e
  end.

Definition getRunnerMapOfRD (rd : RunnerDeployment) : M (result (gset string)) :=
  e <- ask (SelectorAsSelector (Some (getSelector rd))) ;;
  match e with
  | Some e => Ret (Err e)
  | None =>
      r <- ask (List KRunner [InNamespace (om_Namespace (rd_Meta rd));
                              MatchingLabelsSelector (Some (getSelector rd))]) ;;
      Ret (listNames (fun r : Runner => om_Name (r_Meta r)) r)
  end.

Definition scaleTargetFromRD (rd : RunnerDeployment) : scaleTarget :=
  let c := rsp_Config (rt_Spec (rds_Template (rd_Spec rd))) in
  {| st_st := om_Name (rd_Meta rd); st_kind := "runnerdeployment";
     st_enterprise := rc_Enterprise c; st_repo := rc_Repository c; st_org := rc_Organization c;
     st_replicas := rds_Replicas (rd_Spec rd); st_labels := rc_Labels c;
     st_getRunnerMap := getRunnerMapOfRD rd |}.

(** The pods of a runner set are selected by the selector of its spec. *)
Definition getRunnerMapOfRunnerSet (rs : RunnerSet) : M (result (gset string)) :=
  let selector := ss_Selector (rss_StatefulSetSpec (rs_Spec rs)) in
  e <- ask (SelectorAsSelector selector) ;;
  match e with
  | Some e => Ret (Err e)
  | None =>
      r <- ask (List KPod [InNamespace (om_Namespace (rs_Meta rs)); MatchingLabelsSelector selector]) ;;
      Ret (listNames (fun p : Pod => om_Name (pod_Meta p)) r)
  end.

Definition scaleTargetFromRunnerSet (rs : RunnerSet) : scaleTarget :=
  let c := rss_Config (rs_Spec rs) in
  {| st_st := om_Name (rs_Meta rs); st_kind := "runnerset";
     st_enterprise := rc_Enterprise c; st_repo := rc_Repository c; st_org := rc_Organization c;
     st_replicas := ss_Replicas (rss_StatefulSetSpec (rs_Spec rs)); st_labels := rc_Labels c;
     st_getRunnerMap := getRunnerMapOfRunnerSet rs |}.

Definition withRDReplicas (rd : RunnerDeployment) (n : option Z) (eff : option time) : RunnerDeployment :=
  {| rd_Meta := rd_Meta rd;
     rd_Spec := {| rds_Replicas := n; rds_EffectiveTime := eff;
                   rds_Selector := rds_Selector (rd_Spec rd); rds_Template := rds_Template (rd_Spec rd) |};
     rd_Status := rd_Status rd |}.

Definition isEphemeral (c : RunnerConfig) : bool := default true (rc_Ephemeral c).

Definition patchError (what : string) (n : Z) (e : err) : err :=
  wrapError ("patching " +:+ what +:+ " to have " +:+ FormatInt n +:+ " replicas: ") e.

(** The callback of the RunnerDeployment case. *)
Definition updateRD (hra : HorizontalRunnerAutoscaler) (rd : RunnerDeployment) (newDesiredReplicas : Z)
  : M (option err) :=
  let currentDesiredReplicas := getIntOrDefault (rds_Replicas (rd_Spec rd)) defaultReplicas in
  let ephemeral := isEphemeral (rsp_Config (rt_Spec (rds_Template (rd_Spec rd)))) in
  let effectiveTime := latestEffectiveTime (hras_CapacityReservations (hra_Spec hra)) in
  let eff := if ephemeral && bool_decide (is_Some effectiveTime) then effectiveTime
             else rds_EffectiveTime (rd_Spec rd) in
  let patch copy :=
    r <- ask (Patch KRD copy rd) ;;
    Ret (match r with
         | Err e => Some (patchError "runnerdeployment" newDesiredReplicas e)
         | Val _ => None
         end) in
  if negb (currentDesiredReplicas =? newDesiredReplicas)
  then patch (withRDReplicas rd (Some newDesiredReplicas) eff)
  else if ephemeral && bool_decide (is_Some effectiveTime)
  then patch (withRDReplicas rd (rds_Replicas (rd_Spec rd)) eff)
  else Ret None.

Definition withRunnerSetReplicas (rs : RunnerSet) (n : option Z) (eff : option time) : RunnerSet :=
  let ss := rss_StatefulSetSpec (rs_Spec rs) in
  {| rs_Meta := rs_Meta rs;
     rs_Spec := {| rss_Config := rss_Config (rs_Spec rs); rss_EffectiveTime := eff;
                   rss_StatefulSetSpec :=
                     {| ss_Replicas := n; ss_Selector := ss_Selector ss; ss_TemplateMeta := ss_TemplateMeta ss;
                        ss_TemplateSpec := ss_TemplateSpec ss; ss_rest := ss_rest ss |} |};
     rs_Status := rs_Status rs |}.

(** The callback of the RunnerSet case: the replicas are 32 bits wide. *)
Definition updateRunnerSet (hra : HorizontalRunnerAutoscaler) (rs : RunnerSet) (newDesiredReplicas : Z)
  : M (option err) :=
  let replicas := ss_Replicas (rss_StatefulSetSpec (rs_Spec rs)) in
  let currentDesiredReplicas := getIntOrDefault replicas defaultReplicas in
  let ephemeral := isEphemeral (rss_Config (rs_Spec rs)) in
  let effectiveTime := latestEffectiveTime (hras_CapacityReservations (hra_Spec hra)) in
  let eff := if ephemeral && bool_decide (is_Some effectiveTime) then effectiveTime
             else rss_EffectiveTime (rs_Spec rs) in
  let patch copy :=
    r <- ask (Patch KRunnerSet copy rs) ;;
    Ret (match r with
         | Err e => Some (patchError "runnerset" newDesiredReplicas e)
         | Val _ => None
         end) in
  if negb (currentDesiredReplicas =? newDesiredReplicas)
  then patch (withRunnerSetReplicas rs (Some (int32 newDesiredReplicas)) eff)
  else if ephemeral && bool_decide (is_Some effectiveTime)
  then patch (withRunnerSetReplicas rs replicas eff)
  else Ret None.

Definition ignoreNotFound (e : err) : result Result :=
  match IgnoreNotFound e with Some e => Err e | None => Val noResult end.

Definition ReconcileHRA (fuel : nat) (defaultDelay : duration) (req : NamespacedName) : M (result Result) :=
  g <- ask (Get KHRA req) ;;
  match g with
  | Err e => Ret (ignoreNotFound e)
  | Val hra =>
      if negb (IsZero (om_DeletionTimestamp (hra_Meta hra))) then Ret (Val noResult)
      else
        let ref := hras_ScaleTargetRef (hra_Spec hra) in
        let target := {| nn_Namespace := nn_Namespace req; nn_Name := str_Name ref |} in
        if bool_decide (str_Kind ref = "") || bool_decide (str_Kind ref = "RunnerDeployment") then
          g <- ask (Get KRD target) ;;
          match g with
          | Err e => Ret (ignoreNotFound e)
          | Val rd =>
              if negb (IsZero (om_DeletionTimestamp (rd_Meta rd))) then Ret (Val noResult)
              else reconcile fuel defaultDelay hra (scaleTargetFromRD rd) (updateRD hra rd)
          end
        else if decide (str_Kind ref = "RunnerSet") then
          g <- ask (Get KRunnerSet target) ;;
          match g with
          | Err e => Ret (ignoreNotFound e)
          | Val rs =>
              if negb (IsZero (om_DeletionTimestamp (rs_Meta rs))) then Ret (Val noResult)
              else reconcile fuel defaultDelay hra (scaleTargetFromRunnerSet rs) (updateRunnerSet hra rs)
          end
        else Ret (Val noResult)
  end.

(** * Theorems *)

(** ** The computation *)

Lemma clampReplicas_range lo hi n :
  lo <= hi -> lo <= clampReplicas lo (Some hi) n <= hi.
Proof. unfold clampReplicas. repeat split_match; lia. Qed.

Lemma suggestDesiredReplicas_max fuel st hra :
  always (suggestDesiredReplicas fuel st hra) (fun out _ => forall v, out = Done (Val v) ->
    is_Some (hras_MinReplicas (hra_Spec hra)) /\ is_Some (hras_MaxReplicas (hra_Spec hra))).
Proof.
  unfold suggestDesiredReplicas. destruct (hras_MinReplicas _), (hras_MaxReplicas _); try done.
  apply always_true. eauto.
Qed.

Lemma computeReplicas_spec fuel dd now st hra lo :
  always (computeReplicasWithCache fuel dd now st hra lo) (fun out l => forall n, out = Done (Val n) ->
    exists v hi, may (suggestDesiredReplicas fuel st hra) (Done (Val v)) l /\
      hras_MaxReplicas (hra_Spec hra) = Some hi /\
      n = delayScaleDown now (scaleDownDelay dd hra) hra (clampReplicas lo (Some hi)
            (int64 (default lo v + reservedReplicas now (hras_CapacityReservations (hra_Spec hra)))))).
Proof.
  unfold computeReplicasWithCache. apply always_bind.
  eapply always_mono; [|apply (always_and _ _ _ (always_may_log _) (suggestDesiredReplicas_max fuel st hra))].
  intros [[v|e]|m|] l [Hmay Hmax]; simpl; try done.
  intros n [= <-]. destruct (Hmax v eq_refl) as [_ [hi Hhi]]. exists v, hi.
  rewrite app_nil_r, Hhi. done.
Qed.

(** C10: the replicas computed are the suggestion plus the unexpired
    reservations, raised to the minimum and cut at the maximum, unless the
    delay after the last scale-out still runs, in which case a smaller number
    than the current one is replaced by the current one; so the number lies
    between the bounds or is the previous one, and never drops during the
    delay. *)
Theorem hra_replicas_bounds fuel dd now st hra lo :
  always (computeReplicasWithCache fuel dd now st hra lo) (fun out l => forall n, out = Done (Val n) ->
    exists v hi, may (suggestDesiredReplicas fuel st hra) (Done (Val v)) l /\
      hras_MaxReplicas (hra_Spec hra) = Some hi /\
      let target := clampReplicas lo (Some hi)
        (int64 (default lo v + reservedReplicas now (hras_CapacityReservations (hra_Spec hra)))) in
      (lo <= hi -> lo <= target <= hi) /\
      (n = target \/
       exists last, hrast_DesiredReplicas (hra_Status hra) = Some n /\ target <= n /\
         hrast_LastSuccessfulScaleOutTime (hra_Status hra) = Some last /\
         now < last + scaleDownDelay dd hra) /\
      (forall d last, hrast_DesiredReplicas (hra_Status hra) = Some d ->
         hrast_LastSuccessfulScaleOutTime (hra_Status hra) = Some last ->
         now < last + scaleDownDelay dd hra -> d <= n)).
Proof.
  eapply always_mono; [|apply computeReplicas_spec]. intros out l H n Hn.
  destruct (H n Hn) as (v & hi & Hmay & Hhi & ->). exists v, hi. split_and!; [done..|].
  set (target := clampReplicas lo (Some hi) _). intros tgt.
  split; [apply clampReplicas_range|]. change tgt with target. clearbody target.
  unfold delayScaleDown, After.
  destruct (hrast_DesiredReplicas _) as [d|] eqn:Hd; [|split; [by left|done]].
  destruct (hrast_LastSuccessfulScaleOutTime _) as [last|] eqn:Hl; [|split; [by left|done]].
  destruct (Z.ltb_spec d target); [split; [by left|]; intros ? ? [= <-]; lia|].
  destruct (Z.ltb_spec now (last + scaleDownDelay dd hra)).
  - split; [right; eauto|]. by intros ? ? [= <-].
  - split; [by left|]. intros ? ? _ [= <-]. lia.
Qed.

(** ** Scheduled overrides *)

Definition activeOf (now : time) (o : ScheduledOverride) : option Period :=
  match MatchSchedule now (so_StartTime o) (so_EndTime o) (so_RecurrenceRule o) with
  | Val (a, _) => a
  | Err _ => None
  end.

Definition upcomingOf (now : time) (o : ScheduledOverride) : option Period :=
  match MatchSchedule now (so_StartTime o) (so_EndTime o) (so_RecurrenceRule o) with
  | Val (_, u) => u
  | Err _ => None
  end.

(** [s] is right for the overrides [l]: the first active one, its minimum, and
    the earliest upcoming one. *)
Definition overridesOK (now : time) (l : list ScheduledOverride) (s : overrides) : Prop :=
  let '(m, active, upcoming) := s in
  match active with
  | None => m = None /\ Forall (fun o => activeOf now o = None) l
  | Some a => m = so_MinReplicas (ov_ScheduledOverride a) /\
      exists l1 l2, l = (l1 ++ ov_ScheduledOverride a :: l2)%list /\
        Forall (fun o => activeOf now o = None) l1 /\
        activeOf now (ov_ScheduledOverride a) = Some (ov_Period a)
  end /\
  match upcoming with
  | None => Forall (fun o => upcomingOf now o = None) l
  | Some u => ov_ScheduledOverride u ∈ l /\ upcomingOf now (ov_ScheduledOverride u) = Some (ov_Period u) /\
      Forall (fun o => forall p, upcomingOf now o = Some p ->
        p_StartTime (ov_Period u) <= p_StartTime p) l
  end.

Lemma matchOverride_OK now l o s s' :
  overridesOK now l s -> matchOverride now o s = Val s' -> overridesOK now (l ++ [o])%list s'.
Proof.
  destruct s as [[m active] upcoming]. unfold matchOverride, overridesOK.
  assert (activeOf now o = match MatchSchedule now (so_StartTime o) (so_EndTime o) (so_RecurrenceRule o) with
    | Val (a, _) => a | Err _ => None end) as Ha by done.
  assert (upcomingOf now o = match MatchSchedule now (so_StartTime o) (so_EndTime o) (so_RecurrenceRule o) with
    | Val (_, u) => u | Err _ => None end) as Hu by done.
  destruct (MatchSchedule now (so_StartTime o) (so_EndTime o) (so_RecurrenceRule o)) as [[a u]|e]; [|done].
  intros [Hact Hup] Hs.
  set (up' := match u with None => upcoming | Some _ => _ end) in Hs.
  assert (exists ma, s' = (ma, up')) as [[m' active'] ->] by (destruct a, active; simplify_eq; eauto).
  split.
  - destruct active as [a'|].
    + assert (m' = m /\ active' = Some a') as [-> ->] by (destruct a; simplify_eq; done).
      destruct Hact as (-> & l1 & l2 & -> & H1 & H2). split; [done|]. exists l1, (l2 ++ [o])%list.
      by rewrite <- app_assoc.
    + destruct Hact as [-> Hall]. destruct a as [a|]; simplify_eq; simpl.
      * split; [by destruct (so_MinReplicas o)|]. exists l, []. done.
      * split; [done|]. apply Forall_app_2; [done|]. by apply Forall_singleton.
  - clear Hs Hact. unfold up'. destruct u as [u|].
    + destruct upcoming as [p|].
      * destruct Hup as (Hp & Hpp & Hmin). unfold Before.
        destruct (Z.ltb_spec (p_StartTime u) (p_StartTime (ov_Period p))); simpl.
        -- split_and!; [set_solver|done|]. apply Forall_app_2.
           ++ eapply Forall_impl; [exact Hmin|]. simpl. intros o' Ho' p' Hp'. specialize (Ho' p' Hp'). lia.
           ++ apply Forall_singleton. intros p'. rewrite Hu. intros [= <-]. lia.
        -- split_and!; [set_solver|done|]. apply Forall_app_2; [done|]. apply Forall_singleton.
           intros p'. rewrite Hu. intros [= <-]. lia.
      * simpl. split_and!; [set_solver|done|]. apply Forall_app_2.
        -- eapply Forall_impl; [exact Hup|]. simpl. intros o' ->. done.
        -- apply Forall_singleton. intros p'. rewrite Hu. intros [= <-]. lia.
    + destruct upcoming as [p|].
      * destruct Hup as (Hp & Hpp & Hmin). split_and!; [set_solver|done|].
        apply Forall_app_2; [done|]. apply Forall_singleton. by rewrite Hu.
      * apply Forall_app_2; [done|]. by apply Forall_singleton.
Qed.

Lemma matchOverrides_OK now l l0 s s' :
  overridesOK now l0 s -> matchOverrides now l s = Val s' -> overridesOK now (l0 ++ l)%list s'.
Proof.
  revert l0 s. induction l as [|o l IH]; simpl; intros l0 s Hs H; simplify_eq; [by rewrite app_nil_r|].
  destruct (matchOverride now o s) as [s1|] eqn:Ho; [|done].
  replace (l0 ++ o :: l)%list with ((l0 ++ [o]) ++ l)%list by by rewrite <- app_assoc.
  eapply IH; [|done]. by eapply matchOverride_OK.
Qed.

(** C34: the minimum in force is that of the first override, in the order of
    the spec, that is active, when it sets one; otherwise the spec's own.  The
    upcoming override is the one that starts earliest. *)
Theorem getMinReplicas_first_active now hra m active upcoming :
  getMinReplicas now hra = Val (m, active, upcoming) ->
  m = default (specMinReplicas hra) (a ← active; so_MinReplicas (ov_ScheduledOverride a)) /\
  overridesOK now (hras_ScheduledOverrides (hra_Spec hra))
    (a ← active; so_MinReplicas (ov_ScheduledOverride a), active, upcoming).
Proof.
  unfold getMinReplicas, matchScheduledOverrides.
  destruct (matchOverrides _ _ _) as [[[m' a'] u']|e] eqn:Hm; [|done]. intros [= <- <- <-].
  apply (matchOverrides_OK _ _ []) in Hm; [|simpl; auto]. simpl app in Hm.
  assert (m' = (a ← a'; so_MinReplicas (ov_ScheduledOverride a))) as ->; [|done].
  destruct Hm as [Ha _]. destruct a' as [a|]; simpl; by destruct Ha as [-> _].
Qed.

(** ** The busy metric *)

Definition defaultBusyParams : busyParams :=
  mkBusyParams defaultScaleUpThreshold defaultScaleDownThreshold defaultScaleUpFactor defaultScaleDownFactor.

(** The decision in integers: at least 80% busy, less than 30% busy. *)
Definition desiredByBusyZ (n b : Z) : Z :=
  if 8 * n <=? 10 * b then (13 * n + 9) / 10
  else if 10 * b <? 3 * n then 7 * n / 10
  else n.

Definition busyAgrees (m : MetricSpec) (n b : Z) : bool :=
  bool_decide (desiredByBusy m defaultBusyParams (Some n) b = Some (desiredByBusyZ n b)).

Definition noAdjustments : MetricSpec := mkMetricSpec "" [] "" "" "" "" 0 0.

Definition busyAgreesUpTo (k : nat) : bool :=
  forallb (fun n => forallb (fun b =>
    busyAgrees noAdjustments (Z.of_nat n) (Z.of_nat b)) (seq 0 (n + 2))) (seq 1 k).

(** The decision reads the adjustments of the metric only. *)
Lemma desiredByBusy_ext m m' p replicas b :
  ms_ScaleUpAdjustment m = ms_ScaleUpAdjustment m' ->
  ms_ScaleDownAdjustment m = ms_ScaleDownAdjustment m' ->
  desiredByBusy m p replicas b = desiredByBusy m' p replicas b.
Proof. intros Hup Hdown. unfold desiredByBusy. rewrite Hup, Hdown. reflexivity. Qed.

Lemma busyAgreesUpTo_spec k n b :
  busyAgreesUpTo k = true -> 1 <= n <= Z.of_nat k -> 0 <= b <= n + 1 -> busyAgrees noAdjustments n b = true.
Proof.
  unfold busyAgreesUpTo. intros H Hn Hb.
  rewrite forallb_forall in H. specialize (H (Z.to_nat n)). rewrite in_seq in H.
  specialize (H ltac:(lia)). rewrite forallb_forall in H. specialize (H (Z.to_nat b)).
  rewrite in_seq in H. specialize (H ltac:(lia)). rewrite !Z2Nat.id in H by lia. exact H.
Qed.

Lemma busyAgrees_checked : busyAgreesUpTo 89 = true.
Proof. vm_compute. reflexivity. Qed.

(** with the default parameters the floating-point decision is the exact
    one, for up to 89 replicas and one busy runner too many: 1.3 times as many,
    rounded up, when at least 80% are busy, 0.7 times, rounded down, when less
    than 30% are, no change in between. *)
Theorem busy_metric_default m n b :
  ms_ScaleUpAdjustment m = 0 -> ms_ScaleDownAdjustment m = 0 ->
  1 <= n <= 89 -> 0 <= b <= n + 1 ->
  desiredByBusy m defaultBusyParams (Some n) b = Some (desiredByBusyZ n b).
Proof.
  intros Hup Hdown Hn Hb. rewrite (desiredByBusy_ext m noAdjustments) by assumption.
  eapply bool_decide_eq_true, (busyAgreesUpTo_spec 89); [exact busyAgrees_checked|lia|exact Hb].
Qed.

(** With 90 idle replicas the product by 0.7 is below 63 in binary floating
    point, so that one replica more than 30% is removed. *)
Theorem busy_metric_rounds_down :
  desiredByBusy noAdjustments defaultBusyParams (Some 90) 0 = Some 62 /\ desiredByBusyZ 90 0 = 63.
Proof. split; vm_compute; reflexivity. Qed.

(** with adjustments instead of factors the number moves by exactly the
    adjustment; a target without replicas counts as one replica. *)
Theorem busy_metric_adjustment m p replicas b :
  parseBusyMetric m = Val p -> 0 < ms_ScaleUpAdjustment m -> 0 < ms_ScaleDownAdjustment m ->
  let n := default 1 replicas in
  let f := fdiv (ofInt b) (ofInt n) in
  desiredByBusy m p replicas b =
    (if fge f (bp_upThreshold p) then Some (int64 (n + ms_ScaleUpAdjustment m))
     else if flt f (bp_downThreshold p) then Some (int64 (n - ms_ScaleDownAdjustment m))
     else replicas) /\
  ms_ScaleUpFactor m = "" /\ ms_ScaleDownFactor m = "".
Proof.
  intros Hp Hu Hd n f. unfold desiredByBusy. fold n. fold f.
  rewrite !(proj2 (Z.ltb_lt 0 _)) by done. split; [done|].
  unfold parseBusyMetric in Hp. repeat (case_match; try done). unfold factorOr in *.
  repeat (case_match; simplify_eq; try lia). repeat case_decide; simplify_eq; split; by apply dec_stable.
Qed.

(** a target without replicas whose busy share lies between the thresholds
    makes the controller dereference a nil pointer. *)
Theorem busy_metric_nil_replicas {W} (h : forall q, W -> ans q * W) fuel st m p runnerMap runners l l' w w' w'' :
  parseBusyMetric m = Val p -> st_replicas st = None ->
  run h (st_getRunnerMap st) w = (Done (Val runnerMap), w', l) ->
  run h (ListRunners fuel (st_enterprise st) (st_org st) (st_repo st)) w' = (Done (Val runners), w'', l') ->
  let f := fdiv (ofInt (busyRunners runnerMap runners)) (ofInt 1) in
  fge f (bp_upThreshold p) = false -> flt f (bp_downThreshold p) = false ->
  exists msg l2, run h (suggestReplicasByPercentageRunnersBusy fuel st m) w = (Panicked msg, w'', l2).
Proof.
  intros Hp Hst Hmap Hlist f Hup Hdown. unfold suggestReplicasByPercentageRunnersBusy. rewrite Hp.
  rewrite (run_bind _ _ _ _ _ _ _ Hmap), (run_bind _ _ _ _ _ _ _ Hlist).
  unfold desiredByBusy. rewrite Hst. simpl default. fold f. rewrite Hup, Hdown. by do 2 eexists.
Qed.

(** ** Writes *)

Lemma onlyReads_countRuns fuel labels u r runs c : onlyReads (countRuns fuel labels u r runs c).
Proof.
  revert c. induction runs as [|x runs IH]; intros c; simpl; [constructor|].
  unfold listWorkflowJobs. only_reads.
Qed.
#[local] Hint Resolve onlyReads_countRuns : arc.

Lemma onlyReads_countRepos fuel labels repos c : onlyReads (countRepos fuel labels repos c).
Proof. revert c. induction repos as [|x repos IH]; intros c; simpl; only_reads. Qed.
#[local] Hint Resolve onlyReads_countRepos : arc.

Lemma onlyReads_suggestDesiredReplicas fuel st hra :
  onlyReads (st_getRunnerMap st) -> onlyReads (suggestDesiredReplicas fuel st hra).
Proof.
  intros Hst. unfold suggestDesiredReplicas, suggestReplicasByPercentageRunnersBusy, suggestFallback,
    suggestReplicasByQueuedAndInProgressWorkflowRuns, nilDeref. only_reads.
Qed.

Lemma onlyReads_compute fuel dd now st hra lo :
  onlyReads (st_getRunnerMap st) -> onlyReads (computeReplicasWithCache fuel dd now st hra lo).
Proof.
  intros Hst. unfold computeReplicasWithCache. apply onlyReads_bind; [by apply onlyReads_suggestDesiredReplicas|].
  only_reads.
Qed.

Lemma onlyReads_getRunnerMapOfRD rd : onlyReads (getRunnerMapOfRD rd).
Proof. unfold getRunnerMapOfRD. only_reads. Qed.
Lemma onlyReads_getRunnerMapOfRunnerSet rs : onlyReads (getRunnerMapOfRunnerSet rs).
Proof. unfold getRunnerMapOfRunnerSet. only_reads. Qed.

(** The object an autoscaler scales. *)
Inductive target :=
| TargetRD (rd : RunnerDeployment)
| TargetRunnerSet (rs : RunnerSet).

Definition targetOf (tg : target) : scaleTarget :=
  match tg with
  | TargetRD rd => scaleTargetFromRD rd
  | TargetRunnerSet rs => scaleTargetFromRunnerSet rs
  end.

(** [tg] is the object named by the scale target reference of [hra], as read
    within the exchanges [l] from the namespace of the request, and it is not
    being deleted. *)
Definition fetched (req : NamespacedName) (hra : HorizontalRunnerAutoscaler) (tg : target) (l : log) : Prop :=
  let ref := hras_ScaleTargetRef (hra_Spec hra) in
  let name := {| nn_Namespace := nn_Namespace req; nn_Name := str_Name ref |} in
  match tg with
  | TargetRD rd => (str_Kind ref = "" \/ str_Kind ref = "RunnerDeployment") /\
      EvA (Get KRD name) (Val rd) ∈ l /\ IsZero (om_DeletionTimestamp (rd_Meta rd)) = true
  | TargetRunnerSet rs => str_Kind ref = "RunnerSet" /\
      EvA (Get KRunnerSet name) (Val rs) ∈ l /\ IsZero (om_DeletionTimestamp (rs_Meta rs)) = true
  end.

(** The new replicas and effective time of a patched target. *)
Definition targetUpdate (hra : HorizontalRunnerAutoscaler) (c : RunnerConfig) (old : option Z) (oldEff : option time)
  (n : Z) (m : Z) (new : option Z) (eff : option time) : Prop :=
  ((default 1 old <> n /\ new = Some m) \/ (default 1 old = n /\ new = old)) /\
  eff = (if isEphemeral c && bool_decide (is_Some (latestEffectiveTime (hras_CapacityReservations (hra_Spec hra))))
         then latestEffectiveTime (hras_CapacityReservations (hra_Spec hra)) else oldEff).

(** The writes of a reconciliation that computed [n] replicas for the target
    [tg] under the overrides [active] and [upcoming]. *)
Inductive hraWrite (hra : HorizontalRunnerAutoscaler) (tg : target) (n : Z) (active upcoming : option Override)
  (l : log) : event ans -> Prop :=
| hw_read e : isRead (ev_req e) = true -> hraWrite hra tg n active upcoming l e
| hw_rd rd new eff r :
    tg = TargetRD rd ->
    targetUpdate hra (rsp_Config (rt_Spec (rds_Template (rd_Spec rd)))) (rds_Replicas (rd_Spec rd))
      (rds_EffectiveTime (rd_Spec rd)) n n new eff ->
    hraWrite hra tg n active upcoming l (EvA (Patch KRD (withRDReplicas rd new eff) rd) r)
| hw_runnerset rs new eff r :
    tg = TargetRunnerSet rs ->
    targetUpdate hra (rss_Config (rs_Spec rs)) (ss_Replicas (rss_StatefulSetSpec (rs_Spec rs)))
      (rss_EffectiveTime (rs_Spec rs)) n (int32 n) new eff ->
    hraWrite hra tg n active upcoming l (EvA (Patch KRunnerSet (withRunnerSetReplicas rs new eff) rs) r)
| hw_status st r :
    hrast_DesiredReplicas st = Some n ->
    hrast_ObservedGeneration st = hrast_ObservedGeneration (hra_Status hra) ->
    hrast_CacheEntries st = hrast_CacheEntries (hra_Status hra) ->
    hrast_ScheduledOverridesSummary st =
      (let summary := overridesSummary hra active upcoming in if decide (summary = "") then None else Some summary) ->
    (if isScaleOut hra n then exists t, hrast_LastSuccessfulScaleOutTime st = Some t /\ EvA Now t ∈ l
     else hrast_LastSuccessfulScaleOutTime st = hrast_LastSuccessfulScaleOutTime (hra_Status hra)) ->
    st <> hra_Status hra ->
    hraWrite hra tg n active upcoming l (EvA (StatusPatch KHRA (withHRAStatus hra st) hra) r).

(** Whether an exchange reads the clock. *)
Definition isNow (e : event ans) : bool := match ev_req e with Now => true | _ => false end.

(** [n] is what the computation for the target came to, made right after the
    clock was first read within the exchanges [l], at the time it read. *)
Definition computed (fuel : nat) (dd : duration) (hra : HorizontalRunnerAutoscaler) (tg : target) (l : log)
  (n : Z) (active upcoming : option Override) : Prop :=
  exists now lo l0 l' l1, l = (l0 ++ EvA Now now :: l' ++ l1)%list /\
    Forall (fun e => isNow e = false) l0 /\
    getMinReplicas now hra = Val (lo, active, upcoming) /\
    may (computeReplicasWithCache fuel dd now (targetOf tg) hra lo) (Done (Val n)) l'.

(** The target has [n] replicas, or was patched to have them. *)
Definition reached (tg : target) (n : Z) (l : log) : Prop :=
  default 1 (st_replicas (targetOf tg)) = n \/
  match tg with
  | TargetRD rd => exists eff q, EvA (Patch KRD (withRDReplicas rd (Some n) eff) rd) (Val q) ∈ l
  | TargetRunnerSet rs =>
      exists eff q, EvA (Patch KRunnerSet (withRunnerSetReplicas rs (Some (int32 n)) eff) rs) (Val q) ∈ l
  end.

(** The status reports [n] replicas, or was patched to do so. *)
Definition recorded (hra : HorizontalRunnerAutoscaler) (n : Z) (l : log) : Prop :=
  hrast_DesiredReplicas (hra_Status hra) = Some n \/
  exists st q, EvA (StatusPatch KHRA (withHRAStatus hra st) hra) (Val q) ∈ l /\ hrast_DesiredReplicas st = Some n.

Lemma hraWrite_reads hra tg n a u l l0 : reads l0 -> Forall (hraWrite hra tg n a u l) l0.
Proof. intros H. eapply Forall_impl; [exact H|]. intros e. apply hw_read. Qed.

Lemma hraWrite_mono hra tg n a u l l' e :
  l ⊆ l' -> hraWrite hra tg n a u l e -> hraWrite hra tg n a u l' e.
Proof.
  intros Hl []; [by apply hw_read|by eapply hw_rd|by eapply hw_runnerset|].
  apply hw_status; try done. destruct (isScaleOut hra n); [|done]. naive_solver.
Qed.

Lemma reached_mono tg n l l' : l ⊆ l' -> reached tg n l -> reached tg n l'.
Proof. intros Hl [?|H]; [by left|]. right. destruct tg; naive_solver. Qed.

Lemma recorded_mono hra n l l' : l ⊆ l' -> recorded hra n l -> recorded hra n l'.
Proof. intros Hl [?|H]; [by left|]. right. naive_solver. Qed.

(** What the callback of a target does. *)
Definition updates (hra : HorizontalRunnerAutoscaler) (tg : target) (update : Z -> M (option err)) : Prop :=
  forall n a u l0, always (update n) (fun out l =>
    Forall (hraWrite hra tg n a u l0) l /\ exists e, out = Done e /\ (e = None -> reached tg n l)).

Lemma updateRD_spec hra rd : updates hra (TargetRD rd) (updateRD hra rd).
Proof.
  intros n a u l0. unfold updateRD, getIntOrDefault, defaultReplicas.
  destruct (Z.eqb_spec (default 1 (rds_Replicas (rd_Spec rd))) n); simpl.
  - assert (forall l, reached (TargetRD rd) n l) by by left.
    destruct (_ && _) eqn:He; simpl; [|eauto 6]. intros r. split; [|by eauto].
    apply Forall_singleton. eapply hw_rd; [done|]. split; [by right|]. by rewrite He.
  - intros r. split; [apply Forall_singleton; eapply hw_rd; [done|]; split; [by left|done]|].
    eexists. split; [done|]. destruct r as [q|]; [|done]. intros _. right. do 2 eexists.
    by apply list_elem_of_singleton.
Qed.

Lemma updateRunnerSet_spec hra rs : updates hra (TargetRunnerSet rs) (updateRunnerSet hra rs).
Proof.
  intros n a u l0. unfold updateRunnerSet, getIntOrDefault, defaultReplicas.
  destruct (Z.eqb_spec (default 1 (ss_Replicas (rss_StatefulSetSpec (rs_Spec rs)))) n); simpl.
  - assert (forall l, reached (TargetRunnerSet rs) n l) by by left.
    destruct (_ && _) eqn:He; simpl; [|eauto 6]. intros r. split; [|by eauto].
    apply Forall_singleton. eapply hw_runnerset; [done|]. split; [by right|]. by rewrite He.
  - intros r. split; [apply Forall_singleton; eapply hw_runnerset; [done|]; split; [by left|done]|].
    eexists. split; [done|]. destruct r as [q|]; [|done]. intros _. right. do 2 eexists.
    by apply list_elem_of_singleton.
Qed.

Lemma patchHRAStatus_spec hra tg n a u t l0 :
  (if isScaleOut hra n then exists t', t = Some t' /\ EvA Now t' ∈ l0
   else t = hrast_LastSuccessfulScaleOutTime (hra_Status hra)) ->
  always (patchHRAStatus hra (newStatus hra n t (overridesSummary hra a u))) (fun out l =>
    Forall (hraWrite hra tg n a u l0) l /\ forall r, out = Done (Val r) -> recorded hra n l).
Proof.
  intros Ht. unfold patchHRAStatus. case_bool_decide as Hs; simpl.
  - split; [constructor|]. intros r _. left. by rewrite Hs.
  - intros r. split.
    + apply Forall_singleton. by apply hw_status; try done; apply not_eq_sym.
    + intros r' Hr. destruct r as [q|]; [|done]. right. do 2 eexists. split; [by apply list_elem_of_singleton|done].
Qed.

Lemma reconcile_spec fuel dd hra tg update :
  onlyReads (st_getRunnerMap (targetOf tg)) -> updates hra tg update ->
  always (reconcile fuel dd hra (targetOf tg) update) (fun out l =>
    (reads l /\ forall r, out <> Done (Val r)) \/
    exists n a u, computed fuel dd hra tg l n a u /\ Forall (hraWrite hra tg n a u l) l /\
      forall r, out = Done (Val r) -> reached tg n l /\ recorded hra n l).
Proof.
  intros Hst Hup. unfold reconcile. simpl. intros now.
  destruct (getMinReplicas now hra) as [[[lo a] u]|e] eqn:Hmin; [|left; split; [by repeat constructor|done]].
  apply always_bind.
  eapply always_mono;
    [|apply (always_and _ _ _ (always_may_log _) (onlyReads_compute fuel dd now (targetOf tg) hra lo Hst))].
  intros [[n|e]|m|] l [Hmay Hl]; simpl; try (left; rewrite ?app_nil_r; by split; [constructor|]).
  assert (forall l1, computed fuel dd hra tg (EvA Now now :: l ++ l1)%list n a u) as Hcomp.
  { intros l1. exists now, lo, [], l, l1. by split_and!. }
  assert (forall l1 l2, Forall (hraWrite hra tg n a u l1) l2 -> l1 ⊆ (EvA Now now :: l ++ l2)%list ->
    Forall (hraWrite hra tg n a u (EvA Now now :: l ++ l2)%list) (EvA Now now :: l ++ l2)%list) as Hall.
  { intros l1 l2 Hl2 Hsub. constructor; [by apply hw_read|].
    apply Forall_app_2; [by apply hraWrite_reads|]. eapply Forall_impl; [exact Hl2|].
    intros e. by apply hraWrite_mono. }
  apply always_bind. eapply always_mono; [|apply (Hup n a u [])]. intros out l1 (Hl1 & e & -> & He).
  destruct e as [e|]; simpl.
  { right. exists n, a, u. rewrite app_nil_r. split_and!; [by apply Hcomp| |done].
    eapply Hall; [exact Hl1|set_solver]. }
  assert (forall pre l2, Forall (hraWrite hra tg n a u pre) l2 -> pre ⊆ l2 ->
    Forall (hraWrite hra tg n a u (EvA Now now :: l ++ l1 ++ l2)%list) (EvA Now now :: l ++ l1 ++ l2)%list) as Hend.
  { intros pre l2 Hl2 Hsub. apply (Hall pre); [|set_solver]. apply Forall_app_2; [|done].
    eapply Forall_impl; [exact Hl1|]. intros x. apply hraWrite_mono. set_solver. }
  apply always_bind.
  destruct (isScaleOut hra n) eqn:Ho; simpl; [intros t|].
  - eapply always_mono; [|apply (patchHRAStatus_spec hra tg n a u (Some t) [EvA Now t])].
    + intros out l2 [Hl2 Hr]. right. exists n, a, u.
      split_and!; [by apply Hcomp|apply (Hend [EvA Now t]); [constructor; [by apply hw_read|done]|set_solver]|].
      intros r Hout. split; [eapply reached_mono; [|by apply He]; set_solver|].
      eapply recorded_mono; [|by eapply Hr]. set_solver.
    + rewrite Ho. exists t. split; [done|]. by apply list_elem_of_singleton.
  - eapply always_mono; [|apply (patchHRAStatus_spec hra tg n a u _ []); by rewrite Ho].
    intros out l2 [Hl2 Hr]. right. exists n, a, u.
    split_and!; [by apply Hcomp|by apply (Hend []); [|set_solver]|].
    intros r Hout. split; [eapply reached_mono; [|by apply He]; set_solver|].
    eapply recorded_mono; [|by eapply Hr]. set_solver.
Qed.

(** C22: a reconciliation that does not fail before it computes writes in
    accordance with one number of replicas, computed at the time the clock read
    for the object its scale target reference names in its own namespace.  That
    object, as it was read, is patched to have the number when it does not (in
    32 bits for a RunnerSet), its effective time follows the capacity
    reservations of ephemeral runners; the autoscaler's status records the
    number and the overrides, with the time of a new clock reading exactly on a
    scale-out; nothing else is written, and on success both hold.  A
    reconciliation that computes nothing only reads, and succeeds only if it
    does not get as far as reading the clock. *)
Theorem hra_writes fuel dd req :
  always (ReconcileHRA fuel dd req) (fun out l =>
    (reads l /\ (Forall (fun e => isNow e = false) l \/ forall r, out <> Done (Val r))) \/
    exists hra tg n active upcoming, EvA (Get KHRA req) (Val hra) ∈ l /\
      IsZero (om_DeletionTimestamp (hra_Meta hra)) = true /\
      fetched req hra tg l /\ computed fuel dd hra tg l n active upcoming /\
      Forall (hraWrite hra tg n active upcoming l) l /\
      forall r, out = Done (Val r) -> reached tg n l /\ recorded hra n l).
Proof.
  unfold ReconcileHRA. simpl.
  assert (forall l : log, Forall (fun e => isRead (ev_req e) = true /\ isNow e = false) l -> forall out : outcome (result Result),
    reads l /\ (Forall (fun e => isNow e = false) l \/ forall r, out <> Done (Val r))) as Hearly.
  { intros l [Hr Hn]%Forall_and out. eauto. }
  intros [hra|e]; simpl; [|left; apply Hearly; by repeat constructor].
  destruct (IsZero _) eqn:Hdel; simpl; [|left; apply Hearly; by repeat constructor].
  assert (forall ev tg update, isRead (ev_req ev) = true -> isNow ev = false ->
    (forall l, fetched req hra tg (EvA (Get KHRA req) (Val hra) :: ev :: l)) ->
    onlyReads (st_getRunnerMap (targetOf tg)) -> updates hra tg update ->
    always (reconcile fuel dd hra (targetOf tg) update) (fun out l =>
      let l' := EvA (Get KHRA req) (Val hra) :: ev :: l in
      (reads l' /\ (Forall (fun e => isNow e = false) l' \/ forall r, out <> Done (Val r))) \/
      exists hra' tg n a u, EvA (Get KHRA req) (Val hra') ∈ l' /\
        IsZero (om_DeletionTimestamp (hra_Meta hra')) = true /\
        fetched req hra' tg l' /\ computed fuel dd hra' tg l' n a u /\
        Forall (hraWrite hra' tg n a u l') l' /\
        forall r, out = Done (Val r) -> reached tg n l' /\ recorded hra' n l')) as Hrec.
  { intros ev tg update Hev Hnow Hf Hst Hup. eapply always_mono; [|by apply reconcile_spec].
    intros out l [[Hl Hout]|(n & a & u & Hc & Hl & Hout)]; simpl.
    { left. split; [by repeat constructor|by right]. }
    right. exists hra, tg, n, a, u. split_and!; [set_solver|done|by apply Hf| | |].
    - destruct Hc as (now & lo & l0 & l' & l1 & -> & Hl0 & ? & ?).
      exists now, lo, (EvA (Get KHRA req) (Val hra) :: ev :: l0), l', l1. split_and!; [done| |done..].
      by repeat constructor.
    - constructor; [by apply hw_read|]. constructor; [by apply hw_read|].
      eapply Forall_impl; [exact Hl|]. intros x. apply hraWrite_mono. set_solver.
    - intros r Hr. destruct (Hout r Hr).
      split; [eapply reached_mono; [|done]|eapply recorded_mono; [|done]]; set_solver. }
  destruct (_ || _) eqn:Hkind; [|destruct (decide _) as [Hk|]]; simpl;
    [| |left; apply Hearly; by repeat constructor].
  - intros [rd|e]; simpl; [|left; apply Hearly; by repeat constructor].
    destruct (IsZero (om_DeletionTimestamp (rd_Meta rd))) eqn:Hz; simpl; [|left; apply Hearly; by repeat constructor].
    apply (Hrec _ (TargetRD rd)); [done|done| |apply onlyReads_getRunnerMapOfRD|apply updateRD_spec].
    intros l. split; [|split; [by apply list_elem_of_further, list_elem_of_here|done]].
    apply orb_true_iff in Hkind. by rewrite !bool_decide_eq_true in Hkind.
  - intros [rs|er]; simpl; [|left; apply Hearly; by repeat constructor].
    destruct (IsZero (om_DeletionTimestamp (rs_Meta rs))) eqn:Hz; simpl; [|left; apply Hearly; by repeat constructor].
    apply (Hrec _ (TargetRunnerSet rs)); [done|done| |apply onlyReads_getRunnerMapOfRunnerSet|apply updateRunnerSet_spec].
    intros l. split; [done|]. split; [by apply list_elem_of_further, list_elem_of_here|done].
Qed.

End Autoscaler.

(** ** The demand metric *)

(** A job that a runner of the target could be needed for. *)
Definition jobDemand (labels : list string) (job : WorkflowJob) : Z :=
  if jobMatches labels job &&
     (bool_decide (wj_Status job = "in_progress") || bool_decide (wj_Status job = "queued"))
  then 1 else 0.

(** A queued or running workflow run counts its jobs, or itself when it has
    none. *)
Definition runDemand (labels : list string) (jobs : Z -> list WorkflowJob) (run : WorkflowRun) : Z :=
  if bool_decide (wr_Status run = "in_progress") || bool_decide (wr_Status run = "queued") then
    if wr_ID run =? 0 then 1
    else match jobs (wr_ID run) with
         | [] => 1
         | js => sumZ (map (jobDemand labels) js)
         end
  else 0.

Definition busyCount (c : jobCounts) : Z := jc_queued c + jc_inProgress c.

Lemma countJob_demand labels c job : busyCount (countJob labels c job) = busyCount c + jobDemand labels job.
Proof.
  unfold countJob, jobDemand, busyCount. destruct (jobMatches labels job); simpl; [|lia].
  repeat case_decide; repeat case_bool_decide; simpl; try congruence; lia.
Qed.

Lemma countJobs_demand labels jobs c :
  busyCount (fold_left (countJob labels) jobs c) = busyCount c + sumZ (map (jobDemand labels) jobs).
Proof.
  revert c. induction jobs as [|j jobs IH]; intros c; simpl; [lia|].
  rewrite IH, countJob_demand. unfold sumZ. simpl. lia.
Qed.

Section Demand.
Context {W : Type} (h : forall q : req, W -> ans q * W) (fuel : nat) (labels : list string).
Context (runPages : string -> string -> string -> list (list WorkflowRun)).
Context (jobPages : string -> string -> Z -> list (list WorkflowJob)).

(** GitHub answers the listings page by page, and the loops may follow them. *)
Hypothesis runs_ok : forall user repo status page w,
  h (GHListRepositoryWorkflowRuns user repo status page) w
  = (Val (servePage (runPages user repo status) page), w).
Hypothesis jobs_ok : forall user repo run page w,
  h (GHListWorkflowJobs user repo run page) w = (Val (servePage (jobPages user repo run) page), w).
Hypothesis runs_fuel : forall user repo status,
  runPages user repo status <> [] /\ (length (runPages user repo status) <= fuel)%nat.
Hypothesis jobs_fuel : forall user repo run,
  jobPages user repo run <> [] /\ (length (jobPages user repo run) <= fuel)%nat.

Definition jobsOf (user repo : string) (run : Z) : list WorkflowJob := concat (jobPages user repo run).
Definition runsOf (user repo : string) : list WorkflowRun :=
  (concat (runPages user repo "queued") ++ concat (runPages user repo "in_progress"))%list.

Lemma run_listWorkflowJobs user repo runID fb c w :
  (forall c, busyCount (fb c) = busyCount c + 1) ->
  exists c' w' l, run h (listWorkflowJobs fuel labels user repo runID fb c) w = (Done c', w', l) /\
    busyCount c' = busyCount c + (if runID =? 0 then 1 else match jobsOf user repo runID with
      | [] => 1 | js => sumZ (map (jobDemand labels) js) end).
Proof.
  intros Hfb. unfold listWorkflowJobs. destruct (runID =? 0).
  { exists (fb c), w, []. auto. }
  destruct (jobs_fuel user repo runID) as [Hne Hf].
  destruct (paginate_complete h "" (fun page => ask (GHListWorkflowJobs user repo runID page))
    (jobPages user repo runID)) with (fuel := fuel) (w := w) as (w' & l & Hrun); [|done..|].
  { intros page w'. simpl. rewrite jobs_ok. by do 2 eexists. }
  rewrite (run_bind _ _ _ _ _ _ _ Hrun). simpl. fold (jobsOf user repo runID).
  do 3 eexists. split; [done|]. destruct (jobsOf user repo runID); [apply Hfb|apply countJobs_demand].
Qed.

Lemma run_countRuns user repo runs c w :
  exists c' w' l, run h (countRuns fuel labels user repo runs c) w = (Done c', w', l) /\
    busyCount c' = busyCount c + sumZ (map (runDemand labels (jobsOf user repo)) runs).
Proof.
  revert c w. induction runs as [|r runs IH]; intros c w.
  { exists c, w, []. split; [done|]. simpl. lia. }
  cbn [countRuns]. set (step := if decide _ then _ else _).
  assert (exists c' w' l, run h step w = (Done c', w', l) /\
    busyCount c' = busyCount c + runDemand labels (jobsOf user repo) r) as (c1 & w1 & l1 & Hstep & Hc1).
  { unfold step, runDemand. destruct (decide (wr_Status r = "completed")) as [->|Hc]; simpl.
    { do 3 eexists. split; [done|]. unfold busyCount. simpl. lia. }
    destruct (decide (wr_Status r = "in_progress")) as [->|Hi]; simpl.
    { apply (run_listWorkflowJobs user repo (wr_ID r) addInProgress (addTotal c)).
      intros. unfold busyCount. simpl. lia. }
    rewrite (bool_decide_false _ Hi). simpl. case_decide as Hq.
    { rewrite bool_decide_true by done. apply (run_listWorkflowJobs user repo (wr_ID r) addQueued (addTotal c)).
      intros. unfold busyCount. simpl. lia. }
    rewrite bool_decide_false by done. do 3 eexists. split; [done|]. unfold busyCount. simpl. lia. }
  rewrite (run_bind _ _ _ _ _ _ _ Hstep).
  destruct (IH c1 w1) as (c2 & w2 & l2 & Hrest & Hc2). rewrite Hrest.
  do 3 eexists. split; [done|]. simpl. unfold sumZ in *. simpl. lia.
Qed.

Lemma run_ListRepositoryWorkflowRuns user repo w :
  exists w' l, run h (ListRepositoryWorkflowRuns fuel user repo) w = (Done (Val (runsOf user repo)), w', l).
Proof.
  assert (forall status w, exists w' l, run h (listRepositoryWorkflowRuns fuel user repo status) w
    = (Done (Val (concat (runPages user repo status))), w', l)) as Hone.
  { intros status w0. destruct (runs_fuel user repo status) as [Hne Hf].
    destruct (paginate_complete h "failed to list workflow runs: "
      (fun page => ask (GHListRepositoryWorkflowRuns user repo status page))
      (runPages user repo status)) with (fuel := fuel) (w := w0) as (w' & l & Hrun); [|done..|].
    { intros page w'. simpl. rewrite runs_ok. by do 2 eexists. }
    unfold listRepositoryWorkflowRuns. rewrite (run_bind _ _ _ _ _ _ _ Hrun). by do 2 eexists. }
  unfold ListRepositoryWorkflowRuns.
  destruct (Hone "queued" w) as (w1 & l1 & H1). rewrite (run_bind _ _ _ _ _ _ _ H1).
  destruct (Hone "in_progress" w1) as (w2 & l2 & H2). rewrite (run_bind _ _ _ _ _ _ _ H2).
  by do 2 eexists.
Qed.

Lemma run_countRepos repos c w :
  exists c' w' l, run h (countRepos fuel labels (map (fun '(user, repo) => [user; repo]) repos) c) w
    = (Done (Val c'), w', l) /\
    busyCount c' = busyCount c + sumZ (map (fun '(user, repo) =>
      sumZ (map (runDemand labels (jobsOf user repo)) (runsOf user repo))) repos).
Proof.
  revert c w. induction repos as [|[user repo] repos IH]; intros c w.
  { exists c, w, []. split; [done|]. simpl. lia. }
  cbn [map countRepos]. destruct (run_ListRepositoryWorkflowRuns user repo w) as (w1 & l1 & H1).
  rewrite (run_bind _ _ _ _ _ _ _ H1).
  destruct (run_countRuns user repo (runsOf user repo) c w1) as (c2 & w2 & l2 & H2 & Hc2).
  rewrite (run_bind _ _ _ _ _ _ _ H2).
  destruct (IH c2 w2) as (c3 & w3 & l3 & H3 & Hc3). rewrite H3.
  do 3 eexists. split; [done|]. unfold sumZ in *. simpl. lia.
Qed.

(** C33: against a GitHub that answers its paginated listings, the demand
    metric of an organization's target terminates with exactly the number of
    queued and running jobs of the listed repositories whose labels include
    self-hosted and all labels of the target, a run without jobs counting as
    one. *)
Theorem demand_metric_exact st m w :
  st_repo st = "" -> st_org st <> "" -> st_labels st = labels -> ms_RepositoryNames m <> [] ->
  exists w' l, run h (suggestReplicasByQueuedAndInProgressWorkflowRuns fuel st (Some m)) w
    = (Done (Val (Some (sumZ (map (fun repo =>
         sumZ (map (runDemand labels (jobsOf (st_org st) repo)) (runsOf (st_org st) repo)))
         (ms_RepositoryNames m))))), w', l).
Proof.
  intros Hrepo Horg Hl Hnames. unfold suggestReplicasByQueuedAndInProgressWorkflowRuns.
  rewrite decide_True, decide_False by done.
  destruct (run_countRepos (map (fun n => (st_org st, n)) (ms_RepositoryNames m))
    (mkJobCounts 0 0 0 0 0) w) as (c & w' & l & Hrun & Hc).
  rewrite !map_map in Hrun, Hc. rewrite Hl.
  replace (match ms_RepositoryNames m with [] => _ | _ => _ end) with
    (try c <- countRepos fuel labels (map (fun n => [st_org st; n]) (ms_RepositoryNames m))
       (mkJobCounts 0 0 0 0 0) ;; Ret (Val (Some (jc_queued c + jc_inProgress c))) : M (result (option Z)))
    by by destruct (ms_RepositoryNames m).
  rewrite (run_bind _ _ _ _ _ _ _ Hrun). simpl. do 2 eexists. unfold busyCount in Hc.
  simpl in Hc. rewrite Hc. done.
Qed.

End Demand.
