(* ===== verification/Cluster.v ===== *)
(** * Controllers together

    A cluster with one replica set, its runners and their pods, served by an
    API server and a GitHub that do what they are asked, on a clock that moves
    as it likes within half an hour.  The controllers of [ReplicaSet] and
    [RunnerController] run against it in any order. *)

From stdpp Require Import base list gmap strings pretty.
From Stdlib Require Import ZArith Lia.
From S2P Require Import Prelude Api GoStrings GitHubClient Hash RunnerPod GracefulStop PodOwner PodBuilder RunnerController RunnerDeployment ReplicaSet.

Open Scope string_scope.
Open Scope Z_scope.

(** ** The server *)

(** [cl_names] counts the generated names, [cl_ticks] the readings of the
    clock. *)
Record cluster := mkCluster {
  cl_set : RunnerReplicaSet;
  cl_runners : gmap string Runner;
  cl_pods : gmap string Pod;
  cl_names : nat;
  cl_ticks : nat
}.

Definition withRunner (w : cluster) (r : Runner) : cluster :=
  {| cl_set := cl_set w; cl_runners := <[om_Name (r_Meta r) := r]> (cl_runners w); cl_pods := cl_pods w;
     cl_names := cl_names w; cl_ticks := cl_ticks w |}.

Definition withPod (w : cluster) (p : Pod) : cluster :=
  {| cl_set := cl_set w; cl_runners := cl_runners w; cl_pods := <[om_Name (pod_Meta p) := p]> (cl_pods w);
     cl_names := cl_names w; cl_ticks := cl_ticks w |}.

Definition withSet (w : cluster) (rs : RunnerReplicaSet) : cluster :=
  {| cl_set := rs; cl_runners := cl_runners w; cl_pods := cl_pods w;
     cl_names := cl_names w; cl_ticks := cl_ticks w |}.

Definition ticked (w : cluster) : cluster :=
  {| cl_set := cl_set w; cl_runners := cl_runners w; cl_pods := cl_pods w;
     cl_names := cl_names w; cl_ticks := S (cl_ticks w) |}.

Definition notFound : err :=
  {| err_msg := "not found"; err_notfound := true; err_exists := false; err_ratelimit := false;
     err_canceled := false; err_status := Some 404 |}.

Definition found {A : Type} (o : option A) : result A :=
  match o with Some a => Val a | None => Err notFound end.

(** A name for an object that asks for a generated one. *)
Definition generateName (m : ObjectMeta) (n : nat) : ObjectMeta :=
  if decide (om_Name m = "") then
    {| om_Name := om_GenerateName m +:+ pretty n; om_GenerateName := om_GenerateName m;
       om_Namespace := om_Namespace m; om_Labels := om_Labels m; om_Annotations := om_Annotations m;
       om_CreationTimestamp := om_CreationTimestamp m; om_DeletionTimestamp := om_DeletionTimestamp m;
       om_Finalizers := om_Finalizers m; om_OwnerReferences := om_OwnerReferences m |}
  else m.

Definition createRunner (w : cluster) (r : Runner) : Runner * cluster :=
  let r := withRunnerMeta r (generateName (r_Meta r) (cl_names w)) in
  (r, {| cl_set := cl_set w; cl_runners := <[om_Name (r_Meta r) := r]> (cl_runners w); cl_pods := cl_pods w;
         cl_names := S (cl_names w); cl_ticks := cl_ticks w |}).

Section Server.
Context (own : OwnerReference) (clock : nat -> time).

Definition serve (q : req) (w : cluster) : ans q * cluster :=
  match q return ans q * cluster with
  | Now => (clock (cl_ticks w), ticked w)
  | Order _ => ([], w)
  | Get k key => match k return result (kobj k) * cluster with
                 | KRRS => (Val (cl_set w), w)
                 | KRunner => (found (cl_runners w !! nn_Name key), w)
                 | KPod => (found (cl_pods w !! nn_Name key), w)
                 | _ => (Err notFound, w)
                 end
  | List k _ => match k return result (list (kobj k)) * cluster with
                | KRunner => (Val (map snd (map_to_list (cl_runners w))), w)
                | KPod => (Val (map snd (map_to_list (cl_pods w))), w)
                | _ => (Val [], w)
                end
  | Create k o => match k return kobj k -> result (kobj k) * cluster with
                  | KRunner => fun o => let (o, w) := createRunner w o in (Val o, w)
                  | KPod => fun o => (Val o, withPod w o)
                  | _ => fun o => (Val o, w)
                  end o
  | Update k o | Patch k o _ | StatusPatch k o _ =>
      match k return kobj k -> result (kobj k) * cluster with
      | KRRS => fun o => (Val o, withSet w o)
      | KRunner => fun o => (Val o, withRunner w o)
      | KPod => fun o => (Val o, withPod w o)
      | _ => fun o => (Val o, w)
      end o
  | Delete k o _ =>
      match k return kobj k -> option err * cluster with
      | KRunner => fun o => (None, {| cl_set := cl_set w; cl_runners := delete (om_Name (r_Meta o)) (cl_runners w);
                                      cl_pods := cl_pods w; cl_names := cl_names w; cl_ticks := cl_ticks w |})
      | KPod => fun o => (None, {| cl_set := cl_set w; cl_runners := cl_runners w;
                                   cl_pods := delete (om_Name (pod_Meta o)) (cl_pods w);
                                   cl_names := cl_names w; cl_ticks := cl_ticks w |})
      | _ => fun _ => (None, w)
      end o
  | SelectorAsSelector _ => (None, w)
  | SetControllerReference _ _ _ => (Val [own], w)
  | GHCreateRegistrationToken _ => (Val (mkToken "token" (clock (cl_ticks w) + 60 * Minute), 201), w)
  | GHListRunners _ _ => (Val ([], 0), w)
  | GHRemoveRunner _ _ => (Val 204, w)
  | GHListOrganizationRunnerGroups _ _ => (Val ([], 0), w)
  | GHListRunnerGroupsVisibleToRepo _ => (Val ([], 0), w)
  | GHListRepositoryAccessRunnerGroup _ _ _ => (Val ([], 0), w)
  | GHListRepositoryWorkflowRuns _ _ _ _ => (Val ([], 0), w)
  | GHListWorkflowJobs _ _ _ _ => (Val ([], 0), w)
  end.

End Server.

(** ** Bringing up a runner *)

Section Bringup.
Context {P : Printing} (own : OwnerReference) (clock : nat -> time) (d : podDefaults) (t0 : time).

(** A specification that [newPod] can build a pod for, of an owner that GitHub
    knows. *)
Record buildable (s : RunnerSpec) : Prop := {
  bu_volume : dockerSidecar (rsp_Config s) && negb (runnerVolumeEnabled (rsp_Config s)) = false;
  bu_mounts : rp_VolumeMounts (rsp_Pod s) = [];
  bu_volumes : rp_Volumes (rsp_Pod s) = [];
  bu_owner : exists o, getEnterpriseOrganizationAndRepo (rc_Enterprise (rsp_Config s))
    (rc_Organization (rsp_Config s)) (rc_Repository (rsp_Config s)) = Val o
}.

(** A runner as the replica set controller creates it. *)
Record newborn (r : Runner) : Prop := {
  nb_live : om_DeletionTimestamp (r_Meta r) = None;
  nb_finalizers : om_Finalizers (r_Meta r) = [];
  nb_status : r_Status r = emptyRunnerStatus;
  nb_spec : buildable (r_Spec r)
}.

(** A token that outlives the half hour. *)
Definition lasting (rt : RegistrationToken) : Prop :=
  tok_Token rt <> "" /\ t0 + 30 * Minute <= tok_ExpiresAt rt.

(** The runner after the first and after the second reconciliation. *)
Definition withOurFinalizer (r : Runner) : Runner :=
  withRunnerMeta r (withFinalizers (r_Meta r) [finalizerName]).
Definition withToken (r : Runner) (rt : RegistrationToken) : Runner :=
  withRegistration (withOurFinalizer r) rt.

(** A pod that Kubernetes has not looked at yet. *)
Definition unscheduled (r : Runner) (p : Pod) : Prop :=
  pod_Status p = emptyPodStatus /\ om_DeletionTimestamp (pod_Meta p) = None /\
  om_Name (pod_Meta p) = om_Name (r_Meta r) /\
  om_Annotations (pod_Meta p) = om_Annotations (r_Meta r).

(** How far a runner has come: it has its finalizer, a token, a pod, and a
    phase that reports the pod. *)
Inductive stage (w : cluster) (r : Runner) : nat -> Prop :=
| st_born :
    cl_runners w !! om_Name (r_Meta r) = Some r -> cl_pods w !! om_Name (r_Meta r) = None -> stage w r 0
| st_guarded :
    cl_runners w !! om_Name (r_Meta r) = Some (withOurFinalizer r) ->
    cl_pods w !! om_Name (r_Meta r) = None -> stage w r 1
| st_registered rt :
    lasting rt -> cl_runners w !! om_Name (r_Meta r) = Some (withToken r rt) ->
    cl_pods w !! om_Name (r_Meta r) = None -> stage w r 2
| st_created rt p :
    cl_runners w !! om_Name (r_Meta r) = Some (withToken r rt) ->
    cl_pods w !! om_Name (r_Meta r) = Some p -> unscheduled r p -> stage w r 3
| st_reported rt p :
    cl_runners w !! om_Name (r_Meta r)
      = Some (withRunnerStatus (withToken r rt) (reportedStatus (withToken r rt) p)) ->
    cl_pods w !! om_Name (r_Meta r) = Some p -> unscheduled r p -> stage w r 4.

(** Everything but the entries of [name] and the clock is the same. *)
Definition onlyChanges (name : string) (w w' : cluster) : Prop :=
  cl_set w' = cl_set w /\ cl_names w' = cl_names w /\
  (forall n, n <> name -> cl_runners w' !! n = cl_runners w !! n /\ cl_pods w' !! n = cl_pods w !! n).

Lemma newPod_unscheduled r w :
  buildable (r_Spec r) ->
  exists p l, run (serve own clock) (newPod d r) w = (Done (Val p), w, l) /\ unscheduled r p.
Proof.
  intros [Hv Hm Hvs _]. unfold newPod, newRunnerPod. rewrite Hv, Hm, Hvs. cbv beta iota zeta.
  set (p0 := if decide _ then _ else _).
  assert (unscheduled r p0) as Hp0 by (unfold p0; case_decide; done).
  clearbody p0. unfold mountVolumes, addVolumes. cbn -[mutatePod customizeSpec].
  set (p1 := mutatePod _ _).
  assert (unscheduled r p1) as Hp1 by (unfold p1, mutatePod; repeat case_decide; done).
  do 2 eexists. split; [reflexivity|]. done.
Qed.

(** No empty token is cached. *)
Definition goodCache (regTokens : tokens) : Prop :=
  forall key rt, regTokens !! key = Some rt -> tok_Token rt <> "".

Hypothesis clock_window : forall i, t0 <= clock i <= t0 + 30 * Minute.

Lemma run_GetRegistrationToken regTokens r w :
  buildable (r_Spec r) -> goodCache regTokens ->
  let c := rsp_Config (r_Spec r) in
  exists regTokens' rt w' l,
    run (serve own clock) (GetRegistrationToken regTokens (rc_Enterprise c) (rc_Organization c)
      (rc_Repository c) (om_Name (r_Meta r))) w = (Done (regTokens', Val rt), w', l) /\
    (w' = w \/ w' = ticked w) /\ lasting rt /\ goodCache regTokens'.
Proof.
  intros [_ _ _ [[[e o] rp] Ho]] Hc c. unfold GetRegistrationToken, cachedToken. fold c in Ho. rewrite Ho.
  pose proof (clock_window (cl_ticks w)) as Hw. pose proof (clock_window (S (cl_ticks w))) as Hw'.
  set (key := getRegistrationKey _ _ _).
  assert (forall t, goodCache (<[key := mkToken "token" t]> regTokens)) as Hins.
  { intros t k rt. rewrite lookup_insert_Some. intros [[<- <-]|[_ H]]; [done|by eapply Hc]. }
  destruct (regTokens !! key) as [rt|] eqn:Hk; simpl.
  - unfold After. destruct (Z.ltb_spec (clock (cl_ticks w) + runnerStartupTimeout) (tok_ExpiresAt rt)); simpl.
    + do 4 eexists. split; [reflexivity|]. split; [by right|]. split; [|done].
      split; [by eapply Hc|]. unfold runnerStartupTimeout in *. lia.
    + do 4 eexists. split; [reflexivity|]. split; [by right|]. split; [|apply Hins]. split; [done|]. simpl. lia.
  - do 4 eexists. split; [reflexivity|]. split; [by left|]. split; [|apply Hins]. split; [done|]. simpl. lia.
Qed.

(** A reconciliation of a runner takes it to the next stage and leaves the
    other runners alone. *)
Definition advances (ns : string) (regTokens : tokens) (w : cluster) (r : Runner) (k : nat) : Prop :=
  exists regTokens' res w' l,
    run (serve own clock) (ReconcileRunner d regTokens (mkNN ns (om_Name (r_Meta r)))) w
      = (Done (regTokens', Val res), w', l) /\
    stage w' r k /\ onlyChanges (om_Name (r_Meta r)) w w' /\ goodCache regTokens'.

Lemma onlyChanges_refl name w : onlyChanges name w w.
Proof. split_and!; [done..|]. by intros n. Qed.

Lemma onlyChanges_ticked name w w' : onlyChanges name w w' -> onlyChanges name w (ticked w').
Proof. done. Qed.

Lemma onlyChanges_runner w w' r :
  onlyChanges (om_Name (r_Meta r)) w w' -> onlyChanges (om_Name (r_Meta r)) w (withRunner w' r).
Proof.
  intros (? & ? & H). split_and!; [done..|]. intros n Hn. destruct (H n Hn) as [? ?]. simpl.
  by rewrite lookup_insert_ne.
Qed.

Lemma onlyChanges_pod name w w' p :
  om_Name (pod_Meta p) = name -> onlyChanges name w w' -> onlyChanges name w (withPod w' p).
Proof.
  intros <- (? & ? & H). split_and!; [done..|]. intros n Hn. destruct (H n Hn) as [? ?]. simpl.
  by rewrite lookup_insert_ne.
Qed.

Lemma born_advances ns regTokens w r :
  newborn r -> goodCache regTokens -> stage w r 0 -> advances ns regTokens w r 1.
Proof.
  intros [Hl Hf _ _] Hc Hs. inversion_clear Hs as [Hr Hp| | | |]. unfold advances, ReconcileRunner.
  cbn -[withRunner]. rewrite Hr. cbn -[withRunner]. rewrite Hl, Hf. cbn -[withRunner].
  do 4 eexists. split; [reflexivity|]. split; [|split; [|done]].
  - apply st_guarded; simpl; [by rewrite lookup_insert_eq|done].
  - apply (onlyChanges_runner _ _ (withOurFinalizer r)), onlyChanges_refl.
Qed.

(** The part of a reconciliation after the runner with its finalizer was read. *)
Lemma run_Reconcile ns regTokens w name runner :
  cl_runners w !! name = Some runner -> om_DeletionTimestamp (r_Meta runner) = None ->
  om_Finalizers (r_Meta runner) = [finalizerName] ->
  exists l, run (serve own clock) (ReconcileRunner d regTokens (mkNN ns name)) w =
    let '(o, w', l') := run (serve own clock)
      (match cl_pods w !! name with
       | None => processRunnerCreation d regTokens runner
       | Some pod => r <- reportPod runner pod ;; Ret (regTokens, r)
       end) w in (o, w', l ++ l')%list.
Proof.
  intros Hr Hl Hf. unfold ReconcileRunner. cbn -[processRunnerCreation reportPod]. rewrite Hr.
  cbn -[processRunnerCreation reportPod]. rewrite Hl, Hf. unfold addFinalizer.
  rewrite bool_decide_true by set_solver. cbn -[processRunnerCreation reportPod].
  exists [EvA (Get KRunner (mkNN ns name)) (Val runner); EvA (Get KPod (mkNN ns name)) (found (cl_pods w !! name))].
  destruct (cl_pods w !! name) as [p|]; cbn -[processRunnerCreation reportPod].
  - by destruct (run _ (bind _ _) _) as [[? ?] ?].
  - by destruct (run _ (processRunnerCreation _ _ _) _) as [[? ?] ?].
Qed.

Lemma run_updateRegistrationToken regTokens r w :
  newborn r -> goodCache regTokens ->
  exists regTokens' rt w1 l,
    run (serve own clock) (updateRegistrationToken regTokens (withOurFinalizer r)) w
      = (Done (regTokens', Val true), withRunner w1 (withToken r rt), l) /\
    (w1 = w \/ w1 = ticked w) /\ lasting rt /\ goodCache regTokens'.
Proof.
  intros [Hl Hf Hst Hb] Hc.
  destruct (run_GetRegistrationToken regTokens (withOurFinalizer r) w Hb Hc)
    as (rts & rt & w1 & l1 & Hrun & Hw1 & Hlast & Hc').
  exists rts, rt, w1. eexists. split; [|done]. unfold updateRegistrationToken.
  assert (IsRegisterable (withOurFinalizer r) = Ret false) as ->.
  { unfold IsRegisterable. simpl. rewrite Hst. simpl. by destruct (negb _). }
  cbn [bind]. cbv beta iota zeta. rewrite (run_bind _ _ _ _ _ _ _ Hrun). reflexivity.
Qed.

Lemma guarded_advances ns regTokens w r :
  newborn r -> goodCache regTokens -> stage w r 1 -> advances ns regTokens w r 2.
Proof.
  intros Hn Hc Hs. inversion_clear Hs as [|Hr Hp| | |].
  destruct (run_updateRegistrationToken regTokens r w Hn Hc) as (rts & rt & w1 & l1 & Hrun & Hw1 & Hlast & Hc').
  destruct (run_Reconcile ns regTokens w _ _ Hr (nb_live _ Hn) eq_refl) as [l Hrec].
  unfold advances. rewrite Hrec, Hp. unfold processRunnerCreation. rewrite (run_bind _ _ _ _ _ _ _ Hrun).
  do 4 eexists. split; [reflexivity|]. split_and!; [| |done].
  - apply (st_registered _ _ rt); [done|simpl; by rewrite lookup_insert_eq|]. by destruct Hw1 as [->| ->].
  - apply (onlyChanges_runner _ _ (withToken r rt)). destruct Hw1 as [->| ->]; [|apply onlyChanges_ticked]; apply onlyChanges_refl.
Qed.

Lemma registered_advances ns regTokens w r :
  newborn r -> goodCache regTokens -> stage w r 2 -> advances ns regTokens w r 3.
Proof.
  intros Hn Hc Hs. inversion_clear Hs as [| |rt [Hne Hex] Hr Hp| |].
  destruct (newPod_unscheduled (withToken r rt) (ticked w) (nb_spec _ Hn)) as (p & l1 & Hrun & Hu).
  destruct (run_Reconcile ns regTokens w _ _ Hr (nb_live _ Hn) eq_refl) as [l Hrec].
  unfold advances. rewrite Hrec, Hp. unfold processRunnerCreation.
  assert (exists l, run (serve own clock) (updateRegistrationToken regTokens (withToken r rt)) w
    = (Done (regTokens, Val false), ticked w, l)) as [l2 Hup].
  { unfold updateRegistrationToken, IsRegisterable. cbn. rewrite bool_decide_true by done. cbn.
    rewrite decide_False by done. cbn. unfold Before.
    pose proof (clock_window (cl_ticks w)). rewrite (proj2 (Z.ltb_ge _ _)) by lia. cbn. by eexists. }
  rewrite (run_bind _ _ _ _ _ _ _ Hup). cbv beta iota. rewrite (run_bind _ _ _ _ _ _ _ Hrun).
  do 4 eexists. split; [reflexivity|]. destruct Hu as (Hu1 & Hu2 & Hu3 & Hu4). split_and!; [| |done].
  - apply (st_created _ _ rt p); simpl; [done| |done]. rewrite Hu3. by rewrite lookup_insert_eq.
  - apply onlyChanges_pod; [done|]. apply onlyChanges_ticked, onlyChanges_refl.
Qed.

Lemma created_advances ns regTokens w r :
  newborn r -> goodCache regTokens -> stage w r 3 -> advances ns regTokens w r 4.
Proof.
  intros Hn Hc Hs. inversion_clear Hs as [| | |rt p Hr Hp Hu|].
  destruct (run_Reconcile ns regTokens w _ _ Hr (nb_live _ Hn) eq_refl) as [l Hrec].
  unfold advances. rewrite Hrec, Hp. unfold reportPod. pose proof Hu as (Hst & _).
  assert (rst_Phase (r_Status (withToken r rt)) = "") as -> by (simpl; by rewrite (nb_status _ Hn)).
  assert (phaseOf p = "Created") as Hph by (unfold phaseOf; by rewrite Hst).
  rewrite Hph. cbn -[withRunner reportedStatus withRunnerStatus].
  do 4 eexists. split; [reflexivity|]. split_and!; [| |done].
  - apply (st_reported _ _ rt p); simpl; [by rewrite lookup_insert_eq|done..].
  - apply (onlyChanges_runner _ _ (withRunnerStatus (withToken r rt) (reportedStatus (withToken r rt) p))), onlyChanges_refl.
Qed.

Lemma reported_advances ns regTokens w r :
  newborn r -> goodCache regTokens -> stage w r 4 -> advances ns regTokens w r 4.
Proof.
  intros Hn Hc Hs. inversion_clear Hs as [| | | |rt p Hr Hp Hu].
  destruct (run_Reconcile ns regTokens w _ _ Hr (nb_live _ Hn) eq_refl) as [l Hrec].
  unfold advances. rewrite Hrec, Hp. unfold reportPod. cbn -[phaseOf runnerPodReady].
  rewrite bool_decide_true by done. rewrite eqb_reflx. cbn -[phaseOf runnerPodReady].
  do 4 eexists. split; [reflexivity|]. split_and!; [by apply (st_reported _ _ rt p)|apply onlyChanges_refl|done].
Qed.

Lemma runner_advances ns regTokens w r k :
  newborn r -> goodCache regTokens -> stage w r k -> advances ns regTokens w r (Nat.min 4 (S k)).
Proof.
  intros Hn Hc Hs. pose proof Hs as Hs'. inversion Hs' as [? ? Hk|? ? Hk|rt ? ? ? Hk|rt p ? ? ? Hk|rt p ? ? ? Hk]; subst k; simpl;
    auto using born_advances, guarded_advances, registered_advances, created_advances, reported_advances.
Qed.

(** ** Any schedule *)

Abbreviation nameOf := (fun r : Runner => om_Name (r_Meta r)).

(** Reconcile the runners in the order of the schedule. *)
Fixpoint reconcileRunners (ns : string) (schedule : list string) (regTokens : tokens) (w : cluster)
  : option (tokens * cluster) :=
  match schedule with
  | [] => Some (regTokens, w)
  | name :: schedule =>
      match run (serve own clock) (ReconcileRunner d regTokens (mkNN ns name)) w with
      | (Done (regTokens, Val _), w, _) => reconcileRunners ns schedule regTokens w
      | _ => None
      end
  end.

Definition occurrences (name : string) (schedule : list string) : nat :=
  length (List.filter (fun n => bool_decide (n = name)) schedule).

Lemma stage_frame w w' name r k :
  onlyChanges name w w' -> nameOf r <> name -> stage w r k -> stage w' r k.
Proof.
  intros (_ & _ & H) Hne. destruct (H _ Hne) as [Hr Hp].
  destruct 1; [apply st_born|apply st_guarded|eapply st_registered|eapply st_created|eapply st_reported];
    rewrite ?Hr, ?Hp; done.
Qed.

Lemma schedule_advances ns schedule regTokens w rs (g : string -> nat) :
  Forall newborn rs -> NoDup (map nameOf rs) -> goodCache regTokens ->
  (forall name, name ∈ schedule -> name ∈ map nameOf rs) ->
  (forall r, r ∈ rs -> stage w r (Nat.min 4 (g (nameOf r)))) ->
  exists regTokens' w', reconcileRunners ns schedule regTokens w = Some (regTokens', w') /\
    cl_set w' = cl_set w /\ cl_names w' = cl_names w /\
    (forall name, name ∉ map nameOf rs ->
       cl_runners w' !! name = cl_runners w !! name /\ cl_pods w' !! name = cl_pods w !! name) /\
    (forall r, r ∈ rs -> stage w' r (Nat.min 4 (g (nameOf r) + occurrences (nameOf r) schedule))).
Proof.
  intros Hnb Hnd. revert regTokens w g. induction schedule as [|name schedule IH]; intros regTokens w g Hc Hsub Hst.
  { exists regTokens, w. split_and!; [done..|]. intros r Hr. rewrite Nat.add_0_r. by apply Hst. }
  assert (exists r, r ∈ rs /\ nameOf r = name) as (r & Hr & <-).
  { assert (name ∈ map nameOf rs) as Hin by (apply Hsub; set_solver). apply list_elem_of_fmap in Hin as (r & -> & ?). eauto. }
  assert (newborn r) as Hn by (rewrite Forall_forall in Hnb; by apply Hnb).
  destruct (runner_advances ns regTokens w r _ Hn Hc (Hst r Hr)) as (rts & res & w1 & l & Hrun & Hs1 & Hoc & Hc1).
  cbn [reconcileRunners]. rewrite Hrun.
  destruct (IH rts w1 (fun n => if decide (n = nameOf r) then S (g n) else g n)) as (rts' & w' & Hrec & Hset & Hnames & Hout & Hin);
    [done|set_solver| |].
  { intros r' Hr'. destruct (decide (nameOf r' = nameOf r)) as [He|Hne].
    - assert (r' = r) as -> by (by eapply NoDup_map_elem). 
      replace (Nat.min 4 (S (g (nameOf r)))) with (Nat.min 4 (S (Nat.min 4 (g (nameOf r))))) by lia. done.
    - eapply stage_frame; eauto. }
  exists rts', w'. pose proof Hoc as (Hset1 & Hnames1 & Hfr). split_and!; [done|congruence|congruence| |].
  - intros n Hn'. destruct (Hout n Hn') as [-> ->]. apply Hfr. intros ->. apply Hn'. apply list_elem_of_fmap. eauto.
  - intros r' Hr'. specialize (Hin r' Hr'). cbv beta in Hin. unfold occurrences in *. cbn [List.filter].
    destruct (decide (nameOf r' = nameOf r)) as [He|Hne].
    + rewrite bool_decide_true by done. cbn [length].
      by rewrite Nat.add_succ_r.
    + rewrite bool_decide_false by done. done.
Qed.

End Bringup.

(** ** The replica set *)

Section Pool.
Context {P : Printing} {rfc : RFC3339} (own : OwnerReference) (clock : nat -> time).

Abbreviation nameOf := (fun r : Runner => om_Name (r_Meta r)).

(** The [i]-th runner that the server makes of a desired one. *)
Definition named (desired : Runner) (i : nat) : Runner :=
  withRunnerMeta desired (generateName (r_Meta desired) i).

Lemma named_inj desired i j :
  om_Name (r_Meta desired) = "" -> nameOf (named desired i) = nameOf (named desired j) -> i = j.
Proof.
  intros Hn H. unfold named, generateName in H. simpl in H. rewrite !decide_True in H by done. simpl in H.
  by apply string_app_inj_l, (inj pretty) in H.
Qed.

Lemma named_NoDup desired k n : om_Name (r_Meta desired) = "" -> NoDup (map nameOf (map (named desired) (seq k n))).
Proof.
  intros Hn. rewrite map_map. revert k. induction n as [|n IH]; intros k; simpl; [constructor|].
  constructor; [|apply IH]. intros H. apply list_elem_of_fmap in H as (j & Hj & Hin).
  apply named_inj in Hj; [|done]. apply elem_of_seq in Hin. lia.
Qed.

Lemma run_createReplicas n desired w :
  om_Name (r_Meta desired) = "" ->
  let rs := map (named desired) (seq (cl_names w) n) in
  exists w' l, run (serve own clock) (createReplicas (k := KRunner) n desired) w = (Done None, w', l) /\
    cl_set w' = cl_set w /\ cl_pods w' = cl_pods w /\
    (forall r, r ∈ rs -> cl_runners w' !! nameOf r = Some r) /\
    (forall name, name ∉ map nameOf rs -> cl_runners w' !! name = cl_runners w !! name).
Proof.
  intros Hn. revert w. induction n as [|n IH]; intros w; cbn -[createRunner].
  - do 2 eexists. split; [reflexivity|]. split_and!; [done|done|set_solver|done].
  - set (r := named desired (cl_names w)).
    set (w1 := {| cl_set := cl_set w; cl_runners := <[nameOf r := r]> (cl_runners w); cl_pods := cl_pods w;
                  cl_names := S (cl_names w); cl_ticks := cl_ticks w |}).
    destruct (IH w1) as (w' & l & Hrun & Hset & Hp & Hin & Hout). cbn [cl_names w1] in Hin, Hout.
    exists w'. eexists. change (createRunner w desired) with (r, w1). cbv iota beta. simpl. rewrite Hrun.
    split; [reflexivity|].
    pose proof (named_NoDup desired (cl_names w) (S n) Hn) as Hnd. simpl in Hnd. apply NoDup_cons in Hnd as [Hr _].
    split_and!; [done|done| |].
    + intros r' [->|Hr']%elem_of_cons; [|by apply Hin]. rewrite Hout by done. simpl. by rewrite lookup_insert_eq.
    + intros name Hname. rewrite Hout by set_solver. simpl. rewrite lookup_insert_ne; [done|]. set_solver.
Qed.

(** A runner that is up, for the set's template. *)
Record settled (w : cluster) (hash : string) (o : Runner) : Prop := {
  se_hash : getRunnerTemplateHash (r_Meta o) = Some hash;
  se_live : om_DeletionTimestamp (r_Meta o) = None;
  se_registered : getAnnotation (r_Meta o) AnnotationKeyUnregistrationCompleteTimestamp = None;
  se_wanted : getAnnotation (r_Meta o) AnnotationKeyUnregistrationRequestTimestamp = None;
  se_phase : rst_Phase (r_Status o) <> "";
  se_pod : exists p, cl_pods w !! nameOf o = Some p /\ pod_Status p = emptyPodStatus /\
    om_DeletionTimestamp (pod_Meta p) = None
}.

(** What is collected of such a runner: one pod that is pending. *)
Definition waiting (hash : string) (res : podsForOwner KRunner) : Prop :=
  total res = 1 /\ pending res = 1 /\ running res = 0 /\ templateHash res = hash.

Lemma classifyPod_pending p :
  pod_Status p = emptyPodStatus -> om_DeletionTimestamp (pod_Meta p) = None -> classifyPod p = Ret Pending.
Proof.
  intros Hst Hl. unfold classifyPod, runnerPodOrContainerIsStopped. rewrite Hst, Hl. reflexivity.
Qed.

Lemma run_collectOne w hash o st :
  hash <> "" -> settled w hash o ->
  exists res last l, run (serve own clock) (collectOne (k := KRunner) o st) w
    = (Done (Next {| podsForOwners := addOwner (podsForOwners st) res; lastSyncTime := last |}), w, l) /\
    waiting hash res.
Proof.
  intros Hh [H1 H2 H3 H4 H5 (p & Hp & Hst & Hl)].
  set (res := {| total := 1; completed := 0; running := 0; terminating := 0; regTimeout := 0; pending := 1;
                 templateHash := hash; owner := (o : kobj KRunner); synced := true; pods := [p] |}).
  assert (exists l, run (serve own clock) (getPodsForOwner (k := KRunner) o) w = (Done (Val (Some res)), w, l)) as [l Hrun].
  { unfold getPodsForOwner. cbn -[getRunnerTemplateHash classifyPod]. rewrite Hp.
    cbn -[getRunnerTemplateHash classifyPod]. rewrite classifyPod_pending by done.
    cbn -[getRunnerTemplateHash]. rewrite H1. cbn. rewrite bool_decide_true by done. by eexists. }
  exists res, (updateLastSyncTime (lastSyncTime st) (r_Meta o)). eexists. split; [|done]. unfold collectOne.
  rewrite (run_bind _ _ _ _ _ _ _ Hrun). cbv beta iota zeta. change (owner_meta (owner res)) with (r_Meta o).
  rewrite decide_False by done. rewrite H2, H3, H4. reflexivity.
Qed.

Definition grouped (hash : string) (st : state (k := KRunner)) (n : nat) : Prop :=
  length (default [] (podsForOwners st !! hash)) = n /\
  forall h group, podsForOwners st !! h = Some group -> Forall (waiting hash) group.

Lemma grouped_add hash st n res last :
  grouped hash st n -> waiting hash res ->
  grouped hash {| podsForOwners := addOwner (podsForOwners st) res; lastSyncTime := last |} (S n).
Proof.
  intros [Hn Hall] Hw. pose proof Hw as (_ & _ & _ & Hh). split; unfold addOwner; simpl; rewrite Hh.
  - rewrite lookup_insert_eq. simpl. rewrite length_app, Hn. simpl. lia.
  - intros h group. rewrite lookup_insert_Some. intros [[<- <-]|[_ H]]; [|by eapply Hall].
    apply Forall_app_2; [|by apply Forall_singleton].
    destruct (podsForOwners st !! hash) as [g|] eqn:Hg; simpl; [by eapply Hall|done].
Qed.

Lemma run_rangeCollect w hash owners st n :
  hash <> "" -> Forall (settled w hash) owners -> grouped hash st n ->
  exists st' l, run (serve own clock) (rangeM owners st (collectOne (k := KRunner))) w = (Done (inl st'), w, l) /\
    grouped hash st' (n + length owners).
Proof.
  intros Hh Hall. revert st n. induction Hall as [|o owners Ho _ IH]; intros st n Hg.
  { exists st, []. split; [done|]. by rewrite Nat.add_0_r. }
  destruct (run_collectOne w hash o st Hh Ho) as (res & last & l & Hrun & Hw).
  destruct (IH _ _ (grouped_add hash st n res last Hg Hw)) as (st' & l' & Hrun' & Hg').
  exists st'. eexists. cbn [rangeM]. rewrite (run_bind _ _ _ _ _ _ _ Hrun). cbv beta iota. rewrite Hrun'.
  split; [reflexivity|]. cbn [length]. by rewrite Nat.add_succ_r.
Qed.

Lemma waiting_sums hash (cur : list (podsForOwner KRunner)) :
  Forall (waiting hash) cur ->
  sumOf total cur = Z.of_nat (length cur) /\ sumOf pending cur = Z.of_nat (length cur) /\ sumOf running cur = 0.
Proof.
  unfold sumOf. induction 1 as [|res cur (H1 & H2 & H3 & _) _ IH]; [done|]. simpl.
  rewrite H1, H2, H3. lia.
Qed.

Lemma deleteOutdated_waiting hash l :
  Forall (waiting hash) l -> deleteOutdated (k := KRunner) hash l = Ret None.
Proof. induction 1 as [|res l (_ & _ & _ & Hh) _ IH]; [done|]. simpl. by rewrite decide_False by naive_solver. Qed.

(** A full pool of such runners is left alone. *)
Lemma run_sync_settled eff n desired ephemeral w hash owners :
  hash <> "" -> getRunnerTemplateHash (r_Meta desired) = Some hash -> Forall (settled w hash) owners ->
  n = Z.of_nat (length owners) -> 0 < n ->
  exists cur w' l, run (serve own clock) (syncRunnerPodsOwners (k := KRunner) eff n desired ephemeral owners) w
    = (Done (Val (Some cur)), w', l) /\ (w' = w \/ w' = ticked w) /\
    sumOf total cur = n /\ sumOf running cur = 0.
Proof.
  intros Hh Hd Hall Hn Hpos.
  destruct (run_rangeCollect w hash owners {| podsForOwners := ∅; lastSyncTime := None |} 0 Hh Hall)
    as (st & l & Hrun & Hlen & Hg); [split; [done|]; set_solver|].
  set (cur := sort_stable createdBefore (default [] (podsForOwners st !! hash))).
  assert (Forall (waiting hash) cur /\ length cur = length owners) as [Hcur Hcl].
  { unfold cur. rewrite sort_stable_Permutation. split; [|done].
    destruct (podsForOwners st !! hash) as [g|] eqn:E; simpl; [by eapply Hg|done]. }
  destruct (waiting_sums hash cur Hcur) as (St & Sp & Sr).
  assert (exists l w', run (serve own clock) (scale (k := KRunner) desired n ephemeral eff (lastSyncTime st) cur) w
    = (Done ScaleDone, w', l) /\ (w' = w \/ w' = ticked w)) as (l2 & w' & Hsc & Hw').
  { unfold scale. rewrite Sp, Sr, Hcl, <- Hn, Z.add_0_r, Z.ltb_irrefl, (proj2 (Z.leb_gt n 0)) by done.
    unfold recreationDelay. destruct (lastSyncTime st); cbn; eauto. }
  assert (deleteOutdated (k := KRunner) hash (concat (map snd (shuffle [] (map_to_list (podsForOwners st))))) = Ret None) as Hdel.
  { apply deleteOutdated_waiting. rewrite Forall_forall. intros res Hres.
    apply list_elem_of_In, in_concat in Hres as (g & Hin & Hres).
    apply list_elem_of_In, list_elem_of_fmap in Hin as ([h g'] & -> & Hin). rewrite shuffle_Permutation in Hin.
    apply elem_of_map_to_list, Hg in Hin. rewrite Forall_forall in Hin. by apply Hin, list_elem_of_In. }
  assert (exists l, run (serve own clock) (collectPodsForOwners (k := KRunner) owners) w
    = (Done (Val (Some st)), w, l)) as [l3 Hcol].
  { unfold collectPodsForOwners. rewrite (run_bind _ _ _ _ _ _ _ Hrun). by eexists. }
  exists cur, w'. eexists. split; [|split; [done|]; split; [by rewrite St, Hcl|done]].
  unfold syncRunnerPodsOwners. rewrite (run_bind _ _ _ _ _ _ _ Hcol).
  cbv beta iota. change (owner_meta (k := KRunner) desired) with (r_Meta desired). rewrite Hd. cbv iota zeta. fold cur.
  rewrite (run_bind _ _ _ _ _ _ _ Hsc). cbv beta iota zeta. cbn -[deleteOutdated shuffle]. rewrite Hdel. reflexivity.
Qed.

(** The runner that the controller asks for, and the set it belongs to. *)
Definition desiredRunner (rs : RunnerReplicaSet) (now : time) : Runner :=
  {| r_Meta := withOwnerReferences (newRunnerMeta rs now) [own];
     r_Spec := rt_Spec (rrss_Template (rrs_Spec rs)); r_Status := emptyRunnerStatus |}.

(** A set in use, with a template that asks for nothing of its own but a pod
    that can be built. *)
Record poolable (rs : RunnerReplicaSet) (hash : string) : Prop := {
  po_live : om_DeletionTimestamp (rrs_Meta rs) = None;
  po_hash : getRunnerTemplateHash (rt_Meta (rrss_Template (rrs_Spec (ensureTemplateHash rs)))) = Some hash;
  po_nonempty : hash <> "";
  po_meta : let m := rt_Meta (rrss_Template (rrs_Spec rs)) in
    om_Name m = "" /\ om_DeletionTimestamp m = None /\ om_Finalizers m = [] /\
    getAnnotation m AnnotationKeyUnregistrationCompleteTimestamp = None /\
    getAnnotation m AnnotationKeyUnregistrationRequestTimestamp = None;
  po_spec : buildable (rt_Spec (rrss_Template (rrs_Spec rs)))
}.

Definition replicasOf (rs : RunnerReplicaSet) : Z := default 1 (rrss_Replicas (rrs_Spec rs)).

(** Filling in the template hash changes nothing else. *)
Lemma ensureTemplateHash_template rs :
  let m := rt_Meta (rrss_Template (rrs_Spec rs)) in
  let m' := rt_Meta (rrss_Template (rrs_Spec (ensureTemplateHash rs))) in
  om_Name m' = om_Name m /\ om_DeletionTimestamp m' = om_DeletionTimestamp m /\
  om_Finalizers m' = om_Finalizers m /\ om_Annotations m' = om_Annotations m /\
  rt_Spec (rrss_Template (rrs_Spec (ensureTemplateHash rs))) = rt_Spec (rrss_Template (rrs_Spec rs)) /\
  replicasOf (ensureTemplateHash rs) = replicasOf rs.
Proof. unfold ensureTemplateHash. by case_decide. Qed.

Lemma desired_newborn rs hash now i :
  poolable rs hash ->
  let r := named (desiredRunner (ensureTemplateHash rs) now) i in
  newborn r /\ getRunnerTemplateHash (r_Meta r) = Some hash /\
  getAnnotation (r_Meta r) AnnotationKeyUnregistrationCompleteTimestamp = None /\
  getAnnotation (r_Meta r) AnnotationKeyUnregistrationRequestTimestamp = None.
Proof.
  intros [_ Hh _ (Hn & Hd & Hf & Hc & Hr) Hs].
  destruct (ensureTemplateHash_template rs) as (En & Ed & Ef & Ea & Es & _).
  unfold named, generateName, desiredRunner, newRunnerMeta, getAnnotation in *. simpl.
  rewrite decide_True by congruence. simpl. split_and!; [constructor; simpl; congruence|done| |].
  all: rewrite Ea; rewrite lookup_insert_ne by done; done.
Qed.

Lemma desired_named rs hash now : poolable rs hash -> om_Name (r_Meta (desiredRunner (ensureTemplateHash rs) now)) = "".
Proof. intros [_ _ _ (Hn & _) _]. destruct (ensureTemplateHash_template rs) as (En & _). simpl. congruence. Qed.

(** The part of a reconciliation around the synchronisation of the runners. *)
Lemma run_ReconcileReplicaSet w hash rq res w1 l1 :
  poolable (cl_set w) hash ->
  let rs := ensureTemplateHash (cl_set w) in
  run (serve own clock) (syncRunnerPodsOwners (k := KRunner) (rrss_EffectiveTime (rrs_Spec rs)) (replicasOf (cl_set w))
    (desiredRunner rs (clock (cl_ticks w))) (ephemeralRunners (rsp_Config (rt_Spec (rrss_Template (rrs_Spec rs)))))
    (map snd (map_to_list (cl_runners w)))) (ticked w) = (Done (Val res), w1, l1) ->
  exists l, run (serve own clock) (ReconcileReplicaSet rq) w =
    let '(o, w2, l2) := run (serve own clock)
      (match res with
       | None => Ret (Val noResult)
       | Some cur => patchReplicaSetStatus rs (replicaSetStatus cur)
       end) w1 in (o, w2, l ++ l2)%list.
Proof.
  intros Hp rs Hsync. unfold ReconcileReplicaSet. cbn -[syncReplicaSet ensureTemplateHash].
  rewrite (po_live _ _ Hp). cbn -[syncReplicaSet ensureTemplateHash]. fold rs.
  unfold syncReplicaSet. cbn -[syncRunnerPodsOwners ensureTemplateHash]. fold (desiredRunner rs (clock (cl_ticks w))).
  assert (default 1 (rrss_Replicas (rrs_Spec rs)) = replicasOf (cl_set w)) as -> by apply (ensureTemplateHash_template (cl_set w)).
  rewrite (run_bind _ _ _ _ _ _ _ Hsync). cbv beta iota.
  set (p := match res with Some _ => _ | None => _ end). destruct (run _ p w1) as [[o w2] l2].
  eexists (_ :: _ :: _ :: _ :: _ :: l1). reflexivity.
Qed.

(** The first reconciliation of an empty pool creates the runners asked for. *)
Lemma run_fill w hash rq :
  poolable (cl_set w) hash -> cl_runners w = ∅ -> 0 < replicasOf (cl_set w) ->
  let rs := ensureTemplateHash (cl_set w) in
  let runners := map (named (desiredRunner rs (clock (cl_ticks w)))) (seq (cl_names w) (Z.to_nat (replicasOf (cl_set w)))) in
  exists w' l, run (serve own clock) (ReconcileReplicaSet rq) w = (Done (Val noResult), w', l) /\
    cl_set w' = cl_set w /\ cl_pods w' = cl_pods w /\
    (forall r, r ∈ runners -> cl_runners w' !! nameOf r = Some r) /\
    (forall name, name ∉ map nameOf runners -> cl_runners w' !! name = None).
Proof.
  intros Hp He Hpos rs runners. set (n := replicasOf (cl_set w)) in *.
  set (desired := desiredRunner rs (clock (cl_ticks w))) in *.
  destruct (run_createReplicas (Z.to_nat n) desired (ticked w))
    as (w' & l & Hrun & Hset & Hpods & Hin & Hout); [by eapply desired_named|].
  assert (getRunnerTemplateHash (r_Meta desired) = Some hash) as Hh by apply (po_hash _ _ Hp).
  set (eph := ephemeralRunners (rsp_Config (rt_Spec (rrss_Template (rrs_Spec rs))))).
  assert (run (serve own clock) (scale (k := KRunner) desired n eph (rrss_EffectiveTime (rrs_Spec rs)) None []) (ticked w)
    = (Done ScalePostponed, w', (l ++ [])%list)) as Hsc.
  { unfold scale, sumOf. cbn [map foldr sumZ recreationDelay bind]. rewrite Z.add_0_r, (proj2 (Z.ltb_lt 0 n)), Z.sub_0_r by done.
    cbn [andb]. rewrite (run_bind _ _ _ _ _ _ _ Hrun). reflexivity. }
  destruct (run_ReconcileReplicaSet w hash rq None w' ((l ++ []) ++ [])%list Hp) as [l' Hrec].
  { rewrite He, map_to_list_empty. unfold syncRunnerPodsOwners. fold rs desired eph n. cbn -[desired scale getRunnerTemplateHash].
    rewrite Hh. cbn [bind podsForOwners lastSyncTime]. rewrite lookup_empty. cbn [default sort_stable]. rewrite (run_bind _ _ _ _ _ _ _ Hsc). reflexivity. }
  exists w'. eexists. split; [exact Hrec|]. split_and!; [done..|].
  intros name Hname. rewrite Hout by done. simpl. by rewrite He.
Qed.

(** A reconciliation of a full pool reports it and changes nothing else. *)
Lemma run_report w hash rq :
  poolable (cl_set w) hash -> Forall (settled w hash) (map snd (map_to_list (cl_runners w))) ->
  replicasOf (cl_set w) = Z.of_nat (size (cl_runners w)) -> 0 < replicasOf (cl_set w) ->
  exists w' l, run (serve own clock) (ReconcileReplicaSet rq) w = (Done (Val noResult), w', l) /\
    cl_runners w' = cl_runners w /\ cl_pods w' = cl_pods w /\
    rrs_Status (cl_set w') = {| rrst_Replicas := Some (replicasOf (cl_set w)); rrst_ReadyReplicas := Some 0;
                               rrst_AvailableReplicas := Some 0 |}.
Proof.
  intros Hp Hall Hn Hpos. set (rs := ensureTemplateHash (cl_set w)).
  destruct (run_sync_settled (rrss_EffectiveTime (rrs_Spec rs)) (replicasOf (cl_set w)) (desiredRunner rs (clock (cl_ticks w)))
    (ephemeralRunners (rsp_Config (rt_Spec (rrss_Template (rrs_Spec rs))))) (ticked w) hash
    (map snd (map_to_list (cl_runners w)))) as (cur & w1 & l1 & Hrun & Hw1 & Ht & Hr); [apply Hp..| | |done|].
  { eapply Forall_impl; [exact Hall|]. by intros o [? ? ? ? ? ?]. }
  { rewrite length_map, length_map_to_list. done. }
  destruct (run_ReconcileReplicaSet w hash rq (Some cur) w1 l1 Hp Hrun) as [l Hrec]. rewrite Hrec.
  unfold patchReplicaSetStatus, replicaSetStatus. fold rs. rewrite Ht, Hr. case_bool_decide as Hst.
  - do 2 eexists. split; [reflexivity|]. rewrite <- Hst.
    assert (rrs_Status rs = rrs_Status (cl_set w)) as -> by (unfold rs, ensureTemplateHash; by case_decide).
    destruct Hw1 as [->| ->]; done.
  - do 2 eexists. split; [reflexivity|]. destruct Hw1 as [->| ->]; done.
Qed.

(** Runners that have all come up make a full pool. *)
Lemma up_settled t0 w hash now runners :
  poolable (cl_set w) hash ->
  (exists k n, runners = map (named (desiredRunner (ensureTemplateHash (cl_set w)) now)) (seq k n)) ->
  (forall r, r ∈ runners -> stage t0 w r 4) ->
  (forall name, name ∉ map nameOf runners -> cl_runners w !! name = None) ->
  Forall (settled w hash) (map snd (map_to_list (cl_runners w))) /\ size (cl_runners w) = length runners.
Proof.
  intros Hp (k & n & Hrs) Hup Hout. split.
  - rewrite Forall_forall. intros o Ho. apply list_elem_of_fmap in Ho as ([name o'] & -> & Ho).
    apply elem_of_map_to_list in Ho. simpl. destruct (decide (name ∈ map nameOf runners)) as [Hin|Hn].
    2:{ rewrite Hout in Ho by done. done. }
    apply list_elem_of_fmap in Hin as (r & -> & Hin). specialize (Hup r Hin). subst runners.
    apply list_elem_of_fmap in Hin as (i & -> & _).
    destruct (desired_newborn _ _ now i Hp) as ([Hl _ _ _] & Hh & Hc & Hr). set (r := named _ i) in *.
    inversion_clear Hup as [| | | |rt p Hrun Hpod Hu]. rewrite Ho in Hrun. injection Hrun as ->.
    constructor; simpl; [done..| |exists p; destruct Hu as (? & ? & ?); done].
    unfold phaseOf. destruct Hu as (-> & _). done.
  - assert (dom (cl_runners w) = list_to_set (map nameOf runners)) as Hd.
    { apply set_eq. intros name. rewrite elem_of_dom, elem_of_list_to_set. split.
      - intros [o Ho]. destruct (decide (name ∈ map nameOf runners)) as [|Hn]; [done|]. rewrite Hout in Ho by done. done.
      - intros (r & -> & Hr)%list_elem_of_fmap. specialize (Hup r Hr). inversion_clear Hup; by eexists. }
    rewrite <- size_dom, Hd. rewrite size_list_to_set, length_map; [done|].
    subst runners. apply named_NoDup. by eapply desired_named.
Qed.

End Pool.

Section Comes.
Context {P : Printing} {rfc : RFC3339} (own : OwnerReference) (clock : nat -> time) (d : podDefaults) (t0 : time).
Hypothesis clock_window : forall i, t0 <= clock i <= t0 + 30 * Minute.

(** An empty pool fills: one reconciliation creates the runners asked for, and
    four reconciliations of each, in any order, bring them up. *)
Lemma pool_fills w hash regTokens rq ns :
  poolable (cl_set w) hash -> cl_runners w = ∅ -> cl_pods w = ∅ -> goodCache regTokens ->
  0 < replicasOf (cl_set w) ->
  let runners := map (named (desiredRunner own (ensureTemplateHash (cl_set w)) (clock (cl_ticks w))))
    (seq (cl_names w) (Z.to_nat (replicasOf (cl_set w)))) in
  let names := map (fun r => om_Name (r_Meta r)) runners in
  exists w1 l1,
    run (serve own clock) (ReconcileReplicaSet rq) w = (Done (Val noResult), w1, l1) /\
    Z.of_nat (length runners) = replicasOf (cl_set w) /\ NoDup names /\
    (forall name, name ∈ dom (cl_runners w1) <-> name ∈ names) /\
    forall schedule,
      (forall name, name ∈ schedule -> name ∈ names) ->
      (forall r, r ∈ runners -> (4 <= occurrences (om_Name (r_Meta r)) schedule)%nat) ->
      exists regTokens' w2,
        reconcileRunners own clock d ns schedule regTokens w1 = Some (regTokens', w2) /\
        cl_set w2 = cl_set w /\ (forall r, r ∈ runners -> stage t0 w2 r 4) /\
        (forall name, name ∉ names -> cl_runners w2 !! name = None).
Proof.
  intros Hp Her Hep Hc Hpos runners names.
  destruct (run_fill own clock w hash rq Hp Her Hpos) as (w1 & l1 & Hrun1 & Hset1 & Hpods1 & Hin1 & Hout1).
  fold runners in Hin1, Hout1. change (map _ runners) with names in Hout1.
  assert (NoDup names) as Hnd by (apply named_NoDup; by eapply desired_named).
  exists w1, l1. split_and!; [done| |done| |].
  { unfold runners. rewrite length_map, length_seq. lia. }
  { intros name. rewrite elem_of_dom. split.
    - intros [o Ho]. destruct (decide (name ∈ names)); [done|]. rewrite Hout1 in Ho by done. done.
    - intros (r & -> & Hr)%list_elem_of_fmap. eexists. by apply Hin1. }
  intros schedule Hsub Hocc.
  destruct (schedule_advances own clock d t0 clock_window ns schedule regTokens w1 runners (fun _ => O))
    as (rts & w2 & Hrec & Hset2 & _ & Hout2 & Hup); [| done..| |].
  { rewrite Forall_forall. intros r (i & -> & _)%list_elem_of_fmap. by apply (desired_newborn own _ _ _ _ Hp). }
  { intros r Hr. apply st_born; [by apply Hin1|]. by rewrite Hpods1, Hep. }
  exists rts, w2. split_and!; [done|congruence| |].
  - intros r Hr. specialize (Hup r Hr). specialize (Hocc r Hr). by rewrite Nat.min_l in Hup by lia.
  - intros name Hn. destruct (Hout2 name Hn) as [-> _]. by apply Hout1.
Qed.

(** C14: A replica set comes up: in a cluster with no runners, one reconciliation of
    the set creates as many runners as it asks for, under names of their own;
    then, in whatever order the runner controller gets to them, after four
    reconciliations of each every runner has its finalizer, a registration
    token and a pod, and reports the pod's phase; and the next reconciliation
    of the set finds them all, changes none of them and reports their number. *)
Theorem replica_set_comes_up w hash regTokens rq ns :
  poolable (cl_set w) hash -> cl_runners w = ∅ -> cl_pods w = ∅ -> goodCache regTokens ->
  0 < replicasOf (cl_set w) ->
  exists runners w1 l1,
    run (serve own clock) (ReconcileReplicaSet rq) w = (Done (Val noResult), w1, l1) /\
    Z.of_nat (length runners) = replicasOf (cl_set w) /\ NoDup (map (fun r => om_Name (r_Meta r)) runners) /\
    (forall name, name ∈ dom (cl_runners w1) <-> name ∈ map (fun r => om_Name (r_Meta r)) runners) /\
    forall schedule,
      (forall name, name ∈ schedule -> name ∈ map (fun r => om_Name (r_Meta r)) runners) ->
      (forall r, r ∈ runners -> (4 <= occurrences (om_Name (r_Meta r)) schedule)%nat) ->
      exists regTokens' w2 w3 l3,
        reconcileRunners own clock d ns schedule regTokens w1 = Some (regTokens', w2) /\
        (forall r, r ∈ runners -> stage t0 w2 r 4) /\
        run (serve own clock) (ReconcileReplicaSet rq) w2 = (Done (Val noResult), w3, l3) /\
        cl_runners w3 = cl_runners w2 /\ cl_pods w3 = cl_pods w2 /\
        rrs_Status (cl_set w3) = {| rrst_Replicas := Some (replicasOf (cl_set w)); rrst_ReadyReplicas := Some 0;
                                   rrst_AvailableReplicas := Some 0 |}.
Proof.
  intros Hp Her Hep Hc Hpos.
  destruct (pool_fills w hash regTokens rq ns) as (w1 & l1 & Hrun & Hlen & Hnd & Hdom & Hup); [done..|].
  set (runners := map _ _) in *. exists runners, w1, l1. split_and!; [done..|]. intros schedule Hsub Hocc.
  destruct (Hup schedule Hsub Hocc) as (rts & w2 & Hrec & Hset & Hup4 & Hout).
  destruct (up_settled own t0 w2 hash (clock (cl_ticks w)) runners) as [Hall Hsz]; rewrite ?Hset; [done|by do 2 eexists|done..|].
  destruct (run_report own clock w2 hash rq) as (w3 & l3 & Hrun3 & Hr3 & Hp3 & Hst3); rewrite ?Hset; [done..|congruence|done|].
  exists rts, w2, w3, l3. rewrite Hset in Hst3. by split_and!.
Qed.

End Comes.
