(* ===== verification/Watches.v ===== *)
(** * What the controllers watch

    [SetupWithManager] names the kinds that a controller owns, so that a change
    to an object brings its controller back.  Here the controllers' programs are
    checked against these registrations. *)

From stdpp Require Import base list gmap strings.
From Stdlib Require Import ZArith Lia.
From S2P Require Import Prelude Api GoStrings GitHubClient RunnerPod GracefulStop PodOwner Hash PodBuilder RunnerController RunnerDeployment RunnerSetController ReplicaSet Metrics Startup.

Open Scope string_scope.
Open Scope Z_scope.

(** Only objects of the kinds [ks] are created. *)
Definition createsIn (ks : list kind) (e : event ans) : Prop :=
  match ev_req e with Create k _ => k ∈ ks | _ => True end.

Lemma only_rangeM {X S R} (P : event ans -> Prop) (xs : list X) (s : S) (body : X -> S -> M (ctl S R)) :
  (forall x s, only P (body x s)) -> only P (rangeM xs s body).
Proof.
  intros H. revert s. induction xs as [|x xs IH]; intros s; simpl; [apply only_ret|].
  apply only_bind; [apply H|]. intros [s'|s'|r]; auto with arc.
Qed.

(** Step through a program whose questions are plain. *)
Ltac only_steps_by tac :=
  repeat first
    [ progress intros
    | solve [tac]
    | solve [auto with arc]
    | solve [apply only_ask; intros; done]
    | solve [apply only_ask; intros; cbv; set_solver]
    | apply only_bind
    | apply only_rangeM
    | split_match ].
Ltac only_steps := only_steps_by fail.

(** A write to an object of the kind [k]. *)
Definition writesKind (k : kind) (q : req) : Prop :=
  match q with
  | Create k' _ | Update k' _ | Patch k' _ _ | StatusPatch k' _ _ | Delete k' _ _ => k' = k
  | _ => False
  end.

(** The synchronisation of owners reads the clock and the pods of owners, writes
    owners, and requests the unregistration of pods; any property of these exchanges holds of all of
    its exchanges. *)
Section Engine.
Context {k : kind} {OW : Owner k} {LW : OwnerLaws k} {rfc : RFC3339}.
Context (P : event ans -> Prop)
  (HPnow : forall a, P (EvA Now a)) (HPorder : forall n a, P (EvA (Order n) a))
  (HPpods : forall o : kobj k, only P (owner_pods o))
  (HPowner : forall e, writesKind k (ev_req e) -> P e)
  (HPrequest : forall po v r, P (EvA (Patch KPod (annotatePod po AnnotationKeyUnregistrationRequestTimestamp v) po) r)).

Ltac owner_steps :=
  only_steps_by ltac:(solve [apply only_ask; intros; first [apply HPnow | apply HPorder | by apply HPowner]]).

Lemma annotatePods_only ps : only P (annotatePods ps).
Proof.
  induction ps as [|p ps IH]; cbn [annotatePods]; [auto with arc|].
  apply only_bind; [owner_steps|]. intros now. apply only_bind; [apply annotatePodOnce_only; auto|]. intros [?|?]; auto with arc.
Qed.

Lemma requestUnregistration_only (l : list (podsForOwner k)) : only P (requestUnregistration l).
Proof.
  induction l as [|ss l IH]; cbn [requestUnregistration]; [auto with arc|]. destruct (getAnnotation _ _); [done|].
  apply only_bind; [apply annotatePods_only|]. intros [?|]; [auto with arc|]. owner_steps; done.
Qed.

Lemma deleteOutdated_only hash (l : list (podsForOwner k)) : only P (deleteOutdated hash l).
Proof. induction l as [|ss l IH]; cbn [deleteOutdated]; owner_steps; done. Qed.

Lemma createReplicas_only n (desired : kobj k) : only P (createReplicas n desired).
Proof.
  induction n as [|n IH]; cbn [createReplicas]; [auto with arc|].
  apply only_bind; [owner_steps|]. intros [?|?]; auto with arc.
Qed.

Lemma countPods_only ps c : only P (countPods ps c).
Proof.
  revert c. induction ps as [|p ps IH]; intros c; cbn [countPods]; [auto with arc|].
  apply only_bind; [|auto]. unfold classifyPod, podConditionTransitionTimeAfter. owner_steps.
Qed.

Lemma collectOne_only (o : kobj k) st : only P (collectOne o st).
Proof.
  unfold collectOne, getPodsForOwner, nilDeref. apply only_bind; [apply only_bind|].
  - apply HPpods.
  - intros [ps|?]; [|auto with arc]. apply only_bind; [apply countPods_only|]. owner_steps.
  - owner_steps.
Qed.

Lemma sync_exchanges eff n (create : kobj k) ephemeral owners :
  only P (syncRunnerPodsOwners eff n create ephemeral owners).
Proof.
  unfold syncRunnerPodsOwners, collectPodsForOwners. apply only_bind.
  { apply only_bind; [|auto with arc]. apply only_rangeM. intros. apply collectOne_only. }
  intros [[st|]|?]; [|auto with arc..]. destruct (getRunnerTemplateHash _) as [hash|]; [|auto with arc]. apply only_bind.
  { unfold scale, recreationDelay. apply only_bind; [owner_steps|]. intros delayed.
    split_match; [auto with arc|]. split_match; [apply only_bind; [apply createReplicas_only|auto with arc]|].
    split_match; [|auto with arc]. destruct (selectForDeletion _ _ _ _). split_match; [|owner_steps].
    apply only_bind; [apply requestUnregistration_only|auto with arc]. }
  intros [e| |]; [auto with arc..|]. apply only_bind; [owner_steps|]. intros ord.
  apply only_bind; [apply deleteOutdated_only|]. intros [[?|]|]; auto with arc.
Qed.

End Engine.

Lemma sync_only {k : kind} {OW : Owner k} {LW : OwnerLaws k} {rfc : RFC3339} (P : event ans -> Prop)
  eff n (create : kobj k) ephemeral owners :
  (forall e, isRead (ev_req e) = true -> P e) -> (forall e, writesKind k (ev_req e) -> P e) ->
  (forall po v r, P (EvA (Patch KPod (annotatePod po AnnotationKeyUnregistrationRequestTimestamp v) po) r)) ->
  only P (syncRunnerPodsOwners eff n create ephemeral owners).
Proof.
  intros HPread HPowner HPrequest. apply sync_exchanges; [auto..| |done|done]. intros o.
  eapply always_mono; [|apply owner_pods_reads]. intros out l [_ Hl]. by eapply Forall_impl.
Qed.

Lemma sync_creates {k : kind} {OW : Owner k} {LW : OwnerLaws k} {rfc : RFC3339} eff n (create : kobj k) ephemeral owners :
  only (createsIn [k]) (syncRunnerPodsOwners eff n create ephemeral owners).
Proof.
  apply sync_only; unfold createsIn.
  - intros [[] a]; done.
  - intros [q a] H. destruct q; simpl in *; try done. subst. set_solver.
  - done.
Qed.

(** C16: Every controller owns the kinds of the objects it creates, so a change to
    one of them, or its deletion, reconciles the object that asked for it: pods
    bring their runner back, runners their replica set, replica sets their
    deployment, and stateful sets their runner set. *)
Theorem controllers_watch_what_they_create {P : Printing} {rfc : RFC3339} d regTokens common req :
  only (createsIn (ctl_Owns runnerCtl)) (ReconcileRunner d regTokens req) /\
  only (createsIn (ctl_Owns replicaSetCtl)) (ReconcileReplicaSet req) /\
  only (createsIn (ctl_Owns deploymentCtl)) (Reconcile common req) /\
  only (createsIn (ctl_Owns runnerSetCtl)) (ReconcileRunnerSet d req).
Proof.
  split_and!.
  - unfold ReconcileRunner, processRunnerCreation, updateRegistrationToken, IsRegisterable, GetRegistrationToken,
      cachedToken, createRegistrationToken, newPod, mountVolumes, addVolumes, sliceBounds, reportPod, processRunnerDeletion. only_steps.
  - unfold ReconcileReplicaSet, syncReplicaSet, newRunner, patchReplicaSetStatus. only_steps_by ltac:(apply sync_creates).
  - unfold Reconcile, reconcileSets, newRunnerReplicaSet, drainOldSet, patchStatus. only_steps.
  - unfold ReconcileRunnerSet, syncRunnerSet, newStatefulSet, patchRunnerSetStatus. only_steps_by ltac:(apply sync_creates).
Qed.
