(* ===== verification/Webhook.v ===== *)
(** * The webhook-based autoscaler
    (src/controllers/horizontal_runner_autoscaler_webhook.go and its on_*.go)

    A GitHub event is matched against the scale-up triggers of the
    HorizontalRunnerAutoscalers; the one target it selects gets a capacity
    reservation added or removed.  Parsing a delivery is go-github's part, the
    class [GitHubHooks]. *)

From stdpp Require Import base list gmap strings.
From Stdlib Require Import ZArith Lia.
From S2P Require Import Prelude Api GoStrings ActionsGlob GitHubClient RunnerGroups GracefulStop.

Open Scope string_scope.
Open Scope Z_scope.

(** ** Events *)

(** A pointer of go-github is an option; its nil-safe getters are [default]. *)
Record EventRepo := mkEventRepo {
  er_Name : option string;
  er_OwnerLogin : string;
  er_OwnerType : string
}.

Record CheckRun := mkCheckRun { ck_Status : option string; ck_Name : option string }.
Record PullRequestBranch := mkPRBranch { pb_Ref : option string }.
Record PullRequest := mkPullRequest { pr_Base : option PullRequestBranch }.
Record EventJob := mkEventJob { ej_Labels : list string; ej_Conclusion : string }.

Inductive webhookEvent :=
| PushEvent (repo : option EventRepo)
| PullRequestEvent (action : option string) (pr : option PullRequest) (repo : option EventRepo)
| CheckRunEvent (action : option string) (checkRun : option CheckRun) (repo : option EventRepo)
| WorkflowJobEvent (action : string) (job : option EventJob) (repo : option EventRepo)
| PingEvent
| UnknownEvent.

(** ** Matching triggers *)

Definition matchTriggerConditionAgainstEvent (types : list string) (eventAction : option string) : bool :=
  match types with
  | [] => true
  | _ =>
      match eventAction with
      | None => false
      | Some a => existsb (fun tpe => bool_decide (tpe = a)) types
      end
  end.

Definition MatchPushEvent (t : ScaleUpTrigger) : M bool :=
  Ret (match sut_GitHubEvent t with
       | None => false
       | Some g => bool_decide (is_Some (ge_Push g))
       end).

Definition MatchPullRequestEvent (action : option string) (pr : option PullRequest) (t : ScaleUpTrigger)
  : M bool :=
  match sut_GitHubEvent t with
  | None => Ret false
  | Some g =>
      match ge_PullRequest g with
      | None => Ret false
      | Some p =>
          if negb (matchTriggerConditionAgainstEvent (prs_Types p) action) then Ret false
          else match pr with
               | Some {| pr_Base := Some b |} =>
                   Ret (matchTriggerConditionAgainstEvent (prs_Branches p) (pb_Ref b))
               | _ => nilDeref
               end
      end
  end.

(** The first pattern that matches; a panic of [actionsglob.Match] is one. *)
Fixpoint matchNames (names : list string) (name : string) : M bool :=
  match names with
  | [] => Ret false
  | pat :: names =>
      match Match pat name with
      | Done true => Ret true
      | Done false => matchNames names name
      | Panicked m => Panic m
      | Exhausted => Stuck
      end
  end.

(** [*event.Repo.Name], dereferenced for each listed repository. *)
Definition matchRepositories (repositories : list string) (repo : option EventRepo) : M bool :=
  match repo with
  | Some {| er_Name := Some name |} => Ret (bool_decide (name ∈ repositories))
  | _ => nilDeref
  end.

Definition MatchCheckRunEvent (action : option string) (checkRun : option CheckRun)
  (repo : option EventRepo) (t : ScaleUpTrigger) : M bool :=
  match sut_GitHubEvent t with
  | None => Ret false
  | Some g =>
      match ge_CheckRun g with
      | None => Ret false
      | Some cr =>
          if negb (matchTriggerConditionAgainstEvent (crs_Types cr) action) then Ret false
          else if negb (bool_decide (crs_Status cr = "")) &&
                  negb (bool_decide ((c ← checkRun; ck_Status c) = Some (crs_Status cr)))
          then Ret false
          else
            match checkRun, crs_Names cr with
            | Some c, _ :: _ => matchNames (crs_Names cr) (default "" (ck_Name c))
            | _, _ =>
                match crs_Repositories cr with
                | [] => Ret true
                | repositories => matchRepositories repositories repo
                end
            end
      end
  end.

(** ** Scale targets *)

(** The HRA together with the trigger, whose [Amount] the caller may set. *)
Record ScaleTarget := mkTarget {
  t_HRA : HorizontalRunnerAutoscaler;
  t_Trigger : ScaleUpTrigger
}.

Definition enterpriseKey (name : string) : string := "enterprises/" +:+ name.
Definition organizationalRunnerGroupKey (owner group : string) : string := owner +:+ "/group/" +:+ group.
Definition enterpriseRunnerGroupKey (enterprise group : string) : string :=
  "enterprises/" +:+ enterprise +:+ "/group/" +:+ group.

Definition scaleTargetKey (owner enterprise : string) (rg : RunnerGroup) : string :=
  match rg_Kind rg, rg_Scope rg with
  | Default, Organization => owner
  | Default, Enterprise => enterpriseKey enterprise
  | Custom, Organization => organizationalRunnerGroupKey owner (rg_Name rg)
  | Custom, Enterprise => enterpriseRunnerGroupKey enterprise (rg_Name rg)
  end.

(** The namespace of the autoscaler is added twice. *)
Definition findHRAsByKey (ns value : string) : M (result (list HorizontalRunnerAutoscaler)) :=
  if decide (value = "") then Ret (Val [])
  else
    let inNs := if decide (ns = "") then [] else [InNamespace ns] in
    ask (List KHRA (inNs ++ [MatchingFields "scaleTarget" value] ++ inNs)%list).

Fixpoint searchTriggers (hra : HorizontalRunnerAutoscaler) (triggers : list ScaleUpTrigger)
  (f : ScaleUpTrigger -> M bool) (matched : list ScaleTarget) : M (list ScaleTarget) :=
  match triggers with
  | [] => Ret matched
  | t :: triggers =>
      b <- f t ;;
      searchTriggers hra triggers f (if b : bool then (matched ++ [mkTarget hra t])%list else matched)
  end.

Fixpoint searchScaleTargetsFrom (hras : list HorizontalRunnerAutoscaler) (f : ScaleUpTrigger -> M bool)
  (matched : list ScaleTarget) : M (list ScaleTarget) :=
  match hras with
  | [] => Ret matched
  | hra :: hras =>
      if negb (IsZero (om_DeletionTimestamp (hra_Meta hra))) then searchScaleTargetsFrom hras f matched
      else
        matched <- searchTriggers hra (hras_ScaleUpTriggers (hra_Spec hra)) f matched ;;
        searchScaleTargetsFrom hras f matched
  end.

Definition searchScaleTargets (hras : list HorizontalRunnerAutoscaler) (f : ScaleUpTrigger -> M bool)
  : M (list ScaleTarget) := searchScaleTargetsFrom hras f [].

(** [Val None] is Go's (nil, nil): no target, or too many. *)
Definition getScaleTarget (ns name : string) (f : ScaleUpTrigger -> M bool) : M (result (option ScaleTarget)) :=
  try hras <- findHRAsByKey ns name ;;
  targets <- searchScaleTargets hras f ;;
  Ret (Val (match targets with
            | [t] => Some t
            | _ => None
            end)).

(** Every requested label but "self-hosted" is one of the target's. *)
Definition hasLabels (labels have : list string) : bool :=
  forallb (fun l => bool_decide (l = "self-hosted") || bool_decide (l ∈ have)) labels.

(** The single workflow_job trigger an HRA must have. *)
Definition workflowJobTrigger (hra : HorizontalRunnerAutoscaler) : option ScaleUpTrigger :=
  match hras_ScaleUpTriggers (hra_Spec hra) with
  | [t] => match sut_GitHubEvent t with
           | Some g => if decide (is_Some (ge_WorkflowJob g)) then Some t else None
           | None => None
           end
  | _ => None
  end.

Definition targetRef (hra : HorizontalRunnerAutoscaler) : NamespacedName :=
  {| nn_Namespace := om_Namespace (hra_Meta hra);
     nn_Name := str_Name (hras_ScaleTargetRef (hra_Spec hra)) |}.

(** The runner configuration of the scale target. *)
Definition getTargetConfig (hra : HorizontalRunnerAutoscaler) (unsupported : string) : M (result RunnerConfig) :=
  let kind := str_Kind (hras_ScaleTargetRef (hra_Spec hra)) in
  if decide (kind = "RunnerSet") then
    try rs <- ask (Get KRunnerSet (targetRef hra)) ;;
    Ret (Val (rss_Config (rs_Spec rs)))
  else if bool_decide (kind = "RunnerDeployment") || bool_decide (kind = "") then
    try rd <- ask (Get KRD (targetRef hra)) ;;
    Ret (Val (rsp_Config (rt_Spec (rds_Template (rd_Spec rd)))))
  else Ret (Err (newError (unsupported +:+ kind))).

Definition defaultReservationDuration : duration := 10 * Minute.

Fixpoint findJobTarget (hras : list HorizontalRunnerAutoscaler) (labels : list string)
  : M (result (option ScaleTarget)) :=
  match hras with
  | [] => Ret (Val None)
  | hra :: hras =>
      if negb (IsZero (om_DeletionTimestamp (hra_Meta hra))) then findJobTarget hras labels
      else match workflowJobTrigger hra with
           | None => findJobTarget hras labels
           | Some t =>
               let d := if sut_Duration t <=? 0 then defaultReservationDuration else sut_Duration t in
               try config <- getTargetConfig hra "unsupported scaleTargetRef.kind: " ;;
               if hasLabels labels (rc_Labels config)
               then Ret (Val (Some (mkTarget hra
                      {| sut_GitHubEvent := None; sut_Amount := 0; sut_Duration := d |})))
               else findJobTarget hras labels
           end
  end.

Definition getJobScaleTarget (ns name : string) (labels : list string) : M (result (option ScaleTarget)) :=
  try hras <- findHRAsByKey ns name ;;
  findJobTarget hras labels.

(** ** Managed runner groups *)

Fixpoint collectManaged (enterprise org : string) (hras : list HorizontalRunnerAutoscaler)
  (groups : VisibleRunnerGroups) : M (result VisibleRunnerGroups) :=
  match hras with
  | [] => Ret (Val groups)
  | hra :: hras =>
      try c <- getTargetConfig hra "unsupported scale target kind: " ;;
      let o := rc_Organization c in
      let e := rc_Enterprise c in
      let g := rc_Group c in
      if negb (bool_decide (g = "")) && bool_decide (e = "") && bool_decide (o = "")
      then collectManaged enterprise org hras groups
      else if negb (bool_decide (e = enterprise)) && negb (bool_decide (o = org))
      then collectManaged enterprise org hras groups
      else collectManaged enterprise org hras (Add groups (NewRunnerGroupFromProperties e o g))
  end.

Definition getManagedRunnerGroupsFromHRAs (ns enterprise org : string) : M (result VisibleRunnerGroups) :=
  let inNs := if decide (ns = "") then [] else [InNamespace ns] in
  try hras <- ask (List KHRA (inNs ++ inNs)%list) ;;
  collectManaged enterprise org hras [].

(** ** Choosing the target of an event

    [github] is the base URL of the client, when there is one. *)
Definition getScaleUpTargetWithFunction (fuel : nat) (ns : string) (github : option string)
  (repo owner ownerType enterprise : string) (scaleTarget : string -> M (result (option ScaleTarget)))
  : M (result (option ScaleTarget)) :=
  let repositoryRunnerKey := owner +:+ "/" +:+ repo in
  try target <- scaleTarget repositoryRunnerKey ;;
  match target with
  | Some t => Ret (Val (Some t))
  | None =>
      if decide (ownerType = "User") then Ret (Val None)
      else
        try managedRunnerGroups <- getManagedRunnerGroupsFromHRAs ns enterprise owner ;;
        v <- match github with
             | Some baseURL =>
                 r <- GetRunnerGroupsVisibleToRepository fuel baseURL owner repositoryRunnerKey managedRunnerGroups ;;
                 Ret (match r with
                      | Err e => Err (newError ("error while finding visible runner groups: " +:+ err_msg e))
                      | Val g => Val g
                      end)
             | None => Ret (Val managedRunnerGroups)
             end ;;
        match v with
        | Err e => Ret (Err e)
        | Val visibleGroups =>
            t <- Traverse visibleGroups (fun rg => scaleTarget (scaleTargetKey owner enterprise rg)) ;;
            Ret (match t with
                 | Err _ => Val None
                 | Val t => Val t
                 end)
        end
  end.

(** ** Scaling *)

Definition withReservations (hra : HorizontalRunnerAutoscaler) (l : list CapacityReservation)
  : HorizontalRunnerAutoscaler :=
  let s := hra_Spec hra in
  {| hra_Meta := hra_Meta hra;
     hra_Spec := {| hras_ScaleTargetRef := hras_ScaleTargetRef s; hras_MinReplicas := hras_MinReplicas s;
                    hras_MaxReplicas := hras_MaxReplicas s;
                    hras_ScaleDownDelaySecondsAfterScaleUp := hras_ScaleDownDelaySecondsAfterScaleUp s;
                    hras_Metrics := hras_Metrics s; hras_ScaleUpTriggers := hras_ScaleUpTriggers s;
                    hras_CapacityReservations := l;
                    hras_ScheduledOverrides := hras_ScheduledOverrides s |};
     hra_Status := hra_Status hra |}.

Definition validAt (now : time) (l : list CapacityReservation) : list CapacityReservation :=
  List.filter (fun r => After (cr_ExpirationTime r) now) l.

Definition getValidCapacityReservations (hra : HorizontalRunnerAutoscaler) : M (list CapacityReservation) :=
  now <- ask Now ;;
  Ret (validAt now (hras_CapacityReservations (hra_Spec hra))).

(** Without the first reservation of exactly [-amount] replicas. *)
Fixpoint removeReservation (amount : Z) (l : list CapacityReservation) : list CapacityReservation :=
  match l with
  | [] => []
  | r :: l => if int64 (cr_Replicas r + amount) =? 0 then l else r :: removeReservation amount l
  end.

Definition newReservation (now : time) (d : duration) (amount : Z) : CapacityReservation :=
  {| cr_Name := ""; cr_ExpirationTime := now + d; cr_Replicas := amount; cr_EffectiveTime := now |}.

Definition tryScale (target : option ScaleTarget) : M (option err) :=
  match target with
  | None => Ret None
  | Some target =>
      let amount := if sut_Amount (t_Trigger target) =? 0 then 1 else sut_Amount (t_Trigger target) in
      capacityReservations <- getValidCapacityReservations (t_HRA target) ;;
      reservations <-
        (if 0 <? amount then
           now <- ask Now ;;
           Ret (capacityReservations ++ [newReservation now (sut_Duration (t_Trigger target)) amount])%list
         else Ret (removeReservation amount capacityReservations)) ;;
      r <- ask (Patch KHRA (withReservations (t_HRA target) reservations) (t_HRA target)) ;;
      Ret (match r with
           | Err e => Some (wrapError "patching horizontalrunnerautoscaler to add capacity reservation: " e)
           | Val _ => None
           end)
  end.

(** ** The HTTP handler *)

Record HTTPRequest := mkRequest { hr_Method : string; hr_Header : strmap; hr_Body : string }.
Record HTTPResponse := mkResponse { resp_Status : Z; resp_Body : string }.

(** go-github's [ValidatePayload], [WebHookType] and [ParseWebHook], reading
    the body, and the enterprise slug of the JSON payload (empty when it does
    not parse). *)
Class GitHubHooks := {
  ValidatePayload : HTTPRequest -> string -> result string;
  ReadBody : HTTPRequest -> result string;
  WebHookType : HTTPRequest -> string;
  ParseWebHook : string -> string -> result webhookEvent;
  enterpriseSlugOf : string -> string
}.

Section Handler.
Context {H : GitHubHooks}.
Context (fuel : nat) (ns : string) (github : option string) (secretKey : string).

(** The deferred function: 500, with the error's message when there is one. *)
Definition failed (e : option err) : HTTPResponse :=
  mkResponse 500 (match e with Some e => err_msg e | None => "" end).

Definition withAmount (t : ScaleTarget) (amount : Z) : ScaleTarget :=
  {| t_HRA := t_HRA t;
     t_Trigger := {| sut_GitHubEvent := sut_GitHubEvent (t_Trigger t); sut_Amount := amount;
                     sut_Duration := sut_Duration (t_Trigger t) |} |}.

(** [e.Repo.GetName(), e.Repo.Owner.GetLogin(), e.Repo.Owner.GetType()] *)
Definition withRepo {A : Type} (repo : option EventRepo) (k : string -> string -> string -> M A) : M A :=
  match repo with
  | Some r => k (default "" (er_Name r)) (er_OwnerLogin r) (er_OwnerType r)
  | None => nilDeref
  end.

Definition getScaleUpTarget (repo owner ownerType enterprise : string) (f : ScaleUpTrigger -> M bool)
  : M (result (option ScaleTarget)) :=
  getScaleUpTargetWithFunction fuel ns github repo owner ownerType enterprise
    (fun value => getScaleTarget ns value f).

Definition getJobScaleUpTargetForRepoOrOrg (repo owner ownerType enterprise : string) (labels : list string)
  : M (result (option ScaleTarget)) :=
  getScaleUpTargetWithFunction fuel ns github repo owner ownerType enterprise
    (fun value => getJobScaleTarget ns value labels).

(** What the event asks for: a response at once, or scaling a target. *)
Inductive dispatched :=
| Respond (r : HTTPResponse)
| Scale (target : result (option ScaleTarget)).

Definition dispatch (enterpriseSlug : string) (event : webhookEvent) : M dispatched :=
  match event with
  | PushEvent repo =>
      t <- withRepo repo (fun name login tpe =>
             getScaleUpTarget name login tpe enterpriseSlug MatchPushEvent) ;;
      Ret (Scale t)
  | PullRequestEvent action pr repo =>
      t <- withRepo repo (fun name login tpe =>
             getScaleUpTarget name login tpe enterpriseSlug (MatchPullRequestEvent action pr)) ;;
      Ret (Scale t)
  | CheckRunEvent action checkRun repo =>
      t <- withRepo repo (fun name login tpe =>
             getScaleUpTarget name login tpe enterpriseSlug (MatchCheckRunEvent action checkRun repo)) ;;
      Ret (Scale t)
  | WorkflowJobEvent action job repo =>
      match job with
      | None => nilDeref
      | Some job =>
          if bool_decide (action = "queued") || bool_decide (action = "completed") then
            t <- withRepo repo (fun name login tpe =>
                   getJobScaleUpTargetForRepoOrOrg name login tpe enterpriseSlug (ej_Labels job)) ;;
            Ret (match t with
                 | Val (Some target) =>
                     if decide (action = "queued") then Scale (Val (Some (withAmount target 1)))
                     else if negb (bool_decide (ej_Conclusion job = "skipped"))
                     then Scale (Val (Some (withAmount target (-1))))
                     else Respond (mkResponse 200 "")
                 | t => Scale t
                 end)
          else
            match repo with
            | None => nilDeref
            | Some _ => Ret (Respond (mkResponse 200 ""))
            end
      end
  | PingEvent => Ret (Respond (mkResponse 200 "pong"))
  | UnknownEvent => Ret (Respond (failed None))
  end.

(** What follows the dispatch. *)
Definition respondTo (d : dispatched) : M HTTPResponse :=
  match d with
  | Respond resp => Ret resp
  | Scale (Err e) => Ret (failed (Some e))
  | Scale (Val None) =>
      Ret (mkResponse 200 "no horizontalrunnerautoscaler to scale for this github event")
  | Scale (Val (Some target)) =>
      e <- tryScale (Some target) ;;
      Ret (match e with
           | Some _ => failed None
           | None => mkResponse 200 ("scaled " +:+ om_Name (hra_Meta (t_HRA target)) +:+ " by " +:+
                                     FormatInt (sut_Amount (t_Trigger target)))
           end)
  end.

Definition Handle (r : HTTPRequest) : M HTTPResponse :=
  if decide (hr_Method r = "GET") then Ret (mkResponse 200 ("webhook server is running" +:+ String (Ascii.ascii_of_nat 10) ""))
  else
    match (if decide (secretKey = "") then ReadBody r else ValidatePayload r secretKey) with
    | Err e => Ret (failed (Some e))
    | Val payload =>
        match ParseWebHook (WebHookType r) payload with
        | Err e => Ret (failed (Some e))
        | Val event =>
            d <- dispatch (enterpriseSlugOf payload) event ;; respondTo d
        end
    end.

End Handler.

(** ** The index of HRAs by key *)

(** The keys of an HRA whose target is a RunnerDeployment ... *)
Definition keysOfRD (c : RunnerConfig) : list string :=
  ((if decide (rc_Repository c = "") then [] else [rc_Repository c]) ++
   (if decide (rc_Organization c = "") then []
    else if decide (rc_Group c = "") then [rc_Organization c]
    else [organizationalRunnerGroupKey (rc_Organization c) (rc_Group c)]) ++
   (if decide (rc_Enterprise c = "") then []
    else if decide (rc_Group c = "") then [enterpriseKey (rc_Enterprise c)]
    else [enterpriseRunnerGroupKey (rc_Enterprise c) (rc_Group c)]))%list.

(** ... and a RunnerSet. *)
Definition keysOfRunnerSet (c : RunnerConfig) : list string :=
  ((if decide (rc_Repository c = "") then [] else [rc_Repository c]) ++
   (if decide (rc_Organization c = "") then []
    else rc_Organization c ::
         (if decide (rc_Group c = "") then []
          else [organizationalRunnerGroupKey (rc_Organization c) (rc_Group c)])) ++
   (if decide (rc_Enterprise c = "") then []
    else enterpriseKey (rc_Enterprise c) ::
         (if decide (rc_Group c = "") then []
          else [enterpriseRunnerGroupKey (rc_Enterprise c) (rc_Group c)])))%list.

(** The index function of [SetupWithManager]. *)
Definition indexHRA (hra : HorizontalRunnerAutoscaler) : M (list string) :=
  let ref := hras_ScaleTargetRef (hra_Spec hra) in
  if decide (str_Name ref = "") then Ret []
  else if bool_decide (str_Kind ref = "") || bool_decide (str_Kind ref = "RunnerDeployment") then
    g <- ask (Get KRD (targetRef hra)) ;;
    Ret (match g with
         | Err _ => []
         | Val rd => keysOfRD (rsp_Config (rt_Spec (rds_Template (rd_Spec rd))))
         end)
  else if decide (str_Kind ref = "RunnerSet") then
    g <- ask (Get KRunnerSet (targetRef hra)) ;;
    Ret (match g with
         | Err _ => []
         | Val rs => keysOfRunnerSet (rss_Config (rs_Spec rs))
         end)
  else Ret [].

(** * Theorems *)

(** ** Reservations *)

Lemma removeReservation_none amount l :
  Forall (fun r => int64 (cr_Replicas r + amount) <> 0) l -> removeReservation amount l = l.
Proof.
  induction 1 as [|r l Hr _ IH]; simpl; [done|].
  rewrite (proj2 (Z.eqb_neq _ _)) by done. by rewrite IH.
Qed.

Lemma removeReservation_split amount l :
  Forall (fun r => int64 (cr_Replicas r + amount) <> 0) l \/
  exists l1 r l2, l = (l1 ++ r :: l2)%list /\ removeReservation amount l = (l1 ++ l2)%list /\
    int64 (cr_Replicas r + amount) = 0 /\ Forall (fun r => int64 (cr_Replicas r + amount) <> 0) l1.
Proof.
  induction l as [|r l IH]; simpl; [left; constructor|].
  destruct (Z.eqb_spec (int64 (cr_Replicas r + amount)) 0) as [He|Hne].
  - right. exists [], r, l. done.
  - destruct IH as [IH|(l1 & r' & l2 & -> & Hr & ? & ?)]; [left; by constructor|].
    right. exists (r :: l1), r', l2. rewrite Hr. split_and!; try done. by constructor.
Qed.

(** The replicas reserved at [now]. *)
Definition reservedAt (now : time) (l : list CapacityReservation) : Z :=
  sumZ (map cr_Replicas (validAt now l)).

Lemma reservedAt_app now l k : reservedAt now (l ++ k)%list = reservedAt now l + reservedAt now k.
Proof. unfold reservedAt, validAt. by rewrite List.filter_app, map_app, sumZ_app. Qed.

Lemma validAt_idemp now t l : now <= t -> validAt t (validAt now l) = validAt t l.
Proof.
  intros Hle. unfold validAt, After. induction l as [|r l IH]; simpl; [done|].
  destruct (Z.ltb_spec now (cr_ExpirationTime r)); simpl.
  - by destruct (t <? cr_ExpirationTime r); rewrite IH.
  - rewrite (proj2 (Z.ltb_ge t _)) by lia. done.
Qed.

Lemma reservedAt_validAt now t l : now <= t -> reservedAt t (validAt now l) = reservedAt t l.
Proof. intros. unfold reservedAt. by rewrite validAt_idemp. Qed.

(** The write of a scaling, and its result. *)
Lemma tryScale_spec target :
  always (tryScale (Some target)) (fun out l =>
    let amount := if sut_Amount (t_Trigger target) =? 0 then 1 else sut_Amount (t_Trigger target) in
    let old := hras_CapacityReservations (hra_Spec (t_HRA target)) in
    exists now res r, EvA Now now ∈ l /\
      Forall (fun e => isRead (ev_req e) = true \/
        e = EvA (Patch KHRA (withReservations (t_HRA target) res) (t_HRA target)) r) l /\
      EvA (Patch KHRA (withReservations (t_HRA target) res) (t_HRA target)) r ∈ l /\
      ((0 < amount /\ exists now', EvA Now now' ∈ l /\
          res = (validAt now old ++ [newReservation now' (sut_Duration (t_Trigger target)) amount])%list) \/
       (amount < 0 /\ res = removeReservation amount (validAt now old))) /\
      (exists e, out = Done e /\ (e = None <-> exists o, r = Val o))).
Proof.
  unfold tryScale. set (amount := if _ =? 0 then 1 else _). simpl. intros now.
  assert (amount <> 0) as Hne by (unfold amount; destruct (Z.eqb_spec (sut_Amount (t_Trigger target)) 0); lia).
  destruct (Z.ltb_spec 0 amount); simpl.
  - intros now' r. do 3 eexists. split_and!; [apply elem_of_cons; by left| | | |].
    + repeat constructor; by right.
    + set_solver.
    + left. split; [done|]. exists now'. split; [set_solver|done].
    + eexists. split; [done|]. destruct r; split; [eauto|done|done|naive_solver].
  - intros r. do 3 eexists. split_and!; [apply elem_of_cons; by left| | | |].
    + repeat constructor; by right.
    + set_solver.
    + right. split; [lia|done].
    + eexists. split; [done|]. destruct r; split; [eauto|done|done|naive_solver].
Qed.

(** The object of a patch of an HRA. *)
Definition patchedHRA (q : req) : option HorizontalRunnerAutoscaler :=
  match q with
  | Patch k o _ => match k return kobj k -> option HorizontalRunnerAutoscaler with
                   | KHRA => fun o => Some o
                   | _ => fun _ => None
                   end o
  | _ => None
  end.

(** The reservations that a scaling stores, read off its log. *)
Lemma tryScale_patched target out l o r :
  may (tryScale (Some target)) out l -> EvA (Patch KHRA o (t_HRA target)) r ∈ l ->
  let amount := if sut_Amount (t_Trigger target) =? 0 then 1 else sut_Amount (t_Trigger target) in
  let old := hras_CapacityReservations (hra_Spec (t_HRA target)) in
  exists now, EvA Now now ∈ l /\
    ((0 < amount /\ exists now', EvA Now now' ∈ l /\ o = withReservations (t_HRA target)
        (validAt now old ++ [newReservation now' (sut_Duration (t_Trigger target)) amount])%list) \/
     (amount < 0 /\ o = withReservations (t_HRA target) (removeReservation amount (validAt now old)))).
Proof.
  intros Hm Hp amount old. pose proof (proj1 (always_may _ _) (tryScale_spec target) _ _ Hm) as H.
  destruct H as (now & res & r' & Hnow & Hall & _ & Hres & _).
  rewrite Forall_forall in Hall. destruct (Hall _ Hp) as [Hr|He]; [done|].
  apply (f_equal (fun e => patchedHRA (ev_req e))) in He. simpl in He. injection He as ->.
  exists now. split; [done|]. destruct Hres as [(? & now' & ? & ->)|[? ->]]; [left|right]; eauto.
Qed.

Lemma sumZ_remove (l1 l2 : list CapacityReservation) r :
  sumZ (map cr_Replicas (l1 ++ r :: l2)%list) = sumZ (map cr_Replicas (l1 ++ l2)%list) + cr_Replicas r.
Proof. rewrite !map_app, !sumZ_app. unfold sumZ. simpl. lia. Qed.

Lemma validAt_all now l : Forall (fun r => now < cr_ExpirationTime r) l -> validAt now l = l.
Proof.
  unfold validAt, After. induction 1 as [|r l Hr _ IH]; simpl; [done|].
  rewrite (proj2 (Z.ltb_lt _ _)) by done. by rewrite IH.
Qed.

Lemma validAt_Forall (P : CapacityReservation -> Prop) now l : Forall P l -> Forall P (validAt now l).
Proof.
  unfold validAt. induction 1; simpl; [constructor|]. destruct (After _ _); [by constructor|done].
Qed.

Lemma validAt_valid now l : Forall (fun r => now < cr_ExpirationTime r) (validAt now l).
Proof.
  unfold validAt, After. induction l as [|r l IH]; simpl; [constructor|].
  destruct (Z.ltb_spec now (cr_ExpirationTime r)); [by constructor|done].
Qed.

(** In 64 bits, only [k] and [- k] cancel. *)
Lemma int64_cancels x k :
  - 2 ^ 63 <= x < 2 ^ 63 -> 0 < k < 2 ^ 63 -> int64 (x + - k) = 0 -> x = k.
Proof.
  intros Hx Hk Hz. unfold int64, wrapS in Hz. change (64 - 1) with 63 in Hz.
  assert ((x + - k + 2 ^ 63) mod 2 ^ 64 = 2 ^ 63) as Hm by lia.
  destruct (Z.lt_ge_cases (x + - k + 2 ^ 63) 0).
  - rewrite <- (Z.mod_add _ 1), Z.mod_small in Hm; lia.
  - rewrite Z.mod_small in Hm; lia.
Qed.

Lemma reservedAt_cons now r l :
  reservedAt now (r :: l) = (if now <? cr_ExpirationTime r then cr_Replicas r else 0) + reservedAt now l.
Proof. unfold reservedAt, validAt, After. simpl. by destruct (now <? cr_ExpirationTime r). Qed.

(** The clock readings among [l] lie between two times. *)
Definition clockWithin (l : log) (t t' : time) : Prop :=
  t <= t' /\ forall x, EvA Now x ∈ l -> t <= x <= t'.

(** Jobs come and go: from [hra0] at [t0], events that ask for [k] more
    replicas for the duration [d], and events that report the end of such a
    job, are handled one after the other, each on what the server stored
    before; in the end [n] of the jobs have not ended, at [t]. *)
Inductive jobsRun (k : Z) (d : duration) (t0 : time) (hra0 : HorizontalRunnerAutoscaler)
  : HorizontalRunnerAutoscaler -> Z -> time -> Prop :=
| jobs_start : jobsRun k d t0 hra0 hra0 0 t0
| jobs_queued hra hra' n t t' g out l o :
    jobsRun k d t0 hra0 hra n t ->
    may (tryScale (Some (mkTarget hra (mkScaleUpTrigger g k d)))) out l ->
    EvA (Patch KHRA o hra) (Val hra') ∈ l ->
    hras_CapacityReservations (hra_Spec hra') = hras_CapacityReservations (hra_Spec o) ->
    clockWithin l t t' ->
    jobsRun k d t0 hra0 hra' (n + 1) t'
| jobs_completed hra hra' n t t' g d' out l o :
    jobsRun k d t0 hra0 hra n t -> 0 < n ->
    may (tryScale (Some (mkTarget hra (mkScaleUpTrigger g (- k) d')))) out l ->
    EvA (Patch KHRA o hra) (Val hra') ∈ l ->
    hras_CapacityReservations (hra_Spec hra') = hras_CapacityReservations (hra_Spec o) ->
    clockWithin l t t' ->
    jobsRun k d t0 hra0 hra' (n - 1) t'.

(** A reservation like those of the jobs, that does not expire before [e]. *)
Definition jobReservation (k : Z) (e : time) (r : CapacityReservation) : bool :=
  (cr_Replicas r =? k) && (e <=? cr_ExpirationTime r).

Definition jobReservations (k : Z) (e : time) (l : list CapacityReservation) : Z :=
  Z.of_nat (length (List.filter (jobReservation k e) l)).

(** What the reservations [res] are, at [t] and until [t0 + d], with [n] jobs
    that have not ended. *)
Record covering (k : Z) (d : duration) (t0 : time) (res0 res : list CapacityReservation) (n : Z) (t : time)
  : Prop := mkCovering {
  rv_start : t0 <= t;
  rv_range : Forall (fun r => - 2 ^ 63 <= cr_Replicas r < 2 ^ 63) res;
  rv_jobs : n <= jobReservations k (t0 + d) res;
  rv_least : forall now, t <= now < t0 + d -> reservedAt now res0 + k * n <= reservedAt now res;
  rv_exact : forall now, t <= now < t0 + d ->
    Forall (fun r => cr_ExpirationTime r <= t0 \/ now < cr_ExpirationTime r) res0 ->
    reservedAt now res = reservedAt now res0 + k * n /\
    Forall (fun r => cr_ExpirationTime r <= t0 \/ now < cr_ExpirationTime r) res
}.

Lemma jobReservations_app k e l1 l2 :
  jobReservations k e (l1 ++ l2)%list = jobReservations k e l1 + jobReservations k e l2.
Proof. unfold jobReservations. by rewrite List.filter_app, length_app, Nat2Z.inj_add. Qed.

Lemma jobReservations_cons k e r l :
  jobReservations k e (r :: l) = (if jobReservation k e r then 1 else 0) + jobReservations k e l.
Proof. unfold jobReservations. simpl. destruct (jobReservation k e r); simpl; lia. Qed.

Lemma covering_later k d t0 res0 res n t t' :
  t <= t' -> covering k d t0 res0 res n t -> covering k d t0 res0 res n t'.
Proof. intros Ht []. constructor; [lia|done|done|intros; apply rv_least0; lia|intros; apply rv_exact0; [lia|done]]. Qed.

(** Forgetting expired reservations. *)
Lemma covering_valid k d t0 res0 res n t t' :
  t <= t' < t0 + d -> covering k d t0 res0 res n t -> covering k d t0 res0 (validAt t' res) n t'.
Proof.
  intros Ht []. constructor; [lia|by apply validAt_Forall| | |].
  - assert (jobReservations k (t0 + d) (validAt t' res) = jobReservations k (t0 + d) res) as ->; [|done].
    clear -Ht. induction res as [|r res IH]; [done|]. unfold validAt in *. simpl.
    destruct (Z.ltb_spec t' (cr_ExpirationTime r)) as [Hlt|Hge]; unfold After in *.
    + rewrite (proj2 (Z.ltb_lt _ _)), !jobReservations_cons, IH by done. done.
    + rewrite (proj2 (Z.ltb_ge _ _)), jobReservations_cons, IH by done. unfold jobReservation at 1.
      rewrite (proj2 (Z.leb_gt _ _)), andb_false_r by lia. done.
  - intros now Hnow. rewrite reservedAt_validAt by lia. apply rv_least0. lia.
  - intros now Hnow H. rewrite reservedAt_validAt by lia. destruct (rv_exact0 now) as [He Hr]; [lia|done|].
    split; [done|by apply validAt_Forall].
Qed.

Lemma covering_add k d t0 res0 res n t t1 :
  0 < k < 2 ^ 63 -> t0 <= t1 <= t -> covering k d t0 res0 res n t ->
  covering k d t0 res0 (res ++ [newReservation t1 d k])%list (n + 1) t.
Proof.
  intros Hk Ht []. assert (forall now, t <= now < t0 + d ->
    reservedAt now (res ++ [newReservation t1 d k])%list = reservedAt now res + k) as Hadd.
  { intros now Hnow. rewrite reservedAt_app, reservedAt_cons. simpl.
    rewrite (proj2 (Z.ltb_lt _ _)) by lia. unfold reservedAt. simpl. unfold sumZ. simpl. lia. }
  constructor; [done| | | |].
  - apply Forall_app_2; [done|]. apply Forall_singleton. simpl. lia.
  - rewrite jobReservations_app, jobReservations_cons. unfold jobReservation at 1. simpl.
    rewrite Z.eqb_refl, (proj2 (Z.leb_le _ _)) by lia. simpl. unfold jobReservations at 2. simpl. lia.
  - intros now Hnow. rewrite Hadd by done. specialize (rv_least0 now Hnow). lia.
  - intros now Hnow H. rewrite Hadd by done. destruct (rv_exact0 now Hnow H) as [He Hr]. split; [lia|].
    apply Forall_app_2; [done|]. apply Forall_singleton. simpl. lia.
Qed.

Lemma covering_remove k d t0 res0 res n t :
  0 < k < 2 ^ 63 -> 0 < n -> Forall (fun r => t < cr_ExpirationTime r) res ->
  covering k d t0 res0 res n t -> covering k d t0 res0 (removeReservation (- k) res) (n - 1) t.
Proof.
  intros Hk Hn Hv []. destruct (removeReservation_split (- k) res) as [Hnone|(l1 & r & l2 & -> & -> & Hz & _)].
  - exfalso. assert (jobReservations k (t0 + d) res = 0) as H0; [|lia]. clear -Hnone.
    unfold jobReservations. induction Hnone as [|r res Hr _ IH]; simpl; [done|].
    unfold jobReservation at 1. destruct (Z.eqb_spec (cr_Replicas r) k) as [Hrk|]; simpl; [|done].
    exfalso. apply Hr. rewrite Hrk, Z.add_opp_diag_r. reflexivity.
  - assert (cr_Replicas r = k) as Hrk.
    { apply Forall_app in rv_range0 as [_ H]. apply Forall_cons in H as [H _]. by apply int64_cancels. }
    assert (forall now, reservedAt now (l1 ++ r :: l2)%list
      = reservedAt now (l1 ++ l2)%list + (if now <? cr_ExpirationTime r then k else 0)) as Hsum.
    { intros now. rewrite !reservedAt_app, reservedAt_cons, Hrk. lia. }
    rewrite jobReservations_app, jobReservations_cons in rv_jobs0.
    constructor; [done| | | |].
    + apply Forall_app in rv_range0 as [? H]. apply Forall_cons in H as [_ ?]. by apply Forall_app_2.
    + rewrite jobReservations_app. destruct (jobReservation _ _ r); lia.
    + intros now Hnow. specialize (rv_least0 now Hnow). rewrite Hsum in rv_least0.
      destruct (now <? cr_ExpirationTime r); lia.
    + intros now Hnow H. destruct (rv_exact0 now Hnow H) as [He Hr]. rewrite Hsum in He.
      apply Forall_app in Hr as [Hr1 Hr2], Hv as [_ Hv]. apply Forall_cons in Hr2 as [Hr Hr2], Hv as [Hv _].
      rewrite (proj2 (Z.ltb_lt _ _)) in He by lia. split; [lia|by apply Forall_app_2].
Qed.

Lemma jobsRun_covering k d t0 hra0 hra n t :
  0 < k < 2 ^ 63 ->
  Forall (fun r => - 2 ^ 63 <= cr_Replicas r < 2 ^ 63) (hras_CapacityReservations (hra_Spec hra0)) ->
  jobsRun k d t0 hra0 hra n t -> t < t0 + d ->
  covering k d t0 (hras_CapacityReservations (hra_Spec hra0)) (hras_CapacityReservations (hra_Spec hra)) n t.
Proof.
  intros Hk Hrange. induction 1 as [|hra hra' n t t' g out l o _ IH Hm Hp Hst [Htt Hclk]
    |hra hra' n t t' g d' out l o _ IH Hn Hm Hp Hst [Htt Hclk]]; intros Ht.
  - constructor; [lia|done|unfold jobReservations; lia|intros; lia|]. intros now _ H. split; [lia|done].
  - apply (tryScale_patched _ _ _ _ _ Hm) in Hp. simpl in Hp. rewrite (proj2 (Z.eqb_neq k 0)) in Hp by lia.
    destruct Hp as (t1 & Ht1 & [(_ & t2 & Ht2 & ->)|[? _]]); [|lia]. rewrite Hst. simpl.
    pose proof (Hclk _ Ht1). pose proof (Hclk _ Ht2). specialize (IH ltac:(lia)).
    pose proof (rv_start _ _ _ _ _ _ _ IH).
    apply covering_add; [done|lia|]. apply (covering_valid _ _ _ _ _ _ t t1) in IH; [|lia].
    eapply covering_later; [|exact IH]. lia.
  - apply (tryScale_patched _ _ _ _ _ Hm) in Hp. simpl in Hp. rewrite (proj2 (Z.eqb_neq (- k) 0)) in Hp by lia.
    destruct Hp as (t1 & Ht1 & [[? _]|[_ ->]]); [lia|]. rewrite Hst. simpl.
    pose proof (Hclk _ Ht1). specialize (IH ltac:(lia)).
    eapply (covering_later _ _ _ _ _ _ t1); [lia|].
    apply covering_remove; [done|done|apply validAt_valid|]. apply (covering_valid _ _ _ _ _ _ t t1); [lia|done].
Qed.

(** C11: reservations follow the jobs.  However the queueing of jobs and their
    completions are interleaved, as long as the first reservation made has not
    expired, the replicas reserved are at least those that would be reserved
    without these events plus those of the jobs that have not ended; and
    exactly these when no older reservation expires in the meantime.  In
    particular a job that is queued and completed leaves the reserved replicas
    as they were.  (A completion takes the oldest reservation of its size, so
    it is an older one, if there is any, that is given up early.) *)
Theorem reservation_roundtrip k d t0 hra0 hra n t now :
  0 < k < 2 ^ 63 ->
  Forall (fun r => - 2 ^ 63 <= cr_Replicas r < 2 ^ 63) (hras_CapacityReservations (hra_Spec hra0)) ->
  jobsRun k d t0 hra0 hra n t -> t <= now < t0 + d ->
  reservedAt now (hras_CapacityReservations (hra_Spec hra0)) + k * n
    <= reservedAt now (hras_CapacityReservations (hra_Spec hra)) /\
  (Forall (fun r => cr_ExpirationTime r <= t0 \/ now < cr_ExpirationTime r)
     (hras_CapacityReservations (hra_Spec hra0)) ->
   reservedAt now (hras_CapacityReservations (hra_Spec hra))
     = reservedAt now (hras_CapacityReservations (hra_Spec hra0)) + k * n).
Proof.
  intros Hk Hr Hj Hnow. destruct (jobsRun_covering _ _ _ _ _ _ _ Hk Hr Hj) as []; [lia|].
  split; [by apply rv_least0|]. intros H. by apply rv_exact0.
Qed.

(** A completion that comes too late takes the reservation of another job: when
    the reservation made at [t1] has expired and the one made at [t2] has not,
    the end of the first job leaves nothing reserved, although the second job
    has not ended. *)
Theorem late_completion_drops_other hra g k d d' t1 t2 now out l o r :
  0 < k < 2 ^ 63 -> t1 + d <= now < t2 + d ->
  let hra := withReservations hra [newReservation t1 d k; newReservation t2 d k] in
  may (tryScale (Some (mkTarget hra (mkScaleUpTrigger g (- k) d')))) out l ->
  EvA (Patch KHRA o hra) r ∈ l -> (forall x, EvA Now x ∈ l -> x = now) ->
  reservedAt now (hras_CapacityReservations (hra_Spec hra)) = k /\
  hras_CapacityReservations (hra_Spec o) = [].
Proof.
  intros Hk Hd hra' Hm Hp Hclk. apply (tryScale_patched _ _ _ _ _ Hm) in Hp. simpl in Hp.
  rewrite (proj2 (Z.eqb_neq (- k) 0)) in Hp by lia.
  destruct Hp as (t & Ht & [[? _]|[_ ->]]); [lia|]. rewrite (Hclk _ Ht). split.
  - simpl. rewrite !reservedAt_cons. simpl. rewrite (proj2 (Z.ltb_ge _ _)), (proj2 (Z.ltb_lt _ _)) by lia.
    unfold reservedAt, sumZ. simpl. lia.
  - simpl. unfold validAt, After. simpl. rewrite (proj2 (Z.ltb_ge _ _)), (proj2 (Z.ltb_lt _ _)) by lia.
    simpl. rewrite Z.add_opp_diag_r. reflexivity.
Qed.

(** ** Targets *)

(** The (HRA, trigger) pairs of live HRAs that a pure predicate accepts. *)
Definition candidates (hras : list HorizontalRunnerAutoscaler) (p : ScaleUpTrigger -> bool) : list ScaleTarget :=
  concat (map (fun hra =>
    if IsZero (om_DeletionTimestamp (hra_Meta hra))
    then map (mkTarget hra) (List.filter p (hras_ScaleUpTriggers (hra_Spec hra))) else []) hras).

(** [f] decides as [p], or panics; it asks nothing. *)
Definition decides (f : ScaleUpTrigger -> M bool) (p : ScaleUpTrigger -> bool) : Prop :=
  forall t, f t = Ret (p t) \/ exists m, f t = Panic m.

Lemma searchTriggers_spec hra ts f p matched :
  decides f p ->
  searchTriggers hra ts f matched = Ret (matched ++ map (mkTarget hra) (List.filter p ts))%list \/
  exists m t, searchTriggers hra ts f matched = Panic m /\ t ∈ ts /\ f t = Panic m.
Proof.
  intros Hf. revert matched. induction ts as [|t ts IH]; intros matched; simpl.
  - left. by rewrite app_nil_r.
  - destruct (Hf t) as [->|[m Hm]]; simpl; [|right; exists m, t; rewrite Hm; set_solver].
    destruct (IH (if p t then (matched ++ [mkTarget hra t])%list else matched))
      as [->|(m & t' & -> & ? & ?)]; [|right; exists m, t'; set_solver].
    left. destruct (p t); simpl; [by rewrite <- app_assoc|done].
Qed.

(** The trigger that makes [f] panic. *)
Definition panickingTrigger (hras : list HorizontalRunnerAutoscaler) (f : ScaleUpTrigger -> M bool)
  (m : string) : Prop :=
  exists hra t, hra ∈ hras /\ t ∈ hras_ScaleUpTriggers (hra_Spec hra) /\ f t = Panic m.

Lemma searchScaleTargetsFrom_spec hras f p matched :
  decides f p ->
  searchScaleTargetsFrom hras f matched = Ret (matched ++ candidates hras p)%list \/
  exists m, searchScaleTargetsFrom hras f matched = Panic m /\ panickingTrigger hras f m.
Proof.
  intros Hf. unfold panickingTrigger. revert matched. induction hras as [|hra hras IH]; intros matched; simpl.
  - left. unfold candidates. simpl. by rewrite app_nil_r.
  - assert (forall matched, searchScaleTargetsFrom hras f matched = Ret (matched ++ candidates hras p)%list \/
      exists m, searchScaleTargetsFrom hras f matched = Panic m /\ exists hra' t, hra' ∈ hra :: hras /\
        t ∈ hras_ScaleUpTriggers (hra_Spec hra') /\ f t = Panic m) as Hskip.
    { intros matched'. destruct (IH matched') as [?|(m & ? & h' & t & ? & ? & ?)]; [by left|right].
      exists m. split; [done|]. exists h', t. set_solver. }
    unfold candidates. simpl. destruct (IsZero _); simpl; [|apply Hskip].
    destruct (searchTriggers_spec hra (hras_ScaleUpTriggers (hra_Spec hra)) f p matched Hf)
      as [->|(m & t & -> & ? & ?)]; simpl.
    + rewrite app_assoc. apply Hskip.
    + right. exists m. split; [done|]. exists hra, t. set_solver.
Qed.

(** an event scales at most one target: of the HRAs listed under the key,
    the one (HRA, trigger) pair of a live HRA that matches it, and none when
    there is no such pair or more than one.  The search fails only with the
    error of the listing, and panics only where the match of a listed trigger
    does. *)
Theorem getScaleTarget_unique ns name f p :
  decides f p ->
  always (getScaleTarget ns name f) (fun out l =>
    (exists opts e, l = [EvA (List KHRA opts) (Err e)] /\ out = Done (Err e)) \/
    exists hras,
      (name = "" /\ hras = [] /\ l = [] \/
       exists opts, l = [EvA (List KHRA opts) (Val hras)] /\ MatchingFields "scaleTarget" name ∈ opts) /\
      (out = Done (Val (match candidates hras p with [t] => Some t | _ => None end)) \/
       exists m, out = Panicked m /\ panickingTrigger hras f m)).
Proof.
  intros Hf. unfold getScaleTarget, findHRAsByKey. apply always_bind. case_decide as Hn.
  - simpl. right. exists []. split; left; done.
  - simpl. intros [hras|e]; simpl; [|left; eauto].
    destruct (searchScaleTargetsFrom_spec hras f p [] Hf) as [Hs|(m & Hs & Hm)];
      unfold searchScaleTargets; rewrite Hs; simpl; right; exists hras; (split; [right; eexists; split;
      [done|set_solver]|]); [by left|right; eauto].
Qed.

Lemma MatchPush_decides :
  decides MatchPushEvent (fun t => match sut_GitHubEvent t with
    | Some g => bool_decide (is_Some (ge_Push g)) | None => false end).
Proof. intros t. left. done. Qed.

(** An HRA that does not take a job with these labels. *)
Definition declines (labels : list string) (l : log) (hra : HorizontalRunnerAutoscaler) : Prop :=
  IsZero (om_DeletionTimestamp (hra_Meta hra)) = false \/
  workflowJobTrigger hra = None \/
  exists c l', may (getTargetConfig hra "unsupported scaleTargetRef.kind: ") (Done (Val c)) l' /\
    l' ⊆ l /\ hasLabels labels (rc_Labels c) = false.

(** The first target that takes a job with these labels. *)
Definition jobTargetOK (hras : list HorizontalRunnerAutoscaler) (labels : list string) (l : log)
  (t : ScaleTarget) : Prop :=
  (exists pre post, hras = (pre ++ t_HRA t :: post)%list /\ Forall (declines labels l) pre) /\
  IsZero (om_DeletionTimestamp (hra_Meta (t_HRA t))) = true /\
  0 < sut_Duration (t_Trigger t) /\
  (exists trig g, hras_ScaleUpTriggers (hra_Spec (t_HRA t)) = [trig] /\
     sut_GitHubEvent trig = Some g /\ is_Some (ge_WorkflowJob g)) /\
  exists c l', may (getTargetConfig (t_HRA t) "unsupported scaleTargetRef.kind: ") (Done (Val c)) l' /\
    l' ⊆ l /\ Forall (fun lb => lb = "self-hosted" \/ lb ∈ rc_Labels c) labels.

Lemma workflowJobTrigger_spec hra t :
  workflowJobTrigger hra = Some t ->
  hras_ScaleUpTriggers (hra_Spec hra) = [t] /\
  exists g, sut_GitHubEvent t = Some g /\ is_Some (ge_WorkflowJob g).
Proof.
  unfold workflowJobTrigger. destruct (hras_ScaleUpTriggers _) as [|t' [|]]; [done| |done].
  destruct (sut_GitHubEvent t') as [g|] eqn:Hg; [|done]. case_decide; [|done].
  intros [= <-]. eauto.
Qed.

Lemma hasLabels_spec labels have :
  hasLabels labels have = true -> Forall (fun lb => lb = "self-hosted" \/ lb ∈ have) labels.
Proof.
  unfold hasLabels. rewrite forallb_forall. intros H. apply Forall_forall. intros lb Hlb.
  apply list_elem_of_In, H in Hlb. apply orb_prop in Hlb as [Hlb|Hlb]; apply bool_decide_eq_true in Hlb; auto.
Qed.

Lemma declines_mono labels l l' hra : l ⊆ l' -> declines labels l hra -> declines labels l' hra.
Proof.
  intros Hl [H|[H|(c & l0 & ? & ? & ?)]]; [by left|by right; left|].
  right; right. exists c, l0. split_and!; [done|set_solver|done].
Qed.

Lemma jobTargetOK_mono hras labels l l' t :
  l ⊆ l' -> jobTargetOK hras labels l t -> jobTargetOK hras labels l' t.
Proof.
  intros Hl ((pre & post & -> & Hpre) & ? & ? & ? & c & l0 & ? & ? & ?). split_and!; [|done..|].
  - exists pre, post. split; [done|]. eapply Forall_impl; [exact Hpre|]. intros ?. by apply declines_mono.
  - exists c, l0. split_and!; [done|set_solver|done].
Qed.

Lemma jobTargetOK_cons hra hras labels l t :
  declines labels l hra -> jobTargetOK hras labels l t -> jobTargetOK (hra :: hras) labels l t.
Proof.
  intros Hd ((pre & post & -> & Hpre) & Hrest). split; [|done].
  exists (hra :: pre), post. split; [done|by constructor].
Qed.

Lemma findJobTarget_spec hras labels :
  always (findJobTarget hras labels) (fun out l =>
    forall t, out = Done (Val (Some t)) -> jobTargetOK hras labels l t).
Proof.
  induction hras as [|hra hras IH]; simpl; [done|].
  assert (forall pre, declines labels pre hra -> always (findJobTarget hras labels) (fun out l =>
    forall t, out = Done (Val (Some t)) -> jobTargetOK (hra :: hras) labels (pre ++ l)%list t)) as Hskip.
  { intros pre Hd. eapply always_mono; [|apply IH]. intros out l H t Ht.
    apply jobTargetOK_cons; [eapply declines_mono; [|done]; set_solver|].
    eapply jobTargetOK_mono; [|by apply H]. set_solver. }
  destruct (IsZero _) eqn:Hz; simpl; [|apply (Hskip []); by left].
  destruct (workflowJobTrigger hra) as [t|] eqn:Ht; [|apply (Hskip []); by right; left].
  apply always_bind. eapply always_mono; [|apply always_may_log].
  intros [[c|e]|m|] l Hm; simpl; try done.
  destruct (hasLabels labels (rc_Labels c)) eqn:Hl; [|apply Hskip; right; right; eauto].
  simpl. intros t' [= <-]. apply workflowJobTrigger_spec in Ht as (Hs & g & Hg & Hw).
  rewrite app_nil_r. split_and!; simpl; [|done| | |].
  - by exists [], hras.
  - destruct (Z.leb_spec (sut_Duration t) 0); [done|lia].
  - eauto.
  - exists c, l. split_and!; [done|done|]. by apply hasLabels_spec.
Qed.

(** C39: the target of a job is the first HRA listed under the key that is
    live, has a single trigger, a workflow_job one, and whose scale target has
    every requested label other than self-hosted; its reservations have a
    positive duration. *)
Theorem getJobScaleTarget_matches ns name labels :
  always (getJobScaleTarget ns name labels) (fun out l => forall t, out = Done (Val (Some t)) ->
    exists hras, jobTargetOK hras labels l t /\ name <> "" /\
      exists opts, EvA (List KHRA opts) (Val hras) ∈ l /\ MatchingFields "scaleTarget" name ∈ opts).
Proof.
  unfold getJobScaleTarget, findHRAsByKey. apply always_bind. case_decide as Hn; [done|].
  simpl. intros [hras|e]; simpl; [|done].
  eapply always_mono; [|apply findJobTarget_spec]. intros out l H t Ht. exists hras. split_and!; [|done|].
  - eapply jobTargetOK_mono; [|by apply H]. set_solver.
  - eexists. split; [by apply elem_of_cons; left|]. set_solver.
Qed.

(** a failure to look up the target of a runner group is not reported:
    the caller is told that there is no target, although the code means to
    return the error. *)
Theorem traverse_error_swallowed fuel ns repo owner ownerType enterprise scaleTarget groups l0 rg gs e l1 :
  ownerType <> "User" ->
  may (scaleTarget (owner +:+ "/" +:+ repo)) (Done (Val None)) l0 ->
  may (getManagedRunnerGroupsFromHRAs ns enterprise owner) (Done (Val groups)) l1 ->
  groups = rg :: gs ->
  (forall l2, may (scaleTarget (scaleTargetKey owner enterprise rg)) (Done (Err e)) l2 ->
   may (getScaleUpTargetWithFunction fuel ns None repo owner ownerType enterprise scaleTarget)
     (Done (Val None)) (l0 ++ l1 ++ l2)%list).
Proof.
  intros Hu Hrepo Hmanaged -> l2 Hrg. unfold getScaleUpTargetWithFunction.
  apply (may_bind _ _ _ _ _ _ Hrepo). rewrite decide_False by done.
  apply (may_bind _ _ _ _ _ _ Hmanaged). simpl. rewrite <- (app_nil_r l2).
  apply (may_bind _ _ (Err e)); [|done]. rewrite <- (app_nil_r l2). by apply (may_bind _ _ (Err e)).
Qed.

(** ** Keys *)

(** an HRA is indexed under the key by which its own runner group is
    looked up, for an event of its organization or enterprise. *)
Theorem index_finds_own_group c :
  rc_Organization c <> "" \/ rc_Enterprise c <> "" ->
  let key := scaleTargetKey (rc_Organization c) (rc_Enterprise c)
    (NewRunnerGroupFromProperties (rc_Enterprise c) (rc_Organization c) (rc_Group c)) in
  key ∈ keysOfRD c /\ key ∈ keysOfRunnerSet c.
Proof.
  intros Hoe. unfold keysOfRD, keysOfRunnerSet, NewRunnerGroupFromProperties, newRunnerGroup, scaleTargetKey.
  repeat case_decide; simpl; try set_solver; naive_solver.
Qed.

(** ** What a delivery may write *)

(** The target is a live HRA that the API server listed. *)
Definition listedLive (l : log) (t : ScaleTarget) : Prop :=
  exists opts hras, EvA (List KHRA opts) (Val hras) ∈ l /\ t_HRA t ∈ hras /\
    IsZero (om_DeletionTimestamp (hra_Meta (t_HRA t))) = true.

Lemma listedLive_mono l l' t : l ⊆ l' -> listedLive l t -> listedLive l' t.
Proof. intros Hl (opts & hras & ? & ? & ?). exists opts, hras. split_and!; [set_solver|done|done]. Qed.

(** A search that only reads and finds listed targets. *)
Definition soundSearch (p : M (result (option ScaleTarget))) : Prop :=
  always p (fun out l => reads l /\ forall t, out = Done (Val (Some t)) -> listedLive l t).

Lemma onlyReads_getTargetConfig hra u : onlyReads (getTargetConfig hra u).
Proof. unfold getTargetConfig. only_reads. Qed.
#[local] Hint Resolve onlyReads_getTargetConfig : arc.

Lemma onlyReads_findJobTarget hras labels : onlyReads (findJobTarget hras labels).
Proof. induction hras as [|hra hras IH]; simpl; only_reads. Qed.

Lemma getJobScaleTarget_sound ns name labels : soundSearch (getJobScaleTarget ns name labels).
Proof.
  unfold soundSearch, getJobScaleTarget, findHRAsByKey. apply always_bind. case_decide as Hn; simpl; [done|].
  intros [hras|e]; simpl; [|split; [by repeat constructor|done]].
  eapply always_mono; [|apply (always_and _ _ _ (findJobTarget_spec hras labels)
    (onlyReads_findJobTarget hras labels))].
  intros out l [H Hl]. split; [by constructor|]. intros t Ht.
  destruct (H t Ht) as ((pre & post & Hin & _) & Hz & _). do 2 eexists.
  split_and!; [by apply elem_of_cons; left|set_solver|done].
Qed.

Lemma searchScaleTargetsFrom_sound all f :
  (forall t, onlyReads (f t)) ->
  forall hras matched, hras ⊆ all ->
  let ok := fun t => t_HRA t ∈ all /\ IsZero (om_DeletionTimestamp (hra_Meta (t_HRA t))) = true in
  Forall ok matched ->
  always (searchScaleTargetsFrom hras f matched) (fun out l => reads l /\
    forall ts, out = Done ts -> Forall ok ts).
Proof.
  intros Hf hras matched Hsub ok Hm. revert matched Hm.
  induction hras as [|hra hras IH]; intros matched Hm; simpl.
  { split; [constructor|]. by intros ts [= <-]. }
  assert (hras ⊆ all) as Hsub' by set_solver.
  destruct (IsZero _) eqn:Hz; simpl; [|by apply IH].
  assert (forall ts m, Forall ok m -> always (searchTriggers hra ts f m) (fun out l => reads l /\
    forall ts, out = Done ts -> Forall ok ts)) as Htrig.
  { induction ts as [|t ts IHt]; intros m Hmm; simpl; [split; [constructor|by intros ? [= <-]]|].
    apply always_bind. eapply always_mono; [|apply Hf]. intros [b|x|] l Hl; [|done..].
    eapply always_mono; [|apply IHt].
    - intros out l' [Hl' Ho]. split; [by apply Forall_app_2|done].
    - destruct b; [|done]. apply Forall_app_2; [done|]. apply Forall_singleton. split; [set_solver|done]. }
  apply always_bind. eapply always_mono; [|by apply Htrig]. intros [ts|x|] l [Hl Ho]; [|done..].
  eapply always_mono; [|apply (IH Hsub' ts); by apply Ho].
  intros out l' [Hl' Ho']. split; [by apply Forall_app_2|done].
Qed.

Lemma getScaleTarget_sound ns name f :
  (forall t, onlyReads (f t)) -> soundSearch (getScaleTarget ns name f).
Proof.
  intros Hf. unfold soundSearch, getScaleTarget, findHRAsByKey. apply always_bind.
  case_decide as Hn; simpl; [done|].
  intros [hras|e]; simpl; [|split; [by repeat constructor|done]].
  apply always_bind. eapply always_mono; [|by apply (searchScaleTargetsFrom_sound hras f Hf hras [])].
  intros [ts|x|] l [Hl Ho]; simpl; [|split; [by constructor|done]..]. rewrite app_nil_r.
  split; [by constructor|]. intros t [= Ht]. specialize (Ho ts eq_refl).
  destruct ts as [|t' [|]]; simplify_eq. apply Forall_singleton in Ho as [Hin Hz].
  do 2 eexists. split_and!; [by apply elem_of_cons; left|done|done].
Qed.

Lemma soundSearch_after p l :
  reads l -> soundSearch p ->
  always p (fun out l' => reads (l ++ l')%list /\
    forall t, out = Done (Val (Some t)) -> listedLive (l ++ l')%list t).
Proof.
  intros Hl Hp. eapply always_mono; [|exact Hp]. intros out l' [Hl' Ho].
  split; [by apply Forall_app_2|]. intros t Ht. eapply listedLive_mono; [|by apply Ho]. set_solver.
Qed.

(** A search that starts with reading something else. *)
Lemma soundSearch_bind {A} (p : M A) (f : A -> M (result (option ScaleTarget))) :
  onlyReads p -> (forall a, soundSearch (f a)) -> soundSearch (bind p f).
Proof.
  intros Hp Hf. apply always_bind. eapply always_mono; [|exact Hp].
  intros [a|m|] l Hl; [|done..]. by apply soundSearch_after.
Qed.

Lemma Traverse_sound gs f :
  (forall rg, soundSearch (f rg)) -> soundSearch (Traverse gs f).
Proof.
  intros Hf. unfold soundSearch. induction gs as [|rg gs IH]; simpl; [split; [constructor|done]|].
  apply always_bind. eapply always_mono; [|apply Hf]. intros [[[t|]|e]|x|] l [Hl Ht]; simpl;
    rewrite ?app_nil_r; try done. by apply soundSearch_after.
Qed.

Lemma onlyReads_collectVisible fuel org repo managed gs vis :
  onlyReads (collectVisible fuel org repo managed gs vis).
Proof.
  revert vis. induction gs as [|g gs IH]; intros vis; simpl;
    unfold hasRepoAccessToOrganizationRunnerGroup; only_reads.
Qed.
#[local] Hint Resolve onlyReads_collectVisible : arc.

Lemma onlyReads_visible fuel url org repo managed :
  onlyReads (GetRunnerGroupsVisibleToRepository fuel url org repo managed).
Proof. unfold GetRunnerGroupsVisibleToRepository. only_reads. Qed.

Lemma onlyReads_managed ns enterprise org : onlyReads (getManagedRunnerGroupsFromHRAs ns enterprise org).
Proof.
  unfold getManagedRunnerGroupsFromHRAs. apply onlyReads_bind; [by apply onlyReads_ask|].
  intros [hras|e]; [|apply onlyReads_ret]. generalize (@nil RunnerGroup) as vis.
  induction hras as [|hra hras IH]; intros vis; simpl; only_reads.
Qed.

Lemma soundSearch_ret r : (forall t, r <> Val (Some t)) -> soundSearch (Ret r).
Proof. intros Hr. split; [constructor|]. intros t [= ->]. by destruct (Hr t). Qed.

Lemma getScaleUpTargetWithFunction_sound fuel ns github repo owner ownerType enterprise scaleTarget :
  (forall v, soundSearch (scaleTarget v)) ->
  soundSearch (getScaleUpTargetWithFunction fuel ns github repo owner ownerType enterprise scaleTarget).
Proof.
  intros Hs. unfold getScaleUpTargetWithFunction. apply always_bind.
  eapply always_mono; [|apply Hs]. intros [[[t|]|e]|m|] l [Hl Ht]; cbv beta iota;
    try (simpl; rewrite ?app_nil_r; done).
  apply soundSearch_after; [done|]. case_decide; [by apply soundSearch_ret|].
  apply soundSearch_bind; [apply onlyReads_managed|]. intros [groups|e]; [|by apply soundSearch_ret].
  apply soundSearch_bind.
  { destruct github; [|apply onlyReads_ret]. apply onlyReads_bind; [apply onlyReads_visible|]. only_reads. }
  intros [vis|e]; [|by apply soundSearch_ret]. apply always_bind.
  eapply always_mono; [|apply Traverse_sound; intros; apply Hs].
  intros [[[t|]|e]|m|] l' [Hl' Ht']; simpl; rewrite ?app_nil_r; done.
Qed.

Lemma onlyReads_matchNames names name : onlyReads (matchNames names name).
Proof. induction names as [|p names IH]; simpl; only_reads. Qed.

Section HandlerFacts.
Context {H : GitHubHooks}.
Context (fuel : nat) (ns : string) (github : option string) (secretKey : string).

Lemma withRepo_sound repo k :
  (forall a b c, soundSearch (k a b c)) -> soundSearch (withRepo repo k).
Proof. intros Hk. destruct repo; simpl; [apply Hk|]. split; [constructor|done]. Qed.

(** The dispatch only reads; what it scales was listed. *)
Lemma dispatch_sound slug event :
  always (dispatch fuel ns github slug event) (fun out l => reads l /\
    forall t, out = Done (Scale (Val (Some t))) -> listedLive l t).
Proof.
  assert (forall repo f, (forall t, onlyReads (f t)) -> always
    (t <- withRepo repo (fun name login tpe => getScaleUpTarget fuel ns github name login tpe slug f) ;;
     Ret (Scale t)) (fun out l => reads l /\ forall t, out = Done (Scale (Val (Some t))) -> listedLive l t)) as Hup.
  { intros repo f Hf. apply always_bind. eapply always_mono; [|apply withRepo_sound; intros;
      apply getScaleUpTargetWithFunction_sound; intros; by apply getScaleTarget_sound].
    intros [r|m|] l [Hl Ht]; simpl; rewrite ?app_nil_r; [|done..]. split; [done|].
    intros t [= ->]. by apply Ht. }
  destruct event as [repo|action pr repo|action cr repo|action job repo| |]; simpl.
  - apply Hup. intros t. apply onlyReads_ret.
  - apply Hup. intros t. unfold MatchPullRequestEvent, nilDeref. only_reads.
  - apply Hup. intros t. unfold MatchCheckRunEvent, matchRepositories, nilDeref.
    repeat (case_match || apply onlyReads_ret || apply onlyReads_panic || apply onlyReads_matchNames).
  - destruct job as [job|]; [|by split; [constructor|]]. destruct (_ || _).
    + apply always_bind. eapply always_mono; [|apply withRepo_sound; intros;
        apply getScaleUpTargetWithFunction_sound; intros; apply getJobScaleTarget_sound].
      intros [[[t|]|e]|m|] l [Hl Ht]; simpl; rewrite ?app_nil_r; try done. split; [done|].
      intros t'. specialize (Ht t eq_refl). case_decide; [by intros [= <-]|].
      destruct (negb _); [by intros [= <-]|done].
    + destruct repo; by split; [constructor|].
  - by split; [constructor|].
  - by split; [constructor|].
Qed.

(** C23: a delivery writes at most once: it patches one live HRA, which the API
    server listed, and only its capacity reservations; the answer is 200 when
    the patch succeeds and 500 when it fails.  A GET, a ping or an invalid
    payload writes nothing. *)
Theorem Handle_writes r :
  always (Handle fuel ns github secretKey r) (fun out l =>
    reads l \/
    exists t res e resp, listedLive l t /\
      EvA (Patch KHRA (withReservations (t_HRA t) res) (t_HRA t)) e ∈ l /\
      Forall (fun ev => isRead (ev_req ev) = true \/
        ev = EvA (Patch KHRA (withReservations (t_HRA t) res) (t_HRA t)) e) l /\
      out = Done resp /\ resp_Status resp = match e with Val _ => 200 | Err _ => 500 end).
Proof.
  unfold Handle. case_decide; [left; constructor|].
  destruct (if decide (secretKey = "") then _ else _) as [payload|e]; [|left; constructor].
  destruct (ParseWebHook _ payload) as [event|e]; [|left; constructor].
  apply always_bind. eapply always_mono; [|apply dispatch_sound].
  intros [[resp|[[t|]|e]]|m|] l [Hl Ht]; cbv beta iota; try (by left; rewrite ?app_nil_r).
  apply always_bind. eapply always_mono; [|apply (tryScale_spec t)].
  intros out l' (now & res & e & _ & Hall & Hin & _ & e' & -> & He'). simpl. rewrite app_nil_r. right.
  exists t, res, e. eexists. split_and!; [|set_solver| |done|].
  - eapply listedLive_mono; [|by apply Ht]. set_solver.
  - apply Forall_app_2; [|done]. eapply Forall_impl; [exact Hl|]. intros ev. by left.
  - destruct e as [o|er]; [rewrite (proj2 He') by eauto; done|].
    destruct e' as [?|]; [done|]. destruct (proj1 He' eq_refl) as [o Ho]. done.
Qed.

End HandlerFacts.
