(* ===== verification/EventScaling.v ===== *)
(** * From an event to replicas

    The webhook server and the autoscaler meet in the capacity reservations of
    an HRA: the one adds and removes them, the other adds them up. *)

From stdpp Require Import base list gmap strings.
From Stdlib Require Import ZArith Lia.
From S2P Require Import Prelude Api GoStrings GracefulStop Calendar Schedule Autoscaler Webhook.

Open Scope string_scope.
Open Scope Z_scope.

(** The autoscaler's sum, in 64 bits, is the number of replicas reserved while
    that fits. *)
Lemma reservedReplicas_exact now l :
  Forall (fun r => 0 <= cr_Replicas r) l -> reservedAt now l < 2 ^ 63 -> reservedReplicas now l = reservedAt now l.
Proof.
  unfold reservedReplicas, reservedAt. intros Hpos.
  assert (forall acc, 0 <= acc -> acc + sumZ (map cr_Replicas (validAt now l)) < 2 ^ 63 ->
    fold_left (fun reserved r => if After (cr_ExpirationTime r) now then int64 (reserved + cr_Replicas r) else reserved) l acc
    = acc + sumZ (map cr_Replicas (validAt now l))) as Hgo.
  { induction Hpos as [|r l Hr Hl IH]; intros acc Hacc Hlt; simpl; [unfold sumZ; simpl; lia|].
    unfold validAt in *. simpl in *. destruct (After (cr_ExpirationTime r) now); simpl in *; [|by apply IH].
    unfold sumZ in *. simpl in *. fold (sumZ (map cr_Replicas (validAt now l))) in *.
    assert (0 <= foldr Z.add 0 (map cr_Replicas (List.filter (fun r => After (cr_ExpirationTime r) now) l))).
    { apply (sumZ_nonneg (map cr_Replicas (validAt now l))). apply Forall_map.
      eapply Forall_impl; [apply validAt_Forall; exact Hl|]. done. }
    unfold int64. rewrite wrapS_small by (change (64 - 1) with 63; lia). rewrite IH by lia. lia. }
  intros Hlt. rewrite Hgo; lia.
Qed.

(** A reservation that was just added counts from then until it expires. *)
Lemma reservedAt_added hra g k d hra1 out l r now :
  0 < k -> may (tryScale (Some (mkTarget hra (mkScaleUpTrigger g k d)))) out l -> EvA (Patch KHRA hra1 hra) r ∈ l ->
  (forall t, EvA Now t ∈ l -> t <= now < t + d) ->
  hra1 = withReservations hra (hras_CapacityReservations (hra_Spec hra1)) /\
  reservedAt now (hras_CapacityReservations (hra_Spec hra1)) = reservedAt now (hras_CapacityReservations (hra_Spec hra)) + k /\
  (Forall (fun r => 0 <= cr_Replicas r) (hras_CapacityReservations (hra_Spec hra)) ->
   Forall (fun r => 0 <= cr_Replicas r) (hras_CapacityReservations (hra_Spec hra1))).
Proof.
  intros Hk Hm Hp Hclock. apply (tryScale_patched _ _ _ _ _ Hm) in Hp. simpl in Hp.
  rewrite (proj2 (Z.eqb_neq k 0)) in Hp by lia. destruct Hp as (t0 & Ht0 & [(_ & t1 & Ht1 & ->)|[? _]]); [|lia]. simpl.
  pose proof (Hclock _ Ht0). pose proof (Hclock _ Ht1). split_and!; [done| |].
  - unfold reservedAt, validAt at 1. rewrite List.filter_app.
    fold (validAt now (validAt t0 (hras_CapacityReservations (hra_Spec hra)))). rewrite validAt_idemp by lia. simpl.
    unfold After. rewrite (proj2 (Z.ltb_lt _ _)) by (simpl; lia). rewrite map_app, sumZ_app. unfold sumZ. simpl. lia.
  - intros Hpos. apply Forall_app_2; [by apply validAt_Forall|]. apply Forall_singleton. simpl. lia.
Qed.

(** The replicas asked for at [now] of an autoscaler without metrics whose
    minimum and maximum in force are [lo] and [hi], with [k] more reserved. *)
Definition wantedReplicas (hra : HorizontalRunnerAutoscaler) (now : time) (lo hi k : Z) : Z :=
  Z.min hi (lo + reservedAt now (hras_CapacityReservations (hra_Spec hra)) + k).

(** C15: An event raises the replicas: after the webhook server has reserved [k]
    replicas for an autoscaler without metrics, every computation until the
    reservation expires asks for [k] more than the minimum and the other
    reservations, up to the maximum; or keeps a larger number while a scale-down
    is delayed. *)
Theorem event_raises_replicas fuel delay st hra g k d hra1 out l r now lo hi mn :
  hras_Metrics (hra_Spec hra) = [] -> hras_MinReplicas (hra_Spec hra) = Some mn -> hras_MaxReplicas (hra_Spec hra) = Some hi ->
  Forall (fun r => 0 <= cr_Replicas r) (hras_CapacityReservations (hra_Spec hra)) ->
  0 < k -> 0 <= lo <= hi -> lo + reservedAt now (hras_CapacityReservations (hra_Spec hra)) + k < 2 ^ 63 ->
  may (tryScale (Some (mkTarget hra (mkScaleUpTrigger g k d)))) out l -> EvA (Patch KHRA hra1 hra) r ∈ l ->
  (forall t, EvA Now t ∈ l -> t <= now < t + d) ->
  exists n, computeReplicasWithCache fuel delay now st hra1 lo = Ret (Val n) /\ wantedReplicas hra now lo hi k <= n /\
    (n = wantedReplicas hra now lo hi k \/ hrast_DesiredReplicas (hra_Status hra) = Some n).
Proof.
  intros Hm Hmin Hmax Hpos Hk Hlo Hfit Hmay Hp Hclock. set (wanted := wantedReplicas hra now lo hi k).
  destruct (reservedAt_added hra g k d hra1 out l r now Hk Hmay Hp Hclock) as (Hh & Hsum & Hpos1).
  assert (0 <= reservedAt now (hras_CapacityReservations (hra_Spec hra))) as Hr0.
  { apply sumZ_nonneg, Forall_map. eapply Forall_impl; [apply validAt_Forall; exact Hpos|]. done. }
  assert (clampReplicas lo (Some hi) (int64 (lo + reservedReplicas now (hras_CapacityReservations (hra_Spec hra1)))) = wanted) as Hc.
  { rewrite reservedReplicas_exact by (auto; lia). rewrite Hsum. unfold int64. rewrite wrapS_small by (change (64 - 1) with 63; lia).
    unfold clampReplicas, wanted, wantedReplicas. destruct (Z.ltb_spec (lo + (reservedAt now (hras_CapacityReservations (hra_Spec hra)) + k)) lo); [lia|].
    destruct (Z.ltb_spec hi (lo + (reservedAt now (hras_CapacityReservations (hra_Spec hra)) + k))); lia. }
  unfold computeReplicasWithCache, suggestDesiredReplicas.
  assert (hras_Metrics (hra_Spec hra1) = [] /\ hras_MinReplicas (hra_Spec hra1) = Some mn /\
    hras_MaxReplicas (hra_Spec hra1) = Some hi /\ hra_Status hra1 = hra_Status hra) as (-> & -> & -> & Hst) by (rewrite Hh; done).
  cbn [bind default]. rewrite Hc. eexists. split; [reflexivity|]. unfold delayScaleDown. rewrite Hst.
  destruct (hrast_DesiredReplicas (hra_Status hra)) as [p|]; [|split; [lia|by left]].
  destruct (hrast_LastSuccessfulScaleOutTime (hra_Status hra)); [|split; [lia|by left]].
  destruct (Z.ltb_spec p wanted); [split; [lia|by left]|]. destruct (After _ _); [split; [lia|by right]|split; [lia|by left]].
Qed.
