(* ===== verification/Interleaving.v ===== *)
(** * Concurrent reconciliations

    controller-runtime runs the reconciliations of all controllers
    concurrently, against one API server and one GitHub that others change as
    well.  A [pool] is the reconciliations under way, each the rest of its
    program and the exchanges it has had; a step is one exchange of one of
    them, a change made by others, the start of a reconciliation or its end
    (its return, a crash of the process, a lost leader election).

    [pool_invariant] reduces an invariant of the shared world over every
    interleaving to each program on its own: every question a program asks has
    to preserve the invariant given only what the program has learned from its
    own exchanges ([obeys]), where what is learned must remain true whatever
    the others do ([SharedWorld]). *)

From stdpp Require Import base list relations strings.
From S2P Require Import Prelude Api.

Open Scope string_scope.
Open Scope list_scope.

(** ** The shared world

    [respond w q a w'] is that the world [w] may answer [a] to [q] and become
    [w'], [others w w'] a change made by anyone else, [Inv] the invariant, and
    [knows l w] what holds of [w] for whoever had the exchanges [l]. *)
Record world (W : Type) := World {
  respond : W -> forall q : req, ans q -> W -> Prop;
  others : W -> W -> Prop;
  Inv : W -> Prop;
  knows : log -> W -> Prop
}.
Arguments World {_}.
Arguments respond {_}.
Arguments others {_}.
Arguments Inv {_}.
Arguments knows {_}.

(** A question that preserves the invariant whenever what was learned holds. *)
Definition keeps {W : Type} (ww : world W) (l : log) (q : req) : Prop :=
  forall w a w', Inv ww w -> knows ww l w -> respond ww w q a w' -> Inv ww w'.

(** Knowledge is learned from answers and is never invalidated. *)
Class SharedWorld {W : Type} (ww : world W) : Prop := {
  others_keep : forall w w', Inv ww w -> others ww w w' -> Inv ww w';
  knows_nothing : forall w, knows ww [] w;
  knows_others : forall l w w', Inv ww w -> knows ww l w -> others ww w w' -> knows ww l w';
  knows_respond : forall l w q a w',
    Inv ww w -> Inv ww w' -> knows ww l w -> respond ww w q a w' -> knows ww l w';
  knows_learn : forall l w q a w',
    Inv ww w -> Inv ww w' -> knows ww l w -> respond ww w q a w' -> knows ww (l ++ [EvA q a]) w'
}.

(** ** Programs on their own *)

(** Every question of the program, asked after the exchanges [l], satisfies
    [ok] given the exchanges before it. *)
Fixpoint obeys {A : Type} (ok : log -> req -> Prop) (l : log) (p : M A) : Prop :=
  match p with
  | Ask q k => ok l q /\ forall a, obeys ok (l ++ [EvA q a]) (k a)
  | _ => True
  end.

Section Obeys.
Context (ok : log -> req -> Prop).

Lemma obeys_ask l q : ok l q -> obeys ok l (ask q).
Proof. intros H. by split. Qed.

Lemma obeys_bind {A B : Type} l (p : M A) (f : A -> M B) :
  obeys ok l p ->
  always p (fun out l' => match out with Done a => obeys ok (l ++ l') (f a) | _ => True end) ->
  obeys ok l (bind p f).
Proof.
  revert l. induction p as [a|m| |q k IH]; intros l Hp Hf; simpl in *; [by rewrite app_nil_r in Hf|done..|].
  destruct Hp as [Hq Hk]. split; [done|]. intros a. apply IH; [apply Hk|].
  eapply always_mono; [|apply Hf]. intros [x|m|] l' Hx; [|done..].
  by rewrite <- app_assoc.
Qed.

(** Every question can be answered, if only by an error. *)
Definition anyAnswer (q : req) : ans q :=
  match q with
  | Now => 0%Z
  | Order _ => []
  | Delete _ _ _ | SelectorAsSelector _ => None
  | _ => Err (newError "")
  end.

Lemma only_first {A : Type} (P : event ans -> Prop) (p : M A) q a :
  always p (fun _ l => Forall P (EvA q a :: l)) -> P (EvA q a).
Proof.
  intros H. assert (always p (fun _ _ => P (EvA q a))) as Hp.
  { eapply always_mono; [|exact H]. intros o l Hl. by inversion Hl. }
  clear H. induction p as [x|m| |q' k IH]; simpl in *; [done..|]. exact (IH (anyAnswer q') (Hp _)).
Qed.

Lemma obeys_only {A : Type} (P : event ans -> Prop) (l : log) (p : M A) :
  (forall l q, P (EvA q (anyAnswer q)) -> ok l q) -> only P p -> obeys ok l p.
Proof.
  intros HP. revert l. induction p as [x|m| |q k IH]; intros l Hp; simpl; [done..|]. split.
  - eapply HP, only_first, Hp.
  - intros a. apply IH. eapply always_mono; [|apply Hp]. intros o l' Hl. by inversion Hl.
Qed.

End Obeys.

Lemma obeys_mono {A : Type} (ok ok' : log -> req -> Prop) l (p : M A) :
  (forall l q, ok l q -> ok' l q) -> obeys ok l p -> obeys ok' l p.
Proof.
  intros H. revert l. induction p as [a|m| |q k IH]; intros l Hp; simpl in *; [done..|].
  destruct Hp as [Hq Hk]. split; [by apply H|]. intros a. by apply IH.
Qed.

(** ** The pool *)

Record thread := Thread { th_result : Type; th_log : log; th_prog : M th_result }.
Arguments Thread {_}.

Section Pool.
Context {W : Type} (ww : world W) (starts : forall A, M A -> Prop).

Inductive step : list thread * W -> list thread * W -> Prop :=
| step_others ts w w' : others ww w w' -> step (ts, w) (ts, w')
| step_start ts w A (p : M A) : starts A p -> step (ts, w) (Thread [] p :: ts, w)
| step_end ts1 t ts2 w : step (ts1 ++ t :: ts2, w) (ts1 ++ ts2, w)
| step_ask ts1 ts2 A l q (k : ans q -> M A) a w w' :
    respond ww w q a w' ->
    step (ts1 ++ Thread l (Ask q k) :: ts2, w) (ts1 ++ Thread (l ++ [EvA q a]) (k a) :: ts2, w').

(** What every interleaving preserves. *)
Definition wellBehaved (t : thread) (w : W) : Prop :=
  knows ww (th_log t) w /\ obeys (keeps ww) (th_log t) (th_prog t).

Definition poolInv (c : list thread * W) : Prop :=
  Inv ww c.2 /\ Forall (fun t => wellBehaved t c.2) c.1.

Context {shared : SharedWorld ww}.
Context (starts_obey : forall A p, starts A p -> obeys (keeps ww) [] p).

Lemma step_poolInv c c' : step c c' -> poolInv c -> poolInv c'.
Proof.
  intros Hs [HI HT]. destruct Hs as [ts w w' Ho|ts w A p Hp|ts1 t ts2 w|ts1 ts2 A l q k a w w' Hr]; simpl in *.
  - split; [by eapply others_keep|]. eapply Forall_impl; [exact HT|]. intros t [Hk Hob].
    split; [|done]. by eapply knows_others.
  - split; [done|]. constructor; [|done]. split; [apply knows_nothing|by apply starts_obey].
  - split; [done|]. apply Forall_app in HT as [H1 H2]. inversion H2. by apply Forall_app_2.
  - apply Forall_app in HT as [H1 H2]. apply Forall_cons in H2 as [[Hk Hob] H2'].
    simpl in Hk, Hob. destruct Hob as [Hq Hob].
    assert (Inv ww w') as HI' by by eapply Hq.
    assert (forall ts, Forall (fun t => wellBehaved t w) ts -> Forall (fun t => wellBehaved t w') ts) as Hts.
    { intros ts Hts. eapply Forall_impl; [exact Hts|]. intros t [Hkt Hot]. split; [|done].
      by eapply (knows_respond _ w). }
    split; [done|]. apply Forall_app_2; [by apply Hts|]. constructor; [|by apply Hts].
    split; simpl; [|apply Hob]. by eapply (knows_learn _ w).
Qed.

Theorem pool_invariant w c : Inv ww w -> rtc step ([], w) c -> Inv ww c.2.
Proof.
  intros HI Hr. assert (poolInv c) as [? _]; [|done].
  assert (poolInv ([], w)) as H0 by by split.
  clear HI. induction Hr as [c|c c1 c2 Hs _ IH]; [done|]. eapply IH, step_poolInv; done.
Qed.

End Pool.
