(* ===== verification/JobSafety.v ===== *)
(** * No registered runner loses its pod, in any interleaving

    The platform the controllers share: the API server's pods and GitHub's
    runners.  Any number of reconciliations of all controllers run
    concurrently ([Interleaving]); reads may be stale (a cached read answers
    any version that a pod of that name ever had, a cached listing any runners
    that GitHub has or had, or none); a failed write may nevertheless have been
    applied; runners register, take and finish jobs; anyone may create, edit or
    delete pods, under names that were used before too.

    What is relied on: GitHub removes a runner only while it runs no job, and
    does not use an ID twice; a runner registers in the scope that the
    environment of its pod names; others do not touch the marks of the
    unregistration protocol or the controller's finalizer; a pod disappears
    only without finalizers; patches are JSON merge patches. *)

From stdpp Require Import base list gmap strings relations.
From Stdlib Require Import ZArith Lia.
From S2P Require Import Prelude Api GoStrings GitHubClient RunnerPod GracefulStop PodOwner Hash PodBuilder.
From S2P Require Import RunnerPodController RunnerController Admission Schedule RunnerDeployment.
From S2P Require Import RunnerSetController ReplicaSet Autoscaler RunnerGroups Webhook Watches Interleaving.

Open Scope string_scope.
Open Scope Z_scope.
Open Scope list_scope.

Global Instance ghscope_countable : Countable ghscope.
Proof.
  apply (inj_countable' (fun s => match s with
    | SRepo o r => inl (o, r) | SOrg o => inr (inl o) | SEnterprise e => inr (inr e) end)
    (fun x => match x with
    | inl (o, r) => SRepo o r | inr (inl o) => SOrg o | inr (inr e) => SEnterprise e end)).
  by intros [].
Defined.

(** ** The platform *)

Abbreviation runnerKey := (ghscope * Z)%type.

(** [versions]: every version of the pods of a name ever stored, the newest
    first; [live]: the pods that exist; [reused]: the names that were given to
    a second pod; [registered]: GitHub's runners, with their name and whether
    they run a job; [ids]: to which name each ID was ever given; [refused]: the
    runners that GitHub refused to remove for lack of permission. *)
Record platform := Platform {
  versions : gmap string (list Pod);
  live : gset string;
  reused : gset string;
  registered : gmap runnerKey (string * bool);
  ids : gmap runnerKey string;
  refused : gset runnerKey
}.

Definition podName (p : Pod) : string := om_Name (pod_Meta p).
Definition leaving (p : Pod) : bool := negb (IsZero (om_DeletionTimestamp (pod_Meta p))).
Definition podRunnerIDMark (p : Pod) : option string := getAnnotation (pod_Meta p) AnnotationKeyRunnerID.
Definition completeMark (p : Pod) : option string :=
  getAnnotation (pod_Meta p) AnnotationKeyUnregistrationCompleteTimestamp.
Definition protected (p : Pod) : bool :=
  bool_decide (runnerPodFinalizerName ∈ om_Finalizers (pod_Meta p)).

Definition history (w : platform) (n : string) : list Pod := default [] (versions w !! n).
Definition current (w : platform) (n : string) : option Pod :=
  if decide (n ∈ live w) then head (history w n) else None.
Definition store (n : string) (q : Pod) (w : platform) : platform :=
  {| versions := <[n := q :: history w n]> (versions w); live := live w; reused := reused w;
     registered := registered w; ids := ids w; refused := refused w |}.
Definition create (n : string) (q : Pod) (w : platform) : platform :=
  {| versions := <[n := q :: history w n]> (versions w); live := {[n]} ∪ live w;
     reused := if decide (history w n = []) then reused w else {[n]} ∪ reused w;
     registered := registered w; ids := ids w; refused := refused w |}.
Definition drop (n : string) (w : platform) : platform :=
  {| versions := versions w; live := live w ∖ {[n]}; reused := reused w;
     registered := registered w; ids := ids w; refused := refused w |}.
Definition register (n : string) (x : runnerKey) (w : platform) : platform :=
  {| versions := versions w; live := live w; reused := reused w;
     registered := <[x := (n, false)]> (registered w); ids := <[x := n]> (ids w); refused := refused w |}.
Definition unregister (x : runnerKey) (w : platform) : platform :=
  {| versions := versions w; live := live w; reused := reused w;
     registered := delete x (registered w); ids := ids w; refused := refused w |}.
Definition assign (x : runnerKey) (n : string) (busy : bool) (w : platform) : platform :=
  {| versions := versions w; live := live w; reused := reused w;
     registered := <[x := (n, busy)]> (registered w); ids := ids w; refused := refused w |}.
Definition refuse (x : runnerKey) (w : platform) : platform :=
  {| versions := versions w; live := live w; reused := reused w;
     registered := registered w; ids := ids w; refused := {[x]} ∪ refused w |}.

(** What an edit by anyone but the runner pod controller leaves alone. *)
Definition leavesMarks (v q : Pod) : Prop :=
  podName q = podName v /\ podScope q = podScope v /\ podRunnerIDMark q = podRunnerIDMark v /\
  completeMark q = completeMark v /\ protected q = protected v.

(** The merge patch from [base] to [o], applied to [v], gives [q]. *)
Definition patched (o base v q : Pod) : Prop :=
  podName q = podName v /\ pod_Spec q = pod_Spec v /\ pod_Status q = pod_Status v /\
  om_DeletionTimestamp (pod_Meta q) = om_DeletionTimestamp (pod_Meta v) /\
  om_Finalizers (pod_Meta q) =
    (if decide (om_Finalizers (pod_Meta o) = om_Finalizers (pod_Meta base)) then om_Finalizers (pod_Meta v)
     else om_Finalizers (pod_Meta o)) /\
  forall k, getAnnotation (pod_Meta q) k =
    if decide (getAnnotation (pod_Meta o) k = getAnnotation (pod_Meta base) k)
    then getAnnotation (pod_Meta v) k else getAnnotation (pod_Meta o) k.

(** GitHub's answer to one page of the listing, possibly out of a cache: any
    runners that it has or had. *)
Definition listsPage (w : platform) (s : ghscope) (rs : list GHRunner) : Prop :=
  forall r id, r ∈ rs -> gr_ID r = Some id -> ids w !! (s, id) = Some (gr_Name r).

(** The effect of a write to a pod; an error may hide one. *)
Definition written {A : Type} (a : result A) (done : A -> platform -> Prop) (w w' : platform) : Prop :=
  match a with
  | Val q => done q w'
  | Err _ => w' = w \/ exists q, done q w'
  end.

Definition answers (w : platform) (q : req) : ans q -> platform -> Prop :=
  match q return ans q -> platform -> Prop with
  | Get k key =>
      match k return result (kobj k) -> platform -> Prop with
      | KPod => fun a w' => w' = w /\ forall p, a = Val p -> p ∈ history w (nn_Name key)
      | _ => fun _ w' => w' = w
      end
  | List k _ =>
      match k return result (list (kobj k)) -> platform -> Prop with
      | KPod => fun a w' => w' = w /\ forall ps p, a = Val ps -> p ∈ ps -> p ∈ history w (podName p)
      | _ => fun _ w' => w' = w
      end
  | Create k o =>
      match k return kobj k -> result (kobj k) -> platform -> Prop with
      | KPod => fun o a => written a (fun q w' =>
          podName q ∉ live w /\ (forall x, getAnnotation (pod_Meta q) x = getAnnotation (pod_Meta o) x) /\
          w' = create (podName q) q w) w
      | _ => fun _ _ w' => w' = w
      end o
  | Update k o =>
      match k return kobj k -> result (kobj k) -> platform -> Prop with
      | KPod => fun o a => written a (fun q w' =>
          is_Some (current w (podName o)) /\ podName q = podName o /\ w' = store (podName o) q w) w
      | _ => fun _ _ w' => w' = w
      end o
  | Patch k o base =>
      match k return kobj k -> kobj k -> result (kobj k) -> platform -> Prop with
      | KPod => fun o base a => written a (fun q w' =>
          exists v, current w (podName o) = Some v /\ patched o base v q /\ w' = store (podName o) q w) w
      | _ => fun _ _ _ w' => w' = w
      end o base
  | StatusPatch k o base =>
      match k return kobj k -> result (kobj k) -> platform -> Prop with
      | KPod => fun o a => written a (fun q w' =>
          exists v, current w (podName o) = Some v /\ leavesMarks v q /\ w' = store (podName o) q w) w
      | _ => fun _ _ w' => w' = w
      end o
  | Delete k o _ =>
      match k return kobj k -> option err -> platform -> Prop with
      | KPod => fun o _ w' => w' = w \/
          exists v, current w (podName o) = Some v /\
            ((exists q, leavesMarks v q /\ leaving q = true /\ w' = store (podName o) q w) \/
             (om_Finalizers (pod_Meta v) = [] /\ w' = drop (podName o) w))
      | _ => fun _ _ w' => w' = w
      end o
  | GHListRunners s page => fun a w' => w' = w /\ forall rs next, a = Val (rs, next) -> listsPage w s rs
  | GHRemoveRunner s id => fun a w' =>
      let removed := exists n, registered w !! (s, id) = Some (n, false) /\ w' = unregister (s, id) w in
      match a with
      | Val 204 => removed
      | Val _ => w' = w
      | Err e => if decide (err_status e = Some 403) then w' = refuse (s, id) w else w' = w \/ removed
      end
  | _ => fun _ w' => w' = w
  end.

(** What happens besides the controllers' requests: pods are created, edited,
    deleted and disappear, and runners register, take and finish jobs and
    unregister. *)
Inductive happens (w : platform) : platform -> Prop :=
| hp_created n q : n ∉ live w -> podName q = n -> happens w (create n q w)
| hp_edited n v q : current w n = Some v -> leavesMarks v q -> happens w (store n q w)
| hp_disappeared n v : current w n = Some v -> om_Finalizers (pod_Meta v) = [] -> happens w (drop n w)
| hp_registered n v s id :
    current w n = Some v -> podScope v = Some s -> ids w !! (s, id) = None ->
    - 2 ^ 63 <= id < 2 ^ 63 -> happens w (register n (s, id) w)
| hp_assigned x n b b' : registered w !! x = Some (n, b) -> happens w (assign x n b' w)
| hp_unregistered x : happens w (unregister x w).

(** ** What holds at any time *)

(** What lets a pod go: it was seen stopped, or it was under deletion before
    the ID of its runner was recorded, or a runner of its name is not registered
    any more, or GitHub did not let it be removed. *)
Definition harmless (w : platform) (n : string) : Prop :=
  (exists v, v ∈ history w n /\
     (runnerPodOrContainerIsStopped v = true \/ is_Some (runnerContainerExitCode v))) \/
  (exists v, v ∈ history w n /\ leaving v = true /\ podRunnerIDMark v = None) \/
  (exists x, ids w !! x = Some n /\ (registered w !! x = None \/ x ∈ refused w)).

(** The only pod of its name, created without the marks of the protocol. *)
Definition bornClean (w : platform) (n : string) : Prop :=
  n ∉ reused w /\ exists v, last (history w n) = Some v /\ podRunnerIDMark v = None /\ completeMark v = None.

Record platformInv (w : platform) : Prop := {
  inv_named : forall n v, v ∈ history w n -> podName v = n;
  inv_used : forall n x, ids w !! x = Some n -> history w n <> [];
  inv_range : forall n s id, ids w !! (s, id) = Some n -> - 2 ^ 63 <= id < 2 ^ 63;
  inv_registered : forall x n b, registered w !! x = Some (n, b) -> ids w !! x = Some n;
  inv_sameScope : forall n v v', bornClean w n -> v ∈ history w n -> v' ∈ history w n -> podScope v = podScope v';
  inv_scoped : forall n s id v, bornClean w n -> ids w !! (s, id) = Some n -> v ∈ history w n -> podScope v = Some s;
  inv_marked : forall n v h, bornClean w n -> v ∈ history w n -> is_Some (podRunnerIDMark v) ->
    head (history w n) = Some h -> is_Some (podRunnerIDMark h);
  inv_runnerID : forall n v m, bornClean w n -> v ∈ history w n -> podRunnerIDMark v = Some m ->
    exists s id, ids w !! (s, id) = Some n /\ m = FormatInt id;
  inv_complete : forall n v, bornClean w n -> v ∈ history w n -> is_Some (completeMark v) -> harmless w n;
  inv_protected : forall n v, bornClean w n -> v ∈ history w n -> protected v = true ->
    harmless w n \/ exists h, current w n = Some h /\ protected h = true
}.

(** ** What a reconciliation learns *)

Definition saw (l : log) (n : string) (v : Pod) : Prop :=
  (exists key, EvA (Get KPod key) (Val v) ∈ l /\ nn_Name key = n) \/
  (exists o base, EvA (Patch KPod o base) (Val v) ∈ l /\ podName o = n).

Record learned (l : log) (w : platform) : Prop := {
  kn_pod : forall n v, saw l n v -> v ∈ history w n;
  kn_patched : forall o base v, EvA (Patch KPod o base) (Val v) ∈ l ->
    podRunnerIDMark o <> podRunnerIDMark base -> podRunnerIDMark v = podRunnerIDMark o;
  kn_marked : forall l1 l2 o base v, l = l1 ++ EvA (Patch KPod o base) (Val v) :: l2 ->
    bornClean w (podName o) -> saw l1 (podName o) base -> is_Some (podRunnerIDMark base) -> is_Some (podRunnerIDMark v);
  kn_removed : forall s id, EvA (GHRemoveRunner s id) (Val 204) ∈ l ->
    is_Some (ids w !! (s, id)) /\ registered w !! (s, id) = None;
  kn_refused : forall s id e, EvA (GHRemoveRunner s id) (Err e) ∈ l -> err_status e = Some 403 ->
    (s, id) ∈ refused w;
  kn_listed : forall s page rs next, EvA (GHListRunners s page) (Val (rs, next)) ∈ l -> listsPage w s rs
}.

Definition platformWorld : world platform :=
  {| respond := answers; others := happens; Inv := platformInv; knows := learned |}.

(** ** The moves of the platform *)

Inductive move (w : platform) : platform -> Prop :=
| mv_stay : move w w
| mv_store n v q : current w n = Some v -> move w (store n q w)
| mv_create n q : podName q = n -> move w (create n q w)
| mv_drop n : move w (drop n w)
| mv_register n x : ids w !! x = None -> move w (register n x w)
| mv_assign x n b b' : registered w !! x = Some (n, b) -> move w (assign x n b' w)
| mv_unregister x : move w (unregister x w)
| mv_refuse x : move w (refuse x w).
#[local] Hint Constructors move : core.

Lemma happens_move w w' : happens w w' -> move w w'.
Proof. intros []; eauto. Qed.

Lemma written_move {A} (a : result A) done w w' :
  (forall q, done q w' -> move w w') -> written a done w w' -> move w w'.
Proof. intros H. destruct a as [q|e]; simpl; [by apply H|]. intros [->|[q Hq]]; [constructor|by eapply H]. Qed.

Lemma answers_move w q a w' : answers w q a w' -> move w w'.
Proof.
  assert (forall s id, (exists n, registered w !! (s, id) = Some (n, false) /\ w' = unregister (s, id) w) -> move w w')
    as Hrm by (intros s id (n & _ & ->); constructor).
  destruct q as [| | [] | [] | [] o | [] o | [] o base | [] o base | [] o g | | | | | | | | | |]; simpl;
    try (intros [-> _]; constructor); try (intros ->; constructor).
  - apply written_move. intros q (_ & _ & ->). by constructor.
  - apply written_move. intros q ([v Hv] & _ & ->). by econstructor.
  - apply written_move. intros q (v & Hv & _ & ->). by econstructor.
  - apply written_move. intros q (v & Hv & _ & ->). by econstructor.
  - intros [->|(v & Hv & [(q & _ & _ & ->)|[_ ->]])]; by econstructor.
  - destruct a as [z|e].
    + intros H. assert (w' = w \/ exists n, registered w !! (s, id) = Some (n, false) /\ w' = unregister (s, id) w)
        as [->|?]; [|constructor|by eapply Hrm].
      repeat case_match; by auto.
    + case_decide; [intros ->; constructor|]. intros [->|?]; [constructor|by eapply Hrm].
Qed.

(** What every move preserves. *)
Record evolves (w w' : platform) : Prop := {
  ev_history : forall n, exists k, history w' n = k ++ history w n;
  ev_ids : forall n x, ids w !! x = Some n -> ids w' !! x = Some n;
  ev_gone : forall x, is_Some (ids w !! x) -> registered w !! x = None -> registered w' !! x = None;
  ev_refused : refused w ⊆ refused w';
  ev_reused : reused w ⊆ reused w'
}.

Lemma history_store n q w n' : history (store n q w) n' = if decide (n = n') then q :: history w n else history w n'.
Proof. unfold history. simpl. case_decide; simplify_eq; by rewrite ?lookup_insert_eq, ?lookup_insert_ne. Qed.
Lemma history_create n q w n' : history (create n q w) n' = if decide (n = n') then q :: history w n else history w n'.
Proof. unfold history. simpl. case_decide; simplify_eq; by rewrite ?lookup_insert_eq, ?lookup_insert_ne. Qed.

Lemma current_head w n v : current w n = Some v -> head (history w n) = Some v.
Proof. unfold current. by case_decide. Qed.
Lemma head_in {A} (l : list A) x : head l = Some x -> x ∈ l.
Proof. destruct l; [done|]. intros [= ->]. constructor. Qed.
Lemma current_in w n v : current w n = Some v -> v ∈ history w n.
Proof. intros H. by apply head_in, current_head. Qed.

Lemma move_evolves w w' : move w w' -> evolves w w'.
Proof.
  intros []; split; simpl; try done; try (by intros ?; exists []); try (by case_decide; set_solver); try set_solver.
  - intros n'. rewrite history_store. case_decide; [|by exists []]. subst. by exists [q].
  - intros n'. rewrite history_create. case_decide; [|by exists []]. subst. by exists [q].
  - intros n' y Hy. rewrite lookup_insert_ne; [done|]. congruence.
  - intros y [m Hy] Hn. rewrite lookup_insert_ne; [done|]. congruence.
  - intros y _ Hn. rewrite lookup_insert_ne; [done|]. congruence.
  - intros y _ Hn. by rewrite lookup_delete_None; right.
Qed.

Section Evolves.
Context (w w' : platform) (Hev : evolves w w').

Lemma evolves_in n v : v ∈ history w n -> v ∈ history w' n.
Proof. intros H. destruct (ev_history _ _ Hev n) as [k ->]. set_solver. Qed.

Lemma evolves_born n : history w n <> [] -> bornClean w' n -> bornClean w n.
Proof.
  intros Hne (Hre & v & Hv & ?). split; [intros ?; by apply Hre, (ev_reused _ _ Hev)|].
  exists v. split; [|done]. rewrite <- Hv.
  destruct (ev_history _ _ Hev n) as [k ->]. rewrite last_app. by destruct (history w n) as [|a l] using rev_ind;
    [|rewrite last_snoc].
Qed.

Lemma evolves_harmless n : harmless w n -> harmless w' n.
Proof.
  intros [(v & Hv & ?)|[(v & Hv & ?)|(x & Hx & [Hr|Hr])]].
  - left. exists v. split; [by apply evolves_in|done].
  - right; left. exists v. split; [by apply evolves_in|done].
  - right; right. exists x. split; [by apply (ev_ids _ _ Hev)|]. left. by apply (ev_gone _ _ Hev).
  - right; right. exists x. split; [by apply (ev_ids _ _ Hev)|]. right. by apply (ev_refused _ _ Hev).
Qed.

Lemma evolves_lists s rs : listsPage w s rs -> listsPage w' s rs.
Proof. intros H r id Hr Hid. by apply (ev_ids _ _ Hev), H. Qed.

Lemma evolves_learned l : learned l w -> learned l w'.
Proof.
  intros Hk. split.
  - intros n v Hv. by apply evolves_in, (kn_pod _ _ Hk).
  - apply (kn_patched _ _ Hk).
  - intros l1 l2 o base v -> Hb Hs Hm. eapply (kn_marked _ _ Hk); [done| |done|done].
    apply evolves_born; [|done]. assert (base ∈ history w (podName o)) as Hin.
    { apply (kn_pod _ _ Hk). destruct Hs as [(key & ? & ?)|(o' & b & ? & ?)]; [left; exists key|right; exists o', b]; set_solver. }
    intros He. rewrite He in Hin. by apply not_elem_of_nil in Hin.
  - intros s id Hin. destruct (kn_removed _ _ Hk _ _ Hin) as [[n Hu] Hn].
    split; [exists n; by apply (ev_ids _ _ Hev)|apply (ev_gone _ _ Hev); [by exists n|done]].
  - intros s id e Hin He. by eapply (ev_refused _ _ Hev), (kn_refused _ _ Hk).
  - intros s page rs next Hin. by eapply evolves_lists, (kn_listed _ _ Hk).
Qed.

End Evolves.

(** ** The invariant *)

(** A new version of a pod that the invariant admits. *)
Record admissible (w : platform) (n : string) (v q : Pod) : Prop := {
  ad_name : podName q = n;
  ad_scope : podScope q = podScope v;
  ad_runnerID : bornClean w n -> podRunnerIDMark q = podRunnerIDMark v \/
    exists s id, ids w !! (s, id) = Some n /\ podRunnerIDMark q = Some (FormatInt id);
  ad_complete : bornClean w n -> completeMark q = completeMark v \/ completeMark q = None \/ harmless w n;
  ad_protected : bornClean w n -> protected v = true -> protected q = true \/ harmless w n
}.

Lemma leavesMarks_admissible w n v q :
  platformInv w -> current w n = Some v -> leavesMarks v q -> admissible w n v q.
Proof.
  intros HI Hv (Hn & Hs & Hr & Hc & Hp). split; [|done|by left|by left|by rewrite Hp; left].
  rewrite Hn. by eapply (inv_named w HI), current_in.
Qed.

(** The pods of other names are as before. *)
Lemma other_protected w w' n :
  (forall m, m <> n -> history w' m = history w m) -> (forall m, m <> n -> m ∈ live w -> m ∈ live w') ->
  evolves w w' -> platformInv w -> forall m v, m <> n -> bornClean w m -> v ∈ history w' m -> protected v = true ->
  harmless w' m \/ exists h, current w' m = Some h /\ protected h = true.
Proof.
  intros Hh Hl Hev HI m v Hne Hb Hv Hp. rewrite Hh in Hv by done.
  destruct (inv_protected w HI m v Hb Hv Hp) as [?|(h & Hc & Hph)]; [left; by eapply evolves_harmless|].
  right. exists h. split; [|done]. unfold current in *. rewrite Hh by done.
  destruct (decide (m ∈ live w)); [|done]. rewrite decide_True; [done|]. by apply Hl.
Qed.

Section Store.
Context (w : platform) (n : string) (v q : Pod) (HI : platformInv w) (Hv : current w n = Some v) (Ha : admissible w n v q).

Lemma store_evolves : evolves w (store n q w).
Proof. apply move_evolves. by econstructor. Qed.

Lemma store_cases n' x : x ∈ history (store n q w) n' -> n' = n /\ x = q \/ x ∈ history w n'.
Proof. rewrite history_store. case_decide; [subst|by right]. rewrite elem_of_cons. naive_solver. Qed.

Lemma store_born n' x : x ∈ history w n' -> bornClean (store n q w) n' -> bornClean w n'.
Proof. intros Hx. apply (evolves_born _ _ store_evolves). intros He. rewrite He in Hx. by apply not_elem_of_nil in Hx. Qed.

Lemma store_scope n' x : x ∈ history (store n q w) n' -> exists y, y ∈ history w n' /\ podScope x = podScope y.
Proof.
  intros Hx. destruct (store_cases _ _ Hx) as [[-> ->]|?]; [|by exists x].
  exists v. split; [by apply current_in|apply Ha].
Qed.

Lemma store_marked x :
  bornClean w n -> x ∈ history (store n q w) n -> is_Some (podRunnerIDMark x) -> is_Some (podRunnerIDMark q).
Proof.
  intros Hb Hx Hm. destruct (store_cases _ _ Hx) as [[_ ->]|Hx']; [done|].
  destruct (ad_runnerID _ _ _ _ Ha Hb) as [->|(s & id & _ & ->)]; [|done].
  by eapply (inv_marked w HI); eauto using current_head.
Qed.

Lemma store_protected x :
  bornClean w n -> x ∈ history (store n q w) n -> protected x = true ->
  harmless (store n q w) n \/ exists h, current (store n q w) n = Some h /\ protected h = true.
Proof.
  intros Hb Hx Hp. assert (current (store n q w) n = Some q) as Hq.
  { unfold current in *. rewrite history_store, !decide_True; [done..|]. simpl. by destruct (decide (n ∈ live w)). }
  assert (protected v = true -> harmless (store n q w) n \/ protected q = true) as Hpq.
  { intros Hpv. destruct (ad_protected _ _ _ _ Ha Hb Hpv) as [?|?]; [by right|left; by apply (evolves_harmless _ _ store_evolves)]. }
  destruct (store_cases _ _ Hx) as [[_ ->]|Hx']; [by eauto|].
  destruct (inv_protected w HI n x) as [?|(h & Hh & Hph)]; [done..|left; by apply (evolves_harmless _ _ store_evolves)|].
  assert (h = v) as -> by congruence. destruct (Hpq Hph); eauto.
Qed.

Lemma store_inv : platformInv (store n q w).
Proof.
  pose proof (evolves_harmless _ _ store_evolves) as Hharm. pose proof (current_in _ _ _ Hv) as Hin.
  pose proof store_cases as Hcases. pose proof store_born as Hborn.
  split; try (by destruct HI).
  - intros n' x Hx. destruct (Hcases _ _ Hx) as [[-> ->]|?]; [apply Ha|by apply (inv_named w HI)].
  - intros n' x Hx He. destruct (ev_history _ _ store_evolves n') as [k Hk]. rewrite Hk in He.
    apply app_nil in He as [_ He]. by eapply (inv_used w HI).
  - intros n' x x' Hb (y & Hy & ->)%store_scope (y' & Hy' & ->)%store_scope. by apply (inv_sameScope w HI n'); eauto.
  - intros n' s id x Hb Hid (y & Hy & ->)%store_scope. by eapply (inv_scoped w HI); eauto.
  - intros n' x h Hb Hx Hm. rewrite history_store. case_decide as Hn; [intros [= <-]; subst n'|].
    + by eapply store_marked; eauto.
    + destruct (Hcases _ _ Hx) as [[-> _]|Hx']; [done|]. by eapply (inv_marked w HI); eauto.
  - intros n' x m Hb Hx Hm'. destruct (Hcases _ _ Hx) as [[-> ->]|Hx']; [|by eapply (inv_runnerID w HI); eauto].
    destruct (ad_runnerID _ _ _ _ Ha) as [He|(s & id & Hid & He)]; [by eauto|..].
    + rewrite He in Hm'. by eapply (inv_runnerID w HI); eauto.
    + exists s, id. split; [done|congruence].
  - intros n' x Hb Hx [m Hm']. apply Hharm.
    destruct (Hcases _ _ Hx) as [[-> ->]|Hx']; [|by eapply (inv_complete w HI); eauto].
    destruct (ad_complete _ _ _ _ Ha) as [He|[He|?]]; [by eauto|..|done]; [|congruence].
    eapply (inv_complete w HI); [by eauto|exact Hin|]. by rewrite <- He, Hm'.
  - intros n' x Hb Hx Hp. destruct (decide (n' = n)) as [->|Hn]; [by eapply store_protected; eauto|].
    apply (other_protected w (store n q w) n) with (v := x); try done.
    + intros m Hne. by rewrite history_store, decide_False.
    + apply store_evolves.
    + destruct (Hcases _ _ Hx) as [[-> _]|Hx']; [done|]. by eauto.
Qed.

End Store.

(** A new pod under a name that was used before is nobody's concern. *)
Lemma create_inv w n q :
  platformInv w -> n ∉ live w -> podName q = n -> platformInv (create n q w).
Proof.
  intros HI Hn Hname. assert (move w (create n q w)) as Hm by by constructor.
  pose proof (move_evolves _ _ Hm) as Hev. pose proof (evolves_harmless _ _ Hev) as Hharm.
  assert (forall n', bornClean (create n q w) n' ->
    n' = n /\ history w n = [] /\ podRunnerIDMark q = None /\ completeMark q = None \/ n' <> n /\ bornClean w n') as Hborn.
  { intros n' (Hre & x & Hx & Hmarks). destruct (decide (n' = n)) as [->|Hne].
    - left. simpl in Hre. destruct (decide (history w n = [])) as [He|]; [|set_solver].
      rewrite history_create, decide_True, He in Hx by done. injection Hx as <-. done.
    - right. split; [done|]. split; [intros ?; by apply Hre, (ev_reused _ _ Hev)|].
      rewrite history_create, decide_False in Hx by done. by exists x. }
  assert (forall n' x, x ∈ history (create n q w) n' -> n' = n /\ (x = q \/ x ∈ history w n) \/ n' <> n /\ x ∈ history w n') as Hcases.
  { intros n' x. rewrite history_create. case_decide; [subst|by right]. rewrite elem_of_cons. naive_solver. }
  assert (forall x, history w n = [] -> x ∈ history (create n q w) n -> x = q) as Hfirst.
  { intros x He. rewrite history_create, decide_True, He, list_elem_of_singleton by done. done. }
  assert (forall n', n' <> n -> history (create n q w) n' = history w n') as Hoth.
  { intros n' Hne. by rewrite history_create, decide_False. }
  split; try (by destruct HI).
  - intros n' x Hx. destruct (Hcases _ _ Hx) as [[-> [->|?]]|[_ ?]]; [done|by apply (inv_named w HI)..].
  - intros n' x Hx. rewrite history_create. case_decide; [done|]. by apply (inv_used w HI _ x).
  - intros n' x x' [(-> & He & _)|[Hne Hb]]%Hborn Hx Hx'; [by rewrite (Hfirst x He Hx), (Hfirst x' He Hx')|].
    rewrite Hoth in Hx, Hx' by done. by apply (inv_sameScope w HI n').
  - intros n' s id x [(-> & He & _)|[Hne Hb]]%Hborn Hi Hx; [by destruct (inv_used w HI n _ Hi)|].
    rewrite Hoth in Hx by done. by eapply (inv_scoped w HI).
  - intros n' x h [(-> & He & Hq & _)|[Hne Hb]]%Hborn Hx Hmk.
    + rewrite (Hfirst x He Hx), Hq in Hmk. by destruct Hmk.
    + rewrite Hoth in * by done. by eapply (inv_marked w HI).
  - intros n' x m [(-> & He & Hq & _)|[Hne Hb]]%Hborn Hx Hm'; [by rewrite (Hfirst x He Hx), Hq in Hm'|].
    rewrite Hoth in Hx by done. by eapply (inv_runnerID w HI); eauto.
  - intros n' x [(-> & He & _ & Hq)|[Hne Hb]]%Hborn Hx [m Hm']; [by rewrite (Hfirst x He Hx), Hq in Hm'|].
    rewrite Hoth in Hx by done. apply Hharm. by eapply (inv_complete w HI); eauto.
  - intros n' x [(-> & He & _)|[Hne Hb]]%Hborn Hx Hp.
    + right. exists q. rewrite (Hfirst x He Hx) in Hp. split; [|done].
      unfold current. rewrite history_create, !decide_True; [done..|]. simpl. set_solver.
    + apply (other_protected w (create n q w) n) with (v := x); try done. simpl. set_solver.
Qed.

Lemma drop_inv w n v :
  platformInv w -> current w n = Some v -> om_Finalizers (pod_Meta v) = [] -> platformInv (drop n w).
Proof.
  intros HI Hv Hf. pose proof (evolves_harmless _ _ (move_evolves _ _ (mv_drop w n))) as Hharm.
  destruct HI as [? ? ? ? ? ? ? ? ? Hprot]. split; try done.
  intros n' x Hb Hx Hp. destruct (Hprot n' x) as [?|(h & Hh & Hph)]; [done..|by left; apply Hharm|].
  right. exists h. split; [|done]. assert (n' <> n) as Hne.
  { intros ->. unfold protected in Hph. apply bool_decide_eq_true in Hph. simplify_eq.
    rewrite Hf in Hph. by apply not_elem_of_nil in Hph. }
  unfold current in *. destruct (decide (n' ∈ live w)); [|done]. rewrite decide_True; [done|]. simpl. set_solver.
Qed.

(** A move of GitHub's, which leaves the pods alone. *)
Lemma github_inv w w' :
  platformInv w -> evolves w w' -> versions w' = versions w -> live w' = live w -> reused w' = reused w ->
  (forall n x, ids w' !! x = Some n -> ids w !! x = Some n \/
     (exists v s id, current w n = Some v /\ x = (s, id) /\ podScope v = Some s /\ - 2 ^ 63 <= id < 2 ^ 63)) ->
  (forall x n b, registered w' !! x = Some (n, b) -> ids w' !! x = Some n) ->
  platformInv w'.
Proof.
  intros HI Hev Hver Hlive Hre Hids Hreg. pose proof (evolves_harmless _ _ Hev) as Hharm.
  assert (forall n, history w' n = history w n) as Hh by (intros n; unfold history; by rewrite Hver).
  assert (forall n, current w' n = current w n) as Hc by (intros n; unfold current; by rewrite Hh, Hlive).
  assert (forall n, bornClean w' n <-> bornClean w n) as Hb by (intros n; unfold bornClean; by rewrite Hh, Hre).
  split; try done; try setoid_rewrite Hh; try setoid_rewrite Hc; try setoid_rewrite Hb; try apply HI.
  - intros n x Hx. destruct (Hids _ _ Hx) as [?|(v & _ & _ & Hv%current_in & _)]; [by eapply (inv_used w HI)|].
    intros He. rewrite He in Hv. by apply not_elem_of_nil in Hv.
  - intros n s id Hid. destruct (Hids _ _ Hid) as [?|(_ & _ & id' & _ & [= _ ->] & _ & ?)]; [|done].
    by eapply (inv_range w HI).
  - intros n s id v Hbn Hid Hv. destruct (Hids _ _ Hid) as [?|(h & s' & id' & Hcur & [= -> ->] & <- & _)];
      [by eapply (inv_scoped w HI)|]. apply (inv_sameScope w HI n); [done|done|by apply current_in].
  - intros n v m Hbn Hv Hm. destruct (inv_runnerID w HI n v m Hbn Hv Hm) as (s & id & Hid & ->).
    exists s, id. split; [|done]. by apply (ev_ids _ _ Hev).
  - intros n v Hbn Hv Hm. by eapply Hharm, (inv_complete w HI); eauto.
  - intros n v Hbn Hv Hm. destruct (inv_protected w HI n v Hbn Hv Hm) as [?|?]; eauto.
Qed.

Lemma unregister_inv w x : platformInv w -> platformInv (unregister x w).
Proof.
  intros HI. apply (github_inv w); try done.
  - by apply move_evolves; constructor.
  - by left.
  - simpl. intros y n b Hy. apply lookup_delete_Some in Hy as [_ Hy]. by eapply (inv_registered w HI).
Qed.

Lemma refuse_inv w x : platformInv w -> platformInv (refuse x w).
Proof.
  intros HI. apply (github_inv w); try done; [by apply move_evolves; constructor|by left|apply (inv_registered w HI)].
Qed.

Lemma happens_inv w w' : platformInv w -> happens w w' -> platformInv w'.
Proof.
  intros HI Hh. pose proof (move_evolves _ _ (happens_move _ _ Hh)) as Hev.
  destruct Hh as [n q Hn Hq|n v q Hv Hm|n v Hv Hf|n v s id Hv Hs Hi Hr|x n b b' Hx|x].
  - by apply create_inv.
  - eapply store_inv; [done..|]. by apply leavesMarks_admissible.
  - by eapply drop_inv.
  - apply (github_inv w); try done; simpl.
    + intros n' x Hx. destruct (decide (x = (s, id))) as [->|]; [|left; by rewrite lookup_insert_ne in Hx].
      rewrite lookup_insert_eq in Hx. simplify_eq. right. by exists v, s, id.
    + intros x n' b Hx. destruct (decide (x = (s, id))) as [->|].
      * rewrite lookup_insert_eq in Hx. simplify_eq. by rewrite lookup_insert_eq.
      * rewrite lookup_insert_ne in Hx by done. rewrite lookup_insert_ne by done. by eapply (inv_registered w HI).
  - apply (github_inv w); try done; [by left|]. simpl. intros y n' c Hy.
    destruct (decide (y = x)) as [->|]; [rewrite lookup_insert_eq in Hy; simplify_eq|rewrite lookup_insert_ne in Hy by done];
      by eapply (inv_registered w HI).
  - by apply unregister_inv.
Qed.

(** ** Learning *)

Lemma saw_app l l' n v : saw l n v -> saw (l ++ l') n v.
Proof. intros [(key & ? & ?)|(o & b & ? & ?)]; [left; exists key|right; exists o, b]; set_solver. Qed.

Lemma saw_snoc l e n v : saw (l ++ [e]) n v -> saw l n v \/ saw [e] n v.
Proof.
  intros [(key & [H|H]%elem_of_app & ?)|(o & b & [H|H]%elem_of_app & ?)];
    [left; left; by exists key|right; left; by exists key|left; right; by exists o, b|right; right; by exists o, b].
Qed.

Lemma learned_app l l' w : learned (l ++ l') w -> learned l w.
Proof.
  intros Hk. split.
  - intros n v Hv. by apply (kn_pod _ _ Hk), saw_app.
  - intros o base v Hin. apply (kn_patched _ _ Hk). set_solver.
  - intros l1 l2 o base v ->. apply (kn_marked _ _ Hk _ (l2 ++ l')). by rewrite <- app_assoc.
  - intros s id Hin. apply (kn_removed _ _ Hk). set_solver.
  - intros s id e Hin. apply (kn_refused _ _ Hk). set_solver.
  - intros s page rs next Hin. eapply (kn_listed _ _ Hk), elem_of_app. by left.
Qed.

(** What an exchange teaches about the platform after it. *)
Definition teaches (w : platform) (e : event ans) : Prop :=
  match ev_req e as q return ans q -> Prop with
  | Get k key =>
      match k return result (kobj k) -> Prop with
      | KPod => fun a => forall p, a = Val p -> p ∈ history w (nn_Name key)
      | _ => fun _ => True
      end
  | Patch k o base =>
      match k return kobj k -> kobj k -> result (kobj k) -> Prop with
      | KPod => fun o base a => forall p, a = Val p -> head (history w (podName o)) = Some p /\
          (podRunnerIDMark o <> podRunnerIDMark base -> podRunnerIDMark p = podRunnerIDMark o)
      | _ => fun _ _ _ => True
      end o base
  | GHListRunners s page => fun a => forall rs next, a = Val (rs, next) -> listsPage w s rs
  | GHRemoveRunner s id => fun a =>
      match a with
      | Val status => status = 204 -> is_Some (ids w !! (s, id)) /\ registered w !! (s, id) = None
      | Err e => err_status e = Some 403 -> (s, id) ∈ refused w
      end
  | _ => fun _ => True
  end (ev_ans e).

Lemma learned_snoc l e w : platformInv w -> learned l w -> teaches w e -> learned (l ++ [e]) w.
Proof.
  intros HI Hk Ht.
  assert (forall n v, saw [e] n v -> v ∈ history w n) as Hp.
  { intros n v [(key & Hin & <-)|(o & b & Hin & <-)]; apply list_elem_of_singleton in Hin; subst e; [by apply Ht|].
    by apply head_in, Ht. }
  assert (forall o base v, EvA (Patch KPod o base) (Val v) = e -> head (history w (podName o)) = Some v /\
    (podRunnerIDMark o <> podRunnerIDMark base -> podRunnerIDMark v = podRunnerIDMark o)) as Hpt by (intros o base v <-; by apply Ht).
  assert (forall e', e' ∈ l ++ [e] -> e' ∈ l \/ e' = e) as Hcases
    by (intros e'; rewrite elem_of_app, list_elem_of_singleton; done).
  split.
  - intros n v [Hv|Hv]%saw_snoc; [by apply (kn_pod _ _ Hk)|by apply Hp].
  - intros o base v [Hin|Hin]%Hcases; [by apply (kn_patched _ _ Hk)|by apply Hpt].
  - intros l1 l2 o base v Hl Hb Hs Hm. destruct l2 as [|e2 l2 _] using rev_ind.
    + apply app_inj_tail in Hl as [-> Hl]. destruct (Hpt _ _ _ (eq_sym Hl)) as [Hhead _].
      eapply (inv_marked w HI); [exact Hb| |exact Hm|exact Hhead]. by apply (kn_pod _ _ Hk).
    + rewrite app_comm_cons, app_assoc in Hl. apply app_inj_tail in Hl as [-> _]. by eapply (kn_marked _ _ Hk).
  - intros s id [Hin|Hin]%Hcases; [by apply (kn_removed _ _ Hk)|subst e; by apply Ht].
  - intros s id er [Hin|Hin]%Hcases; [by apply (kn_refused _ _ Hk)|subst e; apply Ht].
  - intros s page rs next [Hin|Hin]%Hcases; [by eapply (kn_listed _ _ Hk)|subst e; by eapply Ht].
Qed.

Lemma answers_teaches w q a w' : platformInv w -> answers w q a w' -> teaches w' (EvA q a).
Proof.
  intros HI.
  destruct q as [| | [] | [] | [] o | [] o | [] o base | [] o base | [] o g | | | | | | | | | |]; cbn [answers teaches ev_req ev_ans]; try done.
  - by intros [-> H].
  - intros H p Hp. simpl in p, a, o. unfold teaches in Hp. simpl in Hp. subst a. destruct H as (v & _ & Hpa & ->). split; [by rewrite history_store, decide_True by done|].
    destruct Hpa as (_ & _ & _ & _ & _ & Ha). unfold podRunnerIDMark. rewrite Ha. intros Hne. by rewrite decide_False.
  - by intros [-> H].
  - destruct a as [z|e].
    + intros H ->. destruct H as (n & Hn & ->). split; [exists n; by eapply (inv_registered w HI)|]. apply lookup_delete_eq.
    + intros H He. rewrite decide_True in H by done. subst w'. simpl. set_solver.
Qed.

Global Instance platform_shared : SharedWorld platformWorld.
Proof.
  split; simpl.
  - apply happens_inv.
  - intros w. split; try by (intros; set_solver).
    + by intros n v [(key & H & _)|(o & b & H & _)]; apply not_elem_of_nil in H.
    + by intros [] l2 o base v H.
  - intros l w w' HI Hk Hh. apply (evolves_learned w w'); [by apply move_evolves, happens_move|done].
  - intros l w q a w' HI _ Hk Hr. apply (evolves_learned w w'); [by eapply move_evolves, answers_move|done].
  - intros l w q a w' HI HI' Hk Hr. apply learned_snoc; [done| |by apply (answers_teaches w)].
    apply (evolves_learned w w'); [by eapply move_evolves, answers_move|done].
Qed.

(** ** Questions that preserve the invariant *)

Lemma patched_scope o base v q : patched o base v q -> podScope q = podScope v.
Proof. intros (_ & Hs & _). unfold podScope, runnerEnvVars. by rewrite Hs. Qed.

(** A patch of a pod may change its marks only as the invariant admits. *)
Lemma keeps_patch l o base :
  (forall w, platformInv w -> learned l w -> bornClean w (podName o) ->
     (podRunnerIDMark o = podRunnerIDMark base \/
      exists s id, ids w !! (s, id) = Some (podName o) /\ podRunnerIDMark o = Some (FormatInt id)) /\
     (completeMark o = completeMark base \/ completeMark o = None \/ harmless w (podName o)) /\
     (om_Finalizers (pod_Meta o) = om_Finalizers (pod_Meta base) \/ protected o = true \/ harmless w (podName o))) ->
  keeps platformWorld l (Patch KPod o base).
Proof.
  intros Hok w a w' HI Hk Hr. simpl in HI, Hk, Hr.
  assert (forall q v, current w (podName o) = Some v -> patched o base v q -> platformInv (store (podName o) q w)) as Hst.
  { intros q v Hv Hp. pose proof (patched_scope _ _ _ _ Hp) as Hsc.
    destruct Hp as (Hn & _ & _ & _ & Hf & Ha). eapply store_inv; [done|exact Hv|]. split.
    - rewrite Hn. by eapply (inv_named w HI), current_in.
    - done.
    - intros Hb. destruct (Hok w HI Hk Hb) as (Hr' & _). unfold podRunnerIDMark in *. rewrite Ha. clear Hf. case_decide; [by left|].
      destruct Hr' as [?|?]; [done|by right].
    - intros Hb. destruct (Hok w HI Hk Hb) as (_ & Hc & _). unfold completeMark in *. rewrite Ha. clear Hf. case_decide; [by left|].
      destruct Hc as [?|[?|?]]; [done|by right; left|by right; right].
    - intros Hb Hpv. destruct (Hok w HI Hk Hb) as (_ & _ & Hfi). unfold protected in *. rewrite Hf. case_decide; [by left|].
      destruct Hfi as [?|?]; [done|naive_solver]. }
  destruct a as [q|e]; simpl in Hr; [|destruct Hr as [->|[q Hr]]; [done|]]; destruct Hr as (v & Hv & Hp & ->); exact (Hst q v Hv Hp).
Qed.

(** A question that cannot break the invariant, whatever is known: everything
    but updates of pods and patches that change a mark. *)
Definition gentle (q : req) : Prop :=
  match q with
  | Update KPod _ => False
  | Patch k o base =>
      match k return kobj k -> kobj k -> Prop with
      | KPod => fun o base =>
          podRunnerIDMark o = podRunnerIDMark base /\ completeMark o = completeMark base /\
          om_Finalizers (pod_Meta o) = om_Finalizers (pod_Meta base)
      | _ => fun _ _ => True
      end o base
  | _ => True
  end.

Lemma written_inv {A} (a : result A) done w w' :
  platformInv w -> (forall q, done q w' -> platformInv w') -> written a done w w' -> platformInv w'.
Proof. intros HI H. destruct a as [q|e]; simpl; [by apply H|]. intros [->|[q Hq]]; [done|by eapply H]. Qed.

Lemma gentle_keeps l q : gentle q -> keeps platformWorld l q.
Proof.
  intros Hg. assert (forall w w' s id, platformInv w ->
    (exists n, registered w !! (s, id) = Some (n, false) /\ w' = unregister (s, id) w) -> platformInv w') as Hrm
    by (intros w w' s id HI (n & _ & ->); by apply unregister_inv).
  destruct q as [| | [] | [] | [] o | [] o | [] o base | [] o base | [] o g | | | | | | | | | |]; simpl in Hg; try done;
    try (intros w a w' HI _ Hr; simpl in *; (by destruct Hr as [-> _]) || (by subst w')).
  - intros w a w' HI _. apply written_inv; [done|]. intros q (? & _ & ->). by apply create_inv.
  - destruct Hg as (Hr & Hc & Hf). apply keeps_patch. intros w _ _ _. by repeat split; left.
  - intros w a w' HI _. apply written_inv; [done|]. intros q (v & Hv & Hm & ->).
    eapply store_inv; [done|exact Hv|]. by apply leavesMarks_admissible.
  - intros w a w' HI _ [->|(v & Hv & [(q & Hm & _ & ->)|[Hf ->]])]; [done| |by eapply drop_inv].
    eapply store_inv; [done|exact Hv|]. by apply leavesMarks_admissible.
  - intros w a w' HI _ Hr. simpl in *. destruct a as [z|e].
    + assert (w' = w \/ exists n, registered w !! (s, id) = Some (n, false) /\ w' = unregister (s, id) w)
        as [->|?]; [|done|by eapply Hrm]. repeat case_match; by auto.
    + case_decide; [subst w'; by apply refuse_inv|]. destruct Hr as [->|?]; [done|by eapply Hrm].
Qed.

Lemma gentle_obeys {A : Type} l (p : M A) :
  only (fun e => gentle (ev_req e)) p -> obeys (keeps platformWorld) l p.
Proof. apply obeys_only. intros l' q Hq. by apply gentle_keeps. Qed.

(** ** The runner pod controller *)

Lemma listing_in s page l rs r :
  listing s page l rs -> r ∈ rs ->
  exists page' rs0 next, EvA (GHListRunners s page') (Val (rs0, next)) ∈ l /\ r ∈ rs0.
Proof.
  induction 1 as [page rs|page rs next l rs' Hn Hl IH]; intros Hr.
  - exists page, rs, 0. split; [constructor|done].
  - apply elem_of_app in Hr as [Hr|Hr]; [exists page, rs, next; split; [constructor|done]|].
    destruct (IH Hr) as (p' & rs0 & n' & ? & ?). exists p', rs0, n'. split; [by constructor|done].
Qed.

Lemma runnerNamed_in name rs r : runnerNamed name rs = Some r -> r ∈ rs /\ gr_Name r = name.
Proof. intros [Hin Hn]%find_some. by apply list_elem_of_In in Hin; apply bool_decide_eq_true in Hn. Qed.

(** A pod that has the ID of its runner recorded keeps it. *)
Lemma patch_marked w l l' n base k t q :
  platformInv w -> bornClean w n -> learned (l ++ l') w -> saw l n base ->
  EvA (Patch KPod (annotatePod base k t) base) (Val q) ∈ l' ->
  is_Some (podRunnerIDMark base) -> is_Some (podRunnerIDMark q).
Proof.
  intros HI Hb Hk Hs Hin Hm. assert (podName base = n) as Hn by by apply (inv_named w HI), (kn_pod _ _ Hk), saw_app.
  apply list_elem_of_split in Hin as (la & lb & ->).
  apply (kn_marked _ _ Hk (l ++ la) lb (annotatePod base k t) base); [by rewrite <- app_assoc| | |done];
    change (podName (annotatePod base k t)) with (podName base); rewrite Hn; [done|]. by apply saw_app.
Qed.

(** The runner that GitHub was asked to remove is one of the pod's. *)
Lemma removedAs_id w l l2 n s p id :
  platformInv w -> bornClean w n -> learned (l ++ l2) w -> p ∈ history w n -> podScope p = Some s ->
  removedAs s p l2 n id -> ids w !! (s, id) = Some n.
Proof.
  intros HI Hb Hk Hp Hs. unfold removedAs. destruct (getAnnotation _ _) as [m|] eqn:Hm.
  - destruct (inv_runnerID w HI n p m Hb Hp Hm) as (s' & id' & Hid & ->). intros Hparse.
    rewrite ParseInt_FormatInt in Hparse by by eapply (inv_range w HI). simplify_eq.
    rewrite (inv_scoped w HI _ _ _ _ Hb Hid Hp) in Hs. by simplify_eq.
  - intros (l0 & l1 & rs & r & -> & Hl & [Hr Hn]%runnerNamed_in & Hrid).
    destruct (listing_in _ _ _ _ _ Hl Hr) as (page' & rs1 & next1 & Hin & Hr1). rewrite <- Hn.
    apply (kn_listed _ _ Hk s page' rs1 next1); [set_solver|done|done].
Qed.

(** What the graceful stop goes by makes the pod harmless. *)
Lemma safe_harmless w l l2 n p0 p1 :
  platformInv w -> bornClean w n -> learned (l ++ l2) w -> p0 ∈ history w n ->
  leaving p0 = true \/ is_Some (podRunnerIDMark p0) \/ runnerPodOrContainerIsStopped p0 = true ->
  p1 ∈ history w n -> (is_Some (podRunnerIDMark p0) -> is_Some (podRunnerIDMark p1)) ->
  deletionSafe (podScope p0) p1 n l2 -> harmless w n.
Proof.
  intros HI Hb Hk Hh0 Hset Hh1 Hkept Hsafe.
  assert (forall v, v ∈ history w n -> runnerPodOrContainerIsStopped v = true \/ is_Some (runnerContainerExitCode v) ->
    harmless w n) as Hstopped by (intros v Hv Hst; left; by exists v).
  assert (podScope p1 = podScope p0) as Hsc by by apply (inv_sameScope w HI n).
  assert (forall s id, podScope p0 = Some s -> removedAs s p1 l2 n id -> ids w !! (s, id) = Some n) as Hids.
  { intros s id Hs. apply (removedAs_id w l l2); try done. by rewrite Hsc. }
  destruct Hsafe as [Hc|s Hs Hno Hun|Hst|s id Hs Hrm Hev|s id e Hs Hrm Hev He|s id e Hs Hrm Hev He Hcode].
  - apply (inv_complete w HI n p1 Hb Hh1). unfold completeMark, annotationOrEmpty in *.
    by destruct (getAnnotation (pod_Meta p1) _).
  - assert (podRunnerIDMark p0 = None) as Hm0.
    { destruct (podRunnerIDMark p0) as [m|]; [|done]. destruct Hkept as [m' Hm']; [done|]. unfold podRunnerIDMark in Hm'. congruence. }
    destruct Hset as [Hset|[[m Hm]|Hset]]; [|congruence|by eauto]. right; left. by exists p0.
  - eauto.
  - right; right. exists (s, id). split; [by apply Hids|left].
    apply (kn_removed _ _ Hk). set_solver.
  - right; right. exists (s, id). split; [by apply Hids|right].
    eapply (kn_refused _ _ Hk); [|done]. set_solver.
  - eauto.
Qed.

Section Reconcilers.
Context {rfc : RFC3339} (fuel : nat).

Abbreviation behaves := (obeys (keeps platformWorld)).

Lemma read_gentle (e : event ans) : isRead (ev_req e) = true -> gentle (ev_req e).
Proof. destruct e as [[] a]; done. Qed.

Lemma annotate_gentle q k v r :
  k <> AnnotationKeyRunnerID -> k <> AnnotationKeyUnregistrationCompleteTimestamp ->
  gentle (ev_req (EvA (Patch KPod (annotatePod q k v) q) r)).
Proof. intros ??. simpl. unfold podRunnerIDMark, completeMark, getAnnotation. simpl. by rewrite !lookup_insert_ne. Qed.

Lemma annotatePodOnce_behaves l pod k v :
  k <> AnnotationKeyRunnerID -> k <> AnnotationKeyUnregistrationCompleteTimestamp ->
  behaves l (annotatePodOnce pod k v).
Proof. intros ??. apply gentle_obeys, annotatePodOnce_only. intros. by apply annotate_gentle. Qed.

Lemma reads_behave {A} l (p : M A) : onlyReads p -> behaves l p.
Proof. intros H. apply gentle_obeys, only_onlyReads; [apply read_gentle|done]. Qed.

Lemma ensureRunnerUnregistration_behaves l retryDelay enterprise org repo runner pod :
  behaves l (ensureRunnerUnregistration fuel retryDelay enterprise org repo runner pod).
Proof.
  apply gentle_obeys, ensureRunnerUnregistration_only; [apply read_gentle|done|].
  intros. by apply annotate_gentle.
Qed.

(** What the pod handed to a tick has to be, for whoever had the exchanges. *)
Definition stoppable (l : log) (n : string) (sc : option ghscope) (p : Pod) : Prop :=
  saw l n p /\ forall w, platformInv w -> bornClean w n -> learned l w -> podScope p = sc /\
    (leaving p = true \/ is_Some (podRunnerIDMark p) \/ runnerPodOrContainerIsStopped p = true).

(** A version of the pod, for whoever had the exchanges. *)
Definition isVersion (l : log) (n : string) (p : Pod) : Prop :=
  forall w, platformInv w -> learned l w -> p ∈ history w n.

Lemma saw_version l n p : saw l n p -> isVersion l n p.
Proof. intros H w _ Hk. by apply (kn_pod _ _ Hk). Qed.

Lemma version_app l l' n p : isVersion l n p -> isVersion (l ++ l') n p.
Proof. intros H w HI Hk. by eapply H, learned_app. Qed.

Lemma version_annotated l n p q k v base :
  isVersion l n p -> EvA (Patch KPod (annotatePod p k v) base) (Val q) ∈ l -> isVersion l n q.
Proof.
  intros Hp Hin w HI Hk. assert (podName p = n) as <- by by apply (inv_named w HI), Hp.
  apply (kn_pod _ _ Hk). right. by exists (annotatePod p k v), base.
Qed.

Lemma stoppable_app l l' n sc p : stoppable l n sc p -> stoppable (l ++ l') n sc p.
Proof. intros [? H]. split; [by apply saw_app|]. intros w HI Hb Hk. by eapply (H w), learned_app. Qed.

(** The recorded ID of [p] is not lost in [q], for whoever had the exchanges. *)
Definition keepsID (l : log) (n : string) (p q : Pod) : Prop :=
  forall w, platformInv w -> bornClean w n -> learned l w -> is_Some (podRunnerIDMark p) -> is_Some (podRunnerIDMark q).

Lemma keepsID_app l l' n p q : keepsID l n p q -> keepsID (l ++ l') n p q.
Proof. intros H w HI Hb Hk. by eapply (H w), learned_app. Qed.

(** [q] was seen as the pod [n], in any world that had these exchanges. *)
Definition seen (l : log) (n : string) (q : Pod) : Prop :=
  forall w, platformInv w -> learned l w -> saw l n q.

(** [q] is what [p] became when it was annotated, if it was. *)
Definition annotated (l : log) (k : string) (p q : Pod) : Prop :=
  q = p \/ exists t, EvA (Patch KPod (annotatePod p k t) p) (Val q) ∈ l.

Lemma annotated_seen l l' n k p q : seen l n p -> annotated l' k p q -> seen (l ++ l') n q.
Proof.
  intros Hs Ha w HI Hk. pose proof (Hs w HI (learned_app _ _ _ Hk)) as Hp. destruct Ha as [->|[t Ht]]; [by apply saw_app|].
  right. do 2 eexists. split; [apply elem_of_app; right; exact Ht|].
  change (podName (annotatePod p k t)) with (podName p). by apply (inv_named w HI), (kn_pod _ _ Hk), saw_app.
Qed.

Lemma annotated_keepsID l l' n k p q : seen l n p -> annotated l' k p q -> keepsID (l ++ l') n p q.
Proof.
  intros Hs [->|[t Ht]]; [by intros w|]. intros w HI Hb Hk.
  apply (patch_marked w l l' n p k t q HI Hb Hk); [|done]. apply (Hs w HI). by eapply learned_app.
Qed.

Lemma stoppable_harmless l l2 n sc p p1 w :
  stoppable l n sc p -> isVersion l n p1 -> keepsID l n p p1 -> deletionSafe sc p1 (podName p) l2 ->
  platformInv w -> bornClean w n -> learned (l ++ l2) w -> harmless w n.
Proof.
  intros [Hp Hset] Hp1 Hkept Hsafe HI Hb Hk. pose proof (learned_app _ _ _ Hk) as Hk'.
  assert (p ∈ history w n) as Hin by by apply (kn_pod _ _ Hk').
  assert (podName p = n) as Hn by by apply (inv_named w HI).
  rewrite Hn in Hsafe. destruct (Hset w HI Hb Hk') as [<- ?]. apply (safe_harmless w l l2 n p p1); try done; [by apply Hp1|by apply (Hkept w HI Hb)].
Qed.

Lemma annotateComplete_behaves l n p v :
  isVersion l n p -> (forall w, platformInv w -> bornClean w n -> learned l w -> harmless w n) ->
  behaves l (annotatePodOnce (Some p) AnnotationKeyUnregistrationCompleteTimestamp v).
Proof.
  intros Hp Hh. unfold annotatePodOnce. destruct (getAnnotation _ _); [done|].
  apply obeys_bind; [|by intros [q|e]]. apply obeys_ask, keeps_patch. intros w HI Hk Hb.
  assert (podName p = n) as Hn by by apply (inv_named w HI), Hp.
  change (podName (annotatePod p _ v)) with (podName p) in *. rewrite Hn in *.
  split_and!; [left|right; right; by apply Hh|by left].
  unfold podRunnerIDMark, getAnnotation. simpl. by rewrite lookup_insert_ne.
Qed.

Lemma seen_version l n p : seen l n p -> isVersion l n p.
Proof. intros H w HI Hk. apply (kn_pod _ _ Hk), (H w HI Hk). Qed.

Lemma seen_app l l' n p : seen l n p -> seen (l ++ l') n p.
Proof. intros H w HI Hk. apply saw_app, (H w HI). by eapply learned_app. Qed.

Lemma tick_behaves l n retryDelay enterprise org repo p :
  stoppable l n (runnerScope enterprise org repo) p ->
  behaves l (tickRunnerGracefulStop fuel retryDelay enterprise org repo (podName p) (Some p)).
Proof.
  intros Hst. assert (seen l n p) as Hs by (intros w _ _; apply Hst). unfold tickRunnerGracefulStop.
  apply obeys_bind; [by apply reads_behave, onlyReads_ask|]. intros t1. cbv beta iota.
  apply obeys_bind; [by apply annotatePodOnce_behaves|].
  eapply always_mono; [|apply annotatePodOnce_spec]. intros [[q|e]|m|] l1 [_ H1]; try done.
  destruct H1 as (p1 & -> & Hp1). set (l0 := (l ++ [EvA Now t1]) ++ l1).
  assert (annotated l1 AnnotationKeyUnregistrationStartTimestamp p p1) as Ha.
  { destruct Hp1 as [(-> & _)|(_ & ->)]; [by left|right; eexists; constructor]. }
  apply (seen_app _ [EvA Now t1]) in Hs.
  apply obeys_bind; [apply ensureRunnerUnregistration_behaves|].
  eapply always_mono; [|apply ensureRunnerUnregistration_spec].
  intros [[[res|] e]|m|] l2 H2; try done. destruct H2 as [-> Hsafe].
  apply obeys_bind; [by apply reads_behave, onlyReads_ask|]. intros t2. cbv beta iota.
  apply obeys_bind; [|by eapply always_mono; [|apply annotatePodOnce_spec]; intros [[?|?]|?|] ? [_ ?]].
  apply (annotateComplete_behaves _ n); [by apply version_app, version_app, seen_version; eapply annotated_seen|].
  intros w HI Hb Hk. apply (stoppable_harmless l0 l2 n (runnerScope enterprise org repo) p p1); try done.
  - by apply stoppable_app, stoppable_app.
  - by eapply seen_version, annotated_seen.
  - by eapply annotated_keepsID.
  - by eapply learned_app.
Qed.

(** After a tick that says so, the pod is harmless. *)
Lemma tick_harmless l n retryDelay enterprise org repo p :
  stoppable l n (runnerScope enterprise org repo) p ->
  always (tickRunnerGracefulStop fuel retryDelay enterprise org repo (podName p) (Some p)) (fun out l' =>
    match out with
    | Done (Some q, None, _) => isVersion (l ++ l') n q /\ keepsID (l ++ l') n p q /\
        forall w, platformInv w -> bornClean w n -> learned (l ++ l') w -> harmless w n
    | _ => True
    end).
Proof.
  intros Hst. assert (seen l n p) as Hs by (intros w _ _; apply Hst). eapply always_mono; [|apply tick_spec].
  intros [[[q [res|]] e]|m|] l' H; try done; [by destruct q|].
  destruct H as (_ & q' & p1 & l1 & l2 & l3 & -> & -> & Hp1 & Hsafe & Hq').
  assert (annotated l1 AnnotationKeyUnregistrationStartTimestamp p p1) as Ha1
    by (destruct Hp1 as [->|[t Ht]]; [by left|right; by eexists]).
  assert (annotated l3 AnnotationKeyUnregistrationCompleteTimestamp p1 q') as Ha3
    by (destruct Hq' as [->|[t Ht]]; [by left|right; by eexists]).
  pose proof (annotated_seen _ _ _ _ _ _ Hs Ha1) as Hs1. pose proof (seen_app _ l2 _ _ Hs1) as Hs2.
  pose proof (annotated_keepsID _ _ _ _ _ _ Hs Ha1) as Hk1. rewrite !app_assoc. split_and!.
  - by eapply seen_version, annotated_seen.
  - intros w HI Hb Hk Hm. eapply (annotated_keepsID _ _ _ _ _ _ Hs2 Ha3 w); [done..|].
    by apply (keepsID_app _ l2), (keepsID_app _ l3) in Hk1; eapply Hk1.
  - intros w HI Hb Hk%learned_app.
    by apply (stoppable_harmless (l ++ l1) l2 n (runnerScope enterprise org repo) p p1); [apply stoppable_app|apply seen_version|..].
Qed.

Lemma forceDeletion_behaves l p d : behaves l (forceDeletion p d).
Proof.
  apply gentle_obeys. unfold forceDeletion. apply only_bind; [by apply only_ask|]. intros t.
  destruct (After _ _); [|apply only_ret]. apply only_bind; [by apply only_ask|]. intros e. apply only_ret.
Qed.

Lemma reconcileDeletedPod_behaves delay l n p enterprise org repo d :
  saw l n p -> leaving p = true -> runnerScope enterprise org repo = podScope p ->
  behaves l (reconcileDeletedPod fuel delay p enterprise org repo d).
Proof.
  intros Hp Hl Hsc. unfold reconcileDeletedPod, removeFinalizer. cbv beta iota.
  case_bool_decide; [|apply forceDeletion_behaves].
  assert (stoppable l n (runnerScope enterprise org repo) p) as Hst by (split; [done|split; [done|by left]]).
  apply obeys_bind; [by apply (tick_behaves l n)|].
  eapply always_mono; [|by apply (tick_harmless l n)]. intros [[[[q|] [res|]] e]|m|] l' H'; try done.
  destruct H' as (Hv & Hid & Hh). apply obeys_bind; [|done]. apply obeys_ask, keeps_patch.
  intros w HI Hk Hb. assert (q ∈ history w n) as Hq by by apply Hv.
  change (podName (withPodFinalizers q _)) with (podName q) in *.
  assert (podName q = n) as Hn by by apply (inv_named w HI). rewrite Hn in *.
  change (podRunnerIDMark (withPodFinalizers q _)) with (podRunnerIDMark q).
  change (completeMark (withPodFinalizers q _)) with (completeMark q).
  assert (harmless w n) as Hhw by by apply Hh. split_and!; [|by right; right..].
  destruct (podRunnerIDMark q) as [m|] eqn:Hm.
  - destruct (inv_runnerID w HI n q m Hb Hq Hm) as (s & id & Hids & ->). right. by exists s, id.
  - left. destruct (podRunnerIDMark p) as [m|] eqn:Hpm; [|done].
    destruct (Hid w HI Hb Hk) as [m' Hm']; [by rewrite Hpm|congruence].
Qed.

(** Annotating a pod with the ID that a complete listing of its scope has
    under its name. *)
Lemma annotateRunnerID_behaves l l' n p s rs r id :
  isVersion l n p -> podScope p = Some s -> listing s 0 l' rs -> runnerNamed (podName p) rs = Some r ->
  gr_ID r = Some id -> behaves (l ++ l') (annotatePodOnce (Some p) AnnotationKeyRunnerID (FormatInt id)).
Proof.
  intros Hp Hs Hl [Hr Hname]%runnerNamed_in Hid. unfold annotatePodOnce. destruct (getAnnotation _ _); [done|].
  apply obeys_bind; [|by intros [q|e]]. apply obeys_ask, keeps_patch. intros w HI Hk Hb.
  change (podName (annotatePod p _ _)) with (podName p) in *.
  split_and!; [right|left|by left].
  - destruct (listing_in _ _ _ _ _ Hl Hr) as (page' & rs1 & next1 & Hin & Hr1).
    exists s, id. rewrite <- Hname. split.
    + apply (kn_listed _ _ Hk s page' rs1 next1); [apply elem_of_app; by right|done|done].
    + unfold podRunnerIDMark, getAnnotation. simpl. by rewrite lookup_insert_eq.
  - unfold completeMark, getAnnotation. simpl. by rewrite lookup_insert_ne.
Qed.

Lemma ensureRunnerPodRegistered_behaves l n enterprise org repo p :
  isVersion l n p -> runnerScope enterprise org repo = podScope p ->
  behaves l (ensureRunnerPodRegistered fuel enterprise org repo (podName p) p).
Proof.
  intros Hp Hsc. unfold ensureRunnerPodRegistered. cbv zeta. destruct (_ || _); [done|].
  apply obeys_bind; [by apply reads_behave, onlyReads_getRunner|].
  eapply always_mono; [|apply getRunner_spec]. rewrite Hsc.
  intros [[[r|]|e]|m|] l' [_ H]; try done. destruct H as (s & rs & Hs & Hl & Hf).
  destruct (gr_ID r) as [id|] eqn:Hid; [|done].
  apply obeys_bind; [by eapply annotateRunnerID_behaves|].
  eapply always_mono; [|apply annotatePodOnce_spec]. by intros [[?|?]|?|] ? [_ ?].
Qed.

(** The pod that the registration check lets pass can be stopped. *)
Lemma ensureRunnerPodRegistered_stoppable l n enterprise org repo p :
  saw l n p -> runnerScope enterprise org repo = podScope p ->
  always (ensureRunnerPodRegistered fuel enterprise org repo (podName p) p) (fun out l' =>
    match out with
    | Done (Some q, None, _) => exists n', stoppable (l ++ l') n' (runnerScope enterprise org repo) q
    | _ => True
    end).
Proof.
  intros Hp Hsc. eapply always_mono; [|apply ensureRunnerPodRegistered_spec].
  intros [[[[q|] [res|]] e]|m|] l' H; try done.
  destruct H as (_ & _ & [(Hpass & -> & ->)|(Hno & s & id & Hs & Hreg & Hin & _)]).
  - exists n. rewrite app_nil_r. split; [done|]. intros w HI Hb Hk. split; [done|]. destruct Hpass; auto.
  - exists (podName p). split; [right; do 2 eexists; split; [apply elem_of_app; right; exact Hin|done]|].
    intros w HI Hb Hk. assert (p ∈ history w n) as Hpn by by apply (kn_pod _ _ Hk), saw_app.
    assert (podName p = n) as Hn by by apply (inv_named w HI).
    split.
    + rewrite Hsc. apply (inv_sameScope w HI n); [congruence| |done]. apply (kn_pod _ _ Hk). right. do 2 eexists.
      split; [apply elem_of_app; right; exact Hin|done].
    + right; left. assert (podRunnerIDMark (annotatePod p AnnotationKeyRunnerID (FormatInt id)) = Some (FormatInt id))
        as Hm by (unfold podRunnerIDMark, getAnnotation; simpl; by rewrite lookup_insert_eq).
      rewrite (kn_patched _ _ Hk (annotatePod p AnnotationKeyRunnerID (FormatInt id)) p); [by rewrite Hm|apply elem_of_app; right; exact Hin|].
      rewrite Hm. unfold podRunnerIDMark. by rewrite Hno.
Qed.

Lemma reconcileLivePod_behaves delay l n p enterprise org repo :
  saw l n p -> runnerScope enterprise org repo = podScope p ->
  behaves l (reconcileLivePod fuel delay p enterprise org repo).
Proof.
  intros Hp Hsc. unfold reconcileLivePod, addFinalizer. case_bool_decide; cbv beta iota.
  - apply obeys_bind; [apply (ensureRunnerPodRegistered_behaves l n); [by apply saw_version|done]|].
    eapply always_mono; [|by apply (ensureRunnerPodRegistered_stoppable l n)].
    intros [[[[q|] [res|]] e]|m|] l' H'; try done. destruct H' as [n' Hst].
    destruct (getAnnotation _ _); [|done]. apply obeys_bind; [by apply (tick_behaves _ n')|].
    eapply always_mono; [|apply tick_spec]. by intros [[[? [?|]] ?]|?|] l1 _.
  - apply obeys_bind; [|done]. apply obeys_ask, keeps_patch. intros w _ _ _.
    split_and!; [by left..|]. right; left. unfold protected. apply bool_decide_eq_true. simpl. set_solver.
Qed.

Lemma ReconcilePod_behaves delay key : behaves [] (ReconcilePod fuel delay key).
Proof.
  unfold ReconcilePod. apply obeys_bind; [by apply reads_behave, onlyReads_ask|].
  intros [p|e]; cbn [always ask]; [|done]. destruct (om_Labels (pod_Meta p) !! LabelKeyRunnerSetName); [|done].
  destruct (runnerEnvVars p) as [|e0 es] eqn:Henv; [done|]. rewrite <- Henv.
  destruct (scopeOfEnv (runnerEnvVars p)) as [[enterprise org] repo] eqn:Hsc.
  assert (runnerScope enterprise org repo = podScope p) as Hs by (unfold podScope; by rewrite Hsc).
  set (l := [] ++ _). assert (saw l (nn_Name key) p) as Hp by (left; exists key; split; [constructor|done]).
  destruct (IsZero _) eqn:Hz; [by apply (reconcileLivePod_behaves _ _ (nn_Name key))|].
  apply (reconcileDeletedPod_behaves _ _ (nn_Name key)); [done| |done]. unfold leaving. by rewrite Hz.
Qed.

(** ** The other controllers

    None of them touches the marks or the finalizer. *)

Lemma sync_gentle {k : kind} {OW : Owner k} {LW : OwnerLaws k} eff n (create : kobj k) ephemeral owners :
  k <> KPod -> only (fun e => gentle (ev_req e)) (syncRunnerPodsOwners eff n create ephemeral owners).
Proof.
  intros Hk. apply sync_only.
  - apply read_gentle.
  - intros [q a] Hw. simpl in *. destruct q as [| | | |k' o|k' o|k' o b|k' o b|k' o g| | | | | | | | | |]; simpl in Hw; subst;
      simpl; try done; by destruct k.
  - intros. by apply annotate_gentle.
Qed.

Ltac gentle_steps := only_steps_by ltac:(solve [by apply sync_gentle]).

Lemma ReconcileRunner_gentle {P : Printing} d regTokens key :
  only (fun e => gentle (ev_req e)) (ReconcileRunner d regTokens key).
Proof.
  unfold ReconcileRunner, processRunnerCreation, updateRegistrationToken, IsRegisterable, GetRegistrationToken,
    cachedToken, createRegistrationToken, newPod, mountVolumes, addVolumes, sliceBounds, reportPod, processRunnerDeletion.
  gentle_steps.
Qed.

Lemma ReconcileReplicaSet_gentle {P : Printing} key : only (fun e => gentle (ev_req e)) (ReconcileReplicaSet key).
Proof. unfold ReconcileReplicaSet, syncReplicaSet, newRunner, patchReplicaSetStatus. gentle_steps. Qed.

Lemma Reconcile_gentle {P : Printing} common key : only (fun e => gentle (ev_req e)) (Reconcile common key).
Proof. unfold Reconcile, reconcileSets, newRunnerReplicaSet, drainOldSet, patchStatus. gentle_steps. Qed.

Lemma ReconcileRunnerSet_gentle {P : Printing} d key : only (fun e => gentle (ev_req e)) (ReconcileRunnerSet d key).
Proof. unfold ReconcileRunnerSet, syncRunnerSet, newStatefulSet, patchRunnerSetStatus. gentle_steps. Qed.

Lemma HandleInjection_gentle {codec : PodCodec} regTokens raw :
  only (fun e => gentle (ev_req e)) (HandleInjection regTokens raw).
Proof. unfold HandleInjection, GetRegistrationToken, cachedToken, createRegistrationToken. gentle_steps. Qed.

Lemma ReconcileHRA_gentle {R : RRule} dd key : only (fun e => gentle (ev_req e)) (ReconcileHRA fuel dd key).
Proof.
  assert (forall hra st update, onlyReads (st_getRunnerMap st) ->
    (forall n, only (fun e => gentle (ev_req e)) (update n)) ->
    only (fun e => gentle (ev_req e)) (reconcile fuel dd hra st update)) as Hrec.
  { intros hra st update Hst Hup. unfold reconcile, patchHRAStatus.
    only_steps_by ltac:(first [done | apply only_onlyReads; [apply read_gentle|by apply onlyReads_compute]]). }
  unfold ReconcileHRA. apply only_bind; [by apply only_ask|]. intros [hra|e]; [|auto with arc].
  cbv zeta. split_match; [auto with arc|].
  split_match; [|split_match; [|auto with arc]]; (apply only_bind; [by apply only_ask|]; intros [o|?]; [|auto with arc]);
    (split_match; [auto with arc|]); apply Hrec.
  - apply onlyReads_getRunnerMapOfRD.
  - intros n. unfold updateRD. only_steps.
  - apply onlyReads_getRunnerMapOfRunnerSet.
  - intros n. unfold updateRunnerSet. only_steps.
Qed.

Lemma Handle_gentle {H : GitHubHooks} ns github secretKey r :
  only (fun e => gentle (ev_req e)) (Handle fuel ns github secretKey r).
Proof.
  unfold Handle. split_match; [auto with arc|]. split_match; [|auto with arc]. split_match; [|auto with arc].
  apply only_bind.
  - apply only_onlyReads; [apply read_gentle|]. eapply always_mono; [|apply dispatch_sound]. by intros out l [Hl _].
  - intros [resp|[[t|]|e]]; cbn [respondTo]; [auto with arc| |auto with arc..]. unfold tryScale. gentle_steps.
Qed.

(** ** The system *)

(** The reconciliations and requests that may be under way: of every
    controller, for every object, with any configuration. *)
Inductive started {P : Printing} {R : RRule} {H : GitHubHooks} {codec : PodCodec} : forall A : Type, M A -> Prop :=
| st_pod delay key : started _ (ReconcilePod fuel delay key)
| st_runner d regTokens key : started _ (ReconcileRunner d regTokens key)
| st_replicaSet key : started _ (ReconcileReplicaSet key)
| st_deployment common key : started _ (Reconcile common key)
| st_runnerSet d key : started _ (ReconcileRunnerSet d key)
| st_autoscaler dd key : started _ (ReconcileHRA fuel dd key)
| st_webhook ns github secretKey r : started _ (Handle fuel ns github secretKey r)
| st_injector regTokens raw : started _ (HandleInjection regTokens raw).

Lemma started_behaves {P : Printing} {R : RRule} {H : GitHubHooks} {codec : PodCodec} A (p : M A) :
  started A p -> behaves [] p.
Proof.
  intros []; [apply ReconcilePod_behaves|apply gentle_obeys..].
  - apply ReconcileRunner_gentle.
  - apply ReconcileReplicaSet_gentle.
  - apply Reconcile_gentle.
  - apply ReconcileRunnerSet_gentle.
  - apply ReconcileHRA_gentle.
  - apply Handle_gentle.
  - apply HandleInjection_gentle.
Qed.

Definition emptyPlatform : platform :=
  {| versions := ∅; live := ∅; reused := ∅; registered := ∅; ids := ∅; refused := ∅ |}.

Lemma emptyPlatform_inv : platformInv emptyPlatform.
Proof.
  assert (forall n v, v ∉ history emptyPlatform n) as Hno by (intros n v; apply not_elem_of_nil).
  split; intros; exfalso;
    match goal with Hin : _ ∈ history _ _ |- _ => by apply Hno in Hin | _ => by simplify_map_eq/= end.
Qed.

(** C1: no registered runner loses its pod.  Start from an empty platform and
    let any number of reconciliations of all the controllers, webhook
    deliveries and token injections run concurrently, in any interleaving with
    each other and with whatever else happens to pods and runners, crashes,
    stale reads, cached listings and lost answers included.  Take a runner that
    GitHub has, busy or not, and the pod of its name.  Provided that the pod
    is the only one of its name and was created without the marks of the
    unregistration protocol; that the runner is the only one registered under
    the name, and GitHub did not refuse to remove it for lack of permission;
    that the pod was never stopped; and that the pod was not put under
    deletion before the ID of its runner was recorded on it: the pod is not
    marked as unregistered, the mark that lets its owner be deleted; and once it
    has carried the controller's finalizer, it still exists and carries it. *)
Theorem registered_runner_keeps_pod {P : Printing} {R : RRule} {H : GitHubHooks} {codec : PodCodec} c :
  rtc (step platformWorld (@started P R H codec)) ([], emptyPlatform) c ->
  forall n x busy,
    bornClean c.2 n ->
    registered c.2 !! x = Some (n, busy) -> (forall y, ids c.2 !! y = Some n -> y = x) -> x ∉ refused c.2 ->
    (forall v, v ∈ history c.2 n -> runnerPodOrContainerIsStopped v = false /\ runnerContainerExitCode v = None) ->
    (forall v, v ∈ history c.2 n -> leaving v = true -> is_Some (podRunnerIDMark v)) ->
    (forall v, v ∈ history c.2 n -> completeMark v = None) /\
    (forall v, v ∈ history c.2 n -> protected v = true ->
       exists h, current c.2 n = Some h /\ protected h = true).
Proof.
  intros Hr. assert (platformInv c.2) as HI
    by exact (pool_invariant platformWorld started started_behaves _ _ emptyPlatform_inv Hr).
  intros n x busy Hb Hx Honly Href Hrun Hrec.
  assert (~ harmless c.2 n) as Hnot.
  { intros [(v & Hv & Hst)|[(v & Hv & Hl & Hm)|(y & Hy & Hgone)]].
    - destruct (Hrun v Hv) as [? He]. destruct Hst as [|[z Hz]]; congruence.
    - destruct (Hrec v Hv Hl). congruence.
    - rewrite (Honly y Hy) in Hgone. destruct Hgone; congruence. }
  split.
  - intros v Hv. destruct (completeMark v) eqn:Hc; [|done]. destruct Hnot. apply (inv_complete _ HI n v); [done..|].
    by rewrite Hc.
  - intros v Hv Hp. by destruct (inv_protected _ HI n v).
Qed.

End Reconcilers.
