(* ===== verification/Drain.v ===== *)
(** * Scaling down to nothing

    A replica set that asks for no runners, its last runner, idle, and the
    runner's pod, served by an API server with finalizers and deletion
    timestamps, its garbage collector, and a GitHub that removes the runner when
    asked.  Whatever the order in which the controllers act, the runner is
    requested to unregister, unregistered, deleted, and its pod disappears. *)

From stdpp Require Import base list gmap strings.
From Stdlib Require Import ZArith Lia.
From S2P Require Import Prelude Api GoStrings GitHubClient Hash RunnerPod GracefulStop PodOwner PodBuilder.
From S2P Require Import RunnerPodController RunnerController RunnerDeployment ReplicaSet Cluster.

Open Scope string_scope.
Open Scope Z_scope.

(** ** The server *)

Record station := mkStation {
  sn_set : RunnerReplicaSet;
  sn_runner : option Runner;
  sn_pod : option Pod;
  sn_registered : option (ghscope * GHRunner);
  sn_ticks : nat
}.

Definition withDeletionTimestamp (m : ObjectMeta) (t : time) : ObjectMeta :=
  {| om_Name := om_Name m; om_GenerateName := om_GenerateName m; om_Namespace := om_Namespace m;
     om_Labels := om_Labels m; om_Annotations := om_Annotations m;
     om_CreationTimestamp := om_CreationTimestamp m; om_DeletionTimestamp := Some t;
     om_Finalizers := om_Finalizers m; om_OwnerReferences := om_OwnerReferences m |}.

Section Server.
Context (own : OwnerReference) (clock : nat -> time).

(** An object being deleted disappears with its last finalizer. *)
Definition settle {A : Type} (meta : A -> ObjectMeta) (o : A) : option A :=
  match om_DeletionTimestamp (meta o), om_Finalizers (meta o) with
  | Some _, [] => None
  | _, _ => Some o
  end.

(** A deletion marks the object when it has finalizers. *)
Definition deleted {A : Type} (meta : A -> ObjectMeta) (withMeta : A -> ObjectMeta -> A) (o : A) (now : time) : option A :=
  match om_DeletionTimestamp (meta o) with
  | Some _ => Some o
  | None => settle meta (withMeta o (withDeletionTimestamp (meta o) now))
  end.

Definition putRunner (o : option Runner) (w : station) : station :=
  {| sn_set := sn_set w; sn_runner := o; sn_pod := sn_pod w; sn_registered := sn_registered w; sn_ticks := sn_ticks w |}.
Definition putPod (o : option Pod) (w : station) : station :=
  {| sn_set := sn_set w; sn_runner := sn_runner w; sn_pod := o; sn_registered := sn_registered w; sn_ticks := sn_ticks w |}.
Definition putSet (o : RunnerReplicaSet) (w : station) : station :=
  {| sn_set := o; sn_runner := sn_runner w; sn_pod := sn_pod w; sn_registered := sn_registered w; sn_ticks := sn_ticks w |}.
Definition tick (w : station) : station :=
  {| sn_set := sn_set w; sn_runner := sn_runner w; sn_pod := sn_pod w; sn_registered := sn_registered w;
     sn_ticks := S (sn_ticks w) |}.

(** The stored object of this name. *)
Definition byName {A : Type} (meta : A -> ObjectMeta) (o : option A) (name : string) : option A :=
  match o with
  | Some o => if decide (om_Name (meta o) = name) then Some o else None
  | None => None
  end.

(** A write to the object that is stored. *)
Definition write {A : Type} (meta : A -> ObjectMeta) (stored : option A) (o : A) (done : option A -> station) (w : station)
  : result A * station :=
  match byName meta stored (om_Name (meta o)) with
  | Some _ => (Val o, done (settle meta o))
  | None => (Err notFound, w)
  end.

Definition handle (q : req) (w : station) : ans q * station :=
  match q return ans q * station with
  | Now => (clock (sn_ticks w), tick w)
  | Order _ => ([], w)
  | Get k key => match k return result (kobj k) * station with
                 | KRRS => (Val (sn_set w), w)
                 | KRunner => (found (byName r_Meta (sn_runner w) (nn_Name key)), w)
                 | KPod => (found (byName pod_Meta (sn_pod w) (nn_Name key)), w)
                 | _ => (Err notFound, w)
                 end
  | List k _ => match k return result (list (kobj k)) * station with
                | KRunner => (Val (option_list (sn_runner w)), w)
                | KPod => (Val (option_list (sn_pod w)), w)
                | _ => (Val [], w)
                end
  | Create k o => (Err (newError "the server does not create objects"), w)
  | StatusPatch k o _ =>
      match k return kobj k -> result (kobj k) * station with
      | KRRS => fun o =>
          (Val o, putSet {| rrs_Meta := rrs_Meta (sn_set w); rrs_Spec := rrs_Spec (sn_set w); rrs_Status := rrs_Status o |} w)
      | KRunner => fun o =>
          match byName r_Meta (sn_runner w) (om_Name (r_Meta o)) with
          | Some stored => (Val o, putRunner (Some (withRunnerStatus stored (r_Status o))) w)
          | None => (Err notFound, w)
          end
      | _ => fun o => (Err notFound, w)
      end o
  | Update k o | Patch k o _ =>
      match k return kobj k -> result (kobj k) * station with
      | KRRS => fun o => (Val o, putSet o w)
      | KRunner => fun o => write r_Meta (sn_runner w) o (fun x => putRunner x w) w
      | KPod => fun o => write pod_Meta (sn_pod w) o (fun x => putPod x w) w
      | _ => fun o => (Err notFound, w)
      end o
  | Delete k o _ =>
      match k return kobj k -> option err * station with
      | KRunner => fun o =>
          match byName r_Meta (sn_runner w) (om_Name (r_Meta o)) with
          | Some stored => (None, putRunner (deleted r_Meta withRunnerMeta stored (clock (sn_ticks w))) w)
          | None => (Some notFound, w)
          end
      | KPod => fun o =>
          match byName pod_Meta (sn_pod w) (om_Name (pod_Meta o)) with
          | Some stored => (None, putPod (deleted pod_Meta withPodMeta stored (clock (sn_ticks w))) w)
          | None => (Some notFound, w)
          end
      | _ => fun _ => (Some notFound, w)
      end o
  | SelectorAsSelector _ => (None, w)
  | SetControllerReference _ _ _ => (Val [own], w)
  | GHRemoveRunner s id =>
      match sn_registered w with
      | Some (s', g) =>
          if decide (s' = s /\ gr_ID g = Some id) then
            (Val 204, {| sn_set := sn_set w; sn_runner := sn_runner w; sn_pod := sn_pod w; sn_registered := None;
                         sn_ticks := sn_ticks w |})
          else (Err notFound, w)
      | None => (Err notFound, w)
      end
  | GHListRunners s _ =>
      (Val (match sn_registered w with Some (s', g) => if decide (s' = s) then [g] else [] | None => [] end, 0), w)
  | GHCreateRegistrationToken _ => (Err (newError "no token is issued"), w)
  | GHListOrganizationRunnerGroups _ _ => (Val ([], 0), w)
  | GHListRunnerGroupsVisibleToRepo _ => (Val ([], 0), w)
  | GHListRepositoryAccessRunnerGroup _ _ _ => (Val ([], 0), w)
  | GHListRepositoryWorkflowRuns _ _ _ _ => (Val ([], 0), w)
  | GHListWorkflowJobs _ _ _ _ => (Val ([], 0), w)
  end.

(** The garbage collector deletes the pod of a runner that is gone. *)
Definition collectGarbage (w : station) : station :=
  match sn_runner w, sn_pod w with
  | None, Some p => putPod (deleted pod_Meta withPodMeta p (clock (sn_ticks w))) w
  | _, _ => w
  end.

End Server.

(** ** The stages of the retirement *)

Section Drain.
Context {P : Printing} {rfc : RFC3339} (own : OwnerReference) (clock : nat -> time) (d : podDefaults).
Context (fuel : nat) (delay : duration).
Hypothesis clock_started : forall i, clock i <> 0.

Context (rs : RunnerReplicaSet) (r : Runner) (p : Pod) (s : ghscope) (id : Z) (hash : string).

Abbreviation name := (om_Name (r_Meta r)).

(** A set that asks for no runners. *)
Record unwanted : Prop := {
  uw_live : om_DeletionTimestamp (rrs_Meta rs) = None;
  uw_replicas : rrss_Replicas (rrs_Spec rs) = Some 0;
  uw_hash : getRunnerTemplateHash (rt_Meta (rrss_Template (rrs_Spec (ensureTemplateHash rs)))) = Some hash;
  uw_nonempty : hash <> ""
}.

(** Its runner, up and reported, and the pod, registered and idle. *)
Record idle : Prop := {
  id_hash : getRunnerTemplateHash (r_Meta r) = Some hash;
  id_live : om_DeletionTimestamp (r_Meta r) = None;
  id_finalizers : om_Finalizers (r_Meta r) = [finalizerName];
  id_request : getAnnotation (r_Meta r) AnnotationKeyUnregistrationRequestTimestamp = None;
  id_complete : getAnnotation (r_Meta r) AnnotationKeyUnregistrationCompleteTimestamp = None;
  id_phase : rst_Phase (r_Status r) = PodRunning;
  id_ready : rst_Ready (r_Status r) = runnerPodReady p;
  ip_name : om_Name (pod_Meta p) = name;
  ip_live : om_DeletionTimestamp (pod_Meta p) = None;
  ip_finalizers : om_Finalizers (pod_Meta p) = [runnerPodFinalizerName];
  ip_label : is_Some (om_Labels (pod_Meta p) !! LabelKeyRunnerSetName);
  ip_env : runnerEnvVars p <> [];
  ip_scope : podScope p = Some s;
  ip_phase : pst_Phase (pod_Status p) = PodRunning;
  ip_running : runnerPodOrContainerIsStopped p = false;
  ip_id : getAnnotation (pod_Meta p) AnnotationKeyRunnerID = Some (FormatInt id);
  ip_range : - 2 ^ 63 <= id < 2 ^ 63;
  ip_request : getAnnotation (pod_Meta p) AnnotationKeyUnregistrationRequestTimestamp = None;
  ip_start : getAnnotation (pod_Meta p) AnnotationKeyUnregistrationStartTimestamp = None;
  ip_complete : getAnnotation (pod_Meta p) AnnotationKeyUnregistrationCompleteTimestamp = None;
  ip_wait : getAnnotation (pod_Meta p) AnnotationKeyRunnerCompletionWaitStartTimestamp = None
}.

(** The pod and the runner as they are marked. *)
Definition requestedPod (t : time) : Pod :=
  annotatePod p AnnotationKeyUnregistrationRequestTimestamp (FormatRFC3339 t).
Definition donePod (t t1 t2 : time) : Pod :=
  annotatePod (annotatePod (requestedPod t) AnnotationKeyUnregistrationStartTimestamp (FormatRFC3339 t1))
    AnnotationKeyUnregistrationCompleteTimestamp (FormatRFC3339 t2).
Definition leavingPod (t t1 t2 t3 : time) : Pod :=
  withPodMeta (donePod t t1 t2) (withDeletionTimestamp (pod_Meta (donePod t t1 t2)) t3).

Definition markRunner (o : Runner) (key : string) (t : time) : Runner :=
  withRunnerMeta o (setAnnotation (r_Meta o) key (FormatRFC3339 t)).
Definition requestedRunner (t : time) : Runner := markRunner r AnnotationKeyUnregistrationRequestTimestamp t.
Definition doneRunner (t t1 : time) : Runner :=
  markRunner (requestedRunner t) AnnotationKeyUnregistrationCompleteTimestamp t1.
Definition leavingRunner (t t1 t2 : time) : Runner :=
  withRunnerMeta (doneRunner t t1) (withDeletionTimestamp (r_Meta (doneRunner t t1)) t2).

(** The objects of a stage: 0 the runner is up, 1 its unregistration is
    requested, 2 it is unregistered, 3 this is marked on the runner, 4 the runner
    is being deleted, 5 it is gone, 6 its pod is being deleted, 7 the pod is gone. *)
Inductive reached : nat -> option Runner -> option Pod -> bool -> Prop :=
| re_up : reached 0 (Some r) (Some p) true
| re_requested t t' : reached 1 (Some (requestedRunner t)) (Some (requestedPod t')) true
| re_unregistered t t' t1 t2 : reached 2 (Some (requestedRunner t)) (Some (donePod t' t1 t2)) false
| re_marked t t' t1 t2 u : reached 3 (Some (doneRunner t u)) (Some (donePod t' t1 t2)) false
| re_deleting t t' t1 t2 u u' : u' <> 0 -> reached 4 (Some (leavingRunner t u u')) (Some (donePod t' t1 t2)) false
| re_orphaned t' t1 t2 : reached 5 None (Some (donePod t' t1 t2)) false
| re_leaving t' t1 t2 t3 : t3 <> 0 -> reached 6 None (Some (leavingPod t' t1 t2 t3)) false
| re_gone : reached 7 None None false.

Definition sameSet (rs' : RunnerReplicaSet) : Prop := rrs_Meta rs' = rrs_Meta rs /\ rrs_Spec rs' = rrs_Spec rs.

Definition at_ (w : station) (k : nat) : Prop :=
  exists registered, sameSet (sn_set w) /\ reached k (sn_runner w) (sn_pod w) registered /\
    sn_registered w = if registered then Some (s, mkGHRunner (Some id) name "online" false) else None.

(** ** The actors *)

Inductive actor := SetController | PodController | RunnerControllerActor | GarbageCollector.

Definition act (a : actor) (w : station) : option station :=
  match a with
  | SetController =>
      match run (handle own clock) (ReconcileReplicaSet (mkNN (om_Namespace (rrs_Meta rs)) (om_Name (rrs_Meta rs)))) w with
      | (Done (Val _), w, _) => Some w
      | _ => None
      end
  | PodController =>
      match run (handle own clock) (ReconcilePod fuel delay (mkNN (om_Namespace (r_Meta r)) name)) w with
      | (Done (_, None), w, _) => Some w
      | _ => None
      end
  | RunnerControllerActor =>
      match run (handle own clock) (ReconcileRunner d ∅ (mkNN (om_Namespace (r_Meta r)) name)) w with
      | (Done (_, Val _), w, _) => Some w
      | _ => None
      end
  | GarbageCollector => Some (collectGarbage clock w)
  end.

(** Whose turn it is. *)
Definition turn (k : nat) : option actor :=
  match k with
  | 0 | 2 | 3 => Some SetController
  | 1 | 6 => Some PodController
  | 4 => Some RunnerControllerActor
  | 5 => Some GarbageCollector
  | _ => None
  end%nat.

Global Instance actor_eq_dec : EqDecision actor.
Proof. solve_decision. Defined.

Definition next (a : actor) (k : nat) : nat := if decide (turn k = Some a) then S k else k.

Hypothesis Hset : unwanted.
Hypothesis Hidle : idle.

(** ** Each actor, at each stage *)

Lemma byName_same {A} (meta : A -> ObjectMeta) o n : om_Name (meta o) = n -> byName meta (Some o) n = Some o.
Proof. intros H. unfold byName. by rewrite decide_True. Qed.

(** A live runner whose pod is reported is left alone. *)
Lemma run_runner_reported w o q :
  sn_runner w = Some o -> sn_pod w = Some q ->
  om_Name (r_Meta o) = name -> om_DeletionTimestamp (r_Meta o) = None -> om_Finalizers (r_Meta o) = [finalizerName] ->
  r_Status o = r_Status r -> om_Name (pod_Meta q) = name -> pod_Status q = pod_Status p ->
  act RunnerControllerActor w = Some w.
Proof.
  intros Ho Hq Hn Hd Hf Hst Hqn Hqs. unfold act, ReconcileRunner. cbn -[reportPod processRunnerCreation].
  rewrite Ho, (byName_same r_Meta) by done. cbn -[reportPod processRunnerCreation]. rewrite Hd, Hf.
  unfold addFinalizer. rewrite bool_decide_true by set_solver. cbn -[reportPod processRunnerCreation].
  rewrite Hq, (byName_same pod_Meta) by done. cbn -[reportPod processRunnerCreation].
  assert (runnerPodReady q = runnerPodReady p) as Hrq by (unfold runnerPodReady; by rewrite Hqs).
  unfold reportPod, phaseOf. rewrite Hst, Hqs, Hrq, (id_phase Hidle), (id_ready Hidle), (ip_phase Hidle), eqb_reflx. reflexivity.
Qed.

Lemma runner_turn w k : at_ w k -> exists w', act RunnerControllerActor w = Some w' /\ at_ w' (next RunnerControllerActor k).
Proof.
  intros (reg & Hs & Hr & Hreg). pose proof (id_live Hidle) as Hl. pose proof (id_finalizers Hidle) as Hf.
  pose proof (ip_name Hidle) as Hpn.
  destruct w as [set ru po g ticks]. cbn in Hs, Hr, Hreg. inversion Hr; subst; clear Hr.
  1-4: eexists; split; [by eapply run_runner_reported|]; eexists; split_and!; [done|cbn; by constructor|done].
  2-4: eexists; (split; [reflexivity|]); eexists; split_and!; [done|cbn; by constructor|done].
  eexists. split.
  - unfold act, ReconcileRunner. cbn -[processRunnerDeletion]. rewrite decide_True by done. cbn -[processRunnerDeletion].
    rewrite (proj2 (Z.eqb_neq u' 0)) by done. cbn -[processRunnerDeletion]. rewrite decide_True by done. cbn.
    rewrite Hf, bool_decide_true by set_solver. cbn. rewrite decide_False by (intros []; done). cbn.
    unfold write. cbn. rewrite decide_True by done. reflexivity.
  - eexists. split_and!; [done|cbn; constructor|done].
Qed.

Lemma collector_turn w k : at_ w k -> exists w', act GarbageCollector w = Some w' /\ at_ w' (next GarbageCollector k).
Proof.
  intros (reg & Hs & Hr & Hreg). pose proof (ip_live Hidle) as Hl. pose proof (ip_finalizers Hidle) as Hf.
  destruct w as [set ru po g ticks]. cbn in Hs, Hr, Hreg. inversion Hr; subst; clear Hr; (eexists; split; [reflexivity|]).
  1-5,8: eexists; split_and!; [done|cbn; by constructor|done].
  - exists false. split_and!; [done| |done]. unfold collectGarbage, deleted, settle. cbn. rewrite Hl. cbn. rewrite Hf. by constructor.
  - eexists. split_and!; [done|cbn; by constructor|done].
Qed.

(** A pod marked as unregistered passes the tick untouched. *)
Lemma run_tick_done enterprise org repo w q m1 m2 :
  getAnnotation (pod_Meta q) AnnotationKeyRunnerID = Some (FormatInt id) ->
  getAnnotation (pod_Meta q) AnnotationKeyUnregistrationStartTimestamp = Some m1 ->
  getAnnotation (pod_Meta q) AnnotationKeyUnregistrationCompleteTimestamp = Some m2 -> m2 <> "" ->
  exists l, run (handle own clock) (tickRunnerGracefulStop fuel (unregistrationRetryDelay delay)
    enterprise org repo (om_Name (pod_Meta q)) (Some q)) w = (Done (Some q, None, None), tick (tick w), l).
Proof.
  intros Hid H1 H2 Hne. unfold tickRunnerGracefulStop, ensureRunnerUnregistration, findRunnerID, annotatePodOnce, annotationOrEmpty.
  cbn -[ParseInt]. rewrite H1. cbn -[ParseInt]. rewrite Hid. rewrite ParseInt_FormatInt by apply (ip_range Hidle). cbn.
  rewrite H2. cbn. rewrite decide_True by done. cbn. rewrite ?H2. cbn. by eexists.
Qed.

Lemma podScope_eq q : pod_Spec q = pod_Spec p -> runnerEnvVars q = runnerEnvVars p.
Proof. intros H. unfold runnerEnvVars. by rewrite H. Qed.

(** The reconciliation of a stored runner pod, up to the live or deleted case. *)
Lemma run_ReconcilePod w q :
  sn_pod w = Some q -> om_Name (pod_Meta q) = name -> om_Labels (pod_Meta q) = om_Labels (pod_Meta p) ->
  pod_Spec q = pod_Spec p ->
  exists enterprise org repo l, runnerScope enterprise org repo = Some s /\
  run (handle own clock) (ReconcilePod fuel delay (mkNN (om_Namespace (r_Meta r)) name)) w =
    let '(o, w', l') := run (handle own clock)
      (if IsZero (om_DeletionTimestamp (pod_Meta q)) then reconcileLivePod fuel delay q enterprise org repo
       else reconcileDeletedPod fuel delay q enterprise org repo (default 0 (om_DeletionTimestamp (pod_Meta q)))) w in
    (o, w', l ++ l')%list.
Proof.
  intros Hq Hn Hl Hsp. destruct (ip_label Hidle) as [v Hv]. pose proof (ip_scope Hidle) as Hsc.
  unfold podScope in Hsc. destruct (scopeOfEnv (runnerEnvVars p)) as [[enterprise org] repo] eqn:Hse.
  exists enterprise, org, repo, [EvA (Get KPod (mkNN (om_Namespace (r_Meta r)) name)) (Val q)]. split; [done|].
  unfold ReconcilePod. cbn -[reconcileLivePod reconcileDeletedPod scopeOfEnv]. rewrite Hq, (byName_same pod_Meta) by done.
  cbn -[reconcileLivePod reconcileDeletedPod scopeOfEnv]. rewrite Hl, Hv, (podScope_eq q Hsp).
  destruct (runnerEnvVars p) as [|e es] eqn:He; [by destruct (ip_env Hidle)|]. rewrite Hse.
  by destruct (run _ _ w) as [[? ?] ?].
Qed.

(** Look a mark up. *)
Ltac mark :=
  unfold getAnnotation in *; cbn in *;
  repeat (rewrite lookup_insert_eq || rewrite lookup_insert_ne by done); first [done | eassumption].

Lemma donePod_marks t t1 t2 :
  getAnnotation (pod_Meta (donePod t t1 t2)) AnnotationKeyRunnerID = Some (FormatInt id) /\
  getAnnotation (pod_Meta (donePod t t1 t2)) AnnotationKeyUnregistrationRequestTimestamp = Some (FormatRFC3339 t) /\
  getAnnotation (pod_Meta (donePod t t1 t2)) AnnotationKeyUnregistrationStartTimestamp = Some (FormatRFC3339 t1) /\
  getAnnotation (pod_Meta (donePod t t1 t2)) AnnotationKeyUnregistrationCompleteTimestamp = Some (FormatRFC3339 t2).
Proof. pose proof (ip_id Hidle). split_and!; mark. Qed.

Lemma stopped_same q : pod_Status q = pod_Status p -> runnerPodOrContainerIsStopped q = false.
Proof. intros H. unfold runnerPodOrContainerIsStopped. rewrite H. apply (ip_running Hidle). Qed.

(** A live pod with its finalizer and its ID: only a request leads anywhere. *)
Lemma run_reconcileLivePod w q enterprise org repo :
  om_Finalizers (pod_Meta q) = [runnerPodFinalizerName] ->
  getAnnotation (pod_Meta q) AnnotationKeyRunnerID = Some (FormatInt id) ->
  run (handle own clock) (reconcileLivePod fuel delay q enterprise org repo) w =
    run (handle own clock)
      (match getAnnotation (pod_Meta q) AnnotationKeyUnregistrationRequestTimestamp with
       | None => Ret (noResult, None)
       | Some _ =>
           t <- tickRunnerGracefulStop fuel (unregistrationRetryDelay delay) enterprise org repo (om_Name (pod_Meta q)) (Some q) ;;
           let '(_, res, e) := t in
           match res with
           | Some res => Ret (res, e)
           | None => Ret (noResult, None)
           end
       end) w.
Proof.
  intros Hf Hid. unfold reconcileLivePod, addFinalizer, ensureRunnerPodRegistered. rewrite Hf, bool_decide_true by set_solver.
  rewrite Hid. rewrite bool_decide_true by done. rewrite orb_true_r. reflexivity.
Qed.

Lemma pod_done_turn w q t t1 t2 :
  sn_pod w = Some q -> q = donePod t t1 t2 -> act PodController w = Some (tick (tick w)).
Proof.
  intros Hq ->. destruct (donePod_marks t t1 t2) as (Hm1 & Hm2 & Hm3 & Hm4).
  destruct (run_ReconcilePod w (donePod t t1 t2) Hq (ip_name Hidle) eq_refl eq_refl) as (e & o & rp & l & Hsc & Hrun).
  unfold act. rewrite Hrun. assert (om_DeletionTimestamp (pod_Meta (donePod t t1 t2)) = None) as -> by apply (ip_live Hidle).
  cbn [IsZero]. rewrite run_reconcileLivePod; [|apply (ip_finalizers Hidle)|done]. rewrite Hm2.
  destruct (run_tick_done e o rp w _ _ _ Hm1 Hm3 Hm4 (FormatRFC3339_nonempty t2)) as [l' Htick].
  by rewrite (run_bind _ _ _ _ _ _ _ Htick).
Qed.

Definition unregistered (w : station) : station :=
  {| sn_set := sn_set w; sn_runner := sn_runner w; sn_pod := sn_pod w; sn_registered := None; sn_ticks := sn_ticks w |}.

Lemma run_annotatePodOnce w q0 q key v :
  sn_pod w = Some q0 -> om_Name (pod_Meta q0) = om_Name (pod_Meta q) -> om_DeletionTimestamp (pod_Meta q) = None ->
  getAnnotation (pod_Meta q) key = None ->
  exists l, run (handle own clock) (annotatePodOnce (Some q) key v) w
    = (Done (Val (Some (annotatePod q key v))), putPod (Some (annotatePod q key v)) w, l).
Proof.
  intros Hq Hn Hl Ha. unfold annotatePodOnce. rewrite Ha. cbn. rewrite Hq. unfold write, byName.
  rewrite decide_True by done. unfold settle. cbn. rewrite Hl. by eexists.
Qed.

Lemma run_ensureRunnerUnregistration w q enterprise org repo :
  runnerScope enterprise org repo = Some s -> sn_registered w = Some (s, mkGHRunner (Some id) name "online" false) ->
  getAnnotation (pod_Meta q) AnnotationKeyRunnerID = Some (FormatInt id) ->
  getAnnotation (pod_Meta q) AnnotationKeyUnregistrationCompleteTimestamp = None ->
  getAnnotation (pod_Meta q) AnnotationKeyRunnerCompletionWaitStartTimestamp = None ->
  pod_Status q = pod_Status p ->
  exists l, run (handle own clock) (ensureRunnerUnregistration fuel (unregistrationRetryDelay delay)
    enterprise org repo (om_Name (pod_Meta q)) (Some q)) w = (Done (None, None), unregistered w, l).
Proof.
  intros Hsc Hg Hid Hc Hw Hst. unfold ensureRunnerUnregistration, findRunnerID, annotationOrEmpty.
  rewrite Hid, ParseInt_FormatInt by apply (ip_range Hidle). cbn -[unregisterRunner]. rewrite Hc, Hw, (stopped_same q Hst).
  cbn -[unregisterRunner]. unfold unregisterRunner, RemoveRunner, removeRunner. unfold runnerScope in Hsc.
  destruct (getEnterpriseOrganizationAndRepo enterprise org repo) as [[[e o] rp]|]; [|done]. injection Hsc as Hsc. rewrite Hsc.
  cbn. rewrite !decide_False by (intros Hne; by apply Hne). cbn. rewrite Hg, decide_True by done. cbn. by eexists.
Qed.

(** A requested pod is unregistered and marked in one tick. *)
Lemma run_tick_unregisters w t enterprise org repo :
  runnerScope enterprise org repo = Some s ->
  sn_pod w = Some (requestedPod t) -> sn_registered w = Some (s, mkGHRunner (Some id) name "online" false) ->
  exists t1 t2 l, run (handle own clock) (tickRunnerGracefulStop fuel (unregistrationRetryDelay delay)
    enterprise org repo (om_Name (pod_Meta (requestedPod t))) (Some (requestedPod t))) w
    = (Done (Some (donePod t t1 t2), None, None),
       putPod (Some (donePod t t1 t2)) (tick (unregistered (tick w))), l).
Proof.
  intros Hsc Hq Hg. exists (clock (sn_ticks w)), (clock (S (sn_ticks w))).
  pose proof (ip_id Hidle) as Hid. pose proof (ip_start Hidle) as Hs. pose proof (ip_complete Hidle) as Hc.
  pose proof (ip_wait Hidle) as Hw. pose proof (ip_live Hidle) as Hlive.
  set (t1 := clock (sn_ticks w)). set (t2 := clock (S (sn_ticks w))).
  set (q1 := annotatePod (requestedPod t) AnnotationKeyUnregistrationStartTimestamp (FormatRFC3339 t1)).
  destruct (run_annotatePodOnce (tick w) (requestedPod t) (requestedPod t) AnnotationKeyUnregistrationStartTimestamp
    (FormatRFC3339 t1)) as [l1 H1]; [done|done|done|mark|].
  destruct (run_ensureRunnerUnregistration (putPod (Some q1) (tick w)) q1 enterprise org repo) as [l2 H2];
    [done|done|mark|mark|mark|done|].
  destruct (run_annotatePodOnce (tick (unregistered (putPod (Some q1) (tick w)))) q1 q1 AnnotationKeyUnregistrationCompleteTimestamp
    (FormatRFC3339 t2)) as [l3 H3]; [done|done|done|mark|].
  eexists. unfold tickRunnerGracefulStop. cbn -[annotatePodOnce ensureRunnerUnregistration]. fold t1.
  rewrite (run_bind _ _ _ _ _ _ _ H1). cbv beta iota. rewrite (run_bind _ _ _ _ _ _ _ H2).
  cbn -[annotatePodOnce]. fold t2. rewrite (run_bind _ _ _ _ _ _ _ H3). reflexivity.
Qed.

Lemma pod_turn w k : at_ w k -> exists w', act PodController w = Some w' /\ at_ w' (next PodController k).
Proof.
  intros (reg & Hs & Hr & Hreg). destruct w as [set ru po g ticks]. cbn in Hs, Hr, Hreg. inversion Hr; subst; clear Hr.
  3-6: eexists; (split; [by eapply pod_done_turn|]); eexists; split_and!; [done|cbn; by constructor|done].
  - set (w := mkStation _ _ _ _ _).
    destruct (run_ReconcilePod w p eq_refl (ip_name Hidle) eq_refl eq_refl) as (e & o & rp & l & Hsc & Hrun).
    exists w. split; [|eexists; split_and!; [done|cbn; by constructor|done]].
    unfold act. rewrite Hrun, (ip_live Hidle). cbn [IsZero].
    rewrite run_reconcileLivePod, (ip_request Hidle); [done|apply (ip_finalizers Hidle)|apply (ip_id Hidle)].
  - set (w := mkStation _ _ _ _ _).
    destruct (run_ReconcilePod w (requestedPod t') eq_refl (ip_name Hidle) eq_refl eq_refl) as (e & o & rp & l & Hsc & Hrun).
    destruct (run_tick_unregisters w t' e o rp Hsc eq_refl eq_refl) as (t1 & t2 & l' & Htick).
    eexists. split.
    + unfold act. rewrite Hrun. assert (om_DeletionTimestamp (pod_Meta (requestedPod t')) = None) as -> by apply (ip_live Hidle).
      pose proof (ip_id Hidle) as Hid. cbn [IsZero]. rewrite run_reconcileLivePod; [|apply (ip_finalizers Hidle)|mark].
      assert (getAnnotation (pod_Meta (requestedPod t')) AnnotationKeyUnregistrationRequestTimestamp = Some (FormatRFC3339 t')) as -> by mark.
      rewrite (run_bind _ _ _ _ _ _ _ Htick). reflexivity.
    + eexists. split_and!; [done|cbn; by constructor|done].
  - set (w := mkStation _ _ _ _ _). set (q := leavingPod t' t1 t2 t3).
    destruct (run_ReconcilePod w q eq_refl (ip_name Hidle) eq_refl eq_refl) as (e & o & rp & l & Hsc & Hrun).
    destruct (donePod_marks t' t1 t2) as (Hm1 & Hm2 & Hm3 & Hm4).
    destruct (run_tick_done e o rp w q _ _ Hm1 Hm3 Hm4 (FormatRFC3339_nonempty t2)) as [l' Htick].
    eexists. split.
    + unfold act. rewrite Hrun. cbn [q leavingPod withPodMeta pod_Meta withDeletionTimestamp om_DeletionTimestamp IsZero].
      rewrite (proj2 (Z.eqb_neq t3 0)) by done. fold q. unfold reconcileDeletedPod, removeFinalizer.
      assert (om_Finalizers (pod_Meta q) = [runnerPodFinalizerName]) as -> by apply (ip_finalizers Hidle).
      rewrite bool_decide_true by set_solver. rewrite (run_bind _ _ _ _ _ _ _ Htick). cbn -[filter].
      rewrite filter_cons_False by (intros Hne; by apply Hne). unfold write. cbn. rewrite decide_True by done. reflexivity.
    + eexists. split_and!; [done|cbn; by constructor|done].
  - eexists. split; [reflexivity|]. eexists. split_and!; [done|cbn; by constructor|done].
Qed.

(** ** The set's controller *)

Lemma FormatInt_nonempty : FormatInt id <> "".
Proof. intros H. pose proof (ParseInt_FormatInt id (ip_range Hidle)) as Hp. rewrite H in Hp. by vm_compute in Hp. Qed.

(** The collected state of the runner [o] with its running pod [q]. *)
Definition collectedOne (o : Runner) (q : Pod) : podsForOwner KRunner :=
  {| total := 1; completed := 0; running := 1; terminating := 0; regTimeout := 0; pending := 0;
     templateHash := hash; owner := (o : kobj KRunner); synced := true; pods := [q] |}.

Lemma run_getPodsForOwner w o q :
  sn_pod w = Some q -> om_Name (pod_Meta q) = name -> om_Name (r_Meta o) = name ->
  om_Labels (r_Meta o) = om_Labels (r_Meta r) -> r_Status o = r_Status r -> pod_Status q = pod_Status p ->
  getAnnotation (pod_Meta q) AnnotationKeyRunnerID = Some (FormatInt id) ->
  exists l, run (handle own clock) (getPodsForOwner (k := KRunner) o) w = (Done (Val (Some (collectedOne o q))), w, l).
Proof.
  intros Hq Hqn Hon Hol Hos Hqs Hid. unfold getPodsForOwner. cbn -[getRunnerTemplateHash classifyPod].
  rewrite Hq, Hon, (byName_same pod_Meta) by done. cbn -[getRunnerTemplateHash classifyPod].
  assert (classifyPod q = Ret Running) as ->.
  { unfold classifyPod, podRunnerID, annotationOrEmpty. rewrite (stopped_same q Hqs), Hqs, (ip_phase Hidle), Hid. cbn.
    rewrite decide_True, decide_False by (done || apply FormatInt_nonempty). reflexivity. }
  cbn -[getRunnerTemplateHash]. unfold getRunnerTemplateHash. rewrite Hol. pose proof (id_hash Hidle) as Hh.
  unfold getRunnerTemplateHash in Hh. rewrite Hh. cbn. rewrite Hos, (id_phase Hidle), bool_decide_true by done. by eexists.
Qed.

Definition state0 : state (k := KRunner) := {| podsForOwners := ∅; lastSyncTime := None |}.

(** Nothing is left to do for a set without runners of its own. *)
Lemma run_sync_empty eff desired eph owners w w1 l :
  getRunnerTemplateHash (r_Meta desired) = Some hash ->
  run (handle own clock) (rangeM owners state0 (collectOne (k := KRunner))) w = (Done (inl state0), w1, l) ->
  exists l', run (handle own clock) (syncRunnerPodsOwners (k := KRunner) eff 0 desired eph owners) w
    = (Done (Val (Some [])), w1, l').
Proof.
  intros Hh Hrun. unfold syncRunnerPodsOwners, collectPodsForOwners.
  assert (run (handle own clock) (r0 <- rangeM owners state0 (collectOne (k := KRunner)) ;;
    Ret (match r0 with inl st => Val (Some st) | inr r => r end)) w = (Done (Val (Some state0)), w1, (l ++ [])%list)) as Hcol
    by (rewrite (run_bind _ _ _ _ _ _ _ Hrun); reflexivity).
  rewrite (run_bind _ _ _ _ _ _ _ Hcol). cbv beta iota. change (owner_meta (k := KRunner) desired) with (r_Meta desired).
  rewrite Hh. cbn. by eexists.
Qed.

(** The clock is read when there is a last synchronisation. *)
Definition afterDelay (last : option time) (w : station) : station :=
  match last with None => w | Some _ => tick w end.

(** The running runner of a set that wants none: its unregistration is
    requested. *)
Lemma run_sync_one eff desired eph o q last w l w2 l2 :
  getRunnerTemplateHash (r_Meta desired) = Some hash ->
  run (handle own clock) (rangeM [o] state0 (collectOne (k := KRunner))) w
    = (Done (inl {| podsForOwners := addOwner ∅ (collectedOne o q); lastSyncTime := last |}), w, l) ->
  run (handle own clock) (requestUnregistration [collectedOne o q]) (afterDelay last w) = (Done None, w2, l2) ->
  exists l', run (handle own clock) (syncRunnerPodsOwners (k := KRunner) eff 0 desired eph [o]) w
    = (Done (Val (Some [collectedOne o q])), w2, l').
Proof.
  intros Hh Hrun Hr. set (st := {| podsForOwners := _; lastSyncTime := _ |}) in *.
  assert (exists l', run (handle own clock) (recreationDelay last) w = (Done (match last with None => false | Some u =>
      Before (clock (sn_ticks w)) (u + DefaultRunnerPodRecreationDelayAfterWebhookScale) end), afterDelay last w, l')) as (l1 & Hdelay).
  { destruct last; by eexists. }
  assert (exists l', run (handle own clock) (scale (k := KRunner) desired 0 eph eff last [collectedOne o q]) w
    = (Done ScaleDone, w2, l')) as [l3 Hsc].
  { unfold scale. cbn -[recreationDelay requestUnregistration]. rewrite (run_bind _ _ _ _ _ _ _ Hdelay).
    cbn [collectedOne pending running rev app sumOf map sumZ foldr]. change (0 + 0 + (1 + 0) <? 0) with false.
    change (0 <=? 1 + 0) with true. cbn [andb]. unfold selectForDeletion.
    change ((running (collectedOne o q) =? 0) || (0 <=? 0)) with true. cbv iota. cbn [app]. change (0 =? 0) with true. cbv iota.
    rewrite (run_bind _ _ _ _ _ _ _ Hr). by eexists. }
  assert (run (handle own clock) (collectPodsForOwners (k := KRunner) [o]) w = (Done (Val (Some st)), w, (l ++ [])%list)) as Hcol
    by (unfold collectPodsForOwners; fold state0; rewrite (run_bind _ _ _ _ _ _ _ Hrun); reflexivity).
  assert (podsForOwners st = {[hash := [collectedOne o q]]}) as Hst by (cbn; unfold addOwner; by rewrite lookup_empty).
  unfold syncRunnerPodsOwners. eexists. rewrite (run_bind _ _ _ _ _ _ _ Hcol). cbv beta iota.
  change (owner_meta (k := KRunner) desired) with (r_Meta desired). rewrite Hh, Hst, lookup_singleton_eq, map_to_list_singleton.
  cbn [default sort_stable insert_stable]. change (lastSyncTime st) with last. rewrite (run_bind _ _ _ _ _ _ _ Hsc). cbn.
  rewrite decide_False by (intros Hne; by apply Hne). reflexivity.
Qed.

Section Collect.
Context (w : station) (o : Runner) (q : Pod).
Hypothesis Ho : sn_runner w = Some o.
Hypothesis Hq : sn_pod w = Some q.
Hypothesis Hqn : om_Name (pod_Meta q) = name.
Hypothesis Hon : om_Name (r_Meta o) = name.
Hypothesis Hol : om_Labels (r_Meta o) = om_Labels (r_Meta r).
Hypothesis Hof : om_Finalizers (r_Meta o) = [finalizerName].
Hypothesis Hos : r_Status o = r_Status r.
Hypothesis Hqs : pod_Status q = pod_Status p.
Hypothesis Hid : getAnnotation (pod_Meta q) AnnotationKeyRunnerID = Some (FormatInt id).

(** The collection of the only runner, once its pods are known. *)
Lemma run_collect w1 c :
  (exists l1, run (handle own clock)
    (let meta := r_Meta o in
     if negb (IsZero (om_DeletionTimestamp meta)) then Ret (Next state0)
     else if decide (is_Some (getAnnotation meta AnnotationKeyUnregistrationCompleteTimestamp)) then
       e <- ask (Delete KRunner o None) ;;
       match e with Some e => Ret (Return (Err e)) | None => Ret (Next state0) end
     else if bool_decide (is_Some (getAnnotation meta AnnotationKeyUnregistrationRequestTimestamp)) &&
             (deletionSafePods [q] =? 1) then
       now <- ask Now ;;
       r0 <- ask (Patch KRunner (markRunner o AnnotationKeyUnregistrationCompleteTimestamp now) o) ;;
       match r0 with Err e => Ret (Return (Err e)) | Val _ => Ret (Next state0) end
     else Ret (Next {| podsForOwners := addOwner ∅ (collectedOne o q); lastSyncTime := updateLastSyncTime None meta |})) w
    = (Done (Next c : ctl (state (k := KRunner)) (result (option (state (k := KRunner))))), w1, l1)) ->
  exists l, run (handle own clock) (rangeM [o] state0 (collectOne (k := KRunner))) w = (Done (inl c), w1, l).
Proof.
  intros [l1 Hrun]. destruct (run_getPodsForOwner w o q Hq Hqn Hon Hol Hos Hqs Hid) as [l Hp].
  assert (exists l, run (handle own clock) (collectOne (k := KRunner) o state0) w = (Done (Next c), w1, l)) as [l' Hc].
  { unfold collectOne. rewrite (run_bind _ _ _ _ _ _ _ Hp). cbv beta iota zeta.
    change (owner_meta (owner (collectedOne o q))) with (r_Meta o). change (templateHash (collectedOne o q)) with hash.
    rewrite (decide_False (P := hash = "")) by apply (uw_nonempty Hset). cbv zeta in Hrun.
    eexists. apply (f_equal (fun x => let '(out, w2, l2) := x in (out, w2, (l ++ l2)%list)) Hrun). }
  cbn [rangeM]. rewrite (run_bind _ _ _ _ _ _ _ Hc). cbn [rangeM]. by eexists.
Qed.

End Collect.

Lemma same_ensure rs' : sameSet rs' ->
  rrs_Spec (ensureTemplateHash rs') = rrs_Spec (ensureTemplateHash rs) /\ rrs_Meta (ensureTemplateHash rs') = rrs_Meta (ensureTemplateHash rs).
Proof. intros [Hm Hs]. unfold ensureTemplateHash. rewrite Hm, Hs. by case_decide. Qed.

(** The reconciliation of the set around the synchronisation of its runners,
    which starts after one reading of the clock. *)
Lemma run_set w w1 cur :
  sameSet (sn_set w) ->
  (forall desired eff eph, getRunnerTemplateHash (r_Meta desired) = Some hash ->
     exists l, run (handle own clock) (syncRunnerPodsOwners (k := KRunner) eff 0 desired eph (option_list (sn_runner w))) (tick w)
       = (Done (Val (Some cur)), w1, l)) ->
  sn_set w1 = sn_set w ->
  exists w', act SetController w = Some w' /\ sameSet (sn_set w') /\ sn_runner w' = sn_runner w1 /\ sn_pod w' = sn_pod w1 /\
    sn_registered w' = sn_registered w1.
Proof.
  intros Hsame Hsync Hw1. destruct (same_ensure _ Hsame) as [Hspec Hmeta]. pose proof Hsame as [Hm Hs].
  set (rs' := ensureTemplateHash (sn_set w)) in *.
  destruct (Hsync (desiredRunner own rs' (clock (sn_ticks w))) (rrss_EffectiveTime (rrs_Spec rs'))
    (ephemeralRunners (rsp_Config (rt_Spec (rrss_Template (rrs_Spec rs')))))) as [l Hrun].
  { unfold desiredRunner, getRunnerTemplateHash. cbn. rewrite Hspec. apply (uw_hash Hset). }
  assert (default 1 (rrss_Replicas (rrs_Spec rs')) = 0) as Hrep.
  { rewrite Hspec. unfold ensureTemplateHash. case_decide; cbn; by rewrite (uw_replicas Hset). }
  unfold act, ReconcileReplicaSet. cbn -[syncReplicaSet ensureTemplateHash]. rewrite Hm, (uw_live Hset).
  cbn -[syncReplicaSet ensureTemplateHash]. fold rs'. unfold syncReplicaSet.
  cbn -[syncRunnerPodsOwners ensureTemplateHash]. fold rs'. fold (desiredRunner own rs' (clock (sn_ticks w))). rewrite Hrep.
  rewrite (run_bind _ _ _ _ _ _ _ Hrun). cbv beta iota. unfold patchReplicaSetStatus. case_bool_decide; cbn.
  - eexists. split; [reflexivity|]. by rewrite Hw1.
  - eexists. split; [reflexivity|]. cbn. by rewrite Hw1.
Qed.

(** A turn of the set's controller that leaves it without runners of its own. *)
Lemma set_empty w w1 l :
  sameSet (sn_set w) -> sn_set w1 = sn_set w ->
  run (handle own clock) (rangeM (option_list (sn_runner w)) state0 (collectOne (k := KRunner))) (tick w) = (Done (inl state0), w1, l) ->
  exists w', act SetController w = Some w' /\ sameSet (sn_set w') /\ sn_runner w' = sn_runner w1 /\ sn_pod w' = sn_pod w1 /\
    sn_registered w' = sn_registered w1.
Proof. intros Hsame Hw1 Hrun. eapply run_set; [done| |done]. intros. by eapply run_sync_empty. Qed.

Lemma deletionSafe_requested t : deletionSafePods [requestedPod t] = 0.
Proof.
  pose proof (ip_complete Hidle) as Hc. unfold deletionSafePods. cbn [List.filter].
  assert (getAnnotation (pod_Meta (requestedPod t)) AnnotationKeyUnregistrationCompleteTimestamp = None) as -> by mark.
  cbn. by rewrite (ip_live Hidle).
Qed.

Lemma deletionSafe_done t t1 t2 : deletionSafePods [donePod t t1 t2] = 1.
Proof.
  destruct (donePod_marks t t1 t2) as (_ & _ & _ & Hc). unfold deletionSafePods. cbn [List.filter]. by rewrite Hc.
Qed.

(** The request marks the pod and the runner. *)
Lemma run_request w :
  sn_runner w = Some r -> sn_pod w = Some p ->
  exists t t' l, run (handle own clock) (requestUnregistration [collectedOne r p]) w
    = (Done None, putRunner (Some (requestedRunner t)) (tick (putPod (Some (requestedPod t')) (tick w))), l).
Proof.
  intros Hr Hp. exists (clock (S (sn_ticks w))), (clock (sn_ticks w)).
  destruct (run_annotatePodOnce (tick w) p p AnnotationKeyUnregistrationRequestTimestamp (FormatRFC3339 (clock (sn_ticks w)))) as [l Ha];
    [done|done|apply (ip_live Hidle)|apply (ip_request Hidle)|].
  assert (exists l, run (handle own clock) (annotatePods [p]) w
    = (Done None, putPod (Some (requestedPod (clock (sn_ticks w)))) (tick w), l)) as [l' Hps].
  { cbn -[annotatePodOnce]. rewrite (run_bind _ _ _ _ _ _ _ Ha). by eexists. }
  unfold requestUnregistration. change (owner_meta (owner (collectedOne r p))) with (r_Meta r). rewrite (id_request Hidle).
  change (pods (collectedOne r p)) with [p]. rewrite (run_bind _ _ _ _ _ _ _ Hps). cbn. rewrite Hr. unfold write. cbn.
  rewrite decide_True by done. unfold settle. cbn. rewrite (id_live Hidle). by eexists.
Qed.

(** The end of a turn. *)
Lemma set_ends w w1 k reg :
  (exists w', act SetController w = Some w' /\ sameSet (sn_set w') /\ sn_runner w' = sn_runner w1 /\ sn_pod w' = sn_pod w1 /\
     sn_registered w' = sn_registered w1) ->
  reached k (sn_runner w1) (sn_pod w1) reg ->
  sn_registered w1 = (if reg then Some (s, mkGHRunner (Some id) name "online" false) else None) ->
  exists w', act SetController w = Some w' /\ at_ w' k.
Proof.
  intros (w' & Ha & Hs & Hr & Hp & Hg) Hre Hreg. exists w'. split; [done|]. exists reg. rewrite Hr, Hp, Hg. done.
Qed.

(** The idle runner is asked to unregister. *)
Lemma set_requests set ticks :
  sameSet set -> let w := mkStation set (Some r) (Some p) (Some (s, mkGHRunner (Some id) name "online" false)) ticks in
  exists w', act SetController w = Some w' /\ at_ w' 1.
Proof.
  intros Hs w. pose proof (ip_name Hidle) as Hpn. pose proof (id_live Hidle) as Hl. pose proof (ip_id Hidle) as Hpid.
  pose proof (id_complete Hidle) as Hc. pose proof (id_request Hidle) as Hrq.
  destruct (run_collect (tick w) r p eq_refl Hpn eq_refl eq_refl eq_refl eq_refl Hpid (tick w)
    {| podsForOwners := addOwner ∅ (collectedOne r p); lastSyncTime := updateLastSyncTime None (r_Meta r) |}) as [l Hcol].
  { eexists. cbv zeta. rewrite Hl, Hc, Hrq. reflexivity. }
  destruct (run_request (afterDelay (updateLastSyncTime None (r_Meta r)) (tick w))) as (t & t' & l2 & Hreq);
    [by destruct (updateLastSyncTime _ _)..|].
  eapply (set_ends _ (putRunner (Some (requestedRunner t)) (tick (putPod (Some (requestedPod t')) (tick
    (afterDelay (updateLastSyncTime None (r_Meta r)) (tick w)))))) 1 true); [eapply run_set; [done| |]|constructor|].
  - intros desired eff eph Hd. by eapply run_sync_one.
  - by destruct (updateLastSyncTime _ _).
  - by destruct (updateLastSyncTime _ _).
Qed.

(** It is asked only once. *)
Lemma set_waits set ticks t t' :
  sameSet set -> let w := mkStation set (Some (requestedRunner t)) (Some (requestedPod t')) (Some (s, mkGHRunner (Some id) name "online" false)) ticks in
  exists w', act SetController w = Some w' /\ at_ w' 1.
Proof.
  intros Hs w. pose proof (ip_name Hidle) as Hpn. pose proof (ip_id Hidle) as Hpid.
  pose proof (id_live Hidle) as Hl. pose proof (id_complete Hidle) as Hc.
  set (o := requestedRunner t). set (q := requestedPod t'). 
  destruct (run_collect (tick w) o q eq_refl Hpn eq_refl eq_refl eq_refl eq_refl ltac:(mark) (tick w)
    {| podsForOwners := addOwner ∅ (collectedOne o q); lastSyncTime := updateLastSyncTime None (r_Meta o) |}) as [l Hcol].
  { eexists. cbv zeta. unfold q. rewrite deletionSafe_requested, andb_false_r.
    assert (om_DeletionTimestamp (r_Meta o) = None) as -> by done.
    assert (getAnnotation (r_Meta o) AnnotationKeyUnregistrationCompleteTimestamp = None) as -> by mark. reflexivity. }
  eapply (set_ends _ (afterDelay (updateLastSyncTime None (r_Meta o)) (tick w)) 1 true); [eapply run_set; [done| |]| |].
  - intros desired eff eph Hd. eapply run_sync_one; [done|done|].
    assert (getAnnotation (owner_meta (owner (collectedOne o q))) AnnotationKeyUnregistrationRequestTimestamp
      = Some (FormatRFC3339 t)) as Hm by mark.
    cbn [requestUnregistration]. unfold o in Hm. rewrite Hm. reflexivity.
  - by destruct (updateLastSyncTime _ _).
  - destruct (updateLastSyncTime _ _); constructor.
  - by destruct (updateLastSyncTime _ _).
Qed.

(** Once the pod is unregistered, the runner is marked. *)
Lemma set_marks set ticks t t' t1 t2 :
  sameSet set -> let w := mkStation set (Some (requestedRunner t)) (Some (donePod t' t1 t2)) None ticks in
  exists w', act SetController w = Some w' /\ at_ w' 3.
Proof.
  intros Hs w. pose proof (ip_name Hidle) as Hpn. pose proof (id_live Hidle) as Hl. pose proof (id_complete Hidle) as Hc.
  set (o := requestedRunner t). set (q := donePod t' t1 t2). destruct (donePod_marks t' t1 t2) as (Hm & _).
  destruct (run_collect (tick w) o q eq_refl Hpn eq_refl eq_refl eq_refl eq_refl Hm
    (putRunner (Some (doneRunner t (clock (S ticks)))) (tick (tick w))) state0) as [l Hcol].
  { eexists. cbv zeta. unfold q. rewrite deletionSafe_done.
    assert (om_DeletionTimestamp (r_Meta o) = None) as -> by done.
    assert (getAnnotation (r_Meta o) AnnotationKeyUnregistrationCompleteTimestamp = None) as -> by mark.
    assert (getAnnotation (r_Meta o) AnnotationKeyUnregistrationRequestTimestamp = Some (FormatRFC3339 t)) as -> by mark.
    rewrite (decide_False (P := is_Some None)) by (by intros [? ?]). cbn. unfold write. cbn. rewrite decide_True by done.
    unfold settle. cbn. rewrite Hl. reflexivity. }
  eapply (set_ends _ _ 3 false); [eapply (set_empty w); [exact Hs| |exact Hcol]; reflexivity|constructor|done].
Qed.

(** A marked runner is deleted. *)
Lemma set_deletes set ticks t t' t1 t2 u :
  sameSet set -> let w := mkStation set (Some (doneRunner t u)) (Some (donePod t' t1 t2)) None ticks in
  exists w', act SetController w = Some w' /\ at_ w' 4.
Proof.
  intros Hs w. pose proof (ip_name Hidle) as Hpn. pose proof (id_live Hidle) as Hl. pose proof (id_finalizers Hidle) as Hf.
  set (o := doneRunner t u). set (q := donePod t' t1 t2). destruct (donePod_marks t' t1 t2) as (Hm & _).
  destruct (run_collect (tick w) o q eq_refl Hpn eq_refl eq_refl eq_refl eq_refl Hm
    (putRunner (Some (leavingRunner t u (clock (S ticks)))) (tick w)) state0) as [l Hcol].
  { eexists. cbv zeta. assert (om_DeletionTimestamp (r_Meta o) = None) as -> by done.
    assert (getAnnotation (r_Meta o) AnnotationKeyUnregistrationCompleteTimestamp = Some (FormatRFC3339 u)) as -> by mark.
    rewrite decide_True by done. cbn. rewrite decide_True by done. unfold deleted, settle. cbn. rewrite Hl. cbn. rewrite Hf. reflexivity. }
  eapply (set_ends _ _ 4 false); [eapply (set_empty w); [exact Hs| |exact Hcol]; reflexivity|by constructor|done].
Qed.

(** A runner that is being deleted is left alone. *)
Lemma set_ignores set ticks t t' t1 t2 u u' :
  sameSet set -> u' <> 0 -> let w := mkStation set (Some (leavingRunner t u u')) (Some (donePod t' t1 t2)) None ticks in
  exists w', act SetController w = Some w' /\ at_ w' 4.
Proof.
  intros Hs Hu w. pose proof (ip_name Hidle) as Hpn. pose proof (id_live Hidle) as Hl.
  set (o := leavingRunner t u u'). set (q := donePod t' t1 t2). destruct (donePod_marks t' t1 t2) as (Hm & _).
  destruct (run_collect (tick w) o q eq_refl Hpn eq_refl eq_refl eq_refl eq_refl Hm (tick w) state0) as [l Hcol].
  { eexists. cbv zeta. assert (IsZero (om_DeletionTimestamp (r_Meta o)) = false) as -> by (cbn; by apply Z.eqb_neq). reflexivity. }
  eapply (set_ends _ _ 4 false); [eapply (set_empty w); [exact Hs| |exact Hcol]; reflexivity|by constructor|done].
Qed.

Lemma set_turn w k : at_ w k -> exists w', act SetController w = Some w' /\ at_ w' (next SetController k).
Proof.
  intros (reg & Hs & Hr & Hreg). destruct w as [set ru po g ticks]. cbn in Hs, Hr, Hreg.
  inversion Hr; subst; clear Hr.
  - by apply set_requests.
  - by apply set_waits.
  - by apply set_marks.
  - by apply set_deletes.
  - by apply set_ignores.
  - eapply (set_ends _ (tick _) 5 false); [by eapply set_empty|by constructor|done].
  - eapply (set_ends _ (tick _) 6 false); [by eapply set_empty|by constructor|done].
  - eapply (set_ends _ (tick _) 7 false); [by eapply set_empty|by constructor|done].
Qed.

(** ** Any schedule *)

Fixpoint play (schedule : list actor) (w : station) : option station :=
  match schedule with
  | [] => Some w
  | a :: schedule => match act a w with Some w => play schedule w | None => None end
  end.

Definition progress (schedule : list actor) (k : nat) : nat := fold_left (fun k a => next a k) schedule k.

Lemma actor_turn a w k : at_ w k -> exists w', act a w = Some w' /\ at_ w' (next a k).
Proof. destruct a; [apply set_turn|apply pod_turn|apply runner_turn|apply collector_turn]. Qed.

Lemma play_progress schedule w k :
  at_ w k -> exists w', play schedule w = Some w' /\ at_ w' (progress schedule k).
Proof.
  revert w k. induction schedule as [|a schedule IH]; intros w k Hk; [by exists w|].
  destruct (actor_turn a w k Hk) as (w1 & Ha & Hk1). cbn [play]. rewrite Ha. by apply IH.
Qed.

Lemma progress_mono schedule k : (k <= progress schedule k)%nat.
Proof.
  revert k. induction schedule as [|a schedule IH]; intros k; [done|]. cbn. etransitivity; [|apply IH].
  unfold next. case_decide; lia.
Qed.

Lemma progress_bound schedule k : (k <= 7)%nat -> (progress schedule k <= 7)%nat.
Proof.
  revert k. induction schedule as [|a schedule IH]; intros k Hk; [done|]. cbn. apply IH.
  unfold next. case_decide as Ht; [|done]. destruct (decide (k = 7%nat)) as [->|]; [done|lia].
Qed.

(** A round in which every actor acts takes the retirement a stage further. *)
Lemma round_progress round k : (k < 7)%nat -> (forall a, a ∈ round) -> (S k <= progress round k)%nat.
Proof.
  intros Hk Hall. assert (exists a, turn k = Some a) as [a Ha] by (destruct k as [|[|[|[|[|[|[|k]]]]]]]; [by eexists..|lia]).
  specialize (Hall a). induction round as [|b round IH]; [by apply not_elem_of_nil in Hall|]. cbn.
  destruct (decide (turn k = Some b)) as [Hb|Hb].
  - unfold next at 2. rewrite decide_True by done. apply progress_mono.
  - unfold next at 2. rewrite decide_False by done. apply IH. apply elem_of_cons in Hall as [->|?]; done.
Qed.

Lemma rounds_progress rounds k :
  Forall (fun round => forall a, a ∈ round) rounds -> (k <= 7)%nat ->
  (Nat.min 7 (k + length rounds) <= progress (concat rounds) k)%nat.
Proof.
  intros Hall. revert k. induction Hall as [|round rounds Hr _ IH]; intros k Hk;
    [cbn [concat length]; change (progress [] k) with k; lia|].
  cbn [concat length]. unfold progress. rewrite fold_left_app. fold (progress round k).
  change (Nat.min 7 (k + S (length rounds)) <= progress (concat rounds) (progress round k))%nat.
  assert (progress round k <= 7)%nat as Hb by by apply progress_bound.
  specialize (IH _ Hb). destruct (decide (k = 7%nat)) as [->|].
  - pose proof (progress_mono round 7). lia.
  - pose proof (round_progress round k ltac:(lia) Hr). lia.
Qed.

(** C2: an idle runner that is not wanted any more retires.  When a replica set
    is scaled to zero, its controller, the pod controller, the runner
    controller and the garbage collector, acting in any order over seven rounds
    in which each of them acts at least once, unregister the runner from
    GitHub, delete it, and let its pod disappear; no reconciliation fails, and
    further ones change nothing more. *)
Theorem idle_runner_retires w rounds :
  sn_set w = rs -> sn_runner w = Some r -> sn_pod w = Some p ->
  sn_registered w = Some (s, mkGHRunner (Some id) name "online" false) ->
  Forall (fun round => forall a : actor, a ∈ round) rounds -> (7 <= length rounds)%nat ->
  exists w', play (concat rounds) w = Some w' /\
    sn_registered w' = None /\ sn_runner w' = None /\ sn_pod w' = None /\ sameSet (sn_set w').
Proof.
  intros Hw Hr Hp Hg Hall Hlen.
  assert (at_ w 0) as H0. { exists true. rewrite Hw, Hr, Hp, Hg. split_and!; [done|constructor|done]. }
  destruct (play_progress (concat rounds) w 0 H0) as (w' & Hplay & reg & Hs & Hre & Hreg).
  assert (progress (concat rounds) 0 = 7%nat) as H7.
  { pose proof (rounds_progress rounds 0 Hall ltac:(lia)). pose proof (progress_bound (concat rounds) 0 ltac:(lia)). lia. }
  rewrite H7 in Hre. exists w'. split; [done|]. inversion Hre; subst. by rewrite Hreg.
Qed.

End Drain.
