(* ===== verification/Fleet.v ===== *)
(** * From queued jobs to runners

    An autoscaler at zero, its deployment, the deployment's replica set and no
    runner yet.  The webhook server is told of queued jobs, and the autoscaler,
    the deployment, the replica set and the runner controllers pass the demand
    on, served by an API server that does what it is asked: that of [Cluster]
    for the replica set, its runners and their pods, and on top of it the
    autoscaler and the deployment. *)

From stdpp Require Import base list gmap strings.
From Stdlib Require Import ZArith Lia.
From S2P Require Import Prelude Api GoStrings GitHubClient Hash RunnerPod GracefulStop PodOwner PodBuilder RunnerController.
From S2P Require Import RunnerDeployment ReplicaSet Calendar Schedule Autoscaler Cluster Watches Webhook EventScaling Interleaving.

Open Scope string_scope.
Open Scope Z_scope.

(** ** The server *)

Record fleet := mkFleet {
  fl_hra : HorizontalRunnerAutoscaler;
  fl_rd : RunnerDeployment;
  fl_pool : cluster
}.

Definition withHRA (w : fleet) (h : HorizontalRunnerAutoscaler) : fleet := mkFleet h (fl_rd w) (fl_pool w).
Definition withRD (w : fleet) (rd : RunnerDeployment) : fleet := mkFleet (fl_hra w) rd (fl_pool w).
Definition withPool (w : fleet) (c : cluster) : fleet := mkFleet (fl_hra w) (fl_rd w) c.

Definition runnerConfigOf (rd : RunnerDeployment) : RunnerConfig := rsp_Config (rt_Spec (rds_Template (rd_Spec rd))).

(** The autoscaler is listed when the index has it under every key asked for. *)
Definition indexedUnder (rd : RunnerDeployment) (o : ListOption) : bool :=
  match o with
  | MatchingFields f key => negb (bool_decide (f = "scaleTarget")) || bool_decide (key ∈ keysOfRD (runnerConfigOf rd))
  | _ => true
  end.

(** The requests about the replica set, its runners and pods, GitHub and the
    clock. *)
Definition pooled (q : req) : bool :=
  match q with
  | Get KHRA _ | Get KRD _ | List KHRA _ | List KRRS _ => false
  | Patch KHRA _ _ | StatusPatch KHRA _ _ | Patch KRD _ _ | StatusPatch KRD _ _ => false
  | _ => true
  end.

Section Server.
Context (own : OwnerReference) (clock : nat -> time).

Definition askPool (q : req) (w : fleet) : ans q * fleet :=
  let (a, c) := serve own clock q (fl_pool w) in (a, withPool w c).

Definition serveFleet (q : req) (w : fleet) : ans q * fleet :=
  match q as q return ans q * fleet with
  | Get k key =>
      match k as k return result (kobj k) * fleet with
      | KHRA => ((if decide (nn_Name key = om_Name (hra_Meta (fl_hra w))) then Val (fl_hra w) else Err notFound), w)
      | KRD => ((if decide (nn_Name key = om_Name (rd_Meta (fl_rd w))) then Val (fl_rd w) else Err notFound), w)
      | k => askPool (Get k key) w
      end
  | List k opts =>
      match k as k return result (list (kobj k)) * fleet with
      | KHRA => (Val (if forallb (indexedUnder (fl_rd w)) opts then [fl_hra w] else []), w)
      | KRRS => (Val [cl_set (fl_pool w)], w)
      | k => askPool (List k opts) w
      end
  | Patch k o base =>
      match k as k return kobj k -> kobj k -> result (kobj k) * fleet with
      | KHRA => fun o _ => (Val o, withHRA w o)
      | KRD => fun o _ => (Val o, withRD w o)
      | k => fun o base => askPool (Patch k o base) w
      end o base
  | StatusPatch k o base =>
      match k as k return kobj k -> kobj k -> result (kobj k) * fleet with
      | KHRA => fun o _ => (Val o, withHRA w o)
      | KRD => fun o _ => (Val o, withRD w o)
      | k => fun o base => askPool (StatusPatch k o base) w
      end o base
  | q => askPool q w
  end.

(** A program that asks only for what the pool has runs as it does there. *)
Lemma serve_pooled q w : pooled q = true -> serveFleet q w = askPool q w.
Proof. destruct q as [| |[]|[]|[]|[]|[]|[]|[]| | | | | | | | | |]; done. Qed.

Lemma run_pooled {A : Type} (p : M A) w :
  only (fun e => pooled (ev_req e) = true) p ->
  run serveFleet p w = let '(o, c, l) := run (serve own clock) p (fl_pool w) in (o, withPool w c, l).
Proof.
  revert w. induction p as [x|m| |q k IH]; intros [h rd c] Hp; [done..|]. simpl in Hp. cbn [run].
  assert (pooled q = true) as Hq by exact (only_first _ _ _ _ (Hp (anyAnswer q))).
  rewrite serve_pooled by done. unfold askPool. cbn [fl_pool]. destruct (serve own clock q c) as [a c1] eqn:Hs. rewrite IH.
  - simpl. by destruct (run _ (k a) c1) as [[o c2] l].
  - eapply always_mono; [|apply Hp]. intros o l Hl. by inversion Hl.
Qed.

End Server.

Lemma ReconcileRunner_pooled {P : Printing} d regTokens key :
  only (fun e => pooled (ev_req e) = true) (ReconcileRunner d regTokens key).
Proof.
  unfold ReconcileRunner, processRunnerCreation, updateRegistrationToken, IsRegisterable, GetRegistrationToken,
    cachedToken, createRegistrationToken, newPod, mountVolumes, addVolumes, sliceBounds, reportPod, processRunnerDeletion.
  only_steps.
Qed.

Lemma sync_pooled {rfc : RFC3339} eff n create ephemeral owners :
  only (fun e => pooled (ev_req e) = true) (syncRunnerPodsOwners (k := KRunner) eff n create ephemeral owners).
Proof.
  apply sync_exchanges; [done|done| | |done].
  - intros o. cbn [owner_pods ownerRunner]. unfold ownerRunner_pods. only_steps.
  - intros [q a] Hw. simpl in *. destruct q; simpl in Hw; subst; done.
Qed.

Lemma ReconcileReplicaSet_pooled {P : Printing} {rfc : RFC3339} key :
  only (fun e => pooled (ev_req e) = true) (ReconcileReplicaSet key).
Proof.
  unfold ReconcileReplicaSet, syncReplicaSet, newRunner, patchReplicaSetStatus. only_steps_by ltac:(apply sync_pooled).
Qed.

(** ** The demand *)

Section Fleet.
Context {P : Printing} {R : RRule} {H : GitHubHooks}.
Context (own : OwnerReference) (clock : nat -> time) (d : podDefaults) (t0 : time).
Context (fuel : nat) (ns : string) (github : option string) (secretKey : string) (delay : duration) (common : list string).
Hypothesis clock_window : forall i, t0 <= clock i <= t0 + 30 * Minute.

Abbreviation serving := (serveFleet own clock).

(** A request that tells of a queued job which the runners of [rd] can run. *)
Record queuedJob (rd : RunnerDeployment) (r : HTTPRequest) : Prop := {
  qj_post : hr_Method r <> "GET";
  qj_event : exists payload job repo,
    (if decide (secretKey = "") then ReadBody r else ValidatePayload r secretKey) = Val payload /\
    ParseWebHook (WebHookType r) payload = Val (WorkflowJobEvent "queued" (Some job) (Some repo)) /\
    rc_Repository (runnerConfigOf rd) = er_OwnerLogin repo +:+ "/" +:+ default "" (er_Name repo) /\
    hasLabels (ej_Labels job) (rc_Labels (runnerConfigOf rd)) = true
}.

(** Nothing asked for, nothing there: an autoscaler without metrics that scales
    from zero by queued jobs, for longer than the half hour; its deployment and
    the deployment's current replica set at zero. *)
Record idleFleet (w : fleet) (hash : string) (most : Z) : Prop := {
  if_live : om_DeletionTimestamp (hra_Meta (fl_hra w)) = None;
  if_target : str_Name (hras_ScaleTargetRef (hra_Spec (fl_hra w))) = om_Name (rd_Meta (fl_rd w));
  if_kind : str_Kind (hras_ScaleTargetRef (hra_Spec (fl_hra w))) ∈ [""; "RunnerDeployment"];
  if_trigger : exists t, workflowJobTrigger (fl_hra w) = Some t /\ 30 * Minute < sut_Duration t;
  if_min : hras_MinReplicas (hra_Spec (fl_hra w)) = Some 0;
  if_max : hras_MaxReplicas (hra_Spec (fl_hra w)) = Some most /\ 0 < most;
  if_metrics : hras_Metrics (hra_Spec (fl_hra w)) = [] /\ hras_ScheduledOverrides (hra_Spec (fl_hra w)) = [];
  if_unreserved : hras_CapacityReservations (hra_Spec (fl_hra w)) = [];
  if_unasked : default 0 (hrast_DesiredReplicas (hra_Status (fl_hra w))) <= 0;
  if_rd : om_DeletionTimestamp (rd_Meta (fl_rd w)) = None /\ rds_Replicas (rd_Spec (fl_rd w)) = Some 0 /\
    rc_Repository (runnerConfigOf (fl_rd w)) <> "";
  if_set : poolable (cl_set (fl_pool w)) hash /\ rrss_Replicas (rrs_Spec (cl_set (fl_pool w))) = Some 0;
  if_current : let desired := desiredReplicaSet (fl_rd w) common in
    getTemplateHash (cl_set (fl_pool w)) = getTemplateHash desired /\
    rrss_Selector (rrs_Spec (cl_set (fl_pool w))) = rrss_Selector (rrs_Spec desired);
  if_empty : cl_runners (fl_pool w) = ∅ /\ cl_pods (fl_pool w) = ∅
}.

(** The reservations of [n] jobs. *)
Record reserving (n : nat) (l : list CapacityReservation) : Prop := {
  rv_length : length l = n;
  rv_each : Forall (fun r => cr_Replicas r = 1 /\ t0 + 30 * Minute < cr_ExpirationTime r) l
}.

(** [w'] is [w] at a later time, with [n] more jobs queued. *)
Definition told (w : fleet) (n : nat) (w' : fleet) : Prop :=
  exists l ticks, reserving n l /\
    w' = mkFleet (withReservations (fl_hra w) l) (fl_rd w)
           {| cl_set := cl_set (fl_pool w); cl_runners := cl_runners (fl_pool w); cl_pods := cl_pods (fl_pool w);
              cl_names := cl_names (fl_pool w); cl_ticks := ticks |}.

(** The webhook server answers each delivery that it has scaled. *)
Fixpoint deliver (reqs : list HTTPRequest) (w : fleet) : option fleet :=
  match reqs with
  | [] => Some w
  | r :: reqs =>
      match run serving (Handle fuel ns github secretKey r) w with
      | (Done resp, w', _) =>
          if (resp_Status resp =? 200) &&
             bool_decide (resp_Body resp = "scaled " +:+ om_Name (hra_Meta (fl_hra w)) +:+ " by 1")
          then deliver reqs w' else None
      | _ => None
      end
  end.

Lemma reserving_valid n l now : reserving n l -> now <= t0 + 30 * Minute -> validAt now l = l.
Proof.
  intros [_ He] Hn. apply validAt_all. eapply Forall_impl; [exact He|]. intros r [_ Hr]. lia.
Qed.

Lemma run_findHRAs w key :
  key ∈ keysOfRD (runnerConfigOf (fl_rd w)) -> key <> "" ->
  exists l, run serving (findHRAsByKey ns key) w = (Done (Val [fl_hra w]), w, l).
Proof.
  intros Hk Hne. unfold findHRAsByKey. rewrite decide_False by done. cbn [run ask serveFleet].
  assert (forall o, o ∈ (if decide (ns = "") then [] else [InNamespace ns]) -> indexedUnder (fl_rd w) o = true) as Hns.
  { intros o. case_decide; set_solver. }
  rewrite (proj2 (forallb_forall _ _)); [by eexists|].
  intros o Ho. apply list_elem_of_In in Ho. apply elem_of_app in Ho as [Ho|Ho]; [by apply Hns|].
  apply elem_of_app in Ho as [Ho|Ho]; [|by apply Hns]. apply list_elem_of_singleton in Ho as ->.
  simpl. by apply bool_decide_eq_true.
Qed.

(** The autoscaler is the target of a queued job that its runners can run. *)
Lemma run_getJobScaleTarget w hash most n w1 labels :
  idleFleet w hash most -> told w n w1 -> hasLabels labels (rc_Labels (runnerConfigOf (fl_rd w))) = true ->
  exists t l, run serving (getJobScaleTarget ns (rc_Repository (runnerConfigOf (fl_rd w))) labels) w1
    = (Done (Val (Some (mkTarget (fl_hra w1) t))), w1, l) /\ 30 * Minute < sut_Duration t.
Proof.
  intros Hi (res & ticks & Hres & ->) Hl. set (w1 := mkFleet _ _ _).
  destruct (if_trigger _ _ _ Hi) as (t & Ht & Hd). destruct (if_rd _ _ _ Hi) as (_ & _ & Hrepo).
  assert (workflowJobTrigger (fl_hra w1) = Some t) as Ht1 by exact Ht.
  destruct (run_findHRAs w1 (rc_Repository (runnerConfigOf (fl_rd w)))) as [l1 Hf]; [|done|].
  { unfold keysOfRD. cbn [fl_rd w1]. rewrite decide_False by done. set_solver. }
  assert (exists l, run serving (getTargetConfig (fl_hra w1) "unsupported scaleTargetRef.kind: ") w1
    = (Done (Val (runnerConfigOf (fl_rd w))), w1, l)) as [l2 Hc].
  { unfold getTargetConfig. pose proof (if_kind _ _ _ Hi) as Hk. pose proof (if_target _ _ _ Hi) as Hn.
    cbn [fl_hra w1 withReservations hra_Spec hras_ScaleTargetRef].
    assert (str_Kind (hras_ScaleTargetRef (hra_Spec (fl_hra w))) <> "RunnerSet") as Hnot by (intros He; rewrite He in Hk; set_solver).
    rewrite decide_False by done.
    replace (bool_decide (_ = "RunnerDeployment") || bool_decide _) with true
      by (symmetry; apply orb_true_iff; rewrite !bool_decide_eq_true; set_solver).
    cbn [run bind ask serveFleet]. unfold targetRef. cbn [nn_Name hra_Spec hras_ScaleTargetRef fl_rd].
    rewrite decide_True by done. by eexists. }
  unfold getJobScaleTarget. eexists (mkScaleUpTrigger None 0 _). eexists. rewrite (run_bind _ _ _ _ _ _ _ Hf). cbn [findJobTarget].
  replace (om_DeletionTimestamp (hra_Meta (fl_hra w1))) with (@None time) by (symmetry; exact (if_live _ _ _ Hi)).
  cbn [IsZero negb]. rewrite Ht1. rewrite (run_bind _ _ _ _ _ _ _ Hc). cbv beta iota. rewrite Hl. split; [reflexivity|].
  cbn [sut_Duration]. destruct (Z.leb_spec (sut_Duration t) 0); [unfold Minute, Second in *; lia|done].
Qed.

(** A reservation is added to those of the autoscaler. *)
Lemma run_tryScale w n w1 t :
  told w n w1 -> 30 * Minute < sut_Duration t ->
  exists w2 l, run serving (tryScale (Some (withAmount (mkTarget (fl_hra w1) t) 1))) w1 = (Done None, w2, l) /\ told w (S n) w2.
Proof.
  intros (res & ticks & Hres & ->) Hd. do 2 eexists. cbn -[validAt]. split; [reflexivity|].
  eexists (res ++ [_])%list, (S (S ticks)). split.
  2:{ unfold withHRA, withReservations. cbn -[validAt]. rewrite (reserving_valid n) by (try done; apply clock_window). reflexivity. }
  pose proof (clock_window (S ticks)). destruct Hres as [Hlen He]. split; [rewrite length_app; simpl; lia|].
  apply Forall_app_2; [done|]. apply Forall_singleton. cbn. split; [done|lia].
Qed.

(** A delivery reserves a replica. *)
Lemma delivered w hash most n w1 r :
  idleFleet w hash most -> told w n w1 -> queuedJob (fl_rd w) r ->
  exists w2 l, run serving (Handle fuel ns github secretKey r) w1
    = (Done (mkResponse 200 ("scaled " +:+ om_Name (hra_Meta (fl_hra w1)) +:+ " by 1")), w2, l) /\ told w (S n) w2.
Proof.
  intros Hi Htold [Hpost (payload & job & repo & Hv & Hp & Hrepo & Hl)].
  destruct (run_getJobScaleTarget _ _ _ _ _ _ Hi Htold Hl) as (t & l1 & Hrun & Hd). rewrite Hrepo in Hrun.
  destruct (run_tryScale _ _ _ _ Htold Hd) as (w2 & l2 & Htry & Htold2).
  unfold Handle. rewrite decide_False, Hv, Hp by done.
  assert (exists l, run serving (dispatch fuel ns github (enterpriseSlugOf payload)
      (WorkflowJobEvent "queued" (Some job) (Some repo))) w1
    = (Done (Scale (Val (Some (withAmount (mkTarget (fl_hra w1) t) 1)))), w1, l)) as [l3 Hdis].
  { cbn [dispatch withRepo]. rewrite bool_decide_true by done. cbn [orb].
    unfold getJobScaleUpTargetForRepoOrOrg, getScaleUpTargetWithFunction. eexists.
    erewrite run_bind; [|rewrite (run_bind _ _ _ _ _ _ _ Hrun); reflexivity]. cbv beta iota.
    rewrite decide_True by done. reflexivity. }
  rewrite (run_bind _ _ _ _ _ _ _ Hdis). cbn [respondTo]. rewrite (run_bind _ _ _ _ _ _ _ Htry).
  do 2 eexists. split; [reflexivity|done].
Qed.

Lemma all_delivered w hash most reqs n w1 :
  idleFleet w hash most -> told w n w1 -> Forall (queuedJob (fl_rd w)) reqs ->
  exists w2, deliver reqs w1 = Some w2 /\ told w (n + length reqs) w2.
Proof.
  intros Hi Htold Hq. revert n w1 Htold. induction Hq as [|r reqs Hr _ IH]; intros n w1 Htold.
  { exists w1. by rewrite Nat.add_0_r. }
  destruct (delivered _ _ _ _ _ _ Hi Htold Hr) as (w2 & l & Hrun & Htold2). cbn [deliver length]. rewrite Hrun.
  cbn [resp_Status resp_Body]. rewrite bool_decide_true by done. cbn [andb Z.eqb Pos.eqb].
  destruct (IH _ _ Htold2) as (w3 & Hdel & Htold3). exists w3. split; [done|]. by rewrite Nat.add_succ_r.
Qed.

Lemma reserving_sum n l now :
  reserving n l -> now <= t0 + 30 * Minute -> Z.of_nat n < 2 ^ 63 -> reservedReplicas now l = Z.of_nat n.
Proof.
  intros Hr Hn Hfit. assert (reservedAt now l = Z.of_nat n) as Hat.
  { unfold reservedAt. rewrite (reserving_valid n) by done. destruct Hr as [<- He]. clear Hfit.
    induction He as [|r l [Hr _] _ IH]; [done|]. unfold sumZ in *. cbn [map foldr length]. rewrite Hr. lia. }
  rewrite reservedReplicas_exact; [done| |by rewrite Hat].
  eapply Forall_impl; [apply (rv_each _ _ Hr)|]. intros r [-> _]. lia.
Qed.

(** What the autoscaler computes: a replica per queued job, up to the maximum. *)
Lemma computed_jobs w hash most n l now st :
  idleFleet w hash most -> reserving n l -> (0 < n)%nat -> Z.of_nat n < 2 ^ 63 -> now <= t0 + 30 * Minute ->
  computeReplicasWithCache fuel delay now st (withReservations (fl_hra w) l) 0
    = Ret (Val (Z.min most (Z.of_nat n))).
Proof.
  intros Hi Hr Hpos Hfit Hn. destruct (if_max _ _ _ Hi) as [Hmax Hmost]. destruct (if_metrics _ _ _ Hi) as [Hm _].
  unfold computeReplicasWithCache, suggestDesiredReplicas.
  cbn [withReservations hra_Spec hras_MinReplicas hras_MaxReplicas hras_Metrics hras_CapacityReservations].
  rewrite (if_min _ _ _ Hi), Hmax, Hm. cbn [bind default]. rewrite (reserving_sum n) by done.
  unfold int64. rewrite Z.add_0_l, wrapS_small by (change (64 - 1) with 63; lia). do 2 f_equal.
  assert (clampReplicas 0 (Some most) (Z.of_nat n) = Z.min most (Z.of_nat n)) as ->.
  { unfold clampReplicas. destruct (Z.ltb_spec (Z.of_nat n) 0); [lia|]. destruct (Z.ltb_spec most (Z.of_nat n)); lia. }
  pose proof (if_unasked _ _ _ Hi) as Hun. unfold delayScaleDown. cbn [withReservations hra_Status].
  destruct (hrast_DesiredReplicas _) as [p|]; [|done]. destruct (hrast_LastSuccessfulScaleOutTime _); [|done].
  simpl in Hun. by rewrite (proj2 (Z.ltb_lt _ _)) by lia.
Qed.

(** The autoscaler asks its deployment for as many runners. *)
Lemma autoscaled w hash most n w1 key :
  idleFleet w hash most -> told w n w1 -> (0 < n)%nat -> Z.of_nat n < 2 ^ 63 -> nn_Name key = om_Name (hra_Meta (fl_hra w)) ->
  exists h eff ticks l, run serving (ReconcileHRA fuel delay key) w1
    = (Done (Val noResult),
       mkFleet h (withRDReplicas (fl_rd w) (Some (Z.min most (Z.of_nat n))) eff)
         {| cl_set := cl_set (fl_pool w); cl_runners := cl_runners (fl_pool w); cl_pods := cl_pods (fl_pool w);
            cl_names := cl_names (fl_pool w); cl_ticks := ticks |}, l).
Proof.
  intros Hi (res & ticks & Hres & ->) Hpos Hfit Hkey.
  destruct (if_max _ _ _ Hi) as [_ Hmost]. destruct (if_metrics _ _ _ Hi) as [_ Hover].
  destruct (if_rd _ _ _ Hi) as (Hlive & Hzero & _).
  set (hra := withReservations (fl_hra w) res). set (m := Z.min most (Z.of_nat n)).
  assert (0 < m) as Hm by lia. pose proof (clock_window ticks) as [_ Hnow].
  unfold ReconcileHRA. cbn [run bind ask serveFleet fl_hra].
  change (hra_Meta hra) with (hra_Meta (fl_hra w)). rewrite decide_True by done. cbn [run bind].
  change (hra_Meta hra) with (hra_Meta (fl_hra w)). rewrite (if_live _ _ _ Hi). cbn [IsZero negb].
  change (hras_ScaleTargetRef (hra_Spec hra)) with (hras_ScaleTargetRef (hra_Spec (fl_hra w))).
  replace (bool_decide _ || bool_decide _) with true
    by (symmetry; apply orb_true_iff; rewrite !bool_decide_eq_true; pose proof (if_kind _ _ _ Hi); set_solver).
  cbn [run bind ask serveFleet fl_rd nn_Name]. rewrite decide_True by apply Hi. rewrite Hlive. cbn [IsZero negb].
  unfold reconcile. cbn [run bind ask serveFleet askPool serve fl_pool cl_ticks].
  replace (getMinReplicas (clock ticks) hra) with (Val (0, @None Override, @None Override))
    by (unfold getMinReplicas, matchScheduledOverrides, specMinReplicas; cbn [hra withReservations hra_Spec hras_ScheduledOverrides hras_MinReplicas];
        by rewrite Hover, (if_min _ _ _ Hi)).
  unfold hra at 1. rewrite (computed_jobs w hash most n res) by done. fold hra m. cbn [bind run].
  unfold updateRD. rewrite Hzero. change (getIntOrDefault (Some 0) defaultReplicas) with 0. rewrite (proj2 (Z.eqb_neq 0 m)) by lia. cbn [negb].
  set (eff := if isEphemeral _ && _ then _ else _). unfold patchHRAStatus.
  destruct (isScaleOut hra m); cbn [run bind ask serveFleet askPool serve]; case_bool_decide; do 4 eexists; reflexivity.
Qed.

(** The pool that the deployment controller asks for. *)
Definition askedFor (w : fleet) (n : Z) (eff : option time) (ticks : nat) : cluster :=
  {| cl_set := withRRSSpec (cl_set (fl_pool w)) (withRRSReplicas (rrs_Spec (cl_set (fl_pool w))) (Some n) eff);
     cl_runners := cl_runners (fl_pool w); cl_pods := cl_pods (fl_pool w);
     cl_names := cl_names (fl_pool w); cl_ticks := ticks |}.

(** The deployment asks its replica set. *)
Lemma deployed w hash most n h eff ticks key :
  idleFleet w hash most -> n <> 0 -> nn_Name key = om_Name (rd_Meta (fl_rd w)) ->
  let rd := withRDReplicas (fl_rd w) (Some n) eff in
  exists l, run serving (Reconcile common key)
      (mkFleet h rd {| cl_set := cl_set (fl_pool w); cl_runners := cl_runners (fl_pool w); cl_pods := cl_pods (fl_pool w);
                       cl_names := cl_names (fl_pool w); cl_ticks := ticks |})
    = (Done (Val noResult), mkFleet h rd (askedFor w n eff ticks), l).
Proof.
  intros Hi Hn Hkey rd. destruct (if_rd _ _ _ Hi) as (Hlive & _). destruct (if_set _ _ _ Hi) as [_ Hzero].
  destruct (if_current _ _ _ Hi) as [Hh Hs]. set (c := {| cl_set := _ |}).
  set (desired := withRRSMeta (desiredReplicaSet rd common)
    (withOwnerReferences (rrs_Meta (desiredReplicaSet rd common)) [own])).
  assert (run serving (reconcileSets rd desired (cl_set (fl_pool w)) []) (mkFleet h rd c)
    = (Done (Val noResult), mkFleet h rd (askedFor w n eff ticks),
       [EvA (Update KRRS (cl_set (askedFor w n eff ticks))) (Val (cl_set (askedFor w n eff ticks)))])) as Hsets.
  { unfold reconcileSets.
    assert (getTemplateHash desired = Some (desiredHashOf common rd)) as Hd by apply getTemplateHash_desired.
    assert (getTemplateHash (cl_set (fl_pool w)) = getTemplateHash desired) as -> by exact Hh. rewrite Hd.
    rewrite (bool_decide_true (desiredHashOf common rd = _)) by done. cbn [negb].
    rewrite (bool_decide_true (rrss_Selector _ = _)) by exact Hs. cbn [negb]. rewrite Hzero.
    change (getIntOrDefault (Some 0) defaultReplicas) with 0.
    change (getIntOrDefault (rrss_Replicas (rrs_Spec desired)) defaultReplicas) with n.
    by rewrite (proj2 (Z.eqb_neq 0 n)) by lia. }
  eexists. unfold Reconcile. cbn [run bind ask serveFleet fl_rd]. rewrite decide_True by done. cbn [run bind].
  change (rd_Meta rd) with (rd_Meta (fl_rd w)). rewrite Hlive. cbn [IsZero negb].
  cbn [run bind ask serveFleet askPool serve fl_pool newRunnerReplicaSet].
  change (sort_stable createdAfter (shuffle [] [cl_set c])) with [cl_set (fl_pool w)]. cbn iota. fold desired.
  change (withPool _ _) with (mkFleet h rd c). rewrite Hsets. reflexivity.
Qed.

Lemma askedFor_poolable w hash most n eff ticks :
  idleFleet w hash most -> poolable (cl_set (askedFor w n eff ticks)) hash.
Proof.
  intros Hi. destruct (if_set _ _ _ Hi) as [[Hl Hh Hne Hm Hs] _]. split; [done| |done..].
  revert Hh. unfold ensureTemplateHash. cbn [askedFor cl_set withRRSSpec withRRSReplicas rrs_Meta rrs_Spec rrss_Template].
  by case_decide.
Qed.

(** ** Bringing the runners up *)

(** Reconcile the runners in the order of the schedule. *)
Fixpoint bringUp (schedule : list string) (regTokens : tokens) (w : fleet) : option (tokens * fleet) :=
  match schedule with
  | [] => Some (regTokens, w)
  | name :: schedule =>
      match run serving (ReconcileRunner d regTokens (mkNN ns name)) w with
      | (Done (regTokens, Val _), w, _) => bringUp schedule regTokens w
      | _ => None
      end
  end.

Lemma bringUp_pool schedule regTokens w :
  bringUp schedule regTokens w =
    option_map (fun x => (x.1, withPool w x.2)) (reconcileRunners own clock d ns schedule regTokens (fl_pool w)).
Proof.
  revert regTokens w. induction schedule as [|name schedule IH]; intros regTokens [h rd c]; [done|].
  cbn [bringUp reconcileRunners]. rewrite (run_pooled own clock _ _ (ReconcileRunner_pooled _ _ _)). cbn [fl_pool].
  destruct (run _ _ c) as [[[[rts [res|e]]|m|] c1] l]; [|done..]. by rewrite IH.
Qed.

(** C3: Queued jobs get runners.  An autoscaler that scales from zero by
    queued jobs, its deployment and its replica set are idle.  When GitHub
    delivers any number of queued jobs that its runners can run, the webhook
    server answers each that it has scaled; then one reconciliation of the
    autoscaler, of the deployment and of the replica set each create as many
    runners as there are jobs, up to the maximum; and in whatever order the
    runner controller gets to them, after four reconciliations of each every
    runner has its finalizer, a registration token and a pod. *)
Theorem queued_jobs_get_runners w hash most reqs regTokens hraKey rdKey rsKey :
  idleFleet w hash most -> Forall (queuedJob (fl_rd w)) reqs -> reqs <> [] -> Z.of_nat (length reqs) < 2 ^ 63 ->
  goodCache regTokens ->
  nn_Name hraKey = om_Name (hra_Meta (fl_hra w)) -> nn_Name rdKey = om_Name (rd_Meta (fl_rd w)) ->
  exists w1 w2 w3 w4 runners l2 l3 l4,
    deliver reqs w = Some w1 /\
    run serving (ReconcileHRA fuel delay hraKey) w1 = (Done (Val noResult), w2, l2) /\
    run serving (Reconcile common rdKey) w2 = (Done (Val noResult), w3, l3) /\
    run serving (ReconcileReplicaSet rsKey) w3 = (Done (Val noResult), w4, l4) /\
    Z.of_nat (length runners) = Z.min most (Z.of_nat (length reqs)) /\
    NoDup (map (fun r => om_Name (r_Meta r)) runners) /\
    (forall name, name ∈ dom (cl_runners (fl_pool w4)) <-> name ∈ map (fun r => om_Name (r_Meta r)) runners) /\
    forall schedule,
      (forall name, name ∈ schedule -> name ∈ map (fun r => om_Name (r_Meta r)) runners) ->
      (forall r, r ∈ runners -> (4 <= occurrences (om_Name (r_Meta r)) schedule)%nat) ->
      exists regTokens' w5, bringUp schedule regTokens w4 = Some (regTokens', w5) /\
        forall r, r ∈ runners -> stage t0 (fl_pool w5) r 4.
Proof.
  intros Hi Hq Hne Hfit Hc Hkh Hkr. set (n := length reqs) in *.
  assert (0 < n)%nat as Hpos by (destruct reqs; [done|unfold n; simpl; lia]).
  destruct (if_max _ _ _ Hi) as [_ Hmost]. set (m := Z.min most (Z.of_nat n)). assert (0 < m) as Hm by lia.
  assert (told w 0 w) as H0.
  { exists [], (cl_ticks (fl_pool w)). split; [by split|]. destruct w as [hra rd []]. pose proof (if_unreserved _ _ _ Hi) as Hun.
    destruct hra as [? [] ?]. simpl in *. by subst. }
  destruct (all_delivered _ _ _ _ _ _ Hi H0 Hq) as (w1 & Hdel & Htold). rewrite Nat.add_0_l in Htold. fold n in Htold.
  destruct (autoscaled _ _ _ _ _ hraKey Hi Htold Hpos Hfit Hkh) as (h & eff & ticks & l2 & Hhra). fold m in Hhra.
  destruct (deployed _ _ _ m h eff ticks rdKey Hi ltac:(lia) Hkr) as [l3 Hrd].
  destruct (if_empty _ _ _ Hi) as [Her Hep]. set (c := askedFor w m eff ticks) in *.
  destruct (pool_fills own clock d t0 clock_window c hash regTokens rsKey ns) as (c1 & l4 & Hrs & Hlen & Hnd & Hdom & Hup);
    [by eapply askedFor_poolable|done..|].
  set (runners := map _ _) in *. do 4 eexists. exists runners. do 3 eexists. split_and!; [done..| |done|done| |].
  - rewrite (run_pooled own clock _ _ (ReconcileReplicaSet_pooled _)). cbn [fl_pool]. rewrite Hrs. reflexivity.
  - exact Hdom.
  - intros schedule Hsub Hocc. destruct (Hup schedule Hsub Hocc) as (rts & c2 & Hrec & _ & Hst & _).
    exists rts. eexists. rewrite bringUp_pool. cbn [fl_pool withPool]. rewrite Hrec. split; [reflexivity|]. exact Hst.
Qed.

End Fleet.
