(* ===== verification/FakeServer.v ===== *)
(** * The fake GitHub (src/github/fake)

    The server that the tests run the client and the controllers against: its
    fixed routes, and the list of runners that the integration tests keep. *)

From stdpp Require Import base list gmap strings pretty.
From Stdlib Require Import ZArith Lia Ascii String.
From S2P Require Import Prelude GoStrings Api Calendar Floats Url GitHubClient.

Open Scope string_scope.
Open Scope Z_scope.

(** ** Handlers *)

(** A response: its status and its body. *)
Definition reply : Type := Z * string.

(** A handler panics on a nil receiver: [None].  [format] is [fmt.Fprintf] with
    no arguments, which leaves a text without percent signs as it is. *)
Record Handler := mkHandler { h_Status : Z; h_Body : string; h_Statuses : option (gmap string string) }.
Record MapHandler := mkMapHandler { mh_Status : Z; mh_Bodies : gmap Z string }.
Record ListRunnersHandler := mkListRunners { lr_Status : Z; lr_Body : string }.

Class Formatting := { format : string -> string }.

Section Handlers.
Context {F : Formatting}.

Definition serveHandler (h : Handler) (status : string) : reply :=
  (h_Status h,
   match h_Statuses h ≫= lookup status with
   | Some body => format body
   | None => format (h_Body h)
   end).

Definition serveListRunners (h : ListRunnersHandler) : reply := (lr_Status h, format (lr_Body h)).

(** [strings.TrimFunc] of what is not a number, for paths in ASCII. *)
Fixpoint trimLeft (s : string) : string :=
  match s with EmptyString => "" | String c s' => if isDigit c then s else trimLeft s' end.
Fixpoint trimRight (s : string) : string :=
  match s with
  | EmptyString => ""
  | String c s' =>
      match trimRight s' with
      | EmptyString => if isDigit c then String c "" else ""
      | t => String c t
      end
  end.

Definition serveMap (h : MapHandler) (path : string) : reply :=
  match ParseInt (trimRight (trimLeft path)) with
  | None => (400, "")
  | Some key =>
      match mh_Bodies h !! key with
      | None | Some EmptyString => (404, "")
      | Some body => (mh_Status h, format body)
      end
  end.

End Handlers.

(** ** The server *)

Record FixedResponses := mkFixedResponses {
  ListRepositoryWorkflowRuns : option Handler;
  ListWorkflowJobs : option MapHandler;
  FListRunners : option ListRunnersHandler
}.

(** A registered handler; a nil [*Handler] is registered like any other and
    panics when it serves. *)
Inductive route :=
| Fixed (h : option Handler)
| PerJob (h : option MapHandler)
| Runners (h : ListRunnersHandler).

Definition WithListRepositoryWorkflowRunsResponse (status : Z) (body queued in_progress : string) (c : FixedResponses) : FixedResponses :=
  mkFixedResponses (Some (mkHandler status body (Some {["queued" := queued; "in_progress" := in_progress]})))
    (ListWorkflowJobs c) (FListRunners c).
Definition WithListWorkflowJobsResponse (status : Z) (bodies : gmap Z string) (c : FixedResponses) : FixedResponses :=
  mkFixedResponses (ListRepositoryWorkflowRuns c) (Some (mkMapHandler status bodies)) (FListRunners c).
Definition WithListRunnersResponse (status : Z) (body : string) (c : FixedResponses) : FixedResponses :=
  mkFixedResponses (ListRepositoryWorkflowRuns c) (ListWorkflowJobs c) (Some (mkListRunners status body)).
Definition WithFixedResponses (responses : FixedResponses) (_ : FixedResponses) : FixedResponses := responses.

Definition FakeRegistrationToken : string := "fake-registration-token".

Definition newline : string := String (ascii_of_nat 10) "".
Definition quote : string := String (ascii_of_nat 34) "".

(** A JSON text, with its quotes written as bars. *)
Fixpoint json (s : string) : string :=
  match s with
  | EmptyString => ""
  | String c s => (if decide (c = "|"%char) then quote else String c "") +:+ json s
  end.

Definition RunnersListBody : string :=
  newline +:+ "{" +:+ newline +:+
  json "  |total_count|: 2," +:+ newline +:+
  json "  |runners|: [" +:+ newline +:+
  json "    {|id|: 1, |name|: |test1|, |os|: |linux|, |status|: |online|, |busy|: false}," +:+ newline +:+
  json "    {|id|: 2, |name|: |test2|, |os|: |linux|, |status|: |offline|, |busy|: false}" +:+ newline +:+
  "  ]" +:+ newline +:+ "}" +:+ newline.

Definition DefaultListRunnersHandler : ListRunnersHandler := mkListRunners 200 RunnersListBody.

Definition tokenBody (expires : string) : string :=
  json "{|token|: |" +:+ FakeRegistrationToken +:+ json "|, |expires_at|: |" +:+ expires +:+ json "|}".

Definition fixed (status : Z) (body : string) : route := Fixed (Some (mkHandler status body None)).

(** The three routes that an operation has for a valid, an invalid and a failing
    owner. *)
Definition threeWays (prefix suffix : string) (valid : string) (ok invalid : route) : list (string * route) :=
  [(prefix +:+ valid +:+ suffix, ok); (prefix +:+ "invalid" +:+ suffix, invalid); (prefix +:+ "error" +:+ suffix, fixed 400 "")].

Definition routesOf (config : FixedResponses) (runners : ListRunnersHandler) (expires : string) : list (string * route) :=
  let token := "/actions/runners/registration-token" in
  let list := "/actions/runners" in
  let remove := "/actions/runners/1" in
  (threeWays "/repos/test/" token "valid" (fixed 201 (tokenBody expires)) (fixed 200 (tokenBody expires)) ++
   threeWays "/orgs/" token "test" (fixed 201 (tokenBody expires)) (fixed 200 (tokenBody expires)) ++
   threeWays "/enterprises/" token "test" (fixed 201 (tokenBody expires)) (fixed 200 (tokenBody expires)) ++
   threeWays "/repos/test/" list "valid" (Runners runners) (fixed 204 "") ++
   threeWays "/orgs/" list "test" (fixed 200 RunnersListBody) (fixed 204 "") ++
   threeWays "/enterprises/" list "test" (fixed 200 RunnersListBody) (fixed 204 "") ++
   [("/repos/test/valid/actions/runners/0", fixed 204 "")] ++
   threeWays "/repos/test/" remove "valid" (fixed 204 "") (fixed 200 "") ++
   threeWays "/orgs/" remove "test" (fixed 204 "") (fixed 200 "") ++
   threeWays "/enterprises/" remove "test" (fixed 204 "") (fixed 200 "") ++
   [("/repos/test/valid/actions/runs", Fixed (ListRepositoryWorkflowRuns config));
    ("/repos/test/valid/actions/runs/", PerJob (ListWorkflowJobs config))])%list.

(** [NewServer]; registering a nil handler for the list of runners panics. *)
Definition NewServer (opts : list (FixedResponses -> FixedResponses)) (expires : string) : option (list (string * route)) :=
  let config := fold_left (fun c o => o c) opts (mkFixedResponses None None None) in
  match FListRunners config with
  | None => None
  | Some runners => Some (routesOf config runners expires)
  end.

(** [http.ServeMux]: the pattern equal to the path, or else the longest one that
    ends in a slash and is a prefix of it. *)
Definition matches (path pattern : string) : bool :=
  bool_decide (path = pattern) || (HasSuffix pattern "/" && String.prefix pattern path).

Definition longest (best : option (string * route)) (r : string * route) : option (string * route) :=
  match best with
  | Some b => if (String.length b.1 <? String.length r.1)%nat then Some r else best
  | None => Some r
  end.

Definition muxHandler (routes : list (string * route)) (path : string) : option route :=
  option_map snd (fold_left longest (List.filter (fun r => matches path r.1) routes) None).

Section Serve.
Context {F : Formatting}.

(** A request for a path, with the value of the query parameter [status]; the
    handler panics on a nil receiver, which closes the connection. *)
Definition serveRequest (routes : list (string * route)) (path status : string) : option reply :=
  match muxHandler routes path with
  | None => Some (404, "404 page not found")
  | Some (Fixed (Some h)) => Some (serveHandler h status)
  | Some (PerJob (Some h)) => Some (serveMap h path)
  | Some (Runners h) => Some (serveListRunners h)
  | Some (Fixed None) | Some (PerJob None) => None
  end.

End Serve.

(** ** The client against the server *)

(** go-github's decoding of the bodies. *)
Class Decoding := {
  decodeToken : string -> RegistrationToken;
  decodeRunners : string -> list GHRunner
}.

Definition scopePath (s : ghscope) : string :=
  match s with
  | SRepo owner repo => "/repos/" +:+ owner +:+ "/" +:+ repo
  | SOrg org => "/orgs/" +:+ org
  | SEnterprise enterprise => "/enterprises/" +:+ enterprise
  end.

(** go-github takes a status outside the 200 range for an error. *)
Definition statusError (status : Z) : err :=
  {| err_msg := "unexpected status"; err_notfound := status =? 404; err_exists := false; err_ratelimit := false;
     err_canceled := false; err_status := Some status |}.

Section Client.
Context {F : Formatting} {D : Decoding} (routes : list (string * route)).

Definition call {A : Type} (path : string) (decode : Z -> string -> A) : result A :=
  match serveRequest routes path "" with
  | None => Err (newError "EOF")
  | Some (status, body) =>
      if (200 <=? status) && (status <=? 299) then Val (decode status body) else Err (statusError status)
  end.

(** GitHub's part of the environment; [others] answers the rest. *)
Definition fakeGitHub (others : forall q : req, ans q) (q : req) (_ : unit) : ans q * unit :=
  (match q return ans q -> ans q with
   | GHCreateRegistrationToken s => fun _ =>
       call (scopePath s +:+ "/actions/runners/registration-token") (fun status body => (decodeToken body, status))
   | GHListRunners s _ => fun _ => call (scopePath s +:+ "/actions/runners") (fun _ body => (decodeRunners body, 0))
   | GHRemoveRunner s id => fun _ => call (scopePath s +:+ "/actions/runners/" +:+ FormatInt id) (fun status _ => status)
   | _ => fun a => a
   end (others q), tt).

End Client.

(** * Properties *)

(** The tables of github_test.go: owners, and whether the call is to succeed. *)
Definition owners : list (string * string * string * bool) := [
  ("", "", "test/valid", true); ("", "", "test/invalid", false); ("", "", "test/error", false);
  ("", "test", "", true); ("", "invalid", "", false); ("", "error", "", false);
  ("test", "", "", true); ("invalid", "", "", false); ("error", "", "", false)].

(** What a row of the tables asks of the client. *)
Definition passes {F : Formatting} {D : Decoding} (routes : list (string * route)) (others : forall q : req, ans q)
  (expires : string) (row : string * string * string * bool) : Prop :=
  let '(enterprise, org, repo, ok) := row in
  (exists m r, (run (fakeGitHub routes others) (GetRegistrationToken ∅ enterprise org repo "test") tt).1.1 = Done (m, r) /\
     if ok then r = Val (decodeToken (format (tokenBody expires))) else exists e, r = Err e) /\
  (exists r, (run (fakeGitHub routes others) (ListRunners 1 enterprise org repo) tt).1.1 = Done r /\
     if ok then r = Val (decodeRunners (format RunnersListBody))
     else r = Val (decodeRunners (format "")) \/ exists e, r = Err e) /\
  (exists r, (run (fakeGitHub routes others) (RemoveRunner enterprise org repo 1) tt).1.1 = Done r /\
     if ok then r = None else is_Some r).

(** The client does against the fake server what its tests expect: for the
    valid owners it gets the token, lists the runners and removes one; it takes
    neither a token that comes with another status than 201 nor a removal that
    comes with another than 204. *)
Theorem client_passes_its_tests {F : Formatting} {D : Decoding} (others : forall q : req, ans q) expires config routes :
  FListRunners config = Some DefaultListRunnersHandler ->
  NewServer [WithFixedResponses config] expires = Some routes ->
  Forall (passes routes others expires) owners.
Proof.
  intros Hc. unfold NewServer. simpl. unfold WithFixedResponses. rewrite Hc. intros [= <-].
  unfold owners. repeat (apply Forall_cons; split); [..|by apply Forall_nil].
  all: cbv beta iota delta [passes]; (split; [do 2 eexists|split; eexists]); (split; [vm_compute; reflexivity|eauto]).
Qed.

(** Without an answer for the list of runners there is no server: registering
    its nil handler panics. *)
Lemma NewServer_panics opts expires :
  NewServer opts expires = None <->
  FListRunners (fold_left (fun c o => o c) opts (mkFixedResponses None None None)) = None.
Proof. unfold NewServer. by destruct (FListRunners _). Qed.
