(* ===== verification/FakeRunners.v ===== *)
(** * The fake list of runners (src/github/fake/runners.go)

    The runners that the integration tests pretend are registered: a slice
    that is shortened in place while it is ranged over. *)

From stdpp Require Import base list gmap strings pretty.
From Stdlib Require Import ZArith Lia Ascii String.
From S2P Require Import Prelude GoStrings Api FakeServer.

Open Scope string_scope.
Open Scope Z_scope.

(** ** The list of runners *)

(** A slice of runners: its backing array, nil beyond what was written, and its
    length.  The capacity is the array's length. *)
Record RunnersList := mkRunnersList { rl_array : list (option GHRunner); rl_len : nat }.

(** The runners that the slice shows. *)
Definition shown (r : RunnersList) : list (option GHRunner) := take (rl_len r) (rl_array r).

Definition NewRunnersList : RunnersList := mkRunnersList [] 0.

Definition exists_ (runners : list (option GHRunner)) (runner : GHRunner) : bool :=
  existsb (fun r => match r with Some r => bool_decide (gr_Name r = gr_Name runner) | None => false end) runners.

(** [append(s, x)]: in place while there is room, else into a larger
    array. *)
Definition appendOne (r : RunnersList) (x : GHRunner) : RunnersList :=
  let cap := List.length (rl_array r) in
  let array := if (rl_len r <? cap)%nat then rl_array r else (rl_array r ++ replicate (S cap) None)%list in
  mkRunnersList (<[rl_len r := Some x]> array) (S (rl_len r)).

Definition AddRunner (r : RunnersList) (runner : GHRunner) : RunnersList :=
  if exists_ (shown r) runner then r else appendOne r runner.

(** [append(s[:i], s[i+1:]...)]: the rest moves down by one, and what it leaves
    at the end stays in the array.  [None] when [i+1] is out of range. *)
Definition removeAtIndex (r : RunnersList) (i : nat) : option RunnersList :=
  if (S i <=? rl_len r)%nat then
    Some (mkRunnersList (take i (rl_array r) ++ drop (S i) (take (rl_len r) (rl_array r)) ++ drop (Nat.pred (rl_len r)) (rl_array r))%list
            (Nat.pred (rl_len r)))
  else None.

(** The loop of [handleRemove] over the [n] elements that the slice had at the
    start, from the [i]-th; it reads the array as the removals leave it. *)
Fixpoint removeLoop (n i : nat) (id : string) (r : RunnersList) : option RunnersList :=
  match n with
  | O => Some r
  | S n =>
      match rl_array r !! i with
      | Some (Some runner) =>
          match gr_ID runner with
          | Some rid =>
              if decide (id = FormatInt rid) then
                match removeAtIndex r i with
                | Some r => removeLoop n (S i) id r
                | None => None
                end
              else removeLoop n (S i) id r
          | None => removeLoop n (S i) id r
          end
      | _ => None
      end
  end.

Definition handleRemove (id : string) (r : RunnersList) : option (reply * RunnersList) :=
  option_map (fun r => ((200, ""), r)) (removeLoop (rl_len r) 0 id r).

(** [HandleList], before it is encoded: the count and the runners. *)
Definition HandleList (r : RunnersList) : nat * list (option GHRunner) := (rl_len r, shown r).

Definition fakeRunner (offset : Z) (status : string) (i : nat) (want : Runner) : GHRunner :=
  mkGHRunner (Some (offset + Z.of_nat i)) (om_Name (r_Meta want)) status false.

Definition addAll (r : RunnersList) (runners : list GHRunner) : RunnersList := fold_left AddRunner runners r.

Definition Sync (runners : list Runner) (_ : RunnersList) : RunnersList :=
  addAll NewRunnersList (imap (fakeRunner 0 "online") runners).

Definition AddOffline (runners : list Runner) (r : RunnersList) : RunnersList :=
  addAll r (imap (fakeRunner 1000 "offline") runners).

(** * Properties *)

(** *** Removing a runner *)

Definition hasID (id : string) (x : GHRunner) : Prop := exists rid, gr_ID x = Some rid /\ id = FormatInt rid.
#[global] Instance hasID_dec id x : Decision (hasID id x).
Proof.
  destruct (gr_ID x) as [rid|] eqn:H; [destruct (decide (id = FormatInt rid)) as [He|He]|].
  - left. by exists rid.
  - right. intros (r & Hr & Hi). congruence.
  - right. intros (r & Hr & _). congruence.
Defined.

(** The loop passes over elements with other identifiers. *)
Lemma removeLoop_skip k n i id r :
  (forall j, (i <= j < i + k)%nat -> exists x, rl_array r !! j = Some (Some x) /\ ~ hasID id x) ->
  removeLoop (k + n) i id r = removeLoop n (i + k) id r.
Proof.
  revert i. induction k as [|k IH]; intros i H; [by rewrite Nat.add_0_r|].
  destruct (H i ltac:(lia)) as (x & Hx & Hne). simpl. rewrite Hx.
  assert (removeLoop (k + n) (S i) id r = removeLoop n (i + S k) id r) as Hgo.
  { rewrite IH by (intros j Hj; apply H; lia). f_equal. lia. }
  destruct (gr_ID x) as [rid|] eqn:Hid; [|done]. rewrite decide_False; [done|]. intros ->. apply Hne. by exists rid.
Qed.

Lemma removeLoop_hit n i id r x :
  rl_array r !! i = Some (Some x) -> hasID id x ->
  removeLoop (S n) i id r = match removeAtIndex r i with Some r => removeLoop n (S i) id r | None => None end.
Proof. intros Hx (rid & Hid & ->). simpl. rewrite Hx, Hid. by rewrite decide_True. Qed.

Lemma lookup_shown (rs : list GHRunner) (rest : list (option GHRunner)) j :
  (j < List.length rs)%nat -> exists x, (map Some rs ++ rest)%list !! j = Some (Some x) /\ rs !! j = Some x.
Proof.
  intros Hj. destruct (lookup_lt_is_Some_2 rs j Hj) as [x Hx]. exists x. split; [|done].
  rewrite lookup_app_l by (by rewrite length_map). change (map Some rs) with (Some <$> rs). by rewrite list_lookup_fmap, Hx.
Qed.

Lemma hasID_unique id rs x y :
  NoDup (map gr_ID rs) -> x ∈ rs -> y ∈ rs -> hasID id x -> hasID id y -> x = y.
Proof.
  intros Hnd Hx Hy (i & Hi & Ei) (j & Hj & Ej). apply (NoDup_map_elem gr_ID rs x y); try done.
  rewrite Hi, Hj. f_equal. unfold FormatInt in *. rewrite Ei in Ej. by apply (inj pretty) in Ej.
Qed.

(** After the removal of the element between [a] and [b], the array keeps an
    element of the tail behind the slice. *)
Lemma removeAtIndex_middle (a b : list GHRunner) x (rest : list (option GHRunner)) :
  exists z, (b <> [] -> z ∈ b) /\
    removeAtIndex (mkRunnersList (map Some (a ++ x :: b) ++ rest) (List.length (a ++ x :: b)%list)) (List.length a)
    = Some (mkRunnersList (map Some (a ++ b) ++ Some z :: rest) (List.length (a ++ b)%list))%list.
Proof.
  assert (exists z b0, x :: b = (b0 ++ [z])%list /\ (b <> [] -> z ∈ b)) as (z & b0 & Hz & Hin).
  { destruct b as [|y b _] using rev_ind; [by exists x, []|]. exists y, (x :: b). split; [done|]. set_solver. }
  exists z. split; [done|]. unfold removeAtIndex. cbn [rl_array rl_len].
  assert (List.length (a ++ x :: b)%list = S (List.length (a ++ b)%list)) as Hlen by (rewrite !length_app; simpl; lia).
  rewrite Hlen. cbn [Nat.pred].
  assert ((S (List.length a) <=? S (List.length (a ++ b)%list))%nat = true) as -> by (apply Nat.leb_le; rewrite length_app; lia).
  rewrite <- Hlen, <- (length_map Some (a ++ x :: b)%list) at 1. rewrite take_app_length.
  do 2 f_equal. rewrite !map_app. cbn [map]. rewrite <- !app_assoc. cbn [app].
  rewrite <- (length_map Some a). rewrite take_app_length, drop_app_ge by lia.
  replace (S (List.length (map Some a)) - List.length (map Some a))%nat with 1%nat by lia. cbn [drop]. f_equal. rewrite drop_0. f_equal.
  change (map Some a ++ Some x :: map Some b ++ rest)%list with (map Some a ++ map Some (x :: b) ++ rest)%list.
  rewrite Hz, map_app, <- app_assoc. cbn [map app]. rewrite app_assoc.
  assert (List.length (a ++ b)%list = List.length (map Some a ++ map Some b0)%list) as ->.
  { assert (List.length (x :: b) = S (List.length b0)) as Hb by (rewrite Hz, length_app; simpl; lia).
    rewrite !length_app, !length_map. simpl in Hb. lia. }
  by rewrite drop_app_length.
Qed.

(** The whole loop, when the one match is between [a] and [b]. *)
Lemma removeLoop_middle id (a b : list GHRunner) x (rest : list (option GHRunner)) :
  hasID id x -> (forall y, y ∈ (a ++ b)%list -> ~ hasID id y) ->
  exists z, removeLoop (List.length (a ++ x :: b)%list) 0 id
      (mkRunnersList (map Some (a ++ x :: b) ++ rest) (List.length (a ++ x :: b)%list))
    = Some (mkRunnersList (map Some (a ++ b) ++ Some z :: rest) (List.length (a ++ b)%list))%list.
Proof.
  intros Hx Hother. destruct (removeAtIndex_middle a b x rest) as (z & Hz & Hrem). exists z.
  assert (List.length (a ++ x :: b)%list = (List.length a + S (List.length b))%nat) as Hlen by (rewrite length_app; done).
  rewrite Hlen at 1. rewrite removeLoop_skip.
  2:{ intros j Hj. destruct (lookup_shown (a ++ x :: b) rest j) as (y & Hy & Hyj); [rewrite length_app; simpl; lia|].
      exists y. split; [exact Hy|]. apply Hother. rewrite lookup_app_l in Hyj by lia.
      apply elem_of_app. left. by eapply list_elem_of_lookup_2. }
  rewrite Nat.add_0_l. erewrite removeLoop_hit; [|cbn [rl_array]|exact Hx].
  2:{ rewrite map_app, <- app_assoc, lookup_app_r by (by rewrite length_map). rewrite length_map, Nat.sub_diag. done. }
  rewrite Hrem. rewrite <- (Nat.add_0_r (List.length b)), removeLoop_skip; [done|].
  intros j Hj. cbn [rl_array]. destruct (decide (j < List.length (a ++ b)%list)%nat) as [Hlt|Hge].
  - destruct (lookup_shown (a ++ b) (Some z :: rest) j Hlt) as (y & Hy & Hyj). exists y. split; [done|].
    apply Hother. by eapply list_elem_of_lookup_2.
  - rewrite length_app in Hge. assert (j = List.length (a ++ b)%list) as -> by (rewrite length_app; lia).
    exists z. split; [by rewrite <- (length_map Some (a ++ b)%list), list_lookup_middle|].
    apply Hother. apply elem_of_app. right. apply Hz. intros ->. simpl in Hj. lia.
Qed.

Lemma filter_keep id (rs : list GHRunner) : (forall y, y ∈ rs -> ~ hasID id y) -> filter (fun x => ~ hasID id x) rs = rs.
Proof.
  induction rs as [|y rs IH]; intros H; [done|]. rewrite filter_cons_True by (apply H; set_solver).
  f_equal. apply IH. set_solver.
Qed.

Lemma hasID_others id (a b : list GHRunner) x :
  NoDup (map gr_ID (a ++ x :: b)%list) -> hasID id x -> forall y, y ∈ (a ++ b)%list -> ~ hasID id y.
Proof.
  intros Hnd Hx y Hy Hiy. assert (x = y) as <- by (apply (hasID_unique id (a ++ x :: b) x y Hnd); set_solver).
  rewrite map_app in Hnd. simpl in Hnd. apply NoDup_app in Hnd as (_ & Hd & [Hb _]%NoDup_cons).
  apply elem_of_app in Hy as [Hy|Hy].
  - apply (Hd (gr_ID x)); [apply list_elem_of_fmap; eauto|]. set_solver.
  - apply Hb. apply list_elem_of_fmap. eauto.
Qed.

Lemma shown_prefix (rs : list GHRunner) rest : shown (mkRunnersList (map Some rs ++ rest) (List.length rs)) = map Some rs.
Proof. unfold shown. cbn [rl_len rl_array]. by rewrite <- (length_map Some rs), take_app_length. Qed.

(** Removing a runner from a list of runners with different identifiers leaves
    the others, in their order, although the slice is cut while the loop is
    still ranging over it; and the request succeeds whether or not there was
    such a runner. *)
Lemma handleRemove_spec id (rs : list GHRunner) r :
  shown r = map Some rs -> (rl_len r <= List.length (rl_array r))%nat -> NoDup (map gr_ID rs) ->
  exists r', handleRemove id r = Some ((200, ""), r') /\ shown r' = map Some (filter (fun x => ~ hasID id x) rs).
Proof.
  intros Hsh Hcap Hnd. unfold handleRemove.
  assert (exists rest, r = mkRunnersList (map Some rs ++ rest) (List.length rs)) as [rest ->].
  { exists (drop (rl_len r) (rl_array r)). destruct r as [arr len]. unfold shown in Hsh. simpl in *.
    rewrite <- Hsh, take_drop. f_equal. apply (f_equal List.length) in Hsh. rewrite length_map, length_take in Hsh. lia. }
  cbn [rl_len]. clear Hsh Hcap. destruct (decide (Exists (hasID id) rs)) as [He|Hn].
  - apply Exists_exists in He as (x & Hin & Hx). apply list_elem_of_split in Hin as (a & b & ->).
    pose proof (hasID_others id a b x Hnd Hx) as Hother.
    destruct (removeLoop_middle id a b x rest Hx Hother) as [z ->].
    eexists. split; [reflexivity|]. rewrite shown_prefix. f_equal.
    rewrite filter_app, filter_cons_False by naive_solver. rewrite <- filter_app. by rewrite filter_keep.
  - assert (forall y, y ∈ rs -> ~ hasID id y) as Hno by (intros y Hy Hi; apply Hn, Exists_exists; eauto).
    eexists. rewrite <- (Nat.add_0_r (List.length rs)) at 1. rewrite removeLoop_skip; [split; [reflexivity|]|].
    + by rewrite shown_prefix, filter_keep.
    + intros j Hj. destruct (lookup_shown rs rest j) as (y & Hy & Hyj); [lia|]. exists y. split; [exact Hy|].
      apply Hno. by eapply list_elem_of_lookup_2.
Qed.

(** With the same identifier twice the handler runs out of the slice. *)
Theorem handleRemove_duplicate_panics x rid :
  gr_ID x = Some rid -> handleRemove (FormatInt rid) (mkRunnersList [Some x; Some x] 2) = None.
Proof.
  intros Hid. unfold handleRemove. cbn -[FormatInt]. rewrite Hid, decide_True by done. cbn -[FormatInt].
  by rewrite decide_True by done.
Qed.

(** *** Filling the list *)

(** The slice shows the runners [rs]. *)
Definition shows (r : RunnersList) (rs : list GHRunner) : Prop :=
  shown r = map Some rs /\ (rl_len r <= List.length (rl_array r))%nat.

(** [Add] on the runners shown: a name is added once. *)
Definition addName (rs : list GHRunner) (x : GHRunner) : list GHRunner :=
  if decide (gr_Name x ∈ map gr_Name rs) then rs else (rs ++ [x])%list.

Lemma exists_spec (rs : list GHRunner) x : exists_ (map Some rs) x = bool_decide (gr_Name x ∈ map gr_Name rs).
Proof.
  unfold exists_. induction rs as [|y rs IH]; cbn [map existsb]; [by rewrite bool_decide_false by set_solver|]. rewrite IH.
  destruct (decide (gr_Name y = gr_Name x)) as [He|Hne].
  - rewrite (bool_decide_true (gr_Name y = _)) by done. cbn [orb]. symmetry. apply bool_decide_true. set_solver.
  - rewrite (bool_decide_false (gr_Name y = _)) by done. simpl. apply bool_decide_ext. set_solver.
Qed.

Lemma AddRunner_shows r rs x : shows r rs -> shows (AddRunner r x) (addName rs x).
Proof.
  intros [Hs Hc]. unfold AddRunner, addName. rewrite Hs, exists_spec. case_bool_decide; case_decide; try done.
  assert (List.length rs = rl_len r) as Hl.
  { apply (f_equal List.length) in Hs. unfold shown in Hs. rewrite length_map, length_take in Hs. lia. }
  unfold shows, shown, appendOne in *. simpl. set (cap := List.length (rl_array r)) in *.
  set (array := if (_ <? _)%nat then _ else _).
  assert (take (rl_len r) array = take (rl_len r) (rl_array r) /\ (rl_len r < List.length array)%nat) as [Ht Hlt].
  { unfold array. destruct (Nat.ltb_spec (rl_len r) cap); [done|]. rewrite take_app_le by lia. split; [done|].
    rewrite length_app. fold cap. cbn [replicate List.length]. lia. }
  split; [|by rewrite length_insert].
  rewrite (take_S_r _ _ (Some x)) by (by apply list_lookup_insert_eq).
  rewrite take_insert_ge by lia. rewrite Ht, Hs, map_app. done.
Qed.

Lemma addAll_shows xs r rs : shows r rs -> shows (addAll r xs) (fold_left addName xs rs).
Proof. unfold addAll. revert r rs. induction xs as [|x xs IH]; intros r rs H; [done|]. simpl. by apply IH, AddRunner_shows. Qed.

Lemma addName_fold xs rs :
  NoDup (map gr_Name rs) ->
  fold_left addName xs rs `sublist_of` (rs ++ xs)%list /\ NoDup (map gr_Name (fold_left addName xs rs)) /\
  (forall n, n ∈ map gr_Name (fold_left addName xs rs) <-> n ∈ map gr_Name rs \/ n ∈ map gr_Name xs).
Proof.
  revert rs. induction xs as [|x xs IH]; intros rs Hnd; simpl.
  { rewrite app_nil_r. split_and!; [done|done|]. set_solver. }
  unfold addName at 2 4 6. case_decide as Hx.
  - destruct (IH rs Hnd) as (Hs & Hn & He). split_and!; [|done|].
    + etrans; [exact Hs|]. apply sublist_app; [done|]. by apply sublist_cons.
    + intros n. rewrite He. set_solver.
  - destruct (IH (rs ++ [x])%list) as (Hs & Hn & He).
    { rewrite map_app. simpl. apply NoDup_app. split_and!; [done| |apply NoDup_singleton]. set_solver. }
    split_and!; [|done|].
    + by rewrite <- app_assoc in Hs.
    + intros n. rewrite He, map_app. set_solver.
Qed.

Lemma fakeRunners_ids offset status runners : NoDup (map gr_ID (imap (fakeRunner offset status) runners)).
Proof.
  change (NoDup (gr_ID <$> imap (fakeRunner offset status) runners)). rewrite fmap_imap. apply NoDup_alt.
  intros i j y Hi Hj. rewrite list_lookup_imap in Hi, Hj.
  destruct (runners !! i), (runners !! j); simpl in *; simplify_eq. lia.
Qed.

(** After [Sync] the list shows one runner for each name, in whatever state it
    was before, and a request to remove one of them removes that one alone. *)
Theorem synced_runner_is_removed (runners : list Runner) r0 id :
  exists rs r', shown (Sync runners r0) = map Some rs /\
    (forall n, n ∈ map gr_Name rs <-> n ∈ map (fun r => om_Name (r_Meta r)) runners) /\
    NoDup (map gr_Name rs) /\
    handleRemove id (Sync runners r0) = Some ((200, ""), r') /\
    shown r' = map Some (filter (fun x => ~ hasID id x) rs) /\
    (List.length rs <= S (List.length (filter (fun x => ~ hasID id x) rs)))%nat.
Proof.
  set (xs := imap (fakeRunner 0 "online") runners). set (rs := fold_left addName xs []).
  assert (shows (Sync runners r0) rs) as [Hs Hc] by (by apply addAll_shows).
  destruct (addName_fold xs [] NoDup_nil_2) as (Hsub & Hnd & Hn). fold rs in Hsub, Hnd, Hn. simpl in Hsub, Hn.
  assert (NoDup (map gr_ID rs)) as Hids.
  { eapply sublist_NoDup; [apply (fakeRunners_ids 0 "online" runners)|]. by apply (fmap_sublist gr_ID). }
  destruct (handleRemove_spec id rs _ Hs Hc Hids) as (r' & Hr & Hr'). exists rs, r'. split_and!; try done.
  - intros n. rewrite Hn. unfold xs.
    assert (map gr_Name (imap (fakeRunner 0 "online") runners) = map (fun r => om_Name (r_Meta r)) runners) as ->; [|set_solver].
    change (gr_Name <$> imap (fakeRunner 0 "online") runners = (fun r => om_Name (r_Meta r)) <$> runners). rewrite fmap_imap.
    apply list_eq. intros i. rewrite list_lookup_imap, list_lookup_fmap. done.
  - destruct (decide (Exists (hasID id) rs)) as [He|He].
    + apply Exists_exists in He as (x & Hin & Hx). apply list_elem_of_split in Hin as (a & b & E). rewrite E in Hids |- *.
      pose proof (hasID_others id a b x Hids Hx) as Ho. rewrite filter_app, filter_cons_False by naive_solver.
      rewrite !filter_keep by set_solver. rewrite !length_app. simpl. lia.
    + rewrite filter_keep; [lia|]. intros y Hy Hi. apply He, Exists_exists. eauto.
Qed.
