(* ===== verification/Forwarder.v ===== *)
(** * Forwarding of hook deliveries (src/pkg)

    src/pkg/hookdeliveryforwarder polls the deliveries of a GitHub hook, posts
    those that are new to a target and keeps its position in a checkpoint, in
    memory or in a ConfigMap.  src/pkg/githubwebhookdeliveryforwarder is an
    earlier form of it for one repository.  They talk to GitHub's hooks API, to
    HTTP targets and to timers, which have requests of their own here; the two
    checkpoints implement the class [Checkpointer]. *)

From stdpp Require Import base list gmap strings pretty sorting.
From Stdlib Require Import ZArith Lia Ascii.
From S2P Require Import Prelude Api GoStrings.

Open Scope string_scope.
Open Scope Z_scope.

(** ** Data *)

(** A value of a hook's configuration, [interface{}] in Go. *)
Inductive configValue :=
| ConfigString (s : string)
| ConfigInt (z : Z)
| ConfigOther (r : raw).

Record Hook := mkHook {
  hook_ID : option Z;
  hook_Config : gmap string configValue;
  hook_Events : list string;
  hook_Active : option bool;
  hook_rest : raw
}.

(** [d.Request.RawPayload] is [None] when either is nil. *)
Record HookDelivery := mkHookDelivery {
  hd_ID : option Z;
  hd_DeliveredAt : option time;
  hd_RawPayload : option string;
  hd_rest : raw
}.

(** Getters of nil pointers give zero values. *)
Definition GetID (id : option Z) : Z := default 0 id.
Definition GetDeliveredAt (d : HookDelivery) : time := default 0 (hd_DeliveredAt d).

Record State := mkState { st_DeliveredAt : time; st_ID : Z }.

Record ConfigMap := mkConfigMap {
  cm_Namespace : string;
  cm_Name : string;
  cm_Data : gmap string string;
  cm_rest : raw
}.

(** The hooks of a repository or of an organization. *)
Inductive hookScope :=
| RepoHooks (org repo : string)
| OrgHooks (org : string).

(** ** The environment *)

(** [Wait d] is the [select] on a timer of [d] and the context: the error of
    the context when it is done first. *)
Inductive freq :=
| FNow
| FOrder (n : nat)
| Getenv (name : string)
| Sleep (d : duration)
| Wait (d : duration)
| ListHooks (s : hookScope)
| CreateHook (s : hookScope) (h : Hook)
| ListHookDeliveries (s : hookScope) (hookID : Z) (cursor : string)
| GetHookDelivery (s : hookScope) (hookID id : Z)
| HttpPost (target payload : string)
| GetConfigMap (n : NamespacedName)
| CreateConfigMap (cm : ConfigMap)
| PatchConfigMap (updated original : ConfigMap).

Definition fans (q : freq) : Type :=
  match q with
  | FNow => time
  | FOrder _ => list nat
  | Getenv _ => string
  | Sleep _ => unit
  | Wait _ => option err
  | ListHooks _ => result (list Hook)
  | CreateHook _ _ => result Hook
  | ListHookDeliveries _ _ _ => result (list HookDelivery * string)
  | GetHookDelivery _ _ _ => result HookDelivery
  | HttpPost _ _ => option err
  | GetConfigMap _ | CreateConfigMap _ | PatchConfigMap _ _ => result ConfigMap
  end.

Definition FM : Type -> Type := prog fans.
Abbreviation FEv := (@Ev freq fans).
Abbreviation flog := (list (event fans)).

Definition nilPointer {A : Type} : FM A :=
  Panic "runtime error: invalid memory address or nil pointer dereference".

(** go-github's [ParseRequestPayload] and encoding/json on the checkpoint. *)
Class DeliveryCodec := {
  ParseRequestPayload : HookDelivery -> option err;
  marshalState : State -> result string;
  unmarshalState : string -> result State
}.

(** ** Checkpoints *)

(** An implementation with its own state [C].  The position given to [Update]
    is a pointer, which may be nil. *)
Class Checkpointer (C : Type) := {
  GetOrCreate : C -> Z -> FM (C * result State);
  CheckpointUpdate : C -> Z -> option State -> FM (C * option err)
}.

Record InMemoryCheckpointer := mkInMemory { im_t : time; im_id : Z }.

Definition NewInMemoryLogPositionProvider : FM InMemoryCheckpointer :=
  now <- ask FNow ;; Ret {| im_t := now; im_id := 0 |}.

#[export] Instance inMemoryCheckpointer : Checkpointer InMemoryCheckpointer := {
  GetOrCreate p hookID := Ret (p, Val {| st_DeliveredAt := im_t p; st_ID := 0 |});
  CheckpointUpdate p hookID pos :=
    match pos with
    | None => nilPointer
    | Some pos => Ret ({| im_t := st_DeliveredAt pos; im_id := st_ID pos |}, None)
    end
}.

Record ConfigMapCheckpointer := mkConfigMapCheckpointer { cmc_Name : string; cmc_NS : string }.

Definition checkpointKey (hookID : Z) : string := "hook_" +:+ FormatInt hookID.

Section ConfigMapCheckpoint.
Context {codec : DeliveryCodec}.

(** The position in a ConfigMap, now when there is none. *)
Definition positionIn (cm : ConfigMap) (hookID : Z) : FM (result State) :=
  let stored := match cm_Data cm !! checkpointKey hookID with
                | Some data => unmarshalState data
                | None => Val {| st_DeliveredAt := 0; st_ID := 0 |}
                end in
  match stored with
  | Err e => Ret (Err e)
  | Val pos =>
      if st_DeliveredAt pos =? 0 then
        now <- ask FNow ;; Ret (Val {| st_DeliveredAt := now; st_ID := st_ID pos |})
      else Ret (Val pos)
  end.

Definition cmGetOrCreate (p : ConfigMapCheckpointer) (hookID : Z) : FM (result State) :=
  r <- ask (GetConfigMap (mkNN (cmc_NS p) (cmc_Name p))) ;;
  match r with
  | Val cm => positionIn cm hookID
  | Err e =>
      if err_notfound e then
        try cm <- ask (CreateConfigMap {| cm_Namespace := cmc_NS p; cm_Name := cmc_Name p; cm_Data := ∅; cm_rest := "" |}) ;;
        positionIn cm hookID
      else Ret (Err e)
  end.

Definition withPosition (cm : ConfigMap) (hookID : Z) (data : string) : ConfigMap :=
  {| cm_Namespace := cm_Namespace cm; cm_Name := cm_Name cm;
     cm_Data := <[checkpointKey hookID := data]> (cm_Data cm); cm_rest := cm_rest cm |}.

Definition cmUpdate (p : ConfigMapCheckpointer) (hookID : Z) (pos : option State) : FM (option err) :=
  r <- ask (GetConfigMap (mkNN (cmc_NS p) (cmc_Name p))) ;;
  match r with
  | Err e => Ret (Some e)
  | Val cm =>
      match pos with
      | None => nilPointer
      | Some pos =>
          match marshalState pos with
          | Err e => Ret (Some e)
          | Val data =>
              r <- ask (PatchConfigMap (withPosition cm hookID data) cm) ;;
              Ret (match r with Err e => Some e | Val _ => None end)
          end
      end
  end.

#[export] Instance configMapCheckpointer : Checkpointer ConfigMapCheckpointer := {
  GetOrCreate p hookID := r <- cmGetOrCreate p hookID ;; Ret (p, r);
  CheckpointUpdate p hookID pos := e <- cmUpdate p hookID pos ;; Ret (p, e)
}.

End ConfigMapCheckpoint.

(** ** Polling *)

Section Polling.
Context {codec : DeliveryCodec} (scope : hookScope) (hookID : Z).

(** The body of the loop over a page of deliveries, the newest first: leaves
    both loops at the first delivery that is not after the position, which
    moves with each delivery taken. *)
Definition takeDelivery (d : HookDelivery) (s : list HookDelivery * State)
  : FM (ctl (list HookDelivery * State) (result (list HookDelivery * State))) :=
  let '(deliveries, pos) := s in
  r <- ask (GetHookDelivery scope hookID (GetID (hd_ID d))) ;;
  match r with
  | Err e => Ret (Return (Err e))
  | Val d =>
      match ParseRequestPayload d with
      | Some e => Ret (Return (Err e))
      | None =>
          let id := GetID (hd_ID d) in
          let deliveredAt := GetDeliveredAt d in
          if negb (st_DeliveredAt pos =? 0) && Before deliveredAt (st_DeliveredAt pos)
          then Ret (Return (Val (deliveries, pos)))
          else if negb (st_ID pos =? 0) && (id <=? st_ID pos)
          then Ret (Return (Val (deliveries, pos)))
          else
            let at' := if After deliveredAt (st_DeliveredAt pos) then deliveredAt else st_DeliveredAt pos in
            let id' := if st_ID pos <? id then id else st_ID pos in
            Ret (Next ((deliveries ++ [d])%list, {| st_DeliveredAt := at'; st_ID := id' |}))
      end
  end.

(** The loop over the pages; [fuel] bounds their number. *)
Fixpoint takePages (take : HookDelivery -> list HookDelivery * State ->
    FM (ctl (list HookDelivery * State) (result (list HookDelivery * State))))
  (fuel : nat) (cursor : string) (s : list HookDelivery * State) : FM (result (list HookDelivery * State)) :=
  match fuel with
  | O => Stuck
  | S fuel =>
      r <- ask (ListHookDeliveries scope hookID cursor) ;;
      match r with
      | Err e => Ret (Err e)
      | Val (ds, next) =>
          c <- rangeM ds s take ;;
          match c with
          | inr r => Ret r
          | inl s =>
              if decide (next = "") then Ret (Val s)
              else ask (Sleep (1 * Second)) ;;; takePages take fuel next s
          end
      end
  end.

Definition deliveredBefore (a b : HookDelivery) : bool := After (GetDeliveredAt b) (GetDeliveredAt a).

Fixpoint rawPayloads (ds : list HookDelivery) : option (list string) :=
  match ds with
  | [] => Some []
  | d :: ds => p ← hd_RawPayload d; ps ← rawPayloads ds; Some (p :: ps)
  end.

(** Sorting and payloads; ties of [sort.Slice] are left in any order. *)
Definition finishDeliveries (deliveries : list HookDelivery) (pos : State) : FM (result (list string * State)) :=
  order <- ask (FOrder (length deliveries)) ;;
  match rawPayloads (sort_stable deliveredBefore (shuffle order deliveries)) with
  | None => nilPointer
  | Some payloads => Ret (Val (payloads, pos))
  end.

Definition getUnprocessedDeliveries (fuel : nat) (pos : State) : FM (result (list string * State)) :=
  try s <- takePages takeDelivery fuel "" ([], pos) ;;
  finishDeliveries (fst s) (snd s).

(** The loop body of the earlier form, which takes no delivery. *)
Definition serverTake (d : HookDelivery) (s : list HookDelivery * State)
  : FM (ctl (list HookDelivery * State) (result (list HookDelivery * State))) :=
  c <- takeDelivery d s ;;
  Ret (match c with
       | Next (_, pos) => Next (fst s, pos)
       | c => c
       end).

Definition serverGetUnprocessedDeliveries (fuel : nat) (pos : State) : FM (result (list string * State)) :=
  try s <- takePages serverTake fuel "" ([], pos) ;;
  finishDeliveries (fst s) (snd s).

End Polling.

(** ** The forwarder *)

Record Forwarder := mkForwarder {
  fw_Repo : string;
  fw_Target : string;
  fw_Hook : Hook;
  fw_PollingDelay : duration
}.

Definition pollingDelay (f : Forwarder) : duration :=
  if 0 <? fw_PollingDelay f then fw_PollingDelay f else 10 * Second.

(** [newHooksAPI] and [newHookDeliveriesAPI] for OWNER/REPO or ORG. *)
Definition newHooksAPI (org repo : string) : hookScope :=
  if decide (repo = "") then OrgHooks org else RepoHooks org repo.

Definition scopeOfRepo (repo : string) : hookScope :=
  let segments := Split "/"%char repo in
  newHooksAPI (default "" (segments !! 0%nat)) (default "" (segments !! 1%nat)).

(** [if _, ok := m[key]; !ok { m[key] = v }] *)
Definition setDefault (key : string) (v : configValue) (m : gmap string configValue) : gmap string configValue :=
  match m !! key with Some _ => m | None => <[key := v]> m end.

(** The hook to create; the secret comes from the environment. *)
Definition withHookDefaults (h : Hook) (secret : string) : Hook :=
  {| hook_ID := hook_ID h;
     hook_Config := setDefault "secret" (ConfigString secret)
       (setDefault "insecure_ssl" (ConfigInt 0) (setDefault "content_type" (ConfigString "json") (hook_Config h)));
     hook_Events := match hook_Events h with [] => ["check_run"; "push"] | evs => evs end;
     hook_Active := Some (default true (hook_Active h));
     hook_rest := hook_rest h |}.

Definition persistentError (e : err) : err := newError (err_msg e).

(** The first hook listed, or a new one. *)
Definition ensureHook (f : Forwarder) (scope : hookScope) : FM (result Hook) :=
  try hooks <- ask (ListHooks scope) ;;
  match hooks with
  | hook :: _ => Ret (Val hook)
  | [] =>
      match hook_Config (fw_Hook f) !! "url" with
      | None => Ret (Err (newError "config.url is missing in the hook config"))
      | Some _ =>
          secret <- (match hook_Config (fw_Hook f) !! "secret" with
                     | Some _ => Ret ""
                     | None => ask (Getenv "GITHUB_HOOK_SECRET")
                     end) ;;
          r <- ask (CreateHook scope (withHookDefaults (fw_Hook f) secret)) ;;
          Ret (match r with Err e => Err (persistentError e) | Val h => Val h end)
      end
  end.

(** An iteration of the endless loop goes on, with the position and the
    checkpoint, or returns from [Run]. *)
Inductive round (C : Type) :=
| Again (cur : option State) (cp : C)
| Stop (e : err) (cp : C).
Arguments Again {C} cur cp.
Arguments Stop {C} e cp.

(** Post the payloads; returns early from the loop at a failed one, after the
    retry delay, with the context's error if it is done by then. *)
Definition forwardAll (target : string) (payloads : list string) : FM (unit + option err) :=
  rangeM payloads tt (fun p _ =>
    e <- ask (HttpPost target p) ;;
    match e with
    | None => Ret (Next tt)
    | Some _ => w <- ask (Wait (5 * Second)) ;; Ret (Return w)
    end).

Section Run.
Context {codec : DeliveryCodec} {C : Type} {CP : Checkpointer C} (f : Forwarder) (fuel : nat).

Definition poll (scope : hookScope) (hookID : Z) (cur : option State) (cp : C) : FM (round C) :=
  match cur with
  | None => nilPointer
  | Some pos =>
      r <- getUnprocessedDeliveries scope hookID fuel pos ;;
      let canceled := match r with Err e => if err_canceled e then Some e else None | Val _ => None end in
      let '(payloads, cur) := match r with Val (ps, pos) => (ps, Some pos) | Err _ => ([], None) end in
      match canceled with
      | Some e => Ret (Stop e cp)
      | None =>
          posted <- forwardAll (fw_Target f) payloads ;;
          match posted with
          | inr (Some e) => Ret (Stop e cp)
          | inr None => Ret (Again cur cp)
          | inl _ =>
              let* (cp, e) := CheckpointUpdate cp hookID cur in
              match e with
              | Some e => Ret (Stop (wrapError "failed updating checkpoint: " e) cp)
              | None =>
                  w <- ask (Wait (pollingDelay f)) ;;
                  Ret (match w with Some e => Stop e cp | None => Again cur cp end)
              end
          end
      end
  end.

Fixpoint pollLoop (rounds : nat) (scope : hookScope) (hookID : Z) (cur : option State) (cp : C) : FM (C * err) :=
  match rounds with
  | O => Stuck
  | S rounds =>
      r <- poll scope hookID cur cp ;;
      match r with
      | Stop e cp => Ret (cp, e)
      | Again cur cp => pollLoop rounds scope hookID cur cp
      end
  end.

Definition RunForwarder (rounds : nat) (cp : C) : FM (C * err) :=
  let scope := scopeOfRepo (fw_Repo f) in
  r <- ensureHook f scope ;;
  match r with
  | Err e => Ret (cp, e)
  | Val hook =>
      let hookID := GetID (hook_ID hook) in
      let* (cp, r) := GetOrCreate cp hookID in
      match r with
      | Err e => Ret (cp, persistentError e)
      | Val cur => pollLoop rounds scope hookID (Some cur) cp
      end
  end.

End Run.

(** ** The rules of a multi-forwarder *)

Record RuleConfig := mkRuleConfig { rcf_Repo : list string; rcf_Target : string; rcf_Hook : Hook }.
Record Rule := mkRule { rule_Repo : string; rule_Target : string; rule_Hook : Hook }.

(** [New]: [unmarshal] is encoding/json's, the messages are shortened. *)
Fixpoint newRules (unmarshal : string -> result RuleConfig) (rules : list string) : result (list Rule) :=
  match rules with
  | [] => Val []
  | r :: rules =>
      match unmarshal r with
      | Err e => Err (wrapError ("failed unmarshalling " +:+ r +:+ ": ") e)
      | Val c =>
          match rcf_Repo c with
          | [] => Err (newError "there must be one or more sources configured")
          | _ =>
              if decide (rcf_Target c = "") then Err (newError "there must be one destination configured")
              else match newRules unmarshal rules with
                   | Err e => Err e
                   | Val rest => Val (map (fun repo => mkRule repo (rcf_Target c) (rcf_Hook c)) (rcf_Repo c) ++ rest)%list
                   end
          end
      end
  end.

(** [MultiForwarder.run]: the forwarder of a rule. *)
Definition forwarderOf (r : Rule) : Forwarder :=
  {| fw_Repo := rule_Repo r; fw_Target := rule_Target r; fw_Hook := rule_Hook r; fw_PollingDelay := 0 |}.

(** ** The earlier form (src/pkg/githubwebhookdeliveryforwarder) *)

Section Server.
Context {codec : DeliveryCodec} (target : string) (fuel : nat).

(** A failed post is only reported. *)
Definition serverForward (payloads : list string) : FM (unit + Empty_set) :=
  rangeM payloads tt (fun p _ => ask (HttpPost target p) ;;; Ret (Next tt)).

Fixpoint serverLoop (rounds : nat) (scope : hookScope) (hookID : Z) (cur : option State) : FM err :=
  match rounds with
  | O => Stuck
  | S rounds =>
      match cur with
      | None => nilPointer
      | Some pos =>
          r <- serverGetUnprocessedDeliveries scope hookID fuel pos ;;
          let '(payloads, cur) := match r with Val (ps, pos) => (ps, Some pos) | Err _ => ([], None) end in
          serverForward payloads ;;;
          ask (Sleep (10 * Second)) ;;;
          serverLoop rounds scope hookID cur
      end
  end.

Definition serverRun (rounds : nat) (repo : string) : FM err :=
  match Split "/"%char repo with
  | [owner; name] =>
      let scope := RepoHooks owner name in
      r <- ask (ListHooks scope) ;;
      match r with
      | Err e => Ret e
      | Val hooks =>
          let hookID := match hooks with h :: _ => GetID (hook_ID h) | [] => 0 end in
          now <- ask FNow ;;
          serverLoop rounds scope hookID (Some {| st_DeliveredAt := now; st_ID := 0 |})
      end
  | _ => Ret (newError "repository must be in a form of OWNER/REPO")
  end.

End Server.

(** * Theorems *)

(** ** Positions *)

Definition posLe (p q : State) : Prop := st_DeliveredAt p <= st_DeliveredAt q /\ st_ID p <= st_ID q.

(** Not yet seen at position [p], and seen at position [p]. *)
Definition fresh (p : State) (d : HookDelivery) : Prop :=
  (st_ID p <> 0 -> st_ID p < GetID (hd_ID d)) /\
  (st_DeliveredAt p <> 0 -> st_DeliveredAt p <= GetDeliveredAt d).
Definition upTo (p : State) (d : HookDelivery) : Prop :=
  GetID (hd_ID d) <= st_ID p /\ GetDeliveredAt d <= st_DeliveredAt p.

#[export] Instance posLe_preorder : PreOrder posLe.
Proof. split; [intros p|intros p q r]; unfold posLe; lia. Qed.

#[export] Instance upTo_proper : Proper (posLe ==> eq ==> impl) upTo.
Proof. intros p q Hpq d _ <-. unfold posLe, upTo, impl in *. lia. Qed.

(** [deliveries] were taken, in this order, between the positions. *)
Definition takenBetween (start : State) (deliveries : list HookDelivery) (pos : State) : Prop :=
  posLe start pos /\ Forall (fun d => fresh start d /\ upTo pos d) deliveries /\
  (st_DeliveredAt start <> 0 -> StronglySorted (fun d d' => GetDeliveredAt d <= GetDeliveredAt d') deliveries).

(** The deliveries that GitHub answered, in order. *)
Definition deliveryIn (e : event fans) : list HookDelivery :=
  match ev_req e as q return fans q -> list HookDelivery with
  | GetHookDelivery _ _ _ => fun a => match a with Val d => [d] | Err _ => [] end
  | _ => fun _ => []
  end (ev_ans e).
Definition gotDeliveries (l : flog) : list HookDelivery := concat (map deliveryIn l).

Lemma gotDeliveries_app l l' : gotDeliveries (l ++ l')%list = (gotDeliveries l ++ gotDeliveries l')%list.
Proof. unfold gotDeliveries. by rewrite map_app, concat_app. Qed.

Lemma StronglySorted_snoc {A} (R : A -> A -> Prop) l x :
  StronglySorted R l -> Forall (fun y => R y x) l -> StronglySorted R (l ++ [x])%list.
Proof.
  induction 1 as [|y l Hs IH Hy]; intros Hx; simpl; [repeat constructor|].
  apply Forall_cons in Hx as [Hyx Hx]. constructor; [by apply IH|]. apply Forall_app_2; [done|by constructor].
Qed.

Lemma StronglySorted_weaken {A} (R R' : A -> A -> Prop) l :
  (forall x y, R x y -> R' x y) -> StronglySorted R l -> StronglySorted R' l.
Proof. intros H. induction 1; constructor; [done|]. by eapply Forall_impl; [|apply H]. Qed.

(** A delivery that passes the guards extends what was taken. *)
Lemma takenBetween_snoc start ds pos d :
  takenBetween start ds pos ->
  (negb (st_DeliveredAt pos =? 0) && Before (GetDeliveredAt d) (st_DeliveredAt pos)) = false ->
  (negb (st_ID pos =? 0) && (GetID (hd_ID d) <=? st_ID pos)) = false ->
  0 <= st_ID start -> 0 <= st_DeliveredAt start ->
  takenBetween start (ds ++ [d])%list
    {| st_DeliveredAt := if After (GetDeliveredAt d) (st_DeliveredAt pos) then GetDeliveredAt d else st_DeliveredAt pos;
       st_ID := if st_ID pos <? GetID (hd_ID d) then GetID (hd_ID d) else st_ID pos |}.
Proof.
  intros (Hle & Hds & Hs) Ht Hi H0 H0'. unfold Before, After in *.
  set (pos' := mkState _ _). assert (posLe pos pos') as Hpos.
  { unfold posLe, pos'. simpl. destruct (Z.ltb_spec (st_DeliveredAt pos) (GetDeliveredAt d));
      destruct (Z.ltb_spec (st_ID pos) (GetID (hd_ID d))); lia. }
  assert (fresh start d /\ upTo pos' d) as Hd.
  { unfold fresh, upTo, posLe, pos' in *. simpl in *.
    destruct (Z.ltb_spec (st_DeliveredAt pos) (GetDeliveredAt d));
      destruct (Z.ltb_spec (st_ID pos) (GetID (hd_ID d))); lia. }
  split_and!; [by transitivity pos| |].
  - apply Forall_app_2; [|by constructor]. eapply Forall_impl; [exact Hds|]. intros y [Hy Hy'].
    split; [done|]. by rewrite Hpos in Hy'.
  - intros Hz. apply StronglySorted_snoc; [by apply Hs|]. eapply Forall_impl; [exact Hds|].
    intros y [_ [_ Hy]]. unfold posLe in Hle. lia.
Qed.

(** ** One poll *)

Section PollFacts.
Context {codec : DeliveryCodec} (scope : hookScope) (hookID : Z).

(** The listing has an end: each cursor that an answered page names has fewer
    pages left to follow, by [left], than the page itself. *)
Definition pagesEnd (left : string -> nat) (l : flog) : Prop :=
  forall cursor ds next, FEv (ListHookDeliveries scope hookID cursor) (Val (ds, next)) ∈ l -> next <> "" ->
    (left next < left cursor)%nat.

(** GitHub failed, or sent a payload that go-github cannot parse. *)
Inductive pollFailed (l : flog) (e : err) : Prop :=
| pf_list cursor : FEv (ListHookDeliveries scope hookID cursor) (Err e) ∈ l -> pollFailed l e
| pf_get id : FEv (GetHookDelivery scope hookID id) (Err e) ∈ l -> pollFailed l e
| pf_parse id d :
    FEv (GetHookDelivery scope hookID id) (Val d) ∈ l -> ParseRequestPayload d = Some e -> pollFailed l e.

Lemma pollFailed_mono l l' e : l ⊆ l' -> pollFailed l e -> pollFailed l' e.
Proof. intros Hl []; [eapply pf_list|eapply pf_get|eapply pf_parse]; eauto. Qed.

(** What the loops end with, after the exchanges [l]. *)
Definition takeEnds (start : State) (l : flog) (r : result (list HookDelivery * State)) : Prop :=
  match r with
  | Val (ds, pos) => takenBetween start ds pos /\ ds `sublist_of` gotDeliveries l
  | Err e => pollFailed l e
  end.

Lemma takeDelivery_spec start d ds pos l0 :
  0 <= st_ID start -> 0 <= st_DeliveredAt start -> takeEnds start l0 (Val (ds, pos)) ->
  always (takeDelivery scope hookID d (ds, pos)) (fun out l =>
    match out with
    | Done (Next s) => takeEnds start (l0 ++ l) (Val s)
    | Done (Return r) => takeEnds start (l0 ++ l) r
    | _ => False
    end).
Proof.
  intros H0 H0' [Ht Hsub]. unfold takeDelivery. simpl. intros [d'|e]; simpl.
  2:{ eapply pf_get, elem_of_app. right. apply list_elem_of_here. }
  destruct (ParseRequestPayload d') as [e|] eqn:Hp; simpl.
  { eapply pf_parse; [apply elem_of_app; right; apply list_elem_of_here|done]. }
  assert (gotDeliveries (l0 ++ [FEv (GetHookDelivery scope hookID (GetID (hd_ID d))) (Val d')]) = gotDeliveries l0 ++ [d'])%list as Hgot
    by by rewrite gotDeliveries_app.
  assert (ds `sublist_of` gotDeliveries l0 ++ [d'])%list as Hsub' by (by apply sublist_inserts_r).
  destruct (_ && _) eqn:Hb1; [simpl; by rewrite Hgot|].
  destruct (negb (st_ID pos =? 0) && _) eqn:Hb2; simpl; rewrite Hgot; [done|].
  split; [by apply takenBetween_snoc|by apply sublist_app].
Qed.

Lemma takePages_spec start fuel cursor s l0 :
  0 <= st_ID start -> 0 <= st_DeliveredAt start -> takeEnds start l0 (Val s) ->
  always (takePages scope hookID (takeDelivery scope hookID) fuel cursor s) (fun out l =>
    match out with
    | Done r => takeEnds start (l0 ++ l) r
    | Panicked _ => False
    | Exhausted => forall left, pagesEnd left l -> (fuel <= left cursor)%nat
    end).
Proof.
  intros H0 H0'. revert cursor s l0. induction fuel as [|fuel IH]; intros cursor s l0 Hs; simpl; [lia|].
  intros [[ds next]|e]; simpl.
  2:{ eapply pf_list, elem_of_app. right. apply list_elem_of_here. }
  set (ev := FEv (ListHookDeliveries scope hookID cursor) (Val (ds, next))).
  assert (takeEnds start (l0 ++ [ev]) (Val s)) as Hs1.
  { destruct s as [ds0 pos0], Hs as [? ?]. split; [done|]. rewrite gotDeliveries_app. by apply sublist_inserts_r. }
  apply always_bind.
  eapply always_mono; [|apply (always_rangeM ds s _
    (fun _ s l => takeEnds start (l0 ++ [ev] ++ l) (Val s))
    (fun out l => match out with
       | Done (inl s) => takeEnds start (l0 ++ [ev] ++ l) (Val s)
       | Done (inr r) => takeEnds start (l0 ++ [ev] ++ l) r
       | _ => False end) [])].
  - intros out l Hout. simpl in Hout. destruct out as [[s'|r]|m|]; [|simpl; by rewrite ?app_nil_r|done|done].
    case_decide as Hnext; simpl; [by rewrite app_nil_r|]. intros u.
    eapply always_mono; [|apply (IH next s' (l0 ++ [ev] ++ l ++ [FEv (Sleep (1 * Second)) u])%list)].
    + intros [r|m|] l'; [|done|]; intros Hl'.
      * replace (l0 ++ ev :: l ++ FEv (Sleep (1 * Second)) u :: l')%list
          with ((l0 ++ [ev] ++ l ++ [FEv (Sleep (1 * Second)) u]) ++ l')%list; [done|]. by rewrite <- !app_assoc.
      * intros left Hleft. assert (left next < left cursor)%nat.
        { eapply (Hleft cursor ds); [apply list_elem_of_here|done]. }
        assert (fuel <= left next)%nat; [|lia]. apply Hl'. intros c ds' n Hin. apply (Hleft c ds').
        apply list_elem_of_further, elem_of_app. right. by apply list_elem_of_further.
    + destruct s' as [ds1 pos1], Hout as [? Hsub]. split; [done|]. simpl. rewrite app_comm_cons, app_assoc, gotDeliveries_app.
      by apply sublist_inserts_r.
  - done.
  - intros d xs [ds1 pos1] l Hl. eapply always_mono; [|apply (takeDelivery_spec start d ds1 pos1 _ H0 H0' Hl)].
    intros [[s'|s'|r]|m|] l' Hout; try done; rewrite <- !app_assoc in Hout; done.
  - intros s' l ?. done.
Qed.

Lemma rawPayloads_spec ds :
  match rawPayloads ds with
  | Some ps => map hd_RawPayload ds = map Some ps
  | None => exists d, d ∈ ds /\ hd_RawPayload d = None
  end.
Proof.
  induction ds as [|d ds IH]; simpl; [done|]. destruct (hd_RawPayload d) as [p|] eqn:Hp; simpl.
  - destruct (rawPayloads ds); simpl; [by f_equal|]. destruct IH as (d' & ? & ?). exists d'. set_solver.
  - exists d. set_solver.
Qed.

(** The deliveries in the order in which they are forwarded. *)
Lemma finishDeliveries_spec ds pos :
  always (finishDeliveries ds pos) (fun out l =>
    gotDeliveries l = [] /\
    match out with
    | Done (Val (ps, pos')) =>
        pos' = pos /\ exists ds', ds' ≡ₚ ds /\ map hd_RawPayload ds' = map Some ps /\
          StronglySorted (notAfter deliveredBefore) ds'
    | Panicked _ => exists d, d ∈ ds /\ hd_RawPayload d = None
    | _ => False
    end).
Proof.
  unfold finishDeliveries. simpl. intros order.
  set (sorted := sort_stable deliveredBefore (shuffle order ds)).
  assert (sorted ≡ₚ ds) as Hperm by (unfold sorted; by rewrite sort_stable_Permutation, shuffle_Permutation).
  pose proof (rawPayloads_spec sorted) as Hraw. destruct (rawPayloads sorted) as [ps|]; simpl; (split; [done|]).
  - split; [done|]. exists sorted. split_and!; [done|done|]. apply sort_stable_sorted;
      unfold deliveredBefore, After; intros; lia.
  - destruct Hraw as (d & Hd & ?). exists d. by rewrite <- Hperm.
Qed.

(** C37: a poll forwards new deliveries only, and in the order of delivery.
    Each payload handed out is that of a delivery that GitHub returned, not yet
    seen at the given position and covered by the new one, which only advances:
    if its ID is positive no later position counts it as new again.  A failure
    is one of GitHub's or of parsing, and a panic comes from a delivery without
    payload.  The loop over the pages ends when the listing does: with [left]
    further pages at most behind each cursor, fuel for one more than there are
    behind the first page is never exhausted. *)
Theorem poll_forwards_new fuel pos :
  0 <= st_ID pos -> 0 <= st_DeliveredAt pos ->
  always (getUnprocessedDeliveries scope hookID fuel pos) (fun out l =>
    match out with
    | Done (Val (payloads, pos')) =>
        posLe pos pos' /\
        exists ds, map hd_RawPayload ds = map Some payloads /\
          StronglySorted (fun d d' => GetDeliveredAt d <= GetDeliveredAt d') ds /\
          Forall (fun d => d ∈ gotDeliveries l /\ fresh pos d /\ upTo pos' d /\
            (0 < GetID (hd_ID d) -> forall later, posLe pos' later -> ~ fresh later d)) ds
    | Done (Err e) => pollFailed l e
    | Panicked _ => exists d, d ∈ gotDeliveries l /\ hd_RawPayload d = None
    | Exhausted => forall left, pagesEnd left l -> (fuel <= left "")%nat
    end).
Proof.
  intros H0 H0'. unfold getUnprocessedDeliveries. apply always_bind.
  eapply always_mono; [|apply (takePages_spec pos fuel "" ([], pos) [] H0 H0')].
  2:{ split; [|apply sublist_nil_l]. split_and!; [done|constructor|constructor]. }
  intros [[[ds pos']|e]|m|] l Hl; [|simpl in *; by rewrite app_nil_r|done|done]. cbv beta iota. cbn [fst snd].
  destruct Hl as [(Hle & Hds & _) Hsub].
  eapply always_mono; [|apply finishDeliveries_spec]. intros out l' [Hl' Hout].
  assert (forall d, d ∈ ds -> d ∈ gotDeliveries (l ++ l')) as Hgot.
  { intros d Hd. rewrite gotDeliveries_app, Hl', app_nil_r. by eapply elem_of_sublist. }
  destruct out as [[[ps pos'']|e]|m|]; [|done| |done].
  - destruct Hout as (-> & ds' & Hperm & Hraw & Hsort). split; [done|]. exists ds'. split_and!; [done| |].
    + eapply StronglySorted_weaken; [|exact Hsort]. intros d d'. unfold notAfter, deliveredBefore, After. lia.
    + apply Forall_forall. intros d Hd. rewrite Hperm in Hd. rewrite Forall_forall in Hds.
      destruct (Hds d Hd) as [Hf Hu]. split_and!; [by apply Hgot|done|done|].
      intros Hid later Hle'. unfold fresh, upTo, posLe in *. lia.
  - destruct Hout as (d & Hd & ?). exists d. split; [by apply Hgot|done].
Qed.

Lemma sorted_sublist {A} (R : A -> A -> Prop) l l' : l `sublist_of` l' -> StronglySorted R l' -> StronglySorted R l.
Proof.
  induction 1 as [|x l l' Hl IH|x l l' Hl IH]; intros Hs; [done| |]; inversion_clear Hs; [|auto].
  constructor; [auto|]. rewrite Forall_forall in *. intros y Hy. eauto using elem_of_sublist.
Qed.

(** GitHub lists the newest delivery first.  Then a poll forwards at most one
    delivery, whatever the number of new ones: the position moves to the first
    delivery taken, and the next one, which is older, ends the loop. *)
Theorem newest_first_forwards_one fuel pos :
  0 <= st_ID pos -> 0 < st_DeliveredAt pos ->
  always (getUnprocessedDeliveries scope hookID fuel pos) (fun out l =>
    StronglySorted (fun d d' => GetDeliveredAt d' < GetDeliveredAt d) (gotDeliveries l) ->
    forall payloads pos', out = Done (Val (payloads, pos')) -> (length payloads <= 1)%nat).
Proof.
  intros H0 H0'. unfold getUnprocessedDeliveries. apply always_bind.
  eapply always_mono; [|apply (takePages_spec pos fuel "" ([], pos) [] H0 ltac:(lia))].
  2:{ split; [|apply sublist_nil_l]. split_and!; [done|constructor|constructor]. }
  intros [[[ds pos']|e]|m|] l Hl; [|done..]. cbv beta iota. cbn [fst snd].
  destruct Hl as [(_ & _ & Hasc) Hsub].
  eapply always_mono; [|apply finishDeliveries_spec]. intros out l' [Hl' Hout] Hdesc ps pos'' ->.
  destruct Hout as (-> & ds' & Hperm & Hraw & _). rewrite gotDeliveries_app, Hl', app_nil_r in Hdesc.
  apply (f_equal length) in Hraw. rewrite !length_map in Hraw. rewrite <- Hraw, Hperm.
  specialize (Hasc ltac:(lia)). apply (sorted_sublist _ _ _ Hsub) in Hdesc.
  destruct ds as [|d [|d' ds]]; simpl; [lia..|]. exfalso.
  apply StronglySorted_inv in Hasc as [_ Ha], Hdesc as [_ Hd]. apply Forall_cons in Ha as [? _], Hd as [? _]. lia.
Qed.

(** The earlier form never forwards anything: it collects no delivery. *)
Theorem server_forwards_nothing fuel pos :
  always (serverGetUnprocessedDeliveries scope hookID fuel pos) (fun out l =>
    forall payloads pos', out = Done (Val (payloads, pos')) -> payloads = []).
Proof.
  unfold serverGetUnprocessedDeliveries. apply always_bind.
  assert (forall cursor s, fst s = [] -> always (takePages scope hookID (serverTake scope hookID) fuel cursor s)
    (fun out _ => forall s', out = Done (Val s') -> fst s' = [])) as Hpages.
  { induction fuel as [|n IH]; intros cursor s Hs; simpl; [done|]. intros [[ds next]|e]; simpl; [|done].
    apply always_bind. eapply always_mono; [|apply (always_rangeM ds s _ (fun _ s _ => fst s = [])
      (fun out _ => match out with Done (inl s') | Done (inr (Val s')) => fst s' = [] | _ => True end) [] Hs)].
    - intros [[s'|r]|m|] l Hout; simpl in Hout; [|simpl; intros s' [= ->]; done|done|done].
      cbv beta iota. case_decide; [simpl; by intros s'' [= ->]|]. intros u. by apply IH.
    - intros d xs [ds1 pos1] l Hl. simpl in Hl. subst ds1. unfold serverTake, takeDelivery. simpl.
      intros [d'|e]; [|done]. destruct (ParseRequestPayload d'); [done|]. repeat case_match; simplify_eq/=; done.
    - done. }
  eapply always_mono; [|by apply (Hpages "" ([], pos))].
  intros [[s'|e]|m|] l Hout; [|done..]. specialize (Hout _ eq_refl). cbv beta iota. rewrite Hout.
  unfold finishDeliveries. simpl. by intros order ps pos' [= <- _].
Qed.

End PollFacts.

(** ** Checkpoints *)

(** A nil position is never recorded: both implementations panic or fail. *)
Class CheckpointerLaws (C : Type) {CP : Checkpointer C} :=
  update_nil (cp : C) (hookID : Z) :
    always (CheckpointUpdate cp hookID None) (fun out _ => forall cp' e, out = Done (cp', e) -> cp' = cp /\ e <> None).

#[export] Instance inMemoryCheckpointer_laws : CheckpointerLaws InMemoryCheckpointer.
Proof. intros cp hookID. simpl. discriminate. Qed.

#[export] Instance configMapCheckpointer_laws {codec : DeliveryCodec} : CheckpointerLaws ConfigMapCheckpointer.
Proof. intros cp hookID. simpl. intros [cm|e]; simpl; [discriminate|]. by intros cp' e' [= <- <-]. Qed.

Lemma checkpointKey_inj h h' : checkpointKey h = checkpointKey h' -> h = h'.
Proof. unfold checkpointKey, FormatInt. intros H. by simplify_eq. Qed.

(** C38: a checkpoint that was written is found again: the ConfigMap sent to the
    server by a successful update gives back the position of the hook, and
    leaves the positions of all other hooks as they were.  The codec, which is
    encoding/json's, has to read what it wrote. *)
Theorem checkpoint_roundtrip {codec : DeliveryCodec} p hookID pos :
  (forall s data, marshalState s = Val data -> unmarshalState data = Val s) ->
  st_DeliveredAt pos <> 0 ->
  always (cmUpdate p hookID (Some pos)) (fun out l =>
    match out with
    | Done None => exists cm updated a,
        FEv (GetConfigMap (mkNN (cmc_NS p) (cmc_Name p))) (Val cm) ∈ l /\
        FEv (PatchConfigMap updated cm) (Val a) ∈ l /\
        positionIn updated hookID = Ret (Val pos) /\
        forall hookID', hookID' <> hookID -> positionIn updated hookID' = positionIn cm hookID'
    | Done (Some e) =>
        FEv (GetConfigMap (mkNN (cmc_NS p) (cmc_Name p))) (Err e) ∈ l \/ marshalState pos = Err e \/
        exists updated cm, FEv (PatchConfigMap updated cm) (Err e) ∈ l
    | _ => False
    end).
Proof.
  intros Hcodec Hpos. unfold cmUpdate. simpl. intros [cm|e]; simpl; [|left; apply list_elem_of_here].
  destruct (marshalState pos) as [data|e] eqn:Hm; simpl; [|by right; left].
  intros [a|e]; simpl.
  - exists cm, (withPosition cm hookID data), a. split; [apply list_elem_of_here|].
    split; [apply list_elem_of_further, list_elem_of_here|]. split.
    + unfold positionIn, withPosition. simpl. rewrite lookup_insert_eq, (Hcodec _ _ Hm).
      by apply Z.eqb_neq in Hpos as ->.
    + intros h Hne. unfold positionIn, withPosition. simpl.
      rewrite lookup_insert_ne; [done|]. intros H. by apply checkpointKey_inj in H.
  - right; right. exists (withPosition cm hookID data), cm. apply list_elem_of_further, list_elem_of_here.
Qed.

(** ** Rounds *)

(** Successful posts. *)
Definition posted (target : string) (payloads : list string) : flog :=
  map (fun p => FEv (HttpPost target p) None) payloads.

Lemma forwardAll_spec target ps :
  always (forwardAll target ps) (fun out l =>
    match out with
    | Done (inl _) => l = posted target ps
    | Done (inr w) => exists done p rest e, ps = (done ++ p :: rest)%list /\
        l = (posted target done ++ [FEv (HttpPost target p) (Some e); FEv (Wait (5 * Second)) w])%list
    | _ => False
    end).
Proof.
  unfold forwardAll. induction ps as [|p ps IH]; [done|]. simpl. intros [e|]; simpl.
  - intros w. by exists [], p, ps, e.
  - eapply always_mono; [|exact IH]. intros [[u|w]|m|] l Hl; [by rewrite Hl| |done|done].
    destruct Hl as (done' & q & rest & e & -> & ->). by exists (p :: done'), q, rest, e.
Qed.

Section Rounds.
Context {codec : DeliveryCodec} {C : Type} {CP : Checkpointer C} {CL : CheckpointerLaws C}.
Context (f : Forwarder) (fuel : nat) (scope : hookScope) (hookID : Z).

(** A poll from [pos] returned these payloads and this position. *)
Definition polled (pos : State) (payloads : list string) (pos' : State) (l : flog) : Prop :=
  may (getUnprocessedDeliveries scope hookID fuel pos) (Done (Val (payloads, pos'))) l.

(** The payloads of a round were all posted, in order, then the checkpoint
    was updated to the position behind them. *)
Definition recorded (pos : State) (cp : C) (pos' : State) (cp' : C) (e : option err) (l : flog) : Prop :=
  exists payloads l1 l2, polled pos payloads pos' l1 /\
    may (CheckpointUpdate cp hookID (Some pos')) (Done (cp', e)) l2 /\
    l = (l1 ++ posted (fw_Target f) payloads ++ l2)%list.

(** C36: what one round of the loop does to the checkpoint.  It is updated, to
    the position of the poll, only after every payload of the round was posted
    successfully and in order; a round that goes on after a failed post, or
    stops for it, leaves it as it was.  A round that goes on has a position for
    the next one, the one behind the deliveries found, also when the post of
    one of them failed: the next round polls from behind the deliveries of this
    one that were not posted. *)
Theorem poll_round pos cp :
  always (poll f fuel scope hookID (Some pos) cp) (fun out l =>
    match out with
    | Done (Again cur cp') => exists pos', cur = Some pos' /\
        ((exists l', recorded pos cp pos' cp' None l' /\ l = l' ++ [FEv (Wait (pollingDelay f)) None]) \/
         (cp' = cp /\ exists done p rest e l1, polled pos (done ++ p :: rest) pos' l1 /\
            l = l1 ++ posted (fw_Target f) done ++ [FEv (HttpPost (fw_Target f) p) (Some e); FEv (Wait (5 * Second)) None]))%list
    | Done (Stop e cp') => cp' = cp \/ exists pos' e' l', recorded pos cp pos' cp' e' l' /\ l' `prefix_of` l
    | _ => True
    end).
Proof.
  unfold poll. apply always_bind. eapply always_mono; [|apply always_may_log].
  intros [[[ps pos']|e]|m|] l1 H1; [| |done|done]; cbv beta iota zeta.
  - apply always_bind. eapply always_mono; [|apply forwardAll_spec].
    intros [[u|[w|]]|m|] l2 H2; cbv beta iota; [|simpl; by left| |done|done].
    + apply always_bind. eapply always_mono; [|apply always_may_log].
      intros [[cp' e]|m|] l3 H3; [|done|done]; cbv beta iota.
      assert (recorded pos cp pos' cp' e (l1 ++ l2 ++ l3)%list) as Hrec by (exists ps, l1, l3; by subst l2).
      destruct e as [e|]; simpl.
      * right. exists pos', (Some e), (l1 ++ l2 ++ l3)%list. split; [done|]. by rewrite app_nil_r.
      * intros [e|]; simpl.
        -- right. exists pos', None, (l1 ++ l2 ++ l3)%list. split; [done|]. rewrite !app_assoc. by apply prefix_app_r.
        -- exists pos'. split; [done|]. left. exists (l1 ++ l2 ++ l3)%list. split; [done|]. by rewrite !app_assoc.
    + destruct H2 as (done' & p & rest & e & -> & ->). simpl. exists pos'. split; [done|]. right. split; [done|].
      exists done', p, rest, e, l1. by rewrite app_nil_r.
  - destruct (err_canceled e); [simpl; by left|]. simpl. apply always_bind.
    eapply always_mono; [|apply update_nil]. intros [[cp' e']|m|] l3 H3; [|done|done].
    destruct (H3 _ _ eq_refl) as [-> Hne]. destruct e' as [e'|]; [|done]. simpl. by left.
Qed.

End Rounds.

(** A failed poll is fatal: the position is nil afterwards, and updating the
    checkpoint with it panics. *)
Theorem failed_poll_panics {codec : DeliveryCodec} f fuel scope hookID pos (cp : InMemoryCheckpointer) e l :
  may (getUnprocessedDeliveries scope hookID fuel pos) (Done (Err e)) l -> err_canceled e = false ->
  exists m, may (poll f fuel scope hookID (Some pos) cp) (Panicked m) l.
Proof.
  intros H He. eexists. unfold poll. rewrite <- (app_nil_r l). eapply may_bind; [exact H|].
  cbv beta iota zeta. rewrite He. simpl. by split.
Qed.
