(* ===== verification/Servers.v ===== *)
(** * The servers (src/cmd/githubwebhookserver, src/pkg/*/cmd, src/pkg/hookdeliveryforwarder/config.go)

    How the webhook server is configured, and how the three programs that
    serve HTTP run and stop: a worker, an HTTP server and a signal handler that
    share a context, as a transition system. *)

From coqutil Require Import Datatypes.RecordSetters.
Import TriangleBracketNotations.
From stdpp Require Import base list gmap strings relations.
From Stdlib Require Import ZArith Lia Ascii String.
From S2P Require Import Prelude GoStrings Api Calendar Floats Url ClientConfig Metrics Flags Startup.

Open Scope string_scope.
Open Scope Z_scope.

(** ** Configuring the webhook server *)

Record serverOptions := mkServerOptions {
  webhookAddr : string;
  so_metricsAddr : string;
  webhookSecretToken : string;
  watchNamespace : string;
  so_enableLeaderElection : bool;
  so_syncPeriod : duration;
  so_logLevel : string;
  so_config : Config
}.

Definition defaultServerOptions (c : Config) : serverOptions := {|
  webhookAddr := ":8000"; so_metricsAddr := ":8080"; webhookSecretToken := ""; watchNamespace := "";
  so_enableLeaderElection := false; so_syncPeriod := 10 * Minute; so_logLevel := "debug"; so_config := c |}.

Definition serverFlags : list (flagDef serverOptions) := [
  StringVar "webhook-addr" (fun v o => o <| webhookAddr := v |>);
  StringVar "metrics-addr" (fun v o => o <| so_metricsAddr := v |>);
  StringVar "watch-namespace" (fun v o => o <| watchNamespace := v |>);
  BoolVar "enable-leader-election" (fun v o => o <| so_enableLeaderElection := v |>);
  DurationVar "sync-period" (fun v o => o <| so_syncPeriod := v |>);
  StringVar "log-level" (fun v o => o <| so_logLevel := v |>);
  StringVar "github-webhook-secret-token" (fun v o => o <| webhookSecretToken := v |>);
  StringVar "github-token" (fun v o => o <| so_config -> Token := v |>);
  Int64Var "github-app-id" (fun v o => o <| so_config -> AppID := v |>);
  Int64Var "github-app-installation-id" (fun v o => o <| so_config -> AppInstallationID := v |>);
  StringVar "github-app-private-key" (fun v o => o <| so_config -> AppPrivateKey := v |>);
  StringVar "github-url" (fun v o => o <| so_config -> cURL := v |>);
  StringVar "github-upload-url" (fun v o => o <| so_config -> UploadURL := v |>);
  StringVar "github-basicauth-username" (fun v o => o <| so_config -> BasicauthUsername := v |>);
  StringVar "github-basicauth-password" (fun v o => o <| so_config -> BasicauthPassword := v |>);
  StringVar "runner-github-url" (fun v o => o <| so_config -> RunnerGitHubURL := v |>)
].

Definition webhookSecretTokenEnvName : string := "GITHUB_WEBHOOK_SECRET_TOKEN".

(** The flag, or the environment when the flag is empty. *)
Definition secretToken (flag env : string) : string :=
  if bool_decide (flag = "") && negb (bool_decide (env = "")) then env else flag.

(** Whether the user opted in to GitHub API calls. *)
Definition wantsClient (c : Config) : bool :=
  negb (bool_decide (Token c = "")) ||
  ((0 <? AppID c) && (0 <? AppInstallationID c) && negb (bool_decide (AppPrivateKey c = ""))) ||
  (negb (bool_decide (BasicauthUsername c = "")) && negb (bool_decide (BasicauthPassword c = ""))).

(** The servers run, on an address and for a webhook; or the process exited. *)
Inductive launch := Launched (addr : string) (webhook : reconciler) | Refused (code : Z) (msg : string).

Section WebhookServer.
Context {L : ClientLibs}.

Definition serverClient (c : Config) : result (option Client) :=
  if wantsClient c then
    match NewClient c with Val cl => Val (Some cl) | Err e => Err e end
  else Val None.

Definition serverManagerOptions (o : serverOptions) : managerOptions := {|
  mo_MetricsBindAddress := so_metricsAddr o; mo_LeaderElection := so_enableLeaderElection o; mo_LeaderElectionID := "";
  mo_Port := 9443; mo_SyncPeriod := so_syncPeriod o; mo_Namespace := watchNamespace o |}.

Definition launchServers (o : serverOptions) (secret : string) (ghClient : option Client) : SM launch :=
  e <- ask (GetConfigOrDie : sreq) ;;
  match e : option err with
  | Some _ => Ret (Refused 1 "unable to get kubeconfig")
  | None =>
      e <- ask (NewManager (serverManagerOptions o) : sreq) ;;
      match e : option err with
      | Some _ => Ret (Refused 1 "unable to start manager")
      | None =>
          let hraGitHubWebhook := HorizontalRunnerAutoscalerGitHubWebhook secret (watchNamespace o) ghClient in
          e <- SetupWithManager hraGitHubWebhook ;;
          match e with
          | Some _ => Ret (Refused 1 "unable to create controller webhookbasedautoscaler")
          | None => Ret (Launched (webhookAddr o) hraGitHubWebhook)
          end
      end
  end.

Definition webhookServerMain : SM launch :=
  c <- ask (EnvConfig : sreq) ;;
  match c : result Config with
  | Err _ => Ret (Refused 1 "Error: processing environment variables")
  | Val c =>
      env <- ask (Getenv webhookSecretTokenEnvName : sreq) ;;
      args <- ask (Args : sreq) ;;
      match parseFlags serverFlags args (defaultServerOptions c) with
      | UsageAsked => Ret (Refused 0 "")
      | BadFlag msg => Ret (Refused 2 msg)
      | Parsed o =>
          match NewLogger (so_logLevel o) with
          | None => Ret (Refused 1 "Failed to parse --log-level")
          | Some _ =>
              match serverClient (so_config o) with
              | Err _ => Ret (Refused 1 "Error: Client creation failed.")
              | Val ghClient => launchServers o (secretToken (webhookSecretToken o) env) ghClient
              end
          end
      end
  end.

(** Why the server may refuse to start: a step failed, or the command line, the
    log level or the client was refused. *)
Definition serverRefused (l : list (event sans)) : Prop :=
  Exists (fun e => ~ succeeded e) l \/
  exists c args, Ev EnvConfig (Val c) ∈ l /\ Ev Args args ∈ l /\
    match parseFlags serverFlags args (defaultServerOptions c) with
    | UsageAsked | BadFlag _ => True
    | Parsed o => NewLogger (so_logLevel o) = None \/ exists e, wantsClient (so_config o) = true /\ NewClient (so_config o) = Err e
    end.

(** C19: The webhook server starts unless a step failed or its configuration was
    refused, and runs only after its index is registered; it checks
    signatures with the secret of the flag or, if that is empty, of the
    environment; it talks to GitHub exactly if a token, a complete App or a
    complete user and password are given; and it looks for autoscalers in the
    namespace that the manager watches. *)
Theorem webhook_server_configured :
  always webhookServerMain (fun out l =>
    (exists code msg, out = Done (Refused code msg) /\ serverRefused l) \/
    exists c env args o cl addr secret ns,
      out = Done (Launched addr (HorizontalRunnerAutoscalerGitHubWebhook secret ns cl)) /\
      Ev EnvConfig (Val c) ∈ l /\ Ev (Getenv webhookSecretTokenEnvName) env ∈ l /\ Ev Args args ∈ l /\
      parseFlags serverFlags args (defaultServerOptions c) = Parsed o /\
      Ev (IndexField KHRA "scaleTarget") None ∈ l /\
      Ev (NewManager (serverManagerOptions o)) None ∈ l /\
      addr = webhookAddr o /\ ns = watchNamespace o /\
      (webhookSecretToken o <> "" -> secret = webhookSecretToken o) /\
      (webhookSecretToken o = "" -> secret = env) /\
      (is_Some cl <-> Token (so_config o) <> "" \/
         (0 < AppID (so_config o) /\ 0 < AppInstallationID (so_config o) /\ AppPrivateKey (so_config o) <> "") \/
         (BasicauthUsername (so_config o) <> "" /\ BasicauthPassword (so_config o) <> ""))).
Proof.
  assert (forall flag env, (flag <> "" -> secretToken flag env = flag) /\ (flag = "" -> secretToken flag env = env)) as Hsec.
  { intros flag env. unfold secretToken. split; [intros H; by rewrite bool_decide_false|].
    intros ->. simpl. by case_bool_decide; subst. }
  assert (forall l code msg (Q : Prop), serverRefused l ->
    (exists code' msg', @Done launch (Refused code msg) = Done (Refused code' msg') /\ serverRefused l) \/ Q) as Href by eauto.
  unfold webhookServerMain. cbn -[launchServers]. intros [c|e]; cbn -[launchServers].
  2: { apply Href. left. apply Exists_cons_hd. by intros [? ?]. }
  intros env args. destruct (parseFlags serverFlags args (defaultServerOptions c)) as [o| |msg] eqn:Hp; cbn -[launchServers].
  2-3: apply Href; right; exists c, args; rewrite Hp; split_and!; [set_solver..|done].
  destruct (NewLogger (so_logLevel o)) eqn:Hlog; cbn -[launchServers].
  2: apply Href; right; exists c, args; rewrite Hp; split_and!; [set_solver..|by left].
  destruct (serverClient (so_config o)) as [cl|] eqn:Hcl; cbn -[launchServers].
  2: { apply Href. right. exists c, args. rewrite Hp. split_and!; [set_solver..|]. right.
       unfold serverClient in Hcl. destruct (wantsClient _); [|done]. destruct (NewClient _); simplify_eq. by eexists. }
  unfold launchServers. cbn.
  do 4 (intros [?|]; cbn; [apply Href; left; repeat first [apply Exists_cons_hd; discriminate | apply Exists_cons_tl]|]). right.
  exists c, env, args, o, cl. do 3 eexists. split; [reflexivity|]. destruct (Hsec (webhookSecretToken o) env) as [Hs1 Hs2].
  split_and!; try done; try solve [repeat constructor]. clear -Hcl.
  assert (is_Some cl <-> wantsClient (so_config o) = true) as ->.
  { unfold serverClient in Hcl. destruct (wantsClient _); [|by simplify_eq].
    destruct (NewClient _); simplify_eq. split; [done|by eexists]. }
  unfold wantsClient. rewrite !orb_true_iff, !andb_true_iff, !negb_true_iff, !bool_decide_eq_false, !Z.ltb_lt. tauto.
Qed.

End WebhookServer.

(** ** Running and stopping *)

(** What tells the programs apart: whether the process exits when the worker
    fails; whether a manager runs beside it that exits the process when it
    fails; whether the worker returns when its context is done; whether it
    polls GitHub, with a position that is nil after a failed poll; and whether
    it then updates a checkpoint, which may fail before the nil position is
    looked at. *)
Record program := mkProgram {
  workerFatal : bool;
  backgroundFatal : bool;
  honoursContext : bool;
  polls : bool;
  checkpoints : bool
}.

Definition deliveryForwarder : program := mkProgram false false false true false.

(** A goroutine that ends with [defer cancel(); defer wg.Done()]: first the
    wait group is told, then the context is cancelled.  A worker whose position
    is nil is [Broken]. *)
Inductive goroutine := Working | Broken | ToldGroup | Ended.

(** The goroutine that calls [srv.Shutdown] once the context is done. *)
Inductive shutdown := Waiting | ShuttingDown | ShutDown.

(** [inflight] counts the requests being handled; [exit] is the exit code,
    after which nothing happens. *)
Record process := mkProcess {
  ctxDone : bool;
  worker : goroutine;
  server : goroutine;
  closer : shutdown;
  signalled : bool;
  inflight : nat;
  exit : option Z
}.

(** [SetupSignalHandler]: the first signal cancels the context, the second one
    exits directly. *)
Definition onSignal (p : process) : process :=
  if signalled p then p <| exit := Some 1 |> else p <| signalled := true |> <| ctxDone := true |>.

Definition started : process := mkProcess false Working Working Waiting false 0 None.

(** Who takes a step: the program itself, its environment, or a client. *)
Inductive actor := Program | Environment | Request.

(** Whether a goroutine has told the wait group. *)
Definition returned (g : goroutine) : bool :=
  match g with ToldGroup | Ended => true | Working | Broken => false end.

Inductive step (pg : program) : actor -> process -> process -> Prop :=
| worker_stops p :        (* the worker returns as its context is done *)
    exit p = None -> worker p = Working -> ctxDone p = true -> honoursContext pg = true ->
    step pg Program p (p <| worker := ToldGroup |>)
| poll_cancelled p :      (* or its next poll fails for that reason *)
    exit p = None -> worker p = Working -> ctxDone p = true -> honoursContext pg = false -> polls pg = true ->
    step pg Program p (p <| worker := Broken |>)
| poll_fails p :
    exit p = None -> worker p = Working -> polls pg = true ->
    step pg Environment p (p <| worker := Broken |>)
| worker_panics p :       (* the nil position is dereferenced *)
    exit p = None -> worker p = Broken ->
    step pg Program p (p <| exit := Some 2 |>)
| update_fails p :
    exit p = None -> worker p = Broken -> checkpoints pg = true ->
    step pg Environment p (p <| worker := ToldGroup |>)
| worker_returns p :      (* or for reasons of its own *)
    exit p = None -> worker p = Working ->
    step pg Environment p (p <| worker := ToldGroup |>)
| worker_fails p :
    exit p = None -> worker p = Working -> workerFatal pg = true ->
    step pg Environment p (p <| exit := Some 1 |>)
| background_fails p :
    exit p = None -> backgroundFatal pg = true ->
    step pg Environment p (p <| exit := Some 1 |>)
| worker_cancels p :
    exit p = None -> worker p = ToldGroup ->
    step pg Program p (p <| worker := Ended |> <| ctxDone := true |>)
| server_fails p :        (* ListenAndServe cannot listen, or accept *)
    exit p = None -> server p = Working ->
    step pg Environment p (p <| server := ToldGroup |>)
| server_closed p :       (* Shutdown makes ListenAndServe return at once *)
    exit p = None -> server p = Working -> closer p <> Waiting ->
    step pg Program p (p <| server := ToldGroup |>)
| server_cancels p :
    exit p = None -> server p = ToldGroup ->
    step pg Program p (p <| server := Ended |> <| ctxDone := true |>)
| shutdown_starts p :
    exit p = None -> ctxDone p = true -> closer p = Waiting ->
    step pg Program p (p <| closer := ShuttingDown |>)
| shutdown_ends p :       (* Shutdown waits for the requests *)
    exit p = None -> closer p = ShuttingDown -> inflight p = O ->
    step pg Program p (p <| closer := ShutDown |>)
| signal_received p :
    exit p = None -> step pg Environment p (onSignal p)
| main_returns p :        (* wg.Wait() *)
    exit p = None -> returned (worker p) = true -> returned (server p) = true ->
    step pg Program p (p <| exit := Some 0 |>)
| request_arrives p :
    exit p = None -> server p = Working -> closer p = Waiting ->
    step pg Request p (p <| inflight ::= S |>)
| request_done p n :
    exit p = None -> inflight p = S n ->
    step pg Request p (p <| inflight := n |>).

Definition steps (pg : program) : process -> process -> Prop := rtc (fun p p' => exists a, step pg a p p').
Definition reachable (pg : program) (p : process) : Prop := steps pg started p.


(** A run, with who took each step. *)
Inductive runs (pg : program) : process -> list actor -> process -> Prop :=
| runs_nil p : runs pg p [] p
| runs_cons p a p1 l p2 : step pg a p p1 -> runs pg p1 l p2 -> runs pg p (a :: l) p2.



Ltac each_step H :=
  destruct H as [p|p|p|p|p|p|p|p|p|p|p|p|p|p|p|p|p|p n]; destruct p as [c w s h g i x]; unfold onSignal in *; cbn in *; subst.




(** *** Stopping *)










(** The worker of the delivery forwarder ignores the context: after a signal
    its next poll fails, which it survives, and the position that leaves is nil.
    Unless the worker returns for another reason (it does so before its first
    poll only), the process ends in a panic. *)
Theorem delivery_forwarder_panics p l p' :
  Environment ∉ l -> runs deliveryForwarder p l p' ->
  returned (worker p) = false -> exit p = None ->
  returned (worker p') = false /\ (exit p' = None \/ exit p' = Some 2).
Proof.
  intros Hl Hr. induction Hr as [|p a p1 l p2 Hs Hr IH]; [by auto|]. intros Hw He.
  apply not_elem_of_cons in Hl as [Hne Hl].
  assert (returned (worker p1) = false /\ (exit p1 = None \/ exit p1 = Some 2)) as [Hw1 He1].
  { clear -Hs Hw He Hne. each_step Hs; cbv [constant]; try done; (by auto) || congruence. }
  destruct He1 as [He1|He1]; [by apply IH|].
  destruct Hr as [p1|p1 a' p1' l p2 Hs' _]; [by auto|]. exfalso. inversion Hs'; congruence.
Qed.

(** The process may exit with code 0 while a request is still being handled:
    [ListenAndServe] returns as soon as [Shutdown] is called, and [main] waits
    for it, not for [Shutdown]. *)
Theorem exit_may_drop_requests pg :
  honoursContext pg = true -> exists p, reachable pg p /\ exit p = Some 0 /\ inflight p = 1%nat.
Proof.
  intros Hpg.
  assert (forall a p p1 p2, step pg a p p1 -> steps pg p1 p2 -> steps pg p p2) as Hgo by (intros; eapply rtc_l; eauto).
  eexists. split; [|split].
  - eapply Hgo; [by apply request_arrives|]. eapply Hgo; [by apply signal_received|].
    eapply Hgo; [by apply shutdown_starts|]. eapply Hgo; [by apply worker_stops|].
    eapply Hgo; [by apply server_closed|]. eapply Hgo; [by apply main_returns|]. apply rtc_refl.
  - reflexivity.
  - reflexivity.
Qed.

(** A server that cannot listen ends the process, but with code 0. *)
Theorem failed_server_exits_zero pg :
  honoursContext pg = true ->
  exists p1 p, step pg Environment started p1 /\ server p1 = ToldGroup /\ steps pg p1 p /\ exit p = Some 0 /\
    signalled p = false.
Proof.
  intros Hpg.
  assert (forall a p p1 p2, step pg a p p1 -> steps pg p1 p2 -> steps pg p p2) as Hgo by (intros; eapply rtc_l; eauto).
  eexists. eexists. split; [by apply server_fails|]. split; [reflexivity|]. split.
  - eapply Hgo; [by apply server_cancels|]. eapply Hgo; [by apply worker_stops|].
    eapply Hgo; [by apply main_returns|]. apply rtc_refl.
  - split; reflexivity.
Qed.
