(* ===== verification/ForwarderStart.v ===== *)
(** * Starting the delivery forwarders (src/pkg/*/cmd/main.go, config.go, multiforwarder.go)

    The command lines of the two forwarders, the goroutines of a multi
    forwarder and the handler of their health checks. *)

From coqutil Require Import Datatypes.RecordSetters.
Import TriangleBracketNotations.
From stdpp Require Import base list gmap strings relations.
From Stdlib Require Import ZArith Lia Ascii String.
From S2P Require Import Prelude GoStrings Api Calendar Floats Url ClientConfig Metrics Flags Startup Forwarder Servers.

Open Scope string_scope.
Open Scope Z_scope.

(** ** The forwarder of one repository *)

Record deliveryOptions := mkDeliveryOptions {
  do_metricsAddr : string;
  do_target : string;
  do_repo : string;
  do_config : Config
}.

Definition deliveryFlags : list (flagDef deliveryOptions) := [
  StringVar "metrics-addr" (fun v o => o <| do_metricsAddr := v |>);
  StringVar "repo" (fun v o => o <| do_repo := v |>);
  StringVar "target" (fun v o => o <| do_target := v |>);
  StringVar "github-token" (fun v o => o <| do_config -> Token := v |>);
  Int64Var "github-app-id" (fun v o => o <| do_config -> AppID := v |>);
  Int64Var "github-app-installation-id" (fun v o => o <| do_config -> AppInstallationID := v |>);
  StringVar "github-app-private-key" (fun v o => o <| do_config -> AppPrivateKey := v |>)
].

(** ** The forwarder of several rules *)

Record hookOptions := mkHookOptions {
  ho_logLevel : string;
  ho_configMapName : string;
  ho_namespace : string;
  ho_metricsAddr : string;
  ho_rules : list string;
  ho_config : Config
}.

(** [StringSlice.Set] and, for the list it has gathered, [StringSlice.String]. *)
Definition StringSlice_Set (s : list string) (value : string) : list string := (s ++ [value])%list.
Definition StringSlice_String (s : option (list string)) : string :=
  match s with None => "" | Some l => "[" +:+ Join l " " +:+ "]" end.

(** [Config.InitFlags] of the checkpointer and of the forwarder, after main's. *)
Definition hookFlags : list (flagDef hookOptions) := [
  StringVar "log-level" (fun v o => o <| ho_logLevel := v |>);
  StringVar "configmap-name" (fun v o => o <| ho_configMapName := v |>);
  StringVar "namespace" (fun v o => o <| ho_namespace := v |>);
  StringVar "metrics-addr" (fun v o => o <| ho_metricsAddr := v |>);
  StringVar "rule" (fun v o => o <| ho_rules ::= fun s => StringSlice_Set s v |>);
  StringVar "github-token" (fun v o => o <| ho_config -> Token := v |>);
  Int64Var "github-app-id" (fun v o => o <| ho_config -> AppID := v |>);
  Int64Var "github-app-installation-id" (fun v o => o <| ho_config -> AppInstallationID := v |>);
  StringVar "github-app-private-key" (fun v o => o <| ho_config -> AppPrivateKey := v |>)
].

Definition defaultHookOptions (c : Config) : hookOptions := {|
  ho_logLevel := "debug"; ho_configMapName := "gh-webhook-forwarder"; ho_namespace := "default";
  ho_metricsAddr := ":8000"; ho_rules := []; ho_config := c |}.

(** What runs after the start: the workers and the address of the health check. *)
Inductive forwarding :=
| ForwardRepo (repo target addr : string)
| ForwardRules (rules : list Rule) (checkpoints : ConfigMapCheckpointer) (log : zapOptions) (addr : string)
| NotStarted (code : Z) (msg : string).

Section Start.
Context {L : ClientLibs} (unmarshal : string -> result RuleConfig).

(** An error of envconfig is only printed; [partial] is what it has filled in
    by then. *)
Definition envOrPartial (partial : Config) (r : result Config) : Config :=
  match r with Val c => c | Err _ => partial end.

Definition deliveryForwarderMain (partial : Config) : SM forwarding :=
  env <- ask (EnvConfig : sreq) ;;
  args <- ask (Args : sreq) ;;
  match parseFlags deliveryFlags args (mkDeliveryOptions ":8000" "" "" (envOrPartial partial env)) with
  | UsageAsked => Ret (NotStarted 0 "")
  | BadFlag msg => Ret (NotStarted 2 msg)
  | Parsed o =>
      match NewClient (do_config o) with
      | Err _ => Ret (NotStarted 1 "Error: Client creation failed.")
      | Val _ => Ret (ForwardRepo (do_repo o) (do_target o) (do_metricsAddr o))
      end
  end.

(** [configmap.New] *)
Definition newConfigMapCheckpointer (name ns : string) : SM (result ConfigMapCheckpointer) :=
  e <- ask (GetConfigOrDie : sreq) ;;
  match e : option err with
  | Some e => Ret (Err e)
  | None =>
      e <- ask (NewManager (mkManagerOptions "" false "hookdeliveryforwarder" 9443 0 "") : sreq) ;;
      match e : option err with
      | Some e => Ret (Err (newError ("unable to start manager: " +:+ err_msg e)))
      | None => Ret (Val (mkConfigMapCheckpointer name ns))
      end
  end.

(** [Run] of config.go, up to the goroutines. *)
Definition startForwarder (o : hookOptions) (p : ConfigMapCheckpointer) : forwarding :=
  match NewClient (ho_config o) with
  | Err _ => NotStarted 1 "Error: Client creation failed."
  | Val _ =>
      match newRules unmarshal (ho_rules o) with
      | Err _ => NotStarted 1 "problem initializing forwarder"
      | Val rules => ForwardRules rules p (newZapLogger (ho_logLevel o)) (ho_metricsAddr o)
      end
  end.

Definition hookForwarderMain (partial : Config) : SM forwarding :=
  env <- ask (EnvConfig : sreq) ;;
  args <- ask (Args : sreq) ;;
  match parseFlags hookFlags args (defaultHookOptions (envOrPartial partial env)) with
  | UsageAsked => Ret (NotStarted 0 "")
  | BadFlag msg => Ret (NotStarted 2 msg)
  | Parsed o =>
      p <- newConfigMapCheckpointer (ho_configMapName o) (ho_namespace o) ;;
      match p with
      | Err _ => Ret (NotStarted 1 "unable to start manager")
      | Val p => Ret (startForwarder o p)
      end
  end.

End Start.

(** The deliveries of the hook that was found, with the same owner. *)
Definition newHookDeliveriesAPI (org repo : string) (hookID : Z)
  : (Z -> FM (result HookDelivery)) * (string -> FM (result (list HookDelivery * string))) :=
  let scope := if decide (repo <> "") then RepoHooks org repo else OrgHooks org in
  (fun id => ask (GetHookDelivery scope hookID id : freq), fun cursor => ask (ListHookDeliveries scope hookID cursor : freq)).

(** ** The goroutines of a multi forwarder *)

(** A goroutine per rule: it looks for a hook, and if there is none it fills in
    the configuration of the one to create, in a map that the rules made from
    the same [--rule] share; then it polls until it ends with an error. *)
Inductive forwarderState := LookingForHook | WritingConfig | Polling | Finished.
#[global] Instance forwarderState_eq_dec : EqDecision forwarderState.
Proof. solve_decision. Defined.

(** [errs] is the channel, [mf_result] what [Run] returned: [Some None] is nil. *)
Record multiForwarder := mkMulti {
  mf_threads : list (nat * forwarderState);
  mf_errs : list err;
  mf_result : option (option err)
}.

(** The goroutines of rules of which the [i]-th has its map from the
    [source i]-th [--rule]. *)
Definition launchRules (sources : list nat) : multiForwarder :=
  mkMulti (map (fun s => (s, LookingForHook)) sources) [] None.

Inductive mstep (cap : nat) : multiForwarder -> multiForwarder -> Prop :=
| m_found s i src :
    mf_threads s !! i = Some (src, LookingForHook) ->
    mstep cap s (mkMulti (<[i := (src, Polling)]> (mf_threads s)) (mf_errs s) (mf_result s))
| m_missing s i src :
    mf_threads s !! i = Some (src, LookingForHook) ->
    mstep cap s (mkMulti (<[i := (src, WritingConfig)]> (mf_threads s)) (mf_errs s) (mf_result s))
| m_created s i src :
    mf_threads s !! i = Some (src, WritingConfig) ->
    mstep cap s (mkMulti (<[i := (src, Polling)]> (mf_threads s)) (mf_errs s) (mf_result s))
| m_ended s i src st e :        (* errs <- f.run(ctx, r): blocks while the channel is full *)
    mf_threads s !! i = Some (src, st) -> st <> Finished -> (List.length (mf_errs s) < cap)%nat ->
    mstep cap s (mkMulti (<[i := (src, Finished)]> (mf_threads s)) (mf_errs s ++ [e])%list (mf_result s))
| m_returns s :                 (* after wg.Wait(): the first error in the channel, if any *)
    mf_result s = None -> Forall (fun t => t.2 = Finished) (mf_threads s) ->
    mstep cap s (mkMulti (mf_threads s) (tail (mf_errs s)) (Some (head (mf_errs s)))).

Definition mreachable (sources : list nat) (s : multiForwarder) : Prop :=
  rtc (mstep (List.length sources)) (launchRules sources) s.

(** ** Health checks *)

(** An [http.ResponseWriter]: the first status wins, and writing a body
    without one means 200. *)
Record responseWriter := mkWriter { rw_status : option Z; rw_body : string; rw_superfluous : nat }.

Definition WriteHeader (code : Z) (w : responseWriter) : responseWriter :=
  match rw_status w with
  | None => mkWriter (Some code) (rw_body w) (rw_superfluous w)
  | Some s => mkWriter (Some s) (rw_body w) (S (rw_superfluous w))
  end.
Definition Write (s : string) (w : responseWriter) : responseWriter :=
  mkWriter (Some (default 200 (rw_status w))) (rw_body w +:+ s) (rw_superfluous w).

(** [HandleReadyz] of both forwarders: [ok] stays false, so the deferred
    function sets a status in the end. *)
Definition HandleReadyz (method : string) (w : responseWriter) : responseWriter :=
  let w := if decide (method = "GET") then Write ("webhook server is running" +:+ String (ascii_of_nat 10) "") w
           else Write "ok" (WriteHeader 200 w) in
  WriteHeader 500 w.

(** The earlier forwarder has the same handler. *)
Definition serverHandleReadyz : string -> responseWriter -> responseWriter := HandleReadyz.

(** * Properties *)

Definition unfinished (s : multiForwarder) : list (nat * forwarderState) :=
  filter (fun t => t.2 <> Finished) (mf_threads s).

(** Every goroutine that has ended left its error in the channel, and [Run]
    returns after the last. *)
Definition multiOK (sources : list nat) (s : multiForwarder) : Prop :=
  map fst (mf_threads s) = sources /\
  match mf_result s with
  | None => (List.length (mf_errs s) + List.length (unfinished s) = List.length sources)%nat
  | Some r => unfinished s = [] /\ (r = None <-> sources = [])
  end.

Lemma unfinished_nil ts : filter (fun t : nat * forwarderState => t.2 <> Finished) ts = [] <-> Forall (fun t => t.2 = Finished) ts.
Proof.
  induction ts as [|[src st] ts IH]; [done|]. rewrite filter_cons, Forall_cons. simpl.
  destruct (decide (st = Finished)) as [->|Hne].
  - rewrite decide_False by naive_solver. rewrite IH. naive_solver.
  - rewrite decide_True by done. naive_solver.
Qed.

(** Changing the state of one goroutine. *)
Lemma unfinished_insert ts i src st st' :
  ts !! i = Some (src, st) -> st <> Finished ->
  let f := filter (fun t : nat * forwarderState => t.2 <> Finished) in
  map fst (<[i := (src, st')]> ts) = map fst ts /\
  (List.length (f (<[i := (src, st')]> ts)) + (if decide (st' = Finished) then 1 else 0) = List.length (f ts))%nat.
Proof.
  intros Hi Hst f. split.
  - change (fst <$> <[i:=(src, st')]> ts = fst <$> ts). rewrite list_fmap_insert. apply list_insert_id.
    by rewrite list_lookup_fmap, Hi.
  - revert i Hi. unfold f. induction ts as [|[s0 t0] ts IH]; intros [|i] Hi; simpl in *; simplify_eq.
    + rewrite !filter_cons. simpl. rewrite (decide_True (P := st <> Finished)) by done.
      destruct (decide (st' = Finished)) as [->|Hne].
      * rewrite decide_False by naive_solver. simpl. lia.
      * rewrite decide_True by done. simpl. lia.
    + rewrite !filter_cons. simpl. specialize (IH i Hi). destruct (decide (t0 <> Finished)); simpl; lia.
Qed.

Lemma unfinished_in s i src st :
  mf_threads s !! i = Some (src, st) -> st <> Finished -> unfinished s <> [].
Proof.
  intros Hi Hst He. unfold unfinished in He. rewrite unfinished_nil, Forall_lookup in He.
  by specialize (He _ _ Hi).
Qed.

Lemma multiOK_step sources s s' :
  multiOK sources s -> mstep (List.length sources) s s' -> multiOK sources s'.
Proof.
  intros [Hsrc Hres] Hs. unfold multiOK, unfinished in *.
  destruct Hs as [s i src Hi|s i src Hi|s i src Hi|s i src st e Hi Hst Hcap|s Hr Hall]; simpl.
  1-3: destruct (unfinished_insert _ _ _ _ Polling Hi ltac:(done)) as [H1 H2];
    destruct (unfinished_insert _ _ _ _ WritingConfig Hi ltac:(done)) as [H3 H4]; simpl in H2, H4;
    split; [congruence|]; destruct (mf_result s); [|lia];
    destruct Hres as [Hu _]; exfalso; by eapply (unfinished_in s).
  - destruct (unfinished_insert _ _ _ _ Finished Hi Hst) as [H1 H2]. simpl in H2.
    split; [congruence|]. destruct (mf_result s).
    + destruct Hres as [Hu _]. exfalso. by eapply (unfinished_in s).
    + rewrite length_app. simpl. lia.
  - split; [done|]. rewrite Hr in Hres. apply unfinished_nil in Hall. rewrite Hall in *. split; [done|].
    simpl in Hres. rewrite Nat.add_0_r in Hres. destruct (mf_errs s), sources; simpl in *; try done.
Qed.

(** A multi forwarder loses no error and leaves no goroutine behind: while one
    still runs, the channel has room for what it will report, so it can always
    end; and [Run] returns only after all of them ended, with an error unless
    there was no rule. *)
Theorem multi_forwarder_returns sources s :
  mreachable sources s ->
  (unfinished s <> [] -> (List.length (mf_errs s) < List.length sources)%nat /\ mf_result s = None) /\
  (forall r, mf_result s = Some r -> unfinished s = [] /\ (r = None <-> sources = [])) /\
  (unfinished s = [] -> mf_result s = None -> exists s', mstep (List.length sources) s s' /\ is_Some (mf_result s')).
Proof.
  intros Hr. assert (multiOK sources s) as [_ Hres].
  { unfold mreachable in Hr.
    assert (multiOK sources (launchRules sources)) as H0.
    { unfold multiOK, unfinished, launchRules. simpl. split.
      - rewrite map_map. simpl. apply map_id.
      - clear. induction sources as [|a l IH]; [done|]. cbn [map]. rewrite filter_cons, decide_True by done. cbn [List.length]. lia. }
    revert H0. induction Hr as [|s s1 s2 Hs _ IH]; [done|]. intros H0. apply IH. by eapply multiOK_step. }
  split_and!.
  - intros Hne. destruct (mf_result s); [naive_solver|]. split; [|done]. destruct (unfinished s); [done|]. simpl in Hres. lia.
  - intros r Hs. by rewrite Hs in Hres.
  - intros Hu Hn. eexists. split; [by apply m_returns; [|apply unfinished_nil]|]. by eexists.
Qed.

(** Rules of one [--rule] share the map of their hook's configuration: its
    position in the list of rule configurations names the map. *)
Definition ruleSources (configs : list RuleConfig) : list nat :=
  List.concat (imap (fun i c => repeat i (List.length (rcf_Repo c))) configs).

(** Two goroutines write the same map at the same time when a rule names two
    repositories that have no hook yet. *)
Theorem shared_hook_config_race repo1 repo2 repos target hook configs :
  exists s i j src,
    mreachable (ruleSources (mkRuleConfig (repo1 :: repo2 :: repos) target hook :: configs)) s /\ i <> j /\
    mf_threads s !! i = Some (src, WritingConfig) /\ mf_threads s !! j = Some (src, WritingConfig).
Proof.
  unfold ruleSources. simpl. set (rest := (_ ++ _)%list). eexists _, 0%nat, 1%nat, 0%nat. split_and!; [|done| |].
  - unfold mreachable. eapply rtc_l; [by apply (m_missing _ _ 0)|]. eapply rtc_l; [by apply (m_missing _ _ 1)|]. apply rtc_refl.
  - reflexivity.
  - reflexivity.
Qed.

(** The health check answers 200 whatever the method, although the handler
    tries to turn it into an error at the end. *)
Theorem readyz_ok method :
  let w := HandleReadyz method (mkWriter None "" 0) in
  rw_status w = Some 200 /\ rw_body w <> "" /\ rw_superfluous w = 1%nat.
Proof. unfold HandleReadyz. case_decide; done. Qed.
