(* ===== verification/Witnesses.v ===== *)
(** * Witnesses

    Concrete objects, servers and library instances at which the hypotheses
    of the theorems hold. *)

From stdpp Require Import base list gmap strings sorting.
From Stdlib Require Import ZArith Lia.
From S2P Require Import Prelude Api GoStrings ActionsGlob GitHubClient RunnerGroups RunnerPod GracefulStop PodOwner Hash PodBuilder RunnerPodController RunnerController Admission Calendar Schedule Floats RunnerDeployment RunnerSetController ReplicaSet Autoscaler Webhook Forwarder.

Open Scope string_scope.
Open Scope Z_scope.

(** ** Sample objects *)

Definition aMeta (name : string) (created : time) : ObjectMeta :=
  {| om_Name := name; om_GenerateName := ""; om_Namespace := "default";
     om_Labels := {[LabelKeyRunnerTemplateHash := "h"]}; om_Annotations := ∅;
     om_CreationTimestamp := created; om_DeletionTimestamp := None; om_Finalizers := [];
     om_OwnerReferences := [] |}.

Definition aContainer (name : string) : Container :=
  {| c_Name := name; c_Image := "img"; c_ImagePullPolicy := ""; c_Args := []; c_Env := []; c_EnvFrom := [];
     c_Resources := ""; c_VolumeMounts := []; c_SecurityContext := None; c_rest := "" |}.

Definition aPodSpec : PodSpec :=
  {| ps_Containers := [aContainer containerName]; ps_InitContainers := []; ps_EphemeralContainers := [];
     ps_Volumes := []; ps_RestartPolicy := ""; ps_ImagePullSecrets := []; ps_SecurityContext := None;
     ps_EnableServiceLinks := None; ps_NodeSelector := None; ps_ServiceAccountName := "";
     ps_AutomountServiceAccountToken := None; ps_Affinity := None; ps_Tolerations := [];
     ps_TopologySpreadConstraints := []; ps_TerminationGracePeriodSeconds := None; ps_HostAliases := [];
     ps_DNSConfig := None; ps_RuntimeClassName := None; ps_rest := "" |}.

Definition aPod (name phase : string) : Pod :=
  {| pod_Meta := aMeta name 0; pod_Spec := aPodSpec;
     pod_Status := {| pst_Phase := phase; pst_Reason := ""; pst_Message := ""; pst_Conditions := [];
                      pst_ContainerStatuses := [] |} |}.

Definition aRunnerConfig : RunnerConfig :=
  {| rc_Enterprise := ""; rc_Organization := "org"; rc_Repository := ""; rc_Labels := ["gpu"]; rc_Group := "";
     rc_Ephemeral := None; rc_Image := ""; rc_WorkDir := ""; rc_DockerdWithinRunnerContainer := None;
     rc_DockerEnabled := None; rc_DockerMTU := None; rc_DockerRegistryMirror := None;
     rc_VolumeSizeLimit := None; rc_VolumeStorageMedium := None |}.

Definition aRunnerPodSpec : RunnerPodSpec :=
  {| rp_DockerdContainerResources := ""; rp_DockerVolumeMounts := []; rp_DockerEnv := []; rp_Containers := [];
     rp_ImagePullPolicy := ""; rp_Env := []; rp_EnvFrom := []; rp_Resources := ""; rp_VolumeMounts := [];
     rp_Volumes := []; rp_EnableServiceLinks := None; rp_InitContainers := []; rp_NodeSelector := None;
     rp_ServiceAccountName := ""; rp_AutomountServiceAccountToken := None; rp_SidecarContainers := [];
     rp_SecurityContext := None; rp_ImagePullSecrets := []; rp_Affinity := None; rp_Tolerations := [];
     rp_TerminationGracePeriodSeconds := None; rp_EphemeralContainers := []; rp_HostAliases := [];
     rp_TopologySpreadConstraints := []; rp_RuntimeClassName := None; rp_DnsConfig := None |}.

Definition aRunner (name : string) (created : time) : Runner :=
  {| r_Meta := aMeta name created;
     r_Spec := {| rsp_Config := aRunnerConfig; rsp_Pod := aRunnerPodSpec |};
     r_Status := emptyRunnerStatus |}.

Definition aTemplate : RunnerTemplate :=
  {| rt_Meta := emptyMeta; rt_Spec := {| rsp_Config := aRunnerConfig; rsp_Pod := aRunnerPodSpec |} |}.

Definition aDeployment : RunnerDeployment :=
  {| rd_Meta := aMeta "rd" 0;
     rd_Spec := {| rds_Replicas := Some 2; rds_EffectiveTime := None; rds_Selector := None;
                   rds_Template := aTemplate |};
     rd_Status := mkRDStatus None None None None None |}.

Definition aStatefulSet : StatefulSet :=
  {| sts_Meta := aMeta "ss" 0;
     sts_Spec := {| ss_Replicas := Some 1; ss_Selector := None; ss_TemplateMeta := aMeta "" 0;
                    ss_TemplateSpec := aPodSpec; ss_rest := "" |};
     sts_Status := mkStatefulSetStatus 1 1 1 1 |}.

Definition aHRA : HorizontalRunnerAutoscaler :=
  {| hra_Meta := aMeta "hra" 0;
     hra_Spec := {| hras_ScaleTargetRef := mkScaleTargetRef "" "rd"; hras_MinReplicas := Some 1;
                    hras_MaxReplicas := Some 5; hras_ScaleDownDelaySecondsAfterScaleUp := None;
                    hras_Metrics := []; hras_ScaleUpTriggers := [];
                    hras_CapacityReservations := [mkReservation "" 100 1 0; mkReservation "" 5 3 0];
                    hras_ScheduledOverrides := [mkScheduledOverride 0 10 (Some 4) (mkRecurrenceRule "" 0)] |};
     hra_Status := mkHRAStatus 0 None None [] None |}.

(** An owner with running and pending pods. *)
Definition anOwner (name : string) (created : time) (r p : Z) : podsForOwner KRunner :=
  mkPodsForOwner (k := KRunner) (r + p) 0 r 0 0 p "h" (aRunner name created) true [].

(** ** Sample library instances *)

#[global] Instance aPrinting : Printing := {| spew := fun _ => "template"; SafeEncodeString := fun s => s |}.

(** A rule that occurs once, at its start. *)
#[global] Instance anRRule : RRule := {|
  rule := time;
  NewRRule := fun _ start _ => Val start;
  RuleBetween := fun r a b _ => if (a <=? r) && (r <=? b) then [r] else []
|}.

#[global] Instance anRRule_laws : RRuleLaws anRRule.
Proof.
  refine {| occurs := fun r t => t = r |}; simpl.
  - intros r a b t. destruct ((a <=? r) && (r <=? b)) eqn:H; rewrite ?list_elem_of_singleton, ?elem_of_nil; lia.
  - intros r a b. destruct (_ && _); repeat constructor.
Defined.

(** ** A GitHub with two pages of runners, one repository and one run *)

Definition somePages : list (list GHRunner) := [[mkGHRunner (Some 1) "r1" "online" true]; [mkGHRunner (Some 2) "r2" "online" false]].
Definition someRuns (status : string) : list (list WorkflowRun) :=
  if decide (status = "queued") then [[mkWorkflowRun 7 "queued"]] else [[]].
Definition someJobs : list (list WorkflowJob) :=
  [[mkWorkflowJob "queued" ["self-hosted"; "gpu"]]; [mkWorkflowJob "queued" ["ubuntu-latest"]]].

Definition someGitHub (q : req) (w : unit) : ans q * unit :=
  match q return ans q * unit with
  | GHListRunners _ page => (Val (servePage somePages page), w)
  | GHListRepositoryWorkflowRuns _ _ status page => (Val (servePage (someRuns status) page), w)
  | GHListWorkflowJobs _ _ _ page => (Val (servePage someJobs page), w)
  | Now => (0, w)
  | Order _ => ([], w)
  | Get _ _ => (Err (newError ""), w)
  | List _ _ => (Err (newError ""), w)
  | Create _ _ => (Err (newError ""), w)
  | Update _ _ => (Err (newError ""), w)
  | Patch _ _ _ => (Err (newError ""), w)
  | StatusPatch _ _ _ => (Err (newError ""), w)
  | Delete _ _ _ => (None, w)
  | SelectorAsSelector _ => (None, w)
  | SetControllerReference _ _ _ => (Val [], w)
  | GHRemoveRunner _ _ => (Err (newError ""), w)
  | GHCreateRegistrationToken _ => (Err (newError ""), w)
  | GHListOrganizationRunnerGroups _ _ => (Err (newError ""), w)
  | GHListRunnerGroupsVisibleToRepo _ => (Err (newError ""), w)
  | GHListRepositoryAccessRunnerGroup _ _ _ => (Err (newError ""), w)
  end.

(** * Witnesses of the theorems *)

Lemma ListRunners_complete_witness :
  exists w' l, run someGitHub (ListRunners 2 "" "org" "") tt = (Done (Val (concat somePages)), w', l).
Proof.
  apply (ListRunners_complete someGitHub "" "org" "" "" "org" "" somePages);
    [reflexivity|reflexivity|discriminate|simpl; lia].
Defined.

(** A token is issued, then served from the cache. *)
Lemma cache_invariant_witness :
  exists l, issuedFor l (getRegistrationKey "org" "" "") (mkToken "tok" 0).
Proof.
  set (rt := mkToken "tok" 0).
  assert (cacheReachable (<[getRegistrationKey "org" "" "" := rt]> ∅)
    ([] ++ [Ev (GHCreateRegistrationToken (SOrg "org")) (Val (rt, 201))])%list) as H.
  { eapply (cache_get ∅ [] "" "org" "" "name"); [apply cache_init|].
    exists (Val (rt, 201)), []. split; [reflexivity|]. split; reflexivity. }
  eexists. apply (cache_invariant _ _ H). apply lookup_insert_eq.
Defined.

(** A running pod whose busy runner is waited for. *)
Definition waitingPod : Pod :=
  annotatePod (annotatePod (aPod "p" PodRunning) AnnotationKeyRunnerID "7")
    AnnotationKeyRunnerCompletionWaitStartTimestamp "2022-05-01T00:00:00Z".

Lemma tick_spares_waiting_runner_witness :
  always (tickRunnerGracefulStop 1 0 "" "org" "" "p" (Some waitingPod))
    (fun out l => storesPods l -> exists res e, out = Done (None, Some res, e)).
Proof.
  eapply always_mono; [|apply (tick_spares_waiting_runner 1 0 "" "org" "" "p" waitingPod)].
  intros out l H Hst. apply (proj2 (H Hst)). split; [vm_compute; reflexivity|].
  split; [eexists; vm_compute; reflexivity|]. split; [vm_compute; reflexivity|vm_compute; discriminate].
Defined.

Lemma mutatePod_injects_witness :
  getRunnerEnv (mutatePod (aPod "p" PodRunning) "secret") EnvVarRunnerToken = "secret".
Proof. apply (mutatePod_injects (aPod "p" PodRunning) "secret"). reflexivity. Defined.

Lemma sync_writes_justified_witness :
  always (syncRunnerPodsOwners (k := KRunner) None 2 (aRunner "new" 0) true [aRunner "a" 1; aRunner "b" 2])
    (fun _ l => Forall (justified (k := KRunner) [aRunner "a" 1; aRunner "b" 2] (aRunner "new" 0) 2 l) l).
Proof. apply (sync_writes_justified (k := KRunner)). Defined.

Lemma getPodsForOwner_partition_witness :
  always (getPodsForOwner (k := KStatefulSet) aStatefulSet) (fun out _ => forall res, out = Done (Val (Some res)) ->
    Z.of_nat (length (pods res))
      = completed res + running res + terminating res + regTimeout res + pending res).
Proof.
  eapply always_mono; [|apply (getPodsForOwner_partition (k := KStatefulSet) aStatefulSet)].
  intros out l H res Hres. destruct (H res Hres) as [Hsum _]. exact Hsum.
Defined.

Lemma sync_returns_witness :
  always (syncRunnerPodsOwners (k := KRunner) None 2 (aRunner "new" 0) true [aRunner "a" 1; aRunner "b" 2])
    (fun out _ => exists r, out = Done r).
Proof.
  apply (sync_returns (k := KRunner)). intros o Ho.
  apply elem_of_cons in Ho as [->|Ho]; [by eexists|]. apply list_elem_of_singleton in Ho as ->. by eexists.
Defined.

Lemma scale_up_exact_witness :
  always (scale (k := KRunner) (aRunner "new" 0) 3 true None None [anOwner "a" 1 1 0])
    (fun out l => creations l <= 2 /\
      (creations l = 2 \/ exists e, out = Done (ScaleError e))).
Proof.
  eapply always_mono; [|apply (scale_up_exact (k := KRunner) (aRunner "new" 0) 3 true None None [anOwner "a" 1 1 0])];
    [|vm_compute; reflexivity].
  intros out l (_ & Hle & H). split; [exact Hle|].
  destruct H as [H|[H|(_ & _ & _ & t & e & now & H & _)]]; [left; exact H|right; exact H|discriminate].
Defined.

Lemma scale_down_exact_witness :
  always (scale (k := KRunner) (aRunner "new" 0) 1 true None None [anOwner "a" 1 1 0; anOwner "b" 2 1 0])
    (fun out l => (exists e, out = Done (ScaleError e)) \/
       out = Done ScaleDone /\ requested l (anOwner "a" 1 1 0)).
Proof.
  eapply always_mono; [|apply (scale_down_exact (k := KRunner) (aRunner "new" 0) 1 true None None
    [anOwner "a" 1 1 0; anOwner "b" 2 1 0]); [vm_compute; discriminate|repeat constructor; vm_compute; discriminate]].
  intros out l [(_ & H & _)|[(_ & _ & H)|(old & new & H & Hsum & _ & Hout)]].
  - vm_compute in H. discriminate.
  - destruct (H [anOwner "a" 1 1 0] [anOwner "b" 2 1 0]); reflexivity.
  - destruct Hout as [[-> Hr]|He]; [|left; exact He]. right. split; [reflexivity|].
    rewrite Forall_forall in Hr. apply Hr. apply elem_of_app. right.
    destruct old as [|x [|y [|]]]; simpl in H; simplify_eq; vm_compute in Hsum; try discriminate.
    apply list_elem_of_here.
Defined.

Lemma scale_stable_witness :
  always (scale (k := KRunner) (aRunner "new" 0) (sumOf running [anOwner "a" 1 2 0]) true None None [anOwner "a" 1 2 0])
    (fun out l => out = Done ScaleDone /\ reads l).
Proof. apply (scale_stable (k := KRunner)). repeat constructor; vm_compute; congruence. Defined.

Lemma MatchSchedule_recurring_witness :
  exists r, NewRRule DAILY 0 0 = Val r /\ occurs r 0.
Proof.
  destruct (@MatchSchedule_recurring anRRule anRRule_laws 5 0 10 "Daily" 0 (Some (mkPeriod 0 10)) None DAILY 1 0 0
    eq_refl ltac:(vm_compute; reflexivity)) as (r & Hr & H & _).
  exists r. split; [exact Hr|]. exact (proj1 H).
Defined.

Lemma MatchSchedule_no_bug_witness :
  exists p, MatchSchedule 5 0 10 {| rr_Frequency := "Daily"; rr_UntilTime := 0 |} = Val p.
Proof.
  apply (@MatchSchedule_no_bug anRRule anRRule_laws 5 0 10 "Daily" 0 DAILY 1 0 0 0); [reflexivity|reflexivity|vm_compute; discriminate|].
  intros t u Ht Hu Hlt. simpl in Ht, Hu. lia.
Defined.

Lemma rd_selector_selects_witness :
  exists sel, rrss_Selector (rrs_Spec (desiredReplicaSet aDeployment [])) = Some sel /\
    ls_MatchLabels sel ⊆ om_Labels (rrs_Meta (desiredReplicaSet aDeployment [])).
Proof.
  destruct (rd_selector_selects aDeployment [] eq_refl) as (sel & H1 & _ & H2 & _). exists sel. split; assumption.
Defined.

(** A rolled-out set [rs-new] next to an old one with a replica. *)
Definition aReference : OwnerReference := mkOwnerRef GroupVersion "RunnerDeployment" "rd" true.

Definition newSet : RunnerReplicaSet :=
  let d := desiredReplicaSet aDeployment [] in
  {| rrs_Meta := {| om_Name := "rs-new"; om_GenerateName := ""; om_Namespace := "default";
       om_Labels := om_Labels (rrs_Meta d); om_Annotations := ∅; om_CreationTimestamp := 20;
       om_DeletionTimestamp := None; om_Finalizers := []; om_OwnerReferences := [aReference] |};
     rrs_Spec := rrs_Spec d;
     rrs_Status := mkRRSStatus (Some 2) (Some 2) (Some 2) |}.

Definition oldSet : RunnerReplicaSet :=
  {| rrs_Meta := aMeta "rs-old" 10; rrs_Spec := rrs_Spec newSet; rrs_Status := mkRRSStatus (Some 1) (Some 1) (Some 1) |}.

Definition aWorld : world :=
  {| w_rd := aDeployment; w_sets := {["rs-new" := newSet; "rs-old" := oldSet]} |}.

Lemma aWorld_sets name rs :
  w_sets aWorld !! name = Some rs -> (name = "rs-new" /\ rs = newSet) \/ (name = "rs-old" /\ rs = oldSet).
Proof.
  unfold aWorld. cbn [w_sets]. intros H. apply lookup_insert_Some in H as [[<- <-]|[_ H]]; [by left|].
  apply lookup_singleton_Some in H as [<- <-]. by right.
Qed.

Lemma rd_rollout_converges_witness :
  exists w1 l1 w2 l2,
    run (serveRRS aReference) (Reconcile [] (mkNN "default" "rd")) aWorld = (Done (Val noResult), w1, l1) /\
    run (serveRRS aReference) (Reconcile [] (mkNN "default" "rd")) (settle w1) = (Done (Val noResult), w2, l2) /\
    w_sets w2 = {["rs-new" := newSet]}.
Proof.
  destruct (rd_rollout_converges aReference [] (mkNN "default" "rd") aWorld newSet)
    as (w1 & l1 & w2 & l2 & Hrun1 & _ & Hrun2 & Hw & _).
  - constructor.
    + reflexivity.
    + intros name rs H. destruct (aWorld_sets _ _ H) as [[-> ->]|[-> ->]]; reflexivity.
    + reflexivity.
    + intros name rs H Hne. destruct (aWorld_sets _ _ H) as [[-> ->]|[-> ->]]; [congruence|reflexivity].
    + split; [reflexivity|]. split; [reflexivity|]. split; [reflexivity|]. vm_compute. discriminate.
  - exists w1, l1, w2, l2. split; [exact Hrun1|]. split; [exact Hrun2|exact Hw].
Defined.

Lemma getMinReplicas_first_active_witness :
  4 = default (specMinReplicas aHRA) (Some 4).
Proof.
  destruct (getMinReplicas_first_active 5 aHRA 4
    (Some (mkOverride (mkScheduledOverride 0 10 (Some 4) (mkRecurrenceRule "" 0)) (mkPeriod 0 10))) None
    eq_refl) as [H _]. exact H.
Defined.

Definition aTarget : scaleTarget :=
  {| st_st := "rd"; st_kind := "runnerdeployment"; st_enterprise := ""; st_repo := ""; st_org := "org";
     st_replicas := Some 1; st_labels := ["gpu"]; st_getRunnerMap := Ret (Val ∅) |}.

Definition aMetric : MetricSpec := mkMetricSpec MetricQueued ["repo"] "" "" "" "" 0 0.

(** One of the two jobs is for a self-hosted runner with the label. *)
Lemma demand_metric_exact_witness :
  exists w' l, run someGitHub (suggestReplicasByQueuedAndInProgressWorkflowRuns 2 aTarget (Some aMetric)) tt
    = (Done (Val (Some 1)), w', l).
Proof.
  apply (demand_metric_exact someGitHub 2 ["gpu"] (fun _ _ => someRuns) (fun _ _ _ => someJobs)
    ltac:(reflexivity) ltac:(reflexivity)
    ltac:(intros; unfold someRuns; destruct (decide _); split; (discriminate || (simpl; lia)))
    ltac:(intros; split; [discriminate|simpl; lia]) aTarget aMetric tt);
    reflexivity || discriminate.
Defined.

Lemma busy_metric_default_witness : desiredByBusy aMetric defaultBusyParams (Some 10) 8 = Some 13.
Proof. apply (busy_metric_default aMetric 10 8); reflexivity || lia. Defined.

Lemma Match_sound_witness : glob "foo*" "foobar".
Proof. apply (Match_sound "foo*" "foobar"); [split; [discriminate|intros q H; discriminate]|reflexivity]. Defined.

Lemma Match_literal_prefix_witness : Match "foo" "foo1" = Done false.
Proof.
  apply (Match_literal_prefix "foo" "foo1");
    [split; [discriminate|intros q H; discriminate]|reflexivity|discriminate].
Defined.

Lemma Add_sorted_witness :
  sortedGroups (Add [newRunnerGroup Organization ""; newRunnerGroup Enterprise "g"] (newRunnerGroup Enterprise "")).
Proof.
  apply (Add_sorted [newRunnerGroup Organization ""; newRunnerGroup Enterprise "g"]).
  repeat constructor; vm_compute; discriminate.
Defined.

(** From time 4, when 1 and 3 replicas are reserved, two jobs are queued and
    one of them completes, at time 6, when the reservation of 3 has expired. *)
Definition hraQueued : HorizontalRunnerAutoscaler :=
  withReservations aHRA [mkReservation "" 100 1 0; mkReservation "" 5 3 0; newReservation 4 50 1].
Definition hraQueued2 : HorizontalRunnerAutoscaler :=
  withReservations hraQueued [mkReservation "" 100 1 0; newReservation 4 50 1; newReservation 5 50 1].
Definition hraCompleted : HorizontalRunnerAutoscaler :=
  withReservations hraQueued2 [newReservation 4 50 1; newReservation 5 50 1].

(** The time that was read, when it was. *)
Definition nowOf (e : event ans) : option time :=
  match ev_req e as q return ans q -> option time with Now => fun a => Some a | _ => fun _ => None end (ev_ans e).

Lemma clockWithin_cons (e : event ans) l t t' :
  clockWithin l t t' -> (forall x, nowOf e = Some x -> t <= x <= t') -> clockWithin (e :: l) t t'.
Proof.
  intros [Ht Hl] He. split; [done|]. intros x Hx. apply elem_of_cons in Hx as [Hx|Hx]; [|by apply Hl].
  apply He. by rewrite <- Hx.
Qed.

Lemma clockWithin_nil t t' : t <= t' -> clockWithin [] t t'.
Proof. intros Ht. split; [done|]. intros x Hx. by apply elem_of_nil in Hx. Qed.

Ltac clock := repeat apply clockWithin_cons; [apply clockWithin_nil; lia|..]; simpl; intros ? [= <-] || intros ? ?; try done; lia.

Lemma someJobsRun : jobsRun 1 50 4 aHRA hraCompleted 1 6.
Proof.
  eapply (jobs_completed _ _ _ _ hraQueued2 _ 2 5 6 None 50 (Done None)
    [EvA Now 6; EvA (Patch KHRA hraCompleted hraQueued2) (Val hraCompleted)] hraCompleted);
    [eapply (jobs_queued _ _ _ _ hraQueued _ 1 4 5 None (Done None)
       [EvA Now 5; EvA Now 5; EvA (Patch KHRA hraQueued2 hraQueued) (Val hraQueued2)] hraQueued2);
       [eapply (jobs_queued _ _ _ _ aHRA _ 0 4 4 None (Done None)
          [EvA Now 4; EvA Now 4; EvA (Patch KHRA hraQueued aHRA) (Val hraQueued)] hraQueued)|..]|..].
  - apply jobs_start.
  - exists 4. eexists. split; [reflexivity|]. exists 4. eexists. split; [reflexivity|].
    exists (Val hraQueued). eexists. split; [reflexivity|]. split; reflexivity.
  - set_solver.
  - reflexivity.
  - clock.
  - exists 5. eexists. split; [reflexivity|]. exists 5. eexists. split; [reflexivity|].
    exists (Val hraQueued2). eexists. split; [reflexivity|]. split; reflexivity.
  - set_solver.
  - reflexivity.
  - clock.
  - lia.
  - exists 6. eexists. split; [reflexivity|].
    exists (Val hraCompleted). eexists. split; [reflexivity|]. split; reflexivity.
  - set_solver.
  - reflexivity.
  - clock.
Qed.

Lemma reservation_roundtrip_witness :
  reservedAt 6 (hras_CapacityReservations (hra_Spec aHRA)) + 1 * 1
    <= reservedAt 6 (hras_CapacityReservations (hra_Spec hraCompleted)) /\ jobsRun 1 50 4 aHRA hraCompleted 1 6.
Proof.
  split; [|exact someJobsRun].
  apply (reservation_roundtrip 1 50 4 aHRA hraCompleted 1 6 6);
    [lia|repeat constructor; vm_compute; congruence|exact someJobsRun|lia].
Defined.

Lemma getScaleTarget_unique_witness :
  always (getScaleTarget "" "org" MatchPushEvent) (fun out l =>
    (exists opts e, l = [EvA (List KHRA opts) (Err e)] /\ out = Done (Err e)) \/
    exists hras,
      ("org" = "" /\ hras = [] /\ l = [] \/
       exists opts, l = [EvA (List KHRA opts) (Val hras)] /\ MatchingFields "scaleTarget" "org" ∈ opts) /\
      (out = Done (Val (match candidates hras (fun t => match sut_GitHubEvent t with
         | Some g => bool_decide (is_Some (ge_Push g)) | None => false end) with [t] => Some t | _ => None end)) \/
       exists m, out = Panicked m /\ panickingTrigger hras MatchPushEvent m)).
Proof. apply (getScaleTarget_unique "" "org" MatchPushEvent). intros t. left. reflexivity. Defined.

(** ** Runner pods *)

Definition somePodDefaults : podDefaults := mkPodDefaults "runner-image" [] "docker-image" "" "https://github.com/".

(** A template whose runner container mounts a volume of its own. *)
Definition aRunnerPod : Pod :=
  let c := {| c_Name := containerName; c_Image := ""; c_ImagePullPolicy := ""; c_Args := [];
              c_Env := [env EnvVarOrg "another"]; c_EnvFrom := []; c_Resources := "";
              c_VolumeMounts := [mount "data" "/data" false]; c_SecurityContext := None; c_rest := "" |} in
  {| pod_Meta := aMeta "" 0;
     pod_Spec := withVolumes (withContainers aPodSpec [aContainer "sidecar"; c]) [mkVolume "data" (OtherVolume "pvc")];
     pod_Status := emptyPodStatus |}.

Definition builtPod : Pod :=
  match newRunnerPod "runner" aRunnerPod aRunnerConfig somePodDefaults false with Val p => p | Err _ => aRunnerPod end.

(** The pod has the template's volume and those for work and for Docker. *)
Lemma newRunnerPod_mounts_closed_witness :
  mountsClosed builtPod /\ map v_Name (ps_Volumes (pod_Spec builtPod)) = ["data"; "runner"; "work"; "certs-client"].
Proof.
  split; [|vm_compute; reflexivity].
  apply (newRunnerPod_mounts_closed "runner" aRunnerPod aRunnerConfig somePodDefaults false).
  unfold mountsClosed, mountsIn. simpl. repeat constructor.
Defined.

Lemma pod_scope_roundtrip_witness :
  scopeOfEnv (runnerEnvVars (mutatePod builtPod "token")) = ("", "org", "").
Proof.
  apply (pod_scope_roundtrip "runner" aRunnerPod aRunnerConfig somePodDefaults false builtPod "token").
  vm_compute. reflexivity.
Defined.

Definition aRunnerSet : RunnerSet :=
  {| rs_Meta := aMeta "runner" 0;
     rs_Spec := {| rss_Config := aRunnerConfig; rss_EffectiveTime := None;
                   rss_StatefulSetSpec :=
                     {| ss_Replicas := Some 2; ss_Selector := None; ss_TemplateMeta := pod_Meta aRunnerPod;
                        ss_TemplateSpec := pod_Spec aRunnerPod; ss_rest := "" |} |};
     rs_Status := mkRunnerSetStatus None None None None None |}.

Lemma statefulset_selector_selects_witness :
  exists sel, ss_Selector (sts_Spec (statefulSetOf aRunnerSet builtPod 0)) = Some sel /\
    ls_MatchLabels sel ⊆ om_Labels (ss_TemplateMeta (sts_Spec (statefulSetOf aRunnerSet builtPod 0))).
Proof.
  destruct (statefulset_selector_selects somePodDefaults aRunnerSet builtPod 0) as (sel & Hs & Hl & _).
  - vm_compute. reflexivity.
  - intros s H. discriminate.
  - exists sel. split; assumption.
Defined.

Lemma validate_exact_witness :
  admitRunner UpdateOp (aRunner "r" 0) = None <-> UpdateOp = DeleteOp \/ oneOwner aRunnerConfig.
Proof. apply (validate_exact aRunnerConfig). reflexivity. Defined.

(** ** Hook deliveries *)

(** A codec for positions as numbers, as far as they fit. *)
#[global] Instance aDeliveryCodec : DeliveryCodec := {|
  ParseRequestPayload := fun _ => None;
  marshalState := fun s =>
    let n := Zpos (encode (st_DeliveredAt s, st_ID s)) in
    if n <? 2 ^ 63 then Val (FormatInt n) else Err (newError "out of range");
  unmarshalState := fun data =>
    match ParseInt data with
    | Some (Zpos p) => match decode p with Some (t, id) => Val (mkState t id) | None => Err (newError "invalid") end
    | _ => Err (newError "invalid")
    end
|}.

Lemma aDeliveryCodec_roundtrip s data : marshalState s = Val data -> unmarshalState data = Val s.
Proof.
  unfold marshalState, unmarshalState, aDeliveryCodec. cbv zeta.
  destruct (Z.ltb_spec (Zpos (encode (st_DeliveredAt s, st_ID s))) (2 ^ 63)) as [Hlt|]; [|discriminate].
  intros H. assert (data = FormatInt (Zpos (encode (st_DeliveredAt s, st_ID s)))) as -> by congruence.
  rewrite ParseInt_FormatInt by lia. rewrite decode_encode. by destruct s.
Qed.

Definition aPosition : State := mkState 5 1.

Lemma poll_forwards_new_witness :
  always (getUnprocessedDeliveries (OrgHooks "org") 1 3 aPosition) (fun out _ =>
    forall payloads pos', out = Done (Val (payloads, pos')) -> posLe aPosition pos').
Proof.
  eapply always_mono; [|apply (poll_forwards_new (OrgHooks "org") 1 3 aPosition); simpl; lia].
  intros out l H payloads pos' ->. apply H.
Defined.

Lemma checkpoint_roundtrip_witness :
  always (cmUpdate (mkConfigMapCheckpointer "forwarder" "default") 1 (Some aPosition)) (fun out _ =>
    forall m, out <> Panicked m).
Proof.
  eapply always_mono; [|apply (checkpoint_roundtrip (mkConfigMapCheckpointer "forwarder" "default") 1 aPosition);
    [apply aDeliveryCodec_roundtrip|discriminate]].
  intros out l H m ->. exact H.
Defined.

Definition aForwarder : Forwarder := mkForwarder "org" "http://target" (mkHook None ∅ [] None "") 0.

Lemma poll_round_witness :
  always (poll aForwarder 3 (OrgHooks "org") 1 (Some aPosition) (mkInMemory 5 0)) (fun out _ =>
    forall cur cp, out = Done (Again cur cp) -> is_Some cur).
Proof.
  eapply always_mono; [|apply (poll_round aForwarder 3 (OrgHooks "org") 1 aPosition (mkInMemory 5 0))].
  intros out l H cur cp ->. destruct H as (pos' & -> & _). by eexists.
Defined.
