(* ===== verification/SystemWitnesses.v ===== *)
(** * Witnesses for the composed system

    Concrete clusters, configurations and runs at which the hypotheses of the
    theorems on several components, on the client and on the processes hold. *)

From stdpp Require Import base list gmap strings pretty.
From Stdlib Require Import ZArith Lia Ascii String.
From S2P Require Import Prelude Api GoStrings GitHubClient RunnerPod PodOwner Hash PodBuilder RunnerController Calendar RunnerDeployment ReplicaSet Autoscaler Webhook Witnesses.
From S2P Require Import Cluster EventScaling Url ClientConfig Servers ForwarderStart Heap DeepCopy.

Open Scope string_scope.
Open Scope Z_scope.

(** ** A replica set of two runners in an empty cluster *)

Definition aCluster : cluster := mkCluster newSet ∅ ∅ 0 0.

Definition theHash : string :=
  default "" (getRunnerTemplateHash (rt_Meta (rrss_Template (rrs_Spec (ensureTemplateHash newSet))))).

Lemma newSet_poolable : poolable newSet theHash.
Proof.
  constructor.
  - reflexivity.
  - vm_compute. reflexivity.
  - vm_compute. discriminate.
  - vm_compute. repeat split.
  - constructor; [reflexivity..|]. eexists. vm_compute. reflexivity.
Defined.

Lemma replica_set_comes_up_witness :
  exists runners w1 l1,
    run (serve aReference (fun _ => 5)) (ReconcileReplicaSet (mkNN "default" "rs-new")) aCluster = (Done (Val noResult), w1, l1) /\
    Z.of_nat (List.length runners) = 2 /\ NoDup (map (fun r => om_Name (r_Meta r)) runners).
Proof.
  destruct (replica_set_comes_up aReference (fun _ => 5) somePodDefaults 0
              ltac:(intros i; unfold Minute, Second; lia) aCluster theHash ∅ (mkNN "default" "rs-new") "default")
    as (runners & w1 & l1 & Hrun & Hlen & Hnd & _).
  - exact newSet_poolable.
  - reflexivity.
  - reflexivity.
  - intros key rt H. by rewrite lookup_empty in H.
  - reflexivity.
  - exists runners, w1, l1. split; [exact Hrun|]. split; [exact Hlen|exact Hnd].
Defined.

(** ** A queued job *)

(** At time 4 a job reserves a replica for 50 nanoseconds; at time 7 one of the
    two earlier reservations has expired. *)
Definition hraScaled : HorizontalRunnerAutoscaler :=
  withReservations aHRA [mkReservation "" 100 1 0; mkReservation "" 5 3 0; newReservation 4 50 1].

Lemma event_raises_replicas_witness :
  exists n, computeReplicasWithCache 1 0 7 aTarget hraScaled 1 = Ret (Val n) /\ 3 <= n.
Proof.
  destruct (event_raises_replicas 1 0 aTarget aHRA None 1 50 hraScaled (Done None)
    [EvA Now 4; EvA Now 4; EvA (Patch KHRA hraScaled aHRA) (Val hraScaled)] (Val hraScaled) 7 1 5 1) as (n & Hn & Hle & _).
  - reflexivity.
  - reflexivity.
  - reflexivity.
  - repeat constructor; vm_compute; congruence.
  - lia.
  - lia.
  - vm_compute. reflexivity.
  - exists 4. eexists. split; [reflexivity|]. exists 4. eexists. split; [reflexivity|].
    exists (Val hraScaled). eexists. split; [reflexivity|]. split; reflexivity.
  - set_solver.
  - intros t Ht. repeat (apply elem_of_cons in Ht as [Ht|Ht]; [try discriminate Ht|]);
      try by apply elem_of_nil in Ht.
    all: apply (f_equal nowOf) in Ht; simpl in Ht; injection Ht as Ht; lia.
  - exists n. split; [exact Hn|]. exact Hle.
Defined.

(** ** A client *)

Definition aURL (host path : string) : URL := mkURL "https" "" None host path "" "".

#[global] Instance someLibs : ClientLibs := {|
  statOK := fun _ => false;
  loadKey := fun _ _ _ => None;
  installationURL := "https://api.github.com";
  defaultBaseURL := aURL "api.github.com" "/";
  defaultUploadURL := aURL "uploads.github.com" "/";
  NewEnterpriseClient := fun _ _ => Val (aURL "ghe.example.com" "/api/v3/", aURL "ghe.example.com" "/api/uploads/")
|}.

#[global] Instance someLibs_laws : ClientLibsLaws.
Proof. constructor; [reflexivity..|]. intros base upload b u [= <- <-]. split; reflexivity. Defined.

Definition aConfig : Config := mkConfig "" 0 0 "" "secret" "https://proxy.example.com/github" "" "" "" "".

Definition aClient : Client :=
  {| BaseURL := aURL "proxy.example.com" "/github/"; UploadBaseURL := aURL "uploads.github.com" "/";
     UserAgent := "actions-runner-controller";
     Transport := Measured (Logged (Cached (Authenticated (TokenTransport "secret")))); regTokens := ∅;
     GithubBaseURL := "https://github.com/" |}.

Lemma NewClient_wellformed_witness :
  NewClient aConfig = Val aClient /\ HasSuffix (u_Path (BaseURL aClient)) "/" = true.
Proof.
  assert (NewClient aConfig = Val aClient) as H by (vm_compute; reflexivity).
  split; [exact H|]. exact (proj1 (NewClient_wellformed aConfig aClient H)).
Defined.

Lemma getEnterpriseApiUrl_stable_witness :
  getEnterpriseApiUrl "https://ghe.example.com/" = Val "https://ghe.example.com/api/v3" /\
  getEnterpriseApiUrl "https://ghe.example.com/api/v3" = Val "https://ghe.example.com/api/v3".
Proof.
  destruct (getEnterpriseApiUrl_stable "https" "ghe.example.com" "/") as (H1 & H2 & _);
    [reflexivity..|discriminate|]. split; [exact H1|exact H2].
Defined.

(** ** A process that is told to stop *)


(** ** Two rules, of which one has ended *)

Definition oneEnded : multiForwarder :=
  mkMulti [(0%nat, Finished); (1%nat, LookingForHook)] [newError "no permission"] None.

Lemma multi_forwarder_returns_witness :
  mreachable [0%nat; 1%nat] oneEnded /\ (List.length (mf_errs oneEnded) < 2)%nat /\ mf_result oneEnded = None.
Proof.
  assert (mreachable [0%nat; 1%nat] oneEnded) as Hr.
  { unfold mreachable. eapply rtc_l; [|apply rtc_refl].
    apply (m_ended 2 (launchRules [0%nat; 1%nat]) 0 0 LookingForHook (newError "no permission")); [done|done|cbn; lia]. }
  split; [exact Hr|]. exact (proj1 (multi_forwarder_returns [0%nat; 1%nat] oneEnded Hr) ltac:(discriminate)).
Defined.

(** ** A status in memory, two of whose fields share a cell *)

#[global] Instance someKube : KubeTypes := {|
  kubeValue := fun k => match k with KObjectMeta => tStruct [("Name", tBasic); ("Labels", tMap tBasic)] | _ => tBasic end;
  kubeCopy := fun k => match k with KObjectMeta => structCopy [("Labels", makeMap)] | _ => assign end
|}.

#[global] Instance someKube_laws : KubeTypesLaws.
Proof.
  constructor; try apply refFree_basic.
  intros []; cbn; try apply assign_deep, refFree_basic.
  apply structCopy_deep; [apply (bool_decide_unpack _); vm_compute; exact I..| |apply (bool_decide_unpack _); vm_compute; exact I].
  repeat (apply Forall_cons; split); simpl; [apply refFree_basic|apply makeMap_deep, refFree_basic|by apply Forall_nil].
Defined.

Definition aStatusFields : list (string * mval) :=
  [("Replicas", VPtr (Some 0%nat)); ("ReadyReplicas", VPtr (Some 0%nat)); ("AvailableReplicas", VPtr None)].
Definition aMemory : heap := [CVal (VBasic (BInt 2)); CVal (VStruct aStatusFields)].
Definition aStatusTree : tree :=
  TPtr (Some (TStruct [("Replicas", TPtr (Some (TBasic (BInt 2)))); ("ReadyReplicas", TPtr (Some (TBasic (BInt 2))));
                       ("AvailableReplicas", TPtr None)])).

Lemma aMemory_repr : repr aMemory 0 (VPtr (Some 1%nat)) aStatusTree.
Proof.
  apply r_ptr with (VStruct aStatusFields); [lia|reflexivity|].
  apply r_struct; [reflexivity|apply (bool_decide_unpack _); vm_compute; exact I|].
  intros f v t Hv Ht. unfold aStatusFields in Hv.
  repeat (apply elem_of_cons in Hv as [Hv|Hv]; [injection Hv as -> ->|]); try by apply elem_of_nil in Hv.
  all: repeat (apply elem_of_cons in Ht as [Ht|Ht]; [try discriminate Ht; injection Ht as ->|]); try by apply elem_of_nil in Ht.
  all: first [apply r_nil | apply r_ptr with (VBasic (BInt 2)); [lia|reflexivity|apply r_basic]].
Defined.

Lemma DeepCopy_independent_witness :
  exists v' h', RunnerReplicaSetStatus_DeepCopy (VPtr (Some 1%nat)) aMemory = Some (v', h') /\
    repr h' 2 v' aStatusTree /\ forall l x, (2 <= l)%nat -> repr (<[l := x]> h') 0 (VPtr (Some 1%nat)) aStatusTree.
Proof.
  destruct (DeepCopy_independent RunnerReplicaSetStatusT RunnerReplicaSetStatus_DeepCopy aMemory (VPtr (Some 1%nat)) aStatusTree)
    as (v' & h' & Hrun & _ & Hc & _ & Hw & _).
  - unfold apiTypes. repeat first [apply list_elem_of_here | apply list_elem_of_further].
  - exact aMemory_repr.
  - repeat constructor.
  - exists v', h'. split; [exact Hrun|]. split; [exact Hc|exact Hw].
Defined.
