(* ===== verification/JobWitnesses.v ===== *)
(** * Witnesses for the concurrent system

    A run in which a runner pod is guarded, registers and takes a job. *)

From stdpp Require Import base list gmap strings relations.
From Stdlib Require Import ZArith Lia.
From S2P Require Import Prelude Api GoStrings GitHubClient RunnerPod GracefulStop Hash PodBuilder.
From S2P Require Import RunnerPodController Admission Calendar Schedule Webhook Witnesses Interleaving.
From S2P Require Import JobSafety.

Open Scope string_scope.
Open Scope Z_scope.
Open Scope list_scope.

#[global] Instance aPodCodec : PodCodec := {|
  decodePod := fun _ => Val aRunnerPod;
  marshalPod := fun _ => Val "{}"
|}.

#[global] Instance someHooks : GitHubHooks := {|
  ValidatePayload := fun _ _ => Val "{}";
  ReadBody := fun _ => Val "{}";
  WebHookType := fun _ => "ping";
  ParseWebHook := fun _ _ => Val PingEvent;
  enterpriseSlugOf := fun _ => ""
|}.

Definition podKey : NamespacedName := {| nn_Namespace := "default"; nn_Name := "runner" |}.

(** The pod of the runner "runner", as created and with the finalizer. *)
Definition freshPod : Pod :=
  withPodMeta builtPod (withLabels (aMeta "runner" 0) (om_Labels (pod_Meta builtPod))).
Definition guardedPod : Pod := withPodFinalizers freshPod [runnerPodFinalizerName].

Definition theRunner : runnerKey := (SOrg "org", 1).

Definition busyPlatform : platform :=
  assign theRunner "runner" true (register "runner" theRunner
    (store "runner" guardedPod (create "runner" freshPod emptyPlatform))).

Abbreviation steps := (rtc (step platformWorld (started 1))).

(** One exchange of the only reconciliation under way. *)
Lemma exchange {A} (p : M A) l q (k : ans q -> M A) a w w' :
  p = Ask q k -> answers w q a w' ->
  step platformWorld (started 1) ([Thread l p], w) ([Thread (l ++ [EvA q a]) (k a)], w').
Proof. intros -> H. by apply (step_ask _ _ [] []). Qed.

(** The reconciliation of the fresh pod adds the finalizer. *)
Lemma guards_fresh_pod : exists k k',
  ReconcilePod 1 0 podKey = Ask (Get KPod podKey) k /\
  k (Val freshPod) = Ask (Patch KPod guardedPod freshPod) k'.
Proof. eexists _, _. split; [reflexivity|]. vm_compute. reflexivity. Qed.

Lemma busy_run : steps ([], emptyPlatform) ([], busyPlatform).
Proof.
  destruct guards_fresh_pod as (k & k' & Hk & Hk').
  eapply rtc_l; [by apply step_others, (hp_created _ "runner" freshPod)|].
  eapply rtc_l; [apply step_start, (st_pod 1 0 podKey)|].
  eapply rtc_l; [apply (exchange _ _ _ k (Val freshPod) _ (create "runner" freshPod emptyPlatform) Hk)|].
  { simpl. split; [done|]. intros p [= <-]. vm_compute. constructor. }
  eapply rtc_l; [apply (exchange _ _ _ k' (Val guardedPod) _ (store "runner" guardedPod (create "runner" freshPod emptyPlatform)) Hk')|].
  { simpl. exists freshPod. split; [reflexivity|]. split; [|reflexivity]. unfold patched. split_and!; done. }
  eapply rtc_l; [apply (step_end _ _ [])|].
  eapply rtc_l; [apply step_others, (hp_registered _ "runner" guardedPod (SOrg "org") 1); try done|].
  eapply rtc_l; [apply step_others, (hp_assigned _ theRunner "runner" false true); reflexivity|].
  apply rtc_refl.
Qed.

Lemma registered_runner_keeps_pod_witness :
  registered busyPlatform !! theRunner = Some ("runner", true) /\
  exists h, current busyPlatform "runner" = Some h /\ protected h = true.
Proof.
  split; [reflexivity|].
  assert (history busyPlatform "runner" = [guardedPod; freshPod]) as Hh by reflexivity.
  apply (registered_runner_keeps_pod 1 ([], busyPlatform) busy_run
    "runner" theRunner true) with (v := guardedPod).
  - split; [apply not_elem_of_empty|]. exists freshPod. simpl. rewrite Hh. done.
  - reflexivity.
  - intros y Hy. change (<[theRunner := "runner"]> (∅ : gmap runnerKey string) !! y = Some "runner") in Hy.
    apply lookup_insert_Some in Hy as [[<- _]|[_ Hy]]; [reflexivity|]. by rewrite lookup_empty in Hy.
  - apply not_elem_of_empty.
  - simpl. rewrite Hh. intros v Hv. rewrite elem_of_cons, list_elem_of_singleton in Hv. destruct Hv as [-> | ->]; by vm_compute.
  - simpl. rewrite Hh. intros v Hv Hl. rewrite elem_of_cons, list_elem_of_singleton in Hv. by destruct Hv as [-> | ->].
  - simpl. rewrite Hh. constructor.
  - reflexivity.
Defined.

(** ** What the recorded ID is good for *)

(** Someone deletes the pod of the busy runner before its ID is recorded, and
    the listing is out of a cache from before the runner registered. *)
Definition deletedPod : Pod :=
  withPodMeta guardedPod
    (let m := pod_Meta guardedPod in
     {| om_Name := om_Name m; om_GenerateName := om_GenerateName m; om_Namespace := om_Namespace m;
        om_Labels := om_Labels m; om_Annotations := om_Annotations m;
        om_CreationTimestamp := om_CreationTimestamp m; om_DeletionTimestamp := Some 3;
        om_Finalizers := om_Finalizers m; om_OwnerReferences := om_OwnerReferences m |}).

Definition startedPod : Pod := annotatePod deletedPod AnnotationKeyUnregistrationStartTimestamp (FormatRFC3339 5).
Definition completePod : Pod := annotatePod startedPod AnnotationKeyUnregistrationCompleteTimestamp (FormatRFC3339 5).
Definition releasedPod : Pod := withPodFinalizers completePod [].

Definition releasedPlatform : platform :=
  store "runner" releasedPod (store "runner" completePod (store "runner" startedPod (store "runner" deletedPod busyPlatform))).

(** A patch of the current version is stored as it was sent. *)
Lemma stored_patch w o base :
  current w (podName o) = Some base -> podName o = podName base -> pod_Spec o = pod_Spec base -> pod_Status o = pod_Status base ->
  om_DeletionTimestamp (pod_Meta o) = om_DeletionTimestamp (pod_Meta base) ->
  answers w (Patch KPod o base) (Val o) (store (podName o) o w).
Proof.
  intros Hc Hn Hs Ht Hd. simpl. exists base. split; [done|]. split; [|done]. unfold patched. split_and!; [done..| |].
  - by case_decide.
  - intros k. by case_decide.
Qed.

(** The next question of a program. *)
Ltac whead := match goal with |- ?p = _ => let p' := eval hnf in p in transitivity p'; reflexivity end.

(** Without a recorded ID a cached listing costs a job: the controller takes
    the finalizer from the pod of a runner that is busy. *)
Theorem cached_listing_releases_busy_runner :
  steps ([], emptyPlatform) ([], releasedPlatform) /\
  registered releasedPlatform !! theRunner = Some ("runner", true) /\
  protected deletedPod = true /\
  exists h, current releasedPlatform "runner" = Some h /\ om_Finalizers (pod_Meta h) = [].
Proof.
  split; [|split_and!; [done..|by exists releasedPod]].
  etrans; [exact busy_run|].
  eapply rtc_l; [apply step_others, (hp_edited _ "runner" guardedPod deletedPod); [reflexivity|by repeat split]|].
  eapply rtc_l; [apply step_start, (st_pod 1 0 podKey)|].
  eapply rtc_l; [eapply (exchange _ _ (Get KPod podKey) _ (Val deletedPod)); [whead|]|].
  { simpl. split; [done|]. intros p [= <-]. vm_compute. constructor. }
  eapply rtc_l; [eapply (exchange _ _ Now _ 5); [whead|reflexivity]|].
  eapply rtc_l; [eapply (exchange _ _ (Patch KPod startedPod deletedPod) _ (Val startedPod)); [whead|by eapply stored_patch]|].
  eapply rtc_l; [eapply (exchange _ _ (GHListRunners (SOrg "org") 0) _ (Val ([], 0))); [whead|]|].
  { simpl. split; [done|]. intros rs next [= <- _] r id Hr. by apply not_elem_of_nil in Hr. }
  eapply rtc_l; [eapply (exchange _ _ Now _ 5); [whead|reflexivity]|].
  eapply rtc_l; [eapply (exchange _ _ (Patch KPod completePod startedPod) _ (Val completePod)); [whead|by eapply stored_patch]|].
  eapply rtc_l; [eapply (exchange _ _ (Patch KPod releasedPod deletedPod) _ (Val releasedPod)); [whead|]|].
  { simpl. exists completePod. split; [reflexivity|]. split; [|reflexivity]. unfold patched. split_and!; [done..| |].
    - by case_decide.
    - intros k. by case_decide. }
  eapply rtc_l; [apply (step_end _ _ [])|]. apply rtc_refl.
Qed.
