(* ===== verification/DrainWitnesses.v ===== *)
(** * Witnesses for the retirement of a runner

    A replica set scaled to zero with one idle runner. *)

From stdpp Require Import base list gmap strings.
From Stdlib Require Import ZArith Lia.
From S2P Require Import Prelude Api GoStrings GitHubClient Hash RunnerPod GracefulStop PodOwner PodBuilder.
From S2P Require Import RunnerPodController RunnerController Calendar RunnerDeployment ReplicaSet Witnesses.
From S2P Require Import Drain.

Open Scope string_scope.
Open Scope Z_scope.

Definition scaledToZero : RunnerReplicaSet :=
  {| rrs_Meta := rrs_Meta newSet; rrs_Spec := withRRSReplicas (rrs_Spec newSet) (Some 0) None; rrs_Status := rrs_Status newSet |}.

Definition zeroHash : string :=
  default "" (getRunnerTemplateHash (rt_Meta (rrss_Template (rrs_Spec (ensureTemplateHash scaledToZero))))).

Definition idleRunner : Runner :=
  {| r_Meta := withFinalizers (withLabels (aMeta "r" 0) {[LabelKeyRunnerTemplateHash := zeroHash]}) [finalizerName];
     r_Spec := r_Spec (aRunner "r" 0);
     r_Status := {| rst_Ready := false; rst_Registration := rst_Registration emptyRunnerStatus; rst_Phase := PodRunning;
                    rst_Reason := ""; rst_Message := ""; rst_LastRegistrationCheckTime := None |} |}.

Definition idlePod : Pod :=
  {| pod_Meta := withFinalizers (withAnnotations (withLabels (aMeta "r" 0) (om_Labels (pod_Meta builtPod)))
                   {[AnnotationKeyRunnerID := "7"]}) [runnerPodFinalizerName];
     pod_Spec := pod_Spec builtPod;
     pod_Status := pod_Status (aPod "r" PodRunning) |}.

Lemma scaledToZero_unwanted : unwanted scaledToZero zeroHash.
Proof. constructor; [reflexivity|reflexivity|vm_compute; reflexivity|vm_compute; discriminate]. Defined.

Lemma idle_ok : idle idleRunner idlePod (SOrg "org") 7 zeroHash.
Proof.
  constructor; try (vm_compute; reflexivity).
  - vm_compute. by eexists.
  - vm_compute. discriminate.
  - vm_compute. split; [discriminate|reflexivity].
Defined.

Definition aStation : station :=
  mkStation scaledToZero (Some idleRunner) (Some idlePod) (Some (SOrg "org", mkGHRunner (Some 7) "r" "online" false)) 0.

Lemma idle_runner_retires_witness :
  exists w', play aReference (fun _ => 5) somePodDefaults 1 0 scaledToZero idleRunner
      (concat (repeat [GarbageCollector; RunnerControllerActor; PodController; SetController] 7)) aStation = Some w' /\
    sn_registered w' = None /\ sn_runner w' = None /\ sn_pod w' = None.
Proof.
  destruct (idle_runner_retires aReference (fun _ => 5) somePodDefaults 1 0 ltac:(done) scaledToZero idleRunner idlePod (SOrg "org") 7
    zeroHash scaledToZero_unwanted idle_ok aStation (repeat [GarbageCollector; RunnerControllerActor; PodController; SetController] 7))
    as (w' & Hplay & Hg & Hr & Hp & _); try reflexivity.
  - apply Forall_forall. intros round Hr a. apply list_elem_of_In, repeat_spec in Hr as ->. destruct a; set_solver.
  - exists w'. split; [exact Hplay|]. split; [exact Hg|]. split; [exact Hr|exact Hp].
Defined.
