(* ===== verification/FleetWitnesses.v ===== *)
(** * Witnesses for the demand of queued jobs

    An idle fleet of a repository that is told of two queued jobs. *)

From stdpp Require Import base list gmap strings.
From Stdlib Require Import ZArith Lia.
From S2P Require Import Prelude Api GoStrings GitHubClient Hash RunnerPod PodOwner PodBuilder RunnerController Calendar.
From S2P Require Import RunnerDeployment ReplicaSet Schedule Autoscaler Cluster Webhook Fleet Witnesses.

Open Scope string_scope.
Open Scope Z_scope.
Open Scope list_scope.

(** GitHub tells of a job for a GPU in org/repo. *)
Definition gpuJob : webhookEvent :=
  WorkflowJobEvent "queued" (Some (mkEventJob ["self-hosted"; "gpu"] "")) (Some (mkEventRepo (Some "repo") "org" "Organization")).

#[local] Instance jobHooks : GitHubHooks := {|
  ValidatePayload := fun _ _ => Val "{}";
  ReadBody := fun _ => Val "{}";
  WebHookType := fun _ => "workflow_job";
  ParseWebHook := fun _ _ => Val gpuJob;
  enterpriseSlugOf := fun _ => ""
|}.

Definition repoConfig : RunnerConfig :=
  {| rc_Enterprise := ""; rc_Organization := ""; rc_Repository := "org/repo"; rc_Labels := ["gpu"]; rc_Group := "";
     rc_Ephemeral := None; rc_Image := ""; rc_WorkDir := ""; rc_DockerdWithinRunnerContainer := None;
     rc_DockerEnabled := None; rc_DockerMTU := None; rc_DockerRegistryMirror := None;
     rc_VolumeSizeLimit := None; rc_VolumeStorageMedium := None |}.

Definition idleDeployment : RunnerDeployment :=
  {| rd_Meta := aMeta "rd" 0;
     rd_Spec := {| rds_Replicas := Some 0; rds_EffectiveTime := None; rds_Selector := None;
                   rds_Template := {| rt_Meta := emptyMeta; rt_Spec := {| rsp_Config := repoConfig; rsp_Pod := aRunnerPodSpec |} |} |};
     rd_Status := mkRDStatus None None None None None |}.

Definition idleSet : RunnerReplicaSet :=
  let desired := desiredReplicaSet idleDeployment [] in
  {| rrs_Meta := {| om_Name := "rs"; om_GenerateName := ""; om_Namespace := "default";
       om_Labels := om_Labels (rrs_Meta desired); om_Annotations := ∅; om_CreationTimestamp := 20;
       om_DeletionTimestamp := None; om_Finalizers := []; om_OwnerReferences := [aReference] |};
     rrs_Spec := rrs_Spec desired;
     rrs_Status := mkRRSStatus (Some 0) (Some 0) (Some 0) |}.

(** Scales between none and five runners, an hour for each queued job. *)
Definition idleHRA : HorizontalRunnerAutoscaler :=
  {| hra_Meta := aMeta "hra" 0;
     hra_Spec := {| hras_ScaleTargetRef := mkScaleTargetRef "" "rd"; hras_MinReplicas := Some 0;
                    hras_MaxReplicas := Some 5; hras_ScaleDownDelaySecondsAfterScaleUp := None;
                    hras_Metrics := [];
                    hras_ScaleUpTriggers :=
                      [mkScaleUpTrigger (Some (mkGitHubEventTrigger None None None (Some mkWorkflowJobSpec))) 1 (60 * Minute)];
                    hras_CapacityReservations := []; hras_ScheduledOverrides := [] |};
     hra_Status := mkHRAStatus 0 (Some 0) None [] None |}.

Definition aFleet : fleet := mkFleet idleHRA idleDeployment (mkCluster idleSet ∅ ∅ 0 0).

Definition idleHash : string :=
  default "" (getRunnerTemplateHash (rt_Meta (rrss_Template (rrs_Spec (ensureTemplateHash idleSet))))).

Lemma aFleet_idle : idleFleet [] aFleet idleHash 5.
Proof.
  constructor; try reflexivity.
  - apply list_elem_of_here.
  - eexists. split; reflexivity.
  - split; reflexivity.
  - split; reflexivity.
  - split; [reflexivity|]. split; [reflexivity|]. vm_compute. discriminate.
  - split; [|reflexivity]. constructor.
    + reflexivity.
    + vm_compute. reflexivity.
    + vm_compute. discriminate.
    + vm_compute. repeat split.
    + constructor; [reflexivity..|]. eexists. vm_compute. reflexivity.
  - split; vm_compute; reflexivity.
  - split; reflexivity.
Defined.

Definition jobDelivery : HTTPRequest := mkRequest "POST" ∅ "{}".

Lemma jobDelivery_queued : queuedJob "" (fl_rd aFleet) jobDelivery.
Proof.
  constructor; [discriminate|]. exists "{}". do 2 eexists. split; [reflexivity|]. split; [reflexivity|].
  split; vm_compute; reflexivity.
Defined.

Lemma queued_jobs_get_runners_witness :
  exists w1 w2 w3 w4 runners l2 l3 l4,
    deliver aReference (fun _ => 5) 1 "" None "" [jobDelivery; jobDelivery] aFleet = Some w1 /\
    run (serveFleet aReference (fun _ => 5)) (ReconcileHRA 1 0 (mkNN "default" "hra")) w1 = (Done (Val noResult), w2, l2) /\
    run (serveFleet aReference (fun _ => 5)) (Reconcile [] (mkNN "default" "rd")) w2 = (Done (Val noResult), w3, l3) /\
    run (serveFleet aReference (fun _ => 5)) (ReconcileReplicaSet (mkNN "default" "rs")) w3 = (Done (Val noResult), w4, l4) /\
    Z.of_nat (length runners) = 2 /\ NoDup (map (fun r => om_Name (r_Meta r)) runners).
Proof.
  destruct (queued_jobs_get_runners aReference (fun _ => 5) somePodDefaults 0 1 "" None "" 0 []
    ltac:(intros i; unfold Minute, Second; lia) aFleet idleHash 5 [jobDelivery; jobDelivery] ∅
    (mkNN "default" "hra") (mkNN "default" "rd") (mkNN "default" "rs"))
    as (w1 & w2 & w3 & w4 & runners & l2 & l3 & l4 & H1 & H2 & H3 & H4 & Hlen & Hnd & _).
  - exact aFleet_idle.
  - apply Forall_cons_2; [exact jobDelivery_queued|]. apply Forall_cons_2; [exact jobDelivery_queued|apply Forall_nil_2].
  - discriminate.
  - vm_compute. reflexivity.
  - intros key rt H. by rewrite lookup_empty in H.
  - reflexivity.
  - reflexivity.
  - exists w1, w2, w3, w4, runners, l2, l3, l4. split_and!; [exact H1|exact H2|exact H3|exact H4|exact Hlen|exact Hnd].
Defined.
